(* ===== verification/_CoqProject ===== *)
-Q . S2P
Prelude.v
PyText.v
PyCodec.v
Sha2.v
PyJson.v
PyJsonParse.v
PyJsonCut.v
World.v
Config.v
OutputFiles.v
OutputCollect.v
OutputTree.v
Crypto.v
Interfaces.v
Cbor.v
LocalAttestation.v
KeyPairManager.v
DecryptService.v
Server.v
RawExchange.v
RequestHandler.v
ResponseTypes.v
TestClient.v
Programs.v
Threads.v
Attestation.v
TdxAttestation.v
TdQuoteHelper.v
Bundle.v
ExecuteService.v
BundleTurns.v
RepoTests.v
Kms.v
Factory.v
Lifecycle.v
Overlap.v
Isolation.v
EndToEnd.v
Connections.v
Listener.v
