(* ===== verification/Prelude.v ===== *)
(** * The Epsilon enclave

    This development models the Python program under src/: an enclave that
    hands out RSA session keys, decrypts a researcher's code bundle and a data
    set with them, runs the code once under limits, and attests what ran and
    what came out.  Every definition follows the code it is named after.

    ** How the program is put together, and where each part is

    - [PyText], [PyCodec], [Sha2], [PyJson], [PyJsonParse]: what the code uses of
      Python and its standard library: strings as lists of code points, UTF-8,
      Base64, hexadecimal, [struct], SHA-256 and SHA-512, [repr], [json.dumps]
      in the styles the code asks for, and [json.loads].
    - [PyJsonCut]: no proper beginning of a printed object parses.
    - [World]: the state of the process ([world]: the sessions, the monitored
      executions, temporary directories, files, the readings of clock and
      randomness used up, and the trace of what left the process) and [IO], the
      computations over it, with their frame, progress and outcome rules.
    - [Config]: config.py.  [Settings] gives the settings to the other files.
    - [Crypto]: the cryptography package as a parameter, with its laws.
    - [Interfaces]: interfaces/*.py as classes, and the laws that clients of
      the key manager and of an attestation service rely on.
    - [KeyPairManager]: implementations/keypair_manager_impl.py.
    - [DecryptService]: implementations/decrypt_service_impl.py.
    - [OutputFiles], [OutputCollect], [OutputTree]:
      implementations/output_files.py, and the theorems on the collection.
    - [Bundle], [ExecuteService]: implementations/execute_service_impl.py.
    - [Cbor], [LocalAttestation], [Attestation], [TdxAttestation]:
      implementations/local_attestation_service.py,
      attestation_service_impl.py and tdx_attestation_service_impl.py.
    - [TdQuoteHelper]: the Go program tdx/tdquote/main.go, and the TDX backend
      on top of it.
    - [Kms]: implementations/kms_attestation_impl.py.
    - [RequestHandler]: implementations/request_handler_impl.py, against the
      interfaces only; [ResponseTypes]: the types of its responses.
    - [Server]: the client threads of server/server.py; [RawExchange]: their
      requests without a length prefix.
    - [TestClient]: scripts/test-client.py and scripts/local-test-server.py.
    - [Programs], [Threads], [BundleTurns]: programs of threads, cut where another
      thread may come in: the handler at its calls of the services, and the run
      of a bundle at its system calls.
    - [Factory]: factory.py and main.create_kms_attestation: the stack wired
      together, and what its parts guarantee jointly.
    - [Lifecycle]: the wired stack as a step relation, and its refinement of the
      machine of one session.
    - [Overlap], [Isolation]: the threads of the clients, taking turns in any
      order; [EndToEnd]: what the attested execution of such a thread shows.
    - [Connections]: client threads from their socket to its closing, each with a
      connection of its own, taking turns.
    - [Listener]: server.start, server/tcp_server.py, main.py and main_tdx.py.
    - [RepoTests]: the assertions of the tests under tests/, run on the model.

    A request arrives at a client thread ([Server.handle_client]), is parsed,
    validated and dispatched by the handler ([RequestHandler.handle_request]),
    which calls the services of its interfaces in the order of the source; their
    implementations are class instances, so [Factory] composes the definitions
    by instantiating the classes.  The state of the service objects is the part
    of [world] that their files read and write.

    ** How effects are modelled

    A Python exception is [Raise], with its class and its message; a raise keeps
    the mutations made before it.  [try], [except] and [finally] are [st_try] and
    [st_finally].  The clock and the random sources are sequences ([Env]) of
    which each reading takes the next value, so no theorem depends on which
    values they are.  Processes, devices and helper programs leave an event in
    the trace and answer from a parameter that sees the position in the trace.
    Files that other processes change between two calls are a family of views
    indexed by the call ([OutputFiles]).

    ** What the theorems show

    - End to end ([EndToEnd.overlapping_nitro_end_to_end]): what a verifier may
      conclude from the attestation of an execution, whatever other threads do
      in the meantime ([Factory.nitro_execution_end_to_end] is the statement for
      one request by itself).  It rests on the handler's
      binding ([RequestHandler.attested_execution_binding]), the execution
      ([ExecuteService.execute_bundle_success]) and the attestation service
      ([Attestation.nitro_execution_attestation], [execution_proof_readable]).
    - Session keys: well-formedness as an invariant of all methods, what each
      look-up answers, and that deleted and expired keys are gone under every
      schedule of the critical sections ([KeyPairManager]); that a run destroys
      its key ([Lifecycle.execution_destroys_key]); and the refinement of
      [Lifecycle.session_step], from which a session runs one script at most,
      up to the clients of a server ([Listener.server_runs_sessions_once]).
      The refinement is for requests served one after the other;
      [Lifecycle.overlapping_requests_run_twice] shows that it fails for
      requests that overlap.  [Overlap] shows what holds for those: one script
      for a thread at most, none for a thread that arrives when the session is
      past, and an answer after a fixed number of turns; [Isolation], that an
      attested response stands for a run of its own bundle in a directory of its
      own although others run in the meantime, by following a thread through
      what the others may do.  The scripts share one user, so their processes
      are not kept apart: a step of a schedule ([Overlap.Meddle]) puts anything
      in the place of a directory that has been handed to that user.  [Overlap]
      and [Lifecycle] assume that the 32 random bits of the session
      ids drawn in the run did not repeat ([Lifecycle.fresh_ids]).
    - Confinement: extraction within its limits and below its directory, also
      when it stops half-way ([Bundle]); scripts and changes of ownership for
      the script user only when the enclave is root, and nothing left behind
      but what cannot be removed ([ExecuteService]); the collection of output
      files against interference between any two system calls, its limits, its
      descriptors, and its exactness on a tree at rest ([OutputTree]); the name
      rule and the canonical manifest ([OutputFiles]).
    - Confidentiality of what is decrypted: authenticity and the round trip of
      the combined payload ([DecryptService]).
    - Requests and connections: every request is answered, with an object of the
      type of its operation ([ResponseTypes]), and every client of a server with
      overlapping clients gets one answer and a closed connection after a fixed
      number of turns ([Connections]); the validation, what the two
      attestation operations vouch for, framing, bounds, one answer per
      connection ([RequestHandler], [Server]); the exchange with a client that
      sends raw JSON ([RawExchange], [TestClient]).
    - The other attestation paths: the TDX commitment and quote
      ([TdxAttestation]), down to the device's quote of the canonical proof
      ([TdQuoteHelper]), that an execution on TDX is never answered with success
      ([Factory.tdx_execution_never_answers]), local documents
      ([LocalAttestation]), and data keys from KMS ([Kms]).

    Every theorem with a hypothesis has a witness on concrete parts (the modules
    named [Toy...]).

    ** Fuel and bounds

    The reading loops of [Server] run on the size of the input that is left plus
    one, which every iteration consumes; a buffered read on the number of bytes
    it asks for; the directory walk of [OutputFiles] on the number of nodes,
    which [OutputTree.collect_output_files_exact] shows to be enough for a tree
    at rest.  The code has no bound on a walk through directories that a script
    keeps making, so an execution takes the end of the walk after
    [outputs_steps] steps as a hypothesis ([Interpreter.outputs_end]), which
    rules the exhausted fuel out ([ExecuteService.settled]).  The JSON reader runs on the length of its text, enough for
    every text it writes ([PyJsonParse]).  Integers are unbounded as in Python;
    the widths that the code fixes ([struct], [to_bytes], the NSM message) are
    those of the code, with their errors.

    ** Parameters

    Code outside src/ is a field of a class: the cryptography package
    ([RsaKeys], [Ciphers], [X509], [ClientCiphers]), [cbor2] ([Cbor]), the NSM device ([Nsm]), the
    run of the tdquote helper ([TdQuote], made from [QuoteDevice], its
    go-tdx-guest client, in [TdQuoteHelper]), kmstool ([KmsTool]), the archive decoder and the
    file system around the process ([Machine]), Python's own parser, the
    credentials of the process and the scripts ([Interpreter]), the listening
    socket ([Network]).

    ** Not modelled

    Logging and printing, and the set-up of logging in the main modules; the
    package files, which have no logic of the enclave; memory limits and
    time-outs of running scripts beyond the exception they end in; the
    permission bits of files.  The loop of the cleanup thread
    ([KeyPairManager._cleanup_loop]) is modelled by itself; in the schedules of
    [Lifecycle] and [Overlap] its rounds happen at any time.  The calls
    that remove a directory, extract an archive, collect the output files or
    write the local certificates may fail at any point; other writes of files
    succeed.  When requests overlap, a call of a service other than
    [execute_bundle] is one turn, in which no other thread runs: for the session
    keys this is what the lock of the key manager provides.  So is a system call
    of [execute_bundle]; the run of a process is one, and what it prints and
    leaves behind is a parameter, with what processes do to the directory while
    it is collected.  The change of ownership of a whole directory is one step; from then on
    its content is up to the processes of the script user.  When the enclave is not root,
    scripts run under its own user; what they could then do to the enclave and
    to each other is not modelled. *)
From stdpp Require Import base tactics list gmap sorting strings.
From Stdlib Require Import NArith ZArith Lia.

(** ** Results: a Python computation returns a value or raises *)

Inductive result (X A : Type) : Type :=
  | Ok (a : A)
  | Raise (e : X).
Arguments Ok {X A} a.
Arguments Raise {X A} e.

#[export] Instance Ok_inj X A : Inj (=) (=) (@Ok X A).
Proof. by intros a b [= ->]. Qed.

Definition is_ok {X A} (r : result X A) : bool :=
  match r with Ok _ => true | Raise _ => false end.

Definition result_bind {X A B} (f : A -> result X B) (r : result X A) : result X B :=
  match r with Ok a => f a | Raise e => Raise e end.

Definition result_map {X A B} (f : A -> B) (r : result X A) : result X B :=
  match r with Ok a => Ok (f a) | Raise e => Raise e end.

#[export] Instance result_mret X : MRet (result X) := fun A a => Ok a.
#[export] Instance result_mbind X : MBind (result X) := fun A B f r => result_bind f r.
#[export] Instance result_fmap X : FMap (result X) := fun A B f r => result_map f r.

Lemma result_bind_ok {X A B} (f : A -> result X B) (r : result X A) (b : B) :
  (r ≫= f) = Ok b -> exists a, r = Ok a /\ f a = Ok b.
Proof. destruct r as [a|e]; cbn; [eauto|discriminate]. Qed.

(** ** Stateful computations that may raise

    [ST X S A] reads and writes a state [S]; a raise keeps the state reached so
    far, as a Python exception keeps the mutations made before it. *)

Definition ST (X S A : Type) : Type := S -> result X A * S.

Definition st_ret {X S A} (a : A) : ST X S A := fun s => (Ok a, s).
Definition st_raise {X S A} (e : X) : ST X S A := fun s => (Raise e, s).
Definition st_bind {X S A B} (f : A -> ST X S B) (m : ST X S A) : ST X S B :=
  fun s => match m s with
           | (Ok a, s') => f a s'
           | (Raise e, s') => (Raise e, s')
           end.
Definition st_get {X S} : ST X S S := fun s => (Ok s, s).
Definition st_gets {X S A} (f : S -> A) : ST X S A := fun s => (Ok (f s), s).
Definition st_modify {X S} (f : S -> S) : ST X S unit := fun s => (Ok tt, f s).
Definition st_lift {X S A} (r : result X A) : ST X S A := fun s => (r, s).

(** [try m except e -> h e]. *)
Definition st_try {X S A} (m : ST X S A) (h : X -> ST X S A) : ST X S A :=
  fun s => match m s with
           | (Ok a, s') => (Ok a, s')
           | (Raise e, s') => h e s'
           end.

(** [try m finally f]: the outcome is the one of [m], unless [f] raises. *)
Definition st_finally {X S A} (m : ST X S A) (f : ST X S unit) : ST X S A :=
  fun s => match m s with
           | (r, s') => match f s' with
                        | (Ok _, s'') => (r, s'')
                        | (Raise e, s'') => (Raise e, s'')
                        end
           end.

Class MonadRaise (X : Type) (M : Type -> Type) := mraise : forall {A}, X -> M A.

#[export] Instance st_mret X S : MRet (ST X S) := fun A a => st_ret a.
#[export] Instance st_mbind X S : MBind (ST X S) := fun A B f m => st_bind f m.
#[export] Instance st_mraise X S : MonadRaise X (ST X S) := fun A e => st_raise e.
#[export] Instance result_mraise X : MonadRaise X (result X) := fun A e => Raise e.

Fixpoint st_mapM {X S A B} (f : A -> ST X S B) (l : list A) : ST X S (list B) :=
  match l with
  | [] => st_ret []
  | a :: l => st_bind (fun b => st_bind (fun bs => st_ret (b :: bs)) (st_mapM f l)) (f a)
  end.

(** ** Running *)

Section Run.
Context {X S : Type}.
Implicit Types s : S.

Lemma run_bind {A B} (m : ST X S A) (f : A -> ST X S B) s :
  (m ≫= f) s = match m s with (Ok a, s') => f a s' | (Raise e, s') => (Raise e, s') end.
Proof. done. Qed.
Lemma run_ret {A} (a : A) s : (mret a : ST X S A) s = (Ok a, s).
Proof. done. Qed.
Lemma run_raise {A} (e : X) s : (mraise e : ST X S A) s = (Raise e, s).
Proof. done. Qed.
Lemma run_gets {A} (f : S -> A) s : (st_gets f : ST X S A) s = (Ok (f s), s).
Proof. done. Qed.
Lemma run_modify (f : S -> S) s : (st_modify f : ST X S unit) s = (Ok tt, f s).
Proof. done. Qed.
Lemma run_lift {A} (r : result X A) s : st_lift r s = (r, s).
Proof. done. Qed.
Lemma run_try {A} (m : ST X S A) h s :
  st_try m h s = match m s with (Ok a, s') => (Ok a, s') | (Raise e, s') => h e s' end.
Proof. done. Qed.
Lemma run_finally {A} (m : ST X S A) f s :
  st_finally m f s = match m s with
                     | (r, s') => match f s' with
                                  | (Ok _, s'') => (r, s'')
                                  | (Raise e, s'') => (Raise e, s'')
                                  end
                     end.
Proof. done. Qed.
End Run.

Create HintDb run.
#[export] Hint Rewrite @run_bind @run_ret @run_raise @run_gets @run_modify @run_lift @run_try
  @run_finally : run.

(** Arithmetic with quotients and remainders by constants. *)
Ltac dlia := zify; Z.to_euclidean_division_equations; lia.

(** Evaluate a computation as far as its equations go. *)
Ltac st_run := repeat (progress (autorewrite with run; cbn beta iota zeta)).

(** ** Postconditions

    [st_wp m Q s]: running [m] from [s] ends in an outcome and state in [Q]. *)

Definition st_wp {X S A} (m : ST X S A) (Q : result X A -> S -> Prop) (s : S) : Prop :=
  Q (m s).1 (m s).2.

Section Wp.
Context {X S : Type}.
Implicit Types s : S.

Lemma wp_ret {A} (a : A) (Q : result X A -> S -> Prop) s :
  Q (Ok a) s -> st_wp (st_ret a) Q s.
Proof. done. Qed.

Lemma wp_raise {A} (e : X) (Q : result X A -> S -> Prop) s :
  Q (Raise e) s -> st_wp (st_raise e) Q s.
Proof. done. Qed.

Lemma wp_bind {A B} (m : ST X S A) (f : A -> ST X S B) (Q : result X B -> S -> Prop) s :
  st_wp m (fun r s' => match r with
                       | Ok a => st_wp (f a) Q s'
                       | Raise e => Q (Raise e) s'
                       end) s ->
  st_wp (st_bind f m) Q s.
Proof. unfold st_wp, st_bind. by destruct (m s) as [[a|e] s']. Qed.

Lemma wp_get (Q : result X S -> S -> Prop) s : Q (Ok s) s -> st_wp st_get Q s.
Proof. done. Qed.

Lemma wp_gets {A} (f : S -> A) (Q : result X A -> S -> Prop) s :
  Q (Ok (f s)) s -> st_wp (st_gets f) Q s.
Proof. done. Qed.

Lemma wp_modify (f : S -> S) (Q : result X unit -> S -> Prop) s :
  Q (Ok tt) (f s) -> st_wp (st_modify f) Q s.
Proof. done. Qed.

Lemma wp_lift {A} (r : result X A) (Q : result X A -> S -> Prop) s :
  Q r s -> st_wp (st_lift r) Q s.
Proof. done. Qed.

Lemma wp_try {A} (m : ST X S A) (h : X -> ST X S A) (Q : result X A -> S -> Prop) s :
  st_wp m (fun r s' => match r with
                       | Ok a => Q (Ok a) s'
                       | Raise e => st_wp (h e) Q s'
                       end) s ->
  st_wp (st_try m h) Q s.
Proof. unfold st_wp, st_try. by destruct (m s) as [[a|e] s']. Qed.

Lemma wp_finally {A} (m : ST X S A) (f : ST X S unit) (Q : result X A -> S -> Prop) s :
  st_wp m (fun r s' => st_wp f (fun r' s'' => match r' with
                                              | Ok _ => Q r s''
                                              | Raise e => Q (Raise e) s''
                                              end) s') s ->
  st_wp (st_finally m f) Q s.
Proof.
  unfold st_wp, st_finally. destruct (m s) as [r s']; cbn.
  by destruct (f s') as [[[]|e] s''].
Qed.

Lemma wp_mono {A} (m : ST X S A) (P Q : result X A -> S -> Prop) s :
  st_wp m P s -> (forall r s', P r s' -> Q r s') -> st_wp m Q s.
Proof. unfold st_wp. eauto. Qed.

Lemma wp_run {A} (m : ST X S A) (Q : result X A -> S -> Prop) s r s' :
  st_wp m Q s -> m s = (r, s') -> Q r s'.
Proof. unfold st_wp. intros HQ Hm. by rewrite Hm in HQ. Qed.

Lemma wp_intro {A} (m : ST X S A) (Q : result X A -> S -> Prop) s :
  (forall r s', m s = (r, s') -> Q r s') -> st_wp m Q s.
Proof. unfold st_wp. destruct (m s) as [r s'] eqn:Hm. eauto. Qed.
End Wp.

(** ** Lists up to order *)

#[export] Instance forallb_perm {A} (P : A -> bool) : Proper ((≡ₚ) ==> (=)) (forallb P).
Proof.
  induction 1 as [|x l1 l2 _ IH|x y l|l1 l2 l3 _ IH1 _ IH2]; cbn; [done|by rewrite IH| |congruence].
  by rewrite !andb_assoc, (andb_comm (P y)).
Qed.

Lemma Sorted_weaken {A} (R R' : A -> A -> Prop) l :
  (forall x y, R x y -> R' x y) -> Sorted R l -> Sorted R' l.
Proof.
  intros H. induction 1 as [|x l _ IH Hhd]; constructor; [done|]. destruct Hhd; constructor. auto.
Qed.

(** ** Python's [sorted(l, key=...)]: a stable sort by a boolean order on keys *)

Section SortBy.
Context {A K : Type} (leb : K -> K -> bool) (key : A -> K).

Fixpoint insert_by (x : A) (l : list A) : list A :=
  match l with
  | [] => [x]
  | y :: l' => if leb (key x) (key y) then x :: l else y :: insert_by x l'
  end.

Definition sorted_by (l : list A) : list A := foldr insert_by [] l.

Definition key_le (x y : A) : Prop := leb (key x) (key y) = true.

Lemma insert_by_perm x l : insert_by x l ≡ₚ x :: l.
Proof.
  induction l as [|y l IH]; cbn; [done|].
  destruct (leb _ _); [done|]. rewrite IH. constructor.
Qed.

Lemma sorted_by_perm l : sorted_by l ≡ₚ l.
Proof. induction l as [|x l IH]; cbn; [done|]. by rewrite insert_by_perm, IH. Qed.

Lemma length_sorted_by l : length (sorted_by l) = length l.
Proof. by rewrite sorted_by_perm. Qed.

Lemma elem_of_sorted_by (x : A) (l : list A) : x ∈ sorted_by l <-> x ∈ l.
Proof. by rewrite sorted_by_perm. Qed.

Lemma insert_by_sorted_head x l : Sorted key_le (x :: l) -> insert_by x l = x :: l.
Proof.
  intros H. destruct l as [|y l]; cbn; [done|].
  inv H as [|?? _ Hhd]. inv Hhd as [|?? Hle]. unfold key_le in Hle. by rewrite Hle.
Qed.

Lemma sorted_by_id l : Sorted key_le l -> sorted_by l = l.
Proof.
  induction l as [|x l IH]; [done|]. intros H. inv H as [|?? Hl Hhd].
  change (sorted_by (x :: l)) with (insert_by x (sorted_by l)).
  rewrite IH by done. apply insert_by_sorted_head. by constructor.
Qed.

Context (leb_total : forall a b, leb a b = false -> leb b a = true).

Lemma insert_by_sorted x l : Sorted key_le l -> Sorted key_le (insert_by x l).
Proof.
  induction l as [|y l IH]; cbn; intros H; [by repeat constructor|].
  destruct (leb _ _) eqn:E; [by constructor; [|constructor]|].
  inv H as [|?? Hl Hhd]. constructor; [auto|].
  destruct l as [|z l]; cbn; [constructor; by apply leb_total|].
  inv Hhd. destruct (leb (key x) (key z)); constructor; [by apply leb_total|done].
Qed.

Lemma sorted_by_sorted l : Sorted key_le (sorted_by l).
Proof. induction l as [|x l IH]; cbn; [constructor|]. by apply insert_by_sorted. Qed.

Context (leb_trans : forall a b c, leb a b = true -> leb b c = true -> leb a c = true).

#[local] Instance key_le_trans : Transitive key_le.
Proof. intros a b c. apply leb_trans. Qed.

Lemma sorted_by_strongly_sorted l : StronglySorted key_le (sorted_by l).
Proof. apply Sorted_StronglySorted; [apply _|apply sorted_by_sorted]. Qed.

Context (leb_antisym : forall a b, leb a b = true -> leb b a = true -> a = b).

(** The result depends only on the multiset sorted when the keys tell the
    elements apart. *)
Lemma sorted_by_perm_eq l1 l2 :
  l1 ≡ₚ l2 ->
  (forall x y, x ∈ l1 -> y ∈ l1 -> key x = key y -> x = y) ->
  sorted_by l1 = sorted_by l2.
Proof.
  intros Hp Hinj. apply (StronglySorted_unique_strong key_le).
  - intros x1 x2 H1 H2 Ha Hb. rewrite elem_of_sorted_by in H1, H2.
    rewrite <-Hp in H2. apply Hinj; [done..|]. by apply leb_antisym.
  - apply sorted_by_strongly_sorted.
  - apply sorted_by_strongly_sorted.
  - by rewrite !sorted_by_perm.
Qed.
End SortBy.

Lemma insert_by_map {A B K} (leb : K -> K -> bool) (key : B -> K) (f : A -> B) x l :
  insert_by leb key (f x) (f <$> l) = f <$> insert_by leb (fun a => key (f a)) x l.
Proof.
  induction l as [|y l IH]; cbn; [done|]. destruct (leb _ _); cbn; [done|]. by rewrite <-IH.
Qed.

Lemma sorted_by_map {A B K} (leb : K -> K -> bool) (key : B -> K) (f : A -> B) l :
  sorted_by leb key (f <$> l) = f <$> sorted_by leb (fun a => key (f a)) l.
Proof.
  induction l as [|x l IH]; [done|]. unfold sorted_by in *. rewrite fmap_cons. cbn [foldr].
  by rewrite IH, insert_by_map.
Qed.

(** ** Automation *)

Create HintDb enclave.
#[export] Hint Resolve wp_ret wp_raise wp_get wp_gets wp_modify wp_lift : enclave.

(** One step of a computation under [st_wp]. *)
Ltac wp_step :=
  lazymatch goal with
  | |- st_wp (st_ret _) _ _ => apply wp_ret
  | |- st_wp (mret _) _ _ => apply wp_ret
  | |- st_wp (st_raise _) _ _ => apply wp_raise
  | |- st_wp (mraise _) _ _ => apply wp_raise
  | |- st_wp (st_bind _ _) _ _ => apply wp_bind
  | |- st_wp (mbind _ _) _ _ => apply wp_bind
  | |- st_wp st_get _ _ => apply wp_get
  | |- st_wp (st_gets _) _ _ => apply wp_gets
  | |- st_wp (st_modify _) _ _ => apply wp_modify
  | |- st_wp (st_lift _) _ _ => apply wp_lift
  | |- st_wp (st_try _ _) _ _ => apply wp_try
  | |- st_wp (st_finally _ _) _ _ => apply wp_finally
  | |- st_wp (if ?b then _ else _) _ _ => destruct b eqn:?
  | |- st_wp (match ?x with _ => _ end) _ _ => destruct x eqn:?
  end; cbn beta iota.
Ltac wp_steps := repeat wp_step.
