(* ===== verification/PyText.v ===== *)
(** * Python's [str] and [bytes]

    A [str] is its list of code points, a [bytes] its list of bytes.  The file
    holds what the enclave uses of them: UTF-8 ([str.encode], [bytes.decode]),
    hexadecimal ([bytes.hex], [bytes.fromhex]), Base64 ([base64.b64encode],
    [base64.b64decode]), big-endian integers ([int.to_bytes], [int.from_bytes],
    [struct.pack('!I')]), decimal integers, and the splitting and comparison of
    strings. *)
From stdpp Require Import base tactics list gmap strings.
From Stdlib Require Import NArith ZArith Lia.
From Stdlib Require Strings.Byte.
From S2P Require Import Prelude.

Definition str : Type := list N.
Abbreviation byte := Byte.byte (only parsing).
Definition bytes : Type := list Byte.byte.

#[export] Instance byte_eq_dec : EqDecision Byte.byte := Byte.byte_eq_dec.
#[export] Instance bytes_eq_dec : EqDecision bytes := list_eq_dec.
#[export] Instance str_eq_dec : EqDecision str := list_eq_dec.
#[export] Instance str_countable : Countable str := list_countable.

(** ** Literals *)

Declare Scope str_scope.
Delimit Scope str_scope with str.
Bind Scope str_scope with str.

Module Literal.
Inductive chars := Lnil | Lcons (c : N) (l : chars).

Fixpoint parse (l : list Byte.byte) : chars :=
  match l with
  | [] => Lnil
  | b :: l => Lcons (Byte.to_N b) (parse l)
  end.

Fixpoint print (s : chars) : option (list Byte.byte) :=
  match s with
  | Lnil => Some []
  | Lcons c s => match Byte.of_N c, print s with
                 | Some b, Some l => Some (b :: l)
                 | _, _ => None
                 end
  end.
End Literal.

#[warnings="-via-type-remapping,-via-type-mismatch"]
String Notation str Literal.parse Literal.print
  (via Literal.chars mapping [[nil] => Literal.Lnil, [cons] => Literal.Lcons]) : str_scope.
#[global] Open Scope str_scope.

(** ** Bytes and numbers *)

Definition N_of_byte (b : byte) : N := Byte.to_N b.
Definition byte_of_N (n : N) : byte := default Byte.x00 (Byte.of_N (n mod 256)).

Definition bytes_of_Ns (l : list N) : bytes := map byte_of_N l.
Definition Ns_of_bytes (l : bytes) : list N := map N_of_byte l.

(** An ASCII literal as bytes, the [b'...'] of the source. *)
Definition ascii_bytes (s : str) : bytes := bytes_of_Ns s.

Lemma N_of_byte_lt b : (N_of_byte b < 256)%N.
Proof. unfold N_of_byte. pose proof (Byte.to_N_bounded b). lia. Qed.

Lemma N_of_byte_of_N n : N_of_byte (byte_of_N n) = (n mod 256)%N.
Proof.
  unfold N_of_byte, byte_of_N. pose proof (N.mod_lt n 256 ltac:(done)) as H.
  destruct (Byte.of_N (n mod 256)) as [b|] eqn:E; cbn.
  - by apply Byte.to_of_N in E.
  - apply Byte.of_N_None_iff in E. lia.
Qed.

Lemma N_of_byte_of_N_small n : (n < 256)%N -> N_of_byte (byte_of_N n) = n.
Proof. intros. rewrite N_of_byte_of_N. by apply N.mod_small. Qed.

Lemma byte_of_N_of_byte b : byte_of_N (N_of_byte b) = b.
Proof.
  unfold byte_of_N. rewrite N.mod_small by apply N_of_byte_lt.
  unfold N_of_byte. by rewrite Byte.of_to_N.
Qed.

Lemma Ns_of_bytes_of_Ns l : Forall (fun n => (n < 256)%N) l -> Ns_of_bytes (bytes_of_Ns l) = l.
Proof.
  induction 1 as [|n l Hn _ IH]; cbn; [done|]. rewrite N_of_byte_of_N_small by done. by f_equal.
Qed.

Lemma bytes_of_Ns_of_bytes l : bytes_of_Ns (Ns_of_bytes l) = l.
Proof.
  unfold bytes_of_Ns, Ns_of_bytes.
  induction l as [|b l IH]; cbn; [done|]. by rewrite byte_of_N_of_byte, IH.
Qed.

Lemma Ns_of_bytes_lt l : Forall (fun n => (n < 256)%N) (Ns_of_bytes l).
Proof. induction l; cbn; constructor; [apply N_of_byte_lt|done]. Qed.

#[export] Instance N_of_byte_inj : Inj eq eq N_of_byte.
Proof. intros a b H. rewrite <-(byte_of_N_of_byte a), <-(byte_of_N_of_byte b). by f_equal. Qed.

#[export] Hint Rewrite N_of_byte_of_N byte_of_N_of_byte bytes_of_Ns_of_bytes : enclave.
#[export] Hint Resolve N_of_byte_lt Ns_of_bytes_lt : enclave.

(** [str] slices and comparisons. *)

Fixpoint str_leb (a b : str) : bool :=
  match a, b with
  | [], _ => true
  | _ :: _, [] => false
  | x :: a, y :: b => (x <? y)%N || ((x =? y)%N && str_leb a b)
  end.

Definition str_eqb (a b : str) : bool := bool_decide (a = b).

Lemma str_leb_refl a : str_leb a a = true.
Proof. induction a as [|x a IH]; cbn; [done|]. rewrite N.eqb_refl, IH. by destruct (x <? x)%N. Qed.

Lemma str_leb_total a b : str_leb a b = false -> str_leb b a = true.
Proof.
  revert b. induction a as [|x a IH]; intros [|y b]; cbn; try done.
  destruct (N.ltb_spec x y), (N.eqb_spec x y), (N.ltb_spec y x), (N.eqb_spec y x);
    cbn; try lia; auto; done.
Qed.

Lemma str_leb_trans a b c : str_leb a b = true -> str_leb b c = true -> str_leb a c = true.
Proof.
  revert b c. induction a as [|x a IH]; intros [|y b] [|z c]; cbn; try done.
  destruct (N.ltb_spec x y), (N.eqb_spec x y), (N.ltb_spec y z), (N.eqb_spec y z),
    (N.ltb_spec x z), (N.eqb_spec x z); cbn; try lia; eauto; done.
Qed.

Lemma str_leb_antisym a b : str_leb a b = true -> str_leb b a = true -> a = b.
Proof.
  revert b. induction a as [|x a IH]; intros [|y b]; cbn; try done.
  destruct (N.ltb_spec x y), (N.eqb_spec x y), (N.ltb_spec y x), (N.eqb_spec y x);
    cbn; try lia; try done. intros. f_equal; auto.
Qed.

Fixpoint starts_with (p s : str) : bool :=
  match p, s with
  | [], _ => true
  | _ :: _, [] => false
  | x :: p, y :: s => (x =? y)%N && starts_with p s
  end.

Definition ends_with (p s : str) : bool := starts_with (reverse p) (reverse s).

Lemma starts_with_spec p s : starts_with p s = true <-> exists t, s = p ++ t.
Proof.
  revert s. induction p as [|x p IH]; intros s; cbn; [naive_solver|].
  destruct s as [|y s]; [naive_solver|].
  rewrite andb_true_iff, N.eqb_eq, IH. naive_solver.
Qed.

Lemma starts_with_app p s : starts_with p (p ++ s) = true.
Proof. apply starts_with_spec. eauto. Qed.

(** [s.split(c)]: the fields between the separators, at least one. *)
Fixpoint str_split (c : N) (s : str) : list str :=
  match s with
  | [] => [[]]
  | x :: s' => if (x =? c)%N then [] :: str_split c s'
               else match str_split c s' with
                    | [] => [[x]]
                    | f :: fs => (x :: f) :: fs
                    end
  end.

(** [c.join(fields)]. *)
Fixpoint str_join (c : str) (fs : list str) : str :=
  match fs with
  | [] => []
  | [f] => f
  | f :: fs => f ++ c ++ str_join c fs
  end.

Lemma str_split_nonempty c s : str_split c s <> [].
Proof. destruct s as [|x s]; cbn; [done|]. by destruct (x =? c)%N, (str_split c s). Qed.

Lemma str_join_split c s : str_join [c] (str_split c s) = s.
Proof.
  induction s as [|x s IH]; cbn; [done|].
  destruct (N.eqb_spec x c) as [->|Hx].
  - destruct (str_split c s) eqn:E; [by destruct (str_split_nonempty c s)|]. by rewrite <-IH.
  - destruct (str_split c s) as [|f [|g fs]] eqn:E;
      [by destruct (str_split_nonempty c s)| |]; cbn in *; by rewrite <-IH.
Qed.

Lemma str_split_no_sep c s : Forall (fun f => c ∉ f) (str_split c s).
Proof.
  induction s as [|x s IH]; cbn; [constructor; [set_solver|done]|].
  destruct (N.eqb_spec x c) as [->|Hx]; [constructor; [set_solver|done]|].
  destruct IH; [constructor; set_solver|constructor; [set_solver|done]].
Qed.

Lemma str_split_field c f : c ∉ f -> str_split c f = [f].
Proof.
  induction f as [|x f IH]; cbn; intros H; [done|].
  destruct (N.eqb_spec x c) as [->|Hx]; [set_solver|]. rewrite IH by set_solver. done.
Qed.

Lemma str_split_app c f s : c ∉ f -> str_split c (f ++ c :: s) = f :: str_split c s.
Proof.
  induction f as [|x f IH]; cbn; intros H; [by rewrite N.eqb_refl|].
  destruct (N.eqb_spec x c) as [->|Hx]; [set_solver|]. rewrite IH by set_solver. done.
Qed.

Lemma str_split_join c fs :
  fs <> [] -> Forall (fun f => c ∉ f) fs -> str_split c (str_join [c] fs) = fs.
Proof.
  intros Hne Hf. induction Hf as [|f fs Hc Hf IH]; [done|].
  destruct fs as [|g fs]; [by apply str_split_field|].
  change (str_join [c] (f :: g :: fs)) with (f ++ [c] ++ str_join [c] (g :: fs)).
  cbn [app]. rewrite str_split_app by done. f_equal. by apply IH.
Qed.

(** [s.lower()] on ASCII; other code points are left as they are. *)
Definition lower_char (c : N) : N := if ((65 <=? c) && (c <=? 90))%N then (c + 32)%N else c.
Definition str_lower (s : str) : str := map lower_char s.

(** The white space [str.strip()] removes, on ASCII. *)
Definition is_space (c : N) : bool := ((9 <=? c) && (c <=? 13) || (28 <=? c) && (c <=? 32))%N.
Fixpoint lstrip (s : str) : str :=
  match s with
  | c :: s' => if is_space c then lstrip s' else s
  | [] => []
  end.
Definition str_strip (s : str) : str := reverse (lstrip (reverse (lstrip s))).

(** ** [os.path] *)

Definition slash : N := 47.

(** [p[:p.rfind('/') + 1]] and [p[p.rfind('/') + 1:]]. *)
Fixpoint path_split (p : str) : str * str :=
  match p with
  | [] => ([], [])
  | c :: p => let '(h, t) := path_split p in
              match h with
              | [] => if (c =? slash)%N then ([c], t) else ([], c :: t)
              | _ => (c :: h, t)
              end
  end.

Fixpoint lstrip_char (c : N) (s : str) : str :=
  match s with
  | x :: s' => if (x =? c)%N then lstrip_char c s' else s
  | [] => []
  end.

Definition path_basename (p : str) : str := (path_split p).2.

Definition path_dirname (p : str) : str :=
  let h := (path_split p).1 in
  if forallb (N.eqb slash) h then h else reverse (lstrip_char slash (reverse h)).

Definition path_join (a b : str) : str :=
  if starts_with [slash] b then b
  else match a with
       | [] => b
       | _ => if ends_with [slash] a then a ++ b else a ++ slash :: b
       end.
