(* ===== verification/PyCodec.v ===== *)
(** * Exceptions and byte codecs of the Python runtime

    UTF-8, hexadecimal, Base64 and big-endian integers as CPython implements
    them, with the exceptions they raise, and their round trips. *)
From stdpp Require Import base tactics list gmap strings.
From Stdlib Require Import NArith ZArith Lia.
From S2P Require Import Prelude PyText.

(** ** Exceptions *)

Inductive exn_class : Type :=
  | KeyError | TypeError | ValueError | AttributeError | OverflowError | RuntimeError
  | UnicodeEncodeError | UnicodeDecodeError | JSONDecodeError | BinasciiError | StructError
  | SyntaxError | OSError | SocketTimeout | TimeoutExpired | SubprocessError | BadZipFile
  | InvalidTag            (* cryptography.exceptions *)
  | ThirdParty            (* any other exception of a third-party package *)
  | NSMError | OutputFilesError.  (* raised by src/ itself *)

#[export] Instance exn_class_eq_dec : EqDecision exn_class.
Proof. solve_decision. Defined.

(** [exn_msg] is [str(e)]. *)
Record exn : Type := Exn { exn_cls : exn_class; exn_msg : str }.

#[export] Instance exn_eq_dec : EqDecision exn.
Proof. solve_decision. Defined.

(** The classes an [except OSError] clause catches. *)
Definition is_OSError (e : exn) : bool :=
  match exn_cls e with OSError | SocketTimeout => true | _ => false end.

Abbreviation res := (result exn) (only parsing).
Abbreviation raise := (mraise (X := exn)) (only parsing).

(** ** Decimal integers: [str(n)] *)

Fixpoint digits_of_uint (d : Decimal.uint) : str :=
  match d with
  | Decimal.Nil => []
  | Decimal.D0 d => 48%N :: digits_of_uint d
  | Decimal.D1 d => 49%N :: digits_of_uint d
  | Decimal.D2 d => 50%N :: digits_of_uint d
  | Decimal.D3 d => 51%N :: digits_of_uint d
  | Decimal.D4 d => 52%N :: digits_of_uint d
  | Decimal.D5 d => 53%N :: digits_of_uint d
  | Decimal.D6 d => 54%N :: digits_of_uint d
  | Decimal.D7 d => 55%N :: digits_of_uint d
  | Decimal.D8 d => 56%N :: digits_of_uint d
  | Decimal.D9 d => 57%N :: digits_of_uint d
  end.

Definition str_of_N (n : N) : str := digits_of_uint (N.to_uint n).
Definition str_of_Z (z : Z) : str :=
  match z with
  | Zneg p => 45%N :: str_of_N (Npos p)
  | _ => str_of_N (Z.to_N z)
  end.
Definition str_of_nat (n : nat) : str := str_of_N (N.of_nat n).

(** ** UTF-8 *)

Definition is_surrogate (c : N) : bool := ((0xD800 <=? c) && (c <? 0xE000))%N.
Definition valid_char (c : N) : bool := (c <? 0x110000)%N && negb (is_surrogate c).

Definition utf8_char (c : N) : list N :=
  (if c <? 0x80 then [c]
   else if c <? 0x800 then [0xC0 + c / 64; 0x80 + c mod 64]
   else if c <? 0x10000 then [0xE0 + c / 4096; 0x80 + (c / 64) mod 64; 0x80 + c mod 64]
   else [0xF0 + c / 262144; 0x80 + (c / 4096) mod 64; 0x80 + (c / 64) mod 64; 0x80 + c mod 64])%N.

Fixpoint utf8_Ns (s : str) : list N :=
  match s with
  | [] => []
  | c :: s => utf8_char c ++ utf8_Ns s
  end.

(** [s.encode('utf-8')]: a lone surrogate has no encoding. *)
Definition str_encode (s : str) : res bytes :=
  if forallb valid_char s then Ok (bytes_of_Ns (utf8_Ns s))
  else raise (Exn UnicodeEncodeError "'utf-8' codec can't encode: surrogates not allowed").

Definition is_cont (b : N) : bool := ((0x80 <=? b) && (b <? 0xC0))%N.

Fixpoint utf8_decode_Ns (l : list N) : option str :=
  match l with
  | [] => Some []
  | b0 :: l1 =>
      if (b0 <? 0x80)%N then (b0 ::.) <$> utf8_decode_Ns l1
      else match l1 with
      | [] => None
      | b1 :: l2 =>
          if negb (is_cont b1) then None
          else if ((0xC2 <=? b0) && (b0 <? 0xE0))%N then
            ((((b0 - 0xC0) * 64 + (b1 - 0x80))%N) ::.) <$> utf8_decode_Ns l2
          else match l2 with
          | [] => None
          | b2 :: l3 =>
              if negb (is_cont b2) then None
              else if ((0xE0 <=? b0) && (b0 <? 0xF0))%N then
                let c := ((b0 - 0xE0) * 4096 + (b1 - 0x80) * 64 + (b2 - 0x80))%N in
                if (c <? 0x800)%N || is_surrogate c then None else (c ::.) <$> utf8_decode_Ns l3
              else match l3 with
              | [] => None
              | b3 :: l4 =>
                  if negb (is_cont b3) then None
                  else if ((0xF0 <=? b0) && (b0 <? 0xF5))%N then
                    let c := ((b0 - 0xF0) * 262144 + (b1 - 0x80) * 4096
                              + (b2 - 0x80) * 64 + (b3 - 0x80))%N in
                    if (c <? 0x10000)%N || (0x110000 <=? c)%N then None
                    else (c ::.) <$> utf8_decode_Ns l4
                  else None
              end
          end
      end
  end.

(** [b.decode('utf-8')], strict. *)
Definition bytes_decode (b : bytes) : res str :=
  match utf8_decode_Ns (Ns_of_bytes b) with
  | Some s => Ok s
  | None => raise (Exn UnicodeDecodeError "'utf-8' codec can't decode: invalid data")
  end.

(** The first character, with the bytes it takes. *)
Definition utf8_first (l : list N) : option (N * nat) :=
  list_find (fun k => is_Some (utf8_decode_Ns (take k l))) [1; 2; 3; 4] ≫= fun '(_, k) =>
  head (default [] (utf8_decode_Ns (take k l))) ≫= fun c => Some (c, k).

(** The bytes of an ill-formed sequence that one U+FFFD replaces: the longest
    start of a well-formed one, or one byte. *)
Definition bad_prefix (l : list N) : nat :=
  match l with
  | b0 :: b1 :: l =>
      let second lo hi := ((lo <=? b1) && (b1 <? hi))%N in
      let ok3 := ((b0 =? 0xE0) && second 0xA0 0xC0 || (b0 =? 0xED) && second 0x80 0xA0
                  || (0xE1 <=? b0) && (b0 <? 0xF0) && negb (b0 =? 0xED) && second 0x80 0xC0)%N in
      let ok4 := ((b0 =? 0xF0) && second 0x90 0xC0 || (b0 =? 0xF4) && second 0x80 0x90
                  || (0xF1 <=? b0) && (b0 <? 0xF4) && second 0x80 0xC0)%N in
      if ok3 then 2
      else if ok4 then match l with b2 :: _ => if is_cont b2 then 3 else 2 | [] => 2 end
      else 1
  | _ => 1
  end.

Fixpoint utf8_replace (fuel : nat) (l : list N) : str :=
  match fuel, l with
  | O, _ | _, [] => []
  | S fuel, _ => match utf8_first l with
                 | Some (c, k) => c :: utf8_replace fuel (drop k l)
                 | None => 0xFFFD%N :: utf8_replace fuel (drop (bad_prefix l) l)
                 end
  end.

(** [b.decode(errors='replace')]: every step takes a byte. *)
Definition bytes_decode_replace (b : bytes) : str := utf8_replace (length b) (Ns_of_bytes b).

Example decode_replace_examples :
  map bytes_decode_replace [ascii_bytes "ok"; bytes_of_Ns [0x61; 0xE2; 0x82; 0x62]; bytes_of_Ns [0xFF; 0xC3; 0xA9];
                            bytes_of_Ns [0xED; 0xA0; 0x80]]%N
  = ["ok" : str; [0x61; 0xFFFD; 0x62]; [0xFFFD; 0xE9]; [0xFFFD; 0xFFFD; 0xFFFD]]%N.
Proof. vm_compute. reflexivity. Qed.

(** Decide the byte-range tests of a goal, each by arithmetic. *)
#[local] Ltac range_tests :=
  repeat match goal with
    | |- context [(?a <? ?b)%N] =>
        first [rewrite (proj2 (N.ltb_lt a b)) by dlia | rewrite (proj2 (N.ltb_ge a b)) by dlia]
    | |- context [(?a <=? ?b)%N] =>
        first [rewrite (proj2 (N.leb_le a b)) by dlia | rewrite (proj2 (N.leb_gt a b)) by dlia]
    end.

Lemma utf8_char_lt c : valid_char c = true -> Forall (fun n => (n < 256)%N) (utf8_char c).
Proof.
  unfold valid_char, utf8_char. rewrite andb_true_iff, N.ltb_lt. intros [Hc _].
  destruct (N.ltb_spec c 0x80), (N.ltb_spec c 0x800), (N.ltb_spec c 0x10000);
    rewrite ?Forall_cons; repeat split; try apply Forall_nil_2; dlia.
Qed.

Lemma utf8_decode_char c l :
  valid_char c = true -> utf8_decode_Ns (utf8_char c ++ l) = (c ::.) <$> utf8_decode_Ns l.
Proof.
  unfold valid_char. rewrite andb_true_iff, negb_true_iff, N.ltb_lt.
  intros [Hc Hs]. unfold utf8_char.
  destruct (N.ltb_spec c 0x80); [|destruct (N.ltb_spec c 0x800); [|destruct (N.ltb_spec c 0x10000)]];
    cbn [app utf8_decode_Ns]; unfold is_cont.
  - range_tests. done.
  - range_tests. cbn [andb negb]. f_equal. f_equal. dlia.
  - range_tests. cbn [andb negb].
    replace ((0xE0 + c / 4096 - 0xE0) * 4096 + (0x80 + (c / 64) mod 64 - 0x80) * 64
             + (0x80 + c mod 64 - 0x80))%N with c by dlia.
    cbn zeta. rewrite Hs. range_tests. done.
  - range_tests. cbn [andb negb].
    replace ((0xF0 + c / 262144 - 0xF0) * 262144 + (0x80 + (c / 4096) mod 64 - 0x80) * 4096
             + (0x80 + (c / 64) mod 64 - 0x80) * 64 + (0x80 + c mod 64 - 0x80))%N with c by dlia.
    cbn zeta. range_tests. done.
Qed.

Lemma utf8_decode_Ns_app s l :
  forallb valid_char s = true -> utf8_decode_Ns (utf8_Ns s ++ l) = (s ++.) <$> utf8_decode_Ns l.
Proof.
  induction s as [|c s IH]; cbn; intros H; [by destruct (utf8_decode_Ns l)|].
  apply andb_true_iff in H as [Hc Hs].
  rewrite <-app_assoc, utf8_decode_char, IH by done. by destruct (utf8_decode_Ns l).
Qed.

Lemma utf8_Ns_lt s : forallb valid_char s = true -> Forall (fun n => (n < 256)%N) (utf8_Ns s).
Proof.
  induction s as [|c s IH]; cbn; intros H; [constructor|].
  apply andb_true_iff in H as [Hc Hs]. apply Forall_app. auto using utf8_char_lt.
Qed.

Lemma str_encode_ok s b : str_encode s = Ok b -> forallb valid_char s = true /\ b = bytes_of_Ns (utf8_Ns s).
Proof. unfold str_encode. destruct (forallb valid_char s); [|done]. naive_solver. Qed.

Lemma bytes_decode_encode s b : str_encode s = Ok b -> bytes_decode b = Ok s.
Proof.
  intros [Hv ->]%str_encode_ok. unfold bytes_decode.
  rewrite Ns_of_bytes_of_Ns by by apply utf8_Ns_lt.
  rewrite <-(app_nil_r (utf8_Ns s)), utf8_decode_Ns_app by done. cbn. by rewrite app_nil_r.
Qed.

(** Distinct strings have distinct encodings. *)
Lemma str_encode_inj s1 s2 b : str_encode s1 = Ok b -> str_encode s2 = Ok b -> s1 = s2.
Proof. intros H1%bytes_decode_encode H2%bytes_decode_encode. congruence. Qed.

(** ASCII strings encode to themselves. *)
Definition is_ascii (s : str) : bool := forallb (fun c => (c <? 128)%N) s.

Lemma utf8_Ns_ascii s : is_ascii s = true -> utf8_Ns s = s.
Proof.
  unfold is_ascii. induction s as [|c s IH]; cbn; intros H; [done|].
  apply andb_true_iff in H as [Hc Hs]. unfold utf8_char. rewrite Hc, IH by done. done.
Qed.

Lemma str_encode_ascii s : is_ascii s = true -> str_encode s = Ok (ascii_bytes s).
Proof.
  intros H. unfold str_encode. rewrite utf8_Ns_ascii by done.
  replace (forallb valid_char s) with true; [done|].
  symmetry. unfold is_ascii in H. rewrite forallb_forall in *. intros c Hc%H.
  apply N.ltb_lt in Hc. unfold valid_char, is_surrogate. range_tests. done.
Qed.

(** ** Hexadecimal *)

Definition hex_digit (n : N) : N := (if n <? 10 then 48 + n else 87 + n)%N.

Definition hex_value (c : N) : option N :=
  (if (48 <=? c) && (c <=? 57) then Some (c - 48)
   else if (97 <=? c) && (c <=? 102) then Some (c - 87)
   else if (65 <=? c) && (c <=? 70) then Some (c - 55)
   else None)%N.

Fixpoint hex_of_Ns (l : list N) : str :=
  match l with
  | [] => []
  | n :: l => hex_digit (n / 16) :: hex_digit (n mod 16) :: hex_of_Ns l
  end.

(** [b.hex()], and the [hexdigest()] of a digest. *)
Definition bytes_hex (b : bytes) : str := hex_of_Ns (Ns_of_bytes b).

Definition fromhex_error (pos : nat) : exn :=
  Exn ValueError ("non-hexadecimal number found in fromhex() arg at position " ++ str_of_nat pos).

(** The white space [bytes.fromhex] skips between two bytes. *)
Definition is_hex_space (c : N) : bool := ((9 <=? c) && (c <=? 13) || (c =? 32))%N.

Fixpoint fromhex_at (pos : nat) (s : str) : res (list N) :=
  match s with
  | [] => Ok []
  | c :: s1 =>
      if is_hex_space c then fromhex_at (S pos) s1
      else match hex_value c, s1 with
           | None, _ => raise (fromhex_error pos)
           | Some h, [] => raise (fromhex_error (S pos))
           | Some h, d :: s2 =>
               match hex_value d with
               | None => raise (fromhex_error (S pos))
               | Some l => result_map ((h * 16 + l)%N ::.) (fromhex_at (S (S pos)) s2)
               end
           end
  end.

(** [bytes.fromhex(s)]. *)
Definition bytes_fromhex (s : str) : res bytes := result_map bytes_of_Ns (fromhex_at 0 s).

Lemma hex_value_digit n : (n < 16)%N -> hex_value (hex_digit n) = Some n.
Proof.
  intros H. unfold hex_digit, hex_value. destruct (N.ltb_spec n 10); range_tests; cbn;
    f_equal; lia.
Qed.

Lemma hex_digit_not_space n : (n < 16)%N -> is_hex_space (hex_digit n) = false.
Proof.
  intros H. unfold hex_digit, is_hex_space.
  destruct (N.ltb_spec n 10); range_tests; cbn; apply N.eqb_neq; lia.
Qed.

Lemma fromhex_at_hex l pos : Forall (fun n => (n < 256)%N) l -> fromhex_at pos (hex_of_Ns l) = Ok l.
Proof.
  intros H. revert pos. induction H as [|n l Hn _ IH]; intros pos; cbn; [done|].
  rewrite hex_digit_not_space, !hex_value_digit, IH by dlia. cbn. do 2 f_equal. dlia.
Qed.

Lemma bytes_fromhex_hex b : bytes_fromhex (bytes_hex b) = Ok b.
Proof.
  unfold bytes_fromhex, bytes_hex. rewrite fromhex_at_hex by auto with enclave. cbn.
  by rewrite bytes_of_Ns_of_bytes.
Qed.

#[export] Instance bytes_hex_inj : Inj eq eq bytes_hex.
Proof. intros a b H. assert (Ok (X := exn) a = Ok b) by (rewrite <-!bytes_fromhex_hex; congruence).
congruence. Qed.

Lemma length_hex_of_Ns l : length (hex_of_Ns l) = 2 * length l.
Proof. induction l; cbn; lia. Qed.

Lemma length_bytes_hex b : length (bytes_hex b) = 2 * length b.
Proof. unfold bytes_hex, Ns_of_bytes. by rewrite length_hex_of_Ns, length_map. Qed.

Definition is_hex_digit (c : N) : bool := ((48 <=? c) && (c <=? 57) || (97 <=? c) && (c <=? 102))%N.

Lemma hex_of_Ns_digits l : Forall (fun n => (n < 256)%N) l -> forallb is_hex_digit (hex_of_Ns l) = true.
Proof.
  assert (forall n, (n < 16)%N -> is_hex_digit (hex_digit n) = true) as Hd.
  { intros n Hn. unfold is_hex_digit, hex_digit.
    destruct (N.ltb_spec n 10); range_tests; done. }
  induction 1 as [|n l Hn _ IH]; cbn; [done|]. rewrite !Hd, IH by dlia. done.
Qed.

Lemma bytes_hex_digits b : forallb is_hex_digit (bytes_hex b) = true.
Proof. apply hex_of_Ns_digits. auto with enclave. Qed.

(** ** Base64 *)

Definition b64_char (n : N) : N :=
  (if n <? 26 then 65 + n else if n <? 52 then 71 + n else if n <? 62 then n - 4
   else if n =? 62 then 43 else 47)%N.

Definition b64_value (c : N) : option N :=
  (if (65 <=? c) && (c <=? 90) then Some (c - 65)
   else if (97 <=? c) && (c <=? 122) then Some (c - 71)
   else if (48 <=? c) && (c <=? 57) then Some (c + 4)
   else if c =? 43 then Some 62
   else if c =? 47 then Some 63
   else None)%N.

Fixpoint b64_encode_Ns (l : list N) : str :=
  match l with
  | [] => []
  | [a] => [b64_char (a / 4); b64_char (a mod 4 * 16); 61; 61]
  | [a; b] => [b64_char (a / 4); b64_char (a mod 4 * 16 + b / 16); b64_char (b mod 16 * 4); 61]
  | a :: b :: c :: l =>
      b64_char (a / 4) :: b64_char (a mod 4 * 16 + b / 16) :: b64_char (b mod 16 * 4 + c / 64)
        :: b64_char (c mod 64) :: b64_encode_Ns l
  end%N.

(** [base64.b64encode(b).decode()]. *)
Definition b64encode (b : bytes) : str := b64_encode_Ns (Ns_of_bytes b).

(** [binascii.a2b_base64] in its lenient mode: characters outside the alphabet
    are skipped, and a pad that completes a quad ends the input.  [quad] is the
    position in the quad, [left] its pending bits, [out] the bytes produced. *)
Fixpoint a2b_base64 (l : list N) (quad left pads : N) (out : nat) : res (list N) :=
  match l with
  | [] =>
      if (quad =? 0)%N then Ok []
      else if (quad =? 1)%N then
        raise (Exn BinasciiError ("Invalid base64-encoded string: number of data characters ("
                 ++ str_of_nat (out / 3 * 4 + 1) ++ ") cannot be 1 more than a multiple of 4"))
      else raise (Exn BinasciiError "Incorrect padding")
  | c :: l =>
      if (c =? 61)%N then
        if (2 <=? quad)%N then
          if (4 <=? quad + (pads + 1))%N then Ok [] else a2b_base64 l quad left (pads + 1) out
        else a2b_base64 l quad left pads out
      else match b64_value c with
           | None => a2b_base64 l quad left pads out
           | Some v =>
               if (quad =? 0)%N then a2b_base64 l 1 v 0 out
               else if (quad =? 1)%N then
                 result_map ((left * 4 + v / 16)%N ::.) (a2b_base64 l 2 (v mod 16) 0 (S out))
               else if (quad =? 2)%N then
                 result_map ((left * 16 + v / 4)%N ::.) (a2b_base64 l 3 (v mod 4) 0 (S out))
               else result_map ((left * 64 + v)%N ::.) (a2b_base64 l 0 0 0 (S out))
           end
  end.

(** [base64.b64decode(s)] of a [str]. *)
Definition b64decode (s : str) : res bytes :=
  if is_ascii s then result_map bytes_of_Ns (a2b_base64 s 0 0 0 0)
  else raise (Exn ValueError "string argument should contain only ASCII characters").

Lemma b64_value_char n : (n < 64)%N -> b64_value (b64_char n) = Some n.
Proof.
  intros H. unfold b64_char, b64_value.
  destruct (N.ltb_spec n 26); [range_tests; cbn; f_equal; lia|].
  destruct (N.ltb_spec n 52); [range_tests; cbn; f_equal; lia|].
  destruct (N.ltb_spec n 62); [range_tests; cbn; f_equal; lia|].
  destruct (N.eqb_spec n 62) as [->|]; [done|]. by replace n with 63%N by lia.
Qed.

Lemma b64_char_not_pad n : (n < 64)%N -> (b64_char n =? 61)%N = false.
Proof.
  intros H. apply N.eqb_neq. unfold b64_char.
  destruct (N.ltb_spec n 26); [lia|]. destruct (N.ltb_spec n 52); [lia|].
  destruct (N.ltb_spec n 62); [lia|]. destruct (N.eqb_spec n 62); lia.
Qed.

(** Reading one Base64 digit. *)
Lemma a2b_base64_char n l quad left pads out :
  (n < 64)%N ->
  a2b_base64 (b64_char n :: l) quad left pads out =
    (if (quad =? 0)%N then a2b_base64 l 1 n 0 out
     else if (quad =? 1)%N then
       result_map ((left * 4 + n / 16)%N ::.) (a2b_base64 l 2 (n mod 16) 0 (S out))
     else if (quad =? 2)%N then
       result_map ((left * 16 + n / 4)%N ::.) (a2b_base64 l 3 (n mod 4) 0 (S out))
     else result_map ((left * 64 + n)%N ::.) (a2b_base64 l 0 0 0 (S out))).
Proof. intros H. cbn [a2b_base64]. by rewrite b64_char_not_pad, b64_value_char by done. Qed.

Lemma a2b_base64_encode l out :
  Forall (fun n => (n < 256)%N) l -> a2b_base64 (b64_encode_Ns l) 0 0 0 out = Ok l.
Proof.
  remember (length l) as n eqn:Hn. revert l out Hn.
  induction (lt_wf n) as [n _ IH]; intros l out -> Hl.
  destruct l as [|a [|b [|c l]]]; [done|..]; rewrite !Forall_cons in Hl;
    cbn [b64_encode_Ns]; rewrite !a2b_base64_char by dlia; cbn [N.eqb Pos.eqb].
  - cbn. range_tests. cbn. do 2 f_equal. dlia.
  - cbn. range_tests. cbn. repeat f_equal; dlia.
  - destruct Hl as (Ha & Hb & Hc & Hl).
    rewrite (IH (length l)) by (cbn; auto; lia). cbn. repeat f_equal; dlia.
Qed.

Lemma b64_encode_ascii l : Forall (fun n => (n < 256)%N) l -> is_ascii (b64_encode_Ns l) = true.
Proof.
  assert (forall n, (n < 64)%N -> (b64_char n <? 128)%N = true) as Hc.
  { intros n Hn. apply N.ltb_lt. unfold b64_char.
    destruct (N.ltb_spec n 26); [lia|]. destruct (N.ltb_spec n 52); [lia|].
    destruct (N.ltb_spec n 62); [lia|]. destruct (N.eqb_spec n 62); lia. }
  remember (length l) as n eqn:Hn. revert l Hn.
  induction (lt_wf n) as [n _ IH]; intros l -> Hl. unfold is_ascii in *.
  destruct l as [|a [|b [|c l]]]; [done|..]; rewrite !Forall_cons in Hl;
    cbn [b64_encode_Ns forallb]; rewrite !Hc by dlia; cbn [andb]; [done..|].
  destruct Hl as (_ & _ & _ & Hl). apply (IH (length l)); [cbn; lia|done..].
Qed.

Lemma b64decode_encode b : b64decode (b64encode b) = Ok b.
Proof.
  unfold b64decode, b64encode. rewrite b64_encode_ascii, a2b_base64_encode by auto with enclave.
  cbn. by rewrite bytes_of_Ns_of_bytes.
Qed.

#[export] Instance b64encode_inj : Inj eq eq b64encode.
Proof. intros a b H. assert (Ok (X := exn) a = Ok b) by (rewrite <-!b64decode_encode; congruence). congruence. Qed.

(** ** Big-endian integers *)

Fixpoint be_Ns (w : nat) (n : N) : list N :=
  match w with
  | O => []
  | S w => (n / 256 ^ N.of_nat w) mod 256 :: be_Ns w n
  end%N.

Definition be_value (l : list N) : N := foldl (fun acc b => acc * 256 + b)%N 0%N l.

(** [n.to_bytes(w, 'big')]. *)
Definition int_to_bytes (w : nat) (n : N) : res bytes :=
  if (n <? 256 ^ N.of_nat w)%N then Ok (bytes_of_Ns (be_Ns w n))
  else raise (Exn OverflowError "int too big to convert").

(** [int.from_bytes(b, 'big')]. *)
Definition int_from_bytes (b : bytes) : N := be_value (Ns_of_bytes b).

Definition uint32_max : N := 0xFFFFFFFF.

(** [struct.pack('!I', n)]. *)
Definition struct_pack_I (n : N) : res bytes :=
  if (n <=? uint32_max)%N then Ok (bytes_of_Ns (be_Ns 4 n))
  else raise (Exn StructError "'I' format requires 0 <= number <= 4294967295").

(** [struct.unpack('!I', b)[0]]. *)
Definition struct_unpack_I (b : bytes) : res N :=
  if (length b =? 4)%nat then Ok (int_from_bytes b)
  else raise (Exn StructError "unpack requires a buffer of 4 bytes").

Lemma be_value_foldl l acc :
  foldl (fun acc b => acc * 256 + b)%N acc l = (acc * 256 ^ N.of_nat (length l) + be_value l)%N.
Proof.
  unfold be_value. revert acc. induction l as [|b l IH]; intros acc; cbn [foldl length]; [cbn; lia|].
  rewrite IH, (IH (0 * 256 + b)%N), Nat2N.inj_succ, N.pow_succ_r'. lia.
Qed.

Lemma be_value_cons b l : be_value (b :: l) = (b * 256 ^ N.of_nat (length l) + be_value l)%N.
Proof. unfold be_value at 1. cbn [foldl]. rewrite be_value_foldl. lia. Qed.

Lemma length_be_Ns w n : length (be_Ns w n) = w.
Proof. induction w; cbn; lia. Qed.

Lemma be_Ns_lt w n : Forall (fun n => (n < 256)%N) (be_Ns w n).
Proof. induction w; cbn; constructor; [by apply N.mod_lt|done]. Qed.

Lemma be_value_Ns w n : be_value (be_Ns w n) = (n mod 256 ^ N.of_nat w)%N.
Proof.
  induction w as [|w IH]; [cbn; by rewrite N.mod_1_r|].
  cbn [be_Ns]. rewrite be_value_cons, length_be_Ns, IH, Nat2N.inj_succ, N.pow_succ_r'.
  rewrite (N.mul_comm 256), N.Div0.mod_mul_r. lia.
Qed.

Lemma length_struct_pack_I n b : struct_pack_I n = Ok b -> length b = 4%nat.
Proof.
  unfold struct_pack_I. destruct (_ <=? _)%N; [|done]. by intros [= <-].
Qed.

Lemma int_from_be_Ns w n : (n < 256 ^ N.of_nat w)%N -> int_from_bytes (bytes_of_Ns (be_Ns w n)) = n.
Proof.
  intros H. unfold int_from_bytes. rewrite Ns_of_bytes_of_Ns by apply be_Ns_lt.
  rewrite be_value_Ns. by apply N.mod_small.
Qed.

Lemma struct_pack_I_ok n b :
  struct_pack_I n = Ok b -> (n <= uint32_max)%N /\ b = bytes_of_Ns (be_Ns 4 n).
Proof. unfold struct_pack_I. destruct (N.leb_spec n uint32_max); [|done]. intros H'. split; congruence. Qed.

Lemma struct_unpack_pack_I n b : struct_pack_I n = Ok b -> struct_unpack_I b = Ok n.
Proof.
  intros H. unfold struct_unpack_I. rewrite (length_struct_pack_I n b H), Nat.eqb_refl. f_equal.
  apply struct_pack_I_ok in H as [Hn ->]. apply int_from_be_Ns.
  apply N.le_lt_trans with uint32_max; [done|]. by vm_compute.
Qed.

Lemma int_from_to_bytes w n b : int_to_bytes w n = Ok b -> int_from_bytes b = n /\ length b = w.
Proof.
  unfold int_to_bytes. destruct (N.ltb_spec n (256 ^ N.of_nat w)); [|done]. intros [= <-].
  rewrite int_from_be_Ns by done. unfold bytes_of_Ns. by rewrite length_map, length_be_Ns.
Qed.

(** ** Text files *)

(** Text mode: UTF-8, and every line ends in a line feed. *)
Fixpoint translate_newlines (s : str) : str :=
  match s with
  | [] => []
  | 13%N :: s => match s with
                 | 10%N :: s => 10%N :: translate_newlines s
                 | _ => 10%N :: translate_newlines s
                 end
  | c :: s => c :: translate_newlines s
  end.

Definition text_of (b : bytes) : res str := result_map translate_newlines (bytes_decode b).

(** ASCII text, hexadecimal and Base64 have only encodable characters. *)
Lemma ascii_valid s : is_ascii s = true -> forallb valid_char s = true.
Proof.
  intros H. destruct (forallb valid_char s) eqn:E; [done|]. pose proof (str_encode_ascii s H) as He.
  unfold str_encode in He. by rewrite E in He.
Qed.

Lemma b64encode_valid b : forallb valid_char (b64encode b) = true.
Proof. apply ascii_valid, b64_encode_ascii. apply Forall_forall. intros n (x & -> & _)%list_elem_of_fmap.
apply N_of_byte_lt. Qed.

Lemma bytes_hex_ascii b : is_ascii (bytes_hex b) = true.
Proof.
  pose proof (bytes_hex_digits b) as H. unfold is_ascii.
  rewrite forallb_forall in *. intros c Hc. specialize (H c Hc). apply N.ltb_lt.
  unfold is_hex_digit in H. rewrite orb_true_iff, !andb_true_iff, !N.leb_le in H. lia.
Qed.

Lemma bytes_hex_valid b : forallb valid_char (bytes_hex b) = true.
Proof. apply ascii_valid, bytes_hex_ascii. Qed.

#[export] Hint Resolve bytes_decode_encode be_Ns_lt : enclave.
