(* ===== verification/Sha2.v ===== *)
(** * SHA-256 and SHA-512

    The hashes the enclave takes from [hashlib], executable, after FIPS 180-4.
    The two functions share one description; the 32-bit constants are the high
    halves of the 64-bit ones.  What the development relies on is that they are
    functions of the bytes hashed and that their digests have 32 and 64 bytes;
    nothing assumes that they have no collisions. *)
From stdpp Require Import base tactics list.
From Stdlib Require Import NArith ZArith Lia.
From S2P Require Import Prelude PyText PyCodec.

(** The word size in bytes, the initial state, the round constants, and the
    rotation amounts of the two message and the two compression functions (the
    last one of a message function is a shift). *)
Record sha2 : Type := Sha2 {
  word_bytes : nat;
  init_state : list N;
  round_constants : list N;
  sigma0 : N * N * N;
  sigma1 : N * N * N;
  Sigma0 : N * N * N;
  Sigma1 : N * N * N;
}.

Definition H512 : list N :=
  [0x6A09E667F3BCC908; 0xBB67AE8584CAA73B; 0x3C6EF372FE94F82B; 0xA54FF53A5F1D36F1;
   0x510E527FADE682D1; 0x9B05688C2B3E6C1F; 0x1F83D9ABFB41BD6B; 0x5BE0CD19137E2179]%N.

Definition K512 : list N :=
  [0x428A2F98D728AE22; 0x7137449123EF65CD; 0xB5C0FBCFEC4D3B2F; 0xE9B5DBA58189DBBC;
   0x3956C25BF348B538; 0x59F111F1B605D019; 0x923F82A4AF194F9B; 0xAB1C5ED5DA6D8118;
   0xD807AA98A3030242; 0x12835B0145706FBE; 0x243185BE4EE4B28C; 0x550C7DC3D5FFB4E2;
   0x72BE5D74F27B896F; 0x80DEB1FE3B1696B1; 0x9BDC06A725C71235; 0xC19BF174CF692694;
   0xE49B69C19EF14AD2; 0xEFBE4786384F25E3; 0x0FC19DC68B8CD5B5; 0x240CA1CC77AC9C65;
   0x2DE92C6F592B0275; 0x4A7484AA6EA6E483; 0x5CB0A9DCBD41FBD4; 0x76F988DA831153B5;
   0x983E5152EE66DFAB; 0xA831C66D2DB43210; 0xB00327C898FB213F; 0xBF597FC7BEEF0EE4;
   0xC6E00BF33DA88FC2; 0xD5A79147930AA725; 0x06CA6351E003826F; 0x142929670A0E6E70;
   0x27B70A8546D22FFC; 0x2E1B21385C26C926; 0x4D2C6DFC5AC42AED; 0x53380D139D95B3DF;
   0x650A73548BAF63DE; 0x766A0ABB3C77B2A8; 0x81C2C92E47EDAEE6; 0x92722C851482353B;
   0xA2BFE8A14CF10364; 0xA81A664BBC423001; 0xC24B8B70D0F89791; 0xC76C51A30654BE30;
   0xD192E819D6EF5218; 0xD69906245565A910; 0xF40E35855771202A; 0x106AA07032BBD1B8;
   0x19A4C116B8D2D0C8; 0x1E376C085141AB53; 0x2748774CDF8EEB99; 0x34B0BCB5E19B48A8;
   0x391C0CB3C5C95A63; 0x4ED8AA4AE3418ACB; 0x5B9CCA4F7763E373; 0x682E6FF3D6B2B8A3;
   0x748F82EE5DEFB2FC; 0x78A5636F43172F60; 0x84C87814A1F0AB72; 0x8CC702081A6439EC;
   0x90BEFFFA23631E28; 0xA4506CEBDE82BDE9; 0xBEF9A3F7B2C67915; 0xC67178F2E372532B;
   0xCA273ECEEA26619C; 0xD186B8C721C0C207; 0xEADA7DD6CDE0EB1E; 0xF57D4F7FEE6ED178;
   0x06F067AA72176FBA; 0x0A637DC5A2C898A6; 0x113F9804BEF90DAE; 0x1B710B35131C471B;
   0x28DB77F523047D84; 0x32CAAB7B40C72493; 0x3C9EBE0A15C9BEBC; 0x431D67C49C100D4C;
   0x4CC5D4BECB3E42B6; 0x597F299CFC657E2A; 0x5FCB6FAB3AD6FAEC; 0x6C44198C4A475817]%N.

Definition high_half (n : N) : N := N.shiftr n 32.

Definition sha256_params : sha2 := {|
  word_bytes := 4; init_state := map high_half H512;
  round_constants := map high_half (take 64 K512);
  sigma0 := (7, 18, 3)%N; sigma1 := (17, 19, 10)%N;
  Sigma0 := (2, 13, 22)%N; Sigma1 := (6, 11, 25)%N;
|}.

Definition sha512_params : sha2 := {|
  word_bytes := 8; init_state := H512; round_constants := K512;
  sigma0 := (1, 8, 7)%N; sigma1 := (19, 61, 6)%N;
  Sigma0 := (28, 34, 39)%N; Sigma1 := (14, 18, 41)%N;
|}.

Section Sha2.
Context (p : sha2).

Definition word_bits : N := N.of_nat (8 * word_bytes p).
Definition word_mask : N := N.ones word_bits.
Definition wadd (a b : N) : N := N.land (a + b) word_mask.
Definition wnot (a : N) : N := N.lxor a word_mask.
Definition rotr (n x : N) : N :=
  N.land (N.lor (N.shiftr x n) (N.shiftl x (word_bits - n))) word_mask.

Definition small_sigma (r : N * N * N) (x : N) : N :=
  let '(a, b, c) := r in N.lxor (N.lxor (rotr a x) (rotr b x)) (N.shiftr x c).
Definition big_sigma (r : N * N * N) (x : N) : N :=
  let '(a, b, c) := r in N.lxor (N.lxor (rotr a x) (rotr b x)) (rotr c x).
Definition Ch (x y z : N) : N := N.lxor (N.land x y) (N.land (wnot x) z).
Definition Maj (x y z : N) : N := N.lxor (N.lxor (N.land x y) (N.land x z)) (N.land y z).

(** The message, a one bit, zeros, and the length in bits on two words, to a
    whole number of 16-word blocks. *)
Definition pad (msg : list N) : list N :=
  let w := word_bytes p in
  let len := length msg in
  let block := (16 * w)%nat in
  let zeros := ((block - (len + 1 + 2 * w) mod block) mod block)%nat in
  msg ++ [0x80%N] ++ repeat 0%N zeros ++ be_Ns (2 * w) (N.of_nat (8 * len)).

(** The big-endian words of a list of bytes. *)
Fixpoint words (fuel : nat) (l : list N) : list N :=
  match fuel with
  | O => []
  | S fuel => match l with
              | [] => []
              | _ => be_value (take (word_bytes p) l) :: words fuel (drop (word_bytes p) l)
              end
  end.

(** The message schedule, most recent word first: [sched n ws] adds [n] words
    to the 16 of the block. *)
Fixpoint sched (n : nat) (ws : list N) : list N :=
  match n with
  | O => ws
  | S n =>
      let w i := nth i ws 0%N in
      sched n (wadd (wadd (small_sigma (sigma1 p) (w 1%nat)) (w 6%nat))
                    (wadd (small_sigma (sigma0 p) (w 14%nat)) (w 15%nat)) :: ws)
  end.

Definition round (st : list N) (kw : N * N) : list N :=
  match st with
  | [a; b; c; d; e; f; g; h] =>
      let t1 := wadd (wadd h (big_sigma (Sigma1 p) e))
                     (wadd (Ch e f g) (wadd kw.1 kw.2)) in
      let t2 := wadd (big_sigma (Sigma0 p) a) (Maj a b c) in
      [wadd t1 t2; a; b; c; wadd d t1; e; f; g]
  | _ => st
  end.

Definition compress (st block : list N) : list N :=
  let ks := round_constants p in
  let ws := rev (sched (length ks - 16) (rev block)) in
  zip_with wadd st (foldl round st (zip ks ws)).

Fixpoint compress_all (fuel : nat) (st ws : list N) : list N :=
  match fuel with
  | O => st
  | S fuel => match ws with
              | [] => st
              | _ => compress_all fuel (compress st (take 16 ws)) (drop 16 ws)
              end
  end.

Definition digest_Ns (msg : list N) : list N :=
  let padded := pad msg in
  let ws := words (length padded) padded in
  mjoin (map (be_Ns (word_bytes p)) (compress_all (length ws) (init_state p) ws)).

Lemma length_round st kw : length (round st kw) = length st.
Proof. unfold round. by repeat case_match. Qed.

Lemma length_compress st block : length (compress st block) = length st.
Proof.
  unfold compress. rewrite length_zip_with.
  enough (forall l, length (foldl round st l) = length st) as -> by lia.
  intros l. revert st. induction l as [|kw l IH]; intros st; cbn; [done|].
  by rewrite IH, length_round.
Qed.

Lemma length_compress_all fuel st ws : length (compress_all fuel st ws) = length st.
Proof.
  revert st ws. induction fuel as [|fuel IH]; intros st ws; cbn [compress_all]; [done|].
  destruct ws; [done|]. by rewrite IH, length_compress.
Qed.

Lemma length_digest_Ns msg :
  length (digest_Ns msg) = (length (init_state p) * word_bytes p)%nat.
Proof.
  unfold digest_Ns. generalize (words (length (pad msg)) (pad msg)) as ws. intros ws.
  rewrite <-(length_compress_all (length ws) (init_state p) ws).
  generalize (compress_all (length ws) (init_state p) ws) as st. intros st.
  induction st as [|s st IH]; [done|]. cbn [map].
  change (mjoin (be_Ns (word_bytes p) s :: map (be_Ns (word_bytes p)) st))
    with (be_Ns (word_bytes p) s ++ mjoin (map (be_Ns (word_bytes p)) st)).
  rewrite length_app, IH, length_be_Ns. cbn [length]. lia.
Qed.
End Sha2.

(** [hashlib.sha256(b).digest()], [.hexdigest()] and [hashlib.sha512(b).digest()]. *)
Definition sha256 (b : bytes) : bytes := bytes_of_Ns (digest_Ns sha256_params (Ns_of_bytes b)).
Definition sha256_hex (b : bytes) : str := bytes_hex (sha256 b).
Definition sha512 (b : bytes) : bytes := bytes_of_Ns (digest_Ns sha512_params (Ns_of_bytes b)).

Lemma length_sha256 b : length (sha256 b) = 32%nat.
Proof. unfold sha256, bytes_of_Ns. by rewrite length_map, length_digest_Ns. Qed.

Lemma length_sha512 b : length (sha512 b) = 64%nat.
Proof. unfold sha512, bytes_of_Ns. by rewrite length_map, length_digest_Ns. Qed.

Lemma length_sha256_hex b : length (sha256_hex b) = 64%nat.
Proof. unfold sha256_hex. by rewrite length_bytes_hex, length_sha256. Qed.

(** The digests of FIPS 180-4 for the message [abc]. *)
Example sha256_abc :
  sha256_hex (ascii_bytes "abc") = "ba7816bf8f01cfea414140de5dae2223b00361a396177a9cb410ff61f20015ad".
Proof. vm_compute. reflexivity. Qed.
