(* ===== verification/PyJson.v ===== *)
(** * Python values that JSON carries, [json.dumps] and [json.loads]

    A request is the value [json.loads] returns, so every field of it can have
    any JSON type: the handlers below receive a [json], and the operations here
    are the ones Python applies to such a value (truth, [len], [==] with an
    int, [str()], [dict.get]).  A dict keeps its insertion order.  A float is
    its shortest decimal, without trailing zeros: the program never computes
    with a float it receives, and the ones it makes are rounded to two
    decimals. *)
From stdpp Require Import base tactics list gmap strings.
From Stdlib Require Import NArith ZArith Lia.
From S2P Require Import Prelude PyText PyCodec.

(** [Dec m e] is [m * 10^e]. *)
Inductive pyfloat : Type := Dec (m e : Z) | NaN | Inf (negative : bool).

#[export] Instance pyfloat_eq_dec : EqDecision pyfloat.
Proof. solve_decision. Defined.

#[local] Unset Elimination Schemes.
Inductive json : Type :=
  | JNull
  | JBool (b : bool)
  | JInt (z : Z)
  | JFloat (f : pyfloat)
  | JStr (s : str)
  | JArr (l : list json)
  | JObj (d : list (str * json)).
#[local] Set Elimination Schemes.

Section JsonInd.
Context (P : json -> Prop).
Context (Hnull : P JNull) (Hbool : forall b, P (JBool b)) (Hint : forall z, P (JInt z))
  (Hfloat : forall f, P (JFloat f)) (Hstr : forall s, P (JStr s))
  (Harr : forall l, Forall P l -> P (JArr l))
  (Hobj : forall d, Forall (fun kv => P kv.2) d -> P (JObj d)).

Fixpoint json_ind (v : json) : P v :=
  match v with
  | JNull => Hnull
  | JBool b => Hbool b
  | JInt z => Hint z
  | JFloat f => Hfloat f
  | JStr s => Hstr s
  | JArr l =>
      Harr l ((fix go (l : list json) : Forall P l :=
                 match l with
                 | [] => Forall_nil_2 P
                 | v :: l => Forall_cons_2 P v l (json_ind v) (go l)
                 end) l)
  | JObj d =>
      Hobj d ((fix go (d : list (str * json)) : Forall (fun kv => P kv.2) d :=
                 match d with
                 | [] => Forall_nil_2 _
                 | kv :: d => Forall_cons_2 _ kv d (json_ind kv.2) (go d)
                 end) d)
  end.
End JsonInd.

(** ** Dicts *)

Abbreviation dict := (list (str * json)) (only parsing).

(** [d.get(k)], as an option. *)
Fixpoint dict_get (k : str) (d : dict) : option json :=
  match d with
  | [] => None
  | (k', v) :: d => if str_eqb k k' then Some v else dict_get k d
  end.

(** [d[k] = v]: an existing key keeps its place. *)
Fixpoint dict_set (k : str) (v : json) (d : dict) : dict :=
  match d with
  | [] => [(k, v)]
  | (k', v') :: d => if str_eqb k k' then (k', v) :: d else (k', v') :: dict_set k v d
  end.

(** [dict(pairs)]. *)
Definition dict_of_pairs (l : list (str * json)) : dict :=
  foldl (fun d kv => dict_set kv.1 kv.2 d) [] l.

Definition dict_has (k : str) (d : dict) : bool :=
  match dict_get k d with Some _ => true | None => false end.

Lemma dict_get_set k v d : dict_get k (dict_set k v d) = Some v.
Proof.
  induction d as [|[k' v'] d IH]; cbn; unfold str_eqb in *; repeat case_bool_decide; cbn;
    unfold str_eqb; by repeat case_bool_decide.
Qed.

Lemma dict_get_set_ne k k' v d : k <> k' -> dict_get k (dict_set k' v d) = dict_get k d.
Proof.
  intros Hne. induction d as [|[k0 v0] d IH]; cbn; unfold str_eqb in *;
    repeat case_bool_decide; cbn; unfold str_eqb; repeat case_bool_decide; naive_solver.
Qed.

(** ** Operations on a value of any type *)

(** [bool(v)]. *)
Definition truthy (v : json) : bool :=
  match v with
  | JNull => false
  | JBool b => b
  | JInt z => negb (z =? 0)%Z
  | JFloat (Dec m _) => negb (m =? 0)%Z
  | JFloat _ => true
  | JStr s => match s with [] => false | _ => true end
  | JArr l => match l with [] => false | _ => true end
  | JObj d => match d with [] => false | _ => true end
  end.

(** [type(v).__name__]. *)
Definition type_name (v : json) : str :=
  match v with
  | JNull => "NoneType" | JBool _ => "bool" | JInt _ => "int" | JFloat _ => "float"
  | JStr _ => "str" | JArr _ => "list" | JObj _ => "dict"
  end.

(** [len(v)]. *)
Definition py_len (v : json) : res nat :=
  match v with
  | JStr s => Ok (length s)
  | JArr l => Ok (length l)
  | JObj d => Ok (length d)
  | _ => raise (Exn TypeError ("object of type '" ++ type_name v ++ "' has no len()"))
  end.

(** [v == z] for an int [z]: a float compares by its exact value. *)
Definition eq_int (v : json) (z : Z) : bool :=
  match v with
  | JBool b => (Z.b2z b =? z)%Z
  | JInt n => (n =? z)%Z
  | JFloat (Dec m e) =>
      if (0 <=? e)%Z then (m * 10 ^ e =? z)%Z else (m =? z * 10 ^ (- e))%Z
  | _ => false
  end.

(** [v == s] for a string [s]. *)
Definition eq_str (v : json) (s : str) : bool :=
  match v with JStr s' => str_eqb s' s | _ => false end.

Lemma json_str_or v : (exists s, v = JStr s) \/ (forall s, v <> JStr s).
Proof. destruct v; eauto; by right. Qed.

Lemma eq_str_true v s : eq_str v s = true <-> v = JStr s.
Proof.
  destruct v; cbn; try (split; congruence). unfold str_eqb. rewrite bool_decide_eq_true. naive_solver.
Qed.

(** Is the value usable as a dict key?  A list or a dict raises. *)
Definition hash_check (v : json) : res unit :=
  match v with
  | JArr _ | JObj _ => raise (Exn TypeError ("unhashable type: '" ++ type_name v ++ "'"))
  | _ => Ok tt
  end.

(** ** [json.dumps] *)

Definition quote_char : N := 34.
Definition backslash : N := 92.

Definition hex4 (n : N) : str :=
  [hex_digit (n / 4096 mod 16); hex_digit (n / 256 mod 16); hex_digit (n / 16 mod 16); hex_digit (n mod 16)]%N.

Definition u_escape (n : N) : str := backslash :: 117%N :: hex4 n.

(** One character, with [ensure_ascii]. *)
Definition escape_char (c : N) : str :=
  (if c =? 34 then [backslash; 34]
   else if c =? 92 then [backslash; 92]
   else if c =? 10 then [backslash; 110]
   else if c =? 13 then [backslash; 114]
   else if c =? 9 then [backslash; 116]
   else if c =? 12 then [backslash; 102]
   else if c =? 8 then [backslash; 98]
   else if (32 <=? c) && (c <=? 126) then [c]
   else if c <? 0x10000 then u_escape c
   else u_escape (0xD800 + (c - 0x10000) / 1024) ++ u_escape (0xDC00 + (c - 0x10000) mod 1024))%N.

Fixpoint escape_chars (s : str) : str :=
  match s with
  | [] => []
  | c :: s => escape_char c ++ escape_chars s
  end.

Definition dumps_str (s : str) : str := quote_char :: escape_chars s ++ [quote_char].

(** [float.__repr__] of a decimal: at most 16 digits before the point, and
    an exponent outside that range. *)
Fixpoint strip_zeros (fuel : nat) (m e : Z) : Z * Z :=
  match fuel with
  | O => (m, e)
  | S fuel => if (m =? 0)%Z then (0, 0)%Z
              else if (m mod 10 =? 0)%Z then strip_zeros fuel (m / 10) (e + 1) else (m, e)
  end.

(** The float of a decimal. *)
Definition dec (m e : Z) : pyfloat :=
  let '(m', e') := strip_zeros (Z.to_nat (Z.log2 (Z.abs m)) + 2) m e in Dec m' e'.

Definition zeros (n : Z) : str := repeat 48%N (Z.to_nat n).

Definition decimal_repr (m e : Z) : str :=
  let '(m', e') := strip_zeros (Z.to_nat (Z.log2 (Z.abs m)) + 2) m e in
  let ds := str_of_Z (Z.abs m') in
  let n := Z.of_nat (length ds) in
  let point := (n + e')%Z in
  let sign : str := if (m' <? 0)%Z then "-" else "" in
  sign ++
  (if ((-4 <? point) && (point <=? 16))%Z then
     if (point <=? 0)%Z then "0." ++ zeros (- point) ++ ds
     else if (n <=? point)%Z then ds ++ zeros (point - n) ++ ".0"
     else take (Z.to_nat point) ds ++ "." ++ drop (Z.to_nat point) ds
   else
     let x := (point - 1)%Z in
     let xs := str_of_Z (Z.abs x) in
     take 1 ds ++ (if (1 <? n)%Z then "." ++ drop 1 ds else "") ++ "e"
       ++ (if (x <? 0)%Z then "-" else "+") ++ (if (Z.abs x <? 10)%Z then "0" else "") ++ xs).

Definition float_repr (f : pyfloat) : str :=
  match f with
  | Dec m e => decimal_repr m e
  | NaN => "NaN"
  | Inf false => "Infinity"
  | Inf true => "-Infinity"
  end.

(** ** [str(v)] and [repr(v)]

    Whether a character outside ASCII is printable is a table of the Unicode
    database, given as [printable]. *)

Section Repr.
Context (printable : N -> bool).

Definition hex_escape (letter : N) (digits : nat) (c : N) : str :=
  backslash :: letter :: map hex_digit (rev (map (fun i => c / 16 ^ N.of_nat i mod 16)%N (seq 0 digits))).

Definition repr_char (quote c : N) : str :=
  (if (c =? quote) || (c =? 92) then [backslash; c]
   else if c =? 10 then [backslash; 110]
   else if c =? 13 then [backslash; 114]
   else if c =? 9 then [backslash; 116]
   else if (32 <=? c) && (c <? 127) then [c]
   else if (128 <=? c) && printable c then [c]
   else if c <? 0x100 then hex_escape 120 2 c
   else if c <? 0x10000 then hex_escape 117 4 c
   else hex_escape 85 8 c)%N.

(** Single quotes, unless the string has one and no double quote. *)
Definition repr_str (s : str) : str :=
  let q : N := if bool_decide (39%N ∈ s) && negb (bool_decide (34%N ∈ s)) then 34%N else 39%N in
  q :: mjoin (map (repr_char q) s) ++ [q].

Fixpoint py_repr (v : json) : str :=
  match v with
  | JNull => "None"
  | JBool true => "True"
  | JBool false => "False"
  | JInt z => str_of_Z z
  | JFloat (Dec m e) => decimal_repr m e
  | JFloat NaN => "nan"
  | JFloat (Inf false) => "inf"
  | JFloat (Inf true) => "-inf"
  | JStr s => repr_str s
  | JArr l => "[" ++ str_join ", " (map py_repr l) ++ "]"
  | JObj d => "{" ++ str_join ", " (map (fun kv => repr_str kv.1 ++ ": " ++ py_repr kv.2) d) ++ "}"
  end.

(** [str(v)], also what an f-string inserts. *)
Definition py_str (v : json) : str :=
  match v with JStr s => s | _ => py_repr v end.
End Repr.

(** The separators and the [sort_keys] flag. *)
Record dump_style : Type := Style { item_sep : str; key_sep : str; sort_keys : bool }.

Definition default_style : dump_style := Style ", " ": " false.
Definition sorted_style : dump_style := Style ", " ": " true.
(** [json.dumps(..., sort_keys=True, separators=(',', ':'))]. *)
Definition canonical_style : dump_style := Style "," ":" true.

Definition sort_items {A} (l : list (str * A)) : list (str * A) := sorted_by str_leb fst l.

Section Dumps.
Context (st : dump_style).

Definition dumps_item (kv : str * str) : str := dumps_str kv.1 ++ key_sep st ++ kv.2.

(** The fields of a dict are printed first and sorted by key afterwards, which
    gives the order of [sorted(d.items())]: keys are distinct. *)
Definition dumps_items (l : list (str * str)) : str :=
  str_join (item_sep st) (map dumps_item (if sort_keys st then sort_items l else l)).

Fixpoint dumps (v : json) : str :=
  match v with
  | JNull => "null"
  | JBool true => "true"
  | JBool false => "false"
  | JInt z => str_of_Z z
  | JFloat f => float_repr f
  | JStr s => dumps_str s
  | JArr l => "[" ++ str_join (item_sep st) (map dumps l) ++ "]"
  | JObj d => "{" ++ dumps_items (map (fun kv => (kv.1, dumps kv.2)) d) ++ "}"
  end.
End Dumps.

(** [json.dumps(v)]. *)
Definition json_dumps (v : json) : str := dumps default_style v.

Example dumps_example :
  json_dumps (JObj [("b", JArr [JInt 12; JNull]); ("a", JFloat (Dec 4873 (-2)))])
  = [123; 34; 98; 34; 58; 32; 91; 49; 50; 44; 32; 110; 117; 108; 108; 93; 44; 32;
     34; 97; 34; 58; 32; 52; 56; 46; 55; 51; 125]%N.
Proof. vm_compute. reflexivity. Qed.
