(* ===== verification/PyJsonParse.v ===== *)
(** * [json.loads], and its round trip with [json.dumps]

    The scanner follows CPython's [json.scanner] and [json.decoder]: the same
    white space, escapes, surrogate pairs, number grammar and constants.  The
    fuel of [json_loads] always suffices ([scan_fuel]).  Values without lone
    surrogates are read back as they were printed, floats of at most 15 digits
    included. *)
From stdpp Require Import base tactics list gmap strings.
From Stdlib Require Import NArith ZArith Lia.
From Stdlib Require Decimal DecimalN DecimalFacts.
From S2P Require Import Prelude PyText PyCodec PyJson.

Definition json_error : exn := Exn JSONDecodeError "invalid JSON".

(** ** Lexical elements *)

Definition is_ws (c : N) : bool := ((c =? 32) || (c =? 9) || (c =? 10) || (c =? 13))%N.

Fixpoint skip_ws (s : str) : str :=
  match s with
  | c :: s' => if is_ws c then skip_ws s' else s
  | [] => []
  end.

Definition is_digit (c : N) : bool := ((48 <=? c) && (c <=? 57))%N.

Fixpoint span_digits (s : str) : str * str :=
  match s with
  | c :: s' => if is_digit c then let '(ds, r) := span_digits s' in (c :: ds, r) else ([], s)
  | [] => ([], [])
  end.

Definition digits_value (acc : N) (ds : str) : N :=
  foldl (fun acc c => acc * 10 + (c - 48))%N acc ds.

Definition read_hex4 (a b c d : N) : option N :=
  match hex_value a, hex_value b, hex_value c, hex_value d with
  | Some a, Some b, Some c, Some d => Some (((a * 16 + b) * 16 + c) * 16 + d)%N
  | _, _, _, _ => None
  end.

Definition is_high (n : N) : bool := ((0xD800 <=? n) && (n <? 0xDC00))%N.
Definition is_low (n : N) : bool := ((0xDC00 <=? n) && (n <? 0xE000))%N.
Definition join_pair (hi lo : N) : N := (0x10000 + (hi - 0xD800) * 1024 + (lo - 0xDC00))%N.

Definition simple_escape (c : N) : option N :=
  (if c =? 34 then Some 34 else if c =? 92 then Some 92 else if c =? 47 then Some 47
   else if c =? 98 then Some 8 else if c =? 102 then Some 12 else if c =? 110 then Some 10
   else if c =? 114 then Some 13 else if c =? 116 then Some 9 else None)%N.

Definition push (c : N) (r : res (str * str)) : res (str * str) :=
  result_map (fun p => (c :: p.1, p.2)) r.

(** The rest of a string after its opening quote: its characters and what
    follows the closing quote. *)
Fixpoint scan_string (s : str) : res (str * str) :=
  match s with
  | [] => raise json_error
  | c :: s1 =>
      if (c =? 34)%N then Ok ([], s1)
      else if (c <? 32)%N then raise json_error
      else if (c =? 92)%N then
        match s1 with
        | [] => raise json_error
        | e :: s2 =>
            if (e =? 117)%N then
              match s2 with
              | a :: b :: c :: d :: s3 =>
                  match read_hex4 a b c d with
                  | None => raise json_error
                  | Some u =>
                      if is_high u then
                        match s3 with
                        | k :: l :: a :: b :: c :: d :: s4 =>
                            if ((k =? 92) && (l =? 117))%N then
                              match read_hex4 a b c d with
                              | None => raise json_error
                              | Some u' => if is_low u' then push (join_pair u u') (scan_string s4)
                                           else push u (scan_string s3)
                              end
                            else push u (scan_string s3)
                        | _ => push u (scan_string s3)
                        end
                      else push u (scan_string s3)
                  end
              | _ => raise json_error
              end
            else match simple_escape e with
                 | Some x => push x (scan_string s2)
                 | None => raise json_error
                 end
        end
      else push c (scan_string s1)
  end.

(** An int literal of more than 4300 digits is refused with a [ValueError],
    which is not a [JSONDecodeError]. *)
Definition max_str_digits : nat := 4300.

Definition int_literal (neg : bool) (ds : str) : res json :=
  if (max_str_digits <? length ds)%nat then
    raise (Exn ValueError "Exceeds the limit (4300 digits) for integer string conversion")
  else let v := Z.of_N (digits_value 0 ds) in Ok (JInt (if neg then - v else v)%Z).

(** The fraction and the exponent of a number, when its digits follow. *)
Definition scan_frac (s : str) : str * str :=
  match s with
  | 46%N :: s' => match span_digits s' with
                  | ([], _) => ([], s)
                  | p => p
                  end
  | _ => ([], s)
  end.

Definition scan_exp (s : str) : option Z * str :=
  match s with
  | c :: s1 =>
      if ((c =? 101) || (c =? 69))%N then
        let '(neg, s2) := match s1 with
                          | 45%N :: s2 => (true, s2)
                          | 43%N :: s2 => (false, s2)
                          | _ => (false, s1)
                          end in
        match span_digits s2 with
        | ([], _) => (None, s)
        | (ds, r) => let v := Z.of_N (digits_value 0 ds) in (Some (if neg then - v else v)%Z, r)
        end
      else (None, s)
  | [] => (None, s)
  end.

Definition int_part (s : str) : str * str :=
  match s with
  | 48%N :: r => ([48%N], r)
  | _ => span_digits s
  end.

Definition scan_number (s : str) : option (res (json * str)) :=
  let '(neg, s1) := match s with
                    | 45%N :: s' => (true, s')
                    | _ => (false, s)
                    end in
  match int_part s1 with
  | ([], _) => None
  | (ds, s2) =>
      let '(fs, s3) := scan_frac s2 in
      let '(x, s4) := scan_exp s3 in
      match fs, x with
      | [], None => Some (result_map (fun v => (v, s4)) (int_literal neg ds))
      | _, _ =>
          let m := Z.of_N (digits_value 0 (ds ++ fs)) in
          Some (Ok (JFloat (dec (if neg then - m else m)
                                (default 0 x - Z.of_nat (length fs)))%Z, s4))
      end
  end.

Fixpoint strip_prefix (p s : str) : option str :=
  match p, s with
  | [], _ => Some s
  | x :: p, y :: s => if (x =? y)%N then strip_prefix p s else None
  | _, [] => None
  end.

Definition constants : list (str * json) :=
  [("null", JNull); ("true", JBool true); ("false", JBool false); ("NaN", JFloat NaN);
   ("Infinity", JFloat (Inf false)); ("-Infinity", JFloat (Inf true))].

Definition scan_constant (s : str) : option (json * str) :=
  list_find (fun kv => is_Some (strip_prefix kv.1 s)) constants ≫= fun ikv =>
  strip_prefix ikv.2.1 s ≫= fun r => Some (ikv.2.2, r).

(** ** Values *)

Definition out_of_fuel : exn := Exn RuntimeError "maximum recursion depth exceeded".

Fixpoint scan_value (fuel : nat) (s : str) : res (json * str) :=
  match fuel with
  | O => raise out_of_fuel
  | S fuel =>
      match s with
      | 34%N :: s => result_map (fun p => (JStr p.1, p.2)) (scan_string s)
      | 123%N :: s =>
          match skip_ws s with
          | 125%N :: r => Ok (JObj [], r)
          | s' => result_map (fun p => (JObj (dict_of_pairs p.1), p.2)) (scan_members fuel s')
          end
      | 91%N :: s =>
          match skip_ws s with
          | 93%N :: r => Ok (JArr [], r)
          | s' => result_map (fun p => (JArr p.1, p.2)) (scan_elements fuel s')
          end
      | _ =>
          match scan_number s with
          | Some r => r
          | None => match scan_constant s with
                    | Some p => Ok p
                    | None => raise json_error
                    end
          end
      end
  end
with scan_elements (fuel : nat) (s : str) : res (list json * str) :=
  match fuel with
  | O => raise out_of_fuel
  | S fuel =>
      '(v, r) ← scan_value fuel s;
      match skip_ws r with
      | 93%N :: r => Ok ([v], r)
      | 44%N :: r => result_map (fun p => (v :: p.1, p.2)) (scan_elements fuel (skip_ws r))
      | _ => raise json_error
      end
  end
with scan_members (fuel : nat) (s : str) : res (list (str * json) * str) :=
  match fuel with
  | O => raise out_of_fuel
  | S fuel =>
      match s with
      | 34%N :: s =>
          '(k, r) ← scan_string s;
          match skip_ws r with
          | 58%N :: r =>
              '(v, r) ← scan_value fuel (skip_ws r);
              match skip_ws r with
              | 125%N :: r => Ok ([(k, v)], r)
              | 44%N :: r => result_map (fun p => ((k, v) :: p.1, p.2)) (scan_members fuel (skip_ws r))
              | _ => raise json_error
              end
          | _ => raise json_error
          end
      | _ => raise json_error
      end
  end.

Definition scan_fuel (s : str) : nat := S (2 * length s).

(** [json.loads(s)] of a [str]. *)
Definition json_loads (s : str) : res json :=
  match s with
  | 0xFEFF%N :: _ => raise json_error
  | _ =>
      '(v, r) ← scan_value (scan_fuel s) (skip_ws s);
      match skip_ws r with
      | [] => Ok v
      | _ => raise json_error
      end
  end.

(** ** Reading back what [json.dumps] prints *)

(** *** Digits *)

Lemma digits_value_app acc a b : digits_value acc (a ++ b) = digits_value (digits_value acc a) b.
Proof. unfold digits_value. apply foldl_app. Qed.

Lemma digits_value_uint_acc d acc :
  digits_value (Npos acc) (digits_of_uint d) = Npos (Pos.of_uint_acc d acc).
Proof.
  revert acc. induction d as [|d IH|d IH|d IH|d IH|d IH|d IH|d IH|d IH|d IH|d IH]; intros acc;
    [done|..];
    cbn [digits_of_uint Pos.of_uint_acc]; unfold digits_value in *; cbn [foldl]; rewrite <-IH;
    f_equal; lia.
Qed.

Lemma digits_value_uint d : digits_value 0 (digits_of_uint d) = N.of_uint d.
Proof.
  induction d as [|d IH|d IH|d IH|d IH|d IH|d IH|d IH|d IH|d IH|d IH];
    [done|exact IH|..];
    cbn [digits_of_uint]; unfold digits_value; cbn [foldl]; apply digits_value_uint_acc.
Qed.

Lemma digits_value_str_of_N n : digits_value 0 (str_of_N n) = n.
Proof. unfold str_of_N. rewrite digits_value_uint. apply DecimalN.Unsigned.of_to. Qed.

Lemma digits_of_uint_digits d : forallb is_digit (digits_of_uint d) = true.
Proof. induction d; cbn; auto. Qed.

Lemma str_of_N_digits n : forallb is_digit (str_of_N n) = true.
Proof. apply digits_of_uint_digits. Qed.

Lemma nzhead_not_D0 d d' : Decimal.nzhead d <> Decimal.D0 d'.
Proof. induction d; cbn; congruence. Qed.

(** A printed number is ["0"] or starts with a nonzero digit. *)
Lemma str_of_N_head n : exists c ds, str_of_N n = c :: ds /\ is_digit c = true /\ (c = 48%N -> ds = []).
Proof.
  unfold str_of_N. pose proof (DecimalN.Unsigned.to_of (N.to_uint n)) as H.
  rewrite DecimalN.Unsigned.of_to in H. unfold Decimal.unorm in H.
  pose proof (nzhead_not_D0 (N.to_uint n)) as Hnz.
  destruct (Decimal.nzhead (N.to_uint n)) as [|d|d|d|d|d|d|d|d|d|d]; rewrite H; cbn;
    try (by eexists _, _). by destruct (Hnz d).
Qed.

Definition stops_digits (r : str) : Prop :=
  match r with [] => True | c :: _ => is_digit c = false end.

Lemma span_digits_app ds r :
  forallb is_digit ds = true -> stops_digits r -> span_digits (ds ++ r) = (ds, r).
Proof.
  induction ds as [|c ds IH]; cbn; intros Hd Hr.
  - destruct r as [|c r]; cbn in *; [done|]. by rewrite Hr.
  - apply andb_true_iff in Hd as [Hc Hd]. by rewrite Hc, IH.
Qed.

(** What may follow a number: the next character ends it. *)
Definition stops_number (r : str) : Prop :=
  match r with
  | [] => True
  | c :: _ => is_digit c = false /\ c <> 46%N /\ c <> 101%N /\ c <> 69%N
  end.

Lemma stops_number_digits r : stops_number r -> stops_digits r.
Proof. destruct r; cbn; naive_solver. Qed.

Lemma scan_frac_stop r : stops_number r -> scan_frac r = ([], r).
Proof.
  destruct r as [|c r]; cbn; [done|]. intros (_ & H & _).
  destruct c as [|p]; [done|]. repeat (destruct p as [p|p|]; try done).
Qed.

Lemma scan_exp_stop r : stops_number r -> scan_exp r = (None, r).
Proof.
  destruct r as [|c r]; cbn; [done|]. intros (_ & _ & H1 & H2).
  by rewrite (proj2 (N.eqb_neq c 101)), (proj2 (N.eqb_neq c 69)).
Qed.

Lemma int_part_cons c ds :
  int_part (c :: ds) = if (c =? 48)%N then ([48%N], ds) else span_digits (c :: ds).
Proof.
  unfold int_part. destruct c as [|p]; [done|]. repeat (destruct p as [p|p|]; try done).
Qed.

Lemma int_part_str_of_N n r : stops_digits r -> int_part (str_of_N n ++ r) = (str_of_N n, r).
Proof.
  intros Hr. pose proof (str_of_N_digits n) as Hd.
  destruct (str_of_N_head n) as (c & ds & E & Hc & H0). rewrite E in *. cbn [app].
  rewrite int_part_cons. destruct (N.eqb_spec c 48) as [->|Hne].
  - by rewrite H0.
  - by apply (span_digits_app (c :: ds)).
Qed.

Definition scan_unsigned (neg : bool) (s1 : str) : option (res (json * str)) :=
  match int_part s1 with
  | ([], _) => None
  | (ds, s2) =>
      let '(fs, s3) := scan_frac s2 in
      let '(x, s4) := scan_exp s3 in
      match fs, x with
      | [], None => Some (result_map (fun v => (v, s4)) (int_literal neg ds))
      | _, _ =>
          let m := Z.of_N (digits_value 0 (ds ++ fs)) in
          Some (Ok (JFloat (dec (if neg then - m else m)
                                (default 0 x - Z.of_nat (length fs)))%Z, s4))
      end
  end.

Lemma scan_number_unsigned c s :
  scan_number (c :: s) = if (c =? 45)%N then scan_unsigned true s else scan_unsigned false (c :: s).
Proof.
  unfold scan_number, scan_unsigned. destruct c as [|p]; [done|].
  repeat (destruct p as [p|p|]; try done).
Qed.

Definition int_ok (z : Z) : bool := (length (str_of_N (Z.abs_N z)) <=? max_str_digits)%nat.

Lemma scan_unsigned_str_of_N neg n r :
  (length (str_of_N n) <= max_str_digits)%nat -> stops_number r ->
  scan_unsigned neg (str_of_N n ++ r)
  = Some (Ok (JInt (if neg then - Z.of_N n else Z.of_N n)%Z, r)).
Proof.
  intros Hn Hr. unfold scan_unsigned.
  rewrite int_part_str_of_N by auto using stops_number_digits.
  destruct (str_of_N_head n) as (c & ds & E & _).
  rewrite scan_frac_stop, scan_exp_stop by done. unfold int_literal.
  rewrite (proj2 (Nat.ltb_ge _ _)) by done. rewrite digits_value_str_of_N. by rewrite E.
Qed.

Lemma scan_number_int z r :
  int_ok z = true -> stops_number r -> scan_number (str_of_Z z ++ r) = Some (Ok (JInt z, r)).
Proof.
  unfold int_ok. intros Hz%Nat.leb_le Hr.
  assert (forall n, scan_number (str_of_N n ++ r) = scan_unsigned false (str_of_N n ++ r)) as Hu.
  { intros n. destruct (str_of_N_head n) as (c & ds & -> & Hc & _). cbn [app].
    rewrite scan_number_unsigned. destruct (N.eqb_spec c 45) as [->|]; done. }
  destruct z as [|p|p]; unfold str_of_Z; cbn [Z.abs_N Z.to_N] in *.
  - by rewrite Hu, scan_unsigned_str_of_N.
  - by rewrite Hu, scan_unsigned_str_of_N.
  - cbn [app]. rewrite scan_number_unsigned. cbn [N.eqb Pos.eqb].
    by rewrite scan_unsigned_str_of_N.
Qed.

(** *** Floats *)

(** A decimal without trailing zeros. *)
Definition canonical (m e : Z) : bool := if (m =? 0)%Z then (e =? 0)%Z else negb (m mod 10 =? 0)%Z.

Lemma strip_zeros_pow m e k : forall fuel,
  (m mod 10 <> 0)%Z -> (k < fuel)%nat ->
  strip_zeros fuel (m * 10 ^ Z.of_nat k) (e - Z.of_nat k) = (m, e).
Proof.
  intros fuel Hm. revert e fuel. induction k as [|k IH]; intros e fuel Hk; (destruct fuel as [|fuel]; [lia|]).
  - cbn [strip_zeros]. rewrite Z.mul_1_r, Z.sub_0_r.
    rewrite (proj2 (Z.eqb_neq m 0)), (proj2 (Z.eqb_neq _ _)) by (done || by intros ->). done.
  - assert (m * 10 ^ Z.of_nat (S k) = (m * 10 ^ Z.of_nat k) * 10)%Z as E
      by (rewrite Nat2Z.inj_succ, Z.pow_succ_r by lia; ring).
    assert (0 < 10 ^ Z.of_nat k)%Z by (apply Z.pow_pos_nonneg; lia).
    assert (m <> 0)%Z by by intros ->.
    cbn [strip_zeros]. rewrite E, (proj2 (Z.eqb_neq _ 0)) by nia.
    rewrite Z.mod_mul, Z.div_mul by done. cbn [Z.eqb].
    replace (e - Z.of_nat (S k) + 1)%Z with (e - Z.of_nat k)%Z by lia. apply IH. lia.
Qed.

Lemma strip_zeros_zero fuel e : strip_zeros (S fuel) 0 e = (0, 0)%Z.
Proof. done. Qed.

Lemma canonical_spec m e : canonical m e = true -> (m = 0 /\ e = 0)%Z \/ (m mod 10 <> 0)%Z.
Proof.
  unfold canonical. destruct (Z.eqb_spec m 0) as [->|]; [intros ?%Z.eqb_eq; by left|].
  intros ?%negb_true_iff%Z.eqb_neq. by right.
Qed.

(** The digits of a decimal with [k] zeros behind them. *)
Lemma dec_pow m e k :
  canonical m e = true -> (0 <= k)%Z -> dec (m * 10 ^ k) (e - k) = Dec m e.
Proof.
  intros [[-> ->]|Hm]%canonical_spec Hk; unfold dec; [by rewrite Nat.add_comm|].
  assert (0 < 10 ^ k)%Z as Hpos by (apply Z.pow_pos_nonneg; lia).
  assert (m <> 0)%Z by by intros ->.
  assert (k <= Z.log2 (Z.abs (m * 10 ^ k)))%Z as Hlog.
  { apply Z.log2_le_pow2; [nia|]. rewrite Z.abs_mul, (Z.abs_eq (10 ^ k)) by lia.
    assert (2 ^ k <= 10 ^ k)%Z by (apply Z.pow_le_mono_l; lia). nia. }
  pose proof (strip_zeros_pow m e (Z.to_nat k)) as Hs. rewrite Z2Nat.id in Hs by done.
  by rewrite Hs by (done || lia).
Qed.

Lemma dec_canonical m e : canonical m e = true -> dec m e = Dec m e.
Proof. intros Hc. pose proof (dec_pow m e 0 Hc ltac:(lia)) as H. by rewrite Z.mul_1_r, Z.sub_0_r in H. Qed.

Lemma canonical_opp m e : canonical (- m) e = canonical m e.
Proof.
  unfold canonical. replace (- m =? 0)%Z with (m =? 0)%Z by (apply eq_true_iff_eq; rewrite !Z.eqb_eq; lia).
  destruct (m =? 0)%Z; [done|]. f_equal. apply eq_true_iff_eq.
  rewrite !Z.eqb_eq, !(Z.mod_divide _ 10) by done. apply Z.divide_opp_r.
Qed.

(** Digits that an integer part can have. *)
Definition int_digits (ip : str) : Prop :=
  exists c t, ip = c :: t /\ forallb is_digit ip = true /\ (c = 48%N -> t = []).

Lemma int_part_digits ip r : int_digits ip -> stops_digits r -> int_part (ip ++ r) = (ip, r).
Proof.
  intros (c & t & -> & Hd & H0) Hr. cbn [app]. rewrite int_part_cons. destruct (N.eqb_spec c 48) as [->|Hne].
  - by rewrite H0.
  - by apply (span_digits_app (c :: t)).
Qed.

(** A fraction, and an exponent. *)
Lemma scan_unsigned_frac neg ip fs r :
  int_digits ip -> forallb is_digit fs = true -> fs <> [] -> stops_number r ->
  scan_unsigned neg (ip ++ 46%N :: fs ++ r)
  = let m := Z.of_N (digits_value 0 (ip ++ fs)) in
    Some (Ok (JFloat (dec (if neg then - m else m) (0 - Z.of_nat (length fs)))%Z, r)).
Proof.
  intros Hip Hfs Hne Hr. unfold scan_unsigned. rewrite int_part_digits by done.
  destruct Hip as (c & t & -> & _ & _). cbn [scan_frac].
  rewrite span_digits_app by auto using stops_number_digits. destruct fs as [|f fs]; [done|].
  by rewrite scan_exp_stop.
Qed.

Definition exponent_text (x : Z) : str :=
  (if (x <? 0)%Z then [45%N] else [43%N]) ++ (if (Z.abs x <? 10)%Z then [48%N] else []) ++ str_of_N (Z.abs_N x).

Lemma scan_exp_text x r : stops_number r -> scan_exp (101%N :: exponent_text x ++ r) = (Some x, r).
Proof.
  intros Hr. unfold exponent_text. rewrite <-!app_assoc.
  set (ds := (if (Z.abs x <? 10)%Z then [48%N] else []) ++ str_of_N (Z.abs_N x)).
  assert (forallb is_digit ds = true) as Hd.
  { unfold ds. rewrite forallb_app, str_of_N_digits. by destruct (Z.abs x <? 10)%Z. }
  assert (digits_value 0 ds = Z.abs_N x) as Hv.
  { unfold ds. destruct (Z.abs x <? 10)%Z; [|apply digits_value_str_of_N].
    rewrite digits_value_app. apply digits_value_str_of_N. }
  assert (exists d ds', ds = d :: ds') as (d & ds' & Ed).
  { unfold ds. destruct (str_of_N_head (Z.abs_N x)) as (c & t & -> & _). destruct (Z.abs x <? 10)%Z; by eexists _, _. }
  rewrite (app_assoc _ (str_of_N _) r). fold ds.
  assert (span_digits (ds ++ r) = (ds, r)) as Hs by (apply span_digits_app; auto using stops_number_digits).
  destruct (Z.ltb_spec x 0); cbn [app scan_exp]; cbn [N.eqb Pos.eqb orb]; rewrite Hs, Ed, <-Ed, Hv;
    f_equal; f_equal; lia.
Qed.

Definition frac_text (fs : str) : str := match fs with [] => [] | _ => 46%N :: fs end.

Lemma scan_unsigned_exp neg ip fs x r :
  int_digits ip -> forallb is_digit fs = true -> stops_number r ->
  scan_unsigned neg (ip ++ frac_text fs ++ 101%N :: exponent_text x ++ r)
  = let m := Z.of_N (digits_value 0 (ip ++ fs)) in
    Some (Ok (JFloat (dec (if neg then - m else m) (x - Z.of_nat (length fs)))%Z, r)).
Proof.
  intros Hip Hfs Hr. unfold scan_unsigned. rewrite int_part_digits by (done || by destruct fs).
  destruct Hip as (c & t & -> & _ & _).
  assert (scan_frac (frac_text fs ++ 101%N :: exponent_text x ++ r)
          = (fs, 101%N :: exponent_text x ++ r)) as ->.
  { destruct fs as [|f fs]; [done|].
    pose proof (span_digits_app (f :: fs) (101%N :: exponent_text x ++ r) Hfs) as Hs. cbn [app scan_frac frac_text] in *.
    by rewrite Hs. }
  rewrite scan_exp_text by done. by destruct fs.
Qed.

Lemma digits_value_zeros acc k : digits_value acc (repeat 48%N k) = (acc * 10 ^ N.of_nat k)%N.
Proof.
  revert acc. induction k as [|k IH]; intros acc; [cbn; lia|].
  change (repeat 48%N (S k)) with ([48%N] ++ repeat 48%N k). rewrite digits_value_app, IH.
  rewrite Nat2N.inj_succ, N.pow_succ_r by lia. cbn. lia.
Qed.

Lemma digits_value_lead_zeros k ds : digits_value 0 (repeat 48%N k ++ ds) = digits_value 0 ds.
Proof. by rewrite digits_value_app, digits_value_zeros. Qed.

Lemma zeros_digits k : forallb is_digit (zeros k) = true.
Proof. unfold zeros. induction (Z.to_nat k); done. Qed.

Lemma forallb_take_drop {A} (P : A -> bool) n l :
  forallb P l = true -> forallb P (take n l) = true /\ forallb P (drop n l) = true.
Proof. intros H. by rewrite <-(take_drop n l), forallb_app, andb_true_iff in H. Qed.

(** A float is printed as its sign and an unsigned part. *)
Definition unsigned_repr (a e : Z) : str :=
  let ds := str_of_N (Z.to_N a) in
  let n := Z.of_nat (length ds) in
  let point := (n + e)%Z in
  if ((-4 <? point) && (point <=? 16))%Z then
    if (point <=? 0)%Z then "0." ++ zeros (- point) ++ ds
    else if (n <=? point)%Z then ds ++ zeros (point - n) ++ ".0"
    else take (Z.to_nat point) ds ++ "." ++ drop (Z.to_nat point) ds
  else take 1 ds ++ frac_text (drop 1 ds) ++ 101%N :: exponent_text (point - 1).

Lemma str_of_Z_N z : (0 <= z)%Z -> str_of_Z z = str_of_N (Z.to_N z).
Proof. by destruct z. Qed.

Lemma decimal_repr_unsigned m e :
  canonical m e = true ->
  decimal_repr m e = (if (m <? 0)%Z then [45%N] else []) ++ unsigned_repr (Z.abs m) e.
Proof.
  intros Hc. unfold decimal_repr, unsigned_repr.
  pose proof (dec_canonical m e Hc) as Hs. unfold dec in Hs.
  destruct (strip_zeros _ m e) as [m' e']. injection Hs as -> ->.
  rewrite (str_of_Z_N (Z.abs m)) by lia. set (ds := str_of_N (Z.to_N (Z.abs m))).
  set (point := (Z.of_nat (length ds) + e)%Z).
  f_equal.
  destruct (_ && _); [done|]. f_equal. unfold exponent_text. rewrite (str_of_Z_N (Z.abs (point - 1))) by lia.
  replace (Z.to_N (Z.abs (point - 1))) with (Z.abs_N (point - 1)) by lia.
  f_equal. destruct ds as [|d [|d' ds]]; [done|done|]. cbn [drop length]. by rewrite (proj2 (Z.ltb_lt _ _)) by lia.
Qed.

Lemma scan_unsigned_repr neg a e r :
  (0 <= a)%Z -> canonical a e = true -> stops_number r ->
  scan_unsigned neg (unsigned_repr a e ++ r)
  = Some (Ok (JFloat (Dec (if neg then - a else a) e)%Z, r)).
Proof.
  intros Ha Hc Hr.
  assert (forall k x, (0 <= k)%Z -> x = (e - k)%Z ->
    dec (if neg then - (a * 10 ^ k) else a * 10 ^ k) x = Dec (if neg then - a else a) e) as Hdec.
  { intros k x Hk ->. destruct neg; [|by apply dec_pow]. rewrite <-Z.mul_opp_l. apply dec_pow; [|done].
    by rewrite canonical_opp. }
  unfold unsigned_repr. set (ds := str_of_N (Z.to_N a)).
  assert (forallb is_digit ds = true) as Hd by apply str_of_N_digits.
  assert (Z.of_N (digits_value 0 ds) = a) as Hv by (unfold ds; rewrite digits_value_str_of_N; lia).
  destruct (str_of_N_head (Z.to_N a)) as (c & t & Eds & Hcd & H0). fold ds in Eds.
  set (n := Z.of_nat (length ds)). set (point := (n + e)%Z).
  assert (int_digits [48%N]) as H48 by (by exists 48%N, []).
  assert (scan_unsigned neg ((take 1 ds ++ frac_text (drop 1 ds)
              ++ 101%N :: exponent_text (point - 1)) ++ r)
          = Some (Ok (JFloat (Dec (if neg then - a else a) e)%Z, r))) as Hexp.
  { destruct (forallb_take_drop is_digit 1 ds Hd) as [Ht Hdr]. rewrite <-!app_assoc. cbn [app].
    rewrite scan_unsigned_exp; [|rewrite Eds in Ht |- *; by exists c, []|done|done].
    cbn zeta. rewrite take_drop, Hv, length_drop.
    rewrite <-(Hdec 0%Z (point - 1 - Z.of_nat (length ds - 1))%Z) by (unfold point, n; rewrite ?Eds; cbn [length]; lia).
    by rewrite Z.mul_1_r. }
  destruct (Z.ltb_spec (-4) point), (Z.leb_spec point 16); cbn [andb]; [|exact Hexp..].
  destruct (Z.leb_spec point 0); [|destruct (Z.leb_spec n point)]; rewrite <-?app_assoc.
  - change ("0." : str) with ([48%N] ++ [46%N]). rewrite <-app_assoc. cbn [app].
    change (48%N :: ?s) with ([48%N] ++ s). rewrite (app_assoc (zeros _) ds r).
    rewrite scan_unsigned_frac; [|exact H48|by rewrite forallb_app, zeros_digits|rewrite Eds; by destruct (zeros _)|done].
    cbn zeta. unfold zeros. rewrite digits_value_app. change (digits_value 0 [48%N]) with 0%N.
    rewrite digits_value_lead_zeros, Hv, length_app, repeat_length.
    rewrite <-(Hdec 0%Z (0 - Z.of_nat (Z.to_nat (- point) + length ds))%Z) by lia. by rewrite Z.mul_1_r.
  - change (".0" : str) with (46%N :: [48%N]). cbn [app].
    change (46%N :: 48%N :: r) with (46%N :: [48%N] ++ r). rewrite (app_assoc ds).
    assert (point - n = e)%Z as Ee by lia. rewrite Ee.
    rewrite (scan_unsigned_frac neg (ds ++ zeros e) [48%N] r); [|exists c, (t ++ zeros e)|done|done|done].
    2: { split_and!; [by rewrite Eds|by rewrite forallb_app, Hd, zeros_digits|]. intros Hc48.
         rewrite (H0 Hc48) in *. rewrite Eds, Hc48 in Hv. cbn in Hv. subst a. unfold canonical in Hc. cbn in Hc.
         apply Z.eqb_eq in Hc as ->. done. }
    cbn zeta. unfold zeros. rewrite <-app_assoc, digits_value_app.
    change [48%N] with (repeat 48%N 1). rewrite <-repeat_app, digits_value_zeros.
    rewrite <-(Hdec (e + 1)%Z (0 - 1)%Z) by lia.
    assert (Z.of_N (digits_value 0 ds * 10 ^ N.of_nat (Z.to_nat e + 1)) = a * 10 ^ (e + 1))%Z as ->; [|done].
    rewrite N2Z.inj_mul, Hv, N2Z.inj_pow. f_equal. f_equal. lia.
  - change ("." : str) with [46%N]. cbn [app].
    destruct (forallb_take_drop is_digit (Z.to_nat point) ds Hd) as [Ht Hdr].
    assert (c <> 48%N) as Hc48.
    { intros Hc48. rewrite (H0 Hc48) in Eds. unfold n in *. rewrite Eds in *. cbn in *. lia. }
    rewrite scan_unsigned_frac; [| |done| |done].
    + cbn zeta. rewrite take_drop, Hv, length_drop.
      rewrite <-(Hdec 0%Z (0 - Z.of_nat (length ds - Z.to_nat point))%Z) by lia. by rewrite Z.mul_1_r.
    + rewrite Eds in Ht |- *. destruct (Z.to_nat point) as [|k] eqn:Ek; [lia|]. by eexists c, _.
    + intros E%(f_equal length). rewrite length_drop in E. cbn in E. lia.
Qed.

Lemma unsigned_repr_head a e : exists c t, unsigned_repr a e = c :: t /\ is_digit c = true.
Proof.
  unfold unsigned_repr. destruct (str_of_N_head (Z.to_N a)) as (c & t & -> & Hc & _).
  set (point := (Z.of_nat (length (c :: t)) + e)%Z).
  destruct (Z.ltb_spec (-4) point), (Z.leb_spec point 16); cbn [andb]; [|by eexists _, _..].
  destruct (Z.leb_spec point 0); [by eexists _, _|]. destruct (_ <=? point)%Z; [by eexists _, _|].
  destruct (Z.to_nat point) as [|k] eqn:E; [lia|by eexists _, _].
Qed.

(** A decimal that a float keeps: at most 15 digits, and in the range of floats. *)
Definition float_ok (f : pyfloat) : bool :=
  match f with
  | Dec m e => canonical m e && (length (str_of_N (Z.abs_N m)) <=? 15)%nat && (Z.abs e <=? 290)%Z
  | _ => false
  end.

Lemma float_ok_spec m e :
  float_ok (Dec m e) = true ->
  canonical m e = true /\ (length (str_of_N (Z.abs_N m)) <= 15)%nat /\ (Z.abs e <= 290)%Z.
Proof. cbn [float_ok]. rewrite !andb_true_iff, Nat.leb_le, Z.leb_le. tauto. Qed.

Lemma digits_value_ge ds : forall acc, (acc * 10 ^ N.of_nat (length ds) <= digits_value acc ds)%N.
Proof.
  induction ds as [|c ds IH]; intros acc; [cbn; lia|].
  change (digits_value acc (c :: ds)) with (digits_value (acc * 10 + (c - 48)) ds).
  etransitivity; [|apply IH]. cbn [length]. rewrite Nat2N.inj_succ, N.pow_succ_r'. nia.
Qed.

(** A number below [10 ^ k] has [k] digits at most. *)
Lemma str_of_N_length n k : (n < 10 ^ N.of_nat (S k))%N -> (length (str_of_N n) <= S k)%nat.
Proof.
  intros Hn. destruct (str_of_N_head n) as (c & ds & E & Hd & H0).
  destruct ds as [|c' ds]; [rewrite E; cbn; lia|].
  pose proof (digits_value_str_of_N n) as Hv. rewrite E in Hv.
  change (digits_value 0 (c :: c' :: ds)) with (digits_value (0 * 10 + (c - 48)) (c' :: ds)) in Hv.
  pose proof (digits_value_ge (c' :: ds) (0 * 10 + (c - 48))%N) as Hge. rewrite Hv in Hge.
  assert (1 <= 0 * 10 + (c - 48))%N as Hc.
  { unfold is_digit in Hd. rewrite andb_true_iff, !N.leb_le in Hd. destruct (N.eq_dec c 48) as [->|]; [by specialize (H0 eq_refl)|lia]. }
  rewrite E. cbn [length] in *. destruct (decide (S (S (length ds)) <= S k)) as [|Hlt]; [done|].
  assert (10 ^ N.of_nat (S k) <= 10 ^ N.of_nat (S (length ds)))%N by (apply N.pow_le_mono_r; lia). nia.
Qed.

Lemma strip_zeros_bounds fuel : forall m e m' e',
  strip_zeros fuel m e = (m', e') -> (m <> 0)%Z -> (Z.abs m < 2 ^ Z.of_nat fuel)%Z ->
  canonical m' e' = true /\ (Z.abs m' <= Z.abs m)%Z /\ (Z.abs e' <= Z.abs e + Z.of_nat fuel)%Z.
Proof.
  induction fuel as [|fuel IH]; intros m e m' e'; cbn [strip_zeros]; [intros _ ?; cbn; lia|].
  intros E Hm Hlt. rewrite (proj2 (Z.eqb_neq m 0)) in E by done.
  destruct (Z.eqb_spec (m mod 10) 0) as [Hmod|Hmod].
  - assert (m = 10 * (m / 10))%Z as Hq by (rewrite (Z.div_mod m 10) at 1 by done; lia).
    rewrite Nat2Z.inj_succ, Z.pow_succ_r in Hlt by lia.
    destruct (IH _ _ _ _ E ltac:(lia) ltac:(lia)) as (Hc & Ha & He). split_and!; [done|lia|lia].
  - injection E as <- <-. split_and!; [|lia|lia]. unfold canonical. rewrite (proj2 (Z.eqb_neq m 0)) by done.
    by rewrite (proj2 (Z.eqb_neq _ _)).
Qed.

(** A decimal of at most 15 digits is a float that is printed as it was. *)
Lemma float_ok_dec m e : (Z.abs m < 10 ^ 15)%Z -> (Z.abs e <= 200)%Z -> float_ok (dec m e) = true.
Proof.
  intros Hm He. destruct (Z.eq_dec m 0) as [->|Hne]; [done|]. unfold dec.
  destruct (strip_zeros _ m e) as [m' e'] eqn:E.
  assert (Z.log2 (Z.abs m) < 50)%Z as Hlog.
  { apply Z.log2_lt_pow2; [lia|]. etransitivity; [exact Hm|]. by vm_compute. }
  pose proof (Z.log2_nonneg (Z.abs m)). pose proof (Z.log2_spec (Z.abs m) ltac:(lia)) as [_ Hs].
  apply strip_zeros_bounds in E as (Hc & Ha & He'); [|done|].
  2: { etransitivity; [exact Hs|]. apply Z.pow_lt_mono_r; lia. }
  cbn [float_ok]. rewrite !andb_true_iff, Nat.leb_le, Z.leb_le. split_and!; [done| |lia].
  apply (str_of_N_length (Z.abs_N m') 14). change (N.of_nat 15) with 15%N.
  apply N2Z.inj_lt. rewrite N2Z.inj_abs_N, N2Z.inj_pow. change (Z.of_N 10 ^ Z.of_N 15)%Z with (10 ^ 15)%Z. lia.
Qed.

Lemma scan_number_float m e r :
  float_ok (Dec m e) = true -> stops_number r ->
  scan_number (decimal_repr m e ++ r) = Some (Ok (JFloat (Dec m e), r)).
Proof.
  intros (Hc & _ & _)%float_ok_spec Hr. rewrite decimal_repr_unsigned by done.
  assert (canonical (Z.abs m) e = true) as Ha by (destruct (Z.abs_spec m) as [[_ ->]|[_ ->]]; by rewrite ?canonical_opp).
  pose proof (scan_unsigned_repr (m <? 0)%Z (Z.abs m) e r ltac:(lia) Ha Hr) as Hs.
  destruct (unsigned_repr_head (Z.abs m) e) as (c & t & E & Hd). rewrite E in *. cbn [app] in *.
  destruct (Z.ltb_spec m 0); cbn [app]; rewrite scan_number_unsigned; cbn [N.eqb Pos.eqb].
  - rewrite Hs. by replace (- Z.abs m)%Z with m by lia.
  - destruct (N.eqb_spec c 45) as [->|_]; [done|]. rewrite Hs. by replace (Z.abs m) with m by lia.
Qed.

Lemma str_of_N_thousand n : (n < 1000)%N -> (length (str_of_N n) <= 3)%nat.
Proof.
  intros Hn. assert (forallb (fun k => length (str_of_N (N.of_nat k)) <=? 3)%nat (seq 0 1000) = true) as H
    by (vm_compute; reflexivity).
  rewrite forallb_forall in H. specialize (H (N.to_nat n)). rewrite N2Nat.id in H. apply Nat.leb_le, H, in_seq. lia.
Qed.

Lemma decimal_repr_length m e :
  float_ok (Dec m e) = true -> (length (decimal_repr m e) <= max_str_digits)%nat.
Proof.
  intros (Hc & Hd & He)%float_ok_spec. rewrite decimal_repr_unsigned, length_app by done.
  assert (length (if (m <? 0)%Z then [45%N] else []) <= 1)%nat by (destruct (m <? 0)%Z; cbn; lia).
  assert (100 < max_str_digits)%nat by (apply Nat.ltb_lt; reflexivity).
  enough (length (unsigned_repr (Z.abs m) e) <= 80)%nat. lia.
  unfold unsigned_repr. replace (Z.to_N (Z.abs m)) with (Z.abs_N m) by lia.
  set (ds := str_of_N (Z.abs_N m)) in *. set (point := (Z.of_nat (length ds) + e)%Z).
  assert (length (exponent_text (point - 1)) <= 5)%nat as Hx.
  { pose proof (str_of_N_thousand (Z.abs_N (point - 1)) ltac:(lia)). unfold exponent_text.
    rewrite !length_app. repeat case_match; cbn [length]; lia. }
  assert (length (frac_text (drop 1 ds)) <= S (length ds))%nat as Hf.
  { pose proof (length_drop ds 1). unfold frac_text. destruct (drop 1 ds); cbn [length] in *; lia. }
  destruct (Z.ltb_spec (-4) point), (Z.leb_spec point 16); cbn [andb].
  1: destruct (Z.leb_spec point 0); [|destruct (_ <=? point)%Z].
  all: unfold zeros; rewrite ?length_app; cbn [length]; rewrite ?repeat_length, ?length_take, ?length_drop; lia.
Qed.

(** *** Strings *)

Lemma read_hex4_hex4 n :
  (n < 0x10000)%N ->
  exists a b c d, hex4 n = [a; b; c; d] /\ read_hex4 a b c d = Some n.
Proof.
  intros Hn. eexists _, _, _, _. split; [done|]. unfold read_hex4.
  rewrite !hex_value_digit by dlia. f_equal. dlia.
Qed.

(** One [u] escape. *)
Lemma scan_string_u u s :
  (u < 0x10000)%N -> is_high u = false -> scan_string (u_escape u ++ s) = push u (scan_string s).
Proof.
  intros Hu Hh. unfold u_escape. destruct (read_hex4_hex4 u Hu) as (a & b & c & d & -> & Hr).
  cbn [app scan_string N.eqb Pos.eqb backslash]. cbn. by rewrite Hr, Hh.
Qed.

Lemma scan_string_pair hi lo s :
  (hi < 0x10000)%N -> (lo < 0x10000)%N -> is_high hi = true -> is_low lo = true ->
  scan_string (u_escape hi ++ u_escape lo ++ s) = push (join_pair hi lo) (scan_string s).
Proof.
  intros Hhi Hlo Hh Hl. unfold u_escape.
  destruct (read_hex4_hex4 hi Hhi) as (a & b & c & d & -> & Hr).
  destruct (read_hex4_hex4 lo Hlo) as (a' & b' & c' & d' & -> & Hr').
  cbn [app scan_string]. cbn. by rewrite Hr, Hh, Hr', Hl.
Qed.

Lemma scan_string_char c s :
  valid_char c = true -> scan_string (escape_char c ++ s) = push c (scan_string s).
Proof.
  intros Hv. unfold escape_char.
  repeat match goal with
    | |- context [(c =? ?k)%N] => destruct (N.eqb_spec c k) as [->|?]; [done|]
    end.
  destruct (N.leb_spec 32 c), (N.leb_spec c 126); cbn [andb].
  { cbn [app scan_string]. rewrite !(proj2 (N.eqb_neq _ _)) by done.
    by rewrite (proj2 (N.ltb_ge c 32)). }
  all: unfold valid_char, is_surrogate in Hv;
    apply andb_true_iff in Hv as [Hc Hs%negb_true_iff];
    apply N.ltb_lt in Hc; apply andb_false_iff in Hs.
  all: destruct (N.ltb_spec c 0x10000).
  1, 3, 5: apply scan_string_u; [done|]; unfold is_high; apply andb_false_iff;
    rewrite N.leb_gt, N.ltb_ge in *; lia.
  all: rewrite <-app_assoc, scan_string_pair;
    [|dlia|dlia|unfold is_high; apply andb_true_iff; rewrite N.leb_le, N.ltb_lt; dlia
     |unfold is_low; apply andb_true_iff; rewrite N.leb_le, N.ltb_lt; dlia].
  all: f_equal; unfold join_pair; dlia.
Qed.

Lemma scan_string_escape s r :
  forallb valid_char s = true -> scan_string (escape_chars s ++ quote_char :: r) = Ok (s, r).
Proof.
  induction s as [|c s IH]; cbn [escape_chars forallb]; intros H; [done|].
  apply andb_true_iff in H as [Hc Hs].
  rewrite <-app_assoc, scan_string_char, IH by done. done.
Qed.

(** *** Values *)

(** No lone surrogate, distinct keys, and no number that is cut or rounded. *)
Fixpoint json_ok (v : json) : bool :=
  match v with
  | JNull | JBool _ => true
  | JInt z => int_ok z
  | JFloat f => float_ok f
  | JStr s => forallb valid_char s
  | JArr l => forallb json_ok l
  | JObj d => bool_decide (NoDup (map fst d))
              && forallb (fun kv => forallb valid_char kv.1 && json_ok kv.2) d
  end.

(** The value with its dicts in the order they are printed. *)
Fixpoint json_order (st : dump_style) (v : json) : json :=
  match v with
  | JArr l => JArr (map (json_order st) l)
  | JObj d =>
      let d' := map (fun kv => (kv.1, json_order st kv.2)) d in
      JObj (if sort_keys st then sort_items d' else d')
  | _ => v
  end.

(** The separators of a style are a comma and a colon, with white space. *)
Definition style_ok (st : dump_style) : Prop :=
  (exists w, item_sep st = 44%N :: w /\ forallb is_ws w = true) /\
  (exists w, key_sep st = 58%N :: w /\ forallb is_ws w = true).

Lemma default_style_ok : style_ok default_style.
Proof. split; by exists [32%N]. Qed.
Lemma sorted_style_ok : style_ok sorted_style.
Proof. split; by exists [32%N]. Qed.
Lemma canonical_style_ok : style_ok canonical_style.
Proof. split; by exists []. Qed.
#[export] Hint Resolve default_style_ok sorted_style_ok canonical_style_ok : enclave.

(** Fuel for one value, and for the elements of a list of values. *)
Fixpoint json_fuel (v : json) : nat :=
  match v with
  | JArr l => S (foldr (fun v n => S (json_fuel v + n)) 0 l)
  | JObj d => S (foldr (fun kv n => S (json_fuel kv.2 + n)) 0 d)
  | _ => 1
  end.

Lemma skip_ws_app w r : forallb is_ws w = true -> skip_ws (w ++ r) = skip_ws r.
Proof. induction w as [|c w IH]; cbn; [done|]. intros [Hc Hw]%andb_true_iff. by rewrite Hc, IH. Qed.

Lemma skip_ws_head c r : is_ws c = false -> skip_ws (c :: r) = c :: r.
Proof. cbn. by intros ->. Qed.

(** What a printed value starts with. *)
Definition value_head (c : N) : bool :=
  negb (is_ws c) && negb (c =? 93)%N && negb (c =? 125)%N && (c <? 128)%N.

Lemma is_digit_value_head c : is_digit c = true -> value_head c = true.
Proof.
  unfold is_digit, value_head, is_ws. rewrite andb_true_iff, !N.leb_le. intros [H1 H2].
  rewrite !(proj2 (N.eqb_neq _ _)), (proj2 (N.ltb_lt c 128)) by lia. done.
Qed.

Lemma decimal_repr_head m e :
  canonical m e = true -> exists c t, decimal_repr m e = c :: t /\ (is_digit c = true \/ c = 45%N).
Proof.
  intros Hc. rewrite decimal_repr_unsigned by done. destruct (unsigned_repr_head (Z.abs m) e) as (c & t & -> & Hd).
  destruct (m <? 0)%Z; eexists _, _; (split; [done|]); auto.
Qed.

Lemma dumps_head st v : json_ok v = true -> exists c t, dumps st v = c :: t /\ value_head c = true.
Proof.
  destruct v as [|[]|z|[m e| |]|s|l|d]; cbn [dumps json_ok]; intros H; try done; try (by eexists _, _).
  2: { apply float_ok_spec in H as [H _]. destruct (decimal_repr_head m e H) as (c & t & E & Hc). exists c, t.
       split; [exact E|]. destruct Hc as [Hc| ->]; [by apply is_digit_value_head|done]. }
  destruct z as [|p|p]; unfold str_of_Z; [|destruct (str_of_N_head (Z.to_N (Z.pos p))) as (c & ds & -> & Hc & _)|].
  - by eexists _, _.
  - eexists _, _. split; [done|]. by apply is_digit_value_head.
  - by eexists _, _.
Qed.

Lemma value_head_ws c r : value_head c = true -> skip_ws (c :: r) = c :: r.
Proof. unfold value_head. rewrite !andb_true_iff, !negb_true_iff. intros [[[H _] _] _]. by apply skip_ws_head. Qed.

Lemma skip_ws_dumps st v r : json_ok v = true -> skip_ws (dumps st v ++ r) = dumps st v ++ r.
Proof. intros H. destruct (dumps_head st v H) as (c & t & -> & Hc). by apply value_head_ws. Qed.

Section RoundTrip.
Context (st : dump_style) (Hst : style_ok st).

Definition reads (v : json) : Prop := forall fuel r,
  (json_fuel v <= fuel)%nat -> stops_number r ->
  scan_value fuel (dumps st v ++ r) = Ok (json_order st v, r).

Lemma str_join_cons (sep f : str) fs :
  str_join sep (f :: fs) = f ++ match fs with [] => [] | _ => sep ++ str_join sep fs end.
Proof. destruct fs; cbn; [by rewrite app_nil_r|done]. Qed.

(** A number may be followed by a separator or a closing bracket. *)
Lemma stops_item_sep s : stops_number (item_sep st ++ s).
Proof. destruct Hst as [(w & -> & _) _]. cbn. done. Qed.

Lemma skip_ws_item_sep s : skip_ws (item_sep st ++ s) = item_sep st ++ s.
Proof. destruct Hst as [(w & -> & _) _]. done. Qed.

Lemma scan_elements_dumps l : forall fuel r,
  l <> [] -> Forall reads l -> forallb json_ok l = true ->
  (foldr (fun v n => S (json_fuel v + n)) 0 l <= fuel)%nat ->
  scan_elements fuel (str_join (item_sep st) (map (dumps st) l) ++ 93%N :: r)
  = Ok (map (json_order st) l, r).
Proof.
  induction l as [|v l IH]; intros fuel r Hne Hl Hok Hf; [done|].
  cbn [foldr] in Hf. destruct fuel as [|fuel]; [lia|].
  inv Hl as [|?? Hv Hl']. cbn in Hok. apply andb_true_iff in Hok as [Hv' Hok].
  cbn [map]. rewrite str_join_cons. cbn [scan_elements].
  destruct l as [|v2 l].
  - cbn [map]. rewrite app_nil_r, Hv by (lia || done). done.
  - cbn [map]. rewrite <-!app_assoc, Hv by (lia || apply stops_item_sep).
    cbn [mbind result_mbind result_bind].
    rewrite skip_ws_item_sep. destruct Hst as [(w & Hw & Hws) _]. rewrite Hw. cbn [app].
    rewrite skip_ws_app by done. rewrite <-Hw.
    assert (forall q, skip_ws (str_join (item_sep st) (map (dumps st) (v2 :: l)) ++ q)
            = str_join (item_sep st) (map (dumps st) (v2 :: l)) ++ q) as Hsk.
    { intros q. cbn [map]. rewrite str_join_cons, <-app_assoc.
      apply skip_ws_dumps. cbn in Hok. by apply andb_true_iff in Hok as [??]. }
    cbn [map] in Hsk. rewrite Hsk.
    change (dumps st v2 :: map (dumps st) l) with (map (dumps st) (v2 :: l)).
    rewrite IH by (done || lia). done.
Qed.

Definition member_ok (kv : str * json) : bool := forallb valid_char kv.1 && json_ok kv.2.

Definition print_member (kv : str * json) : str :=
  dumps_str kv.1 ++ key_sep st ++ dumps st kv.2.

Lemma skip_ws_members d r :
  d <> [] ->
  skip_ws (str_join (item_sep st) (map print_member d) ++ r)
  = str_join (item_sep st) (map print_member d) ++ r.
Proof. destruct d as [|kv d]; [done|]. intros _. cbn [map]. by rewrite str_join_cons. Qed.

Lemma scan_members_dumps d : forall fuel r,
  d <> [] -> Forall (fun kv => reads kv.2) d -> forallb member_ok d = true ->
  (foldr (fun kv n => S (json_fuel kv.2 + n)) 0 d <= fuel)%nat ->
  scan_members fuel (str_join (item_sep st) (map print_member d) ++ 125%N :: r)
  = Ok (map (fun kv => (kv.1, json_order st kv.2)) d, r).
Proof.
  induction d as [|[k v] d IH]; intros fuel r Hne Hd Hok Hf; [done|].
  cbn [foldr] in Hf. destruct fuel as [|fuel]; [lia|].
  inv Hd as [|?? Hv Hd']. cbn in Hv, Hok. apply andb_true_iff in Hok as [Hkv Hok].
  unfold member_ok in Hkv. apply andb_true_iff in Hkv as [Hk Hv']. cbn in Hk, Hv'.
  destruct Hst as [(w & Hw & Hws) (w' & Hw' & Hws')].
  cbn [map]. rewrite str_join_cons. unfold print_member at 1, dumps_str at 1. cbn [fst snd app].
  cbn [scan_members quote_char]. rewrite <-!app_assoc. cbn [app].
  change (34%N :: ?x) with (quote_char :: x). rewrite scan_string_escape by done.
  cbn [mbind result_mbind result_bind]. rewrite Hw'. cbn [app].
  rewrite (skip_ws_head 58) by done. rewrite skip_ws_app, skip_ws_dumps by done.
  destruct d as [|kv2 d].
  - cbn [map app]. rewrite Hv by (cbn in Hf; lia || done). done.
  - cbn [map]. rewrite <-app_assoc, Hv by (cbn in Hf; lia || apply stops_item_sep).
    cbn [mbind result_mbind result_bind].
    rewrite skip_ws_item_sep, Hw. cbn [app]. rewrite skip_ws_app by done. rewrite <-Hw.
    change (print_member kv2 :: map print_member d) with (map print_member (kv2 :: d)).
    rewrite skip_ws_members by done.
    rewrite (IH fuel r) by (cbn in Hf |- *; done || lia). done.
Qed.

Lemma dict_set_fresh k v d : k ∉ map fst d -> dict_set k v d = d ++ [(k, v)].
Proof.
  induction d as [|[k' v'] d IH]; cbn; intros H; [done|].
  unfold str_eqb. rewrite bool_decide_false by set_solver. rewrite IH by set_solver. done.
Qed.

Lemma dict_of_pairs_nodup d : NoDup (map fst d) -> dict_of_pairs d = d.
Proof.
  enough (forall acc, NoDup (map fst (acc ++ d)) ->
            foldl (fun d kv => dict_set kv.1 kv.2 d) acc d = acc ++ d) as H by apply (H []).
  induction d as [|[k v] d IH]; intros acc Hnd; cbn [foldl]; [by rewrite app_nil_r|].
  assert (k ∉ map fst acc) as Hk.
  { rewrite map_app in Hnd. apply NoDup_app in Hnd as (_ & Hdis & _).
    intros Hin. apply (Hdis k Hin). cbn. set_solver. }
  cbn [fst snd]. rewrite dict_set_fresh by done.
  replace (acc ++ (k, v) :: d) with ((acc ++ [(k, v)]) ++ d) in * by by rewrite <-app_assoc.
  by apply IH.
Qed.

(** The members of a dict in printing order. *)
Definition order_members {A} (d : list (str * A)) : list (str * A) :=
  if sort_keys st then sort_items d else d.

Lemma order_members_perm {A} (d : list (str * A)) : order_members d ≡ₚ d.
Proof. unfold order_members, sort_items. destruct (sort_keys st); [apply sorted_by_perm|done]. Qed.

Lemma order_members_map {A B} (f : A -> B) (d : list (str * A)) :
  order_members (map (fun kv => (kv.1, f kv.2)) d) = map (fun kv => (kv.1, f kv.2)) (order_members d).
Proof.
  unfold order_members, sort_items. destruct (sort_keys st); [|done].
  apply (sorted_by_map str_leb fst (fun kv : str * A => (kv.1, f kv.2)) d).
Qed.

Lemma dumps_items_members d :
  dumps_items st (map (fun kv => (kv.1, dumps st kv.2)) d)
  = str_join (item_sep st) (map print_member (order_members d)).
Proof.
  unfold dumps_items. pose proof (order_members_map (dumps st) d) as H.
  unfold order_members in *. rewrite H, map_map. done.
Qed.

Definition members_fuel (d : list (str * json)) : nat :=
  foldr (fun kv n => S (json_fuel kv.2 + n)) 0 d.

Lemma members_fuel_perm d d' : d ≡ₚ d' -> members_fuel d = members_fuel d'.
Proof. unfold members_fuel. induction 1; cbn in *; lia. Qed.

Lemma scan_value_members s fuel d r :
  skip_ws s = s -> (forall q, s <> 125%N :: q) ->
  scan_members fuel s = Ok (d, r) ->
  scan_value (S fuel) (123%N :: s) = Ok (JObj (dict_of_pairs d), r).
Proof.
  intros Hws Hne Hm. cbn [scan_value]. rewrite Hws.
  destruct s as [|c s]; [by rewrite Hm|].
  destruct (decide (c = 125%N)) as [->|Hc]; [by destruct (Hne s)|].
  destruct c as [|p]; [by rewrite Hm|]. repeat (destruct p as [p|p|]; try (by rewrite Hm)). done.
Qed.

Lemma scan_value_elements s fuel l r :
  skip_ws s = s -> (forall q, s <> 93%N :: q) ->
  scan_elements fuel s = Ok (l, r) ->
  scan_value (S fuel) (91%N :: s) = Ok (JArr l, r).
Proof.
  intros Hws Hne Hm. cbn [scan_value]. rewrite Hws.
  destruct s as [|c s]; [by rewrite Hm|].
  destruct (decide (c = 93%N)) as [->|Hc]; [by destruct (Hne s)|].
  destruct c as [|p]; [by rewrite Hm|]. repeat (destruct p as [p|p|]; try (by rewrite Hm)). done.
Qed.

Lemma scan_value_number c s fuel p :
  is_digit c = true \/ c = 45%N ->
  scan_number (c :: s) = Some p -> scan_value (S fuel) (c :: s) = p.
Proof.
  intros Hc Hs. cbn [scan_value].
  assert (c <> 34 /\ c <> 123 /\ c <> 91)%N as (? & ? & ?).
  { unfold is_digit in Hc. rewrite andb_true_iff, !N.leb_le in Hc. lia. }
  destruct c as [|q]; [by rewrite Hs|]. repeat (destruct q as [q|q|]; try (by rewrite Hs)); done.
Qed.

Lemma reads_array l :
  Forall (fun v => json_ok v = true -> reads v) l -> json_ok (JArr l) = true -> reads (JArr l).
Proof.
  intros IH Hok fuel r Hf Hr. destruct fuel as [|fuel]; [cbn in Hf; lia|].
  cbn [dumps json_order json_ok json_fuel] in *. rewrite <-!app_assoc. cbn [app].
  destruct l as [|v l]; [done|]. rewrite forallb_forall in Hok.
  apply scan_value_elements.
  + cbn [map]. rewrite str_join_cons, <-!app_assoc. apply skip_ws_dumps, Hok. by left.
  + intros q. cbn [map]. rewrite str_join_cons, <-!app_assoc.
    destruct (dumps_head st v) as (c & t & -> & Hc); [apply Hok; by left|]. cbn. intros [= -> _]. done.
  + apply scan_elements_dumps; [done| |by apply forallb_forall|lia].
    apply Forall_forall. intros x Hx. rewrite Forall_forall in IH. apply IH; [done|].
    apply Hok. by apply list_elem_of_In.
Qed.

Lemma reads_object d :
  Forall (fun kv => json_ok kv.2 = true -> reads kv.2) d -> json_ok (JObj d) = true -> reads (JObj d).
Proof.
  intros IH Hok fuel r Hf Hr. destruct fuel as [|fuel]; [cbn in Hf; lia|].
  cbn [dumps json_order json_ok json_fuel] in *. rewrite <-!app_assoc. cbn [app].
  rewrite dumps_items_members. apply andb_true_iff in Hok as [Hnd%bool_decide_eq_true Hok].
  fold (order_members (map (fun kv => (kv.1, json_order st kv.2)) d)).
  rewrite order_members_map.
  pose proof (order_members_perm d) as Hp.
  destruct (decide (d = [])) as [->|Hd].
  { unfold order_members, sort_items. by destruct (sort_keys st). }
  assert (order_members d <> []) as Hne by (intros E; rewrite E in Hp; by apply Permutation_nil in Hp).
  rewrite <-(dict_of_pairs_nodup (map _ (order_members d))).
  2: { rewrite map_map. cbn. by rewrite Hp. }
  apply scan_value_members.
  + by apply skip_ws_members.
  + intros q. destruct (order_members d) as [|kv d']; [done|]. cbn [map]. by rewrite str_join_cons.
  + apply scan_members_dumps; [done| | |pose proof (members_fuel_perm _ _ Hp); unfold members_fuel in *; lia].
    * apply Forall_forall. intros kv Hkv. rewrite Hp in Hkv. rewrite Forall_forall in IH.
      apply IH; [done|]. rewrite forallb_forall in Hok. apply list_elem_of_In, Hok in Hkv.
      by apply andb_true_iff in Hkv as [_ ?].
    * apply forallb_forall. intros kv Hkv. apply list_elem_of_In in Hkv. rewrite Hp in Hkv.
      rewrite forallb_forall in Hok. by apply Hok, list_elem_of_In.
Qed.

Lemma reads_all v : json_ok v = true -> reads v.
Proof.
  induction v as [|b|z|f|s|l IH|d IH] using json_ind; [| | | | |by apply reads_array|by apply reads_object];
    intros Hok fuel r Hf Hr; (destruct fuel as [|fuel]; [cbn in Hf; lia|]).
  - done.
  - by destruct b.
  - pose proof (scan_number_int z r Hok Hr) as Hn. cbn [dumps].
    assert (exists c s, str_of_Z z = c :: s /\ (is_digit c = true \/ c = 45%N)) as (c & s & E & Hc).
    { unfold str_of_Z. destruct z as [|p|p];
        [|destruct (str_of_N_head (Z.to_N (Z.pos p))) as (c & s & -> & Hc & _)|]; eauto. }
    rewrite E in *. cbn [app] in *. by apply scan_value_number.
  - destruct f as [m e| |]; [|done..]. pose proof (scan_number_float m e r Hok Hr) as Hn.
    apply float_ok_spec in Hok as [Hc _]. destruct (decimal_repr_head m e Hc) as (c & s & E & Hh).
    cbn [dumps float_repr]. rewrite E in *. cbn [app] in *. by apply scan_value_number.
  - cbn [dumps]. unfold dumps_str. cbn [app]. rewrite <-app_assoc. cbn [app].
    cbn [scan_value quote_char]. change (34%N :: r) with (quote_char :: r).
    by rewrite scan_string_escape.
Qed.
End RoundTrip.

(** *** The whole text *)

Section Loads.
Context (st : dump_style) (Hst : style_ok st).

Lemma item_sep_nonempty : (1 <= length (item_sep st))%nat.
Proof. destruct Hst as [(w & -> & _) _]. cbn. lia. Qed.

(** Printed parts are at least as long as the fuel reading them takes. *)
Lemma join_fuel {A} (f : A -> nat) (p : A -> str) (l : list A) :
  Forall (fun a => (f a <= 2 * length (p a))%nat) l ->
  (foldr (fun a n => S (f a + n)) 0 l <= 2 * length (str_join (item_sep st) (map p l)) + 1)%nat.
Proof.
  pose proof item_sep_nonempty as Hs.
  induction 1 as [|a l Ha Hl IH]; [cbn; lia|].
  cbn [map foldr]. rewrite str_join_cons, length_app.
  destruct l as [|b l]; [cbn in *; lia|].
  cbn [map] in *. rewrite length_app. lia.
Qed.

Lemma json_fuel_dumps v : json_ok v = true -> (json_fuel v <= 2 * length (dumps st v))%nat.
Proof.
  induction v as [|b|z|f|s|l IH|d IH] using json_ind; intros Hok;
    try (destruct (dumps_head st _ Hok) as (c & t & -> & _); cbn; lia).
  - cbn [json_fuel dumps]. rewrite !length_app. cbn in Hok. rewrite forallb_forall in Hok.
    pose proof (join_fuel json_fuel (dumps st) l) as H. cbn [length]. 
    enough (Forall (fun a => (json_fuel a <= 2 * length (dumps st a))%nat) l) by (specialize (H ltac:(done)); lia).
    rewrite Forall_forall in IH |- *. intros x Hx. apply IH; [done|]. by apply Hok, list_elem_of_In.
  - cbn [json_fuel dumps]. rewrite !length_app, dumps_items_members. cbn in Hok.
    apply andb_true_iff in Hok as [_ Hok]. rewrite forallb_forall in Hok.
    pose proof (order_members_perm st d) as Hp.
    fold (members_fuel d). rewrite <-(members_fuel_perm _ _ Hp). cbn [length].
    enough (Forall (fun kv => (json_fuel kv.2 <= 2 * length (print_member st kv))%nat) (order_members st d))
      as H%(join_fuel (fun kv => json_fuel kv.2) (print_member st) (order_members st d))
      by (unfold members_fuel; lia).
    rewrite Forall_forall in IH |- *. intros kv Hkv. rewrite Hp in Hkv.
    unfold print_member. rewrite !length_app.
    assert (json_ok kv.2 = true) as Hkv'.
    { apply list_elem_of_In, Hok in Hkv. by apply andb_true_iff in Hkv as [_ ?]. }
    specialize (IH kv Hkv Hkv'). lia.
Qed.

Lemma json_loads_dumps_order v : json_ok v = true -> json_loads (dumps st v) = Ok (json_order st v).
Proof.
  intros Hok. unfold json_loads.
  pose proof (skip_ws_dumps st v [] Hok) as Hws. rewrite app_nil_r in Hws. rewrite Hws.
  pose proof (reads_all st Hst v Hok (scan_fuel (dumps st v)) []) as Hr.
  pose proof (json_fuel_dumps v Hok) as Hf. rewrite app_nil_r in Hr.
  rewrite Hr; [|unfold scan_fuel; lia|done]. cbn [mbind result_mbind result_bind skip_ws].
  destruct (dumps_head st v Hok) as (c & t & -> & Hc).
  destruct (decide (c = 0xFEFF%N)) as [->|Hne].
  - done.
  - destruct c as [|p]; [done|]. repeat (destruct p as [p|p|]; try done).
Qed.
End Loads.

Lemma json_order_unsorted st v : sort_keys st = false -> json_order st v = v.
Proof.
  intros Hs. induction v as [|b|z|f|s|l IH|d IH] using json_ind; cbn [json_order]; rewrite ?Hs; try done.
  - f_equal. induction IH as [|x l Hx _ IH]; cbn; [done|]. by rewrite Hx, IH.
  - f_equal. induction IH as [|[k x] d Hx _ IH]; cbn; [done|]. cbn in Hx. by rewrite Hx, IH.
Qed.

(** [json.loads(json.dumps(v)) == v]. *)
Lemma json_loads_dumps v : json_ok v = true -> json_loads (json_dumps v) = Ok v.
Proof.
  intros Hok. unfold json_dumps. rewrite json_loads_dumps_order by auto with enclave.
  by rewrite json_order_unsorted.
Qed.

(** Printing is injective, up to the order of dict members when keys are sorted. *)
Lemma dumps_inj st v1 v2 :
  style_ok st -> json_ok v1 = true -> json_ok v2 = true ->
  dumps st v1 = dumps st v2 -> json_order st v1 = json_order st v2.
Proof.
  intros Hst H1 H2 E. pose proof (json_loads_dumps_order st Hst v1 H1) as L1.
  rewrite E, (json_loads_dumps_order st Hst v2 H2) in L1. congruence.
Qed.

(** A member is found under its key whatever the order. *)
Lemma dict_get_in k v d : NoDup (map fst d) -> dict_get k d = Some v <-> (k, v) ∈ d.
Proof.
  induction d as [|[k' v'] d IH]; cbn; intros Hnd; [set_solver|]. apply NoDup_cons in Hnd as [Hk Hnd].
  unfold str_eqb. case_bool_decide as E; subst.
  - rewrite elem_of_cons. split; [by intros [= ->]; left|]. intros [[= ->]|Hin]; [done|].
    destruct Hk. apply list_elem_of_fmap. by exists (k', v).
  - rewrite IH by done. rewrite elem_of_cons. naive_solver.
Qed.

Lemma dict_get_perm k d d' : NoDup (map fst d) -> d ≡ₚ d' -> dict_get k d = dict_get k d'.
Proof.
  intros Hnd Hp. assert (NoDup (map fst d')) as Hnd' by (by rewrite <-Hp).
  apply option_eq. intros v. rewrite !dict_get_in by done. by rewrite Hp.
Qed.

Lemma dict_get_order st k d :
  NoDup (map fst d) ->
  match json_order st (JObj d) with
  | JObj d' => dict_get k d' = json_order st <$> dict_get k d
  | _ => False
  end.
Proof.
  intros Hnd. cbn [json_order].
  set (d' := map (fun kv => (kv.1, json_order st kv.2)) d).
  fold (order_members st d').
  assert (map fst d' = map fst d) as Hfst by (unfold d'; rewrite map_map; by apply map_ext).
  rewrite <-(dict_get_perm k d').
  - unfold d'. clear. induction d as [|[k' v] d IH]; cbn; [done|]. by destruct (str_eqb k k').
  - by rewrite Hfst.
  - by rewrite order_members_perm.
Qed.

(** Printed text is ASCII, whatever the strings in it. *)

Lemma is_ascii_app a b : is_ascii (a ++ b) = is_ascii a && is_ascii b.
Proof. apply forallb_app. Qed.

Lemma is_ascii_cons c s : is_ascii (c :: s) = (c <? 128)%N && is_ascii s.
Proof. done. Qed.

Lemma is_ascii_take_drop n s : is_ascii s = true -> is_ascii (take n s) = true /\ is_ascii (drop n s) = true.
Proof. intros H. by rewrite <-(take_drop n s), is_ascii_app, andb_true_iff in H. Qed.

Lemma hex_digit_ascii m : (m < 16)%N -> (hex_digit m <? 128)%N = true.
Proof. intros H. apply N.ltb_lt. unfold hex_digit. destruct (N.ltb_spec m 10); lia. Qed.

Lemma u_escape_ascii n : is_ascii (u_escape n) = true.
Proof. unfold u_escape, hex4. cbn. by rewrite !hex_digit_ascii by by apply N.mod_lt. Qed.

Lemma escape_char_ascii c : is_ascii (escape_char c) = true.
Proof.
  unfold escape_char.
  repeat match goal with
    | |- context [(c =? ?k)%N] => destruct (c =? k)%N; [done|]
    end.
  destruct (_ && _) eqn:E.
  - apply andb_true_iff in E as [_ E%N.leb_le]. cbn. rewrite andb_true_r. apply N.ltb_lt. lia.
  - destruct (c <? _)%N; rewrite ?is_ascii_app, ?u_escape_ascii; done.
Qed.

Lemma dumps_str_ascii s : is_ascii (dumps_str s) = true.
Proof.
  unfold dumps_str. rewrite is_ascii_cons, is_ascii_app. cbn.
  enough (is_ascii (escape_chars s) = true) as -> by done.
  induction s as [|c s IH]; cbn; [done|]. by rewrite is_ascii_app, escape_char_ascii.
Qed.

Lemma digits_ascii ds : forallb is_digit ds = true -> is_ascii ds = true.
Proof.
  unfold is_ascii. rewrite !forallb_forall. intros H c Hc%H.
  unfold is_digit in Hc. rewrite andb_true_iff, !N.leb_le in Hc. apply N.ltb_lt. lia.
Qed.

Lemma str_of_Z_ascii z : is_ascii (str_of_Z z) = true.
Proof.
  unfold str_of_Z. destruct z; rewrite ?is_ascii_cons; cbn [N.ltb N.compare Pos.compare Pos.compare_cont andb];
    apply digits_ascii, str_of_N_digits.
Qed.

Lemma zeros_ascii n : is_ascii (zeros n) = true.
Proof. unfold zeros. induction (Z.to_nat n); done. Qed.

Lemma float_repr_ascii f : is_ascii (float_repr f) = true.
Proof.
  destruct f as [m e| |[]]; [|done..]. cbn. unfold decimal_repr.
  destruct (strip_zeros _ _ _) as [m' e'].
  pose proof (str_of_Z_ascii (Z.abs m')) as H. revert H.
  generalize (str_of_Z (Z.abs m')) as ds. intros ds H.
  pose proof (fun n => proj1 (is_ascii_take_drop n ds H)) as Ht.
  pose proof (fun n => proj2 (is_ascii_take_drop n ds H)) as Hd.
  repeat case_match; rewrite ?is_ascii_app, ?zeros_ascii, ?str_of_Z_ascii, ?Ht, ?Hd, ?H; done.
Qed.

Lemma str_join_ascii sep l :
  is_ascii sep = true -> Forall (fun f => is_ascii f = true) l -> is_ascii (str_join sep l) = true.
Proof.
  intros Hsep. induction 1 as [|f l Hf Hl IH]; [done|]. rewrite str_join_cons, is_ascii_app, Hf.
  destruct l; [done|]. by rewrite is_ascii_app, Hsep, IH.
Qed.

Definition style_ascii (st : dump_style) : bool := is_ascii (item_sep st) && is_ascii (key_sep st).

Lemma dumps_ascii st v : style_ascii st = true -> is_ascii (dumps st v) = true.
Proof.
  unfold style_ascii. rewrite andb_true_iff. intros [Hi Hk].
  induction v as [|b|z|f|s|l IH|d IH] using json_ind; cbn [dumps].
  - done.
  - by destruct b.
  - apply str_of_Z_ascii.
  - apply float_repr_ascii.
  - apply dumps_str_ascii.
  - rewrite !is_ascii_app, str_join_ascii; [done|done|]. by apply Forall_fmap.
  - rewrite !is_ascii_app, dumps_items_members, str_join_ascii; [done|done|].
    apply Forall_fmap. rewrite order_members_perm. apply (Forall_impl _ _ _ IH). intros kv Hkv.
    change (is_ascii (print_member st kv) = true). unfold print_member.
    by rewrite !is_ascii_app, dumps_str_ascii, Hk, Hkv.
Qed.

(** So the text always encodes. *)
Lemma dumps_encode st v :
  style_ascii st = true -> str_encode (dumps st v) = Ok (ascii_bytes (dumps st v)).
Proof. intros H. by apply str_encode_ascii, dumps_ascii. Qed.

(** [json.dumps(v).encode()], which cannot fail, and its inverse. *)
Definition dumps_bytes (st : dump_style) (v : json) : bytes := ascii_bytes (dumps st v).

Lemma bytes_decode_dumps st v :
  style_ascii st = true -> bytes_decode (dumps_bytes st v) = Ok (dumps st v).
Proof. intros H. by apply bytes_decode_encode, dumps_encode. Qed.

(** What a reader of [json.dumps(d).encode()] finds under each key. *)
Lemma dumps_bytes_read st d :
  style_ok st -> style_ascii st = true -> json_ok (JObj d) = true ->
  exists d', (s ← bytes_decode (dumps_bytes st (JObj d)); json_loads s) = Ok (JObj d')
    /\ forall k, dict_get k d' = json_order st <$> dict_get k d.
Proof.
  intros Hst Ha Hok. rewrite bytes_decode_dumps by done.
  pose proof (json_loads_dumps_order st Hst _ Hok) as Hl.
  assert (NoDup (map fst d)) as Hnd.
  { cbn in Hok. apply andb_true_iff in Hok as [Hnd _]. by apply bool_decide_eq_true in Hnd. }
  eexists. split; [exact Hl|]. intros k. exact (dict_get_order st k d Hnd).
Qed.
