(* ===== verification/PyJsonCut.v ===== *)
(** * Printed JSON that has not arrived in full

    A reader that tries [json.loads] on what it has received so far relies on
    this: a printed string, array or object that is cut anywhere is refused with
    a [JSONDecodeError], so it is never taken for a shorter value. *)
From stdpp Require Import base tactics list gmap strings.
From Stdlib Require Import NArith ZArith Lia.
From S2P Require Import Prelude PyText PyCodec PyJson PyJsonParse.

(** [s] with at least one character missing at its end. *)
Definition cut_of (p s : str) : Prop := exists q, s = p ++ q /\ q <> [].

Lemma cut_app p a b :
  cut_of p (a ++ b) -> cut_of p a \/ exists p', p = a ++ p' /\ cut_of p' b.
Proof.
  intros (q & E & Hq). symmetry in E. apply app_eq_inv in E as [(k & -> & ->)|(k & -> & ->)].
  - right. exists k. split; [done|by exists q].
  - destruct k as [|c k]; [right; exists []; rewrite !app_nil_r; split; [done|by exists b]|].
    left. by exists (c :: k).
Qed.

Lemma cut_cons p c s : cut_of p (c :: s) -> p = [] \/ exists p', p = c :: p' /\ cut_of p' s.
Proof.
  intros (q & E & Hq). destruct p as [|c' p]; [by left|]. injection E as -> ->.
  right. exists p. split; [done|by exists q].
Qed.

Lemma cut_nil p : ~ cut_of p [].
Proof. intros (q & E & Hq). symmetry in E. apply app_eq_nil in E as [_ ->]. done. Qed.

(** ** Strings *)

(** Only the closing quote ends a string. *)
Lemma scan_string_quote n : forall s, length s < n ->
  match scan_string s with Ok _ => quote_char ∈ s | Raise e => e = json_error end.
Proof.
  induction n as [|n IH]; intros s Hn; [lia|].
  assert (forall c s', length s' < n -> (forall x, x ∈ s' -> x ∈ s) ->
    match push c (scan_string s') with Ok _ => quote_char ∈ s | Raise e => e = json_error end) as Hrec.
  { intros c s' Hs' Hsub. specialize (IH s' Hs'). destruct (scan_string s') as [[x y]|e]; cbn; [by apply Hsub|done]. }
  destruct s as [|c s1]; [done|]. cbn [scan_string length] in *.
  destruct (N.eqb_spec c 34) as [->|_]; [by left|]. destruct (c <? 32)%N; [done|].
  destruct (c =? 92)%N; [|apply Hrec; [lia|set_solver]].
  destruct s1 as [|e s2]; [done|]. cbn [length] in *. destruct (e =? 117)%N.
  2: { destruct (simple_escape e); [|done]. apply Hrec; [lia|set_solver]. }
  destruct s2 as [|a [|b [|x [|d s3]]]]; try done. cbn [length] in *.
  destruct (read_hex4 a b x d) as [u|]; [|done].
  destruct (is_high u); [|apply Hrec; [lia|set_solver]].
  destruct s3 as [|k [|l [|a' [|b' [|x' [|d' s4]]]]]]; try (apply Hrec; cbn [length] in *; [lia|set_solver]).
  cbn [length] in *. destruct ((k =? 92) && (l =? 117))%N; [|apply Hrec; cbn [length]; [lia|set_solver]].
  destruct (read_hex4 a' b' x' d') as [u'|]; [|done].
  destruct (is_low u'); apply Hrec; cbn [length]; [lia|set_solver|lia|set_solver].
Qed.

Lemma scan_string_unclosed s : quote_char ∉ s -> scan_string s = Raise json_error.
Proof.
  intros Hs. pose proof (scan_string_quote (S (length s)) s ltac:(lia)) as Hq.
  destruct (scan_string s); [done|by subst].
Qed.

Lemma hex_digit_not_quote m : (m < 16)%N -> hex_digit m <> quote_char.
Proof. intros H. unfold hex_digit, quote_char. destruct (N.ltb_spec m 10); lia. Qed.

Lemma u_escape_no_quote n : quote_char ∉ u_escape n.
Proof.
  unfold u_escape, hex4, backslash. rewrite !elem_of_cons.
  assert (forall m, quote_char <> hex_digit (m mod 16)) as Hh
    by (intros m E; by apply (hex_digit_not_quote (m mod 16)); [apply N.mod_lt|]).
  intros [?|[?|[?|[?|[?|[?|?%elem_of_nil]]]]]]; [done|done|by eapply Hh..|done].
Qed.

Lemma escape_char_cut c p : cut_of p (escape_char c) -> scan_string p = Raise json_error.
Proof.
  intros Hc. apply scan_string_unclosed. destruct Hc as (q & E & Hq). revert E. unfold escape_char.
  assert (forall l : str, quote_char ∉ l -> l = p ++ q -> quote_char ∉ p) as Hno by (intros l Hl ->; set_solver).
  assert (forall a b : N, a <> quote_char -> [a; b] = p ++ q -> quote_char ∉ p) as Htwo.
  { intros a b Ha E. destruct p as [|x [|y p]]; [set_solver|injection E as -> _; set_solver|].
    injection E as -> -> E. symmetry in E. by apply app_eq_nil in E as [_ ->]. }
  repeat match goal with
    | |- context [(c =? ?k)%N] => destruct (N.eqb_spec c k) as [?|?]; [by apply Htwo|]
    end.
  destruct (_ && _); [apply Hno; intros ?%list_elem_of_singleton; unfold quote_char in *; lia|].
  destruct (c <? _)%N; [apply Hno, u_escape_no_quote|].
  apply Hno. rewrite elem_of_app. by intros [?%u_escape_no_quote|?%u_escape_no_quote].
Qed.

Lemma escape_chars_cut s p :
  forallb valid_char s = true -> cut_of p (escape_chars s ++ [quote_char]) -> scan_string p = Raise json_error.
Proof.
  revert p. induction s as [|c s IH]; intros p Hs Hp; cbn [escape_chars forallb] in *.
  - apply cut_cons in Hp as [->|(p' & -> & Hp)]; [done|by apply cut_nil in Hp].
  - apply andb_true_iff in Hs as [Hc Hs]. rewrite <-app_assoc in Hp.
    apply cut_app in Hp as [Hp|(p' & -> & Hp)]; [by eapply escape_char_cut|].
    by rewrite scan_string_char, (IH p').
Qed.

(** ** Values *)

(** The characters of a printed number. *)
Definition number_char (c : N) : bool := is_digit c || (c =? 43)%N || (c =? 45)%N || (c =? 46)%N || (c =? 101)%N.

(** A cut number is read as a shorter one, with a part of it left that nothing
    can be made of. *)
Definition cut_result (r : res (json * str)) : Prop :=
  r = Raise json_error \/ exists v rest, r = Ok (v, rest) /\ forallb number_char rest = true.

Lemma span_digits_split s ds r : span_digits s = (ds, r) -> s = ds ++ r.
Proof.
  revert ds r. induction s as [|c s IH]; intros ds r; cbn; [by intros [= <- <-]|].
  destruct (is_digit c); [|by intros [= <- <-]]. destruct (span_digits s) as [ds' r'].
  intros [= <- <-]. cbn. f_equal. by apply IH.
Qed.

Lemma int_part_split s ds r : int_part s = (ds, r) -> s = ds ++ r.
Proof.
  destruct s as [|c s]; [by intros [= <- <-]|]. rewrite int_part_cons.
  destruct (N.eqb_spec c 48) as [->|_]; [by intros [= <- <-]|apply span_digits_split].
Qed.

Lemma scan_frac_split s fs r : scan_frac s = (fs, r) -> exists q, s = q ++ r.
Proof.
  unfold scan_frac. intros E. destruct s as [|c s]; [injection E as _ <-; by exists []|].
  destruct (decide (c = 46%N)) as [->|Hc].
  - destruct (span_digits s) as [[|d ds] r'] eqn:Hs; injection E as _ <-; [by exists []|].
    apply span_digits_split in Hs. exists (46%N :: d :: ds). cbn. by rewrite Hs.
  - exists []. cbn. destruct c as [|p]; [by injection E as _ <-|].
    repeat (destruct p as [p|p|]; try (by injection E as _ <-)); done.
Qed.

Lemma scan_exp_split s x r : scan_exp s = (x, r) -> exists q, s = q ++ r.
Proof.
  unfold scan_exp. intros E. destruct s as [|c s]; [injection E as _ <-; by exists []|].
  destruct (_ || _); [|injection E as _ <-; by exists []].
  set (sgn := match s with 45%N :: s2 => (true, s2) | 43%N :: s2 => (false, s2) | _ => (false, s) end) in E.
  assert (exists q, s = q ++ sgn.2) as (q & Hq).
  { unfold sgn. destruct s as [|d s]; [by exists []|].
    destruct d as [|p]; [by exists []|]. repeat (destruct p as [p|p|]; try by exists []); by eexists [_]. }
  destruct sgn as [neg s2]. cbn [snd] in Hq. destruct (span_digits s2) as [[|d ds] r'] eqn:Hs;
    injection E as _ <-; [by exists []|].
  apply span_digits_split in Hs. exists (c :: q ++ d :: ds). cbn. by rewrite <-app_assoc, <-Hs, <-Hq.
Qed.

(** Any text of such characters is refused, or a number is read off its start. *)
Lemma scan_unsigned_chars neg p :
  forallb number_char p = true -> (length p <= max_str_digits)%nat ->
  match scan_unsigned neg p with None => True | Some r => cut_result r end.
Proof.
  intros Hp Hl. unfold scan_unsigned. destruct (int_part p) as [ds s2] eqn:Hi. apply int_part_split in Hi.
  destruct ds as [|d ds]; [done|]. set (ds1 := d :: ds) in *.
  destruct (scan_frac s2) as [fs s3] eqn:Hf. apply scan_frac_split in Hf as (q1 & ->).
  destruct (scan_exp s3) as [x s4] eqn:Hx. apply scan_exp_split in Hx as (q2 & ->). subst p.
  rewrite !forallb_app, !andb_true_iff in Hp. destruct Hp as (_ & _ & _ & Hs4).
  assert (int_literal neg ds1 = Ok (JInt (if neg then - Z.of_N (digits_value 0 ds1) else Z.of_N (digits_value 0 ds1))%Z)) as Hlit.
  { unfold int_literal. rewrite (proj2 (Nat.ltb_ge _ _)); [done|]. rewrite !length_app in Hl. lia. }
  destruct fs; [destruct x|]; cbn [result_map]; rewrite ?Hlit; right; by eexists _, _.
Qed.

Lemma strip_prefix_split k s r : strip_prefix k s = Some r -> s = k ++ r.
Proof.
  revert s. induction k as [|x k IH]; intros s; cbn; [by intros [= ->]|].
  destruct s as [|y s]; [done|]. destruct (N.eqb_spec x y) as [->|]; [|done]. intros E%IH. by rewrite E.
Qed.

Lemma no_constant p : forallb number_char p = true -> scan_constant p = None.
Proof.
  intros Hp. unfold scan_constant. destruct (list_find _ constants) as [[i kv]|] eqn:Hf; [|done].
  apply list_find_Some in Hf as (Hi & [r Hr] & _). apply strip_prefix_split in Hr.
  rewrite Hr, forallb_app, andb_true_iff in Hp. destruct Hp as [Hp _].
  assert (forallb (fun kv => negb (forallb number_char kv.1)) constants = true) as Hc by (vm_compute; reflexivity).
  rewrite forallb_forall in Hc. apply list_elem_of_lookup_2, list_elem_of_In, Hc, negb_true_iff in Hi.
  assert (true = false) by (etransitivity; [symmetry; exact Hp|exact Hi]). done.
Qed.

Lemma scan_value_chars fuel c p :
  is_digit c = true \/ c = 45%N -> forallb number_char (c :: p) = true -> (length (c :: p) <= max_str_digits)%nat ->
  cut_result (scan_value (S fuel) (c :: p)).
Proof.
  intros Hc Hp Hl. pose proof (scan_number_unsigned c p) as Hn.
  assert (match scan_number (c :: p) with None => True | Some r => cut_result r end) as Hs.
  { rewrite Hn. destruct (N.eqb_spec c 45) as [->|_]; apply scan_unsigned_chars; [exact Hp|cbn in *; lia|exact Hp|cbn in *; lia]. }
  destruct (scan_number (c :: p)) as [r|] eqn:E; [by rewrite (scan_value_number c p fuel r)|]. left.
  pose proof (no_constant _ Hp) as Hk. cbn [scan_value].
  assert (c <> 34 /\ c <> 123 /\ c <> 91)%N as (? & ? & ?).
  { unfold is_digit in Hc. rewrite andb_true_iff, !N.leb_le in Hc. lia. }
  destruct c as [|q]; [by rewrite E, Hk|].
  repeat (destruct q as [q|q|]; try (by rewrite E, Hk)); done.
Qed.

Lemma scan_value_nil fuel : scan_value (S fuel) [] = Raise json_error.
Proof. done. Qed.

(** A printed number cut. *)
Lemma number_cut s fuel p :
  (exists c t, s = c :: t /\ (is_digit c = true \/ c = 45%N)) ->
  forallb number_char s = true -> (length s <= S max_str_digits)%nat ->
  cut_of p s -> cut_result (scan_value (S fuel) p).
Proof.
  intros (c & t & -> & Hc) Hs Hl (q & E & Hq). destruct p as [|c' p]; [by left|]. injection E as -> ->.
  apply scan_value_chars; [done| |].
  - change (c' :: p ++ q) with ((c' :: p) ++ q) in Hs. by rewrite forallb_app, andb_true_iff in Hs; destruct Hs.
  - destruct q as [|x q]; [done|]. cbn in *. rewrite length_app in Hl. cbn in Hl. lia.
Qed.

Lemma digits_number_chars ds : forallb is_digit ds = true -> forallb number_char ds = true.
Proof. rewrite !forallb_forall. unfold number_char. intros H c Hc. by rewrite (H c Hc). Qed.

Lemma str_of_Z_chars z : forallb number_char (str_of_Z z) = true.
Proof. destruct z as [|p|p]; [done|..]; exact (digits_number_chars _ (str_of_N_digits (N.pos p))). Qed.

Lemma int_cut z fuel p :
  int_ok z = true -> cut_of p (str_of_Z z) -> cut_result (scan_value (S fuel) p).
Proof.
  unfold int_ok. intros Hz%Nat.leb_le Hp. apply (number_cut (str_of_Z z)); [|apply str_of_Z_chars| |done].
  - destruct z as [|pz|pz]; cbn [str_of_Z]; [| |by eexists _, _; eauto].
    + destruct (str_of_N_head (Z.to_N 0)) as (c & t & -> & Hc & _). eauto.
    + destruct (str_of_N_head (Z.to_N (Z.pos pz))) as (c & t & -> & Hc & _). eauto.
  - destruct z; cbn [str_of_Z length Z.to_N Z.abs_N] in *; lia.
Qed.

Lemma exponent_text_chars x : forallb number_char (exponent_text x) = true.
Proof.
  unfold exponent_text. rewrite !forallb_app, (digits_number_chars _ (str_of_N_digits _)).
  by destruct (x <? 0)%Z, (Z.abs x <? 10)%Z.
Qed.

Lemma decimal_repr_chars m e : canonical m e = true -> forallb number_char (decimal_repr m e) = true.
Proof.
  intros Hc. rewrite decimal_repr_unsigned, forallb_app by done. apply andb_true_iff.
  split; [by destruct (m <? 0)%Z|]. unfold unsigned_repr.
  pose proof (digits_number_chars _ (str_of_N_digits (Z.to_N (Z.abs m)))) as Hd.
  set (ds := str_of_N (Z.to_N (Z.abs m))) in *.
  assert (forall n, forallb number_char (take n ds) = true) as Ht by (intros n; by apply forallb_take_drop).
  assert (forall n, forallb number_char (drop n ds) = true) as Hr by (intros n; by apply forallb_take_drop).
  assert (forall k, forallb number_char (zeros k) = true) as Hz by (intros k; apply digits_number_chars, zeros_digits).
  assert (forall fs, forallb number_char fs = true -> forallb number_char (frac_text fs) = true) as Hf by (by intros [|f fs]).
  destruct (_ && _); [destruct (_ <=? 0)%Z; [|destruct (_ <=? _)%Z]|];
    rewrite ?forallb_app, ?Hd, ?Hz, ?Ht, ?Hr, ?Hf by done; [done..|].
  cbn [forallb]. by rewrite exponent_text_chars.
Qed.

Lemma float_cut f fuel p : float_ok f = true -> cut_of p (float_repr f) -> cut_result (scan_value (S fuel) p).
Proof.
  intros Hf Hp. destruct f as [m e| |]; [|done..]. pose proof (decimal_repr_length m e Hf).
  apply float_ok_spec in Hf as [Hc _]. apply (number_cut (decimal_repr m e)); [by apply decimal_repr_head|by apply decimal_repr_chars|lia|done].
Qed.

Section Cut.
Context (st : dump_style) (Hst : style_ok st).

(** [v] cut anywhere: the scanner refuses it or, for a number, comes to the end. *)
Definition cuts (v : json) : Prop := forall fuel p,
  2 * length p < fuel -> cut_of p (dumps st v) -> cut_result (scan_value fuel p).

Lemma word_cut (w : str) fuel p :
  w ∈ [[110; 117; 108; 108]; [116; 114; 117; 101]; [102; 97; 108; 115; 101]]%N -> cut_of p w ->
  scan_value (S fuel) p = Raise json_error.
Proof.
  intros Hw Hc. repeat (apply elem_of_cons in Hw as [->|Hw]); [..|by apply elem_of_nil in Hw].
  all: repeat (apply cut_cons in Hc as [->|(? & -> & Hc)]; [reflexivity|]); by apply cut_nil in Hc.
Qed.

Lemma string_cut s fuel p :
  forallb valid_char s = true -> 2 * length p < fuel -> cut_of p (dumps_str s) -> scan_value fuel p = Raise json_error.
Proof.
  intros Hs Hf Hp. destruct fuel as [|fuel]; [lia|]. unfold dumps_str in Hp.
  apply cut_cons in Hp as [->|(p' & -> & Hp)]; [done|]. cbn [scan_value quote_char].
  by rewrite (escape_chars_cut s p').
Qed.
(** White space and what may follow it, cut. *)
Lemma skip_ws_cut w s p :
  forallb is_ws w = true -> cut_of p (w ++ s) -> exists p', skip_ws p = skip_ws p' /\ length p' <= length p
    /\ (p' = [] \/ cut_of p' s).
Proof.
  intros Hw. revert p. induction w as [|c w IH]; intros p Hp; [exists p; by auto|].
  cbn in Hw. apply andb_true_iff in Hw as [Hc Hw].
  apply cut_cons in Hp as [->|(p' & -> & Hp)]; [exists []; by auto|].
  destruct (IH Hw p' Hp) as (p'' & E & Hl & Hp''). exists p''. split_and!; [|cbn; lia|done].
  cbn [skip_ws]. by rewrite Hc.
Qed.

(** A separator and what may follow it, cut. *)
Lemma sep_cut c w s p :
  forallb is_ws w = true -> cut_of p ((c :: w) ++ s) ->
  p = [] \/ exists p' p'', p = c :: p' /\ skip_ws p' = skip_ws p'' /\ length p'' <= length p'
    /\ (p'' = [] \/ cut_of p'' s).
Proof.
  intros Hw [->|(p' & -> & Hp)]%(cut_cons p c (w ++ s)); [by left|]. right.
  destruct (skip_ws_cut w s p' Hw Hp) as (p'' & ?). by exists p', p''.
Qed.

(** The start of a printed list, whole or cut. *)
Lemma skip_ws_start c t p : is_ws c = false -> cut_of p (c :: t) -> skip_ws p = p.
Proof. intros Hc [->|(p' & -> & _)]%cut_cons; [done|]. by apply skip_ws_head. Qed.

Lemma cut_result_bind {A} (r : res (json * str)) (k : json * str -> res A) :
  cut_result r -> (forall v rest, forallb number_char rest = true -> k (v, rest) = Raise json_error) ->
  (r ≫= k) = Raise json_error.
Proof. intros [->|(v & rest & -> & Hr)] Hk; [done|by apply Hk]. Qed.

(** What is left of a number is neither white space nor a delimiter. *)
Lemma number_rest_list {A} rest (f g : str -> res A) :
  forallb number_char rest = true ->
  match skip_ws rest with 93%N :: r => f r | 44%N :: r => g r | _ => raise json_error end = Raise json_error
  /\ match skip_ws rest with 125%N :: r => f r | 44%N :: r => g r | _ => raise json_error end = Raise json_error.
Proof.
  destruct rest as [|c t]; [done|]. cbn [forallb]. intros [Hc _]%andb_true_iff.
  unfold number_char, is_digit in Hc. rewrite !orb_true_iff, !andb_true_iff, !N.leb_le, !N.eqb_eq in Hc.
  rewrite skip_ws_head by (unfold is_ws; by rewrite !(proj2 (N.eqb_neq c _)) by lia).
  assert (c <> 93 /\ c <> 44 /\ c <> 125)%N as (? & ? & ?) by lia.
  destruct c as [|q]; [done|]. repeat (destruct q as [q|q|]; try done).
Qed.

Lemma value_head_not_ws c : value_head c = true -> is_ws c = false.
Proof. unfold value_head. by destruct (is_ws c). Qed.

Lemma elements_head l :
  l <> [] -> forallb json_ok l = true ->
  exists c t, str_join (item_sep st) (map (dumps st) l) ++ [93%N] = c :: t /\ value_head c = true.
Proof.
  destruct l as [|v l]; [done|]. intros _ Hok. cbn in Hok. apply andb_true_iff in Hok as [Hv _].
  cbn [map]. rewrite str_join_cons.
  destruct (dumps_head st v Hv) as (c & t & -> & Hc). by eexists c, _.
Qed.

(** What follows a printed item. *)
Definition rest_of {A} (f : A -> str) (l : list A) : str :=
  match l with [] => [] | _ => item_sep st ++ str_join (item_sep st) (map f l) end.

Lemma join_rest {A} (f : A -> str) a l : str_join (item_sep st) (map f (a :: l)) = f a ++ rest_of f l.
Proof. cbn [map]. rewrite str_join_cons. by destruct l. Qed.

Lemma rest_of_stops {A} (f : A -> str) l c p :
  is_digit c = false -> c <> 46%N -> c <> 101%N -> c <> 69%N -> cut_of p (rest_of f l ++ [c]) -> stops_number p.
Proof.
  intros Hc H1 H2 H3 Hp. destruct l as [|a l]; cbn [rest_of] in Hp.
  - by apply cut_cons in Hp as [->|(p' & -> & Hp)].
  - destruct Hst as [(w & Hw & Hws) _]. rewrite Hw, <-app_assoc in Hp.
    by apply sep_cut in Hp as [->|(p' & p'' & -> & _)].
Qed.

Lemma elements_cut l : forall fuel p,
  l <> [] -> Forall cuts l -> forallb json_ok l = true -> 2 * length p + 1 < fuel ->
  cut_of p (str_join (item_sep st) (map (dumps st) l) ++ [93%N]) -> scan_elements fuel p = Raise json_error.
Proof.
  induction l as [|v l IH]; intros fuel p Hne Hl Hok Hf Hp; [done|]. destruct fuel as [|fuel]; [lia|].
  inv Hl as [|?? Hv Hl']. cbn in Hok. apply andb_true_iff in Hok as [Hv' Hok].
  rewrite join_rest, <-app_assoc in Hp. cbn [scan_elements].
  apply cut_app in Hp as [Hp|(p' & -> & Hp)]; [apply cut_result_bind; [apply Hv; [lia|done]|intros; by apply number_rest_list]|].
  rewrite length_app in Hf. pose proof (json_fuel_dumps st Hst v Hv') as Hfv.
  rewrite reads_all; [|done|done|lia|by eapply rest_of_stops; [..|exact Hp]].
  cbn [mbind result_mbind result_bind]. destruct l as [|v2 l]; cbn [rest_of] in Hp.
  - apply cut_cons in Hp as [->|(p'' & -> & Hp)]; [done|by apply cut_nil in Hp].
  - destruct Hst as [(w & Hw & Hws) _]. rewrite <-app_assoc in Hp. rewrite Hw in Hp at 1.
    apply sep_cut in Hp as [->|(p2 & p3 & -> & E3 & Hlen & Hp3)]; [done| |done].
    rewrite skip_ws_head by done. rewrite E3. cbn [length] in Hf.
    destruct (elements_head (v2 :: l)) as (c & t & E & Hc); [done|done|].
    assert (scan_elements fuel (skip_ws p3) = Raise json_error) as ->; [|done].
    destruct Hp3 as [->|Hp3].
    + destruct fuel as [|[|fuel]]; [lia|lia|done].
    + rewrite (skip_ws_start c t); [|by apply value_head_not_ws|by rewrite <-E].
      apply IH; [done|done|done|lia|done].
Qed.
Lemma scan_members_nil fuel : scan_members (S fuel) [] = Raise json_error.
Proof. done. Qed.

(** A member whose key has arrived. *)
Lemma scan_member_key fuel k r :
  forallb valid_char k = true ->
  scan_members (S fuel) (dumps_str k ++ r)
  = match skip_ws r with
    | 58%N :: r =>
        '(v, r) ← scan_value fuel (skip_ws r);
        match skip_ws r with
        | 125%N :: r => Ok ([(k, v)], r)
        | 44%N :: r => result_map (fun p => ((k, v) :: p.1, p.2)) (scan_members fuel (skip_ws r))
        | _ => raise json_error
        end
    | _ => raise json_error
    end.
Proof.
  intros Hk. unfold dumps_str. cbn [app]. rewrite <-app_assoc. cbn [app scan_members quote_char].
  change (34%N :: r) with (quote_char :: r). by rewrite scan_string_escape.
Qed.

Lemma members_cut d : forall fuel p,
  d <> [] -> Forall (fun kv => cuts kv.2) d -> forallb member_ok d = true -> 2 * length p + 1 < fuel ->
  cut_of p (str_join (item_sep st) (map (print_member st) d) ++ [125%N]) -> scan_members fuel p = Raise json_error.
Proof.
  induction d as [|[k v] d IH]; intros fuel p Hne Hd Hok Hf Hp; [done|]. destruct fuel as [|fuel]; [lia|].
  inv Hd as [|?? Hv Hd']. cbn in Hv, Hok. apply andb_true_iff in Hok as [Hkv Hok].
  unfold member_ok in Hkv. apply andb_true_iff in Hkv as [Hk Hv']. cbn in Hk, Hv'.
  rewrite join_rest in Hp. unfold print_member at 1 in Hp. cbn [fst snd] in Hp. rewrite <-!app_assoc in Hp.
  apply cut_app in Hp as [Hp|(p' & -> & Hp)].
  { unfold dumps_str in Hp. apply cut_cons in Hp as [->|(p' & -> & Hp)]; [done|].
    cbn [scan_members quote_char]. by rewrite (escape_chars_cut k p'). }
  rewrite scan_member_key by done. rewrite length_app in Hf. destruct Hst as [(w & Hw & Hws) (w' & Hw' & Hws')].
  rewrite Hw' in Hp. apply sep_cut in Hp as [->|(p1 & p2 & -> & E2 & Hlen & Hp)]; [done| |done].
  rewrite skip_ws_head by done. rewrite E2. cbn [length] in Hf.
  destruct Hp as [->|Hp]; [destruct fuel as [|fuel]; [lia|done]|].
  destruct (dumps_head st v Hv') as (c & t & Ehd & Hc%value_head_not_ws).
  assert (skip_ws p2 = p2) as -> by (rewrite Ehd in Hp; eapply skip_ws_start; [exact Hc|exact Hp]).
  apply cut_app in Hp as [Hp|(p3 & -> & Hp)]; [apply cut_result_bind; [apply Hv; [lia|done]|intros; by apply number_rest_list]|].
  rewrite length_app in Hlen. pose proof (json_fuel_dumps st Hst v Hv') as Hfv.
  rewrite reads_all; [|done|done|lia|by eapply rest_of_stops; [..|exact Hp]].
  cbn [mbind result_mbind result_bind]. destruct d as [|kv2 d]; cbn [rest_of] in Hp.
  - apply cut_cons in Hp as [->|(p4 & -> & Hp)]; [done|by apply cut_nil in Hp].
  - rewrite <-app_assoc in Hp. rewrite Hw in Hp at 1.
    apply sep_cut in Hp as [->|(p4 & p5 & -> & E5 & Hlen' & Hp5)]; [done| |done].
    rewrite skip_ws_head by done. rewrite E5. cbn [length] in Hlen.
    assert (scan_members fuel (skip_ws p5) = Raise json_error) as ->; [|done].
    destruct Hp5 as [->|Hp5]; [destruct fuel as [|fuel]; [lia|done]|].
    assert (skip_ws p5 = p5) as ->.
    { pose proof (join_rest (print_member st) kv2 d) as E. rewrite E in Hp5. unfold print_member, dumps_str in Hp5.
      eapply skip_ws_start; [|exact Hp5]. done. }
    apply IH; [done|done|done|lia|done].
Qed.

(** The brackets of arrays and objects. *)
Lemma elements_scan fuel p :
  (forall q, skip_ws p <> 93%N :: q) -> scan_elements fuel (skip_ws p) = Raise json_error ->
  scan_value (S fuel) (91%N :: p) = Raise json_error.
Proof.
  intros Hne Hm. cbn [scan_value]. destruct (skip_ws p) as [|c s]; [by rewrite Hm|].
  destruct (decide (c = 93%N)) as [->|Hc]; [by destruct (Hne s)|].
  destruct c as [|q]; [by rewrite Hm|]. repeat (destruct q as [q|q|]; try (by rewrite Hm)). done.
Qed.

Lemma members_scan fuel p :
  (forall q, skip_ws p <> 125%N :: q) -> scan_members fuel (skip_ws p) = Raise json_error ->
  scan_value (S fuel) (123%N :: p) = Raise json_error.
Proof.
  intros Hne Hm. cbn [scan_value]. destruct (skip_ws p) as [|c s]; [by rewrite Hm|].
  destruct (decide (c = 125%N)) as [->|Hc]; [by destruct (Hne s)|].
  destruct c as [|q]; [by rewrite Hm|]. repeat (destruct q as [q|q|]; try (by rewrite Hm)). done.
Qed.

Lemma array_cut l fuel p :
  Forall cuts l -> forallb json_ok l = true -> 2 * length p < fuel -> cut_of p (dumps st (JArr l)) ->
  scan_value fuel p = Raise json_error.
Proof.
  intros Hl Hok Hf Hp. destruct fuel as [|fuel]; [lia|]. cbn [dumps] in Hp.
  apply cut_cons in Hp as [->|(p' & -> & Hp)]; [done|]. cbn [length] in Hf.
  destruct l as [|v l].
  - apply cut_cons in Hp as [->|(p'' & -> & Hp)]; [|by apply cut_nil in Hp].
    apply elements_scan; [done|]. destruct fuel as [|[|fuel]]; [lia|lia|done].
  - destruct (elements_head (v :: l)) as (c & t & E & Hc); [done|done|].
    assert (skip_ws p' = p') as Hws
      by (eapply skip_ws_start; [by apply value_head_not_ws|rewrite <-E; exact Hp]).
    apply elements_scan; rewrite Hws; [|by apply (elements_cut (v :: l)); [..|lia|]].
    intros q ->. rewrite E in Hp. apply cut_cons in Hp as [?|(p'' & [= <- _] & _)]; done.
Qed.

Lemma object_cut d fuel p :
  Forall (fun kv => cuts kv.2) d -> forallb member_ok d = true -> 2 * length p < fuel ->
  cut_of p (dumps st (JObj d)) -> scan_value fuel p = Raise json_error.
Proof.
  intros Hd Hok Hf Hp. destruct fuel as [|fuel]; [lia|]. cbn [dumps] in Hp. rewrite dumps_items_members in Hp.
  apply cut_cons in Hp as [->|(p' & -> & Hp)]; [done|]. cbn [length] in Hf.
  pose proof (order_members_perm st d) as Hperm. rewrite <-Hperm in Hd. rewrite <-Hperm in Hok.
  destruct (order_members st d) as [|kv d'].
  - apply cut_cons in Hp as [->|(p'' & -> & Hp)]; [|by apply cut_nil in Hp].
    apply members_scan; [done|]. destruct fuel as [|fuel]; [lia|done].
  - pose proof (join_rest (print_member st) kv d') as E. unfold print_member at 2, dumps_str in E. cbn [app] in E.
    assert (exists t, str_join (item_sep st) (map (print_member st) (kv :: d')) ++ [125%N] = quote_char :: t) as (t & E')
      by (rewrite E; by eexists).
    assert (skip_ws p' = p') as Hws by (eapply skip_ws_start; [|rewrite <-E'; exact Hp]; done).
    apply members_scan; rewrite Hws; [|by apply (members_cut (kv :: d')); [..|lia|]].
    intros q ->. rewrite E' in Hp. apply cut_cons in Hp as [?|(p'' & [= _ _] & _)]; done.
Qed.

Lemma all_cut v : json_ok v = true -> cuts v.
Proof.
  induction v as [|b|z|f|s|l IH|d IH] using json_ind; intros Hok fuel p Hf Hp.
  - destruct fuel as [|fuel]; [lia|]. left. eapply word_cut; [|exact Hp]. by left.
  - destruct fuel as [|fuel]; [lia|]. left. eapply word_cut; [|exact Hp]. destruct b; [right; by left|do 2 right; by left].
  - destruct fuel as [|fuel]; [lia|]. by eapply int_cut.
  - destruct fuel as [|fuel]; [lia|]. by eapply float_cut.
  - left. by apply (string_cut s).
  - left. apply (array_cut l); [|done|done|done]. cbn in Hok. rewrite forallb_forall in Hok.
    rewrite Forall_forall in IH |- *. intros x Hx. apply IH; [done|]. by apply Hok, list_elem_of_In.
  - left. cbn in Hok. apply andb_true_iff in Hok as [_ Hok]. apply (object_cut d); [|done|done|done].
    rewrite forallb_forall in Hok. rewrite Forall_forall in IH |- *. intros kv Hkv. apply IH; [done|].
    apply list_elem_of_In, Hok, andb_true_iff in Hkv. apply Hkv.
Qed.

(** A printed object that is cut does not parse. *)
Lemma json_loads_cut d p :
  json_ok (JObj d) = true -> cut_of p (dumps st (JObj d)) -> json_loads p = Raise json_error.
Proof.
  intros Hok Hp. cbn in Hok. apply andb_true_iff in Hok as [_ Hok].
  assert (scan_value (scan_fuel p) (skip_ws p) = Raise json_error) as Hs.
  { assert (skip_ws p = p) as -> by (eapply (skip_ws_start 123%N); [done|exact Hp]).
    apply (object_cut d); [|done|unfold scan_fuel; lia|done]. rewrite forallb_forall in Hok.
    apply Forall_forall. intros kv Hkv. apply all_cut. apply list_elem_of_In, Hok, andb_true_iff in Hkv. apply Hkv. }
  unfold json_loads. rewrite Hs. destruct p as [|c p]; [done|].
  destruct c as [|q]; [done|]. repeat (destruct q as [q|q|]; try done).
Qed.
End Cut.
