(* ===== verification/World.v ===== *)
(** * The enclave process and its environment

    [world] is what the process changes: the dictionaries its service objects
    hold, its temporary directories and files, and the positions reached in the
    readings of the environment.  [Env] is what the process reads: clock,
    random bytes, and the results of the programs it runs.  [IO] is a Python
    computation over it.  Logging is left out. *)
From stdpp Require Import base tactics list gmap strings.
From Stdlib Require Import NArith ZArith Lia.
From S2P Require Import Prelude PyText PyCodec PyJson.

(** ** Data of the service objects *)

(** [session_data] of [KeyPairManagerImpl.generate_keypair]. *)
Record session_metadata : Type := SessionMetadata {
  md_algorithm : str;
  md_key_size : json;
  md_public_exponent : Z;
  md_created_at : str;
  md_encryption_method : str;
}.

Record session_data : Type := SessionData {
  sd_job_id : json;
  sd_private_key : bytes;
  sd_public_key : str;
  sd_key_size : json;
  sd_created_at : Z;     (* microseconds *)
  sd_ttl : Z;            (* seconds *)
  sd_metadata : session_metadata;
}.

(** The values of [ExecuteServiceImpl._active_executions]. *)
Record exec_info : Type := ExecInfo {
  ei_session_id : json;
  ei_start_time : Z;
  ei_status : str;
  ei_termination_reason : option str;
  ei_end_time : option Z;
}.

(** ** File trees

    A directory lists its entries in the order [os.scandir] yields them.
    [Special] is a FIFO, a socket or a device. *)
#[local] Unset Elimination Schemes.
Inductive node : Type :=
  | Reg (content : bytes)
  | Dir (entries : list (str * node))
  | Lnk (target : str)
  | Special.
#[local] Set Elimination Schemes.

Section NodeInd.
Context (P : node -> Prop).
Context (Hreg : forall c, P (Reg c))
  (Hdir : forall es, Forall (fun e => P e.2) es -> P (Dir es))
  (Hlnk : forall t, P (Lnk t)) (Hspecial : P Special).

Fixpoint node_ind (n : node) : P n :=
  match n with
  | Reg c => Hreg c
  | Dir es =>
      Hdir es ((fix go (es : list (str * node)) : Forall (fun e => P e.2) es :=
                  match es with
                  | [] => Forall_nil_2 _
                  | e :: es => Forall_cons_2 _ e es (node_ind e.2) (go es)
                  end) es)
  | Lnk t => Hlnk t
  | Special => Hspecial
  end.
End NodeInd.

(** ** What leaves the process *)

Inductive event : Type :=
  | EvNsmIoctl (request : bytes)                        (* fcntl.ioctl on /dev/nsm *)
  | EvTdQuote (argv : list str) (input : bytes)         (* the tdquote helper *)
  (* a researcher script; [env] is what is set over the enclave's environment *)
  | EvScript (argv : list str) (cwd : str) (env : list (str * str)) (uid gid : Z) (groups : list Z)
  | EvKmsTool (argv : list str)                         (* kmstool_enclave_cli *)
  | EvChown (path : str) (uid gid : Z)                  (* links followed *)
  | EvLchown (path : str) (uid gid : Z)                 (* [follow_symlinks=False] *)
  | EvChmod (path : str) (mode : Z).

(** ** The process *)

Record world : Type := World {
  w_sessions : gmap str session_data;    (* KeyPairManagerImpl.active_sessions *)
  w_execs : gmap str exec_info;          (* ExecuteServiceImpl._active_executions *)
  w_tmp : gmap str node;                 (* live temporary directories *)
  w_files : gmap str bytes;              (* other files the process reads and writes *)
  w_ticks : nat;                         (* clock readings so far *)
  w_draws : nat;                         (* random draws so far *)
  w_trace : list event;                  (* most recent first *)
}.

Definition set_sessions (f : gmap str session_data -> gmap str session_data) (w : world) : world :=
  World (f (w_sessions w)) (w_execs w) (w_tmp w) (w_files w) (w_ticks w) (w_draws w) (w_trace w).
Definition set_execs (f : gmap str exec_info -> gmap str exec_info) (w : world) : world :=
  World (w_sessions w) (f (w_execs w)) (w_tmp w) (w_files w) (w_ticks w) (w_draws w) (w_trace w).
Definition set_tmp (f : gmap str node -> gmap str node) (w : world) : world :=
  World (w_sessions w) (w_execs w) (f (w_tmp w)) (w_files w) (w_ticks w) (w_draws w) (w_trace w).
Definition set_files (f : gmap str bytes -> gmap str bytes) (w : world) : world :=
  World (w_sessions w) (w_execs w) (w_tmp w) (f (w_files w)) (w_ticks w) (w_draws w) (w_trace w).
Definition tick (w : world) : world :=
  World (w_sessions w) (w_execs w) (w_tmp w) (w_files w) (S (w_ticks w)) (w_draws w) (w_trace w).
Definition drawn (w : world) : world :=
  World (w_sessions w) (w_execs w) (w_tmp w) (w_files w) (w_ticks w) (S (w_draws w)) (w_trace w).
Definition traced (ev : event) (w : world) : world :=
  World (w_sessions w) (w_execs w) (w_tmp w) (w_files w) (w_ticks w) (w_draws w) (ev :: w_trace w).

Definition empty_world : world := World ∅ ∅ ∅ ∅ 0 0 [].

Abbreviation IO := (ST exn world).

(** ** The environment *)

Class Env : Type := {
  (** The [n]-th reading of [time.time()], in microseconds. *)
  clock : nat -> Z;
  (** The [n]-th draw of [os.urandom(len)] and of [uuid.uuid4().hex]. *)
  urandom : nat -> nat -> bytes;
  uuid4_hex : nat -> str;
  (** [str.isprintable] outside ASCII. *)
  printable : N -> bool;
  (** [os.path.exists] of paths outside the process's own files. *)
  path_exists : str -> bool;
}.

Section Readings.
Context `{Env}.

Definition time_time : IO Z := fun w => (Ok (clock (w_ticks w)), tick w).
Definition os_urandom (len : nat) : IO bytes := fun w => (Ok (urandom (w_draws w) len), drawn w).
Definition uuid_hex : IO str := fun w => (Ok (uuid4_hex (w_draws w)), drawn w).

Lemma run_time w : time_time w = (Ok (clock (w_ticks w)), tick w).
Proof. done. Qed.
Lemma run_urandom n w : os_urandom n w = (Ok (urandom (w_draws w) n), drawn w).
Proof. done. Qed.
Lemma run_uuid w : uuid_hex w = (Ok (uuid4_hex (w_draws w)), drawn w).
Proof. done. Qed.

(** A whole file: [f.read()] after [open(path, 'rb')] or [Path.read_bytes], and
    the writing counterparts. *)
Definition missing_file (path : str) : exn :=
  Exn OSError ("[Errno 2] No such file or directory: " ++ py_repr printable (JStr path)).
Definition read_bytes (path : str) : IO bytes :=
  files ← st_gets w_files;
  match files !! path with
  | Some c => mret c
  | None => mraise (missing_file path)
  end.
Definition write_bytes (path : str) (content : bytes) : IO unit :=
  st_modify (set_files (insert path content)).

(** What an f-string inserts for a value of a request. *)
Definition fmt (v : json) : str := py_str printable v.

(** [round((t1 - t0) * 1000, 2)] for readings in microseconds: milliseconds,
    half to even at the second decimal. *)
Definition round_half_even (n d : Z) : Z :=
  let q := (n / d)%Z in
  let r := (2 * (n mod d))%Z in
  if (r <? d)%Z then q else if (d <? r)%Z then q + 1 else if Z.even q then q else q + 1.

Definition elapsed_ms (t0 t1 : Z) : json := JFloat (dec (round_half_even (t1 - t0) 10) (-2)).

Definition emit (ev : event) : IO unit := st_modify (traced ev).
End Readings.

#[export] Hint Rewrite @run_time @run_urandom @run_uuid : run.

(** [int(time.time())]. *)
Definition seconds (t : Z) : Z := (Z.quot t 1000000)%Z.

(** [try: ... except Exception as e: h(e)]; every exception of the model is an
    [Exception]. *)
Abbreviation catch := (st_try (X := exn)) (only parsing).

(** ** Dates *)

(** [time.strftime('%Y-%m-%d %H:%M:%S UTC', time.gmtime())]. *)
Definition civil_of_days (days : Z) : Z * Z * Z :=
  let z := (days + 719468)%Z in
  let era := (z / 146097)%Z in
  let doe := (z mod 146097)%Z in
  let yoe := ((doe - doe / 1460 + doe / 36524 - doe / 146096) / 365)%Z in
  let doy := (doe - (365 * yoe + yoe / 4 - yoe / 100))%Z in
  let mp := ((5 * doy + 2) / 153)%Z in
  let d := (doy - (153 * mp + 2) / 5 + 1)%Z in
  let m := (if mp <? 10 then mp + 3 else mp - 9)%Z in
  let y := (yoe + era * 400 + (if m <=? 2 then 1 else 0))%Z in
  (y, m, d).

Definition pad2 (n : Z) : str := if (n <? 10)%Z then "0" ++ str_of_Z n else str_of_Z n.

Definition strftime_utc (t : Z) : str :=
  let s := (t / 1000000)%Z in
  let '(y, m, d) := civil_of_days (s / 86400) in
  let r := (s mod 86400)%Z in
  str_of_Z y ++ "-" ++ pad2 m ++ "-" ++ pad2 d ++ " " ++ pad2 (r / 3600) ++ ":"
    ++ pad2 (r / 60 mod 60) ++ ":" ++ pad2 (r mod 60) ++ " UTC".

(** ** Frames

    [Keeps f m]: running [m] leaves the part [f] of the world as it was,
    whatever the outcome.  Instances follow the structure of [m]. *)

Class Keeps {B A} (f : world -> B) (m : IO A) : Prop := keeps : forall w, f (m w).2 = f w.

Section Keeps.
Context {B : Type} (f : world -> B).

#[export] Instance keeps_ret {A} (a : A) : Keeps f (st_ret a).
Proof. done. Qed.
#[export] Instance keeps_mret {A} (a : A) : Keeps f (mret a : IO A).
Proof. done. Qed.
#[export] Instance keeps_raise {A} (e : exn) : Keeps f (st_raise e : IO A).
Proof. done. Qed.
#[export] Instance keeps_mraise {A} (e : exn) : Keeps f (mraise e : IO A).
Proof. done. Qed.
#[export] Instance keeps_lift {A} (r : result exn A) : Keeps f (st_lift r).
Proof. done. Qed.
#[export] Instance keeps_gets {A} (g : world -> A) : Keeps f (st_gets g : IO A).
Proof. done. Qed.

#[export] Instance keeps_bind {A C} (m : IO A) (k : A -> IO C) :
  Keeps f m -> (forall a, Keeps f (k a)) -> Keeps f (st_bind k m).
Proof.
  intros Hm Hk w. unfold st_bind. specialize (Hm w). destruct (m w) as [[a|e] w']; cbn in *; [|done].
  by rewrite Hk.
Qed.
#[export] Instance keeps_mbind {A C} (m : IO A) (k : A -> IO C) :
  Keeps f m -> (forall a, Keeps f (k a)) -> Keeps f (m ≫= k).
Proof. apply keeps_bind. Qed.

#[export] Instance keeps_try {A} (m : IO A) (h : exn -> IO A) :
  Keeps f m -> (forall e, Keeps f (h e)) -> Keeps f (st_try m h).
Proof.
  intros Hm Hh w. unfold st_try. specialize (Hm w). destruct (m w) as [[a|e] w']; cbn in *; [done|].
  by rewrite Hh.
Qed.

#[export] Instance keeps_finally {A} (m : IO A) (g : IO unit) :
  Keeps f m -> Keeps f g -> Keeps f (st_finally m g).
Proof.
  intros Hm Hg w. unfold st_finally. specialize (Hm w). destruct (m w) as [r w']; cbn in *.
  specialize (Hg w'). destruct (g w') as [[[]|e] w'']; cbn in *; congruence.
Qed.

Lemma keeps_wp {A} (m : IO A) (Q : result exn A -> world -> Prop) w `{!Keeps f m} :
  st_wp m Q w -> st_wp m (fun r w' => Q r w' /\ f w' = f w) w.
Proof. unfold st_wp. auto. Qed.
End Keeps.

(** Branches of a computation. *)
#[export] Hint Extern 5 (Keeps _ (match ?x with _ => _ end)) => destruct x : typeclass_instances.
#[export] Hint Extern 5 (Keeps _ (if ?x then _ else _)) => destruct x : typeclass_instances.

#[export] Instance keeps_modify {B} (f : world -> B) (g : world -> world) :
  TCEq (fun w => f (g w)) f -> Keeps f (st_modify g).
Proof. intros H w. exact (f_equal (fun h => h w) (proj1 (TCEq_eq _ _) H)). Qed.

Section KeepsReadings.
Context `{Env}.

#[export] Instance keeps_time {B} (f : world -> B) :
  TCEq (fun w => f (tick w)) f -> Keeps f time_time.
Proof. intros Hf w. exact (f_equal (fun h => h w) (proj1 (TCEq_eq _ _) Hf)). Qed.
#[export] Instance keeps_urandom {B} (f : world -> B) n :
  TCEq (fun w => f (drawn w)) f -> Keeps f (os_urandom n).
Proof. intros Hf w. exact (f_equal (fun h => h w) (proj1 (TCEq_eq _ _) Hf)). Qed.
#[export] Instance keeps_uuid {B} (f : world -> B) :
  TCEq (fun w => f (drawn w)) f -> Keeps f uuid_hex.
Proof. intros Hf w. exact (f_equal (fun h => h w) (proj1 (TCEq_eq _ _) Hf)). Qed.
End KeepsReadings.

(** Everything but the sessions and the readings. *)
Definition w_rest (w : world) : gmap str exec_info * gmap str node * gmap str bytes * list event :=
  (w_execs w, w_tmp w, w_files w, w_trace w).

Section KeepsRest.
Context {A : Type} (m : IO A) `{Hm : !Keeps w_rest m}.

#[export] Instance keeps_rest_execs : Keeps w_execs m | 50.
Proof. intros w. specialize (Hm w). unfold w_rest in Hm. congruence. Qed.
#[export] Instance keeps_rest_tmp : Keeps w_tmp m | 50.
Proof. intros w. specialize (Hm w). unfold w_rest in Hm. congruence. Qed.
#[export] Instance keeps_rest_files : Keeps w_files m | 50.
Proof. intros w. specialize (Hm w). unfold w_rest in Hm. congruence. Qed.
#[export] Instance keeps_rest_trace : Keeps w_trace m | 50.
Proof. intros w. specialize (Hm w). unfold w_rest in Hm. congruence. Qed.
End KeepsRest.

(** ** Progress

    [Steps R m]: running [m] relates the world before to the world after by [R],
    whatever the outcome.  For a preorder it is enough to look at the parts. *)

Class Steps {A} (R : relation world) (m : IO A) : Prop := steps : forall w, R w (m w).2.

Section Steps.
Context (R : relation world) `{!PreOrder R}.

#[export] Instance steps_ret {A} (a : A) : Steps R (mret a : IO A).
Proof. intros w. reflexivity. Qed.
#[export] Instance steps_raise {A} (e : exn) : Steps R (mraise e : IO A).
Proof. intros w. reflexivity. Qed.
#[export] Instance steps_lift {A} (r : result exn A) : Steps R (st_lift r).
Proof. intros w. reflexivity. Qed.
#[export] Instance steps_gets {A} (g : world -> A) : Steps R (st_gets g : IO A).
Proof. intros w. reflexivity. Qed.

#[export] Instance steps_bind {A C} (m : IO A) (k : A -> IO C) :
  Steps R m -> (forall a, Steps R (k a)) -> Steps R (m ≫= k).
Proof.
  intros Hm Hk w. rewrite run_bind. specialize (Hm w). destruct (m w) as [[a|e] w']; cbn in *; [|done].
  etransitivity; [exact Hm|apply Hk].
Qed.

#[export] Instance steps_try {A} (m : IO A) (h : exn -> IO A) :
  Steps R m -> (forall e, Steps R (h e)) -> Steps R (st_try m h).
Proof.
  intros Hm Hh w. rewrite run_try. specialize (Hm w). destruct (m w) as [[a|e] w']; cbn in *; [done|].
  etransitivity; [exact Hm|apply Hh].
Qed.

#[export] Instance steps_finally {A} (m : IO A) (g : IO unit) : Steps R m -> Steps R g -> Steps R (st_finally m g).
Proof.
  intros Hm Hg w. rewrite run_finally. specialize (Hm w). destruct (m w) as [r w']; cbn in *.
  specialize (Hg w'). destruct (g w') as [[[]|e] w'']; cbn in *; by etransitivity.
Qed.
End Steps.

#[export] Hint Extern 5 (Steps _ (match ?x with _ => _ end)) => destruct x : typeclass_instances.
#[export] Hint Extern 5 (Steps _ (if ?x then _ else _)) => destruct x : typeclass_instances.

(** The events added to the trace are in [P]. *)
Definition adds (P : event -> Prop) : relation world := fun w w' =>
  exists l, w_trace w' = l ++ w_trace w /\ Forall P l.

#[export] Instance adds_preorder P : PreOrder (adds P).
Proof.
  split.
  - intros w. by exists [].
  - intros w1 w2 w3 (l & Hl & HP) (l' & Hl' & HP'). exists (l' ++ l). rewrite Hl', Hl, app_assoc.
    split; [done|by apply Forall_app].
Qed.

Abbreviation Emits P := (Steps (adds P)).

#[export] Instance emits_keeps P {A} (m : IO A) : Keeps w_trace m -> Emits P m | 50.
Proof. intros Hm w. exists []. split; [apply Hm|constructor]. Qed.

Lemma emits_emit (P : event -> Prop) ev : P ev -> Emits P (emit ev).
Proof. intros Hev w. exists [ev]. by repeat constructor. Qed.

(** Randomness is not drawn twice. *)
Definition draws_grow : relation world := fun w w' => w_draws w <= w_draws w'.

#[export] Instance draws_grow_preorder : PreOrder draws_grow.
Proof. unfold draws_grow. split; [intros w; lia|intros w1 w2 w3; lia]. Qed.

Abbreviation Draws := (Steps draws_grow).

#[export] Instance draws_keeps {A} (m : IO A) : Keeps w_draws m -> Draws m | 50.
Proof. intros Hm w. unfold draws_grow. by rewrite Hm. Qed.
#[export] Instance draws_urandom `{Env} n : Draws (os_urandom n).
Proof. intros w. cbn. unfold draws_grow. cbn. lia. Qed.
#[export] Instance draws_uuid `{Env} : Draws uuid_hex.
Proof. intros w. cbn. unfold draws_grow. cbn. lia. Qed.

(** The processes started for researcher scripts. *)
Definition is_script (ev : event) : bool := match ev with EvScript _ _ _ _ _ _ => true | _ => false end.
Definition scripts (w : world) : nat := length (List.filter is_script (w_trace w)).

#[export] Instance scripts_trace {A} (m : IO A) : Keeps w_trace m -> Keeps scripts m | 60.
Proof. intros Hm w. unfold scripts. by rewrite Hm. Qed.

(** [m] starts one script or none. *)
Class ScriptOnce {A} (m : IO A) : Prop :=
  script_once : forall w, scripts (m w).2 = scripts w \/ scripts (m w).2 = S (scripts w).

Section ScriptOnce.
#[export] Instance once_keeps {A} (m : IO A) : Keeps scripts m -> ScriptOnce m | 50.
Proof. intros Hm w. left. apply Hm. Qed.

Lemma once_bind_before {A B} (m : IO A) (k : A -> IO B) :
  Keeps scripts m -> (forall a, ScriptOnce (k a)) -> ScriptOnce (m ≫= k).
Proof.
  intros Hm Hk w. rewrite run_bind. specialize (Hm w). destruct (m w) as [[a|e] w1]; cbn in *; [|by left].
  rewrite <-Hm. apply Hk.
Qed.
Lemma once_bind_after {A B} (m : IO A) (k : A -> IO B) :
  ScriptOnce m -> (forall a, Keeps scripts (k a)) -> ScriptOnce (m ≫= k).
Proof.
  intros Hm Hk w. rewrite run_bind. specialize (Hm w). destruct (m w) as [[a|e] w1]; cbn in *; [|done].
  by rewrite (Hk a w1).
Qed.
#[export] Instance once_try {A} (m : IO A) (h : exn -> IO A) :
  ScriptOnce m -> (forall e, Keeps scripts (h e)) -> ScriptOnce (st_try m h).
Proof.
  intros Hm Hh w. rewrite run_try. specialize (Hm w). destruct (m w) as [[a|e] w1]; cbn in *; [done|].
  by rewrite (Hh e w1).
Qed.
#[export] Instance once_finally {A} (m : IO A) (g : IO unit) :
  ScriptOnce m -> Keeps scripts g -> ScriptOnce (st_finally m g).
Proof.
  intros Hm Hg w. rewrite run_finally. specialize (Hm w). destruct (m w) as [r w1]; cbn in *.
  specialize (Hg w1). destruct (g w1) as [[[]|e] w2]; cbn in *; by rewrite Hg.
Qed.
End ScriptOnce.

#[export] Hint Extern 5 (ScriptOnce (match ?x with _ => _ end)) => destruct x : typeclass_instances.
#[export] Hint Extern 5 (ScriptOnce (if ?x then _ else _)) => destruct x : typeclass_instances.
(* the part that may start the script is the one that does not keep their number *)
#[export] Hint Extern 6 (ScriptOnce (_ ≫= _)) =>
  first [eapply once_bind_before; [apply _|intros] | eapply once_bind_after; [|intros; apply _]] : typeclass_instances.

(** ** Looking into a run *)

(** A computation that returned went through each of its steps. *)
Lemma bind_ok {A B} (m : IO A) (k : A -> IO B) w b w' :
  (m ≫= k) w = (Ok b, w') -> exists a w1, m w = (Ok a, w1) /\ k a w1 = (Ok b, w').
Proof. rewrite run_bind. destruct (m w) as [[a|e] w1]; [eauto|discriminate]. Qed.

Lemma bind_run {A B} (m : IO A) (k : A -> IO B) w a w1 : m w = (Ok a, w1) -> (m ≫= k) w = k a w1.
Proof. intros E. by rewrite run_bind, E. Qed.

Lemma is_ok_run {A} (m : IO A) w : is_ok (m w).1 = true -> exists a, m w = (Ok a, (m w).2).
Proof. destruct (m w) as [[a|e] w1]; [eauto|done]. Qed.

Lemma ret_ok {A} (a b : A) (w w' : world) : (mret a : IO A) w = (Ok b, w') -> a = b /\ w = w'.
Proof. by intros [= -> ->]. Qed.

Lemma time_ok `{Env} {B} (k : Z -> IO B) w r : (time_time ≫= k) w = r -> k (clock (w_ticks w)) (tick w) = r.
Proof. done. Qed.

Lemma lift_ok {A B} (x : res A) (k : A -> IO B) w b w' :
  (st_lift x ≫= k) w = (Ok b, w') -> exists a, x = Ok a /\ k a w = (Ok b, w').
Proof. destruct x as [a|e]; [|discriminate]. intros E. by exists a. Qed.

(** Returned by the body, or by the handler of an exception. *)
Lemma catch_ok {A} (m : IO A) (h : exn -> IO A) w a w' :
  st_try m h w = (Ok a, w') ->
  m w = (Ok a, w') \/ exists e w1, m w = (Raise e, w1) /\ h e w1 = (Ok a, w').
Proof. rewrite run_try. destruct (m w) as [[b|e] w1]; [by left|]. right. eauto. Qed.

Lemma finally_ok {A} (m : IO A) (g : IO unit) w a w' :
  st_finally m g w = (Ok a, w') -> exists w1, m w = (Ok a, w1) /\ g w1 = (Ok tt, w').
Proof.
  rewrite run_finally. destruct (m w) as [r w1]. destruct (g w1) as [[[]|e] w2] eqn:Hg; [|done].
  intros [= -> <-]. by exists w1.
Qed.

(** ** Outcomes

    What a computation returns, whatever the world it starts from. *)

(** The value of [m], if it returns one, is in [P]; [m] returns one in [P]. *)
Definition returns_in {A} (P : A -> Prop) (m : IO A) : Prop :=
  forall w, match (m w).1 with Ok a => P a | Raise _ => True end.
Definition total_in {A} (P : A -> Prop) (m : IO A) : Prop :=
  forall w, exists a w', m w = (Ok a, w') /\ P a.

Lemma returns_ret {A} (P : A -> Prop) a : P a -> returns_in P (mret a).
Proof. by intros HP w. Qed.
Lemma returns_raise {A} (P : A -> Prop) e : returns_in P (mraise e).
Proof. by intros w. Qed.
Lemma returns_bind {A B} (P : B -> Prop) (m : IO A) (k : A -> IO B) :
  (forall a, returns_in P (k a)) -> returns_in P (m ≫= k).
Proof. intros Hk w. rewrite run_bind. destruct (m w) as [[a|e] w']; [apply Hk|done]. Qed.
Lemma returns_bind_in {A B} (Q : A -> Prop) (P : B -> Prop) (m : IO A) (k : A -> IO B) :
  returns_in Q m -> (forall a, Q a -> returns_in P (k a)) -> returns_in P (m ≫= k).
Proof. intros Hm Hk w. rewrite run_bind. specialize (Hm w). destruct (m w) as [[a|e] w']; [by apply Hk|done]. Qed.
Lemma returns_total {A} (P : A -> Prop) m : total_in P m -> returns_in P m.
Proof. intros Hm w. by destruct (Hm w) as (a & w' & -> & HP). Qed.
Lemma total_ret {A} (P : A -> Prop) a : P a -> total_in P (mret a).
Proof. intros HP w. by eexists _, _. Qed.
Lemma total_catch {A} (P : A -> Prop) (m : IO A) (h : exn -> IO A) :
  returns_in P m -> (forall e, total_in P (h e)) -> total_in P (st_try m h).
Proof.
  intros Hm Hh w. rewrite run_try. specialize (Hm w). destruct (m w) as [[a|e] w']; [by eexists _, _|].
  apply Hh.
Qed.
Lemma returns_finally {A} (P : A -> Prop) (m : IO A) (g : IO unit) : returns_in P m -> returns_in P (st_finally m g).
Proof.
  intros Hm w. rewrite run_finally. specialize (Hm w). destruct (m w) as [r w1]. cbn in Hm.
  by destruct (g w1) as [[[]|e] w2].
Qed.
Lemma total_time {A} `{Env} (P : A -> Prop) (k : Z -> IO A) :
  (forall t, total_in P (k t)) -> total_in P (time_time ≫= k).
Proof. intros Hk w. rewrite run_bind, run_time. apply Hk. Qed.

Create HintDb responds.
#[export] Hint Resolve returns_ret returns_raise returns_bind returns_total total_ret total_catch
  total_time : responds.
#[export] Hint Extern 2 (returns_in _ (match ?x with _ => _ end)) => destruct x : responds.
#[export] Hint Extern 2 (returns_in _ (if ?x then _ else _)) => destruct x : responds.

(** ** A concrete environment

    One clock reading per second from 2023-11-14 22:13:20 UTC, and random
    draws that differ from each other. *)
Module Toy.
Definition env : Env := {|
  clock n := (1700000000000000 + 1000000 * Z.of_nat n)%Z;
  urandom n len := repeat (byte_of_N (N.of_nat n)) len;
  uuid4_hex n := bytes_hex (repeat (byte_of_N (N.of_nat n)) 16);
  printable _ := true;
  path_exists _ := false;
|}.

(** The same, on a machine that has the paths [devices]. *)
Definition env_with (devices : list str) : Env := {|
  clock := @clock env; urandom := @urandom env; uuid4_hex := @uuid4_hex env; printable := @printable env;
  path_exists p := existsb (str_eqb p) devices;
|}.
End Toy.
