(* ===== verification/Config.v ===== *)
(** * config.py: the settings, read once from the environment variables *)
From stdpp Require Import base tactics list gmap strings.
From Stdlib Require Import NArith ZArith Lia.
From S2P Require Import Prelude PyText PyCodec PyJson PyJsonParse.

(** ** [int(s)] *)

(** Digits, with single underscores between them. *)
Fixpoint int_digits (s : str) : option str :=
  match s with
  | [] => None
  | c :: s' =>
      if is_digit c then
        match s' with
        | [] => Some [c]
        | 95%N :: s'' => (c ::.) <$> int_digits s''
        | _ => (c ::.) <$> int_digits s'
        end
      else None
  end.

Definition int_of_str (s : str) : res Z :=
  let '(neg, body) := match str_strip s with
                      | 45%N :: r => (true, r)
                      | 43%N :: r => (false, r)
                      | r => (false, r)
                      end in
  match int_digits body with
  | Some ds => let v := Z.of_N (digits_value 0 ds) in Ok (if neg then - v else v)%Z
  | None => raise (Exn ValueError "invalid literal for int() with base 10")
  end.

(** [os.environ]. *)
Abbreviation environ := (gmap str str) (only parsing).
Definition getenv (env : environ) (name default : str) : str :=
  match env !! name with Some v => v | None => default end.

Record config : Type := Config {
  VSOCK_PORT : Z;
  MAX_REQUEST_SIZE : Z;
  LOG_LEVEL : str;
  LOG_FORMAT : str;
  KMS_REGION : str;
  KMS_PROXY_PORT : Z;
  KMSTOOL_PATH : str;
  EXECUTION_TIMEOUT : Z;
  MAX_MEMORY_MB : Z;
  MAX_OUTPUT_SIZE_MB : Z;
  MAX_OUTPUT_FILES : Z;
  MAX_OUTPUT_FILES_MB : Z;
  SCRIPT_UID : Z;
  SCRIPT_GID : Z;
  SESSION_TTL : Z;
  CLEANUP_INTERVAL : Z;
  CLIENT_RECV_TIMEOUT : Z;
  CLIENT_SEND_TIMEOUT : Z;
  MAX_ZIP_ENTRIES : Z;
  MAX_ZIP_TOTAL_SIZE : Z;
  DEFAULT_KEY_SIZE : Z;
  ALLOWED_KEY_SIZES : list Z;
  ALLOW_LOCAL_ATTESTATION : bool;
  ENABLE_KMS_ATTESTATION : bool;
  ENABLE_SCRIPT_VALIDATION : bool;
  ENABLE_RESOURCE_MONITORING : bool;
}.

Definition flag (env : environ) (name default : str) : bool :=
  str_eqb (str_lower (getenv env name default)) "true".

(** Importing the module: the first malformed integer raises. *)
Definition load_config (env : environ) : res config :=
  let int name default := int_of_str (getenv env name default) in
  vsock_port ← int "VSOCK_PORT" "5005";
  max_request_size ← int "MAX_REQUEST_SIZE" (str_of_Z (200 * 1024 * 1024));
  kms_proxy_port ← int "KMS_PROXY_PORT" "8000";
  execution_timeout ← int "EXECUTION_TIMEOUT" "300";
  max_memory_mb ← int "MAX_MEMORY_MB" "512";
  max_output_size_mb ← int "MAX_OUTPUT_SIZE_MB" "50";
  max_output_files ← int "MAX_OUTPUT_FILES" "20";
  max_output_files_mb ← int "MAX_OUTPUT_FILES_MB" "10";
  script_uid ← int "SCRIPT_UID" "65534";
  script_gid ← int "SCRIPT_GID" "65534";
  session_ttl ← int "SESSION_TTL" "3600";
  cleanup_interval ← int "CLEANUP_INTERVAL" "300";
  client_recv_timeout ← int "CLIENT_RECV_TIMEOUT" "300";
  client_send_timeout ← int "CLIENT_SEND_TIMEOUT" "60";
  max_zip_entries ← int "MAX_ZIP_ENTRIES" "500";
  max_zip_total_size ← int "MAX_ZIP_TOTAL_SIZE" (str_of_Z (200 * 1024 * 1024));
  default_key_size ← int "DEFAULT_KEY_SIZE" "2048";
  Ok {|
    VSOCK_PORT := vsock_port;
    MAX_REQUEST_SIZE := max_request_size;
    LOG_LEVEL := getenv env "LOG_LEVEL" "INFO";
    LOG_FORMAT := getenv env "LOG_FORMAT" "%(asctime)s - %(name)s - %(levelname)s - %(message)s";
    KMS_REGION := getenv env "KMS_REGION" "ap-southeast-2";
    KMS_PROXY_PORT := kms_proxy_port;
    KMSTOOL_PATH := getenv env "KMSTOOL_PATH" "/app/kmstool_enclave_cli";
    EXECUTION_TIMEOUT := execution_timeout;
    MAX_MEMORY_MB := max_memory_mb;
    MAX_OUTPUT_SIZE_MB := max_output_size_mb;
    MAX_OUTPUT_FILES := max_output_files;
    MAX_OUTPUT_FILES_MB := max_output_files_mb;
    SCRIPT_UID := script_uid;
    SCRIPT_GID := script_gid;
    SESSION_TTL := session_ttl;
    CLEANUP_INTERVAL := cleanup_interval;
    CLIENT_RECV_TIMEOUT := client_recv_timeout;
    CLIENT_SEND_TIMEOUT := client_send_timeout;
    MAX_ZIP_ENTRIES := max_zip_entries;
    MAX_ZIP_TOTAL_SIZE := max_zip_total_size;
    DEFAULT_KEY_SIZE := default_key_size;
    ALLOWED_KEY_SIZES := [2048; 3072; 4096]%Z;
    ALLOW_LOCAL_ATTESTATION := flag env "ALLOW_LOCAL_ATTESTATION" "false";
    ENABLE_KMS_ATTESTATION := flag env "ENABLE_KMS_ATTESTATION" "true";
    ENABLE_SCRIPT_VALIDATION := flag env "ENABLE_SCRIPT_VALIDATION" "true";
    ENABLE_RESOURCE_MONITORING := flag env "ENABLE_RESOURCE_MONITORING" "false";
  |}.

(** The settings in force, imported by the other modules. *)
Class Settings : Type := settings : config.

(** The settings when no variable is set. *)
Definition default_config : config :=
  match load_config ∅ with
  | Ok c => c
  | Raise _ => Config 0 0 [] [] [] 0 [] 0 0 0 0 0 0 0 0 0 0 0 0 0 0 [] false false false false
  end.

Definition default_settings : Settings := default_config.

Lemma load_config_default : load_config ∅ = Ok default_config.
Proof. vm_compute. reflexivity. Qed.

Lemma load_config_key_sizes env c : load_config env = Ok c -> ALLOWED_KEY_SIZES c = [2048; 3072; 4096]%Z.
Proof.
  unfold load_config. intros H.
  repeat (apply result_bind_ok in H as (? & _ & H)). by injection H as <-.
Qed.

Lemma default_max_request_size : MAX_REQUEST_SIZE default_config = (200 * 1024 * 1024)%Z.
Proof. vm_compute. reflexivity. Qed.
