(* ===== verification/OutputFiles.v ===== *)
(** * output_files.py: the files a script leaves for the client

    The directory belongs to the script, and processes the script started may
    still be running while it is collected.  The file system is therefore a
    sequence of views: the [n]-th system call of the collection sees the
    [n]-th view, and nothing ties one view to the next.  [static] is the file
    system that nobody changes. *)
From stdpp Require Import base tactics list gmap sorting strings.
From Stdlib Require Import NArith ZArith Lia.
From S2P Require Import Prelude PyText PyCodec Sha2 PyJson PyJsonParse World.

(** ** Regular expressions: what [re.fullmatch] needs of them *)

Inductive regex : Type :=
  | RNone
  | REmpty
  | RClass (ranges : list (N * N))
  | RAlt (r1 r2 : regex)
  | RSeq (r1 r2 : regex)
  | RUpTo (n : nat) (r : regex).   (* [r{0,n}] *)

Definition in_class (ranges : list (N * N)) (c : N) : bool :=
  existsb (fun ab => (ab.1 <=? c) && (c <=? ab.2))%N ranges.

(** The strings a pattern describes. *)
Inductive matches : regex -> str -> Prop :=
  | m_empty : matches REmpty []
  | m_class rs c : in_class rs c = true -> matches (RClass rs) [c]
  | m_alt_l r1 r2 s : matches r1 s -> matches (RAlt r1 r2) s
  | m_alt_r r1 r2 s : matches r2 s -> matches (RAlt r1 r2) s
  | m_seq r1 r2 s1 s2 : matches r1 s1 -> matches r2 s2 -> matches (RSeq r1 r2) (s1 ++ s2)
  | m_upto_nil n r : matches (RUpTo n r) []
  | m_upto_cons n r s1 s2 :
      matches r s1 -> matches (RUpTo n r) s2 -> matches (RUpTo (S n) r) (s1 ++ s2).

Fixpoint nullable (r : regex) : bool :=
  match r with
  | RNone | RClass _ => false
  | REmpty | RUpTo _ _ => true
  | RAlt r1 r2 => nullable r1 || nullable r2
  | RSeq r1 r2 => nullable r1 && nullable r2
  end.

Definition alt (r1 r2 : regex) : regex :=
  match r1, r2 with
  | RNone, r | r, RNone => r
  | _, _ => RAlt r1 r2
  end.

Definition seq (r1 r2 : regex) : regex :=
  match r1, r2 with
  | RNone, _ | _, RNone => RNone
  | REmpty, r => r
  | _, _ => RSeq r1 r2
  end.

Fixpoint deriv (c : N) (r : regex) : regex :=
  match r with
  | RNone | REmpty => RNone
  | RClass rs => if in_class rs c then REmpty else RNone
  | RAlt r1 r2 => alt (deriv c r1) (deriv c r2)
  | RSeq r1 r2 => if nullable r1 then alt (seq (deriv c r1) r2) (deriv c r2) else seq (deriv c r1) r2
  | RUpTo 0 _ => RNone
  | RUpTo (S n) r => seq (deriv c r) (RUpTo n r)
  end.

Fixpoint fullmatch (r : regex) (s : str) : bool :=
  match s with
  | [] => nullable r
  | c :: s => fullmatch (deriv c r) s
  end.

(** ** Names and types *)

Definition OUTPUT_TYPES : list (str * str) :=
  [("csv", "text/csv"); ("png", "image/png"); ("jpg", "image/jpeg"); ("jpeg", "image/jpeg");
   ("json", "application/json"); ("txt", "text/plain"); ("pdf", "application/pdf")].
Definition DEFAULT_OUTPUT_TYPE : str := "application/octet-stream".

(** [[A-Za-z0-9]] and [[A-Za-z0-9._-]]. *)
Definition alnum_class : list (N * N) := [(65, 90); (97, 122); (48, 57)]%N.
Definition name_class : list (N * N) := alnum_class ++ [(46, 46); (95, 95); (45, 45)]%N.

Definition segment_re : regex := RSeq (RClass alnum_class) (RUpTo 99 (RClass name_class)).
Definition OUTPUT_FILE_NAME_RE : regex :=
  RSeq segment_re (RUpTo 4 (RSeq (RClass [(47, 47)%N]) segment_re)).
Definition MAX_OUTPUT_FILE_NAME_LEN : nat := 255.
Definition REJECTED_PREFIX : str := "Output files rejected: ".

Definition dot : N := 46.

Definition is_valid_output_file_name (name : str) : bool :=
  (length name <=? MAX_OUTPUT_FILE_NAME_LEN)%nat && fullmatch OUTPUT_FILE_NAME_RE name.

(** [s.rsplit(c, 1)[-1]]. *)
Definition last_field (c : N) (s : str) : str := default [] (last (str_split c s)).

Definition output_file_type (name : str) : str :=
  let base := last_field slash name in
  let ext := if bool_decide (dot ∈ base) then str_lower (last_field dot base) else [] in
  default DEFAULT_OUTPUT_TYPE (snd <$> find (fun kv => str_eqb ext kv.1) OUTPUT_TYPES).

(** ** The file system during a collection *)

Inductive inode (ino : Type) : Type :=
  | IReg (content : bytes)
  | IDir (entries : list (str * ino))
  | ILnk (target : option ino)      (* what following it reaches *)
  | ISpecial.
Arguments IReg {ino} content.
Arguments IDir {ino} entries.
Arguments ILnk {ino} target.
Arguments ISpecial {ino}.

(** [fs_root n] is what the output path names at the [n]-th call, [fs_node n]
    the inodes then, and [fs_fail n] the error the call runs into, if any;
    [fs_fd_fail n] is that of a call that looks at an open descriptor or closes
    it.  A [read] transfers one byte more than [fs_chunk n] at most. *)
Record fs : Type := Fs {
  ino : Type;
  fs_root : nat -> option ino;
  fs_node : nat -> ino -> option (inode ino);
  fs_fail : nat -> option (Z * str);
  fs_fd_fail : nat -> option (Z * str);
  fs_chunk : nat -> nat;
}.

(** [WalkFuel] is no error of the code: the walk was not over within its fuel. *)
Inductive fs_error : Type :=
  | OsErr (errno : Z) (strerror : str) (path : option str)
  | Rejected (msg : str)
  | WalkFuel.

(** The calls made so far, and the open descriptors; a descriptor is named by
    the call that opened it. *)
Record fstate (ino : Type) : Type := FState { calls : nat; fds : gmap nat ino }.
Arguments FState {ino} _ _.
Arguments calls {ino} _.
Arguments fds {ino} _.

Definition ENOENT : Z * str := (2%Z, "No such file or directory").
Definition ENOTDIR : Z * str := (20%Z, "Not a directory").
Definition EISDIR : Z * str := (21%Z, "Is a directory").
Definition EBADF : Z * str := (9%Z, "Bad file descriptor").
Definition ELOOP : Z * str := (40%Z, "Too many levels of symbolic links").

Definition os_err (e : Z * str) (path : option str) : fs_error := OsErr e.1 e.2 path.

Fixpoint assoc {A} (k : str) (l : list (str * A)) : option A :=
  match l with
  | [] => None
  | (k', a) :: l => if str_eqb k k' then Some a else assoc k l
  end.

Section Calls.
Context `{Env} (f : fs) (output_dir : str).

Abbreviation FS := (ST fs_error (fstate (ino f))).

(** One call: it sees the view of its number. *)
Definition call_with {A} (fail : nat -> option (Z * str)) (path : option str) (k : nat -> result fs_error A) : FS A :=
  fun s =>
    let n := calls s in
    (match fail n with Some e => Raise (os_err e path) | None => k n end, FState (S n) (fds s)).

Definition syscall {A} (path : option str) (k : nat -> result fs_error A) : FS A := call_with (fs_fail f) path k.

(** The inode a descriptor is open on. *)
Definition fd_node (s : fstate (ino f)) (fd n : nat) : option (inode (ino f)) := i ← fds s !! fd; fs_node f n i.

(** A call on an open descriptor. *)
Definition fd_call {A} (fd : nat) (k : option (inode (ino f)) -> result fs_error A) : FS A :=
  fun s => call_with (fs_fd_fail f) None (fun n => k (fd_node s fd n)) s.

(** The [n]-th view of a symbolic link's target, of a directory's entry. *)
Definition deref (n : nat) (i : ino f) : option (ino f) :=
  match fs_node f n i with
  | Some (ILnk t) => t
  | _ => Some i
  end.

Definition child (n : nat) (i : ino f) (seg : str) : result (Z * str) (ino f) :=
  match fs_node f n i with
  | Some (IDir es) => match assoc seg es with Some j => Ok j | None => Raise ENOENT end
  | Some _ => Raise ENOTDIR
  | None => Raise ENOENT
  end.

(** Path resolution; every segment but the last follows links. *)
Fixpoint resolve (n : nat) (i : ino f) (segs : list str) : result (Z * str) (ino f) :=
  match segs with
  | [] => Ok i
  | seg :: segs =>
      match deref n i with
      | Some d => match child n d seg with
                  | Ok j => resolve n j segs
                  | Raise e => Raise e
                  end
      | None => Raise ENOENT
      end
  end.

(** [output_dir] or a path under it, relative to it. *)
Definition resolve_rel (n : nat) (rel : str) : result (Z * str) (ino f) :=
  match fs_root f n with
  | None => Raise ENOENT
  | Some r => match rel with [] => Ok r | _ => resolve n r (str_split slash rel) end
  end.

Definition full_path (rel : str) : str :=
  match rel with [] => output_dir | _ => output_dir ++ "/" ++ rel end.

Definition lift_err {A} (path : option str) (r : result (Z * str) A) : result fs_error A :=
  match r with Ok a => Ok a | Raise e => Raise (os_err e path) end.

Definition inode_of (n : nat) (i : ino f) : result (Z * str) (inode (ino f)) :=
  match fs_node f n i with Some x => Ok x | None => Raise ENOENT end.

(** [os.lstat]. *)
Definition lstat (rel : str) : FS (inode (ino f)) :=
  let p := Some (full_path rel) in
  syscall p (fun n => lift_err p (i ← resolve_rel n rel; inode_of n i)).

(** [os.stat]. *)
Definition stat_follow (rel : str) : FS (inode (ino f)) :=
  let p := Some (full_path rel) in
  syscall p (fun n => lift_err p (i ← resolve_rel n rel;
                                  match deref n i with
                                  | Some j => inode_of n j
                                  | None => Raise ENOENT
                                  end)).

(** [os.path.lexists], [os.path.islink], [os.path.isdir]: errors are [False]. *)
Definition lexists (rel : str) : FS bool :=
  st_try (_ ← lstat rel; mret true) (fun _ => mret false).
Definition islink (rel : str) : FS bool :=
  st_try (i ← lstat rel; mret (match i with ILnk _ => true | _ => false end)) (fun _ => mret false).
Definition isdir (rel : str) : FS bool :=
  st_try (i ← stat_follow rel; mret (match i with IDir _ => true | _ => false end))
    (fun _ => mret false).

(** A call that opens a descriptor on the inode it finds. *)
Definition open_call (path : str) (k : nat -> result (Z * str) (ino f)) : FS nat :=
  fun s =>
    match syscall (Some path) (fun n => lift_err (Some path) (k n)) s with
    | (Ok i, s') => (Ok (calls s), FState (calls s') (<[calls s := i]> (fds s')))
    | (Raise e, s') => (Raise e, s')
    end.

(** [os.close]: the descriptor is released, an error or not. *)
Definition os_close (fd : nat) : FS unit :=
  fun s =>
    (match fds s !! fd with
     | None => Raise (os_err EBADF None)
     | Some _ => match fs_fd_fail f (calls s) with Some e => Raise (os_err e None) | None => Ok tt end
     end, FState (S (calls s)) (delete fd (fds s))).

(** What the flags demand of the inode opened. *)
Definition must_dir (n : nat) (i : ino f) : result (Z * str) (ino f) :=
  match fs_node f n i with
  | Some (IDir _) => Ok i
  | Some _ => Raise ENOTDIR
  | None => Raise ENOENT
  end.

Definition not_link (n : nat) (i : ino f) : result (Z * str) (ino f) :=
  match fs_node f n i with
  | Some (ILnk _) => Raise ELOOP
  | Some _ => Ok i
  | None => Raise ENOENT
  end.

(** [os.scandir(path)]: opens the directory, links followed. *)
Definition scandir (rel : str) : FS nat :=
  open_call (full_path rel)
    (fun n => i ← resolve_rel n rel;
              match deref n i with Some j => must_dir n j | None => Raise ENOENT end).

(** The next entry of the iterator, which has yielded [k]: [None] at the end. *)
Definition next_entry (rel : str) (it k : nat) : FS (option str) :=
  fun s =>
    syscall (Some (full_path rel))
      (fun n => Ok match fd_node s it n with Some (IDir es) => fst <$> es !! k | _ => None end) s.

(** [ScandirIterator.close], which has no errors. *)
Definition scandir_close (it : nat) : FS unit :=
  st_modify (fun s => FState (S (calls s)) (delete it (fds s))).

(** [os.open(output_dir, os.O_RDONLY | _DIRECTORY | _NOFOLLOW)]. *)
Definition open_root : FS nat :=
  open_call output_dir (fun n => i ← resolve_rel n []; must_dir n i).

(** The inode behind a descriptor. *)
Definition fd_child (d : option (ino f)) (seg : str) (n : nat) : result (Z * str) (ino f) :=
  match d with Some d => child n d seg | None => Raise EBADF end.

(** [os.open(seg, os.O_RDONLY | _DIRECTORY | _NOFOLLOW, dir_fd=dir_fd)]. *)
Definition open_dir_at (dir_fd : nat) (seg : str) : FS nat :=
  d ← st_gets (fun s => fds s !! dir_fd);
  open_call seg (fun n => i ← fd_child d seg n; must_dir n i).

(** [os.open(seg, os.O_RDONLY | _NOFOLLOW, dir_fd=dir_fd)]. *)
Definition open_file_at (dir_fd : nat) (seg : str) : FS nat :=
  d ← st_gets (fun s => fds s !! dir_fd);
  open_call seg (fun n => i ← fd_child d seg n; not_link n i).

(** [stat.S_ISREG(os.fstat(fd).st_mode)]. *)
Definition fstat_isreg (fd : nat) : FS bool :=
  fd_call fd (fun x => Ok match x with Some (IReg _) => true | _ => false end).

(** [os.fdopen(fd, 'rb')]: a descriptor it refuses stays open.  It also refuses
    directories, which [_open_nofollow] does not return. *)
Definition fdopen (fd : nat) : FS unit := fd_call fd (fun _ => Ok tt).

(** [read(2)] at the offset [pos] of the descriptor. *)
Definition read_call (fd pos size : nat) : FS bytes :=
  fun s =>
    syscall None
      (fun n => match fd_node s fd n with
                | Some (IReg c) => Ok (take (Nat.min size (S (fs_chunk f n))) (drop pos c))
                | Some (IDir _) => Raise (os_err EISDIR None)
                | _ => Raise (os_err EBADF None)
                end) s.

(** [BufferedReader.read(size)] reads until it has that much or the file ends.
    Each round has at least one byte, so [size] rounds are enough. *)
Fixpoint read_rounds (rounds fd pos size : nat) : FS bytes :=
  match rounds with
  | S rounds =>
      if (size =? 0)%nat then mret []
      else
        chunk ← read_call fd pos size;
        match chunk with
        | [] => mret []
        | _ => rest ← read_rounds rounds fd (pos + length chunk) (size - length chunk); mret (chunk ++ rest)
        end
  | O => mret []
  end.

(** [f.read(size)] with a positive [size], the only ones in the code: the sizes
    of the entries have been checked against [max_total_bytes]. *)
Definition read_fd (fd : nat) (size : Z) : FS bytes := read_rounds (Z.to_nat size) fd 0 (Z.to_nat size).

(** ** The collection *)

Definition repr (name : str) : str := py_repr printable (JStr name).

Definition entry_path (rel_dir name : str) : str :=
  match rel_dir with [] => name | _ => rel_dir ++ "/" ++ name end.

(** The [for entry in it] loop of [_walk], when [k] entries have been seen: one
    unit of fuel per entry. *)
Fixpoint walk_entries (fuel : nat) (max_files : Z) (rel_dir : str) (it k : nat)
    (stack : list str) (found : list (str * Z)) : FS (list str * list (str * Z)) :=
  match fuel with
  | 0 => mraise WalkFuel
  | S fuel =>
      entry ← next_entry rel_dir it k;
      match entry with
      | None => mret (stack, found)
      | Some entry_name =>
          let name := entry_path rel_dir entry_name in
          st ← lstat name;
          match st with
          | ILnk _ => mraise (Rejected ("symlink not allowed: " ++ repr name))
          | IDir _ => walk_entries fuel max_files rel_dir it (S k) (name :: stack) found
          | ISpecial => mraise (Rejected ("not a regular file: " ++ repr name))
          | IReg c =>
              if negb (is_valid_output_file_name name) then
                mraise (Rejected ("invalid file name: " ++ repr name))
              else
                let found := found ++ [(name, Z.of_nat (length c))] in
                if (max_files <? Z.of_nat (length found))%Z then
                  mraise (Rejected ("too many files (> " ++ str_of_Z max_files ++ ")"))
                else walk_entries fuel max_files rel_dir it (S k) stack found
          end
      end
  end.

(** [while stack]: one unit of fuel per directory; each has fuel of its own. *)
Fixpoint walk_loop (fuel entry_fuel : nat) (max_files : Z) (stack : list str) (found : list (str * Z))
    : FS (list (str * Z)) :=
  match stack with
  | [] => mret found
  | rel_dir :: stack =>
      match fuel with
      | 0 => mraise WalkFuel
      | S fuel =>
          it ← scandir rel_dir;
          '(stack, found) ← st_finally (walk_entries entry_fuel max_files rel_dir it 0 stack found) (scandir_close it);
          walk_loop fuel entry_fuel max_files stack found
      end
  end.

Definition _walk (fuel : nat) (max_files : Z) : FS (list (str * Z)) :=
  walk_loop fuel fuel max_files [[]] [].

(** The loop of [_open_nofollow] from [dir_fd], inside its [try]. *)
Fixpoint open_segments (dir_fd : nat) (seg : str) (segs : list str) : FS nat :=
  match segs with
  | [] => st_finally (open_file_at dir_fd seg) (os_close dir_fd)
  | seg' :: segs =>
      (* left by an exception, the [try] closes [dir_fd], again if that is what failed *)
      next_fd ← st_try (open_dir_at dir_fd seg) (fun e => _ ← os_close dir_fd; mraise e);
      _ ← st_try (os_close dir_fd) (fun e => _ ← os_close dir_fd; mraise e);
      open_segments next_fd seg' segs
  end.

Definition _open_nofollow (name : str) : FS nat :=
  dir_fd ← open_root;
  fd ← match str_split slash name with
       | [] => mraise (os_err ENOENT (Some name))
       | seg :: segs => open_segments dir_fd seg segs
       end;
  isreg ← fstat_isreg fd;
  if (isreg : bool) then mret fd
  else _ ← os_close fd; mraise (Rejected ("not a regular file: " ++ repr name)).

Record output_file : Type := OutputFile {
  of_name : str;
  of_size : Z;
  of_sha256 : str;
  of_type : str;
  of_content : bytes;
}.

Definition output_file_of (name : str) (content : bytes) : output_file := {|
  of_name := name;
  of_size := Z.of_nat (length content);
  of_sha256 := sha256_hex content;
  of_type := output_file_type name;
  of_content := content;
|}.

(** Python compares the tuples [(name, size)]. *)
Definition entry_leb (a b : str * Z) : bool :=
  str_leb a.1 b.1 && (negb (str_eqb a.1 b.1) || (a.2 <=? b.2)%Z).

(** The reading loop of [collect_output_files]. *)
Fixpoint read_files (max_total_bytes : Z) (entries : list (str * Z)) (total : Z)
    (files : list output_file) : FS (list output_file) :=
  match entries with
  | [] => mret files
  | (name, _) :: entries =>
      fd ← st_try (_open_nofollow name)
             (fun e => match e with
                       | OsErr _ strerror _ =>
                           mraise (Rejected ("cannot read " ++ repr name ++ ": " ++ strerror))
                       | _ => mraise e
                       end);
      _ ← fdopen fd;
      content ← st_finally (read_fd fd (max_total_bytes - total + 1)%Z) (os_close fd);
      let total := (total + Z.of_nat (length content))%Z in
      if (max_total_bytes <? total)%Z then
        mraise (Rejected ("total size too large (> " ++ str_of_Z max_total_bytes ++ " bytes)"))
      else read_files max_total_bytes entries total (files ++ [output_file_of name content])
  end.

Definition sum_sizes (entries : list (str * Z)) : Z := foldr Z.add 0%Z (map snd entries).

Definition collect_output_files (fuel : nat) (max_files max_total_bytes : Z) : FS (list output_file) :=
  there ← lexists [];
  if negb there then mret []
  else
    link ← islink [];
    dir ← (if (link : bool) then mret true else isdir []);
    if link || negb dir then mraise (Rejected "outputs is not a directory")
    else
      entries ← _walk fuel max_files;
      let total := sum_sizes entries in
      if (max_total_bytes <? total)%Z then
        mraise (Rejected ("total size too large (" ++ str_of_Z total ++ " > "
                          ++ str_of_Z max_total_bytes ++ " bytes)"))
      else read_files max_total_bytes (sorted_by entry_leb id entries) 0 [].
End Calls.

(** ** The manifest *)

Definition manifest_entry (f : output_file) : json :=
  JObj [("name", JStr (of_name f)); ("size", JInt (of_size f));
        ("sha256", JStr (of_sha256 f)); ("type", JStr (of_type f))].

(** [sorted(manifest, key=lambda m: m['name'])]. *)
Definition build_files_manifest (files : list output_file) : list json :=
  map manifest_entry (sorted_by str_leb of_name files).

Definition canonical_manifest_bytes (manifest : list json) : bytes :=
  dumps_bytes canonical_style (JArr manifest).

Definition files_manifest_sha256 (manifest : list json) : str :=
  sha256_hex (canonical_manifest_bytes manifest).

(** ** The matcher decides the pattern *)

Lemma nullable_spec r : nullable r = true <-> matches r [].
Proof.
  split.
  - induction r; cbn; intros H; try done; try by constructor.
    + apply orb_true_iff in H as [H|H]; [apply m_alt_l|apply m_alt_r]; auto.
    + apply andb_true_iff in H as [H1 H2]. apply (m_seq _ _ [] []); auto.
  - remember [] as s eqn:Hs. induction 1; cbn in *; try done; subst.
    + by rewrite IHmatches.
    + rewrite IHmatches by done. by rewrite orb_true_r.
    + apply app_nil in Hs as [-> ->]. by rewrite IHmatches1, IHmatches2.
Qed.

Lemma matches_alt r1 r2 s : matches (alt r1 r2) s <-> matches r1 s \/ matches r2 s.
Proof.
  assert (matches (RAlt r1 r2) s <-> matches r1 s \/ matches r2 s) as Hraw.
  { split; [inversion 1; auto|intros [H|H]; [by apply m_alt_l|by apply m_alt_r]]. }
  assert (forall s, ~ matches RNone s) as Hnone by (intros ?; inversion 1).
  destruct r1, r2; cbn; rewrite ?Hraw; try done; naive_solver.
Qed.

Lemma matches_seq r1 r2 s :
  matches (seq r1 r2) s <-> exists s1 s2, s = s1 ++ s2 /\ matches r1 s1 /\ matches r2 s2.
Proof.
  assert (matches (RSeq r1 r2) s <-> exists s1 s2, s = s1 ++ s2 /\ matches r1 s1 /\ matches r2 s2) as Hraw.
  { split; [inversion 1; eauto|intros (? & ? & -> & ? & ?); by constructor]. }
  assert (forall s, ~ matches RNone s) as Hnone by (intros ?; inversion 1).
  assert (forall s, matches REmpty s <-> s = []) as Hempty
    by (intros; split; [by inversion 1|intros ->; constructor]).
  assert (matches r2 s <-> exists s1 s2, s = s1 ++ s2 /\ s1 = [] /\ matches r2 s2) as Hright
    by (split; [by exists [], s|by intros (? & ? & -> & -> & ?)]).
  destruct r1, r2; cbn; rewrite ?Hraw; naive_solver.
Qed.

Lemma matches_cons_inv r c s :
  matches r (c :: s) <-> match r with
    | RNone | REmpty => False
    | RClass rs => in_class rs c = true /\ s = []
    | RAlt r1 r2 => matches r1 (c :: s) \/ matches r2 (c :: s)
    | RSeq r1 r2 =>
        (matches r1 [] /\ matches r2 (c :: s)) \/
        exists s1 s2, s = s1 ++ s2 /\ matches r1 (c :: s1) /\ matches r2 s2
    | RUpTo n r => exists n' s1 s2, n = S n' /\ s = s1 ++ s2 /\ matches r (c :: s1) /\ matches (RUpTo n' r) s2
    end.
Proof.
  split.
  - destruct r as [| |rs|r1 r2|r1 r2|n r]; [inversion 1|inversion 1|inversion 1|inversion 1| |]; try auto.
    + inversion 1 as [| | | |? ? [|c' s1] s2 H1 H2| |]; simplify_eq/=; [by left|right; eauto].
    + remember (c :: s) as t eqn:Ht. remember (RUpTo n r) as q eqn:Hq. intros Hm. revert n Hq c s Ht.
      induction Hm as [| | | | | |n r0 s1 s2 H1 _ H2 IH]; intros m Hq c1 s3 Ht; try discriminate.
      injection Hq as <- ->. destruct s1 as [|c' s1]; cbn in Ht.
      * destruct (IH _ eq_refl _ _ Ht) as (n' & t1 & t2 & -> & -> & Ha & Hb).
        exists (S n'), t1, t2. split_and!; [done..|].
        clear -Hb. remember (RUpTo n' r) as q eqn:Hq. revert n' Hq.
        induction Hb; intros n' Hq; try discriminate; injection Hq as <- <-; constructor; auto.
      * injection Ht as -> <-. by exists n, s1, s2.
  - destruct r as [| |rs|r1 r2|r1 r2|n r]; try done.
    + intros [? ->]. by constructor.
    + intros [?|?]; [by apply m_alt_l|by apply m_alt_r].
    + intros [[H1 H2]|(s1 & s2 & -> & H1 & H2)]; [by apply (m_seq _ _ [] _)|].
      by apply (m_seq _ _ (c :: s1) s2).
    + intros (n' & s1 & s2 & -> & -> & H1 & H2). by apply (m_upto_cons _ _ (c :: s1) s2).
Qed.

Lemma deriv_spec r c s : matches (deriv c r) s <-> matches r (c :: s).
Proof.
  revert s. induction r as [| |rs|r1 IH1 r2 IH2|r1 IH1 r2 IH2|n r IH]; intros s; rewrite matches_cons_inv; cbn.
  - split; [inversion 1|done].
  - split; [inversion 1|done].
  - destruct (in_class rs c); split; try by inversion 1.
    intros [_ ->]. constructor.
  - by rewrite matches_alt, IH1, IH2.
  - pose proof (nullable_spec r1) as Hn. destruct (nullable r1).
    + rewrite matches_alt, matches_seq, IH2. setoid_rewrite IH1. naive_solver.
    + rewrite matches_seq. setoid_rewrite IH1. naive_solver.
  - destruct n as [|n].
    + split; [inversion 1|naive_solver].
    + rewrite matches_seq. setoid_rewrite IH. naive_solver.
Qed.

Lemma fullmatch_spec r s : fullmatch r s = true <-> matches r s.
Proof.
  revert r. induction s as [|c s IH]; intros r; cbn; [apply nullable_spec|].
  by rewrite IH, deriv_spec.
Qed.

(** ** The name rule *)

Definition segment_ok (s : str) : bool :=
  match s with
  | [] => false
  | c :: t => in_class alnum_class c && (length t <=? 99)%nat && forallb (in_class name_class) t
  end.

Lemma matches_upto_class n rs s :
  matches (RUpTo n (RClass rs)) s <-> (length s <= n)%nat /\ forallb (in_class rs) s = true.
Proof.
  revert n. induction s as [|c s IH]; intros n; cbn.
  - split; [split; [lia|done]|constructor].
  - rewrite matches_cons_inv, andb_true_iff. split.
    + intros (n' & s1 & s2 & -> & -> & H1 & H2).
      apply matches_cons_inv in H1 as [Hc ->]. apply IH in H2 as [Hl Hf]. cbn in *. split_and!; [lia|done..].
    + intros (Hl & Hc & Hf). destruct n as [|n]; [lia|]. exists n, [], s.
      split_and!; [done..|by constructor|]. apply IH. split; [lia|done].
Qed.

Lemma matches_segment s : matches segment_re s <-> segment_ok s = true.
Proof.
  unfold segment_re. destruct s as [|c t].
  - split; [|done]. intros H. apply nullable_spec in H. done.
  - rewrite matches_cons_inv. unfold segment_ok. rewrite !andb_true_iff. split.
    + intros [[H _]|(s1 & s2 & -> & H1 & H2)]; [inversion H|].
      apply matches_cons_inv in H1 as [Hc ->]. apply matches_upto_class in H2 as [Hl Hf].
      cbn [app]. split_and!; [done|by apply Nat.leb_le|done].
    + intros [[Hc Hl] Hf]. right. exists [], t. split_and!; [done|by constructor|].
      apply matches_upto_class. split; [by apply Nat.leb_le|done].
Qed.

Lemma name_class_no_slash s : forallb (in_class name_class) s = true -> slash ∉ s.
Proof.
  intros H Hin. rewrite forallb_forall in H. apply list_elem_of_In in Hin. by apply H in Hin.
Qed.

Lemma segment_ok_no_slash s : segment_ok s = true -> slash ∉ s.
Proof.
  destruct s as [|c t]; [done|]. unfold segment_ok. rewrite !andb_true_iff.
  intros [[Hc _] Hf]. apply name_class_no_slash in Hf. apply not_elem_of_cons. split; [|done].
  by intros <-.
Qed.

Lemma matches_more_segments n s :
  matches (RUpTo n (RSeq (RClass [(47, 47)%N]) segment_re)) s <->
  exists segs, (length segs <= n)%nat /\ Forall (fun g => segment_ok g = true) segs
    /\ s = concat (map (cons slash) segs).
Proof.
  split.
  - revert s.
    induction n as [|n IH]; intros s; (destruct s as [|c s]; [exists []; cbn; split_and!; auto using Nat.le_0_l|]);
      rewrite matches_cons_inv; intros (n' & s1 & s2 & Hn & -> & H1 & H2); [done|].
    injection Hn as <-. apply matches_cons_inv in H1 as [[H1 _]|(t1 & t2 & -> & H1 & Hseg)]; [inversion H1|].
    apply matches_cons_inv in H1 as [Hc ->]. apply IH in H2 as (segs & Hl & Hf & ->).
    apply matches_segment in Hseg. exists (t2 :: segs). split_and!; [cbn; lia|by constructor|].
    cbn in *. assert (c = 47)%N as ->; [|done].
    rewrite orb_false_r, andb_true_iff, !N.leb_le in Hc. lia.
  - intros (segs & Hl & Hf & ->). revert n Hl. induction Hf as [|g segs Hg _ IH]; cbn; intros n Hl; [constructor|].
    destruct n as [|n]; [lia|]. apply (m_upto_cons _ _ (slash :: g)); [|apply IH; lia].
    apply (m_seq _ _ [slash]); [by constructor|by apply matches_segment].
Qed.

Lemma join_segments g segs : g ++ concat (map (cons slash) segs) = str_join [slash] (g :: segs).
Proof.
  revert g. induction segs as [|h segs IH]; intros g; [apply app_nil_r|].
  change (str_join [slash] (g :: h :: segs)) with (g ++ [slash] ++ str_join [slash] (h :: segs)).
  by rewrite <-IH.
Qed.

Lemma matches_file_name s :
  matches OUTPUT_FILE_NAME_RE s <->
  (length (str_split slash s) <= 5)%nat /\ Forall (fun g => segment_ok g = true) (str_split slash s).
Proof.
  split.
  - unfold OUTPUT_FILE_NAME_RE. intros H. inversion H as [| | | |? ? g s2 Hg Hs2| |]; subst.
    apply matches_segment in Hg. apply matches_more_segments in Hs2 as (segs & Hl & Hf & ->).
    assert (Forall (fun g => segment_ok g = true) (g :: segs)) as Hall by by constructor.
    rewrite join_segments, str_split_join; [|done|]; [split; [cbn; lia|done]|].
    eapply Forall_impl; [exact Hall|]. exact segment_ok_no_slash.
  - intros [Hl Hf]. rewrite <-(str_join_split slash s).
    pose proof (str_split_nonempty slash s). destruct (str_split slash s) as [|g segs]; [done|].
    rewrite <-join_segments. inv Hf. constructor; [by apply matches_segment|].
    apply matches_more_segments. exists segs. split_and!; [cbn in Hl; lia|done..].
Qed.

(** The name rule, as the comment above the pattern states it. *)
Definition name_rule (name : str) : Prop :=
  (length name <= 255)%nat
  /\ (1 <= length (str_split slash name) <= 5)%nat
  /\ Forall (fun g => segment_ok g = true) (str_split slash name).

Lemma valid_name_rule name : is_valid_output_file_name name = true <-> name_rule name.
Proof.
  unfold is_valid_output_file_name, name_rule.
  rewrite andb_true_iff, Nat.leb_le, fullmatch_spec, matches_file_name.
  pose proof (str_split_nonempty slash name). destruct (str_split slash name); [done|].
  cbn [length]. intuition lia.
Qed.

(** ** Properties of names, types and manifests *)

Lemma segment_ok_not_dots g : segment_ok g = true -> g <> [] /\ g <> "." /\ g <> "..".
Proof. destruct g as [|c t]; [done|]. intros H. split_and!; [done| |]; intros E; injection E as -> ->; done. Qed.

Lemma name_class_valid_char c : in_class name_class c = true -> valid_char c = true.
Proof.
  unfold in_class, name_class, valid_char, is_surrogate. cbn [existsb app alnum_class fst snd].
  rewrite !orb_true_iff, !andb_true_iff, !N.leb_le. intros H.
  assert (c < 128)%N as Hc by (clear -H; intuition (try lia; done)).
  rewrite (proj2 (N.ltb_lt _ _)) by lia. by rewrite (proj2 (N.leb_gt _ _)) by lia.
Qed.

Lemma alnum_name_class c : in_class alnum_class c = true -> in_class name_class c = true.
Proof. unfold in_class, name_class. rewrite existsb_app. by intros ->. Qed.

Lemma segment_ok_chars g : segment_ok g = true -> forallb valid_char g = true.
Proof.
  destruct g as [|c t]; [done|]. cbn. rewrite !andb_true_iff. intros [[Hc _] Ht].
  split; [by apply name_class_valid_char, alnum_name_class|].
  rewrite forallb_forall in *. intros x Hx. by apply name_class_valid_char, Ht.
Qed.

Lemma forallb_str_join P sep l :
  forallb P sep = true -> Forall (fun g => forallb P g = true) l -> forallb P (str_join sep l) = true.
Proof.
  intros Hs Hl. induction Hl as [|g l Hg Hl IH]; [done|]. destruct l as [|h l]; [done|].
  change (str_join sep (g :: h :: l)) with (g ++ sep ++ str_join sep (h :: l)).
  by rewrite !forallb_app, Hg, Hs, IH.
Qed.

Lemma valid_name_chars name : is_valid_output_file_name name = true -> forallb valid_char name = true.
Proof.
  rewrite valid_name_rule. intros (_ & _ & Hf). rewrite <-(str_join_split slash name).
  apply forallb_str_join; [done|]. eapply Forall_impl; [exact Hf|]. exact segment_ok_chars.
Qed.

(** C27: The name check accepts exactly the names of the documented rule, and an
      accepted name has no empty, [.] or [..] segment. *)
Theorem output_file_name_rule name :
  (is_valid_output_file_name name = true <-> name_rule name)
  /\ (is_valid_output_file_name name = true ->
      Forall (fun g => g <> [] /\ g <> "." /\ g <> "..") (str_split slash name)).
Proof.
  split; [apply valid_name_rule|]. rewrite valid_name_rule. intros (_ & _ & Hf).
  eapply Forall_impl; [exact Hf|]. exact segment_ok_not_dots.
Qed.

Lemma last_cons_nonempty {A} (x : A) l : l <> [] -> last (x :: l) = last l.
Proof. by destruct l. Qed.

Lemma length_str_split_app c s t : (2 <= length (str_split c (s ++ c :: t)))%nat.
Proof.
  induction s as [|y s IH]; cbn.
  - rewrite N.eqb_refl. pose proof (str_split_nonempty c t). destruct (str_split c t); [done|cbn; lia].
  - destruct (y =? c)%N; [cbn; lia|]. destruct (str_split c (s ++ c :: t)); cbn in *; lia.
Qed.

Lemma last_field_app c s t : c ∉ t -> last_field c (s ++ c :: t) = t.
Proof.
  intros Ht. unfold last_field.
  assert (last (str_split c (s ++ c :: t)) = Some t) as ->; [|done].
  induction s as [|x s IH]; cbn.
  - rewrite N.eqb_refl, str_split_field by done. done.
  - destruct (x =? c)%N.
    + rewrite last_cons_nonempty by apply str_split_nonempty. done.
    + pose proof (str_split_nonempty c (s ++ c :: t)).
      destruct (str_split c (s ++ c :: t)) as [|f fs] eqn:E; [done|].
      destruct fs as [|g fs]; [|done].
      pose proof (length_str_split_app c s t) as Hl. rewrite E in Hl. cbn in Hl. lia.
Qed.

Lemma last_field_none c t : c ∉ t -> last_field c t = t.
Proof. intros Ht. unfold last_field. by rewrite str_split_field. Qed.

(** The type of a file is that of the part after the last dot of its last
      segment, whatever its case, and the default type when the table does not
      list it or the segment has no dot. *)
Theorem output_file_type_spec dir stem ext :
  slash ∉ stem -> slash ∉ ext -> dot ∉ ext ->
  output_file_type (dir ++ slash :: stem ++ dot :: ext)
  = default DEFAULT_OUTPUT_TYPE (snd <$> find (fun kv => str_eqb (str_lower ext) kv.1) OUTPUT_TYPES)
  /\ output_file_type (stem ++ dot :: ext) = output_file_type (dir ++ slash :: stem ++ dot :: ext)
  /\ output_file_type (dir ++ slash :: ext) = DEFAULT_OUTPUT_TYPE.
Proof.
  intros Hstem Hext Hdot.
  assert (slash ∉ stem ++ dot :: ext) as Hbase.
  { rewrite elem_of_app, elem_of_cons. intros [?|[?|?]]; done. }
  unfold output_file_type. rewrite !last_field_app, (last_field_none slash) by done.
  rewrite last_field_app by done.
  rewrite bool_decide_eq_true_2 by set_solver. rewrite bool_decide_eq_false_2 by done.
  by split_and!.
Qed.

(** What the manifest needs of the values in it. *)
Definition file_wf (f : output_file) : Prop :=
  forallb valid_char (of_name f) = true /\ forallb valid_char (of_sha256 f) = true
  /\ forallb valid_char (of_type f) = true /\ int_ok (of_size f) = true.

Lemma manifest_entry_ok f : file_wf f -> json_ok (manifest_entry f) = true.
Proof. intros (Hn & Hs & Ht & Hz). cbn. by rewrite Hn, Hs, Ht, Hz. Qed.

Lemma manifest_ok files : Forall file_wf files -> json_ok (JArr (build_files_manifest files)) = true.
Proof.
  intros Hwf. cbn. apply forallb_forall. intros v Hv. apply in_map_iff in Hv as (f & <- & Hf).
  apply manifest_entry_ok. apply list_elem_of_In, elem_of_sorted_by in Hf.
  by rewrite Forall_forall in Hwf; apply Hwf.
Qed.

Lemma manifest_entry_order f :
  json_order canonical_style (manifest_entry f)
  = JObj [("name", JStr (of_name f)); ("sha256", JStr (of_sha256 f));
          ("size", JInt (of_size f)); ("type", JStr (of_type f))].
Proof. reflexivity. Qed.

Lemma manifest_order_inj l1 l2 :
  map (json_order canonical_style) (map manifest_entry l1)
  = map (json_order canonical_style) (map manifest_entry l2) ->
  map manifest_entry l1 = map manifest_entry l2.
Proof.
  revert l2. induction l1 as [|f1 l1 IH]; intros [|f2 l2]; try done.
  cbn [map]. rewrite !manifest_entry_order. intros E. injection E as E1 E2 E3 E4 E.
  unfold manifest_entry at 1 3. rewrite E1, E2, E3, E4. f_equal. by apply IH.
Qed.

(** C24: the canonical bytes of a manifest determine it: two collections whose
      manifests differ in any name, size, hash or type are never hashed from the
      same bytes. *)
Theorem canonical_manifest_injective files1 files2 :
  Forall file_wf files1 -> Forall file_wf files2 ->
  canonical_manifest_bytes (build_files_manifest files1)
  = canonical_manifest_bytes (build_files_manifest files2) ->
  build_files_manifest files1 = build_files_manifest files2.
Proof.
  intros H1 H2 E. apply (f_equal bytes_decode) in E. unfold canonical_manifest_bytes in E.
  rewrite !bytes_decode_dumps in E by done. apply (inj Ok) in E.
  apply dumps_inj in E; [|auto using manifest_ok with enclave..].
  cbn [json_order] in E. injection E as E. by apply manifest_order_inj.
Qed.

Lemma NoDup_names_inj (files : list output_file) x y :
  NoDup (map of_name files) -> x ∈ files -> y ∈ files -> of_name x = of_name y -> x = y.
Proof.
  induction files as [|f files IH]; cbn; intros Hnd Hx Hy E; [set_solver|].
  inv Hnd as [|?? Hf Hnd']. rewrite elem_of_cons in Hx, Hy.
  destruct Hx as [->|Hx], Hy as [->|Hy]; auto; destruct Hf;
    [rewrite E|rewrite <-E]; apply list_elem_of_In, in_map, list_elem_of_In; done.
Qed.

(** The manifest and its hash do not depend on the order in which the files
      are listed, and the manifest is sorted by name. *)
Theorem manifest_order_independent files1 files2 :
  files1 ≡ₚ files2 -> NoDup (map of_name files1) ->
  files_manifest_sha256 (build_files_manifest files1)
  = files_manifest_sha256 (build_files_manifest files2)
  /\ exists sorted, build_files_manifest files1 = map manifest_entry sorted
       /\ sorted ≡ₚ files1 /\ StronglySorted (key_le str_leb of_name) sorted.
Proof.
  intros Hp Hnd. split.
  - unfold build_files_manifest.
    rewrite (sorted_by_perm_eq _ _ str_leb_total str_leb_trans str_leb_antisym files1 files2); [done..|].
    intros x y Hx Hy E. by eapply NoDup_names_inj.
  - exists (sorted_by str_leb of_name files1). split_and!; [done|apply sorted_by_perm|].
    apply sorted_by_strongly_sorted; [exact str_leb_total|exact str_leb_trans].
Qed.

(** The vectors shared with the coordinator, the job scheduler and the verifier
    (tests/test_output_files.py). *)
Definition KAT_FILES : list output_file :=
  [output_file_of "plot.png" (bytes_of_Ns [0x89; 80; 78; 71; 13; 10; 26; 10]%N);
   output_file_of "a.csv" (bytes_of_Ns [120; 44; 121; 10; 49; 44; 50; 10]%N)].
Definition KAT2_FILES : list output_file :=
  [output_file_of "a.csv" (bytes_of_Ns [120; 44; 121; 10; 49; 44; 50; 10]%N);
   output_file_of "plots/fig.bin" (bytes_of_Ns [0; 1; 2]%N);
   output_file_of "notes" (bytes_of_Ns [104; 105; 10]%N)].
Definition manifest_vector (files : list output_file) : str :=
  files_manifest_sha256 (build_files_manifest files).

(** The manifest hash of the shared vectors is the published one. *)
Theorem manifest_known_answers :
  manifest_vector KAT_FILES = "a37a007f52723efc320ec5dfa00d80ee054d7733627a303b33b315c820958f9c"
  /\ manifest_vector KAT2_FILES = "49f15dcc85c70e4712ab20edd5e118eb3ea2526e264da93628522a3a6c456907"
  /\ manifest_vector [] = "4f53cda18c2baa0c0354bb5f9a3ecbe5ed12ab4d8e11ba873c2f11161202b945".
Proof. vm_compute. by split_and!. Qed.

(** ** Witnesses *)

Example output_file_type_spec_witness :
  output_file_type ("d" ++ slash :: "fig" ++ dot :: "PNG") = "image/png".
Proof.
  transitivity (default DEFAULT_OUTPUT_TYPE
    (snd <$> find (fun kv => str_eqb (str_lower "PNG") kv.1) OUTPUT_TYPES)); [|reflexivity].
  apply (output_file_type_spec "d" "fig" "PNG"); apply (bool_decide_unpack _); vm_compute; exact I.
Defined.

Example canonical_manifest_injective_witness :
  build_files_manifest KAT_FILES = build_files_manifest (reverse KAT_FILES).
Proof.
  apply canonical_manifest_injective.
  - repeat constructor; vm_compute; reflexivity.
  - repeat constructor; vm_compute; reflexivity.
  - vm_compute. reflexivity.
Defined.

Example manifest_order_independent_witness :
  manifest_vector KAT_FILES = manifest_vector (reverse KAT_FILES).
Proof.
  apply manifest_order_independent; [by rewrite reverse_Permutation|].
  apply (bool_decide_unpack _). vm_compute. exact I.
Defined.
