(* ===== verification/OutputCollect.v ===== *)
(** * The collection of output files: safety under interference, exactness at rest

    The lemmas on [collect_output_files] of output_files.py that hold whatever the
    script's surviving processes do to the directory between two system calls. *)
From stdpp Require Import base tactics list gmap sorting strings.
From Stdlib Require Import NArith ZArith Lia.
From S2P Require Import Prelude PyText PyCodec Sha2 PyJson World OutputFiles.

(** ** Descriptors and calls *)

Section Steady.
Context (f : fs).
Abbreviation FS := (ST fs_error (fstate (ino f))).

(** Descriptors are named by calls already made. *)
Definition fresh_state (s : fstate (ino f)) : Prop :=
  forall fd, calls s <= fd -> fds s !! fd = None.

(** No [fstat], [fdopen] or [close] fails from call [lo] to call [hi]. *)
Definition no_faults (lo hi : nat) : Prop := forall n, lo <= n < hi -> fs_fd_fail f n = None.

Lemma no_faults_mono lo hi lo' hi' : no_faults lo hi -> lo <= lo' -> hi' <= hi -> no_faults lo' hi'.
Proof. intros Hf ? ? n Hn. apply Hf. lia. Qed.

(** [m] leaves the descriptor table as it found it, and its value satisfies [Q];
    when it raises, the table may differ only after a fault. *)
Definition steady {A} (m : FS A) (Q : A -> Prop) : Prop :=
  forall s, fresh_state s ->
    calls s <= calls (m s).2
    /\ match (m s).1 with
       | Ok a => fds (m s).2 = fds s /\ Q a
       | Raise _ => no_faults (calls s) (calls (m s).2) -> fds (m s).2 = fds s
       end.

(** [m] opens one descriptor, on an inode [P] at that call, unless it raises. *)
Definition opens {A} (fd_of : A -> nat) (m : FS A) (P : nat -> ino f -> Prop) : Prop :=
  forall s, fresh_state s ->
    calls s <= calls (m s).2
    /\ match (m s).1 with
       | Ok a => exists i, fds (m s).2 = <[fd_of a := i]> (fds s)
                   /\ calls s <= fd_of a < calls (m s).2 /\ P (fd_of a) i
       | Raise _ => fds (m s).2 = fds s
       end.

(** [m] makes calls, and opens and closes nothing. *)
Definition quiet {A} (m : FS A) : Prop := forall s, fds (m s).2 = fds s /\ calls s <= calls (m s).2.

Lemma fresh_state_le (s s' : fstate (ino f)) :
  fresh_state s -> fds s' = fds s -> calls s <= calls s' -> fresh_state s'.
Proof. intros H Hf Hc fd Hfd. rewrite Hf. apply H. lia. Qed.

Lemma fresh_state_open (s s' : fstate (ino f)) fd i :
  fresh_state s -> fds s' = <[fd := i]> (fds s) -> fd < calls s' -> calls s <= calls s' -> fresh_state s'.
Proof. intros H Hf Hlt Hc k Hk. rewrite Hf, lookup_insert_ne by lia. apply H. lia. Qed.

Lemma steady_ret {A} (a : A) Q : Q a -> steady (mret a) Q.
Proof. by intros HQ s _. Qed.

Lemma steady_raise {A} (e : fs_error) (Q : A -> Prop) : steady (mraise e) Q.
Proof. by intros s _. Qed.

Lemma steady_mono {A} (m : FS A) (P Q : A -> Prop) : steady m P -> (forall a, P a -> Q a) -> steady m Q.
Proof.
  intros Hm H s Hs. destruct (Hm s Hs) as (? & HP). split; [done|].
  destruct (m s).1; [|done]. destruct HP. auto.
Qed.

Lemma steady_bind {A B} (m : FS A) (k : A -> FS B) P Q :
  steady m P -> (forall a, P a -> steady (k a) Q) -> steady (m ≫= k) Q.
Proof.
  intros Hm Hk s Hs. rewrite run_bind. destruct (Hm s Hs) as (Hc & HP).
  destruct (m s) as [[a|e] s1]; cbn [fst snd] in *; [|done]. destruct HP as [Hf HP].
  destruct (Hk a HP s1) as (Hc' & HQ); [by eapply fresh_state_le|].
  split; [lia|]. destruct (k a s1) as [[b|e] s2]; cbn [fst snd] in *.
  - destruct HQ. split; [congruence|done].
  - intros Hn. rewrite HQ; [done|]. eapply no_faults_mono; [exact Hn|done..].
Qed.

Lemma steady_quiet {A} (m : FS A) : quiet m -> steady m (fun _ => True).
Proof. intros Hm s _. destruct (Hm s). split; [done|]. by destruct (m s).1. Qed.

Lemma quiet_bind {A B} (m : FS A) (k : A -> FS B) : quiet m -> (forall a, quiet (k a)) -> quiet (m ≫= k).
Proof.
  intros Hm Hk s. rewrite run_bind. destruct (Hm s) as [Hf Hc].
  destruct (m s) as [[a|e] s1]; cbn [fst snd] in *; [|done]. destruct (Hk a s1). split; [congruence|lia].
Qed.

Lemma quiet_try {A} (m : FS A) (h : fs_error -> FS A) : quiet m -> (forall e, quiet (h e)) -> quiet (st_try m h).
Proof.
  intros Hm Hh s. rewrite run_try. destruct (Hm s) as [Hf Hc].
  destruct (m s) as [[a|e] s1]; cbn [fst snd] in *; [done|]. destruct (Hh e s1). split; [congruence|lia].
Qed.

Lemma quiet_ret {A} (a : A) : quiet (mret a).
Proof. by intros s. Qed.

Lemma quiet_call {A} fail path (k : nat -> result fs_error A) : quiet (call_with f fail path k).
Proof. intros s. cbn. split; [done|lia]. Qed.

Lemma quiet_fun {A} (m : fstate (ino f) -> FS A) : (forall s, quiet (m s)) -> quiet (fun s => m s s).
Proof. intros Hm s. apply Hm. Qed.

Lemma steady_ext {A} (m m' : FS A) Q : (forall s, m s = m' s) -> steady m' Q -> steady m Q.
Proof. intros Heq H s Hs. rewrite Heq. by apply H. Qed.

(** Open, use, close. *)
Lemma steady_bracket {B C} (m : FS nat) (P : nat -> ino f -> Prop) (k : nat -> FS B) (rest : B -> FS C) R Q :
  opens id m P -> (forall fd, steady (k fd) R) -> (forall b, R b -> steady (rest b) Q) ->
  steady (fd ← m; b ← st_finally (k fd) (scandir_close f fd); rest b) Q.
Proof.
  intros Hm Hk Hrest s Hs. rewrite run_bind. destruct (Hm s Hs) as (Hc & HP).
  destruct (m s) as [[fd|e] s1] eqn:E; cbn [fst snd id] in *; [|done].
  destruct HP as (i & Hf1 & Hfd & _).
  assert (fresh_state s1) as Hs1 by (eapply fresh_state_open; [exact Hs|exact Hf1|lia..]).
  destruct (Hk fd s1 Hs1) as (Hc2 & HR). rewrite run_bind, run_finally.
  destruct (k fd s1) as [r s2]; cbn [fst snd] in *. cbn.
  assert (fds s2 = fds s1 -> delete fd (fds s2) = fds s) as Hf3.
  { intros ->. rewrite Hf1, delete_insert_eq. apply delete_id, Hs. lia. }
  destruct r as [b|e]; cbn [fst snd calls fds].
  2: { split; [lia|]. intros Hn. apply Hf3, HR. eapply no_faults_mono; [exact Hn|lia|lia]. }
  destruct HR as [Hf2 HR]. specialize (Hf3 Hf2).
  destruct (Hrest b HR (FState (S (calls s2)) (delete fd (fds s2)))) as (Hc4 & HQ).
  { eapply (fresh_state_le s); [done|exact Hf3|cbn; lia]. }
  cbn [calls fds] in *. split; [lia|].
  destruct (rest b _) as [[c|e] s4]; cbn [fst snd] in *.
  - destruct HQ. split; [congruence|done].
  - intros Hn. rewrite HQ; [done|]. eapply no_faults_mono; [exact Hn|lia|lia].
Qed.
End Steady.

(** ** The order of the entries *)

Lemma entry_leb_name a b : entry_leb a b = true -> str_leb a.1 b.1 = true.
Proof. unfold entry_leb. rewrite andb_true_iff. by intros [H _]. Qed.

Lemma str_leb_eqb a b : str_leb a b = true -> str_leb b a = true -> str_eqb a b = true.
Proof. intros H1 H2. apply bool_decide_eq_true. by apply str_leb_antisym. Qed.

Lemma entry_leb_total a b : entry_leb a b = false -> entry_leb b a = true.
Proof.
  unfold entry_leb, str_eqb. rewrite andb_false_iff, orb_false_iff, negb_false_iff, bool_decide_eq_true.
  intros [H|[H H']].
  - rewrite (str_leb_total _ _ H). cbn. case_bool_decide as E; [|done].
    rewrite E, str_leb_refl in H. done.
  - rewrite H, str_leb_refl, bool_decide_eq_true_2 by done. cbn.
    apply Z.leb_gt in H'. apply Z.leb_le. lia.
Qed.

Lemma entry_leb_trans a b c : entry_leb a b = true -> entry_leb b c = true -> entry_leb a c = true.
Proof.
  unfold entry_leb, str_eqb. rewrite !andb_true_iff, !orb_true_iff, !negb_true_iff, !bool_decide_eq_false.
  rewrite !Z.leb_le. intros [H1 H1'] [H2 H2']. split; [by eapply str_leb_trans|].
  destruct (decide (a.1 = c.1)) as [E|E]; [right|by left].
  assert (a.1 = b.1) as E1 by (apply str_leb_antisym; [done|by rewrite E]).
  destruct H1', H2'; try congruence; lia.
Qed.

Lemma entry_leb_antisym a b : entry_leb a b = true -> entry_leb b a = true -> a = b.
Proof.
  destruct a as [n1 z1], b as [n2 z2]. unfold entry_leb, str_eqb. cbn.
  rewrite !andb_true_iff. intros [H1 H1'] [H2 H2'].
  assert (n1 = n2) as -> by by apply str_leb_antisym.
  rewrite bool_decide_eq_true_2 in H1', H2' by done. cbn in *.
  apply Z.leb_le in H1', H2'. f_equal. lia.
Qed.

Lemma sorted_entries_names entries :
  StronglySorted (fun a b => str_leb a b = true) (map fst (sorted_by entry_leb id entries)).
Proof.
  pose proof (sorted_by_strongly_sorted entry_leb id entry_leb_total entry_leb_trans entries) as H.
  induction H as [|e l _ IH Hall]; cbn; constructor; [done|].
  apply Forall_fmap. eapply Forall_impl; [exact Hall|]. intros x Hx. by apply entry_leb_name.
Qed.

Lemma sorted_names_files files :
  StronglySorted (fun a b => str_leb a b = true) (map of_name files) ->
  StronglySorted (key_le str_leb of_name) files.
Proof.
  induction files as [|fl files IH]; cbn; intros H; [constructor|]. inv H as [|?? Hs Hall].
  constructor; [auto|]. by apply Forall_fmap in Hall.
Qed.

(** ** Safety under interference *)

Section Safety.
Context `{Env} (f : fs) (output_dir : str).
Abbreviation FS := (ST fs_error (fstate (ino f))).

(** [reached n segs i]: going down from the output directory, one directory
    per segment and never through a link, leads to [i]; the last step saw the
    view of call [n], each earlier one an earlier view. *)
Inductive reached : nat -> list str -> ino f -> Prop :=
  | reached_root n i es :
      fs_root f n = Some i -> fs_node f n i = Some (IDir es) -> reached n [] i
  | reached_step n m segs d seg es i x :
      reached n segs d -> n < m ->
      fs_node f m d = Some (IDir es) -> assoc seg es = Some i ->
      fs_node f m i = Some x -> (forall t, x <> ILnk t) ->
      reached m (segs ++ [seg]) i.

Lemma open_call_opens path k (P : nat -> ino f -> Prop) :
  (forall n i, k n = Ok i -> P n i) -> opens f id (open_call f path k) P.
Proof.
  intros Hk s Hs. unfold open_call, syscall, call_with. cbn.
  destruct (fs_fail f (calls s)); cbn; [split; [lia|done]|].
  destruct (k (calls s)) as [i|e] eqn:E; cbn; [|split; [lia|done]].
  split; [lia|]. exists i. split_and!; [done|lia|lia|by apply Hk].
Qed.

Lemma scandir_opens rel : opens f id (scandir f output_dir rel) (fun _ _ => True).
Proof. by apply open_call_opens. Qed.

Lemma lstat_quiet rel : quiet f (lstat f output_dir rel).
Proof. apply quiet_call. Qed.

Lemma next_entry_quiet rel it k : quiet f (next_entry f output_dir rel it k).
Proof. apply (quiet_fun f (fun s => syscall f _ _)). intros s. apply quiet_call. Qed.

(** What the walk has found so far. *)
Definition found_ok (max_files : Z) (found : list (str * Z)) : Prop :=
  Forall (fun e => is_valid_output_file_name e.1 = true) found
  /\ (Z.of_nat (length found) <= max_files)%Z.

Lemma walk_entries_steady fuel max_files rel it k stack found :
  found_ok max_files found ->
  steady f (walk_entries f output_dir fuel max_files rel it k stack found)
    (fun r => found_ok max_files r.2).
Proof.
  revert k stack found. induction fuel as [|fuel IH]; intros k stack found Hok;
    cbn [walk_entries]; [apply steady_raise|].
  eapply steady_bind; [apply steady_quiet, next_entry_quiet|]. intros [entry_name|] _; [|by apply steady_ret].
  eapply steady_bind; [apply steady_quiet, lstat_quiet|]. intros st _.
  destruct st as [c|es|t|]; [|by apply IH|apply steady_raise|apply steady_raise].
  destruct (is_valid_output_file_name _) eqn:Hname; cbn [negb]; [|apply steady_raise].
  destruct (Z.ltb_spec max_files (Z.of_nat (length (found ++ [(entry_path rel entry_name, Z.of_nat (length c))]))));
    [apply steady_raise|].
  apply IH. destruct Hok as [Hf Hl]. split; [|done]. apply Forall_app. by repeat constructor.
Qed.

Lemma walk_loop_steady fuel entry_fuel max_files stack found :
  found_ok max_files found ->
  steady f (walk_loop f output_dir fuel entry_fuel max_files stack found) (found_ok max_files).
Proof.
  revert stack found. induction fuel as [|fuel IH]; intros stack found Hok;
    (destruct stack as [|rel stack]; [by apply steady_ret|]); [apply steady_raise|].
  eapply (steady_bracket f (scandir f output_dir rel) (fun _ _ => True)
    (fun it => walk_entries f output_dir entry_fuel max_files rel it 0 stack found)
    (fun b => let '(stack, found) := b in walk_loop f output_dir fuel entry_fuel max_files stack found)
    (fun r => found_ok max_files r.2)).
  - apply scandir_opens.
  - intros it. by apply walk_entries_steady.
  - intros [stack' found'] Hok'. by apply IH.
Qed.

(** *** Opening a file *)

Lemma reached_child n pre d m seg i :
  reached n pre d -> n < m ->
  child f m d seg = Ok i -> (exists x, fs_node f m i = Some x /\ forall t, x <> ILnk t) ->
  reached m (pre ++ [seg]) i.
Proof.
  intros Hr Hlt Hc (x & Hx & Hnl). unfold child in Hc.
  destruct (fs_node f m d) as [[c|es|t|]|] eqn:Hd; try discriminate.
  destruct (assoc seg es) as [j|] eqn:Ha; [|discriminate]. injection Hc as ->.
  by eapply reached_step.
Qed.

Lemma reached_must_dir n pre d m seg i :
  reached n pre d -> n < m ->
  (j ← fd_child f (Some d) seg m; must_dir f m j) = Ok i -> reached m (pre ++ [seg]) i.
Proof.
  intros Hr Hlt Hi. apply result_bind_ok in Hi as (j & Hj & Hi). unfold must_dir in Hi.
  destruct (fs_node f m j) as [[c|es|t|]|] eqn:Hn; try discriminate. injection Hi as <-.
  by eapply reached_child; eauto.
Qed.

Lemma reached_not_link n pre d m seg i :
  reached n pre d -> n < m ->
  (j ← fd_child f (Some d) seg m; not_link f m j) = Ok i -> reached m (pre ++ [seg]) i.
Proof.
  intros Hr Hlt Hi. apply result_bind_ok in Hi as (j & Hj & Hi). unfold not_link in Hi.
  destruct (fs_node f m j) as [[c|es|t|]|] eqn:Hn; try discriminate; injection Hi as <-;
    by eapply reached_child; eauto.
Qed.

(** The table [m0] with a descriptor on the inode that [segs] leads to. *)
Definition opened (m0 : gmap nat (ino f)) (lo : nat) (segs : list str)
    (r : result fs_error nat * fstate (ino f)) : Prop :=
  lo <= calls r.2 /\
  match r.1 with
  | Ok fd => exists i, fds r.2 = <[fd := i]> m0 /\ lo <= fd < calls r.2 /\ reached fd segs i
  | Raise _ => no_faults f lo (calls r.2) -> fds r.2 = m0
  end.

(** One [openat]: the state before has [dir_fd] open on [d]. *)
Record at_dir (s : fstate (ino f)) (m0 : gmap nat (ino f)) (dir_fd : nat) (pre : list str) : Prop := {
  ad_fresh : fresh_state f s;
  ad_dir : exists d n, fds s = <[dir_fd := d]> m0 /\ reached n pre d /\ n < calls s;
  ad_new : m0 !! dir_fd = None;
  ad_lt : dir_fd < calls s;
}.

Lemma open_at_opened (final : bool) s m0 dir_fd pre seg :
  at_dir s m0 dir_fd pre ->
  let r := (if final then open_file_at f dir_fd seg else open_dir_at f dir_fd seg) s in
  calls s <= calls r.2 /\
  match r.1 with
  | Ok fd => exists i, fds r.2 = <[fd := i]> (fds s) /\ calls s <= fd < calls r.2 /\ reached fd (pre ++ [seg]) i
  | Raise _ => fds r.2 = fds s
  end.
Proof.
  intros [Hfresh (d & n & Hd & Hr & Hlt) _ _].
  assert (fds s !! dir_fd = Some d) as Hl by by rewrite Hd, lookup_insert_eq.
  assert (forall k, (forall m i, n < m -> k m = Ok i -> reached m (pre ++ [seg]) i) ->
    let r := open_call f seg k s in calls s <= calls r.2 /\
    match r.1 with
    | Ok fd => exists i, fds r.2 = <[fd := i]> (fds s) /\ calls s <= fd < calls r.2 /\ reached fd (pre ++ [seg]) i
    | Raise _ => fds r.2 = fds s
    end) as Hopen.
  { intros k Hk. destruct (open_call_opens seg k (fun m i => n < m -> reached m (pre ++ [seg]) i)
      (fun m i Hi Hm => Hk m i Hm Hi) s Hfresh) as (Hc & HP). cbn zeta.
    split; [done|]. destruct (open_call f seg k s) as [[fd|e] s1]; cbn [fst snd id] in *; [|done].
    destruct HP as (i & Hf & Hfd & HP). exists i. split_and!; [done|lia|lia|]. apply HP. lia. }
  cbn zeta. destruct final; unfold open_file_at, open_dir_at; st_run; rewrite Hl; apply Hopen; intros m i Hm Hi;
    [by eapply reached_not_link|by eapply reached_must_dir].
Qed.

(** Closing a descriptor that is open releases it; it fails only by a fault. *)
Lemma os_close_run fd i s :
  fds s !! fd = Some i ->
  exists r, os_close f fd s = (r, FState (S (calls s)) (delete fd (fds s)))
    /\ (forall lo hi, lo <= calls s -> calls s < hi -> no_faults f lo hi -> r = Ok tt).
Proof.
  intros Hi. unfold os_close. rewrite Hi. eexists. split; [done|]. intros lo hi Hlo Hhi Hn.
  by rewrite (Hn (calls s)) by lia.
Qed.

Lemma os_close_fds fd s :
  calls (os_close f fd s).2 = S (calls s) /\ fds (os_close f fd s).2 = delete fd (fds s).
Proof. done. Qed.

Lemma close_dir s s1 m0 dir_fd pre fd i :
  at_dir s m0 dir_fd pre -> fds s1 = <[fd := i]> (fds s) -> calls s <= fd ->
  delete dir_fd (fds s1) = <[fd := i]> m0 /\ exists d, fds s1 !! dir_fd = Some d.
Proof.
  intros [_ (d & n & Hd & _) Hnew Hlt] Hf Hle. rewrite Hf, Hd. split.
  - rewrite delete_insert_ne, delete_insert_eq by lia. by rewrite delete_id.
  - exists d. by rewrite lookup_insert_ne, lookup_insert_eq by lia.
Qed.

Lemma close_dir_only s m0 dir_fd pre : at_dir s m0 dir_fd pre -> delete dir_fd (fds s) = m0.
Proof. intros [_ (d & n & Hd & _) Hnew Hlt]. rewrite Hd, delete_insert_eq. by apply delete_id. Qed.

Lemma open_segments_opened segs : forall seg pre dir_fd m0 s lo,
  at_dir s m0 dir_fd pre -> lo <= calls s -> (forall fd, lo <= fd -> m0 !! fd = None) ->
  opened m0 lo (pre ++ seg :: segs) (open_segments f dir_fd seg segs s).
Proof.
  induction segs as [|seg' segs IH]; intros seg pre dir_fd m0 s lo Hat Hlo Hm0; cbn [open_segments].
  - rewrite run_finally. pose proof (open_at_opened true s m0 dir_fd pre seg Hat) as [Hc HP]. cbn zeta in Hc, HP.
    destruct (open_file_at f dir_fd seg s) as [[fd|e] s1]; cbn [fst snd] in *.
    + destruct HP as (i & Hf & Hfd & Hr). destruct (close_dir s s1 m0 dir_fd pre fd i Hat Hf ltac:(lia)) as [Hd (d & Hi)].
      destruct (os_close_run dir_fd d s1 Hi) as (r & -> & Hok).
      destruct r as [[]|e]; (split; [cbn; lia|]); cbn [fst snd fds calls].
      * exists i. split_and!; [done|lia|lia|done].
      * intros Hn. by specialize (Hok lo (S (calls s1)) ltac:(lia) ltac:(lia) Hn).
    + destruct (os_close_fds dir_fd s1) as [Hc1 Hf1].
      destruct (os_close f dir_fd s1) as [[[]|e'] s2]; cbn [fst snd] in *; (split; [cbn; lia|]); cbn;
        intros _; rewrite Hf1, HP; by eapply close_dir_only.
  - st_run. pose proof (open_at_opened false s m0 dir_fd pre seg Hat) as [Hc HP]. cbn zeta in Hc, HP.
    destruct (open_dir_at f dir_fd seg s) as [[fd|e] s1]; cbn [fst snd] in *; st_run.
    + destruct HP as (i & Hf & Hfd & Hr). destruct (close_dir s s1 m0 dir_fd pre fd i Hat Hf ltac:(lia)) as [Hd (d & Hi)].
      destruct (os_close_run dir_fd d s1 Hi) as (r & E & Hok). rewrite E. destruct r as [[]|e]; st_run.
      * replace (pre ++ seg :: seg' :: segs) with ((pre ++ [seg]) ++ seg' :: segs) by by rewrite <-app_assoc.
        apply IH; [|cbn; lia|done]. destruct Hat as [Hfresh _ _ Hlt]. split; cbn; [|exists i, fd| |lia].
        -- intros k Hk. cbn in *. rewrite Hd, lookup_insert_ne by lia. apply Hm0. lia.
        -- split_and!; [done|done|lia].
        -- apply Hm0. lia.
      * set (s2 := FState (S (calls s1)) _) in *. destruct (os_close_fds dir_fd s2) as [Hc2 _].
        destruct (os_close f dir_fd s2) as [[[]|e'] s3]; cbn [fst snd calls] in *; st_run;
          (split; [cbn in *; lia|]); cbn; intros Hn;
          by specialize (Hok lo (calls s3) ltac:(lia) ltac:(cbn in *; lia) Hn).
    + destruct (os_close_fds dir_fd s1) as [Hc1 Hf1].
      destruct (os_close f dir_fd s1) as [[[]|e'] s2]; cbn [fst snd] in *; st_run; (split; [cbn; lia|]); cbn;
        intros _; rewrite Hf1, HP; by eapply close_dir_only.
Qed.

Lemma open_root_opened s :
  fresh_state f s -> opened (fds s) (calls s) [] (open_root f output_dir s).
Proof.
  intros Hs. destruct (open_call_opens output_dir (fun n => i ← resolve_rel f n []; must_dir f n i)
    (fun n i => reached n [] i)) with (s := s) as (Hc & HP); [|done|].
  - intros n i Hi. apply result_bind_ok in Hi as (j & Hj & Hi). unfold resolve_rel in Hj.
    destruct (fs_root f n) as [r|] eqn:Hr; [|discriminate]. injection Hj as ->. unfold must_dir in Hi.
    destruct (fs_node f n j) as [[c|es|t|]|] eqn:Hn; try discriminate. injection Hi as <-.
    by eapply reached_root.
  - split; [done|]. unfold open_root. by destruct (open_call _ _ _ s) as [[fd|e] s1]; [|intros _].
Qed.

Lemma open_nofollow_opened name s :
  fresh_state f s ->
  opened (fds s) (calls s) (str_split slash name) (_open_nofollow f output_dir name s).
Proof.
  intros Hs. unfold _open_nofollow. st_run. pose proof (open_root_opened s Hs) as [Hc HP].
  destruct (open_root f output_dir s) as [[dir_fd|e] s1]; cbn [fst snd] in *; [|by split].
  destruct HP as (d & Hf & Hfd & Hr). pose proof (str_split_nonempty slash name) as Hne.
  destruct (str_split slash name) as [|seg segs]; [done|]. st_run.
  destruct (open_segments_opened segs seg [] dir_fd (fds s) s1 (calls s)) as [Hc2 HP]; [|lia|apply Hs|].
  { split; [by eapply fresh_state_open; eauto; lia|by exists d, dir_fd; split_and!; [| |lia]|apply Hs; lia|lia]. }
  destruct (open_segments f dir_fd seg segs s1) as [[fd|e] s2]; cbn [fst snd] in *; [|split; [exact Hc2|exact HP]].
  destruct HP as (i & Hf2 & Hfd2 & Hr2). cbn [app] in Hr2. unfold fstat_isreg, fd_call, call_with. st_run.
  destruct (fs_fd_fail f (calls s2)) as [e|] eqn:Hfault; st_run.
  { split; [cbn; lia|]. cbn. intros Hn. by rewrite (Hn (calls s2)) in Hfault by lia. }
  match goal with |- context [if ?b then _ else _] => destruct b end; st_run.
  - split; [cbn; lia|]. cbn. exists i. split_and!; [done|lia|lia|done].
  - assert (delete fd (fds s2) = fds s) as Hd by (rewrite Hf2, delete_insert_eq; apply delete_id, Hs; lia).
    set (s3 := FState (S (calls s2)) (fds s2)). destruct (os_close_fds fd s3) as [Hc3 Hf3].
    destruct (os_close f fd s3) as [[[]|e] s4]; cbn [fst snd calls] in *; st_run; (split; [cbn in *; lia|]); cbn;
      intros _; by rewrite Hf3.
Qed.

(** *** Reading the files *)

(** [c] was read from offset [pos] of the file [i], to its end, by calls from
    [lo] on and before [hi]: each piece is what the file had there at its call. *)
Inductive pieces (i : ino f) (hi : nat) : nat -> nat -> bytes -> Prop :=
  | pieces_end lo n pos c :
      lo <= n < hi -> fs_node f n i = Some (IReg c) -> length c <= pos -> pieces i hi lo pos []
  | pieces_more lo n pos c k rest :
      lo <= n < hi -> fs_node f n i = Some (IReg c) -> take k (drop pos c) <> [] ->
      pieces i hi (S n) (pos + length (take k (drop pos c))) rest ->
      pieces i hi lo pos (take k (drop pos c) ++ rest).

(** A file that nobody writes to in the meantime is read whole. *)
Lemma pieces_at_rest i hi lo pos c c' :
  pieces i hi lo pos c -> (forall n, lo <= n < hi -> fs_node f n i = Some (IReg c')) -> c = drop pos c'.
Proof.
  induction 1 as [lo n pos c Hn Hc Hle|lo n pos c k rest Hn Hc _ _ IH]; intros Hrest;
    (rewrite Hrest in Hc by lia); injection Hc as <-.
  - by rewrite drop_ge.
  - rewrite IH by (intros m Hm; apply Hrest; lia). rewrite <-drop_drop.
    set (d := drop pos c'). rewrite length_take.
    destruct (Nat.le_ge_cases k (length d)).
    + rewrite Nat.min_l by done. by rewrite take_drop.
    + rewrite Nat.min_r, take_ge, drop_ge by lia. by rewrite app_nil_r.
Qed.

(** [c] was read to the end of one regular file, which [name] led to. *)
Definition read_from (name : str) (c : bytes) : Prop :=
  exists n m i, reached n (str_split slash name) i /\ pieces i m (S n) 0 c.

Definition collected (fl : output_file) : Prop :=
  is_valid_output_file_name (of_name fl) = true
  /\ fl = output_file_of (of_name fl) (of_content fl)
  /\ read_from (of_name fl) (of_content fl).

Definition total_size (files : list output_file) : Z := foldr Z.add 0%Z (map of_size files).

(** The rounds of a read, which ended before [size] was reached. *)
Lemma read_rounds_pieces fd i rounds : forall pos size s,
  fds s !! fd = Some i -> size <= rounds ->
  fds (read_rounds f rounds fd pos size s).2 = fds s
  /\ calls s <= calls (read_rounds f rounds fd pos size s).2
  /\ match (read_rounds f rounds fd pos size s).1 with
     | Ok c => length c < size -> pieces i (calls (read_rounds f rounds fd pos size s).2) (calls s) pos c
     | Raise _ => True
     end.
Proof.
  induction rounds as [|rounds IH]; intros pos size s Hi Hle; cbn [read_rounds].
  { split_and!; [done..|]. cbn. lia. }
  destruct (Nat.eqb_spec size 0) as [->|Hs]; [split_and!; [done..|]; cbn; lia|].
  rewrite run_bind. unfold read_call, syscall, call_with, fd_node. rewrite Hi.
  change (mbind ?g (Some i)) with (g i). cbv beta.
  destruct (fs_fail f (calls s)); [split_and!; cbn; [done|lia|done]|].
  destruct (fs_node f (calls s) i) as [[c|es|t|]|] eqn:Hn; cbn [fst snd];
    try (split_and!; cbn; [done|lia|done]).
  set (k := Nat.min size (S (fs_chunk f (calls s)))).
  destruct (take k (drop pos c)) as [|b chunk] eqn:Hk.
  - split_and!; cbn; [done|lia|]. intros _. eapply pieces_end; [split; [done|lia]|exact Hn|].
    assert (k <> 0) by lia. apply (f_equal length) in Hk. rewrite length_take, length_drop in Hk. cbn in Hk. lia.
  - set (ch := b :: chunk) in *. assert (length ch <= size) as Hlen by (rewrite <-Hk, length_take; lia).
    set (s1 := FState (S (calls s)) (fds s)).
    destruct (IH (pos + length ch) (size - length ch) s1 Hi) as (Hf & Hc & Hp); [cbn in *; lia|].
    rewrite run_bind. change (calls s1) with (S (calls s)) in *. change (fds s1) with (fds s) in *.
    destruct (read_rounds f rounds fd _ _ s1) as [[rest|e] s2]; cbn [fst snd] in *;
      (split_and!; [done|cbn; lia|]); [|done].
    rewrite run_ret. cbn [fst snd]. rewrite length_app. intros Hlt. rewrite <-Hk. eapply pieces_more; [split; [done|lia]|exact Hn|by rewrite Hk|].
    rewrite Hk. apply Hp. lia.
Qed.

(** Opening, reading and closing one file. *)
Lemma read_step_steady name h (total max_total : Z) :
  (total <= max_total)%Z -> (forall e s, exists e', (h e : FS nat) s = (Raise e', s)) ->
  steady f
    (fd ← st_try (_open_nofollow f output_dir name) h;
     _ ← fdopen f fd;
     st_finally (read_fd f fd (max_total - total + 1)%Z) (os_close f fd))
    (fun c => (total + Z.of_nat (length c) <= max_total)%Z -> read_from name c).
Proof.
  intros Hle Hh s Hs. rewrite run_bind, run_try.
  destruct (open_nofollow_opened name s Hs) as [Hc HP].
  destruct (_open_nofollow f output_dir name s) as [[fd|e] s1]; cbn [fst snd] in *.
  2: { destruct (Hh e s1) as (e' & ->). by split. }
  destruct HP as (i & Hf & Hfd & Hr). rewrite run_bind. unfold fdopen, fd_call, call_with. cbn [fst snd].
  destruct (fs_fd_fail f (calls s1)) as [e|] eqn:Hfault.
  { split; [cbn; lia|]. cbn. intros Hn. by rewrite (Hn (calls s1)) in Hfault by lia. }
  set (s2 := FState (S (calls s1)) (fds s1)). rewrite run_finally. unfold read_fd.
  set (size := Z.to_nat (max_total - total + 1)).
  assert (fds s2 !! fd = Some i) as Hi by (cbn; by rewrite Hf, lookup_insert_eq).
  destruct (read_rounds_pieces fd i size 0 size s2 Hi ltac:(done)) as (Hf3 & Hc3 & Hp).
  destruct (read_rounds f size fd 0 size s2) as [r s3]. cbn [fst snd calls fds s2] in *.
  assert (fds s3 !! fd = Some i) as Hi3 by by rewrite Hf3.
  destruct (os_close_run fd i s3 Hi3) as (rc & -> & _).
  assert (delete fd (fds s3) = fds s) as Hd by (rewrite Hf3, Hf, delete_insert_eq; apply delete_id, Hs; lia).
  destruct rc as [[]|e]; (split; [cbn; lia|]); cbn [fst snd fds]; [|done].
  destruct r as [c|e]; [|done]. split; [done|]. intros Hlen. exists fd, (calls s3), i. split; [exact Hr|].
  assert (length c < size) as Hsize by lia. specialize (Hp Hsize). clear -Hp Hfd.
  assert (forall lo lo' hi pos c, pieces i hi lo pos c -> lo' <= lo -> pieces i hi lo' pos c) as Hlo.
  { intros lo lo' hi pos c' []; intros; [eapply pieces_end|eapply pieces_more]; eauto; lia. }
  eapply Hlo; [exact Hp|lia].
Qed.

Lemma read_files_steady max_total entries : forall total files,
  (total <= max_total)%Z -> Forall (fun e => is_valid_output_file_name e.1 = true) entries ->
  steady f (read_files f output_dir max_total entries total files)
    (fun out => exists new, out = files ++ new /\ map of_name new = map fst entries
       /\ Forall collected new /\ (total + total_size new <= max_total)%Z).
Proof.
  induction entries as [|[name size] entries IH]; intros total files Hle Hv; cbn [read_files].
  - apply steady_ret. exists []. rewrite app_nil_r. split_and!; [done..|]. cbn. lia.
  - inv Hv as [|?? Hname Hv']. eapply steady_ext.
    2: { eapply steady_bind.
         - apply (read_step_steady name
             (fun e => match e with
                       | OsErr _ strerror _ =>
                           mraise (Rejected ("cannot read " ++ repr name ++ ": " ++ strerror))
                       | _ => mraise e
                       end) total max_total Hle).
           intros [errno strerror path|msg|] s; by eexists.
         - intros content Hread.
           refine (_ : steady f (if (max_total <? total + Z.of_nat (length content))%Z then
             mraise (Rejected ("total size too large (> " ++ str_of_Z max_total ++ " bytes)"))
             else read_files f output_dir max_total entries (total + Z.of_nat (length content))%Z
                    (files ++ [output_file_of name content])) _).
           destruct (Z.ltb_spec max_total (total + Z.of_nat (length content))); [apply steady_raise|].
           eapply steady_mono; [by apply IH|]. intros out (new & -> & Hn & Hc & Ht).
           exists (output_file_of name content :: new). split_and!.
           + by rewrite <-app_assoc.
           + cbn. by rewrite Hn.
           + constructor; [|done]. split_and!; [done|done|]. by apply Hread.
           + change (total_size (output_file_of name content :: new))
               with (Z.of_nat (length content) + total_size new)%Z. lia. }
    intros s. st_run. destruct (_open_nofollow f output_dir name s) as [[fd|e] s1]; st_run.
    + destruct (fdopen f fd s1) as [[[]|e] s2]; st_run; [|done].
      destruct (read_fd f fd _ s2) as [r s3]. by destruct (os_close f fd s3) as [[[]|e] s4], r.
    + destruct e; st_run; done.
Qed.

Lemma collect_steady fuel max_files max_total :
  (0 <= max_files)%Z -> (0 <= max_total)%Z ->
  steady f (collect_output_files f output_dir fuel max_files max_total)
    (fun files => (Z.of_nat (length files) <= max_files)%Z /\ (total_size files <= max_total)%Z
       /\ StronglySorted (key_le str_leb of_name) files /\ Forall collected files).
Proof.
  assert (forall rel, quiet f (stat_follow f output_dir rel)) as Hstat by (intros; apply quiet_call).
  intros Hmf Hmt. unfold collect_output_files, lexists, islink, isdir.
  eapply steady_bind.
  { apply steady_quiet, quiet_try; [|intros; apply quiet_ret]. apply quiet_bind; [apply lstat_quiet|intros; apply quiet_ret]. }
  intros there _. destruct there; cbn [negb];
    [|apply steady_ret; split_and!; [done..|constructor|constructor]].
  eapply steady_bind.
  { apply steady_quiet, quiet_try; [|intros; apply quiet_ret]. apply quiet_bind; [apply lstat_quiet|intros; apply quiet_ret]. }
  intros link _. eapply steady_bind.
  { apply steady_quiet. destruct link; [apply quiet_ret|]. apply quiet_try; [|intros; apply quiet_ret].
    apply quiet_bind; [apply Hstat|intros; apply quiet_ret]. }
  intros dir _. destruct (link || negb dir); [apply steady_raise|].
  eapply steady_bind; [apply walk_loop_steady; by split; [constructor|]|].
  intros entries [Hv Hl]. destruct (max_total <? sum_sizes entries)%Z; [apply steady_raise|].
  eapply steady_mono; [apply read_files_steady; [lia|]|].
  - rewrite sorted_by_perm. exact Hv.
  - intros out (new & -> & Hn & Hc & Ht). cbn [app]. split_and!; [|lia| |done].
    + by rewrite <-(length_map of_name), Hn, length_map, length_sorted_by.
    + apply sorted_names_files. rewrite Hn. apply sorted_entries_names.
Qed.
End Safety.

(** ** Where a collection may not end

    Nothing but the walk needs fuel: a collection ends if its walk does. *)

Section Ends.
Context `{Env} (f : fs) (output_dir : str).
Abbreviation FS := (ST fs_error (fstate (ino f))).

Class Ends {A} (m : FS A) : Prop := ends s : (m s).1 <> Raise WalkFuel.

#[local] Instance ends_bind {A B} (m : FS A) (k : A -> FS B) : Ends m -> (forall a, Ends (k a)) -> Ends (m ≫= k).
Proof.
  intros Hm Hk s. rewrite run_bind. specialize (Hm s). destruct (m s) as [[a|e] s1]; cbn in *; [apply Hk|congruence].
Qed.

#[local] Instance ends_ret {A} (a : A) : Ends (mret a).
Proof. done. Qed.

#[local] Instance ends_gets {A} (g : fstate (ino f) -> A) : Ends (st_gets g).
Proof. done. Qed.

#[local] Instance ends_rejected {A} msg : Ends (mraise (Rejected msg) : FS A).
Proof. done. Qed.

Lemma ends_try {A} (m : FS A) (h : fs_error -> FS A) :
  Ends m -> (forall e, e <> WalkFuel -> Ends (h e)) -> Ends (st_try m h).
Proof.
  intros Hm Hh s. rewrite run_try. specialize (Hm s). destruct (m s) as [[a|e] s1]; cbn in *; [done|].
  apply Hh. congruence.
Qed.

#[local] Instance ends_finally {A} (m : FS A) (g : FS unit) : Ends m -> Ends g -> Ends (st_finally m g).
Proof.
  intros Hm Hg s. rewrite run_finally. specialize (Hm s). destruct (m s) as [r s1]. specialize (Hg s1).
  destruct (g s1) as [[[]|e] s2]; cbn in *; [done|congruence].
Qed.

Lemma ends_call {A} fail path (k : nat -> result fs_error A) : (forall n, k n <> Raise WalkFuel) -> Ends (call_with f fail path k).
Proof. intros Hk s. unfold call_with. cbn. by destruct (fail _). Qed.

Lemma lift_err_ends {A} path (r : result (Z * str) A) : lift_err path r <> Raise WalkFuel.
Proof. by destruct r. Qed.

#[local] Instance ends_lstat rel : Ends (lstat f output_dir rel).
Proof. apply ends_call. intros n. apply lift_err_ends. Qed.
#[local] Instance ends_stat_follow rel : Ends (stat_follow f output_dir rel).
Proof. apply ends_call. intros n. apply lift_err_ends. Qed.

#[local] Instance ends_open_call path k : Ends (open_call f path k).
Proof.
  intros s. unfold open_call. pose proof (ends_call (fs_fail f) (Some path) (fun n => lift_err (Some path) (k n))
    (fun n => lift_err_ends _ _) s) as Hc. unfold syscall. destruct (call_with _ _ _ _ s) as [[i|e] s1]; [done|].
  cbn in *. congruence.
Qed.

#[local] Instance ends_os_close fd : Ends (os_close f fd).
Proof. intros s. unfold os_close. cbn. destruct (fds s !! fd); [|done]. by destruct (fs_fd_fail f _). Qed.

#[local] Instance ends_fd_call {A} fd (k : option (inode (ino f)) -> A) : Ends (fd_call f fd (fun x => Ok (k x))).
Proof. intros s. unfold fd_call. by apply ends_call. Qed.

#[local] Instance ends_read_rounds rounds fd pos size : Ends (read_rounds f rounds fd pos size).
Proof.
  revert pos size. induction rounds as [|rounds IH]; intros pos size; cbn [read_rounds]; [apply _|].
  destruct (size =? 0)%nat; [apply _|]. apply ends_bind; [|intros [|b chunk]; apply _].
  intros s. apply ends_call. intros n. by destruct (fd_node f s fd n) as [[]|].
Qed.

#[local] Instance ends_open_segments dir_fd seg segs : Ends (open_segments f dir_fd seg segs).
Proof.
  assert (forall e, e <> WalkFuel -> forall fd, Ends ((_ ← os_close f fd; mraise e) : FS nat)) as Hn.
  { intros e He fd. apply ends_bind; [apply _|]. intros _ s. by intros [= ->]. }
  assert (forall e, e <> WalkFuel -> forall fd, Ends ((_ ← os_close f fd; mraise e) : FS unit)) as Hu.
  { intros e He fd. apply ends_bind; [apply _|]. intros _ s. by intros [= ->]. }
  revert dir_fd seg. induction segs as [|seg' segs IH]; intros dir_fd seg; cbn [open_segments];
    unfold open_file_at, open_dir_at; [apply _|].
  apply ends_bind; [apply ends_try; [apply _|auto]|intros next_fd].
  apply ends_bind; [apply ends_try; [apply _|auto]|intros _]. apply IH.
Qed.

#[local] Instance ends_open_nofollow name : Ends (_open_nofollow f output_dir name).
Proof.
  unfold _open_nofollow, open_root. apply ends_bind; [apply _|intros dir_fd].
  apply ends_bind; [destruct (str_split slash name); [done|apply _]|intros fd].
  apply ends_bind; [unfold fstat_isreg; apply _|intros [|]; apply _].
Qed.

#[local] Instance ends_read_files max_total entries total files :
  Ends (read_files f output_dir max_total entries total files).
Proof.
  revert total files. induction entries as [|[name size] entries IH]; intros total files; cbn [read_files]; [apply _|].
  apply ends_bind; [|intros fd].
  { apply ends_try; [apply _|]. intros [errno strerror path|msg|] He; done. }
  apply ends_bind; [unfold fdopen; apply _|intros _]. apply ends_bind; [unfold read_fd; apply _|intros content].
  cbn zeta. destruct (_ <? _)%Z; [apply _|apply IH].
Qed.

Lemma collect_output_files_ends fuel max_files max_total :
  Ends (_walk f output_dir fuel max_files) -> Ends (collect_output_files f output_dir fuel max_files max_total).
Proof.
  assert (forall b, Ends (mret b : FS bool)) as Hret by apply _.
  intros Hw. unfold collect_output_files, lexists, islink, isdir.
  apply ends_bind; [by apply ends_try; [apply _|]|intros [|]; cbn [negb]; [|apply _]].
  apply ends_bind; [by apply ends_try; [apply _|]|intros link].
  apply ends_bind; [destruct link; [apply _|by apply ends_try; [apply _|]]|intros dir].
  destruct (link || negb dir); [apply _|]. apply ends_bind; [done|intros entries]. cbn zeta.
  destruct (_ <? _)%Z; apply _.
Qed.
End Ends.
