(* ===== verification/OutputTree.v ===== *)
(** * What is collected from a directory at rest

    On a file tree that nobody changes, [collect_output_files] of
    output_files.py is a function of the tree: the regular files below the
    output directory, sorted by name, or a rejection. *)
From stdpp Require Import base tactics list gmap sorting strings.
From Stdlib Require Import NArith ZArith Lia.
From S2P Require Import Prelude PyText PyCodec PyJson World OutputFiles OutputCollect.

(** ** Trees *)

Definition inode_of_node (n : node) : inode node :=
  match n with
  | Reg c => IReg c
  | Dir es => IDir es
  | Lnk _ => ILnk None
  | Special => ISpecial
  end.

(** The tree [t] under the output path ([None] when there is nothing there),
    where no call fails; the [n]-th call reads [S (chunk n)] bytes at most. *)
Definition static (chunk : nat -> nat) (t : option node) : fs := {|
  ino := node;
  fs_root _ := t;
  fs_node _ n := Some (inode_of_node n);
  fs_fail _ := None;
  fs_fd_fail _ := None;
  fs_chunk := chunk;
|}.

(** The regular files below [n], which stands at [rel]. *)
Fixpoint tree_files (rel : str) (n : node) : list (str * bytes) :=
  match n with
  | Reg c => [(rel, c)]
  | Dir es => concat (map (fun e => tree_files (entry_path rel e.1) e.2) es)
  | _ => []
  end.

(** Nothing but directories and regular files. *)
Fixpoint clean (n : node) : bool :=
  match n with
  | Reg _ => true
  | Dir es => forallb (fun e => clean e.2) es
  | _ => false
  end.

Fixpoint dirs (n : node) : nat :=
  match n with
  | Dir es => S (sum_list (map (fun e => dirs e.2) es))
  | _ => 0
  end.

Fixpoint tree_size (n : node) : nat :=
  match n with
  | Dir es => S (sum_list (map (fun e => tree_size e.2) es))
  | _ => 1
  end.

Lemma dirs_tree_size n : dirs n <= tree_size n.
Proof.
  induction n as [c|es IH|t|] using node_ind; cbn; [lia| |lia..]. apply le_n_S.
  induction IH as [|e es He _ IHes]; cbn; lia.
Qed.

Lemma tree_size_pos n : 1 <= tree_size n.
Proof. destruct n; cbn; lia. Qed.

Lemma length_tree_size es : length es < tree_size (Dir es).
Proof.
  cbn. apply le_n_S. induction es as [|e es IH]; cbn; [lia|]. pose proof (tree_size_pos e.2). lia.
Qed.

(** File names: not empty, no slash, no two alike in a directory. *)
Definition entry_name_ok (name : str) : bool :=
  match name with [] => false | _ => bool_decide (slash ∉ name) end.

Fixpoint tree_wf (n : node) : bool :=
  match n with
  | Dir es => bool_decide (NoDup (map fst es)) && forallb (fun e => entry_name_ok e.1 && tree_wf e.2) es
  | _ => true
  end.

Definition sized (e : str * bytes) : str * Z := (e.1, Z.of_nat (length e.2)).

Section Accept.
Context (max_files max_total : Z).

(** The rules on the listing. *)
Definition listing_ok (found : list (str * Z)) : bool :=
  forallb (fun e => is_valid_output_file_name e.1) found
  && (Z.of_nat (length found) <=? max_files)%Z.

(** The rules on the tree. *)
Definition acceptable (t : node) : bool :=
  clean t && listing_ok (map sized (tree_files [] t))
  && (sum_sizes (map sized (tree_files [] t)) <=? max_total)%Z.
End Accept.

(** What a tree yields. *)
Definition files_of_tree (t : node) : list output_file :=
  map (fun e => output_file_of e.1 e.2) (sorted_by str_leb fst (tree_files [] t)).

(** ** Paths *)

Fixpoint at_path (n : node) (segs : list str) : option node :=
  match segs with
  | [] => Some n
  | seg :: segs => match n with
                   | Dir es => m ← assoc seg es; at_path m segs
                   | _ => None
                   end
  end.

Definition segs_ok (segs : list str) : Prop := Forall (fun g => entry_name_ok g = true) segs.

Definition path_of (segs : list str) : str := str_join [slash] segs.

Lemma entry_name_ok_spec g : entry_name_ok g = true <-> g <> [] /\ slash ∉ g.
Proof. unfold entry_name_ok. destruct g; [naive_solver|]. rewrite bool_decide_eq_true. naive_solver. Qed.

Lemma path_of_nonempty g segs : entry_name_ok g = true -> path_of (g :: segs) <> [].
Proof. rewrite entry_name_ok_spec. intros [Hg _]. destruct g; [done|]. by destruct segs. Qed.

Lemma split_path_of segs : segs <> [] -> segs_ok segs -> str_split slash (path_of segs) = segs.
Proof.
  intros Hne Hok. apply str_split_join; [done|]. eapply Forall_impl; [exact Hok|].
  intros g Hg. by apply entry_name_ok_spec in Hg as [_ ?].
Qed.

Lemma str_join_snoc c segs g : segs <> [] -> str_join c (segs ++ [g]) = str_join c segs ++ c ++ g.
Proof.
  induction segs as [|h segs IH]; [done|]. intros _. destruct segs as [|h' segs]; [done|].
  change (str_join c ((h :: h' :: segs) ++ [g])) with (h ++ c ++ str_join c ((h' :: segs) ++ [g])).
  rewrite IH by done. change (str_join c (h :: h' :: segs)) with (h ++ c ++ str_join c (h' :: segs)).
  by rewrite <-!app_assoc.
Qed.

Lemma entry_path_path_of segs name :
  segs_ok segs -> entry_path (path_of segs) name = path_of (segs ++ [name]).
Proof.
  intros Hok. destruct segs as [|g segs]; [done|]. inv Hok as [|?? Hg Hok'].
  unfold path_of. rewrite str_join_snoc by done. pose proof (path_of_nonempty g segs Hg) as Hne.
  unfold path_of in Hne. unfold entry_path. by destruct (str_join [slash] (g :: segs)).
Qed.

Lemma path_of_inj s1 s2 : segs_ok s1 -> segs_ok s2 -> path_of s1 = path_of s2 -> s1 = s2.
Proof.
  intros H1 H2 E. destruct s1 as [|g1 s1], s2 as [|g2 s2]; [done| | |].
  - inv H2. by destruct (path_of_nonempty g2 s2 ltac:(assumption) (eq_sym E)).
  - inv H1. by destruct (path_of_nonempty g1 s1 ltac:(assumption) E).
  - by rewrite <-(split_path_of (g1 :: s1)), E, split_path_of.
Qed.

Lemma at_path_app n s1 s2 : at_path n (s1 ++ s2) = m ← at_path n s1; at_path m s2.
Proof.
  revert n. induction s1 as [|g s1 IH]; intros n; [done|]. cbn.
  destruct n as [c|es|t|]; [done| |done|done]. destruct (assoc g es) as [m|]; [|done]. apply IH.
Qed.

Lemma assoc_elem_of {A} k (a : A) l : assoc k l = Some a -> (k, a) ∈ l.
Proof.
  induction l as [|[k' a'] l IH]; cbn; [done|]. unfold str_eqb. case_bool_decide as E.
  - intros [= ->]. subst. by left.
  - intros H. right. auto.
Qed.

Lemma elem_of_assoc {A} k (a : A) l : NoDup (map fst l) -> (k, a) ∈ l -> assoc k l = Some a.
Proof.
  induction l as [|[k' a'] l IH]; cbn; [set_solver|]. intros Hnd Hin. inv Hnd as [|?? Hk Hnd'].
  unfold str_eqb. apply elem_of_cons in Hin as [[= -> ->]|Hin].
  - by rewrite bool_decide_eq_true_2.
  - case_bool_decide as E; [|auto]. subst. destruct Hk. apply (list_elem_of_fmap_2 fst) in Hin. done.
Qed.

Lemma tree_wf_dir es :
  tree_wf (Dir es) = true ->
  NoDup (map fst es) /\ Forall (fun e => entry_name_ok e.1 = true /\ tree_wf e.2 = true) es.
Proof.
  cbn. rewrite andb_true_iff, bool_decide_eq_true, forallb_forall. intros [Hnd Hf]. split; [done|].
  apply Forall_forall. intros e He. rewrite <-andb_true_iff. by apply Hf, list_elem_of_In.
Qed.

Lemma tree_wf_at_path n segs m : tree_wf n = true -> at_path n segs = Some m -> tree_wf m = true.
Proof.
  revert n. induction segs as [|g segs IH]; intros n Hwf; cbn; [by intros [= <-]|].
  destruct n as [c|es|t|]; try done. destruct (assoc g es) as [m'|] eqn:Ha; [|done]. cbn.
  apply IH. apply tree_wf_dir in Hwf as [_ Hf]. rewrite Forall_forall in Hf.
  by apply assoc_elem_of, Hf in Ha as [_ ?].
Qed.

(** The files of a tree are its paths to regular files. *)
Lemma tree_files_path n : forall segs e,
  segs_ok segs -> tree_wf n = true -> e ∈ tree_files (path_of segs) n ->
  exists p, e.1 = path_of (segs ++ p) /\ segs_ok p /\ at_path n p = Some (Reg e.2).
Proof.
  induction n as [c|es IH|t|] using node_ind; intros segs e Hok Hwf; cbn [tree_files]; try set_solver.
  - rewrite list_elem_of_singleton. intros ->. exists []. rewrite app_nil_r. split_and!; [done|constructor|done].
  - intros He. apply list_elem_of_In, in_concat in He as (l & Hl & He).
    apply in_map_iff in Hl as ([g m] & <- & Hgm). apply list_elem_of_In in He, Hgm.
    apply tree_wf_dir in Hwf as [Hnd Hf]. rewrite Forall_forall in Hf, IH.
    destruct (Hf _ Hgm) as [Hg Hm]. cbn in *. rewrite entry_path_path_of in He by done.
    destruct (IH _ Hgm (segs ++ [g]) e) as (p & Hp & Hpok & Hat); [|done|done|].
    { apply Forall_app. by repeat constructor. }
    exists (g :: p). split_and!; [by rewrite Hp, <-app_assoc|by constructor|].
    cbn. by rewrite (elem_of_assoc _ _ _ Hnd Hgm).
Qed.

(** ** The walk *)

Lemma sum_list_with_app_dirs (l1 l2 : list nat) : sum_list (l1 ++ l2) = sum_list l1 + sum_list l2.
Proof. induction l1; cbn; lia. Qed.

Section Walk.
Context `{Env} (output_dir : str) (chunk : nat -> nat) (t : node) (Hwf : tree_wf t = true).
Abbreviation f := (static chunk (Some t)).
Implicit Types s : fstate (ino f).

Lemma resolve_at_path n segs : forall m m', at_path m segs = Some m' -> resolve f n m segs = Ok m'.
Proof.
  induction segs as [|g segs IH]; intros m m'; cbn; [by intros [= ->]|].
  destruct m as [c|es|tg|]; try done. unfold deref, child. cbn.
  destruct (assoc g es) as [m1|]; [|done]. apply IH.
Qed.

Lemma resolve_rel_at_path n segs m :
  segs_ok segs -> at_path t segs = Some m -> resolve_rel f n (path_of segs) = Ok m.
Proof.
  intros Hok Hat. unfold resolve_rel. cbn. destruct segs as [|g segs]; [by injection Hat as ->|].
  inv Hok as [|?? Hg Hok']. pose proof (path_of_nonempty g segs Hg).
  destruct (path_of (g :: segs)) as [|c rel] eqn:E; [done|]. rewrite <-E.
  rewrite split_path_of by (done || by constructor). by apply resolve_at_path.
Qed.

Lemma lstat_static segs m s :
  segs_ok segs -> at_path t segs = Some m ->
  lstat f output_dir (path_of segs) s = (Ok (inode_of_node m), FState (S (calls s)) (fds s)).
Proof.
  intros Hok Hat. unfold lstat, syscall, call_with. rewrite (resolve_rel_at_path _ _ m) by done. done.
Qed.

Lemma next_entry_static rel it k es s :
  fds s !! it = @Some (ino f) (Dir es) ->
  next_entry f output_dir rel it k s = (Ok (fst <$> es !! k), FState (S (calls s)) (fds s)).
Proof. intros Hit. unfold next_entry, syscall, call_with, fd_node. rewrite Hit. done. Qed.

Lemma scandir_static segs es s :
  segs_ok segs -> at_path t segs = Some (Dir es) ->
  scandir f output_dir (path_of segs) s
  = (Ok (calls s), FState (S (calls s)) (<[calls s := Dir es]> (fds s))).
Proof.
  intros Hok Hat. unfold scandir, open_call, syscall, call_with. cbn [fs_fail static].
  by rewrite (resolve_rel_at_path _ _ (Dir es)) by done.
Qed.

(** What remains to be listed: nodes with the paths they stand at. *)
Abbreviation pending := (list (list str * node)) (only parsing).
Definition flat (pend : pending) : list (str * Z) :=
  concat (map (fun p => map sized (tree_files (path_of p.1) p.2)) pend).
Definition names_of (pend : pending) : list str := map (fun p => path_of p.1) pend.
Definition count_dirs (pend : pending) : nat := sum_list (map (fun p => dirs p.2) pend).
Definition good (max_files : Z) (pend : pending) (found : list (str * Z)) : Prop :=
  Forall (fun p => clean p.2 = true) pend /\ listing_ok max_files (found ++ flat pend) = true.

Definition stacked (p : list str * node) : Prop :=
  segs_ok p.1 /\ exists es, p.2 = Dir es /\ at_path t p.1 = Some (Dir es).

Lemma listing_ok_perm max_files l1 l2 : l1 ≡ₚ l2 -> listing_ok max_files l1 = listing_ok max_files l2.
Proof. intros Hp. unfold listing_ok. by rewrite Hp. Qed.

Lemma listing_ok_app max_files l1 l2 : listing_ok max_files (l1 ++ l2) = true -> listing_ok max_files l1 = true.
Proof.
  unfold listing_ok. rewrite forallb_app, !andb_true_iff, !Z.leb_le, length_app.
  intros [[? ?] ?]. split; [done|lia].
Qed.

Lemma good_perm max_files p1 p2 f1 f2 :
  p1 ≡ₚ p2 -> f1 ++ flat p1 ≡ₚ f2 ++ flat p2 -> good max_files p1 f1 <-> good max_files p2 f2.
Proof. intros Hp Hf. unfold good. by rewrite (listing_ok_perm _ _ _ Hf), Hp. Qed.

Lemma flat_perm p1 p2 : p1 ≡ₚ p2 -> flat p1 ≡ₚ flat p2.
Proof. intros Hp. unfold flat. by rewrite Hp. Qed.

Definition children (segs : list str) (es : list (str * node)) : pending :=
  map (fun e => (segs ++ [e.1], e.2)) es.

(** The entries of a directory, against the tree. *)
Definition entries_at (segs : list str) (es : list (str * node)) : Prop :=
  Forall (fun e => entry_name_ok e.1 = true /\ at_path t (segs ++ [e.1]) = Some e.2) es.

(** The outcome of a part of the walk that has [pend] and [found] to start
    from: what remains and what is found amount to the same. *)
Definition progress_ok (max_files : Z) (pend pend' : pending) (found found' : list (str * Z)) : Prop :=
  found' ++ flat pend' ≡ₚ found ++ flat pend
  /\ (good max_files pend found <-> good max_files pend' found')
  /\ (listing_ok max_files found = true -> listing_ok max_files found' = true).

(** Passing a file, and what the rules say of it. *)
Lemma good_file max_files segs c rest found :
  let e := (path_of segs, Z.of_nat (length c)) in
  good max_files ((segs, Reg c) :: rest) found <-> good max_files rest (found ++ [e]).
Proof.
  cbn zeta. unfold good. rewrite <-app_assoc. cbn [app].
  change (flat ((segs, Reg c) :: rest)) with ((path_of segs, Z.of_nat (length c)) :: flat rest).
  rewrite Forall_cons. naive_solver.
Qed.

Lemma good_full max_files rest found :
  (max_files < Z.of_nat (length found))%Z -> ~ good max_files rest found.
Proof.
  intros Hlt [_ Hl%listing_ok_app]. unfold listing_ok in Hl. rewrite andb_true_iff, Z.leb_le in Hl. lia.
Qed.

Lemma good_invalid max_files rest found e :
  is_valid_output_file_name e.1 = false -> ~ good max_files rest (found ++ [e]).
Proof.
  intros Hv [_ Hl%listing_ok_app]. unfold listing_ok in Hl. rewrite forallb_app in Hl. cbn in Hl.
  rewrite Hv in Hl. by rewrite andb_false_r in Hl.
Qed.

Lemma listing_ok_snoc max_files found e :
  listing_ok max_files found = true -> is_valid_output_file_name e.1 = true ->
  (Z.of_nat (length (found ++ [e])) <= max_files)%Z -> listing_ok max_files (found ++ [e]) = true.
Proof.
  unfold listing_ok. rewrite andb_true_iff. intros [Hf _] Hv Hle. rewrite forallb_app. cbn.
  rewrite Hv, Hf. by apply Z.leb_le.
Qed.

Lemma walk_entries_static max_files segs it all entries : segs_ok segs -> entries_at segs entries ->
  forall fuel k stack found s, Forall stacked stack ->
  fds s !! it = @Some (ino f) (Dir all) -> drop k all = entries -> length entries < fuel ->
  (exists stack' found' s',
     walk_entries f output_dir fuel max_files (path_of segs) it k (names_of stack) found s
     = (Ok (names_of stack', found'), s')
     /\ Forall stacked stack' /\ count_dirs stack' = count_dirs (children segs entries ++ stack)
     /\ progress_ok max_files (children segs entries ++ stack) stack' found found')
  \/ (exists msg s',
     walk_entries f output_dir fuel max_files (path_of segs) it k (names_of stack) found s
     = (Raise (Rejected msg), s')
     /\ ~ good max_files (children segs entries ++ stack) found).
Proof.
  intros Hok Hes. induction Hes as [|[name m] entries [Hname Hat] Hes IH]; intros fuel k stack found s Hst Hit Hk Hfuel;
    (destruct fuel as [|fuel]; [cbn in Hfuel; lia|]); cbn [walk_entries]; st_run; rewrite (next_entry_static _ _ _ all) by done.
  - assert (all !! k = None) as -> by (apply lookup_ge_None; apply (f_equal length) in Hk; rewrite length_drop in Hk; cbn in Hk; lia).
    left. eexists stack, found, _. done.
  - assert (segs_ok (segs ++ [name])) as Hok' by (apply Forall_app; by repeat constructor).
    assert (all !! k = Some (name, m)) as Hent.
    { replace k with (k + 0) by lia. by rewrite <-lookup_drop, Hk. }
    assert (drop (S k) all = entries) as Hk' by (rewrite <-(drop_drop _ k 1), Nat.add_comm, Hk || (rewrite <-Nat.add_1_r, <-drop_drop, Hk); done).
    rewrite Hent. cbn [fmap option_fmap option_map fst snd] in *. rewrite entry_path_path_of by done. st_run.
    rewrite (lstat_static _ m) by done. cbn [calls fds length] in *.
    change (children segs ((name, m) :: entries)) with ((segs ++ [name], m) :: children segs entries).
    set (rest := children segs entries ++ stack) in *.
    destruct m as [c|es|tg|]; cbn [inode_of_node].
    + change (((segs ++ [name], Reg c) :: children segs entries) ++ stack) with ((segs ++ [name], Reg c) :: rest) in *.
      pose proof (good_file max_files (segs ++ [name]) c rest found) as Hgood. cbn zeta in Hgood.
      set (e := (path_of (segs ++ [name]), Z.of_nat (length c))) in *.
      destruct (is_valid_output_file_name _) eqn:Hv; cbn [negb].
      * destruct (Z.ltb_spec max_files (Z.of_nat (length (found ++ [e])))).
        -- right. eexists _, _. split; [done|]. rewrite Hgood. by apply good_full.
        -- destruct (IH fuel (S k) stack (found ++ [e]) (FState (S (S (calls s))) (fds s)) Hst Hit Hk' ltac:(lia))
             as [(stack' & found' & s' & E & Hst' & Hcd & Hp & Hg & Hl)|(msg & s' & E & Hg)].
           ++ left. exists stack', found', s'. split_and!; [done|done|done|].
              split_and!; [by rewrite Hp, <-app_assoc|by rewrite Hgood|].
              intros Hlf. apply Hl. by apply listing_ok_snoc.
           ++ right. exists msg, s'. by rewrite Hgood.
      * right. eexists _, _. split; [done|]. rewrite Hgood. by apply good_invalid.
    + set (d := (segs ++ [name], Dir es)).
      assert (((d :: children segs entries) ++ stack) ≡ₚ children segs entries ++ d :: stack) as Hperm
        by (cbn; apply Permutation_middle).
      assert (stacked d) as Hd by (split; [done|by exists es]).
      destruct (IH fuel (S k) (d :: stack) found (FState (S (S (calls s))) (fds s)) ltac:(by constructor) Hit Hk' ltac:(lia))
        as [(stack' & found' & s' & E & Hst' & Hcd & Hp & Hg & Hl)|(msg & s' & E & Hg)].
      * left. exists stack', found', s'. split_and!; [done|done|by unfold count_dirs in *; rewrite Hcd, Hperm|].
        split_and!; [by rewrite Hp, (flat_perm _ _ Hperm)| |done].
        rewrite <-Hg. apply good_perm; [done|by rewrite (flat_perm _ _ Hperm)].
      * right. exists msg, s'. split; [done|]. intros Hgd. apply Hg. revert Hgd.
        apply good_perm; [done|by rewrite (flat_perm _ _ Hperm)].
    + right. eexists _, _. split; [done|]. intros [Hc _]. by inv Hc.
    + right. eexists _, _. split; [done|]. intros [Hc _]. by inv Hc.
Qed.

Lemma flat_children segs es : segs_ok segs -> flat (children segs es) = flat [(segs, Dir es)].
Proof.
  intros Hok. unfold flat, children. cbn [map concat fst snd tree_files]. rewrite app_nil_r.
  induction es as [|e es IH]; cbn [map concat fst snd]; [done|].
  by rewrite map_app, entry_path_path_of, IH.
Qed.

Lemma count_dirs_children segs es : count_dirs (children segs es) = sum_list (map (fun e => dirs e.2) es).
Proof. unfold count_dirs, children. by rewrite map_map. Qed.

Lemma clean_children segs es :
  Forall (fun p : list str * node => clean p.2 = true) (children segs es) <-> clean (Dir es) = true.
Proof.
  unfold children. cbn. rewrite Forall_map. cbn. rewrite forallb_forall, Forall_forall.
  by setoid_rewrite list_elem_of_In.
Qed.

Lemma good_children max_files segs es stack found :
  segs_ok segs ->
  good max_files (children segs es ++ stack) found <-> good max_files ((segs, Dir es) :: stack) found.
Proof.
  intros Hok. unfold good. rewrite Forall_app, clean_children, Forall_cons.
  unfold flat at 1. rewrite map_app, concat_app. fold (flat (children segs es)). fold (flat stack).
  rewrite flat_children by done. unfold flat. cbn. by rewrite app_nil_r.
Qed.

Lemma entries_at_dir segs es : at_path t segs = Some (Dir es) -> entries_at segs es.
Proof.
  intros Hat. pose proof (tree_wf_at_path _ _ _ Hwf Hat) as Hd. apply tree_wf_dir in Hd as [Hnd Hf].
  apply Forall_forall. intros [g m] Hgm. rewrite Forall_forall in Hf. cbn.
  split; [by apply (Hf (g, m))|]. rewrite at_path_app, Hat. cbn.
  by rewrite (elem_of_assoc _ _ _ Hnd Hgm).
Qed.

Lemma at_path_size n segs m : at_path n segs = Some m -> tree_size m <= tree_size n.
Proof.
  revert n. induction segs as [|g segs IH]; intros n; cbn; [by intros [= ->]|].
  destruct n as [c|es|tg|]; try done. destruct (assoc g es) as [m'|] eqn:Ha; [|done].
  intros Hm%IH. apply assoc_elem_of in Ha. cbn. clear -Hm Ha.
  induction es as [|e es IH]; [set_solver|]. apply elem_of_cons in Ha as [<-|Ha]; cbn in *; [lia|].
  specialize (IH Ha). lia.
Qed.

Lemma walk_loop_static entry_fuel fuel max_files : tree_size t <= entry_fuel -> forall stack found s,
  Forall stacked stack -> count_dirs stack <= fuel -> listing_ok max_files found = true ->
  (exists found' s',
     walk_loop f output_dir fuel entry_fuel max_files (names_of stack) found s = (Ok found', s')
     /\ found' ≡ₚ found ++ flat stack /\ good max_files stack found)
  \/ (exists msg s',
     walk_loop f output_dir fuel entry_fuel max_files (names_of stack) found s = (Raise (Rejected msg), s')
     /\ ~ good max_files stack found).
Proof.
  intros Hsize. induction fuel as [|fuel IH]; intros stack found s Hst Hfuel Hl; (destruct stack as [|[segs d] stack];
    [left; exists found, s; unfold good; cbn; by rewrite app_nil_r|]).
  { exfalso. inv Hst as [|?? [_ (es & Hd & _)] _]. cbn in Hd. subst d. cbn in Hfuel. lia. }
  inv Hst as [|?? [Hok (es & Hd & Hat)] Hst']. cbn in Hok, Hd, Hat. subst d.
  cbn [names_of map walk_loop fst]. st_run. rewrite (scandir_static segs es) by done. st_run.
  match goal with |- context [walk_entries _ _ _ _ _ _ _ _ _ ?s1] => set (s1' := s1) end.
  assert (length es < entry_fuel) as Hes.
  { apply at_path_size in Hat. pose proof (length_tree_size es). lia. }
  destruct (walk_entries_static max_files segs (calls s) es es Hok (entries_at_dir _ _ Hat) entry_fuel 0 stack found s1' Hst'
      ltac:(cbn; by rewrite lookup_insert_eq) eq_refl Hes)
    as [(stack' & found' & s' & E & Hst2 & Hcd & Hp & Hg & Hlo)|(msg & s' & E & Hg)];
    fold (names_of stack); rewrite E; cbn.
  - assert (count_dirs stack' <= fuel) as Hfuel'.
    { rewrite Hcd. unfold count_dirs. rewrite map_app, sum_list_with_app_dirs.
      fold (count_dirs (children segs es)). rewrite count_dirs_children.
      unfold count_dirs in Hfuel. cbn in Hfuel. lia. }
    destruct (IH stack' found' (FState (S (calls s')) (delete (calls s) (fds s'))) Hst2 Hfuel' (Hlo Hl))
      as [(found2 & s2 & E2 & Hp2 & Hg2)|(msg & s2 & E2 & Hg2)].
    + left. exists found2, s2. split_and!; [exact E2| |by apply good_children; [done|]; apply Hg].
      rewrite Hp2, Hp. f_equiv. unfold flat at 1. rewrite map_app, concat_app.
      fold (flat (children segs es)). fold (flat stack). rewrite flat_children by done.
      unfold flat. cbn. by rewrite app_nil_r.
    + right. exists msg, s2. split; [exact E2|]. by rewrite <-good_children, Hg by done.
  - right. exists msg, (FState (S (calls s')) (delete (calls s) (fds s'))). split; [done|].
    by rewrite <-good_children by done.
Qed.

(** Whatever the limits, the walk ends. *)
Lemma walk_loop_static_ends entry_fuel fuel max_files : tree_size t <= entry_fuel -> forall stack found s,
  Forall stacked stack -> count_dirs stack <= fuel ->
  (walk_loop f output_dir fuel entry_fuel max_files (names_of stack) found s).1 <> Raise WalkFuel.
Proof.
  intros Hsize. induction fuel as [|fuel IH]; intros stack found s Hst Hfuel; (destruct stack as [|[segs d] stack]; [done|]).
  { exfalso. inv Hst as [|?? [_ (es & Hd & _)] _]. cbn in Hd. subst d. cbn in Hfuel. lia. }
  inv Hst as [|?? [Hok (es & Hd & Hat)] Hst']. cbn in Hok, Hd, Hat. subst d.
  cbn [names_of map walk_loop fst]. st_run. rewrite (scandir_static segs es) by done. st_run.
  match goal with |- context [walk_entries _ _ _ _ _ _ _ _ _ ?s1] => set (s1' := s1) end.
  assert (length es < entry_fuel) as Hes.
  { apply at_path_size in Hat. pose proof (length_tree_size es). lia. }
  destruct (walk_entries_static max_files segs (calls s) es es Hok (entries_at_dir _ _ Hat) entry_fuel 0 stack found s1' Hst'
      ltac:(cbn; by rewrite lookup_insert_eq) eq_refl Hes)
    as [(stack' & found' & s' & E & Hst2 & Hcd & _)|(msg & s' & E & _)]; fold (names_of stack); rewrite E; cbn; [|done].
  apply IH; [done|]. rewrite Hcd. unfold count_dirs. rewrite map_app, sum_list_with_app_dirs.
  fold (count_dirs (children segs es)). rewrite count_dirs_children. unfold count_dirs in Hfuel. cbn in Hfuel. lia.
Qed.

(** ** The reading *)

Lemma os_close_static fd m s :
  fds s !! fd = @Some (ino f) m -> os_close f fd s = (Ok tt, FState (S (calls s)) (delete fd (fds s))).
Proof. intros Hfd. unfold os_close. by rewrite Hfd. Qed.

(** Opening [seg] in the directory [d], which [dir_fd] is open on. *)
Lemma open_at_static (final : bool) es m seg dir_fd s :
  fds s !! dir_fd = @Some (ino f) (Dir es) -> assoc seg es = Some m ->
  (if final then exists c, m = Reg c else exists es', m = Dir es') ->
  (if final then open_file_at f dir_fd seg else open_dir_at f dir_fd seg) s
  = (Ok (calls s), FState (S (calls s)) (<[calls s := m]> (fds s))).
Proof.
  intros Hfd Ha Hm. destruct final; destruct Hm as [x ->];
    unfold open_file_at, open_dir_at, open_call, syscall, call_with, fd_child, child; st_run; rewrite Hfd; cbn;
    by rewrite Ha.
Qed.

Lemma open_segments_static segs c : forall (d : ino f) seg dir_fd s,
  at_path d (seg :: segs) = Some (Reg c) -> fds s !! dir_fd = Some d -> dir_fd < calls s ->
  exists fd s', open_segments f dir_fd seg segs s = (Ok fd, s') /\ fds s' !! fd = @Some (ino f) (Reg c).
Proof.
  induction segs as [|seg' segs IH]; intros d seg dir_fd s Hat Hfd Hlt; cbn [open_segments];
    (destruct d as [?|es|?|]; try done); cbn [at_path] in Hat;
    (destruct (assoc seg es) as [m|] eqn:Ha; [|done]); cbn [mbind option_bind] in Hat.
  - injection Hat as ->. st_run. rewrite (open_at_static true es (Reg c) seg dir_fd s) by eauto. st_run.
    rewrite (os_close_static _ (Dir es)) by (cbn; rewrite lookup_insert_ne; [done|by apply Nat.neq_sym, Nat.lt_neq]).
    eexists _, _. split; [done|]. cbn. by rewrite lookup_delete_ne, lookup_insert_eq by (by apply Nat.lt_neq).
  - assert (exists es', m = Dir es') as Hm by (destruct m; try done; by eexists).
    st_run. rewrite (open_at_static false es m seg dir_fd s) by done. st_run.
    rewrite (os_close_static _ (Dir es)) by (cbn; rewrite lookup_insert_ne; [done|by apply Nat.neq_sym, Nat.lt_neq]). st_run.
    apply (IH m); [done| |cbn; lia].
    cbn. by rewrite lookup_delete_ne, lookup_insert_eq by (by apply Nat.lt_neq).
Qed.

Lemma open_nofollow_static name c s :
  at_path t (str_split slash name) = Some (Reg c) ->
  exists fd s', _open_nofollow f output_dir name s = (Ok fd, s') /\ fds s' !! fd = @Some (ino f) (Reg c).
Proof.
  intros Hat. pose proof (str_split_nonempty slash name) as Hne. unfold _open_nofollow.
  destruct (str_split slash name) as [|seg segs]; [done|].
  assert (exists es, t = Dir es) as (es & Ht) by (destruct t; try done; by eexists).
  assert (open_root f output_dir s
          = (Ok (calls s), FState (S (calls s)) (<[calls s := t]> (fds s)))) as Er.
  { unfold open_root, open_call, syscall, call_with, resolve_rel, must_dir. cbn. by rewrite Ht. }
  st_run. rewrite Er. st_run.
  destruct (open_segments_static segs c t seg (calls s)
    (FState (S (calls s)) (<[calls s := t]> (fds s))) Hat) as (fd & s' & E & Hfd);
    [cbn; by rewrite lookup_insert_eq|cbn; lia|].
  rewrite E. unfold fstat_isreg, fd_call, call_with, fd_node. st_run. rewrite Hfd. cbn. st_run.
  by exists fd, (FState (S (calls s')) (fds s')).
Qed.

Lemma read_rounds_static fd c rounds : forall pos size s,
  fds s !! fd = @Some (ino f) (Reg c) -> length (drop pos c) <= size <= rounds ->
  exists n, read_rounds f rounds fd pos size s = (Ok (drop pos c), FState n (fds s)).
Proof.
  induction rounds as [|rounds IH]; intros pos size [n m] Hfd [Hc Hs]; cbn [read_rounds fds] in *.
  { exists n. by rewrite (nil_length_inv (drop pos c)) by lia. }
  destruct (Nat.eqb_spec size 0) as [->|Hne].
  { exists n. by rewrite (nil_length_inv (drop pos c)) by lia. }
  st_run. unfold read_call, syscall, call_with, fd_node. cbn [fds]. rewrite Hfd. cbn.
  set (k := Nat.min size (S (chunk n))). assert (0 < k) as Hk by lia.
  destruct (drop pos c) as [|b rest] eqn:E.
  { rewrite take_nil. st_run. by exists (S n). }
  destruct (take k (b :: rest)) as [|b' piece] eqn:Et; [by destruct k; [lia|]|]. st_run.
  rewrite <-Et, <-E.
  match goal with |- context [read_rounds _ _ _ ?p ?q ?s1] => destruct (IH p q s1 Hfd) as (n' & ->) end.
  { rewrite <-drop_drop, length_drop. assert (length (take k (drop pos c)) <> 0) by (rewrite E, Et; cbn; lia).
    rewrite <-E in Hc. lia. }
  exists n'. st_run. do 2 f_equal. rewrite <-drop_drop. set (d := drop pos c). rewrite length_take.
  destruct (Nat.le_ge_cases k (length d)).
  - rewrite Nat.min_l by done. by rewrite take_drop.
  - rewrite Nat.min_r, take_ge, drop_ge by lia. by rewrite app_nil_r.
Qed.

Lemma read_fd_static fd c size s :
  fds s !! fd = @Some (ino f) (Reg c) -> (Z.of_nat (length c) <= size)%Z ->
  exists n, read_fd f fd size s = (Ok c, FState n (fds s)).
Proof. intros Hfd Hsize. apply (read_rounds_static fd c _ 0); [done|]. rewrite drop_0. lia. Qed.

Lemma read_files_static max_total entries : forall total files s,
  Forall (fun e => at_path t (str_split slash e.1) = Some (Reg e.2)) entries ->
  (0 <= total)%Z -> (total + sum_sizes (map sized entries) <= max_total)%Z ->
  exists s', read_files f output_dir max_total (map sized entries) total files s
    = (Ok (files ++ map (fun e => output_file_of e.1 e.2) entries), s').
Proof.
  induction entries as [|[name c] entries IH]; intros total files s Hf Hpos Hle; cbn [map read_files sized fst snd].
  - exists s. by rewrite app_nil_r.
  - inv Hf as [|?? Hat Hf']. unfold sum_sizes in Hle. cbn [map sized fst snd foldr] in Hle.
    fold (sum_sizes (map sized entries)) in Hle.
    assert (0 <= sum_sizes (map sized entries))%Z as Hpos'.
    { clear. unfold sum_sizes. induction entries as [|e l IHl]; cbn; lia. }
    destruct (open_nofollow_static name c s Hat) as (fd & s1 & E & Hfd).
    st_run. rewrite E. unfold fdopen, fd_call, call_with. st_run.
    destruct (read_fd_static fd c (max_total - total + 1) (FState (S (calls s1)) (fds s1)) Hfd) as (n & Er); [lia|].
    rewrite Er. st_run. rewrite (os_close_static fd (Reg c)) by done. st_run.
    destruct (Z.ltb_spec max_total (total + Z.of_nat (length c))); [lia|].
    edestruct (IH (total + Z.of_nat (length c))%Z (files ++ [output_file_of name c])
      (FState (S n) (delete fd (fds s1)))) as (s' & E'); [done|lia|lia|].
    exists s'. rewrite <-app_assoc in E'. exact E'.
Qed.
End Walk.

(** ** The order of the files *)

Lemma tree_files_at t e :
  tree_wf t = true -> e ∈ tree_files [] t -> (exists es, t = Dir es) ->
  at_path t (str_split slash e.1) = Some (Reg e.2).
Proof.
  intros Hwf He (es & ->).
  destruct (tree_files_path (Dir es) [] e) as (p & Hp & Hok & Hat); [constructor|done|done|].
  cbn [app] in Hp. rewrite Hp, split_path_of; [done| |done]. by intros ->.
Qed.

Lemma sum_sizes_perm l1 l2 : l1 ≡ₚ l2 -> sum_sizes l1 = sum_sizes l2.
Proof. induction 1; unfold sum_sizes in *; cbn; lia. Qed.

Lemma sorted_listing (files : list (str * bytes)) found :
  (forall x y, x ∈ files -> y ∈ files -> x.1 = y.1 -> x = y) ->
  found ≡ₚ map sized files ->
  sorted_by entry_leb id found = map sized (sorted_by str_leb fst files).
Proof.
  intros Hinj Hp.
  assert (sorted_by entry_leb id (sized <$> files) = sized <$> sorted_by entry_leb sized files) as Hmap
    by exact (sorted_by_map entry_leb id sized files).
  rewrite (sorted_by_perm_eq entry_leb id entry_leb_total entry_leb_trans entry_leb_antisym found (map sized files));
    [|done|by intros].
  etransitivity; [exact Hmap|]. f_equal. set (l := sorted_by entry_leb sized files).
  assert (l ≡ₚ files) as Hl by apply sorted_by_perm.
  rewrite <-(sorted_by_id str_leb fst l).
  - apply sorted_by_perm_eq; [exact str_leb_total|exact str_leb_trans|exact str_leb_antisym|done|].
    intros x y Hx Hy. rewrite Hl in Hx, Hy. by apply Hinj.
  - pose proof (sorted_by_sorted entry_leb sized entry_leb_total files) as Hs.
    eapply Sorted_weaken; [|exact Hs]. intros x y Hxy. by apply entry_leb_name in Hxy.
Qed.

(** ** Properties of the collection *)

Section Properties.
Context `{Env}.

(** C8: whatever other processes do to the directory between two system calls,
    a collection that succeeds returns at most [max_files] files of at most
    [max_total] bytes in all, sorted by name, under valid names; each carries
    the size, hash and type of its content.  That content was read piece by
    piece from one regular file, from its start to its end, and that file was
    reached from the output directory without passing a link: when nobody
    writes to it between its opening and the end of the reading, the content is
    that of the file. *)
Theorem collect_output_files_safe f output_dir fuel max_files max_total s files s' :
  (0 <= max_files)%Z -> (0 <= max_total)%Z -> fresh_state f s ->
  collect_output_files f output_dir fuel max_files max_total s = (Ok files, s') ->
  (Z.of_nat (length files) <= max_files)%Z /\ (total_size files <= max_total)%Z
  /\ StronglySorted (key_le str_leb of_name) files
  /\ Forall (fun fl =>
       is_valid_output_file_name (of_name fl) = true
       /\ fl = output_file_of (of_name fl) (of_content fl)
       /\ exists n m i, reached f n (str_split slash (of_name fl)) i
            /\ pieces f i m (S n) 0 (of_content fl)
            /\ forall c, (forall k, n < k < m -> fs_node f k i = Some (IReg c)) -> of_content fl = c) files.
Proof.
  intros Hf Ht Hs E. destruct (collect_steady f output_dir fuel max_files max_total Hf Ht s Hs) as (_ & HQ).
  rewrite E in HQ. destruct HQ as (_ & Hl & Ht' & Hsort & Hc). split_and!; [done..|].
  eapply Forall_impl; [exact Hc|]. intros fl (Hn & Hfl & n & m & i & Hr & Hp). split_and!; [done..|].
  exists n, m, i. split_and!; [done..|]. intros c Hrest.
  rewrite (pieces_at_rest f i m (S n) 0 _ c Hp); [apply drop_0|]. intros k Hk. apply Hrest. lia.
Qed.

(** C23: a collection that succeeds has closed every descriptor it opened, and
    so has one that rejects the directory or runs into an error of any call
    but those on a descriptor already open ([fstat], [fdopen], [close]). *)
Theorem collect_output_files_no_leak f output_dir fuel max_files max_total s r s' :
  (0 <= max_files)%Z -> (0 <= max_total)%Z -> fresh_state f s ->
  collect_output_files f output_dir fuel max_files max_total s = (r, s') ->
  (exists files, r = Ok files) \/ no_faults f (calls s) (calls s') ->
  fds s' = fds s.
Proof.
  intros Hf Ht Hs E Hr. destruct (collect_steady f output_dir fuel max_files max_total Hf Ht s Hs) as (_ & HQ).
  rewrite E in HQ. cbn [fst snd] in HQ. destruct r as [files|e]; [by destruct HQ|].
  destruct Hr as [[? ?]|Hr]; [done|auto].
Qed.

Definition stepped {A} (s : fstate A) : fstate A := FState (S (calls s)) (fds s).

Lemma lexists_static chunk t output_dir s :
  lexists (static chunk t) output_dir [] s = (Ok (match t with Some _ => true | None => false end), stepped s).
Proof. by destruct t. Qed.

Lemma islink_static chunk n output_dir s :
  islink (static chunk (Some n)) output_dir [] s
  = (Ok (match n with Lnk _ => true | _ => false end), stepped s).
Proof. by destruct n. Qed.

Lemma isdir_static chunk n output_dir s :
  isdir (static chunk (Some n)) output_dir [] s
  = (Ok (match n with Dir _ => true | _ => false end), stepped s).
Proof. by destruct n. Qed.

Lemma run_ok_ex {X S A B} (m : ST X S A) (k : A -> ST X S B) s s1 a (P : result X B -> Prop) :
  m s = (Ok a, s1) -> (exists r s', k a s1 = (r, s') /\ P r) ->
  exists r s', (m ≫= k) s = (r, s') /\ P r.
Proof. intros E H1. by rewrite run_bind, E. Qed.

Lemma run_raise_ex {X S A B} (m : ST X S A) (k : A -> ST X S B) s s1 e (P : result X B -> Prop) :
  m s = (Raise e, s1) -> P (Raise e) -> exists r s', (m ≫= k) s = (r, s') /\ P r.
Proof. intros E H1. rewrite run_bind, E. eauto. Qed.

Lemma collect_dir chunk output_dir es fuel max_files max_total s :
  (0 <= max_files)%Z -> tree_wf (Dir es) = true -> tree_size (Dir es) <= fuel ->
  exists r s',
    collect_output_files (static chunk (Some (Dir es))) output_dir fuel max_files max_total s = (r, s')
    /\ if acceptable max_files max_total (Dir es) then r = Ok (files_of_tree (Dir es))
       else exists msg, r = Raise (Rejected msg).
Proof.
  intros Hmf Hwf Hfuel. set (t := Dir es) in *.
  unfold collect_output_files, _walk. st_run. rewrite lexists_static. cbn [negb]. st_run.
  rewrite islink_static. replace (match t with Lnk _ => true | _ => false end) with false by done. st_run.
  rewrite isdir_static. replace (match t with Dir _ => true | _ => false end) with true by done.
  cbn [negb orb].
  assert (flat [([], t)] = map sized (tree_files [] t)) as Hflat by (unfold flat; cbn; by rewrite app_nil_r).
  destruct (walk_loop_static output_dir chunk t Hwf fuel fuel max_files Hfuel [([], t)] [] (stepped (stepped (stepped s))))
    as [(found & s2 & E & Hp & Hg)|(msg & s2 & E & Hg)].
  { repeat constructor. by exists es. }
  { unfold count_dirs. cbn [map snd]. pose proof (dirs_tree_size t). cbn in *. lia. }
  { by apply Z.leb_le. }
  - apply (run_ok_ex _ _ _ _ _ _ E). cbn [app] in Hp. rewrite Hflat in Hp.
    destruct Hg as [Hclean Hlist]. inv Hclean as [|?? Hc _]. cbn [app snd] in *. rewrite Hflat in Hlist.
    unfold acceptable. rewrite Hc, Hlist, <-(sum_sizes_perm _ _ Hp). cbn [andb].
    destruct (Z.ltb_spec max_total (sum_sizes found)) as [Hlt|Hle].
    + rewrite (proj2 (Z.leb_gt _ _)) by lia. eexists _, _. split; [done|]. by eexists.
    + rewrite (proj2 (Z.leb_le _ _)) by lia.
      rewrite (sorted_listing (tree_files [] t) found); [| |done].
      2: { intros [n1 c1] [n2 c2] H1 H2 En. cbn in En. subst n2.
           apply (tree_files_at t) in H1; [|done|by eexists]. apply (tree_files_at t) in H2; [|done|by eexists].
           cbn [fst snd] in H1, H2. congruence. }
      destruct (read_files_static output_dir chunk t Hwf max_total (sorted_by str_leb fst (tree_files [] t)) 0 [] s2)
        as (s3 & E3); [|done| |].
      * apply Forall_forall. intros e He. apply elem_of_sorted_by in He.
        apply tree_files_at; [done..|]. by eexists.
      * rewrite (sum_sizes_perm _ (map sized (tree_files [] t))); [|by rewrite sorted_by_perm].
        rewrite <-(sum_sizes_perm _ _ Hp). lia.
      * rewrite E3. by eexists _, _.
  - apply (run_raise_ex _ _ _ _ _ _ E).
    assert (acceptable max_files max_total t = false) as ->; [|by eexists].
    unfold acceptable. destruct (clean t) eqn:Hc; [|done]. destruct (listing_ok _ _) eqn:Hl; [|done].
    destruct Hg. split; [by repeat constructor|]. cbn [app]. by rewrite Hflat.
Qed.

(** The walk of a tree at rest ends. *)
Lemma walk_static_ends chunk t output_dir fuel max_files :
  match t with Some n => tree_wf n = true /\ tree_size n <= fuel | None => 1 <= fuel end ->
  Ends (static chunk t) (_walk (static chunk t) output_dir fuel max_files).
Proof.
  intros Ht s. unfold _walk. destruct t as [n|].
  2: { destruct fuel; [lia|done]. }
  destruct Ht as [Hwf Hf]. destruct n as [c|es|tg|]; try (destruct fuel; [cbn in Hf; lia|done]).
  apply (walk_loop_static_ends output_dir chunk (Dir es) Hwf fuel fuel max_files Hf [([], Dir es)]).
  - repeat constructor. by exists es.
  - unfold count_dirs. cbn [map snd]. pose proof (dirs_tree_size (Dir es)). cbn in *. lia.
Qed.

(** C22: from a directory nobody changes, the collection returns exactly the
    regular files below it, sorted by name, when the tree holds nothing else
    than directories and regular files, every name is valid and the number and
    the total size are within the limits; otherwise it rejects the directory.
    A missing directory has no files, and anything but a directory is
    rejected.  Fuel equal to the number of nodes is enough, whatever the number
    of bytes each [read] transfers. *)
Theorem collect_output_files_exact chunk t output_dir fuel max_files max_total s :
  (0 <= max_files)%Z ->
  match t with Some n => tree_wf n = true /\ tree_size n <= fuel | None => True end ->
  exists r s',
    collect_output_files (static chunk t) output_dir fuel max_files max_total s = (r, s') /\
    match t with
    | None => r = Ok []
    | Some (Dir es) =>
        if acceptable max_files max_total (Dir es) then r = Ok (files_of_tree (Dir es))
        else exists msg, r = Raise (Rejected msg)
    | Some _ => r = Raise (Rejected "outputs is not a directory")
    end.
Proof.
  intros Hmf Ht. destruct t as [[c|es|tg|]|]; try by eexists _, _.
  destruct Ht. by apply collect_dir.
Qed.
End Properties.

(** ** Witnesses *)

#[local] Existing Instance Toy.env.

Module Outputs.
Definition content : bytes := ascii_bytes "hi there".
Definition tree : node :=
  Dir [("plots", Dir [("fig.png", Reg content)]); ("notes.txt", Reg content)].
(** Four bytes at a time. *)
Definition chunk (n : nat) : nat := 3.
Definition start : fstate (ino (static chunk (Some tree))) := FState 0 ∅.
Definition collected : result fs_error (list output_file) :=
  (collect_output_files (static chunk (Some tree)) "/tmp/x/outputs" 5 20 1000 start).1.

Lemma start_fresh : fresh_state (static chunk (Some tree)) start.
Proof. intros fd _. apply lookup_empty. Qed.
End Outputs.

Example collect_output_files_safe_witness :
  exists files, Outputs.collected = Ok files /\ length files = 2%nat /\ (total_size files <= 1000)%Z.
Proof.
  eexists. split; [vm_compute; reflexivity|]. split; [reflexivity|].
  eapply (collect_output_files_safe (static Outputs.chunk (Some Outputs.tree)) "/tmp/x/outputs" 5 20 1000 Outputs.start);
    [lia|lia|exact Outputs.start_fresh|]. vm_compute. reflexivity.
Defined.

Example collect_output_files_no_leak_witness :
  fds (collect_output_files (static Outputs.chunk (Some Outputs.tree)) "/tmp/x/outputs" 5 1 1000 Outputs.start).2 = ∅.
Proof.
  eapply (collect_output_files_no_leak (static Outputs.chunk (Some Outputs.tree)) "/tmp/x/outputs" 5 1 1000 Outputs.start);
    [lia|lia|exact Outputs.start_fresh|apply surjective_pairing|]. right. intros n _. reflexivity.
Defined.

Example collect_output_files_exact_witness :
  exists r s', collect_output_files (static Outputs.chunk (Some Outputs.tree)) "/tmp/x/outputs" 5 20 1000 Outputs.start = (r, s')
    /\ r = Ok (files_of_tree Outputs.tree).
Proof.
  apply (collect_output_files_exact Outputs.chunk (Some Outputs.tree) "/tmp/x/outputs" 5 20 1000 Outputs.start);
    [lia|split; [vm_compute; reflexivity|vm_compute; repeat constructor]].
Defined.
