(* ===== verification/Crypto.v ===== *)
(** * The cryptography package, as the enclave uses it

    The package is not part of the repository: its operations are the fields of
    two classes.  [CryptoLaws] states what its documentation promises of them:
    a decryption undoes the encryption, and AES-GCM accepts nothing but what was
    encrypted under the key.  [ToyCrypto] is an instance that obeys them. *)
From stdpp Require Import base tactics list gmap strings.
From Stdlib Require Import NArith ZArith Lia.
From S2P Require Import Prelude PyText PyCodec Sha2 PyJson World.

Class RsaKeys : Type := {
  private_key : Type;
  (** [rsa.generate_private_key(65537, key_size)], the [n]-th call. *)
  rsa_generate : nat -> json -> res private_key;
  (** [private_key.key_size]. *)
  key_bits : private_key -> Z;
  (** The PEM encodings of the two halves. *)
  private_pem : private_key -> bytes;
  public_pem : private_key -> bytes;
  (** [load_pem_private_key], [load_pem_public_key] and DER output. *)
  load_private_pem : bytes -> res private_key;
  public_der_of_pem : bytes -> res bytes;
}.

Class Ciphers `{RsaKeys} : Type := {
  (** [private_key.decrypt] with OAEP and SHA-256. *)
  oaep_decrypt : private_key -> bytes -> res bytes;
  (** [AESGCM(key).decrypt(nonce, data, None)]. *)
  aesgcm_decrypt : bytes -> bytes -> bytes -> res bytes;
  (** AES-CBC decryption, PKCS7 unpadding for a block size in bits,
      [Fernet(key).decrypt]. *)
  aes_cbc_decrypt : bytes -> bytes -> bytes -> res bytes;
  pkcs7_unpad : nat -> bytes -> res bytes;
  fernet_decrypt : bytes -> bytes -> res bytes;
  (** What the other side computes. *)
  oaep_encrypt : private_key -> bytes -> bytes;
  aesgcm_encrypt : bytes -> bytes -> bytes -> bytes;
}.

Definition modulus_bytes `{RsaKeys} (sk : private_key) : nat := Z.to_nat (key_bits sk / 8).

(** The keys and nonces that [AESGCM] takes. *)
Definition gcm_sizes (k n : bytes) : Prop :=
  (length k = 16 \/ length k = 24 \/ length k = 32) /\ 8 <= length n <= 128.

Class CryptoLaws `{Ciphers} : Prop := {
  private_pem_nonempty sk : private_pem sk <> [];
  load_private_pem_private_pem sk : load_private_pem (private_pem sk) = Ok sk;
  oaep_decrypt_encrypt sk m :
    length m + 66 <= modulus_bytes sk -> oaep_decrypt sk (oaep_encrypt sk m) = Ok m;
  length_oaep_encrypt sk m :
    length m + 66 <= modulus_bytes sk -> length (oaep_encrypt sk m) = modulus_bytes sk;
  aesgcm_decrypt_encrypt k n m : gcm_sizes k n -> aesgcm_decrypt k n (aesgcm_encrypt k n m) = Ok m;
  aesgcm_authentic k n c m : aesgcm_decrypt k n c = Ok m -> c = aesgcm_encrypt k n m;
}.

(** ** An instance

    A key is its modulus size, in units of 256 bits, and a serial number; OAEP
    pads to the modulus size, and the GCM tag is a hash of the key, the nonce and
    the message. *)

Module ToyCrypto.
Definition key_prefix : bytes := ascii_bytes "private".

Definition keys : RsaKeys := {|
  private_key := bytes;
  rsa_generate n v := match v with
                      | JInt z => Ok [byte_of_N (Z.to_N (z / 256)); byte_of_N (N.of_nat n)]
                      | _ => raise (Exn TypeError "key_size must be an integer")
                      end;
  key_bits k := match k with b :: _ => (256 * Z.of_N (N_of_byte b))%Z | [] => 0%Z end;
  private_pem k := key_prefix ++ k;
  public_pem k := ascii_bytes ("public " ++ bytes_hex k);
  load_private_pem b := if bool_decide (take 7 b = key_prefix) then Ok (drop 7 b)
                        else raise (Exn ValueError "Could not deserialize key data.");
  public_der_of_pem b := Ok b;
|}.

#[local] Existing Instance keys.

Definition pad (n : nat) (m : bytes) : bytes :=
  bytes_of_Ns (be_Ns 2 (N.of_nat (length m))) ++ m ++ repeat Byte.x00 (n - 2 - length m).

Definition unpad (b : bytes) : bytes :=
  take (N.to_nat (int_from_bytes (take 2 b))) (drop 2 b).

Definition tag (k n m : bytes) : bytes := take 16 (sha256 (k ++ n ++ m)).

Definition seal (k n m : bytes) : bytes := m ++ tag k n m.

Definition open (k n c : bytes) : res bytes :=
  let m := take (length c - 16) c in
  if bool_decide (c = seal k n m) then Ok m else raise (Exn InvalidTag []).

Definition ciphers : Ciphers := {|
  oaep_decrypt k b := if bool_decide (length b = modulus_bytes k) then Ok (unpad b)
                      else raise (Exn ValueError "Ciphertext length must be equal to key size.");
  aesgcm_decrypt := open;
  aes_cbc_decrypt k iv b := Ok b;
  pkcs7_unpad _ b := Ok b;
  fernet_decrypt k b := open k [] b;
  oaep_encrypt k m := pad (modulus_bytes k) m;
  aesgcm_encrypt := seal;
|}.

#[local] Existing Instance ciphers.

Lemma length_pad n m : length m + 2 <= n -> length (pad n m) = n.
Proof.
  intros H. unfold pad, bytes_of_Ns. rewrite !length_app, length_map, length_be_Ns, repeat_length. lia.
Qed.

Lemma unpad_pad n m : (N.of_nat (length m) < 65536)%N -> unpad (pad n m) = m.
Proof.
  intros H. unfold unpad, pad. set (hd := bytes_of_Ns _).
  assert (length hd = 2) as Hl by (unfold hd, bytes_of_Ns; by rewrite length_map, length_be_Ns).
  rewrite (take_app_length' hd _ 2), (drop_app_length' hd _ 2) by done.
  unfold hd. rewrite int_from_be_Ns, Nnat.Nat2N.id by (by apply N.lt_le_trans with 65536%N).
  by apply take_app_length'.
Qed.

Lemma length_tag k n m : length (tag k n m) = 16.
Proof. unfold tag. rewrite length_take, length_sha256. lia. Qed.

Lemma open_seal k n m : open k n (seal k n m) = Ok m.
Proof.
  unfold open. assert (take (length (seal k n m) - 16) (seal k n m) = m) as ->.
  { unfold seal. apply take_app_length'. rewrite length_app, length_tag. lia. }
  by rewrite bool_decide_eq_true_2.
Qed.

Lemma toy_modulus_bound (k : private_key) : (N.of_nat (modulus_bytes k) < 65536)%N.
Proof.
  unfold modulus_bytes. cbn. destruct k as [|b k]; [done|].
  pose proof (N_of_byte_lt b). rewrite Z.mul_comm. change 256%Z with (32 * 8)%Z.
  rewrite Z.mul_assoc, Z.div_mul by done. lia.
Qed.

#[export] Instance laws : CryptoLaws.
Proof.
  split.
  - done.
  - intros sk. cbn. by rewrite bool_decide_eq_true_2.
  - intros sk m H. cbn [oaep_decrypt oaep_encrypt ciphers]. rewrite length_pad by lia.
    rewrite bool_decide_eq_true_2 by done.
    f_equal. apply unpad_pad. pose proof (toy_modulus_bound sk). lia.
  - intros sk m H. cbn [oaep_encrypt ciphers]. apply length_pad. lia.
  - intros k n m _. apply open_seal.
  - intros k n c m. cbn. unfold open. case_bool_decide; [|done]. by intros [= <-].
Qed.
End ToyCrypto.
