(* ===== verification/Interfaces.v ===== *)
(** * interfaces/: what the services promise each other

    One class per abstract base class, a field per abstract method.  A request
    carries values of any JSON type, so a parameter that a request fills is a
    [json], or a [pyval] where [bytes] are expected. *)
From stdpp Require Import base tactics list gmap strings.
From Stdlib Require Import NArith ZArith Lia.
From S2P Require Import Prelude PyText PyCodec PyJson World OutputFiles.

(** A value that may be [bytes]; [None] is [VJson JNull]. *)
Inductive pyval : Type :=
  | VBytes (b : bytes)
  | VJson (v : json).

Definition VNone : pyval := VJson JNull.

Definition is_none (v : pyval) : bool :=
  match v with VJson JNull => true | _ => false end.

Definition val_truthy (v : pyval) : bool :=
  match v with VBytes b => negb (bool_decide (b = [])) | VJson v => truthy v end.

(** [len(v)]. *)
Definition val_len (v : pyval) : res nat :=
  match v with VBytes b => Ok (length b) | VJson v => py_len v end.

(** [Optional[bytes]]. *)
Definition opt_bytes (b : option bytes) : pyval :=
  match b with Some b => VBytes b | None => VNone end.

(** ** The services *)

Class IKeyPairManager : Type := {
  km_generate_keypair : json -> json -> IO (bool * str);
  km_get_public_key : json -> IO (option str);
  km_get_private_key : json -> IO (option bytes);
  km_delete_keypair : json -> IO bool;
}.

Class IDecryptService : Type := {
  ds_decrypt_combined_hybrid_data : json -> json -> IO (bool * bytes);
  ds_decrypt_hybrid_data : json -> json -> json -> IO (bool * bytes);
  ds_decrypt_rsa_data : json -> json -> IO (bool * bytes);
  ds_decrypt_csv_file : str -> json -> IO (bool * str);
  ds_decrypt_bundle : bytes -> json -> IO (bool * bytes);
  ds_validate_encryption_metadata : dict -> bool * str;
  ds_get_supported_algorithms : dict;
  ds_verify_data_integrity : bytes -> option str -> bool;
  ds_get_decryption_stats : IO dict;
}.

Class IExecuteService : Type := {
  es_execute_script : str -> str -> IO (bool * str);
  es_execute_bundle : bytes -> json -> option str -> option bytes -> IO (bool * str * list output_file);
  es_execute_with_data : str -> list str -> str -> str -> IO (bool * str);
  es_validate_script : str -> bool * str;
  es_setup_execution_environment : str -> bool * str;
  es_cleanup_execution_environment : str -> IO bool;
  es_get_execution_limits : dict;
  es_monitor_execution : str -> IO dict;
  es_terminate_execution : str -> str -> IO bool;
  es_get_execution_logs : str -> IO json;
  es_get_supported_formats : list str;
}.

(** The arguments of [create_execution_attestation]. *)
Record execution_proof_args : Type := ExecutionProofArgs {
  ea_job_id : json;
  ea_output : str;
  ea_script_bytes : option bytes;
  ea_dataset_bytes : option bytes;
  ea_external_nonce : option bytes;
  ea_context_hash : json;
  ea_files_manifest_sha256 : option str;
}.

Class IAttestationService : Type := {
  at_generate_attestation : pyval -> pyval -> pyval -> IO (bool * dict);
  at_create_execution_attestation : execution_proof_args -> IO (bool * dict);
  at_is_real_enclave : bool;
}.

Class IKMSAttestationService : Type := {
  kms_is_enabled : bool;
  kms_decrypt_data_key : bytes -> option dict -> IO (bool * bytes);
  kms_encrypt_data_key : bytes -> option dict -> IO (bool * bytes);
  kms_generate_data_key : str -> option dict -> IO (bool * list (str * pyval));
  kms_get_attestation_document : IO (bool * bytes);
  kms_get_status : dict;
}.

Class IRequestHandler : Type := {
  rh_handle_request : str -> IO dict;
  rh_cleanup_session : json -> IO bool;
  rh_handle_execution : dict -> IO dict;
  rh_get_health_status : dict;
}.

(** ** What a client may rely on

    The laws of the session keys, in terms of [km_live]: the session data a
    look-up would find in a world. *)

Class KeyPairManagerLaws `{IKeyPairManager} : Type := {
  km_live : str -> world -> option (str * bytes);
  (** A look-up answers from the live sessions, and only those. *)
  km_get_public_key_live sid w :
    (km_get_public_key (JStr sid) w).1 = Ok (fst <$> km_live sid w);
  km_get_private_key_live sid w :
    (km_get_private_key (JStr sid) w).1 = Ok (snd <$> km_live sid w);
  (** No method raises. *)
  km_generate_total job_id key_size w : exists r w', km_generate_keypair job_id key_size w = (Ok r, w');
  km_get_public_total v w : exists r w', km_get_public_key v w = (Ok r, w');
  km_get_private_total v w : exists r w', km_get_private_key v w = (Ok r, w');
  km_delete_total v w : exists r w', km_delete_keypair v w = (Ok r, w');
  (** Only strings name sessions. *)
  km_get_private_key_str v k w w' :
    km_get_private_key v w = (Ok (Some k), w') -> exists sid, v = JStr sid;
  km_get_public_key_str v k w w' :
    km_get_public_key v w = (Ok (Some k), w') -> exists sid, v = JStr sid;
  (** A deleted session is gone, and stays gone while the sessions are not
      written. *)
  km_delete_gone sid w w' :
    w_sessions w' = w_sessions (km_delete_keypair (JStr sid) w).2 -> km_live sid w' = None;
  (** The methods touch nothing but the sessions, the clock and the draws. *)
  km_generate_rest job_id key_size :: Keeps w_rest (km_generate_keypair job_id key_size);
  km_get_public_rest v :: Keeps w_rest (km_get_public_key v);
  km_get_private_rest v :: Keeps w_rest (km_get_private_key v);
  km_delete_rest v :: Keeps w_rest (km_delete_keypair v);
}.

(** An attestation leaves the sessions alone and starts no script. *)
Class AttestationLaws `{IAttestationService} : Prop := {
  at_create_sessions args :: Keeps w_sessions (at_create_execution_attestation args);
  at_create_draws args :: Draws (at_create_execution_attestation args);
  at_generate_sessions u n p :: Keeps w_sessions (at_generate_attestation u n p);
  at_generate_draws u n p :: Draws (at_generate_attestation u n p);
  at_create_scripts args :: Keeps scripts (at_create_execution_attestation args);
  at_generate_scripts u n p :: Keeps scripts (at_generate_attestation u n p);
}.
