(* ===== verification/Cbor.v ===== *)
(** * CBOR, as the attestation documents use it

    The [cbor2] package is not part of the repository: its two functions are
    fields of [Cbor].  [user_data_hash] and [logged_len] are the expressions the
    two generators of documents share. *)
From stdpp Require Import base tactics list gmap strings.
From Stdlib Require Import NArith ZArith Lia.
From S2P Require Import Prelude PyText PyCodec Sha2 PyJson World Interfaces.

(** What [cbor2] reads and writes here.  A map has string keys or integer keys. *)
#[local] Unset Elimination Schemes.
Inductive cbor : Type :=
  | CVal (v : pyval)
  | CMap (entries : list (str * cbor))
  | CIntMap (entries : list (Z * cbor))
  | CArr (items : list cbor)
  | CTag (tag : Z) (v : cbor).
#[local] Set Elimination Schemes.

Abbreviation CBytes b := (CVal (VBytes b)).
Abbreviation CText s := (CVal (VJson (JStr s))).
Abbreviation CInt z := (CVal (VJson (JInt z))).

Fixpoint cbor_get (k : str) (l : list (str * cbor)) : option cbor :=
  match l with
  | [] => None
  | (k', v) :: l => if str_eqb k k' then Some v else cbor_get k l
  end.

Class Cbor : Type := {
  cbor_dumps : cbor -> res bytes;
  cbor_loads : bytes -> res cbor;
  (** [str(v)] of a decoded value. *)
  cbor_str : cbor -> str;
}.

(** [hashlib.sha256(v).hexdigest() if v else None]. *)
Definition user_data_hash (v : pyval) : res json :=
  if val_truthy v then
    match v with
    | VBytes b => Ok (JStr (sha256_hex b))
    | VJson (JStr _) => raise (Exn TypeError "Strings must be encoded before hashing")
    | VJson _ => raise (Exn TypeError "object supporting the buffer API required")
    end
  else Ok JNull.

(** [len(v) if v else 0]. *)
Definition logged_len (v : pyval) : res nat := if val_truthy v then val_len v else Ok 0.

(** ** A concrete encoding

    The byte strings of a value one after the other; it reads back as a device's
    answer with the bytes as the document. *)
Module ToyCbor.
Fixpoint flat (v : cbor) : bytes :=
  match v with
  | CVal (VBytes b) => b
  | CVal (VJson _) => []
  | CMap es => (fix go (es : list (str * cbor)) : bytes :=
                  match es with [] => [] | e :: es => flat e.2 ++ go es end) es
  | CIntMap es => (fix go (es : list (Z * cbor)) : bytes :=
                     match es with [] => [] | e :: es => flat e.2 ++ go es end) es
  | CArr l => (fix go (l : list cbor) : bytes :=
                 match l with [] => [] | v :: l => flat v ++ go l end) l
  | CTag _ v => flat v
  end.

Definition cbor_flat : Cbor := {|
  cbor_dumps v := Ok (flat v);
  cbor_loads b := Ok (CMap [("Attestation", CMap [("document", CBytes b)])]);
  cbor_str _ := "response";
|}.
End ToyCbor.
