(* ===== verification/LocalAttestation.v ===== *)
(** * local_attestation_service.py: documents for development

    A COSE_Sign1 document like the device's, signed under a certificate
    hierarchy the process keeps in [LOCAL_CA_DIR].  X.509 and ECDSA are fields of
    [X509]; [X509Laws] states that what they write they read back, and that a
    signature verifies.  A write of one of the files may fail and leave anything
    in it; the modes of the files are not part of the state.  The directory is the part of [w_files] under
    [ca_path]. *)
From stdpp Require Import base tactics list gmap strings.
From Stdlib Require Import NArith ZArith Lia.
From S2P Require Import Prelude PyText PyCodec Sha2 PyJson World Config Interfaces Cbor.

(** The arguments of the [CertificateBuilder] chain.  The [KeyUsage] flags that
    are [False] in every certificate are left out; times are in microseconds. *)
Record cert_fields {key : Type} : Type := CertFields {
  cf_subject : list (str * str);
  cf_issuer : list (str * str);
  cf_public_key : key;               (* the public half of this key *)
  cf_serial : Z;
  cf_not_before : Z;
  cf_not_after : Z;
  cf_ca : bool;
  cf_path_length : option Z;
  cf_digital_signature : bool;
  cf_key_cert_sign : bool;
  cf_crl_sign : bool;
}.
Arguments cert_fields : clear implicits.
Arguments CertFields {key}.

Class X509 : Type := {
  ec_key : Type;
  x509_cert : Type;
  (** [ec.generate_private_key(ec.SECP384R1())] and [x509.random_serial_number()],
      the [n]-th draw. *)
  ec_generate : nat -> res ec_key;
  random_serial : nat -> Z;
  (** [.sign(key, hashes.SHA384())]. *)
  sign_certificate : cert_fields ec_key -> ec_key -> nat -> res x509_cert;
  (** The encodings, and [load_pem_private_key] and [load_pem_x509_certificate]. *)
  key_pem : ec_key -> bytes;
  cert_pem : x509_cert -> bytes;
  cert_der : x509_cert -> bytes;
  load_key_pem : bytes -> res ec_key;
  load_cert_pem : bytes -> res x509_cert;
  (** [key.sign(data, ec.ECDSA(hashes.SHA384()))], and [decode_dss_signature]. *)
  ecdsa_sign : ec_key -> bytes -> nat -> res bytes;
  decode_dss_signature : bytes -> res (N * N);
  (** [ECDSA] verification of a message with the public half of a key. *)
  ecdsa_verify : ec_key -> bytes -> N * N -> bool;
  (** [os.makedirs(ca_dir, mode=0o700, exist_ok=True)]. *)
  makedirs : str -> res unit;
  (** [path.write_bytes(content)] at a time: an error and what it leaves in the
      file ([None]: the file as it was), or no error. *)
  write_fault : str -> bytes -> nat -> option (exn * option bytes);
  (** [os.chmod(path, mode)] at a time. *)
  chmod : str -> N -> nat -> res unit;
  (** [os.environ] when the module is imported. *)
  local_environ : gmap str str;
}.

Class X509Laws `{X509} : Prop := {
  load_key_pem_key_pem k : load_key_pem (key_pem k) = Ok k;
  load_cert_pem_cert_pem c : load_cert_pem (cert_pem c) = Ok c;
  ecdsa_sign_verifies k m n der rs :
    ecdsa_sign k m n = Ok der -> decode_dss_signature der = Ok rs -> ecdsa_verify k m rs = true;
}.

(** The simulated PCR values: 48 bytes that end in 1, 2 and 3. *)
Definition SIMULATED_PCRS : list (Z * bytes) :=
  [(0%Z, repeat Byte.x00 47 ++ [Byte.x01]); (1%Z, repeat Byte.x00 47 ++ [Byte.x02]);
   (2%Z, repeat Byte.x00 47 ++ [Byte.x03])].

(** [timedelta(days=n)] and [timedelta(hours=n)]. *)
Definition days (n : Z) : Z := (n * 86400 * 1000000)%Z.
Definition hours (n : Z) : Z := (n * 3600 * 1000000)%Z.

(** [int(t * 1000)].  The floating-point product gives the same integer for
    every reading from 2005 to 2038. *)
Definition milliseconds (t : Z) : Z := Z.quot t 1000.

Section Methods.
Context `{Env, X509, Cbor}.

Definition LOCAL_CA_DIR : str := getenv local_environ "LOCAL_CA_DIR" "/tmp/epsilon-local-ca".

(** [ca_dir / name].  Only these functions use the directory, so its paths are
    not normalised. *)
Definition ca_path (name : str) : str := path_join LOCAL_CA_DIR name.

Record ca_hierarchy : Type := CaHierarchy {
  root_key : ec_key; root_cert : x509_cert;
  int_key : ec_key; int_cert : x509_cert;
  leaf_key : ec_key; leaf_cert : x509_cert;
}.

Definition ca_files : list str :=
  ["root.key"; "root.pem"; "intermediate.key"; "intermediate.pem"; "leaf.key"; "leaf.pem"].

(** [all(p.exists() for p in ...)]. *)
Definition ca_present (files : gmap str bytes) : bool :=
  forallb (fun name => bool_decide (is_Some (files !! ca_path name))) ca_files.

(** [load(path.read_bytes())]. *)
Definition load_ca_file {A} (load : bytes -> res A) (name : str) : IO A :=
  b ← read_bytes (ca_path name); st_lift (load b).

Definition load_ca : IO ca_hierarchy :=
  root_key ← load_ca_file load_key_pem "root.key";
  root_cert ← load_ca_file load_cert_pem "root.pem";
  int_key ← load_ca_file load_key_pem "intermediate.key";
  int_cert ← load_ca_file load_cert_pem "intermediate.pem";
  leaf_key ← load_ca_file load_key_pem "leaf.key";
  leaf_cert ← load_ca_file load_cert_pem "leaf.pem";
  mret (CaHierarchy root_key root_cert int_key int_cert leaf_key leaf_cert).

(** A call that draws randomness. *)
Definition drawing {A} (f : nat -> res A) : IO A := fun w => (f (w_draws w), drawn w).

Definition root_name : list (str * str) :=
  [("COMMON_NAME", "Epsilon Local Root CA"); ("ORGANIZATION_NAME", "Epsilon (Local Dev)");
   ("COUNTRY_NAME", "AU")].
Definition int_name : list (str * str) :=
  [("COMMON_NAME", "Epsilon Local Intermediate CA"); ("ORGANIZATION_NAME", "Epsilon (Local Dev)")].
Definition leaf_name : list (str * str) :=
  [("COMMON_NAME", "Epsilon Local Enclave"); ("ORGANIZATION_NAME", "Epsilon (Local Dev)")].

Definition root_fields (now serial : Z) (key : ec_key) : cert_fields ec_key :=
  CertFields root_name root_name key serial now (now + days 3650) true (Some 2%Z) false true true.
Definition int_fields (now serial : Z) (key : ec_key) : cert_fields ec_key :=
  CertFields int_name root_name key serial now (now + days 1825) true (Some 0%Z) false true true.
Definition leaf_fields (now serial : Z) (key : ec_key) : cert_fields ec_key :=
  CertFields leaf_name int_name key serial now (now + hours 6) false None true false false.

(** [CertificateBuilder()...sign(signer, hashes.SHA384())]. *)
Definition issue (fields : Z -> ec_key -> cert_fields ec_key) (key signer : ec_key) : IO x509_cert :=
  serial ← drawing (fun n => Ok (random_serial n));
  drawing (sign_certificate (fields serial key) signer).

(** The files in the order in which they are written. *)
Definition saved_keys (ca : ca_hierarchy) : list (str * bytes) :=
  [("root.key", key_pem (root_key ca)); ("intermediate.key", key_pem (int_key ca));
   ("leaf.key", key_pem (leaf_key ca))].
Definition saved_certs (ca : ca_hierarchy) : list (str * bytes) :=
  [("root.pem", cert_pem (root_cert ca)); ("intermediate.pem", cert_pem (int_cert ca));
   ("leaf.pem", cert_pem (leaf_cert ca)); ("root.der", cert_der (root_cert ca))].
Definition saved (ca : ca_hierarchy) : list (str * bytes) := saved_keys ca ++ saved_certs ca.

(** [path.write_bytes(content)]. *)
Definition write_ca_file (path : str) (content : bytes) : IO unit :=
  now ← st_gets w_ticks;
  match write_fault path content now with
  | Some (e, None) => raise e
  | Some (e, Some kept) => _ ← write_bytes path kept; raise e
  | None => write_bytes path content
  end.

(** [os.chmod(path, mode)].  The modes of these files are not part of the model. *)
Definition os_chmod (path : str) (mode : N) : IO unit :=
  now ← st_gets w_ticks; st_lift (chmod path mode now).

(** Each of the files, with its mode set where there is one. *)
Fixpoint write_all (mode : option N) (l : list (str * bytes)) : IO unit :=
  match l with
  | [] => mret tt
  | (name, content) :: l =>
      _ ← write_ca_file (ca_path name) content;
      _ ← match mode with Some m => os_chmod (ca_path name) m | None => mret tt end;
      write_all mode l
  end.

Definition generate_ca : IO ca_hierarchy :=
  now ← time_time;
  root_key ← drawing ec_generate;
  root_cert ← issue (root_fields now) root_key root_key;
  int_key ← drawing ec_generate;
  int_cert ← issue (int_fields now) int_key root_key;
  leaf_key ← drawing ec_generate;
  leaf_cert ← issue (leaf_fields now) leaf_key int_key;
  let ca := CaHierarchy root_key root_cert int_key int_cert leaf_key leaf_cert in
  _ ← write_all (Some 384%N) (saved_keys ca);      (* 0o600 *)
  _ ← write_all None (saved_certs ca);
  mret ca.

Definition _ensure_local_ca : IO ca_hierarchy :=
  _ ← st_lift (makedirs LOCAL_CA_DIR);
  files ← st_gets w_files;
  if ca_present files then load_ca else generate_ca.

(** [module_id or f"i-local-{...}-enc{...}"]. *)
Definition use_module_id (module_id : option str) : IO str :=
  match module_id with
  | Some ((_ :: _) as id) => mret id
  | _ => a ← os_urandom 8; b ← os_urandom 4;
         mret ("i-local-" ++ bytes_hex a ++ "-enc" ++ bytes_hex b)
  end.

(** [pcrs or SIMULATED_PCRS]. *)
Definition use_pcrs (pcrs : option (list (Z * bytes))) : list (Z * bytes) :=
  match pcrs with Some ((_ :: _) as l) => l | _ => SIMULATED_PCRS end.

Definition payload_map (ca : ca_hierarchy) (module_id : str) (timestamp : Z) (pcrs : list (Z * bytes))
    (user_data nonce public_key : pyval) : cbor :=
  let param k v := if is_none v then [] else [(k, CVal v)] in
  CMap ([("module_id", CText module_id);
         ("digest", CText "SHA384");
         ("timestamp", CInt timestamp);
         ("pcrs", CIntMap (map (fun kv => (kv.1, CBytes kv.2)) pcrs));
         ("certificate", CBytes (cert_der (leaf_cert ca)));
         ("cabundle", CArr [CBytes (cert_der (int_cert ca)); CBytes (cert_der (root_cert ca))])]
        ++ param "user_data" user_data ++ param "nonce" nonce ++ param "public_key" public_key).

(** [{1: -35}]: ES384. *)
Definition protected_map : cbor := CIntMap [(1%Z, CInt (-35))].

Definition sig_structure (protected_header payload_bytes : bytes) : cbor :=
  CArr [CText "Signature1"; CBytes protected_header; CBytes []; CBytes payload_bytes].

Definition cose_sign1 (protected_header payload_bytes raw_signature : bytes) : cbor :=
  CTag 18 (CArr [CBytes protected_header; CMap []; CBytes payload_bytes; CBytes raw_signature]).

(** [r.to_bytes(48, 'big') + s.to_bytes(48, 'big')]. *)
Definition raw_of (rs : N * N) : res bytes :=
  r ← int_to_bytes 48 rs.1; s ← int_to_bytes 48 rs.2; Ok (r ++ s).

Definition local_failure (message : str) : dict :=
  [("error", JStr "LOCAL_ATTESTATION_FAILED"); ("message", JStr message); ("is_local", JBool true)].

Definition local_document (document_bytes : bytes) (user_data nonce : pyval) (hash : json)
    (module_id : str) (timestamp : Z) (elapsed : json) : dict :=
  [("attestation_document", JStr (b64encode document_bytes));
   ("attestation_document_length", JInt (Z.of_nat (length document_bytes)));
   ("format", JStr "CBOR");
   ("signed_by", JStr "Local ECDSA P-384 CA (NOT AWS Nitro)");
   ("user_data_included", JBool (negb (is_none user_data)));
   ("user_data_hash", hash);
   ("nonce_included", JBool (negb (is_none nonce)));
   ("module_id", JStr module_id);
   ("timestamp", JInt timestamp);
   ("is_local", JBool true);
   ("is_real_enclave", JBool false);
   ("elapsed_ms", elapsed)].

Definition generate_local_attestation (user_data nonce public_key : pyval) (module_id : option str)
    (pcrs : option (list (Z * bytes))) : IO (bool * dict) :=
  catch
    (t0 ← time_time;
     ca ← _ensure_local_ca;
     module_id ← use_module_id module_id;
     t ← time_time;
     let timestamp := milliseconds t in
     let payload := payload_map ca module_id timestamp (use_pcrs pcrs) user_data nonce public_key in
     payload_bytes ← st_lift (cbor_dumps payload);
     protected_header ← st_lift (cbor_dumps protected_map);
     to_sign ← st_lift (cbor_dumps (sig_structure protected_header payload_bytes));
     der_signature ← drawing (ecdsa_sign (leaf_key ca) to_sign);
     rs ← st_lift (decode_dss_signature der_signature);
     raw_signature ← st_lift (raw_of rs);
     document_bytes ← st_lift (cbor_dumps (cose_sign1 protected_header payload_bytes raw_signature));
     t1 ← time_time;
     _ ← st_lift (logged_len user_data);
     hash ← st_lift (user_data_hash user_data);
     mret (true, local_document document_bytes user_data nonce hash module_id timestamp (elapsed_ms t0 t1)))
    (fun e => mret (false, local_failure (exn_msg e))).

Definition get_local_root_cert_der : IO (option bytes) :=
  files ← st_gets w_files;
  mret (files !! ca_path "root.der").

Definition get_local_root_cert_pem : IO (option str) :=
  files ← st_gets w_files;
  match files !! ca_path "root.pem" with
  | Some b => s ← st_lift (text_of b); mret (Some s)
  | None => mret None
  end.
End Methods.

(** ** Frames *)

Section Frames.
Context `{Env, X509, Cbor}.

#[export] Instance keeps_drawing {A B} (f : world -> B) (g : nat -> res A) :
  TCEq (fun w => f (drawn w)) f -> Keeps f (drawing g).
Proof. intros Hf w. exact (f_equal (fun h => h w) (proj1 (TCEq_eq _ _) Hf)). Qed.

#[export] Instance draws_drawing {A} (g : nat -> res A) : Draws (drawing g).
Proof. intros w. unfold draws_grow. cbn. lia. Qed.

(** The generator touches the files of its directory, the clock and the draws. *)
Definition w_outside (w : world) := (w_sessions w, w_execs w, w_tmp w, w_trace w).

#[export] Instance keeps_write_all mode l : Keeps w_outside (write_all mode l).
Proof.
  induction l as [|[name content] l IH]; cbn [write_all]; unfold write_ca_file, os_chmod, write_bytes; apply _.
Qed.
#[export] Instance keeps_write_all_draws mode l : Keeps w_draws (write_all mode l).
Proof.
  induction l as [|[name content] l IH]; cbn [write_all]; unfold write_ca_file, os_chmod, write_bytes; apply _.
Qed.

#[export] Instance local_outside u n p id pcrs : Keeps w_outside (generate_local_attestation u n p id pcrs).
Proof.
  unfold generate_local_attestation, _ensure_local_ca, load_ca, load_ca_file, read_bytes, generate_ca, issue,
    use_module_id. apply _.
Qed.
#[export] Instance local_draws u n p id pcrs : Draws (generate_local_attestation u n p id pcrs).
Proof.
  unfold generate_local_attestation, _ensure_local_ca, load_ca, load_ca_file, read_bytes, generate_ca, issue,
    use_module_id. apply _.
Qed.
#[export] Instance local_sessions u n p id pcrs : Keeps w_sessions (generate_local_attestation u n p id pcrs).
Proof. intros w. pose proof (local_outside u n p id pcrs w) as E. unfold w_outside in E. congruence. Qed.
#[export] Instance local_trace u n p id pcrs : Keeps w_trace (generate_local_attestation u n p id pcrs).
Proof. intros w. pose proof (local_outside u n p id pcrs w) as E. unfold w_outside in E. congruence. Qed.
End Frames.

(** ** The certificate hierarchy is kept *)

(** A computation that only reads the files. *)
Definition reads_files {A} (m : IO A) : Prop := forall w w2,
  w_files w2 = w_files w -> (m w).2 = w /\ m w2 = ((m w).1, w2).

Lemma reads_ret {A} (a : A) : reads_files (mret a : IO A).
Proof. done. Qed.
Lemma reads_bind {A B} (m : IO A) (k : A -> IO B) :
  reads_files m -> (forall a, reads_files (k a)) -> reads_files (m ≫= k).
Proof.
  intros Hm Hk w w2 E. rewrite !run_bind. destruct (Hm w w2 E) as [Hw ->].
  destruct (m w) as [[a|e] w1]; cbn in *; subst; [by apply Hk|done].
Qed.

Create HintDb reads.
#[export] Hint Resolve reads_ret reads_bind : reads.

Section Hierarchy.
Context `{Env, X509, Cbor}.

Lemma reads_load_ca_file {A} (load : bytes -> res A) name : reads_files (load_ca_file load name).
Proof.
  unfold load_ca_file, read_bytes. intros w w2 E. st_run. rewrite E.
  destruct (w_files w !! ca_path name) as [b|]; st_run; [|done]. by destruct (load b).
Qed.
#[local] Hint Resolve reads_load_ca_file : reads.

Lemma reads_load_ca : reads_files load_ca.
Proof. unfold load_ca. auto 20 with reads. Qed.

Lemma ca_path_inj n1 n2 :
  starts_with [slash] n1 = false -> starts_with [slash] n2 = false -> ca_path n1 = ca_path n2 -> n1 = n2.
Proof.
  unfold ca_path, path_join. intros -> ->. destruct LOCAL_CA_DIR as [|c d]; [done|].
  destruct (ends_with [slash] (c :: d)); intros E%(inj (app _)); [done|by injection E].
Qed.

Lemma write_ca_file_ok path content w w' :
  write_ca_file path content w = (Ok tt, w') -> w' = set_files (insert path content) w.
Proof.
  unfold write_ca_file, write_bytes. st_run. destruct (write_fault _ _ _) as [[e [kept|]]|]; st_run; congruence.
Qed.

Lemma write_all_ok mode l w w' :
  write_all mode l w = (Ok tt, w') ->
  w_files w' = foldl (fun m nc => <[ca_path nc.1 := nc.2]> m) (w_files w) l.
Proof.
  revert w. induction l as [|[name content] l IH]; intros w; cbn [write_all]; [by intros [_ <-]%ret_ok|].
  intros ([] & w1 & ->%write_ca_file_ok & E)%bind_ok. apply bind_ok in E as ([] & w2 & E1 & E).
  rewrite (IH _ E). cbn [foldl fst snd]. f_equal. destruct mode as [m|]; [|by apply ret_ok in E1 as [_ <-]].
  unfold os_chmod in E1. rewrite run_bind, run_gets, run_lift in E1. by injection E1 as _ <-.
Qed.

Lemma written_other l (m : gmap str bytes) p :
  p ∉ map (fun nc => ca_path nc.1) l -> foldl (fun m nc => <[ca_path nc.1 := nc.2]> m) m l !! p = m !! p.
Proof.
  revert m. induction l as [|[name c] l IH]; intros m Hp; [done|]. cbn in *. rewrite IH by set_solver.
  apply lookup_insert_ne. set_solver.
Qed.

Lemma written_lookup l (m : gmap str bytes) name c :
  NoDup (map (fun nc => ca_path nc.1) l) -> (name, c) ∈ l ->
  foldl (fun m nc => <[ca_path nc.1 := nc.2]> m) m l !! ca_path name = Some c.
Proof.
  revert m. induction l as [|[name' c'] l IH]; intros m Hnd Hin; [by apply elem_of_nil in Hin|].
  cbn in *. apply NoDup_cons in Hnd as [Hnot Hnd]. apply elem_of_cons in Hin as [[= -> ->]|Hin]; [|by apply IH].
  rewrite written_other by done. by rewrite lookup_insert_eq.
Qed.

Lemma saved_paths_NoDup ca : NoDup (map (fun nc => ca_path nc.1) (saved ca)).
Proof.
  unfold saved, saved_keys, saved_certs. cbn [app map fst].
  repeat (apply NoDup_cons; split;
          [rewrite ?elem_of_cons, elem_of_nil; intros Hin;
           repeat destruct Hin as [Hin|Hin]; try done; by apply ca_path_inj in Hin|]).
  apply NoDup_nil_2.
Qed.

Lemma saved_lookup ca (m : gmap str bytes) name c :
  (name, c) ∈ saved ca -> foldl (fun m nc => <[ca_path nc.1 := nc.2]> m) m (saved ca) !! ca_path name = Some c.
Proof. apply written_lookup, saved_paths_NoDup. Qed.

(** A hierarchy in the files: what [_ensure_local_ca] loads. *)
Definition on_disk (ca : ca_hierarchy) (w : world) : Prop :=
  makedirs LOCAL_CA_DIR = Ok tt /\ ca_present (w_files w) = true /\ load_ca w = (Ok ca, w).

Lemma on_disk_files ca w w2 : w_files w2 = w_files w -> on_disk ca w -> on_disk ca w2.
Proof.
  intros E (Hd & Hp & Hl). unfold on_disk. rewrite E. destruct (reads_load_ca w w2 E) as [_ ->].
  by rewrite Hl.
Qed.

Lemma ensure_on_disk ca w : on_disk ca w -> _ensure_local_ca w = (Ok ca, w).
Proof. intros (Hd & Hp & Hl). unfold _ensure_local_ca. rewrite Hd. st_run. by rewrite Hp. Qed.

Context `{!X509Laws}.

Lemma load_saved ca w :
  (forall name c, (name, c) ∈ saved ca -> w_files w !! ca_path name = Some c) ->
  ca_present (w_files w) = true /\ load_ca w = (Ok ca, w).
Proof.
  intros Hw.
  assert (forall name c, (name, c) ∈ saved ca -> forall A (load : bytes -> res A) a, load c = Ok a ->
    load_ca_file load name w = (Ok a, w)) as Hload.
  { intros name c Hin A load a Hl. unfold load_ca_file, read_bytes. st_run. rewrite (Hw name c Hin). st_run.
    by rewrite Hl. }
  destruct ca as [rk rc ik ic lk lc]. unfold saved, saved_keys, saved_certs in *.
  cbn [app root_key root_cert int_key int_cert leaf_key leaf_cert] in *. split.
  - apply forallb_forall. intros name Hin. apply bool_decide_eq_true_2.
    assert (exists c, (name, c) ∈ saved (CaHierarchy rk rc ik ic lk lc)) as (c & Hc)
      by (cbn in Hin; destruct_or?; subst; try done; eexists; unfold saved, saved_keys, saved_certs; cbn [app];
          rewrite !elem_of_cons; eauto 10).
    exists c. by apply Hw.
  - unfold load_ca.
    repeat match goal with
    | |- context [load_ca_file load_key_pem ?name ≫= _] =>
        erewrite (bind_run (load_ca_file load_key_pem name)) by
          (eapply (Hload name); [rewrite !elem_of_cons; eauto 10|apply load_key_pem_key_pem])
    | |- context [load_ca_file load_cert_pem ?name ≫= _] =>
        erewrite (bind_run (load_ca_file load_cert_pem name)) by
          (eapply (Hload name); [rewrite !elem_of_cons; eauto 10|apply load_cert_pem_cert_pem])
    end.
    done.
Qed.

Lemma generate_ca_saves w ca w' :
  generate_ca w = (Ok ca, w') ->
  forall name c, (name, c) ∈ saved ca -> w_files w' !! ca_path name = Some c.
Proof.
  unfold generate_ca. intros E%time_ok.
  do 6 (apply bind_ok in E as (? & ? & _ & E)).
  apply bind_ok in E as ([] & ? & E1%write_all_ok & E). apply bind_ok in E as ([] & ? & E2%write_all_ok & E).
  apply ret_ok in E as [<- <-]. intros name c. rewrite E2, E1, <-foldl_app. apply saved_lookup.
Qed.

Lemma ensure_leaves_on_disk ca w w' : _ensure_local_ca w = (Ok ca, w') -> on_disk ca w'.
Proof.
  unfold _ensure_local_ca. intros ([] & Hd & E)%lift_ok. rewrite run_bind, run_gets in E.
  cbn beta iota zeta in E. destruct (ca_present (w_files w)) eqn:Hp.
  - destruct (reads_load_ca w w eq_refl) as [Hw _]. rewrite E in Hw. cbn in Hw. subst w'. by split_and!.
  - split; [done|]. apply load_saved. by eapply generate_ca_saves.
Qed.
End Hierarchy.

(** ** The documents *)

Section Documents.
Context `{Env, X509Laws, Cbor}.

Lemma raw_of_ok rs b :
  raw_of rs = Ok b -> length b = 96 /\ (int_from_bytes (take 48 b), int_from_bytes (drop 48 b)) = rs.
Proof.
  unfold raw_of. intros (r & [Hr Hlr]%int_from_to_bytes & E)%result_bind_ok.
  apply result_bind_ok in E as (s & [Hs Hls]%int_from_to_bytes & E). injection E as <-.
  rewrite length_app, take_app_length', drop_app_length' by done. split; [lia|]. rewrite Hr, Hs. by destruct rs.
Qed.

Lemma keeps_use_module_id id : Keeps w_files (use_module_id id).
Proof. unfold use_module_id. apply _. Qed.

(** C37: a local document verifies the way a device's does, and says that it is
    not one.  Its signature, read as two 48-byte numbers, verifies over the COSE
    [Sig_structure] of exactly the header and the payload in the document, under
    the leaf key; the payload holds the given [user_data], nonce and public key
    and the certificates of that hierarchy, which stays in the directory for the
    next document; nothing else of the process changes. *)
Theorem local_document_verifies user_data nonce public_key module_id pcrs w d w' :
  generate_local_attestation user_data nonce public_key module_id pcrs w = (Ok (true, d), w') ->
  exists ca id timestamp payload header to_sign raw document s,
    dict_get "attestation_document" d = Some (JStr s) /\ b64decode s = Ok document
    /\ cbor_dumps (cose_sign1 header payload raw) = Ok document
    /\ cbor_dumps protected_map = Ok header
    /\ cbor_dumps (payload_map ca id timestamp (use_pcrs pcrs) user_data nonce public_key) = Ok payload
    /\ cbor_dumps (sig_structure header payload) = Ok to_sign
    /\ length raw = 96
    /\ ecdsa_verify (leaf_key ca) to_sign (int_from_bytes (take 48 raw), int_from_bytes (drop 48 raw)) = true
    /\ dict_get "is_real_enclave" d = Some (JBool false) /\ dict_get "is_local" d = Some (JBool true)
    /\ on_disk ca w' /\ w_outside w' = w_outside w.
Proof.
  intros E0. pose proof (local_outside user_data nonce public_key module_id pcrs w) as Hout. rewrite E0 in Hout.
  apply catch_ok in E0 as [E|(e & w1 & _ & E)]; [|by apply ret_ok in E as [E _]].
  apply time_ok in E. apply bind_ok in E as (ca & w1 & Hca%ensure_leaves_on_disk & E).
  apply bind_ok in E as (id & w2 & Hid & E).
  pose proof (keeps_use_module_id module_id w1) as Hf. rewrite Hid in Hf. cbn in Hf. apply time_ok in E.
  apply lift_ok in E as (payload & Hp & E). apply lift_ok in E as (header & Hh & E).
  apply lift_ok in E as (to_sign & Hs & E). apply bind_ok in E as (der & w3 & [= Hder <-] & E).
  apply lift_ok in E as (rs & Hrs & E). apply lift_ok in E as (raw & [Hlen Hraw]%raw_of_ok & E).
  apply lift_ok in E as (doc & Hdoc & E). apply time_ok in E. apply lift_ok in E as (? & _ & E).
  apply lift_ok in E as (hash & _ & E). apply ret_ok in E as [E <-]. injection E as <-.
  exists ca, id, (milliseconds (clock (w_ticks w2))), payload, header, to_sign, raw, doc, (b64encode doc).
  split_and!; try done; [apply b64decode_encode| |by eapply on_disk_files].
  rewrite Hraw. by eapply ecdsa_sign_verifies.
Qed.

(** The hierarchy is made once.  As long as the files of the process are
    left alone, every later call gets the same keys and certificates from the
    directory, without drawing randomness, reading the clock or writing: also
    after the six hours its leaf certificate is valid for. *)
Theorem local_ca_reused w ca w1 w2 :
  _ensure_local_ca w = (Ok ca, w1) -> w_files w2 = w_files w1 -> _ensure_local_ca w2 = (Ok ca, w2).
Proof. intros Hca%ensure_leaves_on_disk Hf. by eapply ensure_on_disk, on_disk_files. Qed.

(** The generator never raises. *)
Lemma local_total u n p id pcrs w : exists r w', generate_local_attestation u n p id pcrs w = (Ok r, w').
Proof.
  unfold generate_local_attestation. rewrite run_try.
  match goal with |- context [match ?m w with _ => _ end] => destruct (m w) as [[r|e] w'] end; eauto.
Qed.
End Documents.

(** ** A concrete X.509 *)

Module ToyX509.
(** A key is one byte, a certificate the byte of the key it certifies; a
    signature is a hash of the key and the message. *)
Definition x509 : X509 := {|
  ec_key := bytes; x509_cert := bytes;
  ec_generate n := Ok [byte_of_N (N.of_nat n)];
  random_serial n := Z.of_nat n;
  sign_certificate fields _ _ := Ok (cf_public_key fields);
  key_pem k := k; cert_pem c := c; cert_der c := c;
  load_key_pem b := Ok b; load_cert_pem b := Ok b;
  ecdsa_sign k m _ := Ok (sha256 (k ++ m));
  decode_dss_signature der := Ok (int_from_bytes der, 1%N);
  ecdsa_verify k m rs := bool_decide (rs = (int_from_bytes (sha256 (k ++ m)), 1%N));
  makedirs _ := Ok tt;
  write_fault _ _ _ := None;
  chmod _ _ _ := Ok tt;
  local_environ := ∅;
|}.

#[export] Instance laws : @X509Laws x509.
Proof.
  split; [done|done|]. intros k m n der rs. cbn. intros [= <-] [= <-]. by apply bool_decide_eq_true_2.
Qed.
End ToyX509.

#[local] Existing Instances Toy.env ToyX509.x509 ToyX509.laws ToyCbor.cbor_flat.

Definition toy_local : result exn (bool * dict) * world :=
  generate_local_attestation (VBytes (ascii_bytes "data")) (VBytes (ascii_bytes "n")) VNone None None empty_world.

Lemma local_document_verifies_witness :
  exists d ca, toy_local.1 = Ok (true, d) /\ on_disk ca toy_local.2.
Proof.
  destruct (local_document_verifies (VBytes (ascii_bytes "data")) (VBytes (ascii_bytes "n")) VNone None None
              empty_world (match toy_local.1 with Ok (_, d) => d | Raise _ => [] end) toy_local.2)
    as (ca & ? & ? & ? & ? & ? & ? & ? & ? & _ & _ & _ & _ & _ & _ & _ & _ & _ & _ & Hca & _).
  - vm_compute. reflexivity.
  - eexists _, ca. split; [vm_compute; reflexivity|exact Hca].
Defined.

(** A day later. *)
Definition day_later (w : world) : world :=
  World (w_sessions w) (w_execs w) (w_tmp w) (w_files w) (86400 + w_ticks w) (w_draws w) (w_trace w).

Lemma day_later_files w : w_files (day_later w) = w_files w.
Proof. done. Qed.

Lemma local_ca_reused_witness :
  let first := (_ensure_local_ca empty_world).2 in
  exists ca, _ensure_local_ca (day_later first) = (Ok ca, day_later first).
Proof.
  destruct (is_ok_run _ensure_local_ca empty_world) as (ca & E); [vm_compute; reflexivity|].
  exists ca. apply (local_ca_reused empty_world ca (_ensure_local_ca empty_world).2 _ E), day_later_files.
Defined.
