(* ===== verification/KeyPairManager.v ===== *)
(** * keypair_manager_impl.py: the session keys

    The state is [w_sessions], the [active_sessions] dictionary.  Each critical
    section (a [with self._lock] block) is a pure function on that dictionary;
    the methods read the clock and run one section.  Threads interleave whole
    sections, so [kp_step] describes every schedule of the request threads and
    of the cleanup thread. *)
From stdpp Require Import base tactics list gmap strings.
From Stdlib Require Import NArith ZArith Lia.
From S2P Require Import Prelude PyText PyCodec PyJson World Config Crypto Interfaces.

(** ** The critical sections *)

Abbreviation sessions := (gmap str session_data) (only parsing).

(** [_is_session_valid] at time [now]. *)
Definition _is_session_valid (now : Z) (s : session_data) : bool :=
  (now - sd_created_at s <? sd_ttl s * 1000000)%Z.

(** The ids [_purge_expired_sessions] deletes, and the loop that deletes them. *)
Definition expired_ids (now : Z) (m : sessions) : list str :=
  map fst (List.filter (fun kv => (sd_ttl kv.2 * 1000000 <=? now - sd_created_at kv.2)%Z)
             (map_to_list m)).

Definition purge (now : Z) (m : sessions) : sessions :=
  foldl (fun m sid => delete sid m) m (expired_ids now m).

(** The section of [_get_valid_session]. *)
Definition valid_session (now : Z) (sid : str) (m : sessions) : option session_data * sessions :=
  match m !! sid with
  | None => (None, m)
  | Some s => if _is_session_valid now s then (Some s, m) else (None, delete sid m)
  end.

(** The section of [delete_keypair]. *)
Definition delete_session (sid : str) (m : sessions) : bool * sessions :=
  match m !! sid with
  | Some _ => (true, delete sid m)
  | None => (false, m)
  end.

#[global] Arguments purge : simpl never.
#[global] Arguments valid_session : simpl never.
#[global] Arguments delete_session : simpl never.

(** ** The methods *)

Section Methods.
Context `{Env, Settings, RsaKeys}.

Definition _purge_expired_sessions : IO unit :=
  now ← time_time;
  st_modify (set_sessions (purge now)).

(** [time.sleep]. *)
Definition time_sleep (seconds : Z) : IO unit :=
  if (seconds <? 0)%Z then mraise (Exn ValueError "sleep length must be non-negative") else mret tt.

(** The first rounds of the endless loop of the cleanup thread. *)
Fixpoint _cleanup_loop (rounds : nat) : IO unit :=
  match rounds with
  | O => mret tt
  | S rounds =>
      _ ← time_sleep (CLEANUP_INTERVAL settings);
      _ ← _purge_expired_sessions;
      _cleanup_loop rounds
  end.

(** [__init__], with the cleanup thread as far as it gets alone. *)
Definition init_keypair_manager (rounds : nat) : IO unit :=
  _ ← st_modify (set_sessions (fun _ => ∅));
  _cleanup_loop rounds.

(** The session id: the prefix and 8 hexadecimal digits of a UUID. *)
Definition new_session_id (hex : str) : str := "rsa-session-" ++ take 8 hex.

Definition rsa_generate_private_key (key_size : json) : IO private_key :=
  fun w => (rsa_generate (w_draws w) key_size, drawn w).

Definition generate_keypair (job_id key_size : json) : IO (bool * str) :=
  catch
    (if negb (existsb (eq_int key_size) (ALLOWED_KEY_SIZES settings)) then
       mret (false, "Unsupported key size: " ++ fmt key_size ++ ". Supported: "
                    ++ fmt (JArr (map JInt (ALLOWED_KEY_SIZES settings))))
     else
       sk ← rsa_generate_private_key key_size;
       hex ← uuid_hex;
       let session_id := new_session_id hex in
       pub ← st_lift (bytes_decode (public_pem sk));
       created_at ← time_time;
       gmtime ← time_time;
       let session_data := {|
         sd_job_id := job_id;
         sd_private_key := private_pem sk;
         sd_public_key := pub;
         sd_key_size := key_size;
         sd_created_at := created_at;
         sd_ttl := SESSION_TTL settings;
         sd_metadata := {|
           md_algorithm := "RSA";
           md_key_size := key_size;
           md_public_exponent := 65537;
           md_created_at := strftime_utc gmtime;
           md_encryption_method := "rsa_hybrid";
         |};
       |} in
       _ ← st_modify (set_sessions (insert session_id session_data));
       mret (true, session_id))
    (fun e => mret (false, exn_msg e)).

(** [_get_valid_session]: the clock is read only for an existing session. *)
Definition _get_valid_session (session_id : json) : IO (option session_data) :=
  _ ← st_lift (hash_check session_id);
  m ← st_gets w_sessions;
  match session_id with
  | JStr sid =>
      match m !! sid with
      | None => mret None
      | Some _ =>
          now ← time_time;
          let '(r, m') := valid_session now sid m in
          _ ← st_modify (set_sessions (fun _ => m'));
          mret r
      end
  | _ => mret None
  end.

Inductive key_format : Type := PEM | Base64 | DER | OtherFormat.

Definition get_public_key_format (session_id : json) (format : key_format) : IO (option str) :=
  catch
    (session ← _get_valid_session session_id;
     match session with
     | None => mret None
     | Some s =>
         let pem := sd_public_key s in
         match format with
         | PEM => mret (Some pem)
         | Base64 => b ← st_lift (str_encode pem); mret (Some (b64encode b))
         | DER => b ← st_lift (str_encode pem);
                  der ← st_lift (public_der_of_pem b);
                  mret (Some (b64encode der))
         | OtherFormat => mret None
         end
     end)
    (fun _ => mret None).

(** The default format. *)
Definition get_public_key (session_id : json) : IO (option str) :=
  get_public_key_format session_id PEM.

Definition get_private_key (session_id : json) : IO (option bytes) :=
  catch
    (session ← _get_valid_session session_id;
     match session with
     | None => mret None
     | Some s => mret (Some (sd_private_key s))
     end)
    (fun _ => mret None).

Definition delete_keypair (session_id : json) : IO bool :=
  catch
    (_ ← st_lift (hash_check session_id);
     m ← st_gets w_sessions;
     match session_id with
     | JStr sid =>
         let '(r, m') := delete_session sid m in
         _ ← st_modify (set_sessions (fun _ => m'));
         mret r
     | _ => mret false
     end)
    (fun _ => mret false).
End Methods.

(** ** The critical sections, by lookups *)

Lemma foldl_delete_lookup (l : list str) (m : sessions) k :
  foldl (fun m sid => delete sid m) m l !! k = if bool_decide (k ∈ l) then None else m !! k.
Proof.
  revert m. induction l as [|x l IH]; intros m; cbn [foldl]; [done|].
  rewrite IH. destruct (decide (x = k)) as [->|Hne].
  - rewrite lookup_delete_eq, (bool_decide_eq_true_2 (k ∈ k :: l)) by set_solver.
    by destruct (bool_decide _).
  - rewrite lookup_delete_ne by done. do 2 case_bool_decide; set_solver.
Qed.

Lemma elem_of_expired_ids now m sid :
  sid ∈ expired_ids now m <-> exists s, m !! sid = Some s /\ _is_session_valid now s = false.
Proof.
  unfold expired_ids, _is_session_valid. rewrite list_elem_of_In, in_map_iff.
  setoid_rewrite filter_In. setoid_rewrite <-list_elem_of_In. split.
  - intros ([k s] & <- & Hin & Hle). apply elem_of_map_to_list in Hin. exists s. split; [done|].
    cbn in Hle. apply Z.leb_le in Hle. apply Z.ltb_ge. lia.
  - intros (s & Hs & Hv). exists (sid, s). split; [done|]. split; [by apply elem_of_map_to_list|].
    cbn. apply Z.leb_le. apply Z.ltb_ge in Hv. lia.
Qed.

(** A purge keeps exactly the sessions that are still valid. *)
Lemma purge_lookup now m sid :
  purge now m !! sid = s ← m !! sid; if _is_session_valid now s then Some s else None.
Proof.
  unfold purge. rewrite foldl_delete_lookup. case_bool_decide as Hin.
  - apply elem_of_expired_ids in Hin as (s & -> & Hv). cbn. by rewrite Hv.
  - destruct (m !! sid) as [s|] eqn:Hs; cbn; [|done].
    destruct (_is_session_valid now s) eqn:Hv; [done|].
    destruct Hin. apply elem_of_expired_ids. eauto.
Qed.

Lemma valid_session_result now sid m :
  (valid_session now sid m).1 = s ← m !! sid; if _is_session_valid now s then Some s else None.
Proof. unfold valid_session. destruct (m !! sid) as [s|]; cbn; [|done]. by destruct (_is_session_valid now s). Qed.

Lemma valid_session_lookup now sid m k :
  (valid_session now sid m).2 !! k
  = if decide (k = sid) then (valid_session now sid m).1 else m !! k.
Proof.
  unfold valid_session. destruct (m !! sid) as [s|] eqn:Hs;
    [destruct (_is_session_valid now s)|]; cbn; destruct (decide (k = sid)) as [->|Hne];
    rewrite ?lookup_delete_eq, ?lookup_delete_ne by congruence; done.
Qed.

Lemma delete_session_lookup sid m k :
  (delete_session sid m).2 !! k = if decide (k = sid) then None else m !! k.
Proof.
  unfold delete_session. destruct (m !! sid) eqn:Hs; cbn; destruct (decide (k = sid)) as [->|Hne];
    rewrite ?lookup_delete_eq, ?lookup_delete_ne by congruence; done.
Qed.

(** Expiry is final: once invalid, invalid at every later reading. *)
Lemma _is_session_valid_mono now now' s :
  (now <= now')%Z -> _is_session_valid now s = false -> _is_session_valid now' s = false.
Proof. unfold _is_session_valid. rewrite !Z.ltb_ge. lia. Qed.

#[export] Hint Rewrite purge_lookup valid_session_result valid_session_lookup delete_session_lookup
  : enclave.

(** ** Schedules *)

(** One critical section, of any thread, at any time. *)
Inductive kp_op : Type :=
  | OpGenerate (sid : str) (s : session_data)
  | OpGet (now : Z) (sid : str)
  | OpDelete (sid : str)
  | OpPurge (now : Z).

Definition kp_apply (op : kp_op) (m : sessions) : sessions :=
  match op with
  | OpGenerate sid s => <[sid := s]> m
  | OpGet now sid => (valid_session now sid m).2
  | OpDelete sid => (delete_session sid m).2
  | OpPurge now => purge now m
  end.

Definition creates (sid : str) (op : kp_op) : bool :=
  match op with OpGenerate sid' _ => bool_decide (sid = sid') | _ => false end.

(** The sections other than a generation under [sid]. *)
Inductive kp_step (sid : str) : sessions -> sessions -> Prop :=
  | kp_step_op op m : creates sid op = false -> kp_step sid m (kp_apply op m).

(** A section either drops the session or leaves its data unchanged. *)
Lemma kp_step_lookup sid m m' : kp_step sid m m' -> m' !! sid = None \/ m' !! sid = m !! sid.
Proof.
  intros [op m0 Hop]. destruct op as [sid' s|now sid'|sid'|now]; cbn in *.
  - case_bool_decide; [done|]. rewrite lookup_insert_ne by done. auto.
  - autorewrite with enclave. case_decide as Hd; [subst|auto].
    autorewrite with enclave. destruct (m0 !! sid') as [s|]; cbn; [|auto].
    destruct (_is_session_valid now s); auto.
  - autorewrite with enclave. case_decide; auto.
  - autorewrite with enclave. destruct (m0 !! sid) as [s|]; cbn; [|auto].
    destruct (_is_session_valid now s); auto.
Qed.

Lemma kp_steps_lookup sid m m' : rtc (kp_step sid) m m' -> m' !! sid = None \/ m' !! sid = m !! sid.
Proof.
  induction 1 as [|m1 m2 m3 H12 _ IH]; [auto|]. apply kp_step_lookup in H12.
  destruct IH, H12; intuition congruence.
Qed.

(** ** The methods, run *)

Section Runs.
Context `{Env, Settings, RsaKeys}.

(** The world after one look at an existing session. *)
Definition looked_up (sid : str) (w : world) : world :=
  match w_sessions w !! sid with
  | None => w
  | Some _ => set_sessions (fun _ => (valid_session (clock (w_ticks w)) sid (w_sessions w)).2) (tick w)
  end.

Lemma _get_valid_session_run sid w :
  _get_valid_session (JStr sid) w
  = (Ok (valid_session (clock (w_ticks w)) sid (w_sessions w)).1, looked_up sid w).
Proof.
  unfold _get_valid_session, looked_up, hash_check. st_run.
  destruct (w_sessions w !! sid) as [s|] eqn:Hs; st_run.
  - by destruct (valid_session _ _ _) as [r m'].
  - unfold valid_session. by rewrite Hs.
Qed.

Lemma _get_valid_session_non_str v w :
  (forall sid, v <> JStr sid) -> exists r, _get_valid_session v w = (r, w) /\ (r = Ok None \/ is_ok r = false).
Proof.
  intros Hv. destruct v as [| | | |s| |]; [..|by destruct (Hv s)| |];
    eexists; (split; [reflexivity|]); first [by left|by right].
Qed.

Lemma get_private_key_run sid w :
  get_private_key (JStr sid) w
  = (Ok (sd_private_key <$> (valid_session (clock (w_ticks w)) sid (w_sessions w)).1), looked_up sid w).
Proof.
  unfold get_private_key. st_run. rewrite _get_valid_session_run.
  by destruct (valid_session _ _ _) as [[s|] m'].
Qed.

Lemma get_public_key_run sid w :
  get_public_key (JStr sid) w
  = (Ok (sd_public_key <$> (valid_session (clock (w_ticks w)) sid (w_sessions w)).1), looked_up sid w).
Proof.
  unfold get_public_key, get_public_key_format. st_run. rewrite _get_valid_session_run.
  by destruct (valid_session _ _ _) as [[s|] m'].
Qed.

Lemma get_private_key_non_str v w :
  (forall sid, v <> JStr sid) -> get_private_key v w = (Ok None, w).
Proof.
  intros Hv. destruct (_get_valid_session_non_str v w Hv) as (r & E & Hr).
  unfold get_private_key. st_run. rewrite E. destruct Hr as [->|Hr]; [done|by destruct r].
Qed.

Lemma get_public_key_non_str v w :
  (forall sid, v <> JStr sid) -> get_public_key v w = (Ok None, w).
Proof.
  intros Hv. destruct (_get_valid_session_non_str v w Hv) as (r & E & Hr).
  unfold get_public_key, get_public_key_format. st_run. rewrite E.
  destruct Hr as [->|Hr]; [done|by destruct r].
Qed.

Lemma delete_keypair_run sid w :
  delete_keypair (JStr sid) w
  = (Ok (delete_session sid (w_sessions w)).1,
     set_sessions (fun _ => (delete_session sid (w_sessions w)).2) w).
Proof. unfold delete_keypair, hash_check. st_run. by destruct (delete_session _ _). Qed.

Lemma delete_keypair_non_str v w :
  (forall sid, v <> JStr sid) -> delete_keypair v w = (Ok false, w).
Proof. intros Hv. destruct v; try done. by destruct (Hv s). Qed.

Lemma looked_up_lookup sid w k :
  w_sessions (looked_up sid w) !! k
  = if decide (k = sid) then (valid_session (clock (w_ticks w)) sid (w_sessions w)).1
    else w_sessions w !! k.
Proof.
  unfold looked_up. destruct (w_sessions w !! sid) as [s|] eqn:Hs.
  - cbn. apply valid_session_lookup.
  - unfold valid_session. rewrite Hs. cbn. by destruct (decide (k = sid)) as [->|].
Qed.

(** The world after a look-up of any id, whatever is read from the session. *)
Definition looks (v : json) (w : world) : world :=
  match v with JStr sid => looked_up sid w | _ => w end.

Lemma looks_sub v w sid s : w_sessions (looks v w) !! sid = Some s -> w_sessions w !! sid = Some s.
Proof.
  destruct v as [| | | |sid'| |]; cbn [looks]; try done.
  rewrite looked_up_lookup, valid_session_result. case_decide as Hd; [subst|done].
  destruct (w_sessions w !! sid') as [s'|]; cbn; [|done]. by destruct (_is_session_valid _ _).
Qed.

Lemma get_private_key_state v w : (get_private_key v w).2 = looks v w.
Proof. destruct v; try done. by rewrite get_private_key_run. Qed.

Lemma get_public_key_format_state v format w : (get_public_key_format v format w).2 = looks v w.
Proof.
  destruct v as [| | | |sid| |]; try done. unfold get_public_key_format. st_run.
  rewrite _get_valid_session_run. cbn [looks].
  destruct (valid_session _ _ _) as [[s|] m']; [|done]. cbn [fst].
  destruct format; st_run; try done; destruct (str_encode _); st_run; try done.
  by destruct (public_der_of_pem _).
Qed.

(** What a generation stores. *)
Definition generated (job_id key_size : json) (sk : private_key) (pub : str) (w : world) : session_data :=
  {| sd_job_id := job_id;
     sd_private_key := private_pem sk;
     sd_public_key := pub;
     sd_key_size := key_size;
     sd_created_at := clock (w_ticks w);
     sd_ttl := SESSION_TTL settings;
     sd_metadata := {|
       md_algorithm := "RSA"; md_key_size := key_size; md_public_exponent := 65537;
       md_created_at := strftime_utc (clock (S (w_ticks w)));
       md_encryption_method := "rsa_hybrid" |} |}.

(** The id of the next session. *)
Definition next_session_id (w : world) : str := new_session_id (uuid4_hex (S (w_draws w))).

Definition key_size_allowed (key_size : json) : bool :=
  existsb (eq_int key_size) (ALLOWED_KEY_SIZES settings).

Lemma generate_keypair_run job_id key_size sk pub w :
  key_size_allowed key_size = true ->
  rsa_generate (w_draws w) key_size = Ok sk ->
  bytes_decode (public_pem sk) = Ok pub ->
  generate_keypair job_id key_size w
  = (Ok (true, next_session_id w),
     set_sessions (insert (next_session_id w) (generated job_id key_size sk pub w))
       (tick (tick (drawn (drawn w))))).
Proof.
  intros Hsize Hsk Hpub. unfold generate_keypair, rsa_generate_private_key.
  unfold key_size_allowed in Hsize. rewrite Hsize. cbn [negb].
  repeat (st_run; rewrite ?Hsk, ?Hpub). done.
Qed.

(** Every other run of a generation reports failure and stores nothing. *)
Lemma generate_keypair_cases job_id key_size w :
  (exists sk pub, key_size_allowed key_size = true /\ rsa_generate (w_draws w) key_size = Ok sk
     /\ bytes_decode (public_pem sk) = Ok pub) \/
  (exists msg w', generate_keypair job_id key_size w = (Ok (false, msg), w')
     /\ w_sessions w' = w_sessions w).
Proof.
  unfold generate_keypair, rsa_generate_private_key. fold (key_size_allowed key_size).
  destruct (key_size_allowed key_size) eqn:Hsize; cbn [negb]; st_run; [|by eauto 10].
  destruct (rsa_generate (w_draws w) key_size) as [sk|e] eqn:Hsk; st_run; [|by eauto 10].
  destruct (bytes_decode (public_pem sk)) as [pub|e] eqn:Hpub; by eauto 10.
Qed.

(** The well-formedness of a session: its two keys are the halves of one
    generated key, and it lives [SESSION_TTL] seconds. *)
Definition session_wf (s : session_data) : Prop :=
  (exists n sk, rsa_generate n (sd_key_size s) = Ok sk
     /\ sd_private_key s = private_pem sk
     /\ bytes_decode (public_pem sk) = Ok (sd_public_key s))
  /\ key_size_allowed (sd_key_size s) = true
  /\ sd_ttl s = SESSION_TTL settings.

Definition sessions_wf (w : world) : Prop := forall sid s, w_sessions w !! sid = Some s -> session_wf s.
(** A round of the cleanup thread. *)
Lemma cleanup_round n w :
  (0 <= CLEANUP_INTERVAL settings)%Z -> _cleanup_loop (S n) w = _cleanup_loop n (_purge_expired_sessions w).2.
Proof.
  intros Hi. cbn [_cleanup_loop]. unfold time_sleep. rewrite (proj2 (Z.ltb_ge _ _)) by done. st_run. done.
Qed.

(** The cleanup thread goes on for ever, unless its interval is negative: then it
    ends before it has purged anything.  After each round, the sessions left are
    those that were valid at the reading of that round. *)
Theorem cleanup_loop_purges n w :
  ((CLEANUP_INTERVAL settings < 0)%Z -> exists e, _cleanup_loop (S n) w = (Raise e, w))
  /\ ((0 <= CLEANUP_INTERVAL settings)%Z -> exists w', _cleanup_loop (S n) w = (Ok tt, w')
      /\ forall sid s, w_sessions w' !! sid = Some s ->
           w_sessions w !! sid = Some s /\ _is_session_valid (clock (w_ticks w + n)) s = true).
Proof.
  split; intros Hi.
  - cbn [_cleanup_loop]. unfold time_sleep. rewrite (proj2 (Z.ltb_lt _ _)) by done. st_run. by eexists.
  - revert w. induction n as [|n IH]; intros w; rewrite cleanup_round by done.
    + eexists. split; [reflexivity|]. intros sid s Hs. unfold _purge_expired_sessions in Hs. revert Hs. st_run.
      cbn. rewrite purge_lookup, Nat.add_0_r. destruct (w_sessions w !! sid) as [s'|]; cbn; [|done].
      destruct (_is_session_valid _ s') eqn:Hv; [|done]. by intros [= ->].
    + destruct (IH (_purge_expired_sessions w).2) as (w' & E & Hw'). exists w'. split; [done|].
      intros sid s Hs. apply Hw' in Hs as [Hs Hv]. split.
      * revert Hs. unfold _purge_expired_sessions. st_run. cbn. rewrite purge_lookup.
        destruct (w_sessions w !! sid) as [s'|]; cbn; [|done]. by destruct (_is_session_valid _ s').
      * by rewrite Nat.add_succ_r.
Qed.
End Runs.

(** ** The interface *)

Section Implementation.
Context `{Env, Settings, RsaKeys}.

#[export] Instance key_pair_manager : IKeyPairManager := {|
  km_generate_keypair := generate_keypair;
  km_get_public_key := get_public_key;
  km_get_private_key := get_private_key;
  km_delete_keypair := delete_keypair;
|}.

Definition live_session (sid : str) (w : world) : option session_data :=
  (valid_session (clock (w_ticks w)) sid (w_sessions w)).1.

Lemma generate_keypair_total job_id key_size w : exists r w', generate_keypair job_id key_size w = (Ok r, w').
Proof.
  destruct (generate_keypair_cases job_id key_size w) as [(sk & pub & Hs & Hk & Hp)|(msg & w' & E & _)].
  - rewrite (generate_keypair_run _ _ sk pub) by done. eauto.
  - rewrite E. eauto.
Qed.

Lemma get_public_key_total v w : exists r w', get_public_key v w = (Ok r, w').
Proof.
  destruct (json_str_or v) as [(sid & ->)|Hv]; [rewrite get_public_key_run; eauto|].
  rewrite get_public_key_non_str by done. eauto.
Qed.

Lemma get_private_key_total v w : exists r w', get_private_key v w = (Ok r, w').
Proof.
  destruct (json_str_or v) as [(sid & ->)|Hv]; [rewrite get_private_key_run; eauto|].
  rewrite get_private_key_non_str by done. eauto.
Qed.

Lemma delete_keypair_total v w : exists r w', delete_keypair v w = (Ok r, w').
Proof.
  destruct (json_str_or v) as [(sid & ->)|Hv]; [rewrite delete_keypair_run; eauto|].
  rewrite delete_keypair_non_str by done. eauto.
Qed.

#[export] Instance key_pair_manager_laws : KeyPairManagerLaws.
Proof.
  refine {| km_live sid w := (fun s => (sd_public_key s, sd_private_key s)) <$> live_session sid w |}.
  - intros sid w. cbn. rewrite get_public_key_run.
    by destruct (live_session sid w) eqn:E; unfold live_session in E; rewrite E.
  - intros sid w. cbn. rewrite get_private_key_run.
    by destruct (live_session sid w) eqn:E; unfold live_session in E; rewrite E.
  - exact generate_keypair_total.
  - exact get_public_key_total.
  - exact get_private_key_total.
  - exact delete_keypair_total.
  - intros v k w w' E. destruct (json_str_or v) as [?|Hv]; [done|]. cbn in E.
    by rewrite get_private_key_non_str in E.
  - intros v k w w' E. destruct (json_str_or v) as [?|Hv]; [done|]. cbn in E.
    by rewrite get_public_key_non_str in E.
  - intros sid w w'. cbn. rewrite delete_keypair_run. cbn. intros E. unfold live_session.
    rewrite valid_session_result, E, delete_session_lookup. by rewrite decide_True.
  - intros job_id key_size. cbn. unfold generate_keypair, rsa_generate_private_key.
    apply keeps_try; [|apply _]. destruct (negb _); [apply _|].
    apply keeps_mbind; [by intros w|]. apply _.
Defined.
End Implementation.

(** ** A concrete key generator, for the witnesses *)

Module ToyKeys.
#[local] Existing Instances Toy.env default_settings ToyCrypto.keys.

Definition key : private_key := [Byte.x08; Byte.x00].

(** The world after one generation for job [j]. *)
Definition generate : world :=
  (generate_keypair (JStr "j") (JInt 2048) empty_world).2.
Definition sid : str := "rsa-session-01010101".
Definition session : session_data :=
  generated (JStr "j") (JInt 2048) key "public 0800" empty_world.
End ToyKeys.

(** ** Properties *)

Section Properties.
Context `{Env, Settings, RsaKeys}.

(** A generation with a supported size stores the generated key under the
    returned session id, stamps it with the clock and the configured TTL,
    leaves every other session alone, and both halves of that key are what
    [get_public_key] and [get_private_key] then return while the TTL runs. *)
Theorem generate_keypair_ok job_id key_size sk pub w :
  key_size_allowed key_size = true ->
  rsa_generate (w_draws w) key_size = Ok sk ->
  bytes_decode (public_pem sk) = Ok pub ->
  exists s w',
    let sid := next_session_id w in
    generate_keypair job_id key_size w = (Ok (true, sid), w')
    /\ w_sessions w' = <[sid := s]> (w_sessions w)
    /\ sd_job_id s = job_id /\ sd_key_size s = key_size
    /\ sd_created_at s = clock (w_ticks w) /\ sd_ttl s = SESSION_TTL settings
    /\ (_is_session_valid (clock (w_ticks w')) s = true ->
        (get_public_key (JStr sid) w').1 = Ok (Some pub)
        /\ (get_private_key (JStr sid) w').1 = Ok (Some (private_pem sk))).
Proof.
  intros Hsize Hsk Hpub. eexists (generated job_id key_size sk pub w), _. cbn zeta.
  split; [by apply generate_keypair_run|]. do 5 (split; [done|]). intros Hv.
  rewrite get_public_key_run, get_private_key_run. cbn [fst].
  rewrite valid_session_result. cbn [w_sessions set_sessions tick drawn].
  rewrite lookup_insert_eq. cbn [mbind option_bind]. by rewrite Hv.
Qed.

(** A generation never raises; when it reports failure (an unsupported
    size, an error of the generator, a key that is not UTF-8) the sessions are
    those before the call, and for an unsupported size the message names the
    size and the supported ones. *)
Theorem generate_keypair_failure job_id key_size w :
  exists ok msg w',
    generate_keypair job_id key_size w = (Ok (ok, msg), w')
    /\ (ok = false -> w_sessions w' = w_sessions w)
    /\ (key_size_allowed key_size = false ->
        ok = false /\ w' = w
        /\ msg = "Unsupported key size: " ++ fmt key_size ++ ". Supported: "
                 ++ fmt (JArr (map JInt (ALLOWED_KEY_SIZES settings)))).
Proof.
  destruct (key_size_allowed key_size) eqn:Hsize.
  - destruct (generate_keypair_cases job_id key_size w)
      as [(sk & pub & Hs & Hsk & Hpub)|(msg & w' & Hg & Hw)].
    + rewrite (generate_keypair_run _ _ sk pub) by done. by eexists _, _, _.
    + rewrite Hg. by eexists _, _, _.
  - unfold generate_keypair. fold (key_size_allowed key_size). rewrite Hsize. st_run. by eexists _, _, _.
Qed.

(** [get_private_key] returns the key of a session exactly when the
    session exists and its age is below its TTL at the clock reading of the
    call; an expired session is removed by the look-up, no other session
    changes, and an id that is not a string is an unknown session. *)
Theorem get_private_key_spec v w :
  exists r w',
    get_private_key v w = (Ok r, w') /\
    (forall k, r = Some k <-> exists sid s, v = JStr sid /\ w_sessions w !! sid = Some s
       /\ (clock (w_ticks w) - sd_created_at s < sd_ttl s * 1000000)%Z /\ k = sd_private_key s) /\
    (forall sid, w_sessions w' !! sid
       = if eq_str v sid
         then s ← w_sessions w !! sid; if _is_session_valid (clock (w_ticks w)) s then Some s else None
         else w_sessions w !! sid).
Proof.
  destruct (json_str_or v) as [(sid & ->)|Hv].
  - rewrite get_private_key_run. eexists _, _. split; [done|]. split.
    + intros k. rewrite valid_session_result. unfold _is_session_valid. split.
      * destruct (w_sessions w !! sid) as [s|] eqn:Hs; cbn; [|done].
        destruct (Z.ltb_spec (clock (w_ticks w) - sd_created_at s) (sd_ttl s * 1000000)); [|done].
        intros [= <-]. eauto 10.
      * intros (sid' & s & Heq & Hs & Hlt & ->). injection Heq as ->. rewrite Hs. cbn.
        by rewrite (proj2 (Z.ltb_lt _ _)).
    + intros k. rewrite looked_up_lookup, valid_session_result. cbn [eq_str].
      unfold str_eqb. by destruct (decide (k = sid)) as [->|Hne]; case_bool_decide.
  - rewrite get_private_key_non_str by naive_solver. eexists _, _. split; [done|]. split.
    + intros k. split; [done|]. naive_solver.
    + intros k. destruct (eq_str v k) eqn:He; [|done]. apply eq_str_true in He. naive_solver.
Qed.

(** C16: deleting a session removes it and nothing else, reports whether it
    was there, and its private key is never returned again: no schedule of
    look-ups, deletions, purges and generations under other ids brings it
    back, at any later time. *)
Theorem delete_keypair_final sid w w' m now :
  delete_keypair (JStr sid) w = (Ok true, w') ->
  rtc (kp_step sid) (w_sessions w') m ->
  is_Some (w_sessions w !! sid)
  /\ w_sessions w' = delete sid (w_sessions w)
  /\ (valid_session now sid m).1 = None.
Proof.
  rewrite delete_keypair_run. unfold delete_session. intros E Hsteps.
  destruct (w_sessions w !! sid) as [s|] eqn:Hs; [|done]. injection E as <-.
  cbn [w_sessions set_sessions snd] in *. split; [by eexists|]. split; [done|].
  rewrite valid_session_result.
  destruct (kp_steps_lookup _ _ _ Hsteps) as [->| ->]; [done|]. by rewrite lookup_delete_eq.
Qed.

(** C17: an expired session is dead whatever happens to it: once its age has
    reached its TTL, every later look-up fails in every schedule of the
    request threads and the cleanup thread, whether or not the cleanup has
    run in between. *)
Theorem expired_session_unreachable sid s m m' t now :
  m !! sid = Some s ->
  (sd_ttl s * 1000000 <= t - sd_created_at s)%Z -> (t <= now)%Z ->
  rtc (kp_step sid) m m' ->
  (valid_session now sid m').1 = None.
Proof.
  intros Hs Hexp Hle Hsteps. rewrite valid_session_result.
  destruct (kp_steps_lookup _ _ _ Hsteps) as [->| ->]; [done|]. rewrite Hs. cbn.
  unfold _is_session_valid. by rewrite (proj2 (Z.ltb_ge _ _)) by lia.
Qed.

(** The cleanup thread removes exactly the sessions whose age has reached
    their TTL, and is invisible to the request threads: any look-up at the
    time of the purge or later gives the same answer with and without it. *)
Theorem purge_expired_sessions_exact w now' sid :
  (clock (w_ticks w) <= now')%Z ->
  let m := w_sessions w in
  let m' := w_sessions (_purge_expired_sessions w).2 in
  (forall k s, m' !! k = Some s
     <-> m !! k = Some s /\ (clock (w_ticks w) - sd_created_at s < sd_ttl s * 1000000)%Z)
  /\ (valid_session now' sid m').1 = (valid_session now' sid m).1.
Proof.
  intros Hle. unfold _purge_expired_sessions. st_run. cbn [snd w_sessions set_sessions tick].
  cbn zeta. split.
  - intros k s. rewrite purge_lookup. destruct (w_sessions w !! k) as [s'|]; cbn; [|naive_solver].
    unfold _is_session_valid.
    destruct (Z.ltb_spec (clock (w_ticks w) - sd_created_at s') (sd_ttl s' * 1000000)).
    + split; [|by intros [? _]]. intros [= ->]. auto.
    + split; [done|]. intros [[= ->] ?]. lia.
  - rewrite !valid_session_result, purge_lookup.
    destruct (w_sessions w !! sid) as [s|]; cbn; [|done].
    destruct (_is_session_valid (clock (w_ticks w)) s) eqn:Hv; cbn; [done|].
    by rewrite (_is_session_valid_mono _ _ _ Hle Hv).
Qed.

(** C18: the methods keep every stored session well formed: the public key a
    client encrypts to and the private key used to decrypt are the halves of
    one key generated with a supported size, and the TTL is the configured
    one. *)
Theorem sessions_wf_preserved v job_id key_size format w :
  sessions_wf w ->
  sessions_wf (generate_keypair job_id key_size w).2
  /\ sessions_wf (get_public_key_format v format w).2
  /\ sessions_wf (get_private_key v w).2
  /\ sessions_wf (delete_keypair v w).2
  /\ sessions_wf (_purge_expired_sessions w).2.
Proof.
  intros Hwf. split_and!; intros sid s Hs.
  - destruct (generate_keypair_cases job_id key_size w)
      as [(sk & pub & Hsize & Hsk & Hpub)|(msg & w' & Hg & Hw)].
    + rewrite (generate_keypair_run _ _ sk pub) in Hs by done.
      cbn [w_sessions set_sessions tick drawn snd] in Hs.
      apply lookup_insert_Some in Hs as [[_ <-]|[_ Hs]]; [|by eapply Hwf].
      split; [|done]. by eauto 10.
    + rewrite Hg in Hs. cbn in Hs. rewrite Hw in Hs. by eapply Hwf.
  - rewrite get_public_key_format_state in Hs. by eapply Hwf, looks_sub.
  - rewrite get_private_key_state in Hs. by eapply Hwf, looks_sub.
  - destruct v as [| | | |sid'| |]; try by eapply Hwf.
    rewrite delete_keypair_run in Hs. cbn [w_sessions set_sessions snd] in Hs.
    rewrite delete_session_lookup in Hs. case_decide; [done|]. by eapply Hwf.
  - unfold _purge_expired_sessions in Hs. revert Hs. st_run. cbn [snd w_sessions set_sessions tick].
    rewrite purge_lookup. destruct (w_sessions w !! sid) as [s'|] eqn:Hs; cbn; [|done].
    case_match; [|done]. intros [= <-]. by eapply Hwf.
Qed.
End Properties.

(** ** Witnesses *)

#[local] Existing Instances Toy.env default_settings ToyCrypto.keys.

Example generate_keypair_ok_witness :
  exists s w',
    generate_keypair (JStr "j") (JInt 2048) empty_world = (Ok (true, ToyKeys.sid), w')
    /\ w_sessions w' = <[ToyKeys.sid := s]> (w_sessions empty_world).
Proof.
  destruct (generate_keypair_ok (JStr "j") (JInt 2048) ToyKeys.key "public 0800" empty_world)
    as (s & w' & Hg & Hs & _); [vm_compute; reflexivity..|].
  exists s, w'. split; [exact Hg|exact Hs].
Defined.

Example delete_keypair_final_witness :
  (valid_session (clock 9) ToyKeys.sid
     (w_sessions (delete_keypair (JStr ToyKeys.sid) ToyKeys.generate).2)).1 = None.
Proof.
  apply (delete_keypair_final ToyKeys.sid ToyKeys.generate (delete_keypair (JStr ToyKeys.sid) ToyKeys.generate).2);
    [|apply rtc_refl].
  vm_compute. reflexivity.
Defined.

Example expired_session_unreachable_witness :
  (valid_session 1700003700000000 ToyKeys.sid
     (purge 1700000000000000 (w_sessions ToyKeys.generate))).1 = None.
Proof.
  apply (expired_session_unreachable ToyKeys.sid ToyKeys.session (w_sessions ToyKeys.generate) _
    1700003600000000).
  - vm_compute. reflexivity.
  - vm_compute. discriminate.
  - lia.
  - apply rtc_once. by apply (kp_step_op _ (OpPurge 1700000000000000)).
Defined.

(** The session made at the first clock reading is purged once an hour has
    passed; [later] is the world whose next reading is an hour on. *)
Definition later : world := Nat.iter 3600 tick ToyKeys.generate.

Example purge_expired_sessions_exact_witness :
  (valid_session 1700009000000000 ToyKeys.sid (w_sessions (_purge_expired_sessions later).2)).1
  = (valid_session 1700009000000000 ToyKeys.sid (w_sessions later)).1.
Proof.
  apply purge_expired_sessions_exact. vm_compute. discriminate.
Defined.

Example sessions_wf_preserved_witness : sessions_wf ToyKeys.generate.
Proof.
  apply (sessions_wf_preserved JNull (JStr "j") (JInt 2048) PEM empty_world).
  intros sid s Hs. unfold empty_world in Hs. cbn [w_sessions] in Hs. by rewrite lookup_empty in Hs.
Defined.
