(* ===== verification/DecryptService.v ===== *)
(** * decrypt_service_impl.py: hybrid decryption with the session key

    The key comes from the key manager through its interface.  Each method
    catches every exception and returns its message as bytes. *)
From stdpp Require Import base tactics list gmap strings.
From Stdlib Require Import NArith ZArith Lia.
From S2P Require Import Prelude PyText PyCodec Sha2 PyJson PyJsonParse World Config Crypto Interfaces KeyPairManager.

Definition AES_KEY_SIZE : nat := 32.
Definition IV_SIZE : nat := 16.
Definition AES_BLOCK_SIZE : nat := 128.
Definition GCM_NONCE_SIZE : nat := 12.

(** [base64.b64decode(v)] for a value of any type. *)
Definition b64decode_arg (v : json) : res bytes :=
  match v with
  | JStr s => b64decode s
  | _ => raise (Exn TypeError ("argument should be a bytes-like object or ASCII string, not '"
                               ++ type_name v ++ "'"))
  end.

(** [base64.urlsafe_b64encode(b)], as bytes. *)
Definition urlsafe_b64encode (b : bytes) : bytes :=
  ascii_bytes (map (fun c => if (c =? 43)%N then 45%N else if (c =? 47)%N then 95%N else c) (b64encode b)).

Definition hybrid_key_sizes : list Z := [2048; 3072; 4096]%Z.

Definition _supported_algorithms : list (str * json) :=
  [("rsa_hybrid", JObj [("description", JStr "RSA + AES hybrid encryption");
                        ("rsa_key_sizes", JArr (map JInt hybrid_key_sizes));
                        ("aes_key_size", JInt 256); ("padding", JStr "OAEP")]);
   ("pure_rsa", JObj [("description", JStr "Pure RSA encryption");
                      ("key_sizes", JArr (map JInt hybrid_key_sizes));
                      ("padding", JStr "OAEP")])].

Section Methods.
Context `{Env, Ciphers, IKeyPairManager}.

Definition failed (msg : str) : IO (bool * bytes) :=
  b ← st_lift (str_encode msg);
  mret (false, b).

(** [except Exception as e: return False, str(e).encode()]. *)
Definition caught (e : exn) : IO (bool * bytes) := failed (exn_msg e).

(** The key of a session, or the error of a session without one. *)
Definition with_session_key (session_id : json) (k : private_key -> IO (bool * bytes)) : IO (bool * bytes) :=
  private_key_bytes ← km_get_private_key session_id;
  match private_key_bytes with
  | None | Some [] => failed ("Private key not found for session " ++ fmt session_id)
  | Some pem => sk ← st_lift (load_private_pem pem); k sk
  end.

Definition tampered_msg : str := "AES-GCM authentication failed: payload tampered or corrupt".

Definition decrypt_combined_hybrid_data (combined_encrypted_data session_id : json) : IO (bool * bytes) :=
  catch
    (with_session_key session_id (fun sk =>
       combined ← st_lift (b64decode_arg combined_encrypted_data);
       let rsa_key_bytes := Z.to_nat (key_bits sk / 8) in
       let encrypted_key := take rsa_key_bytes combined in
       let nonce := take GCM_NONCE_SIZE (drop rsa_key_bytes combined) in
       let ciphertext := drop (rsa_key_bytes + GCM_NONCE_SIZE) combined in
       t0 ← time_time;
       aes_key ← st_lift (oaep_decrypt sk encrypted_key);
       t1 ← time_time;
       t2 ← time_time;
       decrypted_data ← st_lift (aesgcm_decrypt aes_key nonce ciphertext);
       t3 ← time_time;
       mret (true, decrypted_data)))
    (fun e => match exn_cls e with InvalidTag => failed tampered_msg | _ => caught e end).

Definition decrypt_hybrid_data (encrypted_data encrypted_key session_id : json) : IO (bool * bytes) :=
  catch
    (with_session_key session_id (fun sk =>
       encrypted_aes_key ← st_lift (b64decode_arg encrypted_key);
       aes_key ← st_lift (oaep_decrypt sk encrypted_aes_key);
       encrypted_data_bytes ← st_lift (b64decode_arg encrypted_data);
       let iv := take IV_SIZE encrypted_data_bytes in
       let ciphertext := drop IV_SIZE encrypted_data_bytes in
       padded_data ← st_lift (aes_cbc_decrypt aes_key iv ciphertext);
       decrypted_data ← st_lift (pkcs7_unpad AES_BLOCK_SIZE padded_data);
       mret (true, decrypted_data)))
    caught.

Definition decrypt_rsa_data (encrypted_data session_id : json) : IO (bool * bytes) :=
  catch
    (with_session_key session_id (fun sk =>
       encrypted_data_bytes ← st_lift (b64decode_arg encrypted_data);
       decrypted_data ← st_lift (oaep_decrypt sk encrypted_data_bytes);
       mret (true, decrypted_data)))
    caught.

Definition decrypt_csv_data (encrypted_aes_key encrypted_content : bytes) (session_id : json) : IO (bool * bytes) :=
  catch
    (with_session_key session_id (fun sk =>
       aes_key ← st_lift (oaep_decrypt sk encrypted_aes_key);
       decrypted_content ← st_lift (fernet_decrypt (urlsafe_b64encode (take 32 aes_key)) encrypted_content);
       mret (true, decrypted_content)))
    caught.

Definition decrypt_csv_file (file_path : str) (session_id : json) : IO (bool * str) :=
  catch
    (file_content ← read_bytes file_path;
     let key_length := N.to_nat (int_from_bytes (take 4 file_content)) in
     let encrypted_aes_key := take key_length (drop 4 file_content) in
     let encrypted_content := drop (4 + key_length) file_content in
     '(success, decrypted_content) ← decrypt_csv_data encrypted_aes_key encrypted_content session_id;
     if negb success then
       msg ← st_lift (bytes_decode decrypted_content); mret (false, msg)
     else
       let output_file := path_join (path_dirname file_path) ("decrypted_" ++ path_basename file_path) in
       _ ← write_bytes output_file decrypted_content;
       mret (true, output_file))
    (fun e => mret (false, exn_msg e)).

Definition decrypt_bundle (bundle_data : bytes) (session_id : json) : IO (bool * bytes) :=
  mret (true, bundle_data).

Definition validate_encryption_metadata (metadata : dict) : bool * str :=
  let required field k :=
    if dict_has field metadata then k else (false, "Missing required field: " ++ field) in
  required "algorithm" (required "key_size" (
    let algorithm := default JNull (dict_get "algorithm" metadata) in
    match hash_check algorithm with
    | Raise e => (false, "Metadata validation error: " ++ exn_msg e)
    | Ok _ =>
        let supported := match algorithm with JStr a => dict_has a _supported_algorithms | _ => false end in
        if negb supported then (false, "Unsupported algorithm: " ++ fmt algorithm)
        else
          let key_size := default JNull (dict_get "key_size" metadata) in
          if existsb (eq_int key_size) hybrid_key_sizes then (true, "Metadata validation successful")
          else (false, "Unsupported key size for " ++ fmt algorithm ++ ": " ++ fmt key_size)
    end)).

Definition get_supported_algorithms : dict := _supported_algorithms.

Definition verify_data_integrity (data : bytes) (expected_hash : option str) : bool :=
  match expected_hash with
  | None => (0 <? length data)%nat
  | Some h => str_eqb (sha256_hex data) h
  end.

Definition get_decryption_stats : IO dict :=
  now ← time_time;
  mret [("supported_algorithms", JArr (map (fun kv => JStr kv.1) _supported_algorithms));
        ("total_algorithms", JInt (Z.of_nat (length _supported_algorithms)));
        ("default_algorithm", JStr "rsa_hybrid");
        ("service_status", JStr "active");
        ("timestamp", JStr (strftime_utc now))].

#[export] Instance decrypt_service : IDecryptService := {|
  ds_decrypt_combined_hybrid_data := decrypt_combined_hybrid_data;
  ds_decrypt_hybrid_data := decrypt_hybrid_data;
  ds_decrypt_rsa_data := decrypt_rsa_data;
  ds_decrypt_csv_file := decrypt_csv_file;
  ds_decrypt_bundle := decrypt_bundle;
  ds_validate_encryption_metadata := validate_encryption_metadata;
  ds_get_supported_algorithms := get_supported_algorithms;
  ds_verify_data_integrity := verify_data_integrity;
  ds_get_decryption_stats := get_decryption_stats;
|}.
End Methods.

(** ** Runs *)

Section Runs.
Context `{Env, CryptoLaws, KeyPairManagerLaws}.

(** The world after a look-up of the key. *)
Definition key_looked_up (v : json) (w : world) : world := (km_get_private_key v w).2.

(** [session_id] is a live session with the key [sk]. *)
Definition session_key (session_id : json) (w : world) (sk : private_key) : Prop :=
  exists sid pub pem, session_id = JStr sid /\ km_live sid w = Some (pub, pem)
    /\ pem <> [] /\ load_private_pem pem = Ok sk.

Lemma live_session_key sid pub sk w :
  km_live sid w = Some (pub, private_pem sk) -> session_key (JStr sid) w sk.
Proof.
  intros Hl. exists sid, pub, (private_pem sk).
  split_and!; [done|done|apply private_pem_nonempty|apply load_private_pem_private_pem].
Qed.

Lemma with_session_key_run v sk w k :
  session_key v w sk -> with_session_key v k w = k sk (key_looked_up v w).
Proof.
  intros (sid & pub & pem & -> & Hl & Hne & Hload). unfold with_session_key, key_looked_up. st_run.
  pose proof (km_get_private_key_live sid w) as Hk. rewrite Hl in Hk.
  destruct (km_get_private_key (JStr sid) w) as [r w']. cbn in *. subst r. cbn.
  destruct pem as [|b l]; [done|]. st_run. by rewrite Hload.
Qed.

(** Without such a key the body does not run. *)
Lemma with_session_key_cases v k w :
  (exists sk, session_key v w sk)
  \/ (exists e, with_session_key v k w = (Raise e, key_looked_up v w))
  \/ (exists msg, with_session_key v k w = failed msg (key_looked_up v w)).
Proof.
  destruct (km_get_private_total v w) as (r & w' & E).
  destruct r as [[|b pem]|].
  - right; right. unfold with_session_key, key_looked_up. st_run. rewrite E. by eexists.
  - destruct (load_private_pem (b :: pem)) as [sk|e] eqn:Hl.
    + left. exists sk. destruct (km_get_private_key_str _ _ _ _ E) as (sid & ->).
      pose proof (km_get_private_key_live sid w) as Hk. rewrite E in Hk. cbn in Hk. apply (inj Ok) in Hk.
      destruct (km_live sid w) as [[pub pem']|] eqn:Hlive; [|done]. cbn in Hk. injection Hk as Hk. subst pem'.
      by exists sid, pub, (b :: pem).
    + right; left. unfold with_session_key, key_looked_up. st_run. rewrite E. cbn. st_run. rewrite Hl. by eexists.
  - right; right. unfold with_session_key, key_looked_up. st_run. rewrite E. by eexists.
Qed.

Lemma with_session_key_none v w k :
  (km_get_private_key v w).1 = Ok None ->
  with_session_key v k w = failed ("Private key not found for session " ++ fmt v) (key_looked_up v w).
Proof.
  intros Hl. unfold with_session_key, key_looked_up. st_run.
  destruct (km_get_private_key v w) as [r w']. cbn in *. by subst r.
Qed.

Lemma failed_ascii msg w : is_ascii msg = true -> failed msg w = (Ok (false, ascii_bytes msg), w).
Proof. intros Ha. unfold failed. st_run. by rewrite str_encode_ascii. Qed.

(** The combined format, as the other side writes it. *)
Definition combined_payload (sk : private_key) (aes_key nonce m : bytes) : str :=
  b64encode (oaep_encrypt sk aes_key ++ nonce ++ aesgcm_encrypt aes_key nonce m).

(** The fields the decryption reads. *)
Definition payload_key (sk : private_key) (raw : bytes) : bytes := take (modulus_bytes sk) raw.
Definition payload_nonce (sk : private_key) (raw : bytes) : bytes :=
  take GCM_NONCE_SIZE (drop (modulus_bytes sk) raw).
Definition payload_ciphertext (sk : private_key) (raw : bytes) : bytes :=
  drop (modulus_bytes sk + GCM_NONCE_SIZE) raw.

Lemma payload_fields sk ek nonce ct :
  length ek = modulus_bytes sk -> length nonce = GCM_NONCE_SIZE ->
  let raw := ek ++ nonce ++ ct in
  payload_key sk raw = ek /\ payload_nonce sk raw = nonce /\ payload_ciphertext sk raw = ct.
Proof.
  intros Hk Hn. cbn zeta. unfold payload_key, payload_nonce, payload_ciphertext. split_and!.
  - by apply take_app_length'.
  - rewrite drop_app_length' by done. by apply take_app_length'.
  - rewrite <-drop_drop, drop_app_length' by done. by apply drop_app_length'.
Qed.

(** What the handler of [decrypt_combined_hybrid_data] makes of an exception. *)
Definition combined_error (e : exn) : IO (bool * bytes) :=
  match exn_cls e with InvalidTag => failed tampered_msg | _ => caught e end.

(** The decryption proper, between the look-up and the handler. *)
Definition open_combined (sk : private_key) (v : json) : res bytes :=
  raw ← b64decode_arg v;
  aes_key ← oaep_decrypt sk (payload_key sk raw);
  aesgcm_decrypt aes_key (payload_nonce sk raw) (payload_ciphertext sk raw).

Lemma decrypt_combined_run v session_id sk w :
  session_key session_id w sk ->
  exists w', w_rest w' = w_rest w /\
    decrypt_combined_hybrid_data v session_id w
    = match open_combined sk v with
      | Ok m => (Ok (true, m), w')
      | Raise e => combined_error e w'
      end.
Proof.
  intros Hl. unfold decrypt_combined_hybrid_data, open_combined. st_run.
  rewrite (with_session_key_run _ sk) by done. st_run.
  assert (w_rest (key_looked_up session_id w) = w_rest w) as Hrest by apply km_get_private_rest.
  destruct (b64decode_arg v) as [raw|e]; [|by exists (key_looked_up session_id w)]. st_run.
  cbn [mbind result_mbind result_bind]. unfold payload_key, payload_nonce, payload_ciphertext, modulus_bytes.
  destruct (oaep_decrypt sk _) as [aes_key|e];
    cbn [mbind result_mbind result_bind]; st_run; [|by exists (tick (key_looked_up session_id w))].
  destruct (aesgcm_decrypt _ _ _) as [m|e]; st_run; (eexists; split; [|reflexivity]; exact Hrest).
Qed.

#[export] Instance with_session_key_rest v (k : private_key -> IO (bool * bytes)) :
  (forall sk, Keeps w_rest (k sk)) -> Keeps w_rest (with_session_key v k).
Proof. intros. unfold with_session_key. apply _. Qed.

#[export] Instance failed_rest msg : Keeps w_rest (failed msg).
Proof. unfold failed. apply _. Qed.

#[export] Instance decrypt_combined_rest v session_id :
  Keeps w_rest (decrypt_combined_hybrid_data v session_id).
Proof. unfold decrypt_combined_hybrid_data, caught. apply _. Qed.
End Runs.

(** ** Properties *)

Section Properties.
Context `{Env, CryptoLaws, KeyPairManagerLaws}.

Lemma open_combined_ok sk v m :
  open_combined sk v = Ok m ->
  exists s raw aes_key, v = JStr s /\ b64decode s = Ok raw
    /\ oaep_decrypt sk (payload_key sk raw) = Ok aes_key
    /\ payload_ciphertext sk raw = aesgcm_encrypt aes_key (payload_nonce sk raw) m.
Proof.
  intros E. apply result_bind_ok in E as (raw & Hraw & E). apply result_bind_ok in E as (aes_key & Hk & E).
  destruct (json_str_or v) as [(s & ->)|Hv]; [|destruct v; try done; by destruct (Hv s)].
  exists s, raw, aes_key. split_and!; [done..|]. by apply aesgcm_authentic.
Qed.

Lemma open_combined_encrypted sk s raw aes_key m :
  b64decode s = Ok raw -> oaep_decrypt sk (payload_key sk raw) = Ok aes_key ->
  gcm_sizes aes_key (payload_nonce sk raw) ->
  payload_ciphertext sk raw = aesgcm_encrypt aes_key (payload_nonce sk raw) m ->
  open_combined sk (JStr s) = Ok m.
Proof.
  intros Hraw Hk Hsizes Hct. unfold open_combined. cbn [b64decode_arg]. rewrite Hraw.
  cbn [mbind result_mbind result_bind]. rewrite Hk. cbn [mbind result_mbind result_bind].
  rewrite Hct. by apply aesgcm_decrypt_encrypt.
Qed.

(** C10: what the other side encrypts for a live session in the combined format
    (an AES-256 key under RSA-OAEP, a 12-byte nonce, the AES-GCM ciphertext with
    its tag, in Base64) is what the decryption returns. *)
Theorem decrypt_combined_round_trip sid pub sk aes_key nonce m w :
  km_live sid w = Some (pub, private_pem sk) ->
  length aes_key = AES_KEY_SIZE -> 98 <= modulus_bytes sk -> length nonce = GCM_NONCE_SIZE ->
  (decrypt_combined_hybrid_data (JStr (combined_payload sk aes_key nonce m)) (JStr sid) w).1
  = Ok (true, m).
Proof.
  intros Hl Hk Hmod Hn. unfold AES_KEY_SIZE in Hk. apply live_session_key in Hl.
  destruct (decrypt_combined_run (JStr (combined_payload sk aes_key nonce m)) _ sk w Hl) as (w' & _ & ->).
  set (ek := oaep_encrypt sk aes_key). set (ct := aesgcm_encrypt aes_key nonce m).
  assert (length ek = modulus_bytes sk) as Hek by (apply length_oaep_encrypt; lia).
  destruct (payload_fields sk ek nonce ct Hek Hn) as (E1 & E2 & E3).
  rewrite (open_combined_encrypted sk (combined_payload sk aes_key nonce m) (ek ++ nonce ++ ct) aes_key m);
    rewrite ?E1, ?E2, ?E3; [done|apply b64decode_encode|apply oaep_decrypt_encrypt; lia| |done].
  split; [auto|]. rewrite Hn. unfold GCM_NONCE_SIZE. lia.
Qed.

(** C9: nothing else is accepted.  Plaintext is returned only under the key of a
    live session, and only from a string whose Base64 payload holds a wrapped key
    and the exact AES-GCM encryption of that plaintext under this key and nonce;
    the sessions and the readings apart, the world is unchanged. *)
Theorem decrypt_combined_authentic v session_id w m w' :
  decrypt_combined_hybrid_data v session_id w = (Ok (true, m), w') ->
  w_rest w' = w_rest w /\
  exists sk s raw aes_key, session_key session_id w sk /\ v = JStr s /\ b64decode s = Ok raw
    /\ oaep_decrypt sk (payload_key sk raw) = Ok aes_key
    /\ payload_ciphertext sk raw = aesgcm_encrypt aes_key (payload_nonce sk raw) m.
Proof.
  intros E. assert (forall msg w1, failed msg w1 <> (Ok (true, m), w')) as Hfailed.
  { intros msg w1. unfold failed. st_run. by destruct (str_encode _). }
  assert (forall e w1, combined_error e w1 <> (Ok (true, m), w')) as Herror.
  { intros e w1. unfold combined_error, caught. destruct (exn_cls e); apply Hfailed. }
  destruct (with_session_key_cases session_id (fun sk => mret (true, [])) w) as [(sk & Hsk)|Hno].
  - destruct (decrypt_combined_run v session_id sk w Hsk) as (w1 & Hrest & E1).
    rewrite E1 in E. destruct (open_combined sk v) as [m'|e] eqn:Ho; [|by apply Herror in E].
    injection E as <- <-. split; [done|]. apply open_combined_ok in Ho as (s & raw & aes_key & ?).
    by exists sk, s, raw, aes_key.
  - exfalso. revert E. unfold decrypt_combined_hybrid_data. st_run.
    match goal with |- context [with_session_key session_id ?k w] =>
      destruct (with_session_key_cases session_id k w) as [(sk & Hsk)|[(e & E)|(msg & E)]] end.
    + exfalso. rewrite !(with_session_key_run _ sk) in Hno by done. revert Hno. st_run.
      intros [(e & E)|(msg & E)]; [done|]. revert E. unfold failed. st_run. by destruct (str_encode _).
    + rewrite E. exact (Herror e _).
    + rewrite E. unfold failed. st_run. by destruct (str_encode msg); [|st_run; apply Herror].
Qed.

(** Without a live session nothing is decrypted and the answer names the
    session; a payload whose tag does not verify gets the fixed answer, and the
    message of any other exception is passed on. *)
Theorem decrypt_combined_failures v sid w :
  (km_live sid w = None -> is_ascii sid = true ->
   (decrypt_combined_hybrid_data v (JStr sid) w).1
   = Ok (false, ascii_bytes ("Private key not found for session " ++ sid)))
  /\ (forall sk pub e, km_live sid w = Some (pub, private_pem sk) -> open_combined sk v = Raise e ->
      (exn_cls e = InvalidTag ->
       (decrypt_combined_hybrid_data v (JStr sid) w).1 = Ok (false, ascii_bytes tampered_msg))
      /\ (exn_cls e <> InvalidTag ->
          (decrypt_combined_hybrid_data v (JStr sid) w).1 = result_map (pair false) (str_encode (exn_msg e)))).
Proof.
  split.
  - intros Hl Ha. pose proof (km_get_private_key_live sid w) as Hk. rewrite Hl in Hk.
    unfold decrypt_combined_hybrid_data. st_run. rewrite with_session_key_none by done.
    rewrite failed_ascii; [done|]. unfold fmt, py_str. by rewrite is_ascii_app, Ha.
  - intros sk pub e Hl Ho. apply live_session_key in Hl.
    destruct (decrypt_combined_run v _ sk w Hl) as (w1 & _ & E).
    rewrite E, Ho. unfold combined_error. split.
    + intros ->. by rewrite failed_ascii.
    + intros Hne. assert ((caught e w1).1 = result_map (pair false) (str_encode (exn_msg e))) as <-.
      { unfold caught, failed. st_run. by destruct (str_encode _). }
      by destruct (exn_cls e).
Qed.

(** A stored CSV file: the length of the wrapped key, the wrapped key, the
    Fernet token. *)
Definition csv_container (ek token : bytes) : bytes :=
  bytes_of_Ns (be_Ns 4 (N.of_nat (length ek))) ++ ek ++ token.

(** Decrypting a stored CSV file writes the plaintext next to it, under the
    name with the prefix [decrypted_], returns that path, and changes no other
    file. *)
Theorem decrypt_csv_file_correct path sid pub sk aes_key token m w :
  km_live sid w = Some (pub, private_pem sk) ->
  length aes_key + 66 <= modulus_bytes sk -> (Z.of_nat (modulus_bytes sk) < 2 ^ 32)%Z ->
  w_files w !! path = Some (csv_container (oaep_encrypt sk aes_key) token) ->
  fernet_decrypt (urlsafe_b64encode (take 32 aes_key)) token = Ok m ->
  exists w', let out := path_join (path_dirname path) ("decrypted_" ++ path_basename path) in
    decrypt_csv_file path (JStr sid) w = (Ok (true, out), w')
    /\ w_files w' = <[out := m]> (w_files w).
Proof.
  intros Hl Hlen Hmod Hfile Hm. set (ek := oaep_encrypt sk aes_key) in *.
  assert (length ek = modulus_bytes sk) as Hek by by apply length_oaep_encrypt.
  assert (length (bytes_of_Ns (be_Ns 4 (N.of_nat (length ek)))) = 4) as Hhd
    by (unfold bytes_of_Ns; by rewrite length_map, length_be_Ns).
  unfold decrypt_csv_file, read_bytes. st_run. rewrite Hfile. st_run. unfold csv_container.
  rewrite (take_app_length' _ _ 4), <-drop_drop, (drop_app_length' _ _ 4) by done.
  rewrite int_from_be_Ns, Nnat.Nat2N.id by (apply N.lt_le_trans with (2 ^ 32)%N; [lia|done]).
  rewrite take_app_length, drop_app_length. unfold decrypt_csv_data. st_run.
  rewrite (with_session_key_run _ sk) by (by eapply live_session_key). st_run.
  assert (oaep_decrypt sk ek = Ok aes_key) as -> by by apply oaep_decrypt_encrypt.
  st_run. rewrite Hm. st_run. unfold write_bytes. st_run. cbn [negb].
  eexists. split; [reflexivity|]. cbn. f_equal.
  pose proof (keeps_rest_files (km_get_private_key (JStr sid)) w) as Hf. exact Hf.
Qed.

(** Metadata is accepted exactly when it names a supported algorithm and one
    of its key sizes. *)
Theorem validate_encryption_metadata_spec metadata :
  (validate_encryption_metadata metadata).1 = true <->
  exists alg key_size,
    dict_get "algorithm" metadata = Some (JStr alg) /\ (alg = "rsa_hybrid" \/ alg = "pure_rsa")
    /\ dict_get "key_size" metadata = Some key_size
    /\ exists z, eq_int key_size z = true /\ (z = 2048 \/ z = 3072 \/ z = 4096)%Z.
Proof.
  unfold validate_encryption_metadata, dict_has.
  destruct (dict_get "algorithm" metadata) as [a|]; [|cbn; naive_solver].
  destruct (dict_get "key_size" metadata) as [k|]; [|cbn; naive_solver]. cbn [default from_option id].
  destruct (json_str_or a) as [(alg & ->)|Ha].
  - cbn [hash_check]. unfold _supported_algorithms. cbn [dict_get].
    destruct (str_eqb alg "rsa_hybrid") eqn:E1; [|destruct (str_eqb alg "pure_rsa") eqn:E2]; cbn [negb];
      unfold str_eqb in *; rewrite ?bool_decide_eq_true, ?bool_decide_eq_false in *;
      [| |cbn; naive_solver].
    all: destruct (existsb (eq_int k) hybrid_key_sizes) eqn:Ek; cbn [fst];
      rewrite ?existsb_exists in Ek; (split; [intros Ht|]); try done.
    all: try (destruct Ek as (z & Hz & Hk); exists alg, k; cbn in Hz; naive_solver).
    all: intros (alg' & k' & _ & _ & [= <-] & z & Hz & Hz'); rewrite <-Ek;
      apply existsb_exists; exists z; cbn; naive_solver.
  - destruct a; try done; cbn; naive_solver.
Qed.
End Properties.

(** ** Witnesses *)

#[local] Existing Instances Toy.env default_settings ToyCrypto.keys ToyCrypto.ciphers ToyCrypto.laws.

Module ToyPayload.
Definition aes_key : bytes := repeat Byte.x41 32.
Definition nonce : bytes := repeat Byte.x42 12.
Definition message : bytes := ascii_bytes "PK".
Definition payload : str := combined_payload ToyKeys.key aes_key nonce message.
Definition token : bytes := aesgcm_encrypt (urlsafe_b64encode aes_key) [] message.
(** A world with a live session and a stored CSV file. *)
Definition start : world :=
  set_files (insert "/data/a.csv" (csv_container (oaep_encrypt ToyKeys.key aes_key) token)) ToyKeys.generate.
End ToyPayload.

Lemma toy_live : km_live ToyKeys.sid ToyPayload.start = Some ("public 0800", private_pem ToyKeys.key).
Proof. vm_compute. reflexivity. Qed.

Example decrypt_combined_round_trip_witness :
  (decrypt_combined_hybrid_data (JStr ToyPayload.payload) (JStr ToyKeys.sid) ToyPayload.start).1
  = Ok (true, ToyPayload.message).
Proof.
  apply (decrypt_combined_round_trip ToyKeys.sid "public 0800" ToyKeys.key); [exact toy_live|reflexivity| |reflexivity].
  apply Nat.leb_le. vm_compute. reflexivity.
Defined.

Example decrypt_combined_authentic_witness :
  exists sk, session_key (JStr ToyKeys.sid) ToyPayload.start sk.
Proof.
  destruct (decrypt_combined_authentic (JStr ToyPayload.payload) (JStr ToyKeys.sid) ToyPayload.start
    ToyPayload.message
    (decrypt_combined_hybrid_data (JStr ToyPayload.payload) (JStr ToyKeys.sid) ToyPayload.start).2)
    as (_ & sk & _ & _ & _ & Hsk & _); [vm_compute; reflexivity|]. by exists sk.
Defined.

Example decrypt_csv_file_correct_witness :
  exists w', decrypt_csv_file "/data/a.csv" (JStr ToyKeys.sid) ToyPayload.start
             = (Ok (true, "/data/decrypted_a.csv"), w').
Proof.
  destruct (decrypt_csv_file_correct "/data/a.csv" ToyKeys.sid "public 0800" ToyKeys.key ToyPayload.aes_key
    ToyPayload.token ToyPayload.message ToyPayload.start) as (w' & E & _).
  - exact toy_live.
  - apply Nat.leb_le. vm_compute. reflexivity.
  - vm_compute. reflexivity.
  - unfold ToyPayload.start. cbn [w_files set_files]. by rewrite lookup_insert_eq.
  - vm_compute. reflexivity.
  - exists w'. exact E.
Defined.

Example decrypt_combined_failures_witness :
  (decrypt_combined_hybrid_data (JStr ToyPayload.payload) (JStr "gone") ToyPayload.start).1
  = Ok (false, ascii_bytes "Private key not found for session gone").
Proof. apply (decrypt_combined_failures (JStr ToyPayload.payload) "gone"); vm_compute; reflexivity. Defined.
