(* ===== verification/Server.v ===== *)
(** * server/server.py: connections and framing

    A connection delivers its bytes in pieces of any size; a read may time out
    or fail, and so may a write.  The state of a client thread is the socket and
    the process.  The loops run on fuel bounded by the input left, which each
    iteration consumes. *)
From stdpp Require Import base tactics list gmap strings.
From Stdlib Require Import NArith ZArith Lia.
From S2P Require Import Prelude PyText PyCodec PyJson PyJsonParse World Config Interfaces.

Definition HEADER_SIZE : N := 4.

(** ** Sockets *)

(** What the peer and the network do next: bytes, or an exception of [recv]
    ([SocketTimeout] when the timeout expires).  Nothing more is end of file. *)
Inductive incoming : Type :=
  | Data (b : bytes)
  | RecvError (e : exn).

Record sock : Type := Sock {
  sk_in : list incoming;
  sk_send_errors : list (option exn);   (* outcomes of the coming [sendall]s *)
  sk_out : list bytes;                  (* sent, most recent first *)
  sk_timeout : Z;
  sk_closed : bool;
  sk_close_error : option exn;
}.

Definition set_in (l : list incoming) (s : sock) : sock :=
  Sock l (sk_send_errors s) (sk_out s) (sk_timeout s) (sk_closed s) (sk_close_error s).

Definition in_size (l : list incoming) : nat :=
  sum_list (map (fun i => match i with Data b => S (length b) | RecvError _ => 1 end) l).

Abbreviation SIO := (ST exn (sock * world)).

(** [sock.recv(n)] for [n > 0]. *)
Fixpoint recv_from (n : N) (l : list incoming) : result exn bytes * list incoming :=
  match l with
  | [] => (Ok [], [])
  | Data [] :: l => recv_from n l
  | Data b :: l =>
      let k := N.to_nat (N.min n (N.of_nat (length b))) in
      (Ok (take k b), match drop k b with [] => l | r => Data r :: l end)
  | RecvError e :: l => (Raise e, l)
  end.

Definition recv (n : N) : SIO bytes :=
  fun st => let '(r, l) := recv_from n (sk_in st.1) in (r, (set_in l st.1, st.2)).

(** [sock.sendall(b)]. *)
Definition sendall (b : bytes) : SIO unit :=
  fun st =>
    let s := st.1 in
    let rest := tail (sk_send_errors s) in
    match head (sk_send_errors s) with
    | Some (Some e) =>
        (Raise e, (Sock (sk_in s) rest (sk_out s) (sk_timeout s) (sk_closed s) (sk_close_error s), st.2))
    | _ =>
        (Ok tt, (Sock (sk_in s) rest (b :: sk_out s) (sk_timeout s) (sk_closed s) (sk_close_error s), st.2))
    end.

Definition settimeout (t : Z) : SIO unit :=
  st_modify (fun st => let s := st.1 in
    (Sock (sk_in s) (sk_send_errors s) (sk_out s) t (sk_closed s) (sk_close_error s), st.2)).

(** [sock.close()]: the descriptor is gone even when the call reports an error. *)
Definition sock_close : SIO unit :=
  fun st => let s := st.1 in
    (match sk_close_error s with Some e => Raise e | None => Ok tt end,
     (Sock (sk_in s) (sk_send_errors s) (sk_out s) (sk_timeout s) true (sk_close_error s), st.2)).

(** A computation of the services, run by the thread. *)
Definition in_process {A} (m : IO A) : SIO A :=
  fun st => let '(r, w) := m st.2 in (r, (st.1, w)).

(** [except (socket.error, OSError)]. *)
Definition catch_OSError {A} (m : SIO A) (h : exn -> SIO A) : SIO A :=
  st_try m (fun e => if is_OSError e then h e else mraise e).

Definition recv_fuel_error : exn := Exn RuntimeError "input not consumed".

(** ** The server *)

Section Methods.
Context `{Settings, IRequestHandler}.

Definition MAX_HEADER_VALUE : Z := MAX_REQUEST_SIZE settings.

Fixpoint recv_exact_loop (fuel : nat) (n : N) (buf : bytes) : SIO (option bytes) :=
  if (n <=? N.of_nat (length buf))%N then mret (Some buf)
  else match fuel with
       | 0 => mraise recv_fuel_error
       | S fuel =>
           chunk ← recv (n - N.of_nat (length buf))%N;
           match chunk with
           | [] => mret None
           | _ => recv_exact_loop fuel n (buf ++ chunk)
           end
       end.

Definition _recv_exact (n : N) : SIO (option bytes) :=
  st ← st_gets fst;
  recv_exact_loop (S (in_size (sk_in st))) n [].

(** The bytes end in a closing brace. *)
Definition ends_with_brace (b : bytes) : bool :=
  match last b with Some c => bool_decide (N_of_byte c = 125%N) | None => false end.

(** [data = b''.join(chunks).decode('utf-8'); json.loads(data)]. *)
Definition parses (b : bytes) : res str :=
  data ← bytes_decode b;
  _ ← json_loads data;
  Ok data.

Fixpoint recv_raw_loop (fuel : nat) (received : bytes) : SIO bytes :=
  if (MAX_REQUEST_SIZE settings <=? Z.of_nat (length received))%Z then mret received
  else match fuel with
       | 0 => mraise recv_fuel_error
       | S fuel =>
           chunk ← recv (N.min 65536 (Z.to_N (MAX_REQUEST_SIZE settings - Z.of_nat (length received))));
           match chunk with
           | [] => mret received
           | _ =>
               let received := received ++ chunk in
               if ends_with_brace chunk then
                 match parses received with
                 | Ok _ => mret received
                 | Raise e => match exn_cls e with
                              | JSONDecodeError | UnicodeDecodeError => recv_raw_loop fuel received
                              | _ => mraise e
                              end
                 end
               else recv_raw_loop fuel received
           end
       end.

(** The loop returns the bytes joined; every path decodes them. *)
Definition _recv_raw_json (initial : bytes) : SIO (option str) :=
  st ← st_gets fst;
  received ← recv_raw_loop (S (in_size (sk_in st))) initial;
  data ← st_lift (bytes_decode received);
  mret (Some data).

Definition error_object (msg : str) : dict := [("success", JBool false); ("error", JStr msg)].

(** [json.dumps(response).encode('utf-8')]. *)
Definition payload_of (response : dict) : bytes := dumps_bytes default_style (JObj response).

Definition send_framed (response : dict) : SIO unit :=
  catch_OSError
    (let payload := payload_of response in
     header ← st_lift (struct_pack_I (N.of_nat (length payload)));
     sendall (header ++ payload))
    (fun _ => mret tt).

Definition _send_response (response : dict) : SIO unit := send_framed response.

Definition _send_response_raw (response : dict) : SIO unit :=
  catch_OSError (sendall (payload_of response)) (fun _ => mret tt).

Definition _send_error (msg : str) : SIO unit := send_framed (error_object msg).

Definition is_brace (b : byte) : bool := bool_decide (N_of_byte b = 123%N).

Definition _recv_request : SIO (option str * bool) :=
  st_try
    (first_bytes ← _recv_exact HEADER_SIZE;
     match first_bytes with
     | None => mret (None, false)
     | Some first_bytes =>
         if match first_bytes with b :: _ => is_brace b | [] => false end then
           data ← _recv_raw_json first_bytes;
           mret (data, false)
         else
           msg_len ← st_lift (struct_unpack_I first_bytes);
           if ((msg_len =? 0)%N || (MAX_HEADER_VALUE <? Z.of_N msg_len)%Z) then
             _ ← _send_error "Invalid message length";
             mret (None, true)
           else
             body ← _recv_exact msg_len;
             match body with
             | None => _ ← _send_error "Incomplete message"; mret (None, true)
             | Some body =>
                 data ← st_lift (bytes_decode body);
                 mret (Some data, true)
             end
     end)
    (fun e => match exn_cls e with
              | SocketTimeout => _ ← _send_error "Request timeout"; mret (None, false)
              | _ => _ ← _send_error "Server error"; mret (None, false)
              end).

Definition handle_client : SIO unit :=
  _ ← settimeout (CLIENT_RECV_TIMEOUT settings);
  '(data, use_framing) ← _recv_request;
  match data with
  | None => mret tt
  | Some data =>
      response ← in_process (rh_handle_request data);
      _ ← settimeout (CLIENT_SEND_TIMEOUT settings);
      if (use_framing : bool) then _send_response response else _send_response_raw response
  end.

Definition _handle_client_safe : SIO unit :=
  st_finally (st_try handle_client (fun _ => mret tt))
    (catch_OSError sock_close (fun _ => mret tt)).
End Methods.

(** ** Reading from a stream

    The bytes that arrive before the next error, and what follows them. *)

Fixpoint prefix (l : list incoming) : bytes :=
  match l with
  | Data b :: l => b ++ prefix l
  | _ => []
  end.

Fixpoint after (l : list incoming) : list incoming :=
  match l with
  | Data _ :: l => after l
  | _ => l
  end.

Lemma recv_from_empty n l :
  prefix l = [] ->
  recv_from n l = match after l with RecvError e :: r => (Raise e, r) | _ => (Ok [], []) end.
Proof.
  induction l as [|[b|e] l IH]; cbn; [done| |done]. intros Hp. apply app_nil in Hp as [-> Hp]. auto.
Qed.

Lemma recv_from_data n l :
  prefix l <> [] -> (0 < n)%N ->
  exists c l', recv_from n l = (Ok c, l') /\ c <> [] /\ (N.of_nat (length c) <= n)%N
    /\ prefix l = c ++ prefix l' /\ after l' = after l /\ in_size l' < in_size l.
Proof.
  intros Hp Hn. induction l as [|[b|e] l IH]; cbn in *; [done| |done].
  destruct b as [|x b]; cbn [app] in Hp.
  - destruct (IH Hp) as (c & l' & E & Hc & Hl & Hpre & Ha & Hs). exists c, l'. split_and!; [done..|].
    unfold in_size in *. cbn. lia.
  - clear IH. set (bb := x :: b) in *. set (k := N.to_nat (N.min n (N.of_nat (length bb)))).
    assert (0 < k <= length bb) as Hk by (unfold k, bb; cbn [length]; lia).
    assert (take k bb <> []) as Hne by (unfold bb; destruct k; [lia|done]).
    exists (take k bb), (match drop k bb with [] => l | r => Data r :: l end). split_and!.
    + done.
    + done.
    + rewrite length_take. unfold k. lia.
    + rewrite <-(take_drop k bb) at 1. rewrite <-app_assoc. f_equal. by destruct (drop k bb).
    + by destruct (drop k bb).
    + assert (length (drop k bb) < length bb) as Hd by (rewrite length_drop; lia).
      unfold in_size. destruct (drop k bb) as [|y r]; cbn in *; lia.
Qed.

Section Recv.
Context `{Settings, IRequestHandler}.
Implicit Types st : sock * world.

(** The thread after reading up to [l']. *)
Definition at_input (l' : list incoming) (st : sock * world) : sock * world := (set_in l' st.1, st.2).

Lemma recv_run n st : recv n st = let '(r, l) := recv_from n (sk_in st.1) in (r, at_input l st).
Proof. done. Qed.

Lemma at_input_twice l l' st : at_input l (at_input l' st) = at_input l st.
Proof. done. Qed.

Lemma recv_exact_loop_run fuel n : forall buf l st,
  in_size l < fuel -> (N.of_nat (length buf) <= n)%N -> sk_in st.1 = l ->
  let k := N.to_nat n - length buf in
  if decide (k <= length (prefix l)) then
    exists l', recv_exact_loop fuel n buf st = (Ok (Some (buf ++ take k (prefix l))), at_input l' st)
      /\ prefix l' = drop k (prefix l) /\ after l' = after l
  else match after l with
       | RecvError e :: r => recv_exact_loop fuel n buf st = (Raise e, at_input r st)
       | _ => exists l', recv_exact_loop fuel n buf st = (Ok None, at_input l' st)
       end.
Proof.
  induction fuel as [|fuel IH]; intros buf l st Hfuel Hbuf Hin; [lia|]. cbn zeta.
  cbn [recv_exact_loop]. destruct (N.leb_spec n (N.of_nat (length buf))) as [Hle|Hgt].
  { assert (N.to_nat n - length buf = 0) as -> by lia. rewrite decide_True by lia. exists l.
    rewrite app_nil_r. split_and!; [|done|done]. destruct st as [s w], s; cbn in *. by subst. }
  st_run. rewrite recv_run, Hin. destruct (decide (prefix l = [])) as [Hp|Hp].
  - rewrite recv_from_empty, Hp by done. rewrite decide_False by (cbn; lia).
    destruct (after l) as [|[b|e] r]; st_run; [by eexists|by eexists|done].
  - destruct (recv_from_data (n - N.of_nat (length buf)) l Hp) as (c & l1 & E & Hc & Hl & Hpre & Ha & Hs);
      [lia|]. rewrite E. destruct c as [|x c]; [done|]. set (ch := x :: c) in *.
    assert (length (buf ++ ch) = length buf + length ch) as Hlen by apply length_app.
    specialize (IH (buf ++ ch) l1 (at_input l1 st)).
    cbn zeta in IH. rewrite Hlen in IH.
    assert (N.to_nat n - length buf = length ch + (N.to_nat n - (length buf + length ch))) as Hk by lia.
    set (k' := N.to_nat n - (length buf + length ch)) in *. rewrite Hk, Hpre, length_app.
    specialize (IH ltac:(lia) ltac:(lia) eq_refl).
    destruct (decide (k' <= length (prefix l1))) as [Hd|Hd].
    + rewrite decide_True by lia. destruct IH as (l' & E' & Hpre' & Ha'). exists l'. split_and!.
      * change (recv_exact_loop fuel n (buf ++ ch) (at_input l1 st)
                = (Ok (Some (buf ++ take (length ch + k') (ch ++ prefix l1))), at_input l' st)).
        rewrite E', <-app_assoc. rewrite (take_app_add ch). done.
      * rewrite Hpre', (drop_app_add ch). done.
      * by rewrite Ha'.
    + rewrite decide_False by lia. rewrite Ha in IH. exact IH.
Qed.

(** [_recv_exact] returns the next [n] bytes however they are cut into pieces. *)
Lemma recv_exact_ok n st :
  (N.to_nat n <= length (prefix (sk_in st.1))) ->
  exists l', _recv_exact n st = (Ok (Some (take (N.to_nat n) (prefix (sk_in st.1)))), at_input l' st)
    /\ prefix l' = drop (N.to_nat n) (prefix (sk_in st.1)) /\ after l' = after (sk_in st.1).
Proof.
  intros Hn. pose proof (recv_exact_loop_run (S (in_size (sk_in st.1))) n [] (sk_in st.1) st) as Hr.
  cbn [length app] in Hr. rewrite Nat.sub_0_r, decide_True in Hr by done.
  unfold _recv_exact. st_run. apply Hr; [lia|lia|done].
Qed.

Lemma recv_exact_short n st :
  length (prefix (sk_in st.1)) < N.to_nat n ->
  match after (sk_in st.1) with
  | RecvError e :: r => _recv_exact n st = (Raise e, at_input r st)
  | _ => exists l', _recv_exact n st = (Ok None, at_input l' st)
  end.
Proof.
  intros Hn. pose proof (recv_exact_loop_run (S (in_size (sk_in st.1))) n [] (sk_in st.1) st) as Hr.
  cbn [length app] in Hr. rewrite Nat.sub_0_r, decide_False in Hr by lia.
  unfold _recv_exact. st_run. apply Hr; [lia|lia|done].
Qed.
End Recv.

(** ** Requests *)

Section Requests.
Context `{Settings, IRequestHandler}.
Implicit Types st : sock * world.

(** A message with its length prefix. *)
Definition frame (payload : bytes) : bytes :=
  bytes_of_Ns (be_Ns 4 (N.of_nat (length payload))) ++ payload.

(** A first header byte below the code of a brace. *)
Lemma header_not_brace n b l :
  (n < 0x7B000000)%N -> bytes_of_Ns (be_Ns 4 n) = b :: l -> is_brace b = false.
Proof.
  intros Hn E. cbn [be_Ns] in E. unfold bytes_of_Ns in E. cbn [map] in E. injection E as <- _.
  unfold is_brace. apply bool_decide_eq_false. rewrite N_of_byte_of_N, N.Div0.mod_mod.
  change (256 ^ N.of_nat 3)%N with 16777216%N.
  assert (n / 16777216 < 123)%N as Hq by (apply N.Div0.div_lt_upper_bound; lia).
  rewrite N.mod_small by lia. lia.
Qed.

Lemma length_header n : length (bytes_of_Ns (be_Ns 4 n)) = 4.
Proof. unfold bytes_of_Ns. by rewrite length_map, length_be_Ns. Qed.

Lemma recv_header st header rest :
  length header = 4 -> prefix (sk_in st.1) = header ++ rest ->
  exists l1, _recv_exact HEADER_SIZE st = (Ok (Some header), at_input l1 st)
    /\ prefix l1 = rest /\ after l1 = after (sk_in st.1).
Proof.
  intros Hlen Hp. destruct (recv_exact_ok HEADER_SIZE st) as (l1 & E & Hp1 & Ha1).
  { rewrite Hp, length_app. change (N.to_nat HEADER_SIZE) with 4. lia. }
  change (N.to_nat HEADER_SIZE) with 4 in *.
  rewrite Hp, (take_app_length' header _ 4) in E by done.
  rewrite Hp, (drop_app_length' header _ 4) in Hp1 by done. by exists l1.
Qed.

(** A framed request, in whatever pieces it arrives. *)
Lemma recv_request_framed st payload text rest :
  (0 < Z.of_nat (length payload) <= MAX_REQUEST_SIZE settings)%Z ->
  (MAX_REQUEST_SIZE settings < 0x7B000000)%Z ->
  bytes_decode payload = Ok text ->
  prefix (sk_in st.1) = frame payload ++ rest ->
  exists l', _recv_request st = (Ok (Some text, true), at_input l' st)
    /\ prefix l' = rest /\ after l' = after (sk_in st.1).
Proof.
  intros Hlen Hmax Htext Hp. unfold frame in Hp. rewrite <-app_assoc in Hp.
  set (n := N.of_nat (length payload)) in *. set (header := bytes_of_Ns (be_Ns 4 n)) in *.
  destruct (recv_header st header (payload ++ rest) (length_header n) Hp) as (l1 & E1 & Hp1 & Ha1).
  assert (n < 0x7B000000)%N as Hn by (unfold n; lia).
  assert (n < 256 ^ N.of_nat 4)%N as Hn4 by (apply N.lt_trans with 0x7B000000%N; done).
  unfold _recv_request. st_run. rewrite E1. st_run.
  assert (match header with b :: _ => is_brace b | [] => false end = false) as ->
    by (destruct header as [|b l] eqn:Eh; [done|by eapply header_not_brace]).
  unfold struct_unpack_I. pose proof (length_header n) as Hlh. fold header in Hlh. rewrite Hlh.
  cbn [Nat.eqb]. st_run. unfold header. rewrite int_from_be_Ns by done.
  rewrite (proj2 (N.eqb_neq n 0)) by (unfold n; lia). cbn [orb]. unfold MAX_HEADER_VALUE.
  rewrite (proj2 (Z.ltb_ge _ _)) by (unfold n; lia). st_run.
  destruct (recv_exact_ok n (at_input l1 st)) as (l2 & E2 & Hp2 & Ha2);
    [cbn; rewrite Hp1, length_app; unfold n; lia|].
  cbn [at_input set_in fst sk_in] in E2, Hp2, Ha2. rewrite Hp1 in E2, Hp2. unfold n in E2, Hp2.
  rewrite Nnat.Nat2N.id, take_app_length in E2. rewrite Nnat.Nat2N.id, drop_app_length in Hp2.
  unfold n. rewrite E2. st_run. rewrite Htext. st_run. exists l2. by rewrite Ha2, Ha1.
Qed.

Lemma sendall_run b st :
  sk_send_errors st.1 = [] ->
  exists st', sendall b st = (Ok tt, st') /\ sk_out st'.1 = b :: sk_out st.1 /\ st'.2 = st.2
    /\ sk_in st'.1 = sk_in st.1 /\ sk_closed st'.1 = sk_closed st.1.
Proof. intros E. unfold sendall. rewrite E. cbn. by eexists. Qed.

Lemma send_framed_run response st :
  sk_send_errors st.1 = [] -> (N.of_nat (length (payload_of response)) <= uint32_max)%N ->
  exists st', send_framed response st = (Ok tt, st')
    /\ sk_out st'.1 = frame (payload_of response) :: sk_out st.1 /\ st'.2 = st.2
    /\ sk_in st'.1 = sk_in st.1 /\ sk_closed st'.1 = sk_closed st.1.
Proof.
  intros Hs Hlen. unfold send_framed, catch_OSError, struct_pack_I.
  rewrite (proj2 (N.leb_le _ _)) by done. st_run.
  edestruct (sendall_run (frame (payload_of response)) st) as (st' & E & Hst'); [done|].
  unfold frame in E. rewrite E. by exists st'.
Qed.

(** What the client reads back. *)
Lemma frame_read response :
  json_ok (JObj response) = true -> (N.of_nat (length (payload_of response)) <= uint32_max)%N ->
  let f := frame (payload_of response) in
  struct_unpack_I (take 4 f) = Ok (N.of_nat (length (drop 4 f)))
  /\ (s ← bytes_decode (drop 4 f); json_loads s) = Ok (JObj response).
Proof.
  intros Hok Hlen f. set (n := N.of_nat (length (payload_of response))) in *.
  assert (struct_pack_I n = Ok (bytes_of_Ns (be_Ns 4 n))) as Hpack
    by (unfold struct_pack_I; by rewrite (proj2 (N.leb_le _ _))).
  unfold f, frame. fold n. set (hd := bytes_of_Ns (be_Ns 4 n)) in *.
  assert (length hd = 4) as Hhd by apply length_header.
  rewrite (take_app_length' hd _ 4), (drop_app_length' hd _ 4) by done.
  split; [by apply struct_unpack_pack_I|]. unfold payload_of. rewrite bytes_decode_dumps by done.
  by apply json_loads_dumps.
Qed.
End Requests.

(** ** Bounds on what is read and sent *)

Section Bounds.
Context `{Settings, IRequestHandler}.
Implicit Types st : sock * world.

(** The end of a stream that closes without an error. *)
Definition ends_clean (l : list incoming) : Prop := after l = [].

(** The outcome of the raw loop on the input [l], having [received] some bytes. *)
Definition raw_outcome (l : list incoming) (received : bytes) (r : result exn bytes) (l' : list incoming) : Prop :=
  match r with
  | Ok data => exists c, data = received ++ c /\ prefix l = c ++ prefix l'
      /\ (c = [] \/ (Z.of_nat (length data) <= MAX_REQUEST_SIZE settings)%Z)
      /\ (is_ok (parses data) = true
          \/ (MAX_REQUEST_SIZE settings <= Z.of_nat (length data))%Z
          \/ (prefix l' = [] /\ ends_clean l))
  | Raise e => (exists rest, after l = RecvError e :: rest) \/ (exists data, parses data = Raise e)
  end.

Lemma after_not_data l b rest : after l <> Data b :: rest.
Proof. induction l as [|[?|?] l IH]; cbn; done. Qed.

(** One piece [ch] more. *)
Lemma raw_outcome_step l ch received l1 r l' :
  prefix l = ch ++ prefix l1 -> after l1 = after l ->
  (Z.of_nat (length (received ++ ch)) <= MAX_REQUEST_SIZE settings)%Z ->
  raw_outcome l1 (received ++ ch) r l' -> raw_outcome l received r l'.
Proof.
  intros Hpre Ha Hbound. unfold raw_outcome, ends_clean. rewrite Ha. destruct r as [data|e]; [|done].
  intros (c & -> & Hpre' & Hb & Hend). exists (ch ++ c). rewrite <-app_assoc in *.
  split_and!; [done|by rewrite Hpre, Hpre', app_assoc| |done].
  right. destruct Hb as [->|Hb]; [by rewrite app_nil_r|done].
Qed.

Lemma recv_raw_loop_run fuel : forall received l st,
  in_size l < fuel -> sk_in st.1 = l ->
  exists r l', recv_raw_loop fuel received st = (r, at_input l' st) /\ raw_outcome l received r l'.
Proof.
  induction fuel as [|fuel IH]; intros received l st Hfuel Hin; [lia|]. cbn [recv_raw_loop].
  destruct (Z.leb_spec (MAX_REQUEST_SIZE settings) (Z.of_nat (length received))) as [Hle|Hgt].
  { exists (Ok received), l. split; [by destruct st as [[] w]; cbn in *; subst|].
    exists []. rewrite app_nil_r. split_and!; [done|done|by left|by right; left]. }
  set (n := N.min 65536 (Z.to_N (MAX_REQUEST_SIZE settings - Z.of_nat (length received)))).
  st_run. rewrite recv_run, Hin. destruct (decide (prefix l = [])) as [Hp|Hp].
  - rewrite recv_from_empty by done. destruct (after l) as [|[b|e] rest] eqn:Ha; st_run.
    + exists (Ok received), []. split; [done|]. exists []. rewrite app_nil_r.
      split_and!; [done|done|by left|by right; right].
    + by apply after_not_data in Ha.
    + exists (Raise e), rest. split; [done|]. left. by exists rest.
  - destruct (recv_from_data n l Hp) as (c & l1 & E & Hc & Hl & Hpre & Ha & Hs); [unfold n; lia|].
    rewrite E. destruct c as [|x c]; [done|]. set (ch := x :: c) in *.
    assert (Z.of_nat (length (received ++ ch)) <= MAX_REQUEST_SIZE settings)%Z as Hbound
      by (rewrite length_app; unfold n in Hl; lia).
    assert (exists r l', recv_raw_loop fuel (received ++ ch) (at_input l1 st) = (r, at_input l' st)
                         /\ raw_outcome l received r l') as Hgo.
    { destruct (IH (received ++ ch) l1 (at_input l1 st)) as (r & l' & E' & Hr); [lia|done|].
      exists r, l'. split; [done|by eapply raw_outcome_step]. }
    unfold ch at 1. cbv beta iota. fold ch. destruct (ends_with_brace ch); [|exact Hgo].
    destruct (parses (received ++ ch)) as [data|e] eqn:Hparse.
    + exists (Ok (received ++ ch)), l1. split; [done|]. exists ch.
      split_and!; [done|done|by right|left; by rewrite Hparse].
    + destruct (exn_cls e); try exact Hgo;
        (exists (Raise e), l1; split; [done|]; right; by exists (received ++ ch)).
Qed.

(** A request is a bounded part of the stream. *)
Definition bounded_request (l : list incoming) (text : str) (framed : bool) (l' : list incoming) : Prop :=
  exists header data, bytes_decode data = Ok text
    /\ prefix l = header ++ data ++ prefix l'
    /\ (Z.of_nat (length data) <= Z.max 4 (MAX_REQUEST_SIZE settings))%Z
    /\ if framed then length header = 4 /\ struct_unpack_I header = Ok (N.of_nat (length data))
       else header = [] /\ (is_ok (parses data) = true
                            \/ (MAX_REQUEST_SIZE settings <= Z.of_nat (length data))%Z
                            \/ prefix l' = []).

Lemma recv_exact_some n st body st' :
  _recv_exact n st = (Ok (Some body), st') ->
  exists l', st' = at_input l' st /\ prefix (sk_in st.1) = body ++ prefix l'
    /\ length body = N.to_nat n /\ after l' = after (sk_in st.1).
Proof.
  intros E. destruct (decide (N.to_nat n <= length (prefix (sk_in st.1)))) as [Hle|Hgt].
  - destruct (recv_exact_ok n st Hle) as (l' & E' & Hp & Ha). rewrite E' in E. injection E as <- <-.
    exists l'. split_and!; [done| |rewrite length_take; lia|done].
    rewrite Hp. by rewrite take_drop.
  - pose proof (recv_exact_short n st ltac:(lia)) as Hs.
    destruct (after (sk_in st.1)) as [|[b|e] rest]; [| |congruence];
      (destruct Hs as (l' & E'); congruence).
Qed.

Lemma recv_raw_json_some initial st text st' :
  _recv_raw_json initial st = (Ok (Some text), st') ->
  exists data l', st' = at_input l' st /\ bytes_decode data = Ok text
    /\ raw_outcome (sk_in st.1) initial (Ok data) l'.
Proof.
  unfold _recv_raw_json. st_run.
  destruct (recv_raw_loop_run (S (in_size (sk_in st.1))) initial (sk_in st.1) st) as (r & l' & E & Hr);
    [lia|done|]. rewrite E. destruct r as [data|e]; [|done]. st_run.
  destruct (bytes_decode data) as [t|e] eqn:Hd; st_run; [|done]. intros [= <- <-]. by exists data, l'.
Qed.

Lemma send_error_none {A} msg (a : A) st r st' :
  (_ ← _send_error msg; mret a) st = (Ok r, st') -> r = a.
Proof. st_run. by destruct (_send_error msg st) as [[[]|e] st1]; st_run; intros [= <- _]. Qed.
End Bounds.

(** ** What a thread sends *)

Section Sends.
Context `{Settings, IRequestHandler}.

(** [m] sends some messages, and their number and its outcome are in [P]. *)
Definition sends {A} (m : SIO A) (P : result exn A -> nat -> Prop) : Prop :=
  forall st, exists new, sk_out (m st).2.1 = new ++ sk_out st.1
    /\ sk_close_error (m st).2.1 = sk_close_error st.1 /\ P (m st).1 (length new).

Lemma sends_mono {A} (m : SIO A) (P Q : result exn A -> nat -> Prop) :
  sends m P -> (forall r n, P r n -> Q r n) -> sends m Q.
Proof. intros Hm HQ st. destruct (Hm st) as (new & ? & ? & ?). exists new. auto. Qed.

Lemma sends_ret {A} (a : A) P : P (Ok a) 0 -> sends (mret a) P.
Proof. intros HP st. by exists []. Qed.

Lemma sends_raise {A} (e : exn) (P : result exn A -> nat -> Prop) : P (Raise e) 0 -> sends (mraise e) P.
Proof. intros HP st. by exists []. Qed.

Lemma sends_lift {A} (r : result exn A) P : P r 0 -> sends (st_lift r) P.
Proof. intros HP st. by exists []. Qed.

Lemma sends_gets {A} (f : sock * world -> A) (P : result exn A -> nat -> Prop) :
  (forall a, P (Ok a) 0) -> sends (st_gets f) P.
Proof. intros HP st. exists []. split_and!; [done|done|apply HP]. Qed.

Lemma sends_bind {A B} (m : SIO A) (k : A -> SIO B) P Q :
  sends m P ->
  (forall r n, P r n -> match r with
                        | Ok a => sends (k a) (fun r' n' => Q r' (n + n'))
                        | Raise e => Q (Raise e) n
                        end) ->
  sends (m ≫= k) Q.
Proof.
  intros Hm Hk st. destruct (Hm st) as (new & Ho & Hc & HP). rewrite run_bind. apply Hk in HP.
  destruct (m st) as [[a|e] st1]; cbn [fst snd] in *; [|by exists new].
  destruct (HP st1) as (new' & Ho' & Hc' & HQ). exists (new' ++ new). split_and!.
  - by rewrite Ho', Ho, app_assoc.
  - congruence.
  - by rewrite length_app, Nat.add_comm.
Qed.

Lemma sends_try {A} (m : SIO A) (h : exn -> SIO A) P Q :
  sends m P ->
  (forall r n, P r n -> match r with
                        | Ok a => Q (Ok a) n
                        | Raise e => sends (h e) (fun r' n' => Q r' (n + n'))
                        end) ->
  sends (st_try m h) Q.
Proof.
  intros Hm Hk st. destruct (Hm st) as (new & Ho & Hc & HP). rewrite run_try. apply Hk in HP.
  destruct (m st) as [[a|e] st1]; cbn [fst snd] in *; [by exists new|].
  destruct (HP st1) as (new' & Ho' & Hc' & HQ). exists (new' ++ new). split_and!.
  - by rewrite Ho', Ho, app_assoc.
  - congruence.
  - by rewrite length_app, Nat.add_comm.
Qed.

Definition silent {A} (r : result exn A) (n : nat) : Prop := n = 0.
(** At most one message, and none by a computation that raises. *)
Definition once {A} (r : result exn A) (n : nat) : Prop :=
  match r with Ok _ => n <= 1 | Raise _ => n = 0 end.

Lemma recv_silent n : sends (recv n) silent.
Proof. intros st. exists []. unfold recv. by destruct (recv_from n _). Qed.

Lemma silent_bind {A B} (m : SIO A) (k : A -> SIO B) :
  sends m silent -> (forall a, sends (k a) silent) -> sends (m ≫= k) silent.
Proof.
  intros Hm Hk. eapply sends_bind; [exact Hm|]. intros r n ->. destruct r as [a|e]; [|done].
  apply Hk.
Qed.

Lemma recv_exact_silent n : sends (_recv_exact n) silent.
Proof.
  unfold _recv_exact. apply silent_bind; [by apply sends_gets|]. intros s.
  generalize (S (in_size (sk_in s))) as fuel, ([] : bytes) as buf.
  induction fuel as [|fuel IH]; intros buf; cbn [recv_exact_loop];
    (destruct (_ <=? _)%N; [by apply sends_ret|]); [by apply sends_raise|].
  apply silent_bind; [apply recv_silent|]. intros [|x c]; [by apply sends_ret|apply IH].
Qed.

Lemma recv_raw_json_silent initial : sends (_recv_raw_json initial) silent.
Proof.
  unfold _recv_raw_json. apply silent_bind; [by apply sends_gets|]. intros s.
  apply silent_bind; [|intros; apply silent_bind; [by apply sends_lift|intros; by apply sends_ret]].
  generalize (S (in_size (sk_in s))) as fuel. revert initial.
  intros initial fuel. revert initial. induction fuel as [|fuel IH]; intros initial; cbn [recv_raw_loop];
    (destruct (_ <=? _)%Z; [by apply sends_ret|]); [by apply sends_raise|].
  apply silent_bind; [apply recv_silent|]. intros [|x c]; [by apply sends_ret|].
  destruct (ends_with_brace _); [|apply IH]. destruct (parses _) as [?|e]; [by apply sends_ret|].
  destruct (exn_cls e); try apply IH; by apply sends_raise.
Qed.

Lemma sendall_once b : sends (sendall b) once.
Proof.
  intros st. unfold sendall. destruct (head _) as [[e|]|]; cbn; [exists []|exists [b]|exists [b]];
    by split_and!; cbn; try lia.
Qed.

Lemma catch_OSError_once (m : SIO unit) : sends m once -> sends (catch_OSError m (fun _ => mret tt)) once.
Proof.
  intros Hm. eapply sends_try; [exact Hm|]. intros [[]|e] n HP; [done|]. cbn in HP. subst n.
  destruct (is_OSError e); [apply sends_ret; cbn; lia|by apply sends_raise].
Qed.

Lemma send_framed_once response : sends (send_framed response) once.
Proof.
  apply catch_OSError_once. eapply sends_bind; [by apply (sends_lift _ silent)|].
  intros [header|e] n ->; [apply sendall_once|done].
Qed.

(** A request received was received in silence. *)
Definition received (r : result exn (option str * bool)) (n : nat) : Prop :=
  match r with
  | Ok (Some _, _) => n = 0
  | Ok (None, _) => n <= 1
  | Raise _ => n = 0
  end.

Lemma send_error_received msg framed :
  sends (_ ← _send_error msg; mret (None, framed)) received.
Proof.
  eapply sends_bind; [apply send_framed_once|]. intros [[]|e] n Hn; cbn in *; [|done].
  apply sends_ret. cbn. lia.
Qed.

Lemma recv_request_received : sends _recv_request received.
Proof.
  unfold _recv_request. eapply (sends_try _ _ received).
  - eapply sends_bind; [apply recv_exact_silent|]. intros [[first|]|e] n ->; [|by apply sends_ret; cbn; lia|done].
    destruct (match first with b :: _ => is_brace b | [] => false end).
    + eapply sends_bind; [apply recv_raw_json_silent|]. intros [data|e] n ->; [|done].
      apply sends_ret. destruct data; cbn; lia.
    + eapply sends_bind; [by apply (sends_lift _ silent)|]. intros [len|e] n ->; [|done].
      destruct (_ || _); [apply send_error_received|].
      eapply sends_bind; [apply recv_exact_silent|]. intros [[body|]|e] n ->;
        [|apply send_error_received|done].
      eapply sends_bind; [by apply (sends_lift _ silent)|]. intros [data|e] n ->; [|done].
      by apply sends_ret.
  - intros [[[data|] framed]|e] n Hn; cbn in *; [lia|lia|]. subst n.
    destruct (exn_cls e); apply send_error_received.
Qed.

Lemma in_process_silent {A} (m : IO A) : sends (in_process m) silent.
Proof. intros st. exists []. unfold in_process. by destruct (m st.2). Qed.

Lemma settimeout_silent t : sends (settimeout t) silent.
Proof. intros st. by exists []. Qed.

Lemma handle_client_once : sends handle_client once.
Proof.
  unfold handle_client. eapply sends_bind; [apply settimeout_silent|]. intros [[]|e] n ->; [|done].
  eapply sends_bind; [apply recv_request_received|].
  intros [[[data|] framed]|e] n Hn; cbn in Hn; [subst n| |by subst n].
  - eapply sends_bind; [apply in_process_silent|]. intros [response|e] n ->; [|done].
    eapply sends_bind; [apply settimeout_silent|]. intros [[]|e] n ->; [|done].
    destruct framed; [apply send_framed_once|]. apply catch_OSError_once, sendall_once.
  - apply sends_ret. cbn. lia.
Qed.
End Sends.

(** ** The process behind a connection

    A thread touches the process through the handler only, and at most once. *)

Section Process.
Context `{Settings, IRequestHandler}.
Implicit Types st : sock * world.

(** [m] leaves the process alone. *)
Class Quiet {A} (m : SIO A) : Prop := quiet : forall st, (m st).2.2 = st.2.

#[export] Instance quiet_ret {A} (a : A) : Quiet (mret a).
Proof. done. Qed.
#[export] Instance quiet_raise {A} (e : exn) : Quiet (mraise e : SIO A).
Proof. done. Qed.
#[export] Instance quiet_lift {A} (r : result exn A) : Quiet (st_lift r).
Proof. done. Qed.
#[export] Instance quiet_gets {A} (g : sock * world -> A) : Quiet (st_gets g).
Proof. done. Qed.
#[export] Instance quiet_bind {A B} (m : SIO A) (k : A -> SIO B) : Quiet m -> (forall a, Quiet (k a)) -> Quiet (m ≫= k).
Proof.
  intros Hm Hk st. rewrite run_bind. specialize (Hm st). destruct (m st) as [[a|e] st1]; cbn in *; [|done].
  by rewrite (Hk a st1).
Qed.
#[export] Instance quiet_try {A} (m : SIO A) (h : exn -> SIO A) : Quiet m -> (forall e, Quiet (h e)) -> Quiet (st_try m h).
Proof.
  intros Hm Hh st. rewrite run_try. specialize (Hm st). destruct (m st) as [[a|e] st1]; cbn in *; [done|].
  by rewrite (Hh e st1).
Qed.
#[local] Hint Extern 5 (Quiet (match ?x with _ => _ end)) => destruct x : typeclass_instances.
#[local] Hint Extern 5 (Quiet (if ?x then _ else _)) => destruct x : typeclass_instances.

#[export] Instance quiet_recv n : Quiet (recv n).
Proof. intros st. unfold recv. by destruct (recv_from n (sk_in st.1)). Qed.
#[export] Instance quiet_sendall b : Quiet (sendall b).
Proof. intros st. unfold sendall. by destruct (head (sk_send_errors st.1)) as [[e|]|]. Qed.
#[export] Instance quiet_settimeout t : Quiet (settimeout t).
Proof. done. Qed.
#[export] Instance quiet_close : Quiet sock_close.
Proof. done. Qed.

#[export] Instance quiet_recv_exact_loop fuel n buf : Quiet (recv_exact_loop fuel n buf).
Proof. revert buf. induction fuel as [|fuel IH]; intros buf; cbn [recv_exact_loop]; apply _. Qed.
#[export] Instance quiet_recv_raw_loop fuel b : Quiet (recv_raw_loop fuel b).
Proof. revert b. induction fuel as [|fuel IH]; intros b; cbn [recv_raw_loop]; cbn zeta; apply _. Qed.
#[export] Instance quiet_send_framed response : Quiet (send_framed response).
Proof. unfold send_framed, catch_OSError. cbn zeta. apply _. Qed.
#[export] Instance quiet_recv_request : Quiet _recv_request.
Proof. unfold _recv_request, _recv_exact, _recv_raw_json, _send_error. apply _. Qed.

(** The process after a client was served: nothing, or one request. *)
Definition one_request (w w' : world) : Prop := w' = w \/ exists text, w' = (rh_handle_request text w).2.

Lemma client_one_request st : one_request st.2 (_handle_client_safe st).2.2.
Proof.
  assert (one_request st.2 (handle_client st).2.2) as Hh.
  { unfold handle_client. rewrite run_bind. cbn [settimeout st_modify fst snd].
    match goal with |- context [(_recv_request ≫= _) ?s] => set (st1 := s); change st.2 with st1.2; clearbody st1 end.
    rewrite run_bind. pose proof (quiet (m := _recv_request) st1) as Hq.
    destruct (_recv_request st1) as [[[[text|] framed]|e] st2]; cbn [fst snd] in *; [|by left|by left].
    rewrite run_bind. unfold in_process. right. exists text. rewrite <-Hq.
    destruct (rh_handle_request text st2.2) as [[r|e] w']; [|done]. cbn [fst snd].
    match goal with |- (?m ?s).2.2 = _ => change w' with s.2; apply (quiet (m := m)) end. }
  unfold _handle_client_safe. rewrite run_finally.
  assert ((st_try handle_client (fun _ => mret tt) st).2 = (handle_client st).2) as Htry
    by (rewrite run_try; by destruct (handle_client st) as [[[]|e] st1]).
  destruct (st_try _ _ st) as [r st1]. cbn [snd] in Htry. subst st1.
  pose proof (quiet (m := catch_OSError sock_close (fun _ => mret tt)) (handle_client st).2) as Hc.
  destruct (catch_OSError _ _ _) as [[[]|e] st2]; cbn [fst snd] in *; by rewrite Hc.
Qed.
End Process.

(** ** Properties *)

Section Properties.
Context `{Settings, IRequestHandler}.
Implicit Types st : sock * world.

Lemma close_run st :
  (forall e, sk_close_error st.1 = Some e -> is_OSError e = true) ->
  exists st', catch_OSError sock_close (fun _ => mret tt) st = (Ok tt, st')
    /\ sk_closed st'.1 = true /\ sk_out st'.1 = sk_out st.1.
Proof.
  intros Hclose. unfold catch_OSError. rewrite run_try. unfold sock_close.
  destruct (sk_close_error st.1) as [e|]; [rewrite Hclose by done|]; by eexists.
Qed.

(** C28: a connection is always answered by at most one message and always
    closed, whatever arrives, whatever the handler does and whichever call
    fails; the thread itself never fails. *)
Theorem client_thread_safe st :
  (forall e, sk_close_error st.1 = Some e -> is_OSError e = true) ->
  exists new st', _handle_client_safe st = (Ok tt, st')
    /\ sk_closed st'.1 = true /\ sk_out st'.1 = new ++ sk_out st.1 /\ length new <= 1.
Proof.
  intros Hclose. destruct (handle_client_once st) as (new & Ho & Hc & Hn).
  assert (exists st1, st_try handle_client (fun _ => mret tt) st = (Ok tt, st1)
    /\ sk_out st1.1 = new ++ sk_out st.1 /\ sk_close_error st1.1 = sk_close_error st.1) as (st1 & E & Ho1 & Hc1).
  { rewrite run_try. destruct (handle_client st) as [[[]|e] st1]; by eexists. }
  assert (length new <= 1) as Hlen by (destruct (handle_client st).1; cbn in Hn; lia).
  destruct (close_run st1) as (st2 & E2 & Hclosed & Ho2); [by rewrite Hc1|].
  exists new, st2. unfold _handle_client_safe. rewrite run_finally, E, E2. by rewrite Ho2.
Qed.

(** C29: a request sent with its length prefix is handled exactly as sent,
    however the network cuts the stream into pieces, and the one message sent
    back is the response with its length prefix: its header is the length of the
    rest, and the rest is JSON that reads back as the response. *)
Theorem framed_exchange s w payload text rest response w' :
  (0 < Z.of_nat (length payload) <= MAX_REQUEST_SIZE settings)%Z ->
  (MAX_REQUEST_SIZE settings < 0x7B000000)%Z ->
  bytes_decode payload = Ok text ->
  prefix (sk_in s) = frame payload ++ rest ->
  sk_send_errors s = [] ->
  rh_handle_request text w = (Ok response, w') ->
  (N.of_nat (length (payload_of response)) <= uint32_max)%N ->
  exists s', handle_client (s, w) = (Ok tt, (s', w'))
    /\ prefix (sk_in s') = rest
    /\ sk_out s' = frame (payload_of response) :: sk_out s
    /\ (json_ok (JObj response) = true ->
        struct_unpack_I (take 4 (frame (payload_of response)))
        = Ok (N.of_nat (length (drop 4 (frame (payload_of response)))))
        /\ (t ← bytes_decode (drop 4 (frame (payload_of response))); json_loads t) = Ok (JObj response)).
Proof.
  intros Hlen Hmax Htext Hp Hs Hh Hresp. unfold handle_client, settimeout. st_run.
  match goal with |- context [_recv_request ?st0] =>
    destruct (recv_request_framed st0 payload text rest Hlen Hmax Htext Hp) as (l' & E & Hpl & _) end.
  rewrite E. st_run. unfold in_process. cbn [fst snd at_input set_in]. rewrite Hh. st_run.
  unfold _send_response.
  match goal with |- context [send_framed response ?st0] =>
    destruct (send_framed_run response st0) as (st' & E' & Hout & Hw & Hin & _); [exact Hs|done|] end.
  rewrite E'. destruct st' as [s' w'']. cbn in *. subst w''. exists s'.
  split_and!; [done|by rewrite Hin|done|]. intros Hok. by apply frame_read.
Qed.

(** C31: whatever the client sends, the text handed to the handler is a part of
    the stream of at most [MAX_REQUEST_SIZE] bytes: the length announced in the
    prefix, or, without a prefix, what has arrived when it first parses as JSON,
    when the limit is reached or when the stream ends. *)
Theorem received_request_bounded st text framed st' :
  _recv_request st = (Ok (Some text, framed), st') ->
  exists l', st' = at_input l' st /\ bounded_request (sk_in st.1) text framed l'.
Proof.
  unfold _recv_request. rewrite run_try. rewrite run_bind.
  destruct (_recv_exact HEADER_SIZE st) as [[[header|]|e] st1] eqn:Eh.
  - destruct (recv_exact_some _ _ _ _ Eh) as (l1 & -> & Hp1 & Hlen & Ha1).
    change (N.to_nat HEADER_SIZE) with 4 in Hlen.
    destruct (match header with b :: _ => is_brace b | [] => false end).
    + rewrite run_bind. destruct (_recv_raw_json header (at_input l1 st)) as [[[data|]|e] st2] eqn:Er;
        try (st_run; done).
      * st_run. intros [= <- <- <-]. apply recv_raw_json_some in Er as (data' & l' & -> & Hd & Hraw).
        exists l'. split; [done|]. destruct Hraw as (c & -> & Hp & Hb & Hend). exists [], (header ++ c).
        cbn in Hp. split_and!; [done|by rewrite Hp1, Hp, app_assoc| |done|].
        { destruct Hb as [->|Hb]; [rewrite app_nil_r|]; lia. }
        destruct Hend as [?|[?|[? _]]]; auto.
      * destruct (exn_cls e); intros E; by apply send_error_none in E.
    + rewrite run_bind, run_lift. unfold struct_unpack_I. rewrite Hlen. cbn [Nat.eqb].
      destruct ((int_from_bytes header =? 0)%N || _) eqn:Hrange.
      { st_run. destruct (_send_error _ _) as [[[]|e] st2]; st_run; [done|].
        destruct (exn_cls e); intros E; by apply send_error_none in E. }
      apply orb_false_iff in Hrange as [_ Hmax]. apply Z.ltb_ge in Hmax. unfold MAX_HEADER_VALUE in Hmax.
      rewrite run_bind.
      destruct (_recv_exact (int_from_bytes header) (at_input l1 st)) as [[[body|]|e] st2] eqn:Eb.
      * destruct (recv_exact_some _ _ _ _ Eb) as (l2 & -> & Hp2 & Hlen2 & Ha2). cbn in Hp2.
        rewrite run_bind, run_lift. destruct (bytes_decode body) as [data|e] eqn:Hd; st_run.
        -- intros [= <- <- <-]. exists l2. split; [done|]. exists header, body.
           split_and!; [done|by rewrite Hp1, Hp2|lia|done|]. unfold struct_unpack_I. rewrite Hlen. cbn.
           f_equal. lia.
        -- destruct (exn_cls e); intros E; by apply send_error_none in E.
      * st_run. destruct (_send_error _ _) as [[[]|e] st3]; st_run; [done|].
        destruct (exn_cls e); intros E; by apply send_error_none in E.
      * destruct (exn_cls e); intros E; by apply send_error_none in E.
  - st_run. done.
  - destruct (exn_cls e); intros E; by apply send_error_none in E.
Qed.

(** A length prefix of zero or above the limit is refused before any byte of
    the body is read: the client gets the error and the connection is given up. *)
Theorem invalid_length_refused s w n rest :
  prefix (sk_in s) = bytes_of_Ns (be_Ns 4 n) ++ rest -> (n < 0x7B000000)%N ->
  n = 0%N \/ (MAX_REQUEST_SIZE settings < Z.of_N n)%Z ->
  sk_send_errors s = [] ->
  exists s', handle_client (s, w) = (Ok tt, (s', w))
    /\ prefix (sk_in s') = rest
    /\ sk_out s' = frame (payload_of (error_object "Invalid message length")) :: sk_out s.
Proof.
  intros Hp Hn Hbad Hs. unfold handle_client, settimeout. st_run.
  match goal with |- context [_recv_request ?st0] =>
    destruct (recv_header st0 (bytes_of_Ns (be_Ns 4 n)) rest (length_header n) Hp) as (l1 & E1 & Hp1 & _) end.
  unfold _recv_request. st_run. rewrite E1. st_run.
  assert (match bytes_of_Ns (be_Ns 4 n) with b :: _ => is_brace b | [] => false end = false) as ->
    by (destruct (bytes_of_Ns (be_Ns 4 n)) as [|b l] eqn:Eh; [done|by eapply header_not_brace]).
  unfold struct_unpack_I. rewrite length_header. cbn [Nat.eqb]. st_run.
  rewrite int_from_be_Ns by (apply N.lt_trans with 0x7B000000%N; done).
  assert ((n =? 0)%N || (MAX_HEADER_VALUE <? Z.of_N n)%Z = true) as ->.
  { destruct Hbad as [->|Hbad]; [done|]. apply orb_true_iff. right. by apply Z.ltb_lt. }
  st_run. unfold _send_error.
  match goal with |- context [send_framed ?r ?st0] =>
    destruct (send_framed_run r st0) as (st' & E' & Hout & Hw & Hin & _); [exact Hs|by vm_compute|] end.
  rewrite E'. destruct st' as [s' w'']. cbn [fst snd at_input set_in] in *. subst w''. st_run. exists s'.
  split_and!; [done|by rewrite Hin|done].
Qed.
End Properties.

(** ** Witnesses *)

Module ToyHandler.
(** A handler that sends the text back. *)
Definition echo : IRequestHandler := {|
  rh_handle_request text := mret [("success", JBool true); ("echo", JStr text)];
  rh_cleanup_session _ := mret true;
  rh_handle_execution r := mret r;
  rh_get_health_status := [];
|}.

Definition payload : bytes := ascii_bytes "{}".
Definition response : dict := [("success", JBool true); ("echo", JStr "{}")].
(** The header and the payload in three pieces, and one byte more. *)
Definition pieces : list incoming :=
  [Data (bytes_of_Ns [0; 0]%N); Data (bytes_of_Ns [0; 2; 123]%N); Data (bytes_of_Ns [125; 33]%N)].
Definition client (l : list incoming) : sock := Sock l [] [] 0 false None.
End ToyHandler.

#[local] Existing Instances default_settings ToyHandler.echo.

Example client_thread_safe_witness :
  exists st', _handle_client_safe (ToyHandler.client ToyHandler.pieces, empty_world) = (Ok tt, st')
    /\ sk_closed st'.1 = true.
Proof.
  destruct (client_thread_safe (ToyHandler.client ToyHandler.pieces, empty_world)) as (new & st' & E & Hc & _);
    [done|]. by exists st'.
Defined.

Example received_request_bounded_witness :
  exists l', bounded_request ToyHandler.pieces "{}" true l'.
Proof.
  destruct (received_request_bounded (ToyHandler.client ToyHandler.pieces, empty_world) "{}" true
    (_recv_request (ToyHandler.client ToyHandler.pieces, empty_world)).2) as (l' & _ & Hl);
    [vm_compute; reflexivity|]. by exists l'.
Defined.

Example invalid_length_refused_witness :
  exists s', handle_client (ToyHandler.client [Data (bytes_of_Ns [0; 0; 0; 0; 1]%N)], empty_world)
             = (Ok tt, (s', empty_world)).
Proof.
  destruct (invalid_length_refused (ToyHandler.client [Data (bytes_of_Ns [0; 0; 0; 0; 1]%N)]) empty_world 0
    (bytes_of_Ns [1]%N)) as (s' & E & _); [vm_compute; reflexivity|reflexivity|by left|reflexivity|by exists s'].
Defined.
