(* ===== verification/RawExchange.v ===== *)
(** * server/server.py: requests without a length prefix

    A client of the fallback sends a JSON object and waits with the connection
    open, so the server must see from the bytes alone that the request is
    complete.  It does: what [json.dumps] prints for an object never parses
    before its last byte ([PyJsonCut.json_loads_cut]). *)
From stdpp Require Import base tactics list gmap strings.
From Stdlib Require Import NArith ZArith Lia.
From S2P Require Import Prelude PyText PyCodec PyJson PyJsonParse PyJsonCut World Config Interfaces Server.

(** ** Printed objects as bytes *)

Definition object_text (d : dict) : str := json_dumps (JObj d).
Definition object_bytes (d : dict) : bytes := ascii_bytes (object_text d).

Lemma object_text_ascii d : is_ascii (object_text d) = true.
Proof. by apply dumps_ascii. Qed.

Lemma object_decode d : bytes_decode (object_bytes d) = Ok (object_text d).
Proof. by apply (bytes_decode_dumps default_style (JObj d)). Qed.

Lemma object_parses d : json_ok (JObj d) = true -> parses (object_bytes d) = Ok (object_text d).
Proof.
  intros Hok. unfold parses. rewrite object_decode. cbn [mbind result_mbind result_bind].
  unfold object_text. by rewrite json_loads_dumps.
Qed.

(** Any part of it from the start is refused as incomplete. *)
Lemma object_cut_parses d p q :
  json_ok (JObj d) = true -> object_bytes d = p ++ q -> q <> [] -> parses p = Raise json_error.
Proof.
  intros Hok E Hq. unfold object_bytes in E.
  assert (exists a b, object_text d = a ++ b /\ p = ascii_bytes a /\ q = ascii_bytes b) as (a & b & Et & -> & ->).
  { exists (take (length p) (object_text d)), (drop (length p) (object_text d)).
    split; [by rewrite take_drop|]. unfold ascii_bytes, bytes_of_Ns in *. rewrite <-firstn_map, <-skipn_map, E.
    by rewrite take_app_length, drop_app_length. }
  assert (b <> []) as Hb by (by intros ->).
  pose proof (object_text_ascii d) as Ha. rewrite Et, is_ascii_app in Ha. apply andb_true_iff in Ha as [Ha _].
  unfold parses. rewrite (bytes_decode_encode _ _ (str_encode_ascii _ Ha)). cbn [mbind result_mbind result_bind].
  rewrite (json_loads_cut default_style default_style_ok d); [done|done|]. by exists b.
Qed.

Lemma ends_with_brace_app a b : b <> [] -> ends_with_brace (a ++ b) = ends_with_brace b.
Proof. intros Hb. unfold ends_with_brace. destruct b as [|x b] using rev_ind; [done|]. by rewrite app_assoc, !last_snoc. Qed.

Lemma object_ends d : ends_with_brace (object_bytes d) = true.
Proof.
  unfold object_bytes, object_text, json_dumps. cbn [dumps]. unfold ascii_bytes, bytes_of_Ns. rewrite !map_app.
  rewrite app_assoc. by rewrite ends_with_brace_app.
Qed.

(** ** Receiving one *)

Section Raw.
Context `{Settings, IRequestHandler}.
Implicit Types st : sock * world.

Lemma recv_raw_loop_object d fuel : forall received l st,
  json_ok (JObj d) = true -> (Z.of_nat (length (object_bytes d)) <= MAX_REQUEST_SIZE settings)%Z ->
  in_size l < fuel -> sk_in st.1 = l -> object_bytes d = received ++ prefix l -> prefix l <> [] ->
  exists l', recv_raw_loop fuel received st = (Ok (object_bytes d), at_input l' st)
    /\ prefix l' = [] /\ after l' = after l.
Proof.
  induction fuel as [|fuel IH]; intros received l st Hok Hmax Hfuel Hin E Hne; [lia|].
  cbn [recv_raw_loop].
  assert (Z.of_nat (length received) < MAX_REQUEST_SIZE settings)%Z as Hlt.
  { rewrite E, length_app in Hmax. destruct (prefix l); [done|cbn in Hmax; lia]. }
  rewrite (proj2 (Z.leb_gt _ _)) by done. st_run. rewrite recv_run, Hin.
  destruct (recv_from_data (N.min 65536 (Z.to_N (MAX_REQUEST_SIZE settings - Z.of_nat (length received)))) l Hne)
    as (c & l1 & Er & Hc & _ & Hpre & Ha & Hs); [lia|].
  rewrite Er. destruct c as [|x c]; [done|]. set (ch := x :: c) in *.
  rewrite Hpre, app_assoc in E. unfold ch at 1. cbv beta iota. fold ch.
  destruct (decide (prefix l1 = [])) as [Hp1|Hp1].
  - rewrite Hp1, app_nil_r in E. rewrite <-E.
    assert (ends_with_brace ch = true) as ->
      by (rewrite <-(ends_with_brace_app received) by done; rewrite <-E; apply object_ends).
    rewrite object_parses by done. exists l1. split_and!; done.
  - assert (exists l', recv_raw_loop fuel (received ++ ch) (at_input l1 st) = (Ok (object_bytes d), at_input l' st)
      /\ prefix l' = [] /\ after l' = after l) as Hgo.
    { destruct (IH (received ++ ch) l1 (at_input l1 st)) as (l' & E' & Hp' & Ha'); try done; [lia|].
      exists l'. by rewrite <-Ha. }
    destruct (ends_with_brace ch); [|exact Hgo].
    rewrite (object_cut_parses d _ _ Hok E Hp1). exact Hgo.
Qed.

(** A raw object is received as sent, in whatever pieces, and nothing more is
    waited for. *)
Lemma recv_request_raw st d :
  json_ok (JObj d) = true -> 4 < length (object_bytes d) ->
  (Z.of_nat (length (object_bytes d)) <= MAX_REQUEST_SIZE settings)%Z ->
  prefix (sk_in st.1) = object_bytes d ->
  exists l', _recv_request st = (Ok (Some (object_text d), false), at_input l' st)
    /\ prefix l' = [] /\ after l' = after (sk_in st.1).
Proof.
  intros Hok Hlen Hmax Hp. unfold _recv_request. rewrite run_try, run_bind.
  set (header := take 4 (object_bytes d)). set (rest := drop 4 (object_bytes d)).
  assert (object_bytes d = header ++ rest) as E by (unfold header, rest; by rewrite take_drop).
  assert (length header = 4) as Hlh by (unfold header; rewrite length_take; lia).
  assert (0 < length rest) as Hlr by (unfold rest; rewrite length_drop; lia).
  assert (rest <> []) as Hrest by (by intros Hr; rewrite Hr in Hlr; apply Nat.lt_irrefl in Hlr).
  destruct (recv_header st header rest Hlh) as (l1 & E1 & Hp1 & Ha1); [by rewrite Hp|]. rewrite E1.
  assert (match header with b :: _ => is_brace b | [] => false end = true) as ->.
  { unfold header, object_bytes, object_text, json_dumps. cbn [dumps]. done. }
  rewrite run_bind. unfold _recv_raw_json. rewrite run_bind, run_gets. cbn [at_input set_in fst sk_in].
  rewrite run_bind.
  destruct (recv_raw_loop_object d (S (in_size l1)) header l1 (at_input l1 st)) as (l' & E' & Hp' & Ha'); 
    [done|done|lia|done|by rewrite Hp1|by rewrite Hp1|].
  rewrite E'. st_run. rewrite object_decode. st_run. exists l'. split_and!; [done|done|congruence].
Qed.

Lemma raw_handled s w request response w' :
  json_ok (JObj request) = true -> 4 < length (object_bytes request) ->
  (Z.of_nat (length (object_bytes request)) <= MAX_REQUEST_SIZE settings)%Z ->
  prefix (sk_in s) = object_bytes request -> sk_send_errors s = [] ->
  rh_handle_request (object_text request) w = (Ok response, w') ->
  exists s', handle_client (s, w) = (Ok tt, (s', w'))
    /\ prefix (sk_in s') = [] /\ after (sk_in s') = after (sk_in s)
    /\ sk_out s' = object_bytes response :: sk_out s.
Proof.
  intros Hok Hlen Hmax Hp Hs Hh. unfold handle_client, settimeout. st_run.
  match goal with |- context [_recv_request ?st0] =>
    destruct (recv_request_raw st0 request Hok Hlen Hmax Hp) as (l' & E & Hpl & Ha) end.
  rewrite E. st_run. unfold in_process. cbn [fst snd at_input set_in]. rewrite Hh. st_run.
  unfold _send_response_raw, catch_OSError. rewrite run_try.
  match goal with |- context [sendall ?b ?st0] =>
    destruct (sendall_run b st0) as (st' & E' & Hout & Hw & Hin & _); [exact Hs|] end.
  rewrite E'. destruct st' as [s' w'']. cbn in *. subst w''. exists s'.
  split_and!; [done|by rewrite Hin|by rewrite Hin|done].
Qed.

(** A raw JSON request is handled exactly as sent, although its end is not
    marked: in whatever pieces the network delivers it, no shorter part of it is
    taken for the request, and the server does not wait for more once its last
    byte is there, so a client that keeps the connection open is answered.  The
    answer is the response without a length prefix. *)
Theorem raw_exchange s w request response w' :
  json_ok (JObj request) = true -> 4 < length (object_bytes request) ->
  (Z.of_nat (length (object_bytes request)) <= MAX_REQUEST_SIZE settings)%Z ->
  prefix (sk_in s) = object_bytes request -> sk_send_errors s = [] ->
  rh_handle_request (object_text request) w = (Ok response, w') ->
  exists s', handle_client (s, w) = (Ok tt, (s', w'))
    /\ prefix (sk_in s') = [] /\ after (sk_in s') = after (sk_in s)
    /\ sk_out s' = object_bytes response :: sk_out s.
Proof. exact (raw_handled s w request response w'). Qed.
End Raw.

(** ** Witness

    A request in three pieces, the second of which ends in a brace inside of a
    string; then the connection stays open. *)
Module ToyRaw.
Definition request : dict := [("operation", JStr "}health_check}")].
Definition pieces : list incoming :=
  [Data (take 7 (object_bytes request)); Data (take 9 (drop 7 (object_bytes request)));
   Data (drop 16 (object_bytes request)); RecvError (Exn SocketTimeout "timed out")].
End ToyRaw.

#[local] Existing Instances default_settings ToyHandler.echo.

Example raw_exchange_witness :
  exists s', handle_client (ToyHandler.client ToyRaw.pieces, empty_world) = (Ok tt, (s', empty_world))
    /\ sk_out s' = [object_bytes [("success", JBool true); ("echo", JStr (object_text ToyRaw.request))]].
Proof.
  destruct (raw_exchange (ToyHandler.client ToyRaw.pieces) empty_world ToyRaw.request
    [("success", JBool true); ("echo", JStr (object_text ToyRaw.request))] empty_world) as (s' & E & _ & _ & Hout).
  - vm_compute. reflexivity.
  - vm_compute. lia.
  - vm_compute. congruence.
  - vm_compute. reflexivity.
  - reflexivity.
  - reflexivity.
  - by exists s'.
Defined.
