(* ===== verification/RequestHandler.v ===== *)
(** * request_handler_impl.py: the operations a client can request

    The handler only sees its services through their interfaces.  A request is
    any JSON value; every exception becomes an error response. *)
From stdpp Require Import base tactics list gmap strings.
From Stdlib Require Import NArith ZArith Lia.
From S2P Require Import Prelude PyText PyCodec Sha2 PyJson PyJsonParse World Crypto OutputFiles Interfaces.

(** ** Dict operations on a request *)

(** [d[key]]. *)
Definition dict_index (key : str) (d : dict) : res json :=
  match dict_get key d with
  | Some v => Ok v
  | None => raise (Exn KeyError ("'" ++ key ++ "'"))
  end.

(** [d.get(key, default)]. *)
Definition dict_get_or (key : str) (default : json) (d : dict) : json :=
  match dict_get key d with Some v => v | None => default end.

Definition opt_json {A} (f : A -> json) (o : option A) : json :=
  match o with Some a => f a | None => JNull end.

(** [bytes.fromhex(v)]. *)
Definition fromhex_arg (v : json) : res bytes :=
  match v with
  | JStr s => bytes_fromhex s
  | _ => raise (Exn TypeError ("fromhex() argument must be str, not " ++ type_name v))
  end.

(** [nonce.encode() if isinstance(nonce, str) else nonce], when it is not empty. *)
Definition nonce_arg (v : json) : res pyval :=
  match v with
  | JStr s => if truthy v then b ← str_encode s; Ok (VBytes b) else Ok (VJson v)
  | _ => Ok (VJson v)
  end.

Definition _error_response (message : str) : dict := [("success", JBool false); ("error", JStr message)].

Section Handler.
Context `{Env, IDecryptService, IExecuteService, IKeyPairManager, IAttestationService}.
(** The [attest_enclave] attribute of [kms_attestation], which may be missing. *)
Context (kms_attestation : option (json -> IO (bool * json))).

(** ** Sessions *)

Definition cleanup_session (session_id : json) : IO bool := km_delete_keypair session_id.

Definition get_public_key (session_id : json) : IO (option str) := km_get_public_key session_id.

Definition get_session (session_id : json) : IO (option dict) :=
  public_key ← km_get_public_key session_id;
  mret (pk ← public_key; Some [("session_id", session_id); ("public_key", JStr pk)]).

Definition _generate_keypair (request : dict) : IO dict :=
  catch
    (job_id ← st_lift (dict_index "job_id" request);
     let key_size := dict_get_or "key_size" (JInt 2048) request in
     '(success, session_id) ← km_generate_keypair job_id key_size;
     if negb success then mret (_error_response ("Keypair generation failed: " ++ session_id))
     else
       public_key ← km_get_public_key (JStr session_id);
       mret [("success", JBool true); ("session_id", JStr session_id);
             ("public_key", opt_json JStr public_key); ("job_id", job_id); ("key_size", key_size)])
    (fun e => mret (_error_response ("Keypair generation error: " ++ exn_msg e))).

Definition create_session (job_id : json) : IO dict := _generate_keypair [("job_id", job_id)].

(** ** Execution *)

Definition file_entry (f : output_file) : json :=
  JObj [("name", JStr (of_name f)); ("size", JInt (of_size f)); ("sha256", JStr (of_sha256 f));
        ("type", JStr (of_type f)); ("content_b64", JStr (b64encode (of_content f)))].

(** Decrypting one payload, with its entry in [timing]; the message of a failure. *)
Definition decrypt_step (encrypted session_id : json) (key : str) (timing : dict)
    : IO (bool * bytes * dict) :=
  t0 ← time_time;
  '(success, decrypted) ← ds_decrypt_combined_hybrid_data encrypted session_id;
  t1 ← time_time;
  mret (success, decrypted, dict_set key (elapsed_ms t0 t1) timing).

(** From the executed bundle to the response. *)
Definition attested_response (request : dict) (session_id : json) (decrypted_zip : bytes)
    (decrypted_csv : option bytes) (output : str) (files : list output_file) (timing : dict) : IO dict :=
  let atl_nonce_hex := dict_get_or "atl_nonce" JNull request in
  external_nonce ← (if truthy atl_nonce_hex then
                      b ← st_lift (fromhex_arg atl_nonce_hex); mret (Some b)
                    else mret None);
  let context_hash := dict_get_or "atl_context_hash" JNull request in
  let manifest_sha256 := files_manifest_sha256 (build_files_manifest files) in
  t0 ← time_time;
  '(attestation_success, attestation_result) ← at_create_execution_attestation {|
     ea_job_id := session_id;
     ea_output := output;
     ea_script_bytes := Some decrypted_zip;
     ea_dataset_bytes := decrypted_csv;
     ea_external_nonce := external_nonce;
     ea_context_hash := context_hash;
     ea_files_manifest_sha256 := Some manifest_sha256;
   |};
  t1 ← time_time;
  let timing := dict_set "attestation_generation_ms" (elapsed_ms t0 t1) timing in
  let response :=
    [("success", JBool true);
     ("output", JStr output);
     ("files", JArr (map file_entry files));
     ("files_manifest_sha256", JStr manifest_sha256);
     ("session_id", session_id);
     ("enclave_proof", JObj [("ran_in_enclave", JBool at_is_real_enclave);
                             ("attestation_available", JBool attestation_success)]);
     ("timing", JObj timing)] in
  mret (if (attestation_success : bool) then response ++ [("attestation", JObj attestation_result)]
        else response).

Definition run_bundle (request : dict) (session_id : json) (decrypted_zip : bytes)
    (decrypted_csv : option bytes) (timing : dict) : IO dict :=
  t0 ← time_time;
  '(success, output, files) ← es_execute_bundle decrypted_zip session_id None decrypted_csv;
  t1 ← time_time;
  let timing := dict_set "script_execution_ms" (elapsed_ms t0 t1) timing in
  _ ← cleanup_session session_id;
  if (success : bool) then
    attested_response request session_id decrypted_zip decrypted_csv output files timing
  else mret (_error_response ("Execution failed: " ++ output)).

Definition _execute_encrypted_script (request : dict) : IO dict :=
  catch
    (session_id ← st_lift (dict_index "session_id" request);
     encrypted_data ← st_lift (dict_index "encrypted_data" request);
     let encrypted_csv := dict_get_or "encrypted_csv" JNull request in
     _ ← st_lift (py_len encrypted_data);
     _ ← st_lift (if truthy encrypted_csv then py_len encrypted_csv else Ok 0);
     '(success, decrypted_zip, timing) ← decrypt_step encrypted_data session_id "decrypt_zip_ms" [];
     if negb success then
       error_msg ← st_lift (bytes_decode decrypted_zip);
       mret (_error_response ("ZIP decryption failed: " ++ error_msg))
     else if truthy encrypted_csv then
       '(success, decrypted_csv, timing) ← decrypt_step encrypted_csv session_id "decrypt_csv_ms" timing;
       if negb success then
         error_msg ← st_lift (bytes_decode decrypted_csv);
         mret (_error_response ("CSV decryption failed: " ++ error_msg))
       else run_bundle request session_id decrypted_zip (Some decrypted_csv) timing
     else run_bundle request session_id decrypted_zip None timing)
    (fun e => mret (_error_response ("Execution error: " ++ exn_msg e))).

Definition handle_execution (request : dict) : IO dict := _execute_encrypted_script request.

(** ** Attestation *)

(** Line 389 of the source holds a dash outside ASCII. *)
Definition verification_steps : list str :=
  ["1. Base64-decode the attestation document";
   "2. Parse CBOR and verify COSE_Sign1 signature against AWS Nitro root cert";
   "3. Extract user_data from the verified attestation";
   "4. Compute SHA-256 hash of the received public_key";
   "5. Compare the hash with user_data " ++ [0x2014%N] ++ " they must match";
   "6. If match: the public key was generated inside a genuine Nitro enclave"].

Definition _get_attestation_for_proxy (request : dict) : IO dict :=
  t_total ← time_time;
  catch
    (job_id ← st_lift (dict_index "job_id" request);
     let key_size := dict_get_or "key_size" (JInt 2048) request in
     t0 ← time_time;
     '(success, session_id) ← km_generate_keypair job_id key_size;
     if negb success then mret (_error_response ("Keypair generation failed: " ++ session_id))
     else
       public_key ← km_get_public_key (JStr session_id);
       match public_key with
       | None | Some [] => mret (_error_response "Failed to retrieve generated public key")
       | Some public_key =>
           t1 ← time_time;
           t2 ← time_time;
           encoded ← st_lift (str_encode public_key);
           let public_key_hash := sha256 encoded in
           nonce ← st_lift (nonce_arg (dict_get_or "nonce" JNull request));
           t3 ← time_time;
           t4 ← time_time;
           '(success_attest, attestation) ← at_generate_attestation (VBytes public_key_hash) nonce VNone;
           t5 ← time_time;
           t6 ← time_time;
           let timings := [("keypair_generation_ms", elapsed_ms t0 t1);
                           ("user_data_build_ms", elapsed_ms t2 t3);
                           ("nsm_attestation_ms", elapsed_ms t4 t5);
                           ("total_ms", elapsed_ms t_total t6)] in
           mret [("success", JBool true);
                 ("session_id", JStr session_id);
                 ("public_key", JStr public_key);
                 ("public_key_hash", JStr (b64encode public_key_hash));
                 ("job_id", job_id);
                 ("key_size", key_size);
                 ("attestation", if (success_attest : bool) then JObj attestation else JNull);
                 ("attestation_available", JBool success_attest);
                 ("is_real_enclave", JBool at_is_real_enclave);
                 ("timings", JObj timings);
                 ("verification_steps", JArr (map JStr verification_steps))]
       end)
    (fun e => mret (_error_response ("Proxy attestation error: " ++ exn_msg e))).

(** The [user_data] that vouches for a session key. *)
Definition session_user_data (public_key : str) (session_id : json) : bytes :=
  dumps_bytes default_style (JObj [("public_key", JStr public_key); ("session_id", session_id)]).

Definition _get_attestation (request : dict) : IO dict :=
  catch
    (session_id ← st_lift (dict_index "session_id" request);
     public_key ← km_get_public_key session_id;
     match public_key with
     | None | Some [] => mret (_error_response ("Unknown session: " ++ fmt session_id))
     | Some public_key =>
         let user_data := session_user_data public_key session_id in
         nonce ← st_lift (nonce_arg (dict_get_or "nonce" JNull request));
         '(success, attestation) ← at_generate_attestation (VBytes user_data) nonce VNone;
         mret [("success", JBool success);
               ("attestation", if (success : bool) then JObj attestation else JNull);
               ("error", if (success : bool) then JNull else dict_get_or "error" JNull attestation);
               ("is_real_enclave", JBool at_is_real_enclave)]
     end)
    (fun e => mret (_error_response ("Attestation error: " ++ exn_msg e))).

Definition handle_attestation (request : dict) : IO dict :=
  match kms_attestation with
  | None => mret (_error_response "KMS attestation not available")
  | Some attest_enclave =>
      catch
        (credentials ← st_lift (dict_index "credentials" request);
         '(success, result) ← attest_enclave credentials;
         mret [("success", JBool success);
               ("data", if (success : bool) then result else JNull);
               ("error", if (success : bool) then JNull else result)])
        (fun e => mret (_error_response ("Attestation error: " ++ exn_msg e)))
  end.

(** ** Status *)

Definition kms_status : json :=
  JStr (match kms_attestation with Some _ => "active" | None => "disabled" end).

Definition get_health_status : dict :=
  [("success", JBool true);
   ("data", JObj [("status", JStr "healthy");
                  ("services", JObj [("decrypt_service", JStr "active");
                                     ("execute_service", JStr "active");
                                     ("keypair_manager", JStr "active");
                                     ("kms_attestation", kms_status)])])].

Definition _get_enclave_info : dict :=
  [("success", JBool true);
   ("enclave_info", JObj [
      ("is_nitro_enclave", JBool at_is_real_enclave);
      ("nsm_available", JBool (path_exists "/dev/nsm"));
      ("attestation_supported", JBool at_is_real_enclave);
      ("services", JObj [("decrypt_service", JStr "active");
                         ("execute_service", JStr "active");
                         ("keypair_manager", JStr "active");
                         ("attestation_service", JStr "active");
                         ("kms_attestation", kms_status)]);
      ("pcr_info", JStr "PCR values are included in attestation documents. Compare with published enclave image hash to verify code integrity.")])].

(** ** Dispatch *)

(** [json.loads], with a syntax error read as [None]. *)
Definition _parse_request (request_data : str) : res json :=
  match json_loads request_data with
  | Raise e => match exn_cls e with JSONDecodeError => Ok JNull | _ => Raise e end
  | r => r
  end.

Definition validate_request (request : dict) : option str :=
  let operation := dict_get_or "operation" JNull request in
  let required (fields : list str) :=
    match find (fun f => negb (dict_has f request)) fields with
    | Some f => Some ("Missing required field: " ++ f)
    | None => None
    end in
  if negb (truthy operation) then Some "Missing required field: operation"
  else if eq_str operation "generate_rsa_keypair" then required ["job_id"]
  else if eq_str operation "execute_script_rsa_hybrid" then required ["session_id"; "encrypted_data"]
  else if eq_str operation "get_attestation_for_proxy" then required ["job_id"]
  else if eq_str operation "get_attestation" then
    match required ["session_id"] with
    | Some e => Some e
    | None => if dict_has "user_data" request then
                Some "user_data is not accepted: the enclave attests only its own session key"
              else None
    end
  else None.

Definition dispatch (request : dict) (operation : json) : IO dict :=
  if eq_str operation "generate_rsa_keypair" then _generate_keypair request
  else if eq_str operation "execute_script_rsa_hybrid" then _execute_encrypted_script request
  else if eq_str operation "health_check" then
    mret [("success", JBool true); ("message", JStr "Enclave healthy")]
  else if eq_str operation "get_attestation" then _get_attestation request
  else if eq_str operation "get_attestation_for_proxy" then _get_attestation_for_proxy request
  else if eq_str operation "get_enclave_info" then mret _get_enclave_info
  else mret (_error_response ("Unknown operation: " ++ fmt operation)).

Definition handle_request (request_data : str) : IO dict :=
  catch
    (request ← st_lift (_parse_request request_data);
     match request with
     | JNull => mret (_error_response "Invalid JSON request")
     | JObj request =>
         match validate_request request with
         | Some validation_error => mret (_error_response validation_error)
         | None =>
             operation ← st_lift (dict_index "operation" request);
             dispatch request operation
         end
     | v => mraise (Exn AttributeError ("'" ++ type_name v ++ "' object has no attribute 'get'"))
     end)
    (fun e => mret (_error_response ("Server error: " ++ exn_msg e))).

#[export] Instance request_handler : IRequestHandler := {|
  rh_handle_request := handle_request;
  rh_cleanup_session := cleanup_session;
  rh_handle_execution := handle_execution;
  rh_get_health_status := get_health_status;
|}.
End Handler.

(** ** Every operation responds *)

(** [success] is a boolean, and a failure carries an [error]. *)
Definition good_response (r : dict) : Prop :=
  exists b, dict_get "success" r = Some (JBool b) /\ (b = false -> dict_has "error" r = true).

Lemma good_error msg : good_response (_error_response msg).
Proof. by exists false. Qed.

#[export] Hint Resolve good_error : responds.
#[export] Hint Extern 2 (good_response (_ :: _)) => by eexists : responds.

Section Responds.
Context `{Env, IDecryptService, IExecuteService, IKeyPairManager, IAttestationService}.
Context (kms_attestation : option (json -> IO (bool * json))).

Lemma generate_keypair_total_in request : total_in good_response (_generate_keypair request).
Proof.
  apply total_catch; [|auto with responds]. apply returns_bind; intros job_id.
  apply returns_bind; intros [success session_id]. destruct (negb success); auto with responds.
Qed.

Lemma attested_response_returns request session_id zip csv output files timing :
  returns_in good_response (attested_response request session_id zip csv output files timing).
Proof.
  apply returns_bind; intros external_nonce. apply returns_bind; intros t0.
  apply returns_bind; intros [success result]. apply returns_bind; intros t1.
  destruct success; by apply returns_ret; eexists.
Qed.

Lemma run_bundle_returns request session_id zip csv timing :
  returns_in good_response (run_bundle request session_id zip csv timing).
Proof.
  apply returns_bind; intros t0. apply returns_bind; intros [[success output] files].
  apply returns_bind; intros t1. apply returns_bind; intros _.
  destruct success; [apply attested_response_returns|auto with responds].
Qed.

Lemma execute_total_in request : total_in good_response (_execute_encrypted_script request).
Proof.
  apply total_catch; [|auto with responds]. do 4 (apply returns_bind; intros ?).
  apply returns_bind; intros [[success zip] timing]. destruct (negb success); [auto with responds|].
  destruct (truthy _); [|apply run_bundle_returns].
  apply returns_bind; intros [[success' csv] timing']. destruct (negb success'); [auto with responds|].
  apply run_bundle_returns.
Qed.

Lemma get_attestation_total_in request : total_in good_response (_get_attestation request).
Proof.
  apply total_catch; [|auto with responds]. do 2 (apply returns_bind; intros ?).
  destruct a0 as [[|c pk]|]; [auto with responds| |auto with responds].
  apply returns_bind; intros nonce. apply returns_bind; intros [success attestation].
  apply returns_ret. by eexists.
Qed.

Lemma proxy_total_in request : total_in good_response (_get_attestation_for_proxy request).
Proof.
  apply total_time; intros t. apply total_catch; [|auto with responds]. do 2 (apply returns_bind; intros ?).
  apply returns_bind; intros [success session_id]. destruct (negb success); [auto with responds|].
  apply returns_bind; intros [[|c pk]|]; [auto with responds| |auto with responds].
  do 6 (apply returns_bind; intros ?). apply returns_bind; intros [success' attestation].
  do 2 (apply returns_bind; intros ?). apply returns_ret. by eexists.
Qed.

Lemma dispatch_total_in request operation :
  total_in good_response (dispatch kms_attestation request operation).
Proof.
  unfold dispatch. destruct (eq_str _ _); [apply generate_keypair_total_in|].
  destruct (eq_str _ _); [apply execute_total_in|]. destruct (eq_str _ _); [by apply total_ret; eexists|].
  destruct (eq_str _ _); [apply get_attestation_total_in|].
  destruct (eq_str _ _); [apply proxy_total_in|].
  destruct (eq_str _ _); [by apply total_ret; eexists|auto with responds].
Qed.

(** Every request, whatever its text, gets a response: a dict whose
    [success] is a boolean and that has an [error] when it is false.  The handler
    never raises, whatever its services do. *)
Theorem handle_request_responds request_data w :
  exists response w', handle_request kms_attestation request_data w = (Ok response, w')
    /\ good_response response.
Proof.
  revert w. apply total_catch; [|auto with responds]. apply returns_bind; intros request.
  destruct request as [| | | | | |d]; try (by auto with responds).
  destruct (validate_request d); [auto with responds|]. apply returns_bind; intros operation.
  apply returns_total, dispatch_total_in.
Qed.

(** A request that does not parse, is not an object or fails the validation
    is refused without any effect on the process: no service is called.  In
    particular an attestation request that brings its own [user_data] is. *)
Theorem invalid_request_refused request_data w :
  match _parse_request request_data with
  | Ok (JObj request) =>
      forall e, validate_request request = Some e ->
        handle_request kms_attestation request_data w = (Ok (_error_response e), w)
  | Ok JNull => handle_request kms_attestation request_data w = (Ok (_error_response "Invalid JSON request"), w)
  | Ok v => handle_request kms_attestation request_data w
            = (Ok (_error_response ("Server error: '" ++ type_name v ++ "' object has no attribute 'get'")), w)
  | Raise e => handle_request kms_attestation request_data w
               = (Ok (_error_response ("Server error: " ++ exn_msg e)), w)
  end.
Proof.
  unfold handle_request. st_run. destruct (_parse_request request_data) as [v|e]; [|done]. st_run.
  destruct v as [|b|z|f|s|l|request]; try done. intros e He. by rewrite He.
Qed.

(** C25: the validation passes exactly the requests that name an operation and
    have its required fields; an attestation request must not bring
    [user_data]. *)
Theorem validate_request_spec request :
  validate_request request = None <->
  exists operation, dict_get "operation" request = Some operation /\ truthy operation = true
    /\ (operation = JStr "generate_rsa_keypair" -> dict_has "job_id" request = true)
    /\ (operation = JStr "execute_script_rsa_hybrid" ->
        dict_has "session_id" request = true /\ dict_has "encrypted_data" request = true)
    /\ (operation = JStr "get_attestation_for_proxy" -> dict_has "job_id" request = true)
    /\ (operation = JStr "get_attestation" ->
        dict_has "session_id" request = true /\ dict_has "user_data" request = false).
Proof.
  unfold validate_request, dict_get_or.
  destruct (dict_get "operation" request) as [op|]; [|split; [done|by intros (? & ? & _)]].
  destruct (truthy op) eqn:Ht; cbn [negb]; [|split; [done|by intros (? & [= ->] & ? & _); congruence]].
  split.
  - intros Hv. exists op. split_and!; [done|done|intros ->; revert Hv..].
    all: cbn [find]; repeat match goal with |- context [dict_has ?f ?r] => destruct (dict_has f r) end; vm_compute; done.
  - intros (op' & [= <-] & _ & Hv1 & Hv2 & Hv3 & Hv4).
    destruct (eq_str op "generate_rsa_keypair") eqn:E1; [apply eq_str_true in E1; cbn [find]; by rewrite (Hv1 E1)|].
    destruct (eq_str op "execute_script_rsa_hybrid") eqn:E2.
    { apply eq_str_true in E2. cbn [find]. destruct (Hv2 E2) as [-> ->]. done. }
    destruct (eq_str op "get_attestation_for_proxy") eqn:E3; [apply eq_str_true in E3; cbn [find]; by rewrite (Hv3 E3)|].
    destruct (eq_str op "get_attestation") eqn:E4; [|done].
    apply eq_str_true in E4. cbn [find]. destruct (Hv4 E4) as [-> ->]. done.
Qed.
End Responds.

(** ** Looking into a response *)

(** A response entry, read back. *)
Definition get_str (k : str) (d : dict) : option str :=
  match dict_get k d with Some (JStr s) => Some s | _ => None end.
Definition get_int (k : str) (d : dict) : option Z :=
  match dict_get k d with Some (JInt z) => Some z | _ => None end.

Definition read_entry (v : json) : option output_file :=
  match v with
  | JObj d =>
      n ← get_str "name" d; z ← get_int "size" d; h ← get_str "sha256" d; t ← get_str "type" d;
      c ← get_str "content_b64" d;
      match b64decode c with Ok b => Some (OutputFile n z h t b) | Raise _ => None end
  | _ => None
  end.

Lemma read_entry_file_entry f : read_entry (file_entry f) = Some f.
Proof.
  destruct f as [n z h t c]. unfold read_entry, file_entry. cbn [of_name of_size of_sha256 of_type of_content].
  set (d := [("name", JStr n); _; _; _; _]).
  assert (get_str "name" d = Some n /\ get_int "size" d = Some z /\ get_str "sha256" d = Some h
    /\ get_str "type" d = Some t /\ get_str "content_b64" d = Some (b64encode c)) as (-> & -> & -> & -> & ->)
    by (split_and!; reflexivity).
  cbn [mbind option_bind]. by rewrite b64decode_encode.
Qed.

Definition read_files_field (r : dict) : option (list output_file) :=
  match dict_get "files" r with
  | Some (JArr l) => mapM read_entry l
  | _ => None
  end.

Lemma mapM_read_entry files : mapM read_entry (map file_entry files) = Some files.
Proof.
  induction files as [|f files IH]; [done|]. cbn [map mapM]. rewrite read_entry_file_entry. cbn. by rewrite IH.
Qed.

Section Runs.
Context `{Env, IDecryptService, IExecuteService, IKeyPairManager, IAttestationService}.

(** [encrypted] was decrypted to [plain]. *)
Definition decrypted_to (encrypted session_id : json) (plain : bytes) : Prop :=
  exists w w', ds_decrypt_combined_hybrid_data encrypted session_id w = (Ok (true, plain), w').

(** The dataset that went into the run. *)
Definition dataset_of (request : dict) (session_id : json) (csv : option bytes) : Prop :=
  let encrypted_csv := dict_get_or "encrypted_csv" JNull request in
  match csv with
  | Some c => truthy encrypted_csv = true /\ decrypted_to encrypted_csv session_id c
  | None => truthy encrypted_csv = false
  end.

(** The messages of a request that came to no result of a script. *)
Definition not_run (r : dict) : Prop :=
  exists kind msg, r = _error_response (kind ++ msg)
    /\ (kind = "ZIP decryption failed: " \/ kind = "CSV decryption failed: " \/ kind = "Execution error: ").

Lemma decrypt_step_ok {B} encrypted session_id key timing (k : bool * bytes * dict -> IO B) w b w' :
  (decrypt_step encrypted session_id key timing ≫= k) w = (Ok b, w') ->
  exists success plain timing' wa wb wc,
    ds_decrypt_combined_hybrid_data encrypted session_id wa = (Ok (success, plain), wb)
    /\ k (success, plain, timing') wc = (Ok b, w').
Proof.
  intros E. apply bind_ok in E as ([[success plain] timing'] & wc & E & Ek).
  apply time_ok in E. apply bind_ok in E as ([success' plain'] & wb & E & E').
  apply time_ok, ret_ok in E' as [[= -> -> <-] <-].
  by eexists success, plain, _, _, wb, _.
Qed.

Lemma execute_cases request w resp w' :
  _execute_encrypted_script request w = (Ok resp, w') ->
  not_run resp \/
  exists session_id encrypted_data zip csv timing w1,
    dict_get "session_id" request = Some session_id /\ dict_get "encrypted_data" request = Some encrypted_data
    /\ decrypted_to encrypted_data session_id zip /\ dataset_of request session_id csv
    /\ run_bundle request session_id zip csv timing w1 = (Ok resp, w').
Proof.
  intros E. apply catch_ok in E as [E|(e & w1 & _ & E)];
    [|apply ret_ok in E as [<- _]; left; eexists _, _; split; [done|auto]].
  apply lift_ok in E as (session_id & Hsid & E). apply lift_ok in E as (encrypted & Henc & E).
  apply lift_ok in E as (_ & _ & E). apply lift_ok in E as (_ & _ & E).
  unfold dict_index in Hsid, Henc.
  destruct (dict_get "session_id" request) as [sid|]; [injection Hsid as <-|done].
  destruct (dict_get "encrypted_data" request) as [enc|]; [injection Henc as <-|done].
  apply decrypt_step_ok in E as (success & zip & timing & wa & wb & wc & Hzip & E).
  destruct success; cbn [negb] in E.
  2: { apply lift_ok in E as (msg & _ & E). apply ret_ok in E as [<- _]. left. eexists _, _. split; [done|auto]. }
  destruct (truthy (dict_get_or "encrypted_csv" JNull request)) eqn:Hcsv.
  2: { right. exists sid, enc, zip, None, timing, wc. split_and!; [done|done|by exists wa, wb|done|done]. }
  apply decrypt_step_ok in E as (success & csv & timing' & wd & we & wf & Hd & E).
  destruct success; cbn [negb] in E.
  2: { apply lift_ok in E as (msg & _ & E). apply ret_ok in E as [<- _]. left. eexists _, _. split; [done|auto]. }
  right. exists sid, enc, zip, (Some csv), timing', wf. split_and!; [done|done|by exists wa, wb| |done].
  split; [done|]. by exists wd, we.
Qed.

Lemma run_bundle_cases request session_id zip csv timing w resp w' :
  run_bundle request session_id zip csv timing w = (Ok resp, w') ->
  exists success output files wa wb wc timing',
    es_execute_bundle zip session_id None csv wa = (Ok (success, output, files), wb)
    /\ (exists r, km_delete_keypair session_id (tick wb) = (Ok r, wc))
    /\ (if (success : bool) then attested_response request session_id zip csv output files timing' wc = (Ok resp, w')
        else resp = _error_response ("Execution failed: " ++ output) /\ w' = wc).
Proof.
  intros E. apply time_ok in E. apply bind_ok in E as ([[success output] files] & wb & Hb & E).
  apply time_ok in E. apply bind_ok in E as (r & wc & Hd & E).
  exists success, output, files, (tick w), wb, wc. destruct success.
  - eexists. split_and!; [done|by exists r|exact E].
  - apply ret_ok in E as [<- <-]. exists timing. split_and!; [done|by exists r|done|done].
Qed.

(** The arguments of the attestation of a run. *)
Definition proof_args (request : dict) (session_id : json) (zip : bytes) (csv : option bytes)
    (output : str) (files : list output_file) (nonce : option bytes) : execution_proof_args := {|
  ea_job_id := session_id;
  ea_output := output;
  ea_script_bytes := Some zip;
  ea_dataset_bytes := csv;
  ea_external_nonce := nonce;
  ea_context_hash := dict_get_or "atl_context_hash" JNull request;
  ea_files_manifest_sha256 := Some (files_manifest_sha256 (build_files_manifest files));
|}.

(** The nonce the request supplied, in hexadecimal. *)
Definition nonce_of (request : dict) (nonce : option bytes) : Prop :=
  let v := dict_get_or "atl_nonce" JNull request in
  match nonce with
  | Some n => truthy v = true /\ exists s, v = JStr s /\ bytes_fromhex s = Ok n
  | None => truthy v = false
  end.

Lemma attested_response_cases request session_id zip csv output files timing w resp w' :
  attested_response request session_id zip csv output files timing w = (Ok resp, w') ->
  exists nonce wa wb success result,
    nonce_of request nonce
    /\ at_create_execution_attestation (proof_args request session_id zip csv output files nonce) wa
       = (Ok (success, result), wb)
    /\ w' = tick wb /\ w_sessions wa = w_sessions w /\ w_trace wa = w_trace w
    /\ dict_get "success" resp = Some (JBool true)
    /\ dict_get "output" resp = Some (JStr output)
    /\ read_files_field resp = Some files
    /\ dict_get "files_manifest_sha256" resp
       = Some (JStr (files_manifest_sha256 (build_files_manifest files)))
    /\ dict_get "session_id" resp = Some session_id
    /\ dict_get "attestation" resp = (if (success : bool) then Some (JObj result) else None).
Proof.
  intros E. apply bind_ok in E as (nonce & w1 & En & E). apply time_ok in E.
  apply bind_ok in E as ([success result] & wb & Ha & E). apply time_ok, ret_ok in E as [<- <-].
  exists nonce, (tick w1), wb, success, result.
  assert (nonce_of request nonce /\ w1 = w) as [Hn ->].
  { unfold nonce_of. destruct (truthy (dict_get_or "atl_nonce" JNull request)).
    - apply lift_ok in En as (n & Hn & En). apply ret_ok in En as [<- <-]. split; [|done]. split; [done|].
      destruct (dict_get_or "atl_nonce" JNull request) as [| | | |s| |]; try done. by exists s.
    - apply ret_ok in En as [<- <-]. done. }
  split_and!; try done; try (by destruct success).
  unfold read_files_field. destruct success; exact (mapM_read_entry files).
Qed.
End Runs.

(** ** Properties of the operations *)

Section Properties.
Context `{Env, IDecryptService, IExecuteService, KeyPairManagerLaws, AttestationLaws}.
Context (kms_attestation : option (json -> IO (bool * json))).

Lemma attested_execution_cases request w resp w' att :
  _execute_encrypted_script request w = (Ok resp, w') ->
  dict_get "attestation" resp = Some att ->
  exists session_id encrypted_data zip csv output files nonce result wa wb wc wd,
    dict_get "session_id" request = Some session_id
    /\ dict_get "encrypted_data" request = Some encrypted_data
    /\ decrypted_to encrypted_data session_id zip
    /\ dataset_of request session_id csv
    /\ nonce_of request nonce
    /\ es_execute_bundle zip session_id None csv wa = (Ok (true, output, files), wb)
    /\ at_create_execution_attestation (proof_args request session_id zip csv output files nonce) wc
       = (Ok (true, result), wd)
    /\ att = JObj result
    /\ dict_get "output" resp = Some (JStr output)
    /\ read_files_field resp = Some files
    /\ dict_get "files_manifest_sha256" resp
       = Some (JStr (files_manifest_sha256 (build_files_manifest files)))
    /\ w' = tick wd /\ w_trace wc = w_trace wb.
Proof.
  intros E Hatt.
  apply execute_cases in E as [(kind & msg & -> & _)|(sid & enc & zip & csv & timing & w1 & Hsid & Henc & Hzip & Hcsv & E)];
    [done|].
  apply run_bundle_cases in E as (success & output & files & wa & wb & wc & timing' & Hb & (r & Hdel) & E).
  destruct success; [|by destruct E as [-> _]].
  apply attested_response_cases in E as (nonce & wd & we & b & result & Hn & Ha & Hw & _ & Htr & _ & Ho & Hf & Hm & _ & Hatt').
  rewrite Hatt in Hatt'. destruct b; [|done]. injection Hatt' as ->.
  exists sid, enc, zip, csv, output, files, nonce, result, wa, wb, wd, we. split_and!; try done.
  rewrite Htr. pose proof (keeps (f := w_trace) (m := km_delete_keypair sid) (tick wb)) as Hk.
  by rewrite Hdel in Hk.
Qed.

(** C11: what an attested response says is what was attested.  An attestation in
    the response was made for this session, for the code bundle and the dataset
    decrypted from the request, for the output and the manifest of the files in
    the response itself, under the nonce and the context hash of the request;
    and the output and the files are those the bundle produced. *)
Theorem attested_execution_binding request w resp w' att :
  _execute_encrypted_script request w = (Ok resp, w') ->
  dict_get "attestation" resp = Some att ->
  exists session_id encrypted_data zip csv output files nonce result wa wb wc wd,
    dict_get "session_id" request = Some session_id
    /\ dict_get "encrypted_data" request = Some encrypted_data
    /\ decrypted_to encrypted_data session_id zip
    /\ dataset_of request session_id csv
    /\ nonce_of request nonce
    /\ es_execute_bundle zip session_id None csv wa = (Ok (true, output, files), wb)
    /\ at_create_execution_attestation (proof_args request session_id zip csv output files nonce) wc
       = (Ok (true, result), wd)
    /\ att = JObj result
    /\ dict_get "output" resp = Some (JStr output)
    /\ read_files_field resp = Some files
    /\ dict_get "files_manifest_sha256" resp
       = Some (JStr (files_manifest_sha256 (build_files_manifest files))).
Proof.
  intros E Hatt. destruct (attested_execution_cases request w resp w' att E Hatt)
    as (sid & enc & zip & csv & output & files & nonce & result & wa & wb & wc & wd & Hr).
  exists sid, enc, zip, csv, output, files, nonce, result, wa, wb, wc, wd. tauto.
Qed.

(** C32: [get_attestation] vouches for nothing but a session key of this enclave:
    the attested [user_data] is the JSON object of the public key of a live
    session and its id, and reads back as such. *)
Theorem get_attestation_own_key request w resp w' :
  _get_attestation request w = (Ok resp, w') ->
  dict_get "success" resp = Some (JBool true) ->
  exists sid pub priv nonce att wa wb,
    dict_get "session_id" request = Some (JStr sid)
    /\ km_live sid w = Some (pub, priv)
    /\ nonce_arg (dict_get_or "nonce" JNull request) = Ok nonce
    /\ at_generate_attestation (VBytes (session_user_data pub (JStr sid))) nonce VNone wa = (Ok (true, att), wb)
    /\ dict_get "attestation" resp = Some (JObj att)
    /\ (forallb valid_char pub = true -> forallb valid_char sid = true ->
        (s ← bytes_decode (session_user_data pub (JStr sid)); json_loads s)
        = Ok (JObj [("public_key", JStr pub); ("session_id", JStr sid)])).
Proof.
  intros E Hok. apply catch_ok in E as [E|(e & w1 & _ & E)]; [|by apply ret_ok in E as [<- _]].
  apply lift_ok in E as (session_id & Hsid & E). unfold dict_index in Hsid.
  destruct (dict_get "session_id" request) as [v|]; [injection Hsid as <-|done].
  apply bind_ok in E as (pk & w1 & Hpk & E).
  destruct pk as [[|c pub]|]; try (apply ret_ok in E as [<- _]; done).
  apply lift_ok in E as (nonce & Hn & E). apply bind_ok in E as ([success att] & w2 & Ha & E).
  apply ret_ok in E as [<- <-]. destruct (km_get_public_key_str _ _ _ _ Hpk) as (sid & ->).
  pose proof (km_get_public_key_live sid w) as Hl. rewrite Hpk in Hl. cbn in Hl. apply (inj Ok) in Hl.
  destruct (km_live sid w) as [[pub' priv]|] eqn:Hlive; [|done]. cbn in Hl. injection Hl as Hl. subst pub'.
  cbn in Hok. injection Hok as ->.
  exists sid, (c :: pub), priv, nonce, att, w1, w2. split_and!; [done|done|done|done|done|].
  intros Hp Hsv. unfold session_user_data. rewrite bytes_decode_dumps by done.
  apply json_loads_dumps. cbn [json_ok]. cbn [forallb fst snd json_ok]. rewrite Hsv. cbn in Hp. by rewrite Hp.
Qed.

(** C33: the proxy's attestation vouches for the very key in the response: its
    [user_data] is the SHA-256 of the public key that the response carries and
    that the new session answers with, and the response repeats that hash. *)
Theorem proxy_attestation_binds_key request w resp w' :
  _get_attestation_for_proxy request w = (Ok resp, w') ->
  dict_get "attestation_available" resp = Some (JBool true) ->
  exists sid pub encoded nonce att wa wb wc wd,
    dict_get "public_key" resp = Some (JStr pub) /\ dict_get "session_id" resp = Some (JStr sid)
    /\ km_get_public_key (JStr sid) wa = (Ok (Some pub), wb)
    /\ str_encode pub = Ok encoded
    /\ nonce_arg (dict_get_or "nonce" JNull request) = Ok nonce
    /\ at_generate_attestation (VBytes (sha256 encoded)) nonce VNone wc = (Ok (true, att), wd)
    /\ dict_get "attestation" resp = Some (JObj att)
    /\ exists h, dict_get "public_key_hash" resp = Some (JStr h) /\ b64decode h = Ok (sha256 encoded).
Proof.
  intros E Hok. apply time_ok in E. apply catch_ok in E as [E|(e & w1 & _ & E)]; [|by apply ret_ok in E as [<- _]].
  apply lift_ok in E as (job_id & _ & E). apply time_ok in E.
  apply bind_ok in E as ([success sid] & w1 & _ & E).
  destruct success; cbn [negb] in E; [|by apply ret_ok in E as [<- _]].
  apply bind_ok in E as (pk & w2 & Hpk & E).
  destruct pk as [[|c pub]|]; try (apply ret_ok in E as [<- _]; done).
  do 2 apply time_ok in E. apply lift_ok in E as (encoded & Henc & E). apply lift_ok in E as (nonce & Hn & E).
  do 2 apply time_ok in E. apply bind_ok in E as ([success att] & w3 & Ha & E).
  do 2 apply time_ok in E. apply ret_ok in E as [<- <-]. cbn in Hok. injection Hok as ->.
  eexists sid, (c :: pub), encoded, nonce, att, w1, w2, _, w3. split_and!; try done.
  eexists. split; [reflexivity|]. apply b64decode_encode.
Qed.

(** A keypair response describes the new session: the public key is the one
    a look-up of the returned id answers with, and nothing secret is in it. *)
Theorem generate_keypair_response request w resp w' :
  _generate_keypair request w = (Ok resp, w') ->
  dict_get "success" resp = Some (JBool true) ->
  exists job_id sid pk wa wb,
    dict_get "job_id" request = Some job_id
    /\ km_generate_keypair job_id (dict_get_or "key_size" (JInt 2048) request) w = (Ok (true, sid), wa)
    /\ km_get_public_key (JStr sid) wa = (Ok pk, wb)
    /\ resp = [("success", JBool true); ("session_id", JStr sid); ("public_key", opt_json JStr pk);
               ("job_id", job_id); ("key_size", dict_get_or "key_size" (JInt 2048) request)].
Proof.
  intros E Hok. apply catch_ok in E as [E|(e & w1 & _ & E)]; [|by apply ret_ok in E as [<- _]].
  apply lift_ok in E as (job_id & Hj & E). unfold dict_index in Hj.
  destruct (dict_get "job_id" request) as [v|]; [injection Hj as <-|done].
  apply bind_ok in E as ([success sid] & w1 & Hg & E).
  destruct success; cbn [negb] in E; [|by apply ret_ok in E as [<- _]].
  apply bind_ok in E as (pk & w2 & Hpk & E). apply ret_ok in E as [<- <-].
  by exists v, sid, pk, w1, w2.
Qed.
End Properties.
