(* ===== verification/ResponseTypes.v ===== *)
(** * request_handler_impl.py: the types of the responses

    A response is a JSON object, but each operation answers with an object of
    its own kind.  [ty] is a language of JSON types with closed records; a type
    is given to each operation, and every response of the handler has it,
    whatever the services do. *)
From stdpp Require Import base tactics list gmap strings.
From Stdlib Require Import NArith ZArith Lia.
From S2P Require Import Prelude PyText PyCodec Sha2 PyJson PyJsonParse World Crypto OutputFiles Interfaces RequestHandler.

(** ** Types *)

Inductive ty : Type :=
  | TAny
  | TNull
  | TBool
  | TConst (b : bool)
  | TInt
  | TFloat
  | TStr
  | TArr (t : ty)
  | TDict                                    (* any object *)
  | TObj (fields : list (str * bool * ty))   (* these keys in this order; the flag: required *)
  | TOr (t1 t2 : ty).

Section Fields.
Context (has_type : ty -> json -> bool).

(** The entries of an object against the fields of a record. *)
Fixpoint has_fields (fields : list (str * bool * ty)) (d : dict) : bool :=
  match fields, d with
  | [], [] => true
  | [], _ :: _ => false
  | (_, required, _) :: fields, [] => negb required && has_fields fields []
  | (k, required, t) :: fields, (k', v) :: d' =>
      if str_eqb k k' then has_type t v && has_fields fields d'
      else negb required && has_fields fields d
  end.
End Fields.

Fixpoint has_type (t : ty) (v : json) : bool :=
  match t, v with
  | TAny, _ => true
  | TNull, JNull => true
  | TBool, JBool _ => true
  | TConst b, JBool b' => Bool.eqb b b'
  | TInt, JInt _ => true
  | TFloat, JFloat _ => true
  | TStr, JStr _ => true
  | TArr t, JArr l => forallb (has_type t) l
  | TDict, JObj _ => true
  | TObj fields, JObj d => has_fields has_type fields d
  | TOr t1 t2, v => has_type t1 v || has_type t2 v
  | _, _ => false
  end.

(** A field that is always there, and one that may be missing. *)
Definition field (k : str) (t : ty) : str * bool * ty := (k, true, t).
Definition optional (k : str) (t : ty) : str * bool * ty := (k, false, t).

Definition dict_has_type (t : ty) (d : dict) : Prop := has_type t (JObj d) = true.

(** ** The responses *)

Definition error_type : ty := TObj [field "success" (TConst false); field "error" TStr].

Definition keypair_type : ty :=
  TObj [field "success" (TConst true); field "session_id" TStr; field "public_key" (TOr TStr TNull);
        field "job_id" TAny; field "key_size" TAny].

Definition file_type : ty :=
  TObj [field "name" TStr; field "size" TInt; field "sha256" TStr; field "type" TStr; field "content_b64" TStr].

Definition timing_type : ty :=
  TObj [field "decrypt_zip_ms" TFloat; optional "decrypt_csv_ms" TFloat; field "script_execution_ms" TFloat;
        field "attestation_generation_ms" TFloat].

(** [attestation] is there when one was made. *)
Definition execution_type : ty :=
  let proof (available : bool) :=
    TObj [field "ran_in_enclave" TBool; field "attestation_available" (TConst available)] in
  let common (available : bool) :=
    [field "success" (TConst true); field "output" TStr; field "files" (TArr file_type);
     field "files_manifest_sha256" TStr; field "session_id" TAny; field "enclave_proof" (proof available);
     field "timing" timing_type] in
  TOr (TObj (common true ++ [field "attestation" TDict])) (TObj (common false)).

Definition attestation_type : ty :=
  TOr (TObj [field "success" (TConst true); field "attestation" TDict; field "error" TNull;
             field "is_real_enclave" TBool])
      (TObj [field "success" (TConst false); field "attestation" TNull; field "error" TAny;
             field "is_real_enclave" TBool]).

Definition proxy_type : ty :=
  let record (attestation : ty) (available : bool) :=
    TObj [field "success" (TConst true); field "session_id" TStr; field "public_key" TStr;
          field "public_key_hash" TStr; field "job_id" TAny; field "key_size" TAny;
          field "attestation" attestation; field "attestation_available" (TConst available);
          field "is_real_enclave" TBool;
          field "timings" (TObj [field "keypair_generation_ms" TFloat; field "user_data_build_ms" TFloat;
                                 field "nsm_attestation_ms" TFloat; field "total_ms" TFloat]);
          field "verification_steps" (TArr TStr)] in
  TOr (record TDict true) (record TNull false).

Definition health_type : ty := TObj [field "success" (TConst true); field "message" TStr].

Definition info_type : ty :=
  TObj [field "success" (TConst true);
        field "enclave_info" (TObj
          [field "is_nitro_enclave" TBool; field "nsm_available" TBool; field "attestation_supported" TBool;
           field "services" (TObj
             [field "decrypt_service" TStr; field "execute_service" TStr; field "keypair_manager" TStr;
              field "attestation_service" TStr; field "kms_attestation" TStr]);
           field "pcr_info" TStr])].

(** What an operation answers when it does not answer with an error. *)
Definition operation_type (operation : json) : option ty :=
  if eq_str operation "generate_rsa_keypair" then Some keypair_type
  else if eq_str operation "execute_script_rsa_hybrid" then Some execution_type
  else if eq_str operation "health_check" then Some health_type
  else if eq_str operation "get_attestation" then Some attestation_type
  else if eq_str operation "get_attestation_for_proxy" then Some proxy_type
  else if eq_str operation "get_enclave_info" then Some info_type
  else None.

Definition or_error (t : option ty) : ty :=
  match t with Some t => TOr t error_type | None => error_type end.

(** The operation a request text asks for, when it is handed to one. *)
Definition requested_operation (request_data : str) : option json :=
  match _parse_request request_data with
  | Ok (JObj request) =>
      match validate_request request with
      | None => dict_get "operation" request
      | Some _ => None
      end
  | _ => None
  end.

Definition response_type (request_data : str) : ty :=
  or_error (operation ← requested_operation request_data; operation_type operation).

(** ** Every response is of its type *)

Lemma error_or t msg : dict_has_type (or_error t) (_error_response msg).
Proof. destruct t as [t|]; [|done]. unfold dict_has_type. cbn. by rewrite orb_true_r. Qed.

Lemma typed_or t d : dict_has_type t d -> dict_has_type (or_error (Some t)) d.
Proof. unfold dict_has_type. cbn. by intros ->. Qed.

Lemma all_have_type {A} (f : A -> json) t l : (forall a, has_type t (f a) = true) -> has_type (TArr t) (JArr (map f l)) = true.
Proof. intros H. cbn [has_type]. apply forallb_forall. intros v (a & <- & _)%in_map_iff. apply H. Qed.

Lemma field_typed k required t fields v d :
  has_type (TObj ((k, required, t) :: fields)) (JObj ((k, v) :: d)) = has_type t v && has_type (TObj fields) (JObj d).
Proof. cbn. unfold str_eqb. by rewrite bool_decide_eq_true_2. Qed.

Lemma alternative_typed t1 t2 v : has_type t1 v = true \/ has_type t2 v = true -> has_type (TOr t1 t2) v = true.
Proof. cbn. by rewrite orb_true_iff. Qed.

#[local] Hint Resolve error_or typed_or : responds.

(** The timing so far. *)
Definition decrypted_timing (timing : dict) : Prop :=
  exists zip_ms, timing = [("decrypt_zip_ms", JFloat zip_ms)]
    \/ exists csv_ms, timing = [("decrypt_zip_ms", JFloat zip_ms); ("decrypt_csv_ms", JFloat csv_ms)].

Section Responses.
Context `{Env, IDecryptService, IExecuteService, IKeyPairManager, IAttestationService}.
Context (kms_attestation : option (json -> IO (bool * json))).

Lemma decrypt_step_returns encrypted session_id key timing :
  returns_in (fun r => exists ms, r.2 = dict_set key (JFloat ms) timing) (decrypt_step encrypted session_id key timing).
Proof.
  apply returns_bind; intros t0. apply returns_bind; intros [success decrypted]. apply returns_bind; intros t1.
  apply returns_ret. by eexists.
Qed.

Lemma generate_keypair_typed request :
  total_in (dict_has_type (or_error (Some keypair_type))) (_generate_keypair request).
Proof.
  apply total_catch; [|auto with responds]. apply returns_bind; intros job_id.
  apply returns_bind; intros [success session_id]. destruct (negb success); [auto with responds|].
  apply returns_bind; intros public_key. apply returns_ret, typed_or. by destruct public_key.
Qed.

(** The timings of a response read back as they are: those of a day or a year. *)
Lemma elapsed_ms_ok t0 t1 : (Z.abs (t1 - t0) < 10 ^ 15)%Z -> json_ok (elapsed_ms t0 t1) = true.
Proof.
  intros Ht. apply float_ok_dec; [|done]. unfold round_half_even.
  change (10 ^ 15)%Z with 1000000000000000%Z in *. repeat case_match; dlia.
Qed.

Lemma attested_typed request session_id zip csv output files timing :
  (forall ms, has_type timing_type (JObj (dict_set "attestation_generation_ms" (JFloat ms) timing)) = true) ->
  returns_in (dict_has_type (or_error (Some execution_type)))
    (attested_response request session_id zip csv output files timing).
Proof.
  intros Ht. apply returns_bind; intros external_nonce. apply returns_bind; intros t0.
  apply returns_bind; intros [success result]. apply returns_bind; intros t1. apply returns_ret, typed_or.
  assert (has_type (TArr file_type) (JArr (map file_entry files)) = true) as Hf by by apply all_have_type.
  unfold elapsed_ms. specialize (Ht (dec (round_half_even (t1 - t0) 10) (-2))).
  set (timing' := JObj (dict_set _ _ timing)) in *. clearbody timing'.
  set (files' := JArr (map file_entry files)) in *. clearbody files'.
  unfold dict_has_type, execution_type. apply alternative_typed. destruct success; [left|right].
  all: cbn [app]; unfold field; rewrite !field_typed, Hf, Ht; reflexivity.
Qed.

Lemma run_bundle_typed request session_id zip csv timing :
  decrypted_timing timing ->
  returns_in (dict_has_type (or_error (Some execution_type))) (run_bundle request session_id zip csv timing).
Proof.
  intros Ht. apply returns_bind; intros t0. apply returns_bind; intros [[success output] files].
  apply returns_bind; intros t1. apply returns_bind; intros _. destruct success; [|auto with responds].
  apply attested_typed. intros ms. destruct Ht as (zip_ms & [->|(csv_ms & ->)]); reflexivity.
Qed.

Lemma execute_typed request :
  total_in (dict_has_type (or_error (Some execution_type))) (_execute_encrypted_script request).
Proof.
  apply total_catch; [|auto with responds]. do 4 (apply returns_bind; intros ?).
  eapply returns_bind_in; [apply decrypt_step_returns|]. intros [[success zip] timing] (ms & E). cbn in E. subst timing.
  destruct (negb success); [auto with responds|].
  destruct (truthy _); [|apply run_bundle_typed; exists ms; by left].
  eapply returns_bind_in; [apply decrypt_step_returns|]. intros [[success' csv] timing] (ms' & E). cbn in E. subst timing.
  destruct (negb success'); [auto with responds|]. apply run_bundle_typed. exists ms. right. by exists ms'.
Qed.

Lemma get_attestation_typed request :
  total_in (dict_has_type (or_error (Some attestation_type))) (_get_attestation request).
Proof.
  apply total_catch; [|auto with responds]. do 2 (apply returns_bind; intros ?).
  destruct a0 as [[|c pk]|]; [auto with responds| |auto with responds].
  apply returns_bind; intros nonce. apply returns_bind; intros [success attestation].
  apply returns_ret, typed_or. by destruct success.
Qed.

Lemma proxy_typed request :
  total_in (dict_has_type (or_error (Some proxy_type))) (_get_attestation_for_proxy request).
Proof.
  apply total_time; intros t. apply total_catch; [|auto with responds]. do 2 (apply returns_bind; intros ?).
  apply returns_bind; intros [success session_id]. destruct (negb success); [auto with responds|].
  apply returns_bind; intros [[|c pk]|]; [auto with responds| |auto with responds].
  do 6 (apply returns_bind; intros ?). apply returns_bind; intros [success' attestation].
  do 2 (apply returns_bind; intros ?). apply returns_ret, typed_or. by destruct success'.
Qed.

Lemma dispatch_typed request operation :
  total_in (dict_has_type (or_error (operation_type operation))) (dispatch kms_attestation request operation).
Proof.
  unfold dispatch, operation_type.
  destruct (eq_str _ "generate_rsa_keypair"); [apply generate_keypair_typed|].
  destruct (eq_str _ "execute_script_rsa_hybrid"); [apply execute_typed|].
  destruct (eq_str _ "health_check"); [by apply total_ret|].
  destruct (eq_str _ "get_attestation"); [apply get_attestation_typed|].
  destruct (eq_str _ "get_attestation_for_proxy"); [apply proxy_typed|].
  destruct (eq_str _ "get_enclave_info"); [by apply total_ret|auto with responds].
Qed.

(** C13: the handler is well typed.  Every request text is answered, and with an
    object of the type of the operation it asks for: either the error record or
    the operation's own closed record, with each field of its type.  In
    particular an [attestation] is an object exactly when [success] or
    [attestation_available] says so, and an execution is timed in each of its
    stages. *)
Theorem handle_request_typed request_data w :
  exists response w', handle_request kms_attestation request_data w = (Ok response, w')
    /\ dict_has_type (response_type request_data) response.
Proof.
  revert w. apply total_catch; [|intros e; apply total_ret, error_or].
  unfold response_type, requested_operation. intros w. rewrite run_bind, run_lift.
  destruct (_parse_request request_data) as [request|e]; [|done].
  destruct request as [| | | | | |d]; try done.
  destruct (validate_request d) as [msg|]; [done|]. rewrite run_bind, run_lift. unfold dict_index.
  destruct (dict_get "operation" d) as [operation|]; [|done]. cbn [option_bind mbind].
  apply returns_total, dispatch_typed.
Qed.
End Responses.
