(* ===== verification/TestClient.v ===== *)
(** * scripts/test-client.py and scripts/local-test-server.py

    The other end of a connection: the test client sends raw JSON and reads until
    the server closes.  It is a process of its own, with its own [world] for its
    random draws.  The encryption it uses is a parameter next to that of
    [Crypto]. *)
From stdpp Require Import base tactics list gmap strings.
From Stdlib Require Import NArith ZArith Lia.
From S2P Require Import Prelude PyText PyCodec PyJson PyJsonParse PyJsonCut World Config Crypto Interfaces KeyPairManager DecryptService Server RawExchange RequestHandler.

(** What the client takes from the cryptography package and from zipfile. *)
Class ClientCiphers : Type := {
  public_key : Type;
  (** [load_pem_public_key]. *)
  load_public_pem : bytes -> res public_key;
  (** [public_key.encrypt] with OAEP and SHA-256. *)
  public_encrypt : public_key -> bytes -> res bytes;
  (** AES-CBC encryption, and PKCS7 padding to blocks of some number of bits. *)
  aes_cbc_encrypt : bytes -> bytes -> bytes -> bytes;
  pkcs7_pad : nat -> bytes -> bytes;
  (** The archive of the members written with [writestr], with their time stamps. *)
  zip_archive : list (str * str) -> bytes;
}.

(** The two halves of a key belong together. *)
Class ClientLaws `{CryptoLaws, ClientCiphers} : Prop := {
  public_encrypt_oaep sk : exists pk, load_public_pem (public_pem sk) = Ok pk
    /\ forall m, length m + 66 <= modulus_bytes sk -> public_encrypt pk m = Ok (oaep_encrypt sk m);
}.

Definition AES_KEY_SIZE : nat := 32.
Definition CLIENT_IV_SIZE : nat := 16.
Definition AES_BLOCK_SIZE : nat := 128.

(** A backquote stands for a double quote. *)
Definition unquoted (s : str) : str := map (fun c => if (c =? 96)%N then 34%N else c) s.

Definition script_content : str := unquoted "
def main():
    print(`Hello from Epsilon Enclave!`)
    print(`Script execution successful!`)

    # Try to read CSV if it exists
    import os
    csv_path = `generated/data.csv`
    if os.path.exists(csv_path):
        with open(csv_path, 'r') as f:
            lines = f.readlines()
            print(f`CSV has {len(lines)} lines`)
            if lines:
                print(f`Header: {lines[0].strip()}`)
    else:
        print(`No CSV data provided`)

    return {`result`: `success`}

if __name__ == `__main__`:
    result = main()
    print(result)
".

Definition build_yml : str := "version: '1.0'
analysis:
  name: Test
  description: Test script
  script_file: main.py
".

Definition csv_content : str := "personal_info.first_name,personal_info.last_name,personal_info.email
John,Doe,john@example.com
Jane,Smith,jane@example.com
Bob,Johnson,bob@example.com
".

(** ** One request *)

(** The loop ends with the stream, or at a timeout when something has arrived. *)
Fixpoint response_loop (fuel : nat) (received : bytes) : SIO bytes :=
  match fuel with
  | O => mraise recv_fuel_error
  | S fuel =>
      chunk ← st_try (recv 65536)
                (fun e => match exn_cls e, received with
                          | SocketTimeout, _ :: _ => mret []
                          | _, _ => mraise e
                          end);
      match chunk with
      | [] => mret received
      | _ => response_loop fuel (received ++ chunk)
      end
  end.

(** [connected] is the outcome of [sock.connect]. *)
Definition send_request (connected : res unit) (request : dict) : SIO json :=
  _ ← settimeout 60;
  _ ← st_lift connected;
  let request_json := json_dumps (JObj request) in
  encoded ← st_lift (str_encode request_json);
  _ ← sendall encoded;
  st ← st_gets fst;
  chunks ← response_loop (S (in_size (sk_in st))) [];
  _ ← sock_close;
  response_data ← st_lift (bytes_decode chunks);
  st_lift (json_loads response_data).

(** A socket of its own for each request. *)
Definition on_socket {A} (s : sock) (m : SIO A) : IO A :=
  fun w => let '(r, st) := m (s, w) in (r, st.2).

(** ** The program *)

Section Client.
Context `{Env, ClientCiphers}.

Definition encrypt_data (data : bytes) (public_key_pem : str) : IO str :=
  pem ← st_lift (str_encode public_key_pem);
  public_key ← st_lift (load_public_pem pem);
  aes_key ← os_urandom AES_KEY_SIZE;
  iv ← os_urandom CLIENT_IV_SIZE;
  let padded_data := pkcs7_pad AES_BLOCK_SIZE data in
  let ciphertext := aes_cbc_encrypt aes_key iv padded_data in
  encrypted_key ← st_lift (public_encrypt public_key aes_key);
  let combined := encrypted_key ++ iv ++ ciphertext in
  mret (b64encode combined).

Definition create_test_bundle : bytes :=
  zip_archive [("main.py", script_content); ("build.yml", build_yml); ("generated/.gitkeep", [])].

Definition create_test_csv : res bytes := str_encode csv_content.

Definition keypair_request : dict :=
  [("operation", JStr "generate_rsa_keypair"); ("job_id", JStr "test-job-001"); ("key_size", JInt 2048)].

Definition execute_request (session_id : json) (encrypted_zip encrypted_csv : str) : dict :=
  [("operation", JStr "execute_script_rsa_hybrid"); ("session_id", session_id);
   ("encrypted_data", JStr encrypted_zip); ("encrypted_csv", JStr encrypted_csv)].

(** [response.get('success')]: only a dict has [get]. *)
Definition response_dict (response : json) : res dict :=
  match response with
  | JObj d => Ok d
  | v => raise (Exn AttributeError ("'" ++ type_name v ++ "' object has no attribute 'get'"))
  end.

(** [public_key.encode()]. *)
Definition str_value (v : json) : res str :=
  match v with
  | JStr s => Ok s
  | v => raise (Exn AttributeError ("'" ++ type_name v ++ "' object has no attribute 'encode'"))
  end.

(** The exit status, for the two connections that are made. *)
Definition client_main (first second : res unit * sock) : IO Z :=
  answer ← on_socket first.2 (send_request first.1 keypair_request);
  keypair_response ← st_lift (response_dict answer);
  if negb (truthy (dict_get_or "success" JNull keypair_response)) then mret 1%Z
  else
    session_id ← st_lift (dict_index "session_id" keypair_response);
    public_key ← st_lift (dict_index "public_key" keypair_response);
    _ ← st_lift (py_len public_key);
    public_key_pem ← st_lift (str_value public_key);
    encrypted_zip ← encrypt_data create_test_bundle public_key_pem;
    csv_data ← st_lift create_test_csv;
    encrypted_csv ← encrypt_data csv_data public_key_pem;
    answer ← on_socket second.2 (send_request second.1 (execute_request session_id encrypted_zip encrypted_csv));
    execute_response ← st_lift (response_dict answer);
    mret (if truthy (dict_get_or "success" JNull execute_response) then 0%Z else 1%Z).
End Client.

(** ** The local test server *)

(** [RequestHandlerImpl.__init__], and what [create_request_handler] gives it. *)
Definition handler_parameters : list str :=
  ["decrypt_service"; "execute_service"; "keypair_manager"; "attestation_service"].
Definition handler_keywords : list str :=
  ["decrypt_service"; "execute_service"; "keypair_manager"; "kms_attestation"].

(** A constructor call by keywords: a parameter without a default is missing. *)
Definition create_request_handler_call {A} (handler : A) : res A :=
  match find (fun p => negb (existsb (str_eqb p) handler_keywords)) handler_parameters with
  | Some p => raise (Exn TypeError ("RequestHandlerImpl.__init__() missing 1 required positional argument: '" ++ p ++ "'"))
  | None => Ok handler
  end.

Section LocalServer.
Context `{Settings, IRequestHandler}.

Fixpoint local_recv_loop (fuel : nat) (received : bytes) : SIO bytes :=
  match fuel with
  | O => mraise recv_fuel_error
  | S fuel =>
      chunk ← recv 65536;
      match chunk with
      | [] => mret received
      | _ =>
          let received := received ++ chunk in
          if ends_with_brace chunk then
            match parses received with
            | Ok _ => mret received
            | Raise e => match exn_cls e with
                         | JSONDecodeError | UnicodeDecodeError => local_recv_loop fuel received
                         | _ => mraise e
                         end
            end
          else local_recv_loop fuel received
      end
  end.

(** The body of the loop for an accepted connection, in its [try]. *)
Definition local_serve : SIO unit :=
  st ← st_gets fst;
  chunks ← local_recv_loop (S (in_size (sk_in st))) [];
  match chunks with
  | [] => sock_close
  | _ =>
      data ← st_lift (bytes_decode chunks);
      response ← in_process (rh_handle_request data);
      encoded ← st_lift (str_encode (json_dumps (JObj response)));
      _ ← sendall encoded;
      sock_close
  end.

(** With the handler of its exceptions, which closes and ignores any failure. *)
Definition local_connection : SIO unit :=
  st_try local_serve (fun _ => st_try sock_close (fun _ => mret tt)).

(** The connections accepted until the interrupt, served one after the other. *)
Fixpoint local_connections (conns : list sock) (w : world) : list sock * world :=
  match conns with
  | [] => ([], w)
  | s :: conns =>
      let st := (local_connection (s, w)).2 in
      let '(l, w') := local_connections conns st.2 in (st.1 :: l, w')
  end.
End LocalServer.

(** [run_tcp_server]: the handler is created before the socket. *)
Definition run_tcp_server `{Settings} (handler : IRequestHandler) (conns : list sock) (w : world)
    : result exn (list sock) * world :=
  match create_request_handler_call handler with
  | Raise e => (Raise e, w)
  | Ok handler => let '(l, w') := local_connections conns w in (Ok l, w')
  end.

(** ** Reading to the end *)

(** The server has closed the connection, or is silent until the timeout. *)
Definition ends_quietly (l : list incoming) : Prop :=
  match after l with
  | [] => True
  | RecvError e :: _ => exn_cls e = SocketTimeout
  | Data _ :: _ => False
  end.

Section Reading.
Implicit Types st : sock * world.

Lemma response_loop_run fuel : forall received l st,
  in_size l < fuel -> sk_in st.1 = l -> ends_quietly l -> received ++ prefix l <> [] ->
  exists l', response_loop fuel received st = (Ok (received ++ prefix l), at_input l' st).
Proof.
  induction fuel as [|fuel IH]; intros received l st Hfuel Hin Hend Hne; [lia|]. cbn [response_loop].
  rewrite run_bind, run_try, recv_run, Hin. destruct (decide (prefix l = [])) as [Hp|Hp].
  - rewrite recv_from_empty by done. rewrite Hp, app_nil_r in *. unfold ends_quietly in Hend.
    destruct (after l) as [|[b|e] r]; [by eexists|done|]. rewrite Hend.
    destruct received as [|x received]; [done|]. by eexists.
  - destruct (recv_from_data 65536 l Hp) as (c & l1 & E & Hc & _ & Hpre & Ha & Hs); [done|]. rewrite E.
    destruct c as [|x c]; [done|]. set (ch := x :: c) in *. unfold ch at 1. cbv beta iota. fold ch.
    destruct (IH (received ++ ch) l1 (at_input l1 st)) as (l' & E'); [lia|done|by unfold ends_quietly in *; rewrite Ha| |].
    + rewrite <-app_assoc. unfold ch. by destruct received.
    + exists l'. rewrite E', Hpre, app_assoc. done.
Qed.

(** A request over a connection that holds and is closed cleanly. *)
Lemma send_request_run request s w answer :
  sk_send_errors s = [] -> sk_close_error s = None -> ends_quietly (sk_in s) -> prefix (sk_in s) = answer -> answer <> [] ->
  exists s', send_request (Ok tt) request (s, w)
    = ((response_data ← bytes_decode answer; json_loads response_data), (s', w))
    /\ sk_out s' = object_bytes request :: sk_out s /\ sk_closed s' = true.
Proof.
  intros Hs Hclose Hend <- Hne. unfold send_request, settimeout. st_run.
  pose proof (object_text_ascii request) as Ha. unfold object_text in Ha. rewrite (str_encode_ascii _ Ha). st_run.
  unfold sendall. cbn [fst snd sk_send_errors]. rewrite Hs. cbn [head tail]. st_run. cbn [fst sk_in].
  match goal with |- context [response_loop _ [] ?st0] =>
    destruct (response_loop_run (S (in_size (sk_in s))) [] (sk_in s) st0) as (l' & E); [lia|done|done|done|] end.
  rewrite E. change ([] ++ prefix (sk_in s)) with (prefix (sk_in s)). st_run.
  unfold sock_close. cbn [at_input set_in fst snd sk_close_error]. rewrite Hclose. st_run.
  eexists. split; [destruct (bytes_decode (prefix (sk_in s))) as [t|e]; reflexivity|done].
Qed.
End Reading.

(** ** The two ends *)

Section Exchange.
Context `{Settings, IRequestHandler}.

(** C30: the test client and the server understand each other.  If the network
    brings the bytes of each end to the other in pieces of any size, the server
    handles the very request of the client, whose connection it does not need
    to see closed, and the client gets the handler's response back. *)
Theorem client_server_exchange request response ss ws ws' cs wc :
  json_ok (JObj request) = true -> 4 < length (object_bytes request) ->
  (Z.of_nat (length (object_bytes request)) <= MAX_REQUEST_SIZE settings)%Z ->
  prefix (sk_in ss) = object_bytes request -> sk_send_errors ss = [] ->
  rh_handle_request (object_text request) ws = (Ok response, ws') ->
  json_ok (JObj response) = true ->
  prefix (sk_in cs) = object_bytes response -> ends_quietly (sk_in cs) ->
  sk_send_errors cs = [] -> sk_close_error cs = None ->
  exists cs' ss',
    send_request (Ok tt) request (cs, wc) = (Ok (JObj response), (cs', wc))
    /\ sk_out cs' = object_bytes request :: sk_out cs
    /\ handle_client (ss, ws) = (Ok tt, (ss', ws'))
    /\ sk_out ss' = object_bytes response :: sk_out ss.
Proof.
  intros Hok Hlen Hmax Hin Hs Hh Hok' Hpc Hend Hsc Hclose.
  destruct (send_request_run request cs wc (object_bytes response) Hsc Hclose Hend Hpc) as (cs' & E & Hout & _); [done|].
  destruct (raw_handled ss ws request response ws' Hok Hlen Hmax Hin Hs Hh) as (ss' & E' & _ & _ & Hout').
  exists cs', ss'. split_and!; [|done|done|done]. rewrite E, object_decode.
  cbn [mbind result_mbind result_bind]. unfold object_text. by rewrite json_loads_dumps.
Qed.

(** The loop of the local test server on an object. *)
Lemma local_recv_object d fuel : forall received l st,
  json_ok (JObj d) = true -> in_size l < fuel -> sk_in (fst st) = l -> object_bytes d = received ++ prefix l ->
  prefix l <> [] -> exists l', local_recv_loop fuel received st = (Ok (object_bytes d), at_input l' st).
Proof.
  induction fuel as [|fuel IH]; intros received l st Hok Hfuel Hin E Hne; [lia|]. cbn [local_recv_loop].
  st_run. rewrite recv_run, Hin.
  destruct (recv_from_data 65536 l Hne) as (c & l1 & Er & Hc & _ & Hpre & Ha & Hs); [done|].
  rewrite Er. destruct c as [|x c]; [done|]. set (ch := x :: c) in *.
  rewrite Hpre, app_assoc in E. unfold ch at 1. cbv beta iota. fold ch.
  destruct (decide (prefix l1 = [])) as [Hp1|Hp1].
  - rewrite Hp1, app_nil_r in E. rewrite <-E.
    assert (ends_with_brace ch = true) as ->
      by (rewrite <-(ends_with_brace_app received) by done; rewrite <-E; apply object_ends).
    rewrite object_parses by done. by exists l1.
  - assert (exists l', local_recv_loop fuel (received ++ ch) (at_input l1 st) = (Ok (object_bytes d), at_input l' st)) as Hgo
      by (by apply (IH (received ++ ch) l1 (at_input l1 st)); [|lia| | |]).
    destruct (ends_with_brace ch); [|exact Hgo]. rewrite (object_cut_parses d _ _ Hok E Hp1). exact Hgo.
Qed.

(** With a handler, the local test server is the server: it answers a raw
    request as [EnclaveServer] does, with the same message. *)
Theorem local_server_agrees s w request response w' :
  json_ok (JObj request) = true -> 4 < length (object_bytes request) ->
  (Z.of_nat (length (object_bytes request)) <= MAX_REQUEST_SIZE settings)%Z ->
  prefix (sk_in s) = object_bytes request -> sk_send_errors s = [] ->
  rh_handle_request (object_text request) w = (Ok response, w') ->
  exists s1 s2,
    local_connection (s, w) = (Ok tt, (s1, w')) /\ handle_client (s, w) = (Ok tt, (s2, w'))
    /\ sk_out s1 = sk_out s2.
Proof.
  intros Hok Hlen Hmax Hp Hs Hh.
  destruct (raw_handled s w request response w' Hok Hlen Hmax Hp Hs Hh) as (s2 & E2 & _ & _ & Hout2).
  assert (object_bytes request <> []) as Hne by (by intros E; rewrite E in Hlen; inversion Hlen).
  destruct (local_recv_object request (S (in_size (sk_in s))) [] (sk_in s) (s, w)) as (l' & E);
    [done|lia|done|by rewrite Hp|by rewrite Hp|].
  unfold local_connection, local_serve. rewrite run_try. st_run. cbn [fst]. rewrite E. st_run.
  destruct (object_bytes request) as [|x bs] eqn:Hb; [done|]. rewrite <-Hb. rewrite object_decode. st_run.
  unfold in_process. cbn [fst snd at_input set_in]. rewrite Hh. st_run.
  pose proof (object_text_ascii response) as Ha. unfold object_text in Ha. rewrite (str_encode_ascii _ Ha). st_run.
  match goal with |- context [sendall ?b ?st0] =>
    destruct (sendall_run b st0) as (st' & E' & Hout & Hw & _); [exact Hs|] end.
  rewrite E'. destruct st' as [s' w'']. cbn in Hout, Hw. subst w''. unfold sock_close. cbn.
  destruct (sk_close_error s') eqn:Hc; cbn; rewrite ?Hc; (eexists _, s2; split; [reflexivity|]); split; try done;
    cbn; rewrite Hout2; exact Hout.
Qed.
End Exchange.

(** It never gets that far: [create_request_handler] names an argument the
    handler does not have and leaves out one without a default. *)
Lemma local_server_never_starts `{Settings} (handler : IRequestHandler) conns w :
  run_tcp_server handler conns w
  = (Raise (Exn TypeError "RequestHandlerImpl.__init__() missing 1 required positional argument: 'attestation_service'"), w).
Proof. reflexivity. Qed.

(** ** What the client encrypts

    It writes the wrapped key, 16 bytes of IV and the CBC ciphertext; the
    enclave reads the wrapped key, 12 bytes of nonce and the GCM ciphertext. *)

Section Payload.
Context `{Env, ClientLaws, KeyPairManagerLaws}.

Definition client_key (w : world) : bytes := urandom (w_draws w) AES_KEY_SIZE.
Definition client_iv (w : world) : bytes := urandom (S (w_draws w)) CLIENT_IV_SIZE.
Definition client_ciphertext (data : bytes) (w : world) : bytes :=
  aes_cbc_encrypt (client_key w) (client_iv w) (pkcs7_pad AES_BLOCK_SIZE data).

(** Encrypting succeeds under every key that is large enough. *)
Lemma encrypt_data_run data pub sk w :
  (forall n len, length (urandom n len) = len) ->
  str_encode pub = Ok (public_pem sk) -> 98 <= modulus_bytes sk ->
  encrypt_data data pub w
  = (Ok (b64encode (oaep_encrypt sk (client_key w) ++ client_iv w ++ client_ciphertext data w)), drawn (drawn w)).
Proof.
  intros Hrand Hpub Hmod. destruct (public_encrypt_oaep sk) as (pk & Hload & Henc).
  unfold encrypt_data. st_run. rewrite Hpub. st_run. rewrite Hload. st_run.
  change (urandom (w_draws w) AES_KEY_SIZE) with (client_key w).
  rewrite Henc by (unfold client_key; rewrite Hrand; unfold AES_KEY_SIZE; lia). st_run. done.
Qed.

(** C39: the payload of the test client is not in the format the enclave
    decrypts.  Under the key of a live session it is accepted, with plaintext
    [m], exactly when the last 4 bytes of the random IV and the CBC ciphertext
    happen to be the AES-GCM encryption of [m] with the first 12 bytes of the IV
    as nonce; when that tag does not verify, the answer is the one for tampered
    data. *)
Theorem test_payload_refused data sid pub sk w wc :
  (forall n len, length (urandom n len) = len) ->
  km_live sid w = Some (pub, private_pem sk) -> str_encode pub = Ok (public_pem sk) -> 98 <= modulus_bytes sk ->
  exists text, (encrypt_data data pub wc).1 = Ok text
    /\ (forall m, (decrypt_combined_hybrid_data (JStr text) (JStr sid) w).1 = Ok (true, m)
          <-> drop GCM_NONCE_SIZE (client_iv wc) ++ client_ciphertext data wc
              = aesgcm_encrypt (client_key wc) (take GCM_NONCE_SIZE (client_iv wc)) m)
    /\ (forall msg, aesgcm_decrypt (client_key wc) (take GCM_NONCE_SIZE (client_iv wc))
            (drop GCM_NONCE_SIZE (client_iv wc) ++ client_ciphertext data wc) = Raise (Exn InvalidTag msg) ->
          (decrypt_combined_hybrid_data (JStr text) (JStr sid) w).1 = Ok (false, ascii_bytes tampered_msg)).
Proof.
  intros Hrand Hl Hpub Hmod.
  assert (length (client_key wc) = AES_KEY_SIZE) as Hk by apply Hrand.
  assert (length (client_iv wc) = CLIENT_IV_SIZE) as Hiv by apply Hrand.
  set (ek := oaep_encrypt sk (client_key wc)). set (ct := client_ciphertext data wc).
  exists (b64encode (ek ++ client_iv wc ++ ct)). split; [by rewrite (encrypt_data_run _ _ sk)|].
  assert (open_combined sk (JStr (b64encode (ek ++ client_iv wc ++ ct)))
    = aesgcm_decrypt (client_key wc) (take GCM_NONCE_SIZE (client_iv wc)) (drop GCM_NONCE_SIZE (client_iv wc) ++ ct)) as E.
  { unfold open_combined. cbn [b64decode_arg]. rewrite b64decode_encode. cbn [mbind result_mbind result_bind].
    rewrite <-(take_drop GCM_NONCE_SIZE (client_iv wc)), <-app_assoc.
    destruct (payload_fields sk ek (take GCM_NONCE_SIZE (client_iv wc)) (drop GCM_NONCE_SIZE (client_iv wc) ++ ct))
      as (E1 & E2 & E3); [apply length_oaep_encrypt; rewrite Hk; unfold AES_KEY_SIZE; lia| |].
    { rewrite length_take, Hiv. reflexivity. }
    rewrite E1, E2, E3, take_drop. unfold ek. rewrite oaep_decrypt_encrypt by (rewrite Hk; unfold AES_KEY_SIZE; lia).
    done. }
  assert (gcm_sizes (client_key wc) (take GCM_NONCE_SIZE (client_iv wc))) as Hsizes.
  { split; [auto|]. rewrite length_take, Hiv. unfold GCM_NONCE_SIZE, CLIENT_IV_SIZE. lia. }
  apply live_session_key in Hl.
  destruct (decrypt_combined_run (JStr (b64encode (ek ++ client_iv wc ++ ct))) _ sk w Hl) as (w1 & _ & ->).
  rewrite E. split.
  - intros m. destruct (aesgcm_decrypt _ _ _) as [m'|e] eqn:Hd.
    + split; [intros [= <-]; by apply aesgcm_authentic|]. intros Hm.
      rewrite Hm, aesgcm_decrypt_encrypt in Hd by done. by injection Hd as ->.
    + split; [|intros Hm; by rewrite Hm, aesgcm_decrypt_encrypt in Hd by done].
      assert (forall msg, (failed msg w1).1 <> Ok (true, m)) as Hf
        by (intros msg; unfold failed; st_run; by destruct (str_encode msg)).
      intros Hok. exfalso. revert Hok. unfold combined_error, caught. destruct (exn_cls e); apply Hf.
  - intros msg ->. unfold combined_error. cbn [exn_cls]. by rewrite failed_ascii.
Qed.

(** The exit status is 0 exactly when both answers report success. *)
Lemma client_exit_status d1 d2 s1 s2 session_id pub sk w :
  (forall n len, length (urandom n len) = len) ->
  json_ok (JObj d1) = true -> json_ok (JObj d2) = true ->
  prefix (sk_in s1) = object_bytes d1 -> prefix (sk_in s2) = object_bytes d2 ->
  Forall (fun s => sk_send_errors s = [] /\ sk_close_error s = None /\ ends_quietly (sk_in s)) [s1; s2] ->
  dict_get "session_id" d1 = Some session_id -> dict_get "public_key" d1 = Some (JStr pub) ->
  str_encode pub = Ok (public_pem sk) -> 98 <= modulus_bytes sk ->
  (client_main (Ok tt, s1) (Ok tt, s2) w).1
  = Ok (if truthy (dict_get_or "success" JNull d1) && truthy (dict_get_or "success" JNull d2) then 0%Z else 1%Z).
Proof.
  intros Hrand Hok1 Hok2 Hin1 Hin2 Hs Hsid Hkey Hpub Hmod.
  apply Forall_cons in Hs as [(Hs1 & Hc1 & He1) Hs]. apply Forall_cons in Hs as [(Hs2 & Hc2 & He2) _].
  unfold client_main, on_socket. st_run. cbn [fst snd].
  destruct (send_request_run keypair_request s1 w (object_bytes d1) Hs1 Hc1 He1 Hin1) as (s1' & E1 & _); [done|].
  rewrite E1, object_decode. cbn [mbind result_mbind result_bind]. unfold object_text. rewrite json_loads_dumps by done.
  st_run. cbn [response_dict]. st_run. destruct (truthy (dict_get_or "success" JNull d1)); [|done]. cbn [negb andb].
  unfold dict_index. rewrite Hsid, Hkey. st_run. cbn [py_len str_value]. st_run.
  rewrite (encrypt_data_run _ _ sk) by done. st_run.
  unfold create_test_csv. rewrite str_encode_ascii by (vm_compute; reflexivity). st_run.
  rewrite (encrypt_data_run _ _ sk) by done. st_run. cbn [fst snd].
  match goal with |- context [send_request (Ok tt) ?r (s2, ?w2)] =>
    destruct (send_request_run r s2 w2 (object_bytes d2) Hs2 Hc2 He2 Hin2) as (s2' & E2 & _); [done|] end.
  rewrite E2, object_decode. cbn [mbind result_mbind result_bind]. unfold object_text. rewrite json_loads_dumps by done.
  st_run. done.
Qed.
End Payload.

(** ** Witnesses *)

#[local] Existing Instances Toy.env default_settings ToyCrypto.keys ToyCrypto.ciphers ToyCrypto.laws ToyHandler.echo.

(** The other half of [ToyCrypto]. *)
Module ToyClient.
Definition ciphers : ClientCiphers := {|
  public_key := private_key;
  load_public_pem b := result_bind (fun s => bytes_fromhex (drop 7 s)) (bytes_decode b);
  public_encrypt k m := Ok (ToyCrypto.pad (modulus_bytes k) m);
  aes_cbc_encrypt _ _ b := b;
  pkcs7_pad _ b := b;
  zip_archive members := ascii_bytes (concat (map (fun m => m.1 ++ m.2) members));
|}.

#[export] Instance laws : @ClientLaws _ _ _ ciphers.
Proof.
  split. intros sk. exists sk. split; [|done].
  change (load_public_pem (public_pem sk))
    with (result_bind (fun s => bytes_fromhex (drop 7 s)) (bytes_decode (ascii_bytes ("public " ++ bytes_hex sk)))).
  assert (is_ascii ("public " ++ bytes_hex sk) = true) as Ha
    by (rewrite is_ascii_app; apply andb_true_iff; split; [done|apply bytes_hex_ascii]).
  rewrite (bytes_decode_encode _ _ (str_encode_ascii _ Ha)). apply bytes_fromhex_hex.
Qed.

Definition request : dict := keypair_request.
Definition response : dict := [("success", JBool true); ("echo", JStr (object_text request))].
Definition server_end : sock :=
  ToyHandler.client [Data (take 7 (object_bytes request)); Data (drop 7 (object_bytes request))].
Definition client_end : sock :=
  ToyHandler.client [Data (take 30 (object_bytes response)); Data (drop 30 (object_bytes response))].
End ToyClient.

#[local] Existing Instances ToyClient.ciphers ToyClient.laws.

Example local_server_agrees_witness :
  exists s1 s2,
    local_connection (ToyClient.server_end, empty_world) = (Ok tt, (s1, empty_world))
    /\ handle_client (ToyClient.server_end, empty_world) = (Ok tt, (s2, empty_world))
    /\ sk_out s1 = sk_out s2.
Proof.
  apply (local_server_agrees ToyClient.server_end empty_world ToyClient.request ToyClient.response empty_world).
  - vm_compute. reflexivity.
  - apply Nat.ltb_lt. vm_compute. reflexivity.
  - apply Z.leb_le. vm_compute. reflexivity.
  - vm_compute. reflexivity.
  - reflexivity.
  - reflexivity.
Defined.

(** The CSV file of the test, refused. *)
Example test_payload_refused_witness :
  exists text, (encrypt_data (ascii_bytes csv_content) "public 0800" empty_world).1 = Ok text
    /\ (decrypt_combined_hybrid_data (JStr text) (JStr ToyKeys.sid) ToyPayload.start).1
       = Ok (false, ascii_bytes tampered_msg).
Proof.
  destruct (test_payload_refused (ascii_bytes csv_content) ToyKeys.sid "public 0800" ToyKeys.key ToyPayload.start
    empty_world) as (text & E & _ & Hbad).
  - intros n len. apply repeat_length.
  - exact toy_live.
  - vm_compute. reflexivity.
  - apply Nat.leb_le. vm_compute. reflexivity.
  - exists text. split; [exact E|]. apply (Hbad []). vm_compute. reflexivity.
Defined.
