(* ===== verification/Programs.v ===== *)
(** * Programs of threads

    [prog] is what a thread still has to do, cut where another thread may come in
    between.  Between two turns the world may change; [run_all] is the course of
    events in which it does not. *)
From stdpp Require Import base tactics list gmap strings.
From Stdlib Require Import NArith ZArith Lia.
From S2P Require Import Prelude PyText PyCodec World.

(** ** Programs *)

(** [Turn next after]: a turn in the world [w] leaves [after w] and goes on with
    [next w]. *)
Inductive prog (A : Type) : Type :=
  | Done (r : result exn A)
  | Turn (next : world -> prog A) (after : world -> world).
Arguments Done {A} r.
Arguments Turn {A} next after.

Fixpoint prog_bind {A B} (k : A -> prog B) (p : prog A) : prog B :=
  match p with
  | Done (Ok a) => k a
  | Done (Raise e) => Done (Raise e)
  | Turn next after => Turn (fun w => prog_bind k (next w)) after
  end.

#[export] Instance prog_mret : MRet prog := fun A a => Done (Ok a).
#[export] Instance prog_mbind : MBind prog := fun A B k p => prog_bind k p.
#[export] Instance prog_mraise : MonadRaise exn prog := fun A e => Done (Raise e).

(** [try: p except Exception as e: h(e)]. *)
Fixpoint prog_try {A} (p : prog A) (h : exn -> prog A) : prog A :=
  match p with
  | Done (Ok a) => Done (Ok a)
  | Done (Raise e) => h e
  | Turn next after => Turn (fun w => prog_try (next w) h) after
  end.

(** [try: p finally: g]. *)
Fixpoint prog_finally {A} (p : prog A) (g : prog unit) : prog A :=
  match p with
  | Done r => prog_bind (fun _ => Done r) g
  | Turn next after => Turn (fun w => prog_finally (next w) g) after
  end.

(** A call in one turn, and local work in none. *)
Definition call {A} (m : IO A) : prog A := Turn (fun w => Done (m w).1) (fun w => (m w).2).
Definition local {A} (r : result exn A) : prog A := Done r.

(** All turns in a row. *)
Fixpoint run_all {A} (p : prog A) : IO A := fun w =>
  match p with
  | Done r => (r, w)
  | Turn next after => run_all (next w) (after w)
  end.

(** [p] is the computation [m], cut into turns. *)
Class Cuts {A} (p : prog A) (m : IO A) : Prop := cuts : forall w, run_all p w = m w.

Section Cuts.
#[export] Instance cuts_ret {A} (a : A) : Cuts (mret a) (mret a).
Proof. by intros w. Qed.
#[export] Instance cuts_raise {A} (e : exn) : Cuts (mraise e : prog A) (mraise e).
Proof. by intros w. Qed.
#[export] Instance cuts_local {A} (r : result exn A) : Cuts (local r) (st_lift r).
Proof. by intros w. Qed.
#[export] Instance cuts_call {A} (m : IO A) : Cuts (call m) m.
Proof. intros w. cbn. by destruct (m w). Qed.

Lemma run_prog_bind {A B} (k : A -> prog B) (p : prog A) w :
  run_all (p ≫= k) w = match run_all p w with (Ok a, w') => run_all (k a) w' | (Raise e, w') => (Raise e, w') end.
Proof. revert w. induction p as [[a|e]|next IH after]; intros w; [done..|apply IH]. Qed.

Lemma run_prog_try {A} (p : prog A) (h : exn -> prog A) w :
  run_all (prog_try p h) w = match run_all p w with (Ok a, w') => (Ok a, w') | (Raise e, w') => run_all (h e) w' end.
Proof. revert w. induction p as [[a|e]|next IH after]; intros w; [done..|apply IH]. Qed.

Lemma run_prog_finally {A} (p : prog A) (g : prog unit) w :
  run_all (prog_finally p g) w
  = let '(r, w1) := run_all p w in
    match run_all g w1 with (Ok _, w2) => (r, w2) | (Raise e, w2) => (Raise e, w2) end.
Proof.
  revert w. induction p as [r|next IH after]; intros w; [|apply IH]. cbn. change (prog_bind ?k g) with (g ≫= k).
  rewrite run_prog_bind. by destruct (run_all g w) as [[[]|e] w'].
Qed.

#[export] Instance cuts_bind {A B} (p : prog A) (m : IO A) (k : A -> prog B) (l : A -> IO B) :
  Cuts p m -> (forall a, Cuts (k a) (l a)) -> Cuts (p ≫= k) (m ≫= l).
Proof.
  intros Hp Hk w. rewrite run_prog_bind, run_bind, Hp. destruct (m w) as [[a|e] w']; [apply Hk|done].
Qed.
#[export] Instance cuts_try {A} (p : prog A) (m : IO A) (h : exn -> prog A) (g : exn -> IO A) :
  Cuts p m -> (forall e, Cuts (h e) (g e)) -> Cuts (prog_try p h) (st_try m g).
Proof.
  intros Hp Hh w. rewrite run_prog_try, run_try, Hp. destruct (m w) as [[a|e] w']; [done|apply Hh].
Qed.
#[export] Instance cuts_finally {A} (p : prog A) (m : IO A) (g : prog unit) (h : IO unit) :
  Cuts p m -> Cuts g h -> Cuts (prog_finally p g) (st_finally m h).
Proof.
  intros Hp Hg w. rewrite run_prog_finally, run_finally, Hp. destruct (m w) as [r w1]. by rewrite Hg.
Qed.

(** The same computation written in another way. *)
Lemma cuts_ext {A} (p : prog A) (m m' : IO A) : Cuts p m' -> (forall w, m w = m' w) -> Cuts p m.
Proof. intros Hp E w. by rewrite Hp. Qed.
End Cuts.

#[export] Hint Extern 5 (Cuts _ (match ?x with _ => _ end)) => destruct x : typeclass_instances.
#[export] Hint Extern 5 (Cuts _ (if ?x then _ else _)) => destruct x : typeclass_instances.

(** ** What holds along a program

    [along I G Q p]: if the world is in [I] whenever [p] has its turn, each turn
    takes a step in [G], and the outcome is in [Q].  Between two turns the world
    may change in any way that [I] allows. *)
Fixpoint along {A} (I : world -> Prop) (G : relation world) (Q : result exn A -> Prop) (p : prog A) : Prop :=
  match p with
  | Done r => Q r
  | Turn next after => forall w, I w -> G w (after w) /\ along I G Q (next w)
  end.

Section Along.
Context (I : world -> Prop) (G : relation world).

Lemma along_mono {A} (P Q : result exn A -> Prop) p :
  along I G P p -> (forall r, P r -> Q r) -> along I G Q p.
Proof.
  intros Hp HPQ. induction p as [r|next IH after]; [by apply HPQ|]. intros w Hw.
  destruct (Hp w Hw) as [HG Hn]. auto.
Qed.

Lemma along_bind {A B} (P : A -> Prop) (Q : result exn B -> Prop) (p : prog A) (k : A -> prog B) :
  along I G (fun r => match r with Ok a => P a | Raise e => Q (Raise e) end) p ->
  (forall a, P a -> along I G Q (k a)) -> along I G Q (p ≫= k).
Proof.
  intros Hp Hk. induction p as [[a|e]|next IH after]; [by apply Hk|done|].
  intros w Hw. destruct (Hp w Hw) as [HG Hn]. split; [done|by apply IH].
Qed.

Lemma along_try {A} (Q : result exn A -> Prop) (p : prog A) (h : exn -> prog A) (E : exn -> Prop) :
  along I G (fun r => match r with Ok a => Q (Ok a) | Raise e => E e end) p ->
  (forall e, E e -> along I G Q (h e)) -> along I G Q (prog_try p h).
Proof.
  intros Hp Hh. induction p as [[a|e]|next IH after]; [done|by apply Hh|].
  intros w Hw. destruct (Hp w Hw) as [HG Hn]. split; [done|by apply IH].
Qed.

Lemma along_local {A B} (Q : result exn B -> Prop) (r : result exn A) (k : A -> prog B) :
  (forall a, r = Ok a -> along I G Q (k a)) -> (forall e, Q (Raise e)) -> along I G Q (local r ≫= k).
Proof. intros Hk He. destruct r as [a|e]; [by apply Hk|apply He]. Qed.

Lemma along_seq {A B} (Q : result exn B -> Prop) (m : IO A) (k : A -> prog B) :
  (forall w, I w -> G w (m w).2 /\ match (m w).1 with Ok a => along I G Q (k a) | Raise e => Q (Raise e) end) ->
  along I G Q (call m ≫= k).
Proof.
  intros Hm w Hw. destruct (Hm w Hw) as [HG Hn]. split; [done|]. cbn. by destruct (m w).1.
Qed.

Lemma along_finally {A} (Q : result exn A -> Prop) (p : prog A) (g : prog unit) :
  along I G Q p -> (forall r, Q r -> along I G (fun o => match o with Ok _ => Q r | Raise e => Q (Raise e) end) g) ->
  along I G Q (prog_finally p g).
Proof.
  intros Hp Hg. induction p as [r|next IH after].
  - cbn. change (prog_bind ?k g) with (g ≫= k). apply (along_bind (fun _ => Q r)); [by apply Hg|done].
  - intros w Hw. destruct (Hp w Hw) as [HG Hn]. split; [done|by apply IH].
Qed.
End Along.

Lemma along_weaken {A} (I J : world -> Prop) G (Q : result exn A -> Prop) p :
  (forall w, I w -> J w) -> along J G Q p -> along I G Q p.
Proof.
  intros HIJ Hp. induction p as [r|next IH after]; [done|]. intros w Hw.
  destruct (Hp w (HIJ w Hw)) as [HG Hn]. auto.
Qed.

(** [Guards G p]: every turn of [p] takes a step in [G], come what may. *)
Class Guards {A} (G : relation world) (p : prog A) : Prop :=
  guards : along (fun _ => True) G (fun _ => True) p.

Section Guards.
Context (G : relation world).

#[export] Instance guards_ret {A} (a : A) : Guards G (mret a : prog A).
Proof. done. Qed.
#[export] Instance guards_raise {A} (e : exn) : Guards G (mraise e : prog A).
Proof. done. Qed.
#[export] Instance guards_local {A} (r : result exn A) : Guards G (local r).
Proof. done. Qed.
#[export] Instance guards_call {A} (m : IO A) : Steps G m -> Guards G (call m).
Proof. intros Hm w _. split; [apply Hm|done]. Qed.
#[export] Instance guards_bind {A B} (p : prog A) (k : A -> prog B) :
  Guards G p -> (forall a, Guards G (k a)) -> Guards G (p ≫= k).
Proof. intros Hp Hk. apply (along_bind _ _ (fun _ => True)); [eapply along_mono; [apply Hp|by intros [a|e]]|]. intros a _. apply Hk. Qed.
#[export] Instance guards_try {A} (p : prog A) (h : exn -> prog A) :
  Guards G p -> (forall e, Guards G (h e)) -> Guards G (prog_try p h).
Proof. intros Hp Hh. apply (along_try _ _ _ _ _ (fun _ => True)); [eapply along_mono; [apply Hp|by intros [a|e]]|]. intros e _. apply Hh. Qed.
#[export] Instance guards_finally {A} (p : prog A) (g : prog unit) :
  Guards G p -> Guards G g -> Guards G (prog_finally p g).
Proof.
  intros Hp Hg. apply along_finally; [exact Hp|]. intros r _. eapply along_mono; [apply Hg|by intros [[]|e]].
Qed.
End Guards.

#[export] Hint Extern 5 (Guards _ (match ?x with _ => _ end)) => destruct x : typeclass_instances.
#[export] Hint Extern 5 (Guards _ (if ?x then _ else _)) => destruct x : typeclass_instances.

(** [finishes n Q p]: after [n] turns of its own at most, and whatever happens
    between them, [p] has returned a value in [Q]. *)
Fixpoint finishes {A} (n : nat) (Q : A -> Prop) (p : prog A) {struct p} : Prop :=
  match p with
  | Done (Ok a) => Q a
  | Done (Raise _) => False
  | Turn next _ => match n with O => False | S n => forall w, finishes n Q (next w) end
  end.

(** [within n Q p]: the same for a program that may raise. *)
Fixpoint within {A} (n : nat) (Q : A -> Prop) (p : prog A) {struct p} : Prop :=
  match p with
  | Done (Ok a) => Q a
  | Done (Raise _) => True
  | Turn next _ => match n with O => False | S n => forall w, within n Q (next w) end
  end.

Section Finishes.
Lemma within_mono {A} n m (P Q : A -> Prop) (p : prog A) :
  within n P p -> n <= m -> (forall a, P a -> Q a) -> within m Q p.
Proof.
  intros Hp Hnm HPQ. revert n m Hp Hnm. induction p as [[a|e]|next IH after]; intros n m Hp Hnm; [by apply HPQ|done|].
  destruct n as [|n]; [done|]. destruct m as [|m]; [lia|]. intros w. eapply IH; [apply Hp|lia].
Qed.

Lemma within_bind_in {A B} n m (P : A -> Prop) (Q : B -> Prop) (p : prog A) (k : A -> prog B) :
  within n P p -> (forall a, P a -> within m Q (k a)) -> within (n + m) Q (p ≫= k).
Proof.
  intros Hp Hk. revert n Hp. induction p as [[a|e]|next IH after]; intros n Hp; [|done|].
  - eapply within_mono; [by apply Hk|lia|done].
  - destruct n as [|n]; [done|]. intros w. apply IH, Hp.
Qed.

Lemma within_bind {A B} n m (Q : B -> Prop) (p : prog A) (k : A -> prog B) :
  within n (fun _ => True) p -> (forall a, within m Q (k a)) -> within (n + m) Q (p ≫= k).
Proof. intros Hp Hk. by eapply within_bind_in; [apply Hp|auto]. Qed.

Lemma within_ret {A} n (Q : A -> Prop) a : Q a -> within n Q (mret a).
Proof. by destruct n. Qed.
Lemma within_local {A} (r : result exn A) : within 0 (fun _ => True) (local r).
Proof. by destruct r. Qed.
Lemma within_call {A} (m : IO A) : within 1 (fun _ => True) (call m).
Proof. intros w. cbn. by destruct (m w).1. Qed.

(** What a call and a local computation returned. *)
Lemma within_call_ok {A B} n (Q : B -> Prop) (m : IO A) (k : A -> prog B) :
  (forall a w w', m w = (Ok a, w') -> within n Q (k a)) -> within (S n) Q (call m ≫= k).
Proof. intros Hk w. cbn. specialize (fun a => Hk a w). destruct (m w) as [[a|e] w']; cbn; [by eapply Hk|done]. Qed.
Lemma within_local_ok {A B} n (Q : B -> Prop) (r : result exn A) (k : A -> prog B) :
  (forall a, r = Ok a -> within n Q (k a)) -> within n Q (local r ≫= k).
Proof. intros Hk. destruct r as [a|e]; [by apply Hk|exact I]. Qed.

Lemma finishes_ret {A} n (Q : A -> Prop) a : Q a -> finishes n Q (mret a).
Proof. by destruct n. Qed.

Lemma finishes_within {A} n (Q : A -> Prop) (p : prog A) : finishes n Q p -> within n Q p.
Proof.
  revert n. induction p as [[a|e]|next IH after]; intros n Hp; [done..|]. destruct n; [done|]. intros w. apply IH, Hp.
Qed.

Lemma finishes_try {A} n m (Q : A -> Prop) (p : prog A) (h : exn -> prog A) :
  within n Q p -> (forall e, finishes m Q (h e)) -> finishes (n + m) Q (prog_try p h).
Proof.
  assert (forall k (q : prog A), finishes m Q q -> finishes (k + m) Q q) as Hmono.
  { intros k q. revert k m. induction q as [[a|e]|next IH after]; intros k m' Hq; [done..|].
    destruct m' as [|m']; [done|]. rewrite Nat.add_succ_r. intros w. apply IH, Hq. }
  intros Hp Hh. revert n Hp. induction p as [[a|e]|next IH after]; intros n Hp; [done|apply Hmono, Hh|].
  destruct n as [|n]; [done|]. intros w. apply IH, Hp.
Qed.

Lemma finishes_catch {A} n (Q : A -> Prop) (p : prog A) (h : exn -> prog A) :
  within n Q p -> (forall e, finishes 0 Q (h e)) -> finishes n Q (prog_try p h).
Proof. rewrite <-(Nat.add_0_r n) at 2. apply finishes_try. Qed.

Lemma within_finally {A} n m (Q : A -> Prop) (p : prog A) (g : prog unit) :
  within n Q p -> within m (fun _ => True) g -> within (n + m) Q (prog_finally p g).
Proof.
  intros Hp Hg. revert n Hp. induction p as [r|next IH after]; intros n Hp.
  - cbn. change (prog_bind ?k g) with (g ≫= k). rewrite Nat.add_comm.
    apply (within_bind_in m n (fun _ => True)); [done|]. intros _ _. by destruct r.
  - destruct n as [|n]; [done|]. intros w. apply IH, Hp.
Qed.
End Finishes.

Create HintDb turns.
#[export] Hint Resolve within_ret within_local within_call finishes_ret : turns.

(** Count the turns of a program through its binds and branches. *)
Ltac count_turns := repeat lazymatch goal with
  | |- forall _, _ => intros
  | |- within _ _ (local _ ≫= _) => apply (within_bind 0); [apply within_local|]
  | |- within (S ?n) _ (call _ ≫= _) => apply (within_bind 1 n); [apply within_call|]
  | |- within _ _ (mret _) => apply within_ret
  | |- within _ _ (match ?x with _ => _ end) => destruct x
  | |- within _ _ (let _ := _ in _) => cbv zeta
  | |- within _ _ ((fun _ => _) _) => cbv beta
  end.
