(* ===== verification/Threads.v ===== *)
(** * The handler cut into turns

    Every client has a thread of its own, and all threads share the service
    objects.  The operations of [RequestHandler] are written again as programs
    ([Programs]), cut at the readings of the clock and at the calls of the
    services, and run to the end without interruption they are the operations of
    [RequestHandler].  A call is one turn: the dictionary of the sessions is only
    touched under the lock of the key manager, once in each call.  The run of a
    bundle is longer, and has turns of its own. *)
From stdpp Require Import base tactics list gmap strings.
From Stdlib Require Import NArith ZArith Lia.
From S2P Require Import Prelude PyText PyCodec Sha2 PyJson PyJsonParse World Crypto OutputFiles Interfaces RequestHandler Programs.

(** ** The run of a bundle

    The program of [execute_bundle], and the most turns it takes. *)
Class ExecuteTurns `{IExecuteService} : Type := {
  et_execute_bundle : bytes -> json -> option str -> option bytes -> prog (bool * str * list output_file);
  et_turns : nat;
}.

Class ExecuteTurnsLaws `{ExecuteTurns} : Prop := {
  #[global] et_cuts bundle sid script_path csv ::
    Cuts (et_execute_bundle bundle sid script_path csv) (es_execute_bundle bundle sid script_path csv);
  et_within bundle sid script_path csv : within et_turns (fun _ => True) (et_execute_bundle bundle sid script_path csv);
}.

(** ** The operations of the handler, call by call *)

Section Handler.
Context `{Env, IDecryptService, ExecuteTurns, IKeyPairManager, IAttestationService}.
Context (kms_attestation : option (json -> IO (bool * json))).

Definition generate_keypair_turns (request : dict) : prog dict :=
  prog_try
    (job_id ← local (dict_index "job_id" request);
     let key_size := dict_get_or "key_size" (JInt 2048) request in
     '(success, session_id) ← call (km_generate_keypair job_id key_size);
     if negb success then mret (_error_response ("Keypair generation failed: " ++ session_id))
     else
       public_key ← call (km_get_public_key (JStr session_id));
       mret [("success", JBool true); ("session_id", JStr session_id);
             ("public_key", opt_json JStr public_key); ("job_id", job_id); ("key_size", key_size)])
    (fun e => mret (_error_response ("Keypair generation error: " ++ exn_msg e))).

Definition decrypt_turns (encrypted session_id : json) (key : str) (timing : dict)
    : prog (bool * bytes * dict) :=
  t0 ← call time_time;
  '(success, decrypted) ← call (ds_decrypt_combined_hybrid_data encrypted session_id);
  t1 ← call time_time;
  mret (success, decrypted, dict_set key (elapsed_ms t0 t1) timing).

Definition attested_turns (request : dict) (session_id : json) (decrypted_zip : bytes)
    (decrypted_csv : option bytes) (output : str) (files : list output_file) (timing : dict) : prog dict :=
  let atl_nonce_hex := dict_get_or "atl_nonce" JNull request in
  external_nonce ← (if truthy atl_nonce_hex then
                      b ← local (fromhex_arg atl_nonce_hex); mret (Some b)
                    else mret None);
  let manifest_sha256 := files_manifest_sha256 (build_files_manifest files) in
  t0 ← call time_time;
  '(attestation_success, attestation_result) ← call (at_create_execution_attestation
     (proof_args request session_id decrypted_zip decrypted_csv output files external_nonce));
  t1 ← call time_time;
  let timing := dict_set "attestation_generation_ms" (elapsed_ms t0 t1) timing in
  let response :=
    [("success", JBool true);
     ("output", JStr output);
     ("files", JArr (map file_entry files));
     ("files_manifest_sha256", JStr manifest_sha256);
     ("session_id", session_id);
     ("enclave_proof", JObj [("ran_in_enclave", JBool at_is_real_enclave);
                             ("attestation_available", JBool attestation_success)]);
     ("timing", JObj timing)] in
  mret (if (attestation_success : bool) then response ++ [("attestation", JObj attestation_result)]
        else response).

Definition run_bundle_turns (request : dict) (session_id : json) (decrypted_zip : bytes)
    (decrypted_csv : option bytes) (timing : dict) : prog dict :=
  t0 ← call time_time;
  '(success, output, files) ← et_execute_bundle decrypted_zip session_id None decrypted_csv;
  t1 ← call time_time;
  let timing := dict_set "script_execution_ms" (elapsed_ms t0 t1) timing in
  _ ← call (cleanup_session session_id);
  if (success : bool) then
    attested_turns request session_id decrypted_zip decrypted_csv output files timing
  else mret (_error_response ("Execution failed: " ++ output)).

Definition execute_turns (request : dict) : prog dict :=
  prog_try
    (session_id ← local (dict_index "session_id" request);
     encrypted_data ← local (dict_index "encrypted_data" request);
     let encrypted_csv := dict_get_or "encrypted_csv" JNull request in
     _ ← local (py_len encrypted_data);
     _ ← local (if truthy encrypted_csv then py_len encrypted_csv else Ok 0);
     '(success, decrypted_zip, timing) ← decrypt_turns encrypted_data session_id "decrypt_zip_ms" [];
     if negb success then
       error_msg ← local (bytes_decode decrypted_zip);
       mret (_error_response ("ZIP decryption failed: " ++ error_msg))
     else if truthy encrypted_csv then
       '(success, decrypted_csv, timing) ← decrypt_turns encrypted_csv session_id "decrypt_csv_ms" timing;
       if negb success then
         error_msg ← local (bytes_decode decrypted_csv);
         mret (_error_response ("CSV decryption failed: " ++ error_msg))
       else run_bundle_turns request session_id decrypted_zip (Some decrypted_csv) timing
     else run_bundle_turns request session_id decrypted_zip None timing)
    (fun e => mret (_error_response ("Execution error: " ++ exn_msg e))).

Definition proxy_turns (request : dict) : prog dict :=
  t_total ← call time_time;
  prog_try
    (job_id ← local (dict_index "job_id" request);
     let key_size := dict_get_or "key_size" (JInt 2048) request in
     t0 ← call time_time;
     '(success, session_id) ← call (km_generate_keypair job_id key_size);
     if negb success then mret (_error_response ("Keypair generation failed: " ++ session_id))
     else
       public_key ← call (km_get_public_key (JStr session_id));
       match public_key with
       | None | Some [] => mret (_error_response "Failed to retrieve generated public key")
       | Some public_key =>
           t1 ← call time_time;
           t2 ← call time_time;
           encoded ← local (str_encode public_key);
           let public_key_hash := sha256 encoded in
           nonce ← local (nonce_arg (dict_get_or "nonce" JNull request));
           t3 ← call time_time;
           t4 ← call time_time;
           '(success_attest, attestation) ←
             call (at_generate_attestation (VBytes public_key_hash) nonce VNone);
           t5 ← call time_time;
           t6 ← call time_time;
           let timings := [("keypair_generation_ms", elapsed_ms t0 t1);
                           ("user_data_build_ms", elapsed_ms t2 t3);
                           ("nsm_attestation_ms", elapsed_ms t4 t5);
                           ("total_ms", elapsed_ms t_total t6)] in
           mret [("success", JBool true);
                 ("session_id", JStr session_id);
                 ("public_key", JStr public_key);
                 ("public_key_hash", JStr (b64encode public_key_hash));
                 ("job_id", job_id);
                 ("key_size", key_size);
                 ("attestation", if (success_attest : bool) then JObj attestation else JNull);
                 ("attestation_available", JBool success_attest);
                 ("is_real_enclave", JBool at_is_real_enclave);
                 ("timings", JObj timings);
                 ("verification_steps", JArr (map JStr verification_steps))]
       end)
    (fun e => mret (_error_response ("Proxy attestation error: " ++ exn_msg e))).

Definition get_attestation_turns (request : dict) : prog dict :=
  prog_try
    (session_id ← local (dict_index "session_id" request);
     public_key ← call (km_get_public_key session_id);
     match public_key with
     | None | Some [] => mret (_error_response ("Unknown session: " ++ fmt session_id))
     | Some public_key =>
         let user_data := session_user_data public_key session_id in
         nonce ← local (nonce_arg (dict_get_or "nonce" JNull request));
         '(success, attestation) ← call (at_generate_attestation (VBytes user_data) nonce VNone);
         mret [("success", JBool success);
               ("attestation", if (success : bool) then JObj attestation else JNull);
               ("error", if (success : bool) then JNull else dict_get_or "error" JNull attestation);
               ("is_real_enclave", JBool at_is_real_enclave)]
     end)
    (fun e => mret (_error_response ("Attestation error: " ++ exn_msg e))).

Definition dispatch_turns (request : dict) (operation : json) : prog dict :=
  if eq_str operation "generate_rsa_keypair" then generate_keypair_turns request
  else if eq_str operation "execute_script_rsa_hybrid" then execute_turns request
  else if eq_str operation "health_check" then
    mret [("success", JBool true); ("message", JStr "Enclave healthy")]
  else if eq_str operation "get_attestation" then get_attestation_turns request
  else if eq_str operation "get_attestation_for_proxy" then proxy_turns request
  else if eq_str operation "get_enclave_info" then mret (_get_enclave_info kms_attestation)
  else mret (_error_response ("Unknown operation: " ++ fmt operation)).

Definition handle_request_turns (request_data : str) : prog dict :=
  prog_try
    (request ← local (_parse_request request_data);
     match request with
     | JNull => mret (_error_response "Invalid JSON request")
     | JObj request =>
         match validate_request request with
         | Some validation_error => mret (_error_response validation_error)
         | None =>
             operation ← local (dict_index "operation" request);
             dispatch_turns request operation
         end
     | v => mraise (Exn AttributeError ("'" ++ type_name v ++ "' object has no attribute 'get'"))
     end)
    (fun e => mret (_error_response ("Server error: " ++ exn_msg e))).

Context {turns_laws : ExecuteTurnsLaws}.

(** *** Uninterrupted *)

#[export] Instance cuts_generate_keypair request : Cuts (generate_keypair_turns request) (_generate_keypair request).
Proof. unfold generate_keypair_turns, _generate_keypair. apply _. Qed.
#[export] Instance cuts_decrypt encrypted session_id key timing :
  Cuts (decrypt_turns encrypted session_id key timing) (decrypt_step encrypted session_id key timing).
Proof. unfold decrypt_turns, decrypt_step. apply _. Qed.
#[export] Instance cuts_attested request session_id zip csv output files timing :
  Cuts (attested_turns request session_id zip csv output files timing)
       (attested_response request session_id zip csv output files timing).
Proof. unfold attested_turns, attested_response. apply _. Qed.
#[export] Instance cuts_run_bundle request session_id zip csv timing :
  Cuts (run_bundle_turns request session_id zip csv timing) (run_bundle request session_id zip csv timing).
Proof. unfold run_bundle_turns, run_bundle. apply _. Qed.
#[export] Instance cuts_execute request : Cuts (execute_turns request) (_execute_encrypted_script request).
Proof. unfold execute_turns, _execute_encrypted_script. apply _. Qed.
#[export] Instance cuts_proxy request : Cuts (proxy_turns request) (_get_attestation_for_proxy request).
Proof. unfold proxy_turns, _get_attestation_for_proxy. apply _. Qed.
#[export] Instance cuts_get_attestation request : Cuts (get_attestation_turns request) (_get_attestation request).
Proof. unfold get_attestation_turns, _get_attestation. apply _. Qed.
#[export] Instance cuts_dispatch request operation :
  Cuts (dispatch_turns request operation) (dispatch kms_attestation request operation).
Proof. unfold dispatch_turns, dispatch. apply _. Qed.
#[export] Instance cuts_handle_request request_data :
  Cuts (handle_request_turns request_data) (handle_request kms_attestation request_data).
Proof. unfold handle_request_turns, handle_request. apply _. Qed.

(** *** Turns until the response *)

Lemma generate_keypair_finishes request : finishes 2 good_response (generate_keypair_turns request).
Proof. apply finishes_catch; [count_turns|]; auto with turns responds. Qed.

Lemma decrypt_within encrypted session_id key timing :
  within 3 (fun _ => True) (decrypt_turns encrypted session_id key timing).
Proof. unfold decrypt_turns. by count_turns. Qed.

Lemma attested_within request session_id zip csv output files timing :
  within 3 good_response (attested_turns request session_id zip csv output files timing).
Proof.
  unfold attested_turns. apply (within_bind 0).
  - destruct (truthy _); [|done]. by apply (within_bind 0); [apply within_local|].
  - count_turns. match goal with |- good_response (if ?b then _ else _) => destruct b end; by eexists.
Qed.

Lemma run_bundle_within request session_id zip csv timing :
  within (6 + et_turns) good_response (run_bundle_turns request session_id zip csv timing).
Proof.
  unfold run_bundle_turns. apply (within_bind 1 (5 + et_turns)); [apply within_call|]. intros t0.
  rewrite Nat.add_comm. apply within_bind; [apply et_within|]. count_turns; auto with responds. apply attested_within.
Qed.

Lemma execute_finishes request : finishes (12 + et_turns) good_response (execute_turns request).
Proof.
  apply finishes_catch; [|auto with turns responds]. count_turns.
  apply (within_bind 3 (9 + et_turns)); [apply decrypt_within|].
  intros [[success zip] timing]. destruct (negb success); [count_turns; auto with responds|].
  destruct (truthy _).
  - apply (within_bind 3 (6 + et_turns)); [apply decrypt_within|]. intros [[success' csv] timing'].
    destruct (negb success'); [count_turns; auto with responds|]. apply run_bundle_within.
  - eapply within_mono; [apply run_bundle_within|lia|done].
Qed.

Lemma get_attestation_finishes request : finishes 2 good_response (get_attestation_turns request).
Proof. apply finishes_catch; [count_turns|]; auto with turns responds. Qed.

Lemma proxy_finishes request : finishes 11 good_response (proxy_turns request).
Proof.
  intros w. apply finishes_catch; [|auto with turns responds].
  cbv beta. count_turns; auto with responds.
Qed.

(** The most turns a request can take. *)
Definition max_turns : nat := 12 + et_turns.

Lemma dispatch_finishes request operation : within max_turns good_response (dispatch_turns request operation).
Proof.
  assert (forall n p, n <= max_turns -> finishes n good_response p -> within max_turns good_response p) as Hw
    by (intros n p Hn Hp; eapply within_mono; [by apply finishes_within|done|done]).
  unfold dispatch_turns.
  destruct (eq_str _ _); [apply (Hw 2); [unfold max_turns; lia|apply generate_keypair_finishes]|].
  destruct (eq_str _ _); [apply (Hw (12 + et_turns)); [unfold max_turns; lia|apply execute_finishes]|].
  destruct (eq_str _ _); [apply within_ret; auto with responds|].
  destruct (eq_str _ _); [apply (Hw 2); [unfold max_turns; lia|apply get_attestation_finishes]|].
  destruct (eq_str _ _); [apply (Hw 11); [unfold max_turns; lia|apply proxy_finishes]|].
  destruct (eq_str _ _); apply within_ret; [by eexists|auto with responds].
Qed.

Lemma handle_request_finishes request_data :
  finishes max_turns good_response (handle_request_turns request_data).
Proof.
  apply finishes_catch; [|auto with turns responds]. apply (within_bind 0); [apply within_local|].
  intros [| | | | | |request]; try done; [apply within_ret; auto with responds|].
  destruct (validate_request request); [apply within_ret; auto with responds|].
  apply (within_bind 0); [apply within_local|]. apply dispatch_finishes.
Qed.
(** *** What an attested response says, with other threads in between *)

(** The service attested this in the course of the events up to [w]. *)
Definition attested_as (request : dict) (session_id : json) (zip : bytes) (csv : option bytes)
    (output : str) (files : list output_file) (resp : dict) (w : world) : Prop :=
  dict_get "output" resp = Some (JStr output) /\ read_files_field resp = Some files
  /\ dict_get "files_manifest_sha256" resp = Some (JStr (files_manifest_sha256 (build_files_manifest files)))
  /\ forall att, dict_get "attestation" resp = Some att -> exists nonce result wa wb,
       nonce_of request nonce /\ att = JObj result
       /\ at_create_execution_attestation (proof_args request session_id zip csv output files nonce) wa
          = (Ok (true, result), wb)
       /\ w_trace wb ⊆ w_trace w.

Lemma decrypt_turns_ok encrypted session_id key timing :
  within 3 (fun r => r.1.1 = true -> decrypted_to encrypted session_id r.1.2)
    (decrypt_turns encrypted session_id key timing).
Proof.
  unfold decrypt_turns. apply within_call_ok. intros t0 _ _ _. apply within_call_ok.
  intros [success plain] wa wb Hd. apply within_call_ok. intros t1 _ _ _. apply within_ret.
  cbn [fst snd]. intros ->. by exists wa, wb.
Qed.

Lemma dict_index_ok key (d : dict) v : dict_index key d = Ok v -> dict_get key d = Some v.
Proof. unfold dict_index. destruct (dict_get key d); [congruence|done]. Qed.
End Handler.
