(* ===== verification/Attestation.v ===== *)
(** * attestation_service_impl.py: Nitro attestation documents

    The NSM device is a parameter, [Nsm].  Each [ioctl] leaves an event in the
    trace of the world. *)
From stdpp Require Import base tactics list gmap strings.
From Stdlib Require Import NArith ZArith Lia.
From S2P Require Import Prelude PyText PyCodec Sha2 PyJson PyJsonParse World Config Interfaces Cbor LocalAttestation.

Class Nsm : Type := {
  (** [os.open('/dev/nsm', os.O_RDWR)] at start-up. *)
  nsm_open : res Z;
  (** The [n]-th [ioctl]: the bytes the device writes and the length it reports. *)
  nsm_device : nat -> bytes -> res (bytes * N);
}.

(** The [ioctl] request: [_IOWR(0x0A, 0, 32)]. *)
Definition NSM_IOCTL_REQUEST : N := 0xC0200A00.

Example nsm_ioctl_request_iowr :
  NSM_IOCTL_REQUEST = N.lor (N.lor (N.shiftl 3 30) (N.shiftl 0x0A 8)) (N.lor 0 (N.shiftl 32 16)).
Proof. reflexivity. Qed.

(** ** [struct.pack('QQQQ')] *)

Definition le64 (n : N) : bytes := reverse (bytes_of_Ns (be_Ns 8 n)).
Definition le64_value (b : bytes) : N := int_from_bytes (reverse b).

(** The [NsmMessage] structure: two buffers, by address and length. *)
Record nsm_message : Type := NsmMessage {
  nm_request_addr : N;
  nm_request_len : N;
  nm_response_addr : N;
  nm_response_len : N;
}.

Definition pack_nsm_message (m : nsm_message) : bytes :=
  le64 (nm_request_addr m) ++ le64 (nm_request_len m)
    ++ le64 (nm_response_addr m) ++ le64 (nm_response_len m).

Definition unpack_nsm_message (b : bytes) : nsm_message :=
  NsmMessage (le64_value (take 8 b)) (le64_value (take 8 (drop 8 b)))
    (le64_value (take 8 (drop 16 b))) (le64_value (take 8 (drop 24 b))).

Definition response_capacity : nat := 12288.

Section Methods.
Context `{Env, Settings, Cbor, X509, Nsm}.

Definition RUNNING_IN_ENCLAVE : bool := path_exists "/dev/nsm".

(** [__init__] and [_open_nsm_device]. *)
Definition _nsm_available : bool := RUNNING_IN_ENCLAVE.
Definition _nsm_fd : option Z :=
  if _nsm_available then
    match nsm_open with Ok fd => Some fd | Raise _ => None end
  else None.

Definition is_real_enclave : bool := _nsm_available.

(** [__del__]: the device is closed, if it was opened. *)
Definition close_nsm_device (os_close : Z -> res unit) : res unit :=
  match _nsm_fd with
  | None => Ok tt
  | Some fd => match os_close fd with
               | Raise e => if is_OSError e then Ok tt else Raise e
               | Ok _ => Ok tt
               end
  end.

Definition attestation_params (user_data nonce public_key : pyval) : list (str * cbor) :=
  let param k v := if is_none v then [] else [(k, CVal v)] in
  param "user_data" user_data ++ param "nonce" nonce ++ param "public_key" public_key.

Definition attestation_request (user_data nonce public_key : pyval) : cbor :=
  CMap [("Attestation", CMap (attestation_params user_data nonce public_key))].

Definition _build_attestation_request (user_data nonce public_key : pyval) : res bytes :=
  cbor_dumps (attestation_request user_data nonce public_key).

Definition _parse_attestation_response (response_data : bytes) : res (bool * cbor) :=
  response ← cbor_loads response_data;
  Ok match response with
     | CMap es =>
         match cbor_get "Attestation" es with
         | Some (CMap attestation) =>
             match cbor_get "document" attestation with
             | Some document => (true, document)
             | None => match cbor_get "Error" es with
                       | Some e => (false, e)
                       | None => (false, CVal (VJson (JStr ("Unexpected response format: " ++ cbor_str response))))
                       end
             end
         | _ => match cbor_get "Error" es with
                | Some e => (false, e)
                | None => (false, CVal (VJson (JStr ("Unexpected response format: " ++ cbor_str response))))
                end
         end
     | _ => (false, CVal (VJson (JStr ("Unexpected response format: " ++ cbor_str response))))
     end.

(** The device: an event, and its answer. *)
Definition ioctl (request_data : bytes) : IO (bytes * N) :=
  n ← st_gets (fun w => length (w_trace w));
  _ ← emit (EvNsmIoctl request_data);
  st_lift (nsm_device n request_data).

(** The addresses of the two buffers are the allocator's. *)
Definition _nsm_ioctl (request_addr response_addr : N) (request_data : bytes) : IO bytes :=
  match _nsm_fd with
  | None => mraise (Exn NSMError "NSM device not open")
  | Some _ =>
      let nsm_message := NsmMessage request_addr (N.of_nat (length request_data))
                           response_addr (N.of_nat response_capacity) in
      '(written, reported) ←
        st_try (ioctl request_data)
          (fun e => if is_OSError e then mraise (Exn NSMError ("ioctl failed: " ++ exn_msg e)) else mraise e);
      (* the device updates the length field of the message in place *)
      let nsm_message_buf := pack_nsm_message
        (NsmMessage (nm_request_addr nsm_message) (nm_request_len nsm_message)
           (nm_response_addr nsm_message) reported) in
      let response_len := nm_response_len (unpack_nsm_message nsm_message_buf) in
      if (response_len =? 0)%N then mraise (Exn NSMError "Empty response from NSM")
      else
        let response_buf := take response_capacity (written ++ repeat Byte.x00 response_capacity) in
        mret (take (N.to_nat (N.min response_len (N.of_nat response_capacity))) response_buf)
  end.

Definition nsm_failure (error message : str) : dict :=
  [("error", JStr error); ("message", JStr message); ("is_real_enclave", JBool true)].

Definition how_to_verify : list str :=
  ["1. Base64 decode the attestation_document";
   "2. Parse as CBOR (RFC 8949)";
   "3. Extract certificate chain (cabundle)";
   "4. Verify chain against AWS Nitro root cert";
   "5. Verify COSE signature on document";
   "6. Extract and compare PCR values";
   "7. Verify user_data matches expected hash"].

(** [base64.b64encode(v)] of a decoded value. *)
Definition document_bytes (v : cbor) : res bytes :=
  match v with
  | CVal (VBytes b) => Ok b
  | _ => raise (Exn TypeError "a bytes-like object is required")
  end.

Definition _generate_nsm_attestation (user_data nonce public_key : pyval) : IO (bool * dict) :=
  catch
    (t0 ← time_time;
     request_data ← st_lift (_build_attestation_request user_data nonce public_key);
     t1 ← time_time;
     _ ← st_lift (logged_len user_data);
     _ ← st_lift (logged_len nonce);
     t2 ← time_time;
     response_data ← _nsm_ioctl 0 0 request_data;
     t3 ← time_time;
     t4 ← time_time;
     '(success, result) ← st_lift (_parse_attestation_response response_data);
     t5 ← time_time;
     if negb success then mret (false, nsm_failure "NSM_ERROR" (cbor_str result))
     else
       document ← st_lift (document_bytes result);
       hash ← st_lift (user_data_hash user_data);
       mret (true,
         [("attestation_document", JStr (b64encode document));
          ("attestation_document_length", JInt (Z.of_nat (length document)));
          ("format", JStr "CBOR");
          ("signed_by", JStr "AWS Nitro Attestation PKI");
          ("user_data_included", JBool (negb (is_none user_data)));
          ("user_data_hash", hash);
          ("nonce_included", JBool (negb (is_none nonce)));
          ("how_to_verify", JArr (map JStr how_to_verify));
          ("aws_root_cert_url",
           JStr "https://aws-nitro-enclaves.amazonaws.com/AWS_NitroEnclaves_Root-G1.zip")]))
    (fun e => mret (false, nsm_failure (match exn_cls e with NSMError => "NSM_ERROR" | _ => "NSM_EXCEPTION" end)
                             (exn_msg e))).

Definition generate_attestation (user_data nonce public_key : pyval) : IO (bool * dict) :=
  if negb _nsm_available then
    if negb (ALLOW_LOCAL_ATTESTATION settings) then
      mret (false,
        [("error", JStr "NOT_IN_ENCLAVE");
         ("message", JStr ("Attestation requires AWS Nitro Enclave. /dev/nsm not found. "
                           ++ "Set ALLOW_LOCAL_ATTESTATION=true for local development only."));
         ("is_real_enclave", JBool false)])
    else generate_local_attestation user_data nonce public_key None None
  else
    match _nsm_fd with
    | None => mret (false, nsm_failure "NSM_UNAVAILABLE" "Failed to open /dev/nsm device.")
    | Some _ => _generate_nsm_attestation user_data nonce public_key
    end.

(** ** Executions *)

(** [hashlib.sha256(b).hexdigest() if b else ""]. *)
Definition hash_or_empty (b : option bytes) : str :=
  match b with
  | None | Some [] => []
  | Some b => sha256_hex b
  end.

(** [external_nonce], unless it is empty. *)
Definition supplied_nonce (args : execution_proof_args) : option bytes :=
  match ea_external_nonce args with
  | None | Some [] => None
  | Some n => Some n
  end.

Definition proof_data (args : execution_proof_args) (output_hash : str) (timestamp : Z) (nonce : bytes) : dict :=
  [("job_id", ea_job_id args);
   ("script_hash", JStr (hash_or_empty (ea_script_bytes args)));
   ("dataset_hash", JStr (hash_or_empty (ea_dataset_bytes args)));
   ("output_hash", JStr output_hash);
   ("timestamp", JInt timestamp)]
  ++ (if truthy (ea_context_hash args) then [("context_hash", ea_context_hash args)] else [])
  ++ (match ea_files_manifest_sha256 args with
      | Some h => [("files_manifest_sha256", JStr h)]
      | None => []
      end)
  ++ [("nonce", JStr (b64encode nonce))]
  ++ (match supplied_nonce args with Some _ => [] | None => [("nonce_source", JStr "random")] end).

(** [json.dumps(proof_data, sort_keys=True).encode()]. *)
Definition proof_bytes (d : dict) : bytes := dumps_bytes sorted_style (JObj d).

Definition verification_guide : list (str * str) :=
  [("step_1", "Download AWS Nitro root certificate from aws_root_cert_url");
   ("step_2", "Base64 decode attestation_document");
   ("step_3", "Parse CBOR structure");
   ("step_4", "Verify certificate chain against AWS root");
   ("step_5", "Verify COSE_Sign1 signature");
   ("step_6", "Extract PCR0 and compare with published enclave image hash");
   ("step_7", "Extract user_data and verify output_hash matches SHA256(output)");
   ("step_8", "Verify nonce matches H(STH_current) for freshness");
   ("step_9", "Verify context_hash matches H(job_id||commit_sha||archetype_id||dataset_id)");
   ("step_10", "Verify files_manifest_sha256 matches SHA256 of the canonical manifest of the output files");
   ("conclusion", "If all steps pass, the output was generated inside the verified enclave")].

Definition create_execution_attestation (args : execution_proof_args) : IO (bool * dict) :=
  catch
    (output_bytes ← st_lift (str_encode (ea_output args));
     let output_hash := sha256_hex output_bytes in
     now ← time_time;
     let timestamp := seconds now in
     nonce ← match supplied_nonce args with
             | Some n => mret n
             | None => os_urandom 32
             end;
     '(success, attestation) ←
       generate_attestation (VBytes (proof_bytes (proof_data args output_hash timestamp nonce)))
         (VBytes nonce) VNone;
     if (success : bool) then
       mret (true,
         [("attestation", JObj attestation);
          ("proof", JObj [
             ("job_id", ea_job_id args);
             ("output_hash", JStr output_hash);
             ("timestamp", JInt timestamp);
             ("nonce", JStr (b64encode nonce));
             ("nonce_source", JStr (match supplied_nonce args with Some _ => "sth" | None => "random" end));
             ("context_hash", ea_context_hash args);
             ("files_manifest_sha256",
              match ea_files_manifest_sha256 args with Some h => JStr h | None => JNull end)]);
          ("verification_guide", JObj (map (fun kv => (kv.1, JStr kv.2)) verification_guide))])
     else mret (false, attestation))
    (fun e => mret (false, [("error", JStr (exn_msg e))])).

#[export] Instance nitro_attestation : IAttestationService := {|
  at_generate_attestation := generate_attestation;
  at_create_execution_attestation := create_execution_attestation;
  at_is_real_enclave := is_real_enclave;
|}.
End Methods.

(** ** What an execution's [user_data] says *)

(** The values a JSON reader takes back: no float, encodable strings, distinct
    keys, integers of at most 4300 digits. *)
Definition proof_readable (args : execution_proof_args) (timestamp : Z) : Prop :=
  json_ok (ea_job_id args) = true /\ json_ok (ea_context_hash args) = true /\ int_ok timestamp = true
  /\ match ea_files_manifest_sha256 args with Some h => forallb valid_char h = true | None => True end.

Lemma hash_or_empty_valid b : forallb valid_char (hash_or_empty b) = true.
Proof. destruct b as [[|]|]; try done. apply bytes_hex_valid. Qed.

Lemma proof_data_ok args output timestamp nonce :
  proof_readable args timestamp ->
  json_ok (JObj (proof_data args (sha256_hex output) timestamp nonce)) = true.
Proof.
  intros (Hj & Hc & Ht & Hm). unfold proof_data. cbn [json_ok]. apply andb_true_iff. split.
  { destruct (truthy _), (ea_files_manifest_sha256 args), (supplied_nonce args); vm_compute; reflexivity. }
  rewrite !forallb_app. repeat rewrite andb_true_iff. split_and!.
  - cbn [forallb fst snd json_ok]. rewrite Hj, !hash_or_empty_valid, Ht.
    unfold sha256_hex. by rewrite bytes_hex_valid.
  - destruct (truthy _); [|done]. cbn [forallb fst snd]. by rewrite Hc.
  - destruct (ea_files_manifest_sha256 args); [|done]. cbn [forallb fst snd json_ok]. by rewrite Hm.
  - cbn [forallb fst snd json_ok]. by rewrite b64encode_valid.
  - by destruct (supplied_nonce args).
Qed.

(** The fields of a parsed proof. *)
Definition proof_fields (args : execution_proof_args) (output : bytes) (timestamp : Z) (nonce : bytes) (d : dict) : Prop :=
  dict_get "job_id" d = Some (json_order sorted_style (ea_job_id args))
    /\ dict_get "script_hash" d = Some (JStr (hash_or_empty (ea_script_bytes args)))
    /\ dict_get "dataset_hash" d = Some (JStr (hash_or_empty (ea_dataset_bytes args)))
    /\ dict_get "output_hash" d = Some (JStr (sha256_hex output))
    /\ dict_get "timestamp" d = Some (JInt timestamp)
    /\ dict_get "context_hash" d
       = (if truthy (ea_context_hash args) then Some (json_order sorted_style (ea_context_hash args)) else None)
    /\ dict_get "files_manifest_sha256" d = JStr <$> ea_files_manifest_sha256 args
    /\ (exists n, dict_get "nonce" d = Some (JStr n) /\ b64decode n = Ok nonce)
    /\ (dict_get "nonce_source" d = Some (JStr "random") <-> supplied_nonce args = None).

Lemma proof_readback args output timestamp nonce :
  proof_readable args timestamp ->
  exists d,
    (s ← bytes_decode (proof_bytes (proof_data args (sha256_hex output) timestamp nonce)); json_loads s)
    = Ok (JObj d) /\ proof_fields args output timestamp nonce d.
Proof.
  intros Hok.
  destruct (dumps_bytes_read sorted_style (proof_data args (sha256_hex output) timestamp nonce))
    as (d & Hd & Hget); [apply sorted_style_ok|done|by apply proof_data_ok|].
  exists d. split; [exact Hd|]. unfold proof_fields. rewrite !Hget. unfold proof_data.
  destruct (truthy (ea_context_hash args)), (ea_files_manifest_sha256 args) as [h|], (supplied_nonce args) as [n|];
    cbn [app dict_get]; repeat match goal with |- context [str_eqb ?a ?b] =>
      let r := eval vm_compute in (str_eqb a b) in change (str_eqb a b) with r; cbv iota end.
  all: split_and!; try done; eexists; split; [reflexivity|apply b64decode_encode].
Qed.

(** C15: the [user_data] of an execution is a faithful record of it.  Parsed back
    as JSON it holds, each under its own key, the job, the hashes of the script,
    of the dataset and of the output, the time, the context hash and the hash of
    the files manifest when they were given, the very nonce of the attestation,
    and the mark that tells a random nonce from a supplied one. *)
Theorem execution_proof_readable args output timestamp nonce :
  proof_readable args timestamp ->
  exists d,
    (s ← bytes_decode (proof_bytes (proof_data args (sha256_hex output) timestamp nonce)); json_loads s)
    = Ok (JObj d)
    /\ dict_get "job_id" d = Some (json_order sorted_style (ea_job_id args))
    /\ dict_get "script_hash" d = Some (JStr (hash_or_empty (ea_script_bytes args)))
    /\ dict_get "dataset_hash" d = Some (JStr (hash_or_empty (ea_dataset_bytes args)))
    /\ dict_get "output_hash" d = Some (JStr (sha256_hex output))
    /\ dict_get "timestamp" d = Some (JInt timestamp)
    /\ dict_get "context_hash" d
       = (if truthy (ea_context_hash args) then Some (json_order sorted_style (ea_context_hash args)) else None)
    /\ dict_get "files_manifest_sha256" d = JStr <$> ea_files_manifest_sha256 args
    /\ (exists n, dict_get "nonce" d = Some (JStr n) /\ b64decode n = Ok nonce)
    /\ (dict_get "nonce_source" d = Some (JStr "random") <-> supplied_nonce args = None).
Proof. apply proof_readback. Qed.

(** ** The device *)

Lemma length_le64 n : length (le64 n) = 8.
Proof. unfold le64, bytes_of_Ns. by rewrite length_reverse, length_map, length_be_Ns. Qed.

Lemma le64_value_le64 n : (n < 2 ^ 64)%N -> le64_value (le64 n) = n.
Proof.
  intros H. unfold le64_value, le64. rewrite reverse_involutive. apply int_from_be_Ns.
  by change (256 ^ N.of_nat 8)%N with (2 ^ 64)%N.
Qed.

Lemma nm_response_len_pack a b c n :
  (n < 2 ^ 64)%N -> nm_response_len (unpack_nsm_message (pack_nsm_message (NsmMessage a b c n))) = n.
Proof.
  intros H. unfold unpack_nsm_message, pack_nsm_message.
  cbn [nm_response_len nm_request_addr nm_request_len nm_response_addr].
  rewrite !app_assoc, drop_app_length' by (rewrite !length_app, !length_le64; done).
  rewrite take_ge by (by rewrite length_le64). by apply le64_value_le64.
Qed.

Section Device.
Context `{Env, Settings, Cbor, X509, Nsm}.

Lemma nsm_ioctl_answer ra rsp request w written :
  _nsm_fd <> None ->
  nsm_device (length (w_trace w)) request = Ok (written, N.of_nat (length written)) ->
  written <> [] -> length written <= response_capacity ->
  _nsm_ioctl ra rsp request w = (Ok written, traced (EvNsmIoctl request) w).
Proof.
  unfold _nsm_ioctl, ioctl.
  intros Hfd Hdev Hne Hlen. destruct _nsm_fd as [fd|]; [|done].
  st_run. unfold emit. st_run. rewrite Hdev. cbn [nm_request_addr nm_request_len nm_response_addr].
  assert (N.of_nat (length written) <= N.of_nat response_capacity)%N as Hle by lia.
  rewrite nm_response_len_pack by (by eapply N.le_lt_trans; [exact Hle|]).
  destruct (N.eqb_spec (N.of_nat (length written)) 0) as [E|_]; [destruct written; cbn in *; [done|lia]|].
  rewrite run_ret. f_equal. f_equal. rewrite N.min_l by done. rewrite Nnat.Nat2N.id.
  rewrite take_take, Nat.min_l by done. by apply take_app_length'.
Qed.

Lemma nsm_ioctl_ok ra rsp request w out w' :
  _nsm_ioctl ra rsp request w = (Ok out, w') ->
  _nsm_fd <> None /\ out <> [] /\ length out <= response_capacity /\ w' = traced (EvNsmIoctl request) w.
Proof.
  unfold _nsm_ioctl, ioctl.
  destruct _nsm_fd as [fd|]; [|done]. st_run. unfold emit. st_run.
  destruct (nsm_device _ _) as [[written reported]|e]; [|by destruct (is_OSError e)].
  set (len := nm_response_len _). destruct (N.eqb_spec len 0) as [E|E]; [done|].
  intros E'. apply ret_ok in E' as [<- <-]. split; [done|].
  assert (length (take response_capacity (written ++ repeat Byte.x00 response_capacity)) = response_capacity) as Hl.
  { rewrite length_take, length_app, repeat_length. lia. }
  split_and!; [|rewrite length_take, Hl; lia|done]. intros Hnil. apply (f_equal length) in Hnil.
  rewrite length_take, Hl in Hnil. cbn [length] in Hnil.
  assert (response_capacity <> 0) by (unfold response_capacity; discriminate). lia.
Qed.

(** One exchange with the device.  A device that answers as its interface
    says, with as many bytes as it reports and no more than the buffer holds,
    is heard exactly; whatever it does, a response is not empty and fits the
    buffer; and the request reaches the device once, as given. *)
Theorem nsm_exchange ra rsp request w :
  (forall written, _nsm_fd <> None ->
     nsm_device (length (w_trace w)) request = Ok (written, N.of_nat (length written)) ->
     written <> [] -> length written <= response_capacity ->
     _nsm_ioctl ra rsp request w = (Ok written, traced (EvNsmIoctl request) w))
  /\ (forall out w', _nsm_ioctl ra rsp request w = (Ok out, w') ->
      _nsm_fd <> None /\ out <> [] /\ length out <= response_capacity /\ w' = traced (EvNsmIoctl request) w).
Proof. split; [intros written|intros out w']; [apply nsm_ioctl_answer|apply nsm_ioctl_ok]. Qed.
End Device.

(** ** Documents *)

Section Documents.
Context `{Env, Settings, Cbor, X509, Nsm}.

(** The parsed response is an answer with a document, of these bytes. *)
Definition answers (response : cbor) (document : bytes) : Prop :=
  exists es attestation, response = CMap es /\ cbor_get "Attestation" es = Some (CMap attestation)
    /\ cbor_get "document" attestation = Some (CVal (VBytes document)).

(** [att] presents the document the device made for the request [request]. *)
Definition presents (att : dict) (request : bytes) (w w' : world) : Prop :=
  exists response parsed document s,
    w_trace w' = EvNsmIoctl request :: w_trace w
    /\ (exists ws, w_trace ws = w_trace w /\ (_nsm_ioctl 0 0 request ws).1 = Ok response)
    /\ cbor_loads response = Ok parsed /\ answers parsed document
    /\ dict_get "attestation_document" att = Some (JStr s) /\ b64decode s = Ok document
    /\ dict_get "attestation_document_length" att = Some (JInt (Z.of_nat (length document))).

Lemma parse_attestation_ok response v :
  _parse_attestation_response response = Ok (true, v) ->
  exists parsed es attestation, cbor_loads response = Ok parsed /\ parsed = CMap es
    /\ cbor_get "Attestation" es = Some (CMap attestation) /\ cbor_get "document" attestation = Some v.
Proof.
  unfold _parse_attestation_response. intros (parsed & Hl & E)%result_bind_ok.
  destruct parsed as [|es| | |]; try done. destruct (cbor_get "Attestation" es) as [[|attestation| | |]|] eqn:Ea;
    try (by destruct (cbor_get "Error" es)).
  destruct (cbor_get "document" attestation) eqn:Ed; [|by destruct (cbor_get "Error" es)].
  exists (CMap es), es, attestation. naive_solver.
Qed.

Lemma generate_nsm_ok user_data nonce public_key w att w' :
  _generate_nsm_attestation user_data nonce public_key w = (Ok (true, att), w') ->
  exists request, cbor_dumps (attestation_request user_data nonce public_key) = Ok request
    /\ presents att request w w'
    /\ user_data_hash user_data = (match dict_get "user_data_hash" att with Some h => Ok h | None => Ok JNull end).
Proof.
  intros E. apply catch_ok in E as [E|(e & w1 & _ & E)]; [|by apply ret_ok in E as [E _]].
  apply time_ok in E. apply lift_ok in E as (request & Hreq & E). apply time_ok in E.
  do 2 apply lift_ok in E as (? & _ & E). apply time_ok in E.
  apply bind_ok in E as (response & w1 & Hio & E). do 2 apply time_ok in E.
  apply lift_ok in E as ([success result] & Hparse & E). apply time_ok in E.
  destruct success; cbn [negb] in E; [|by apply ret_ok in E as [E _]].
  apply lift_ok in E as (document & Hdoc & E). apply lift_ok in E as (hash & Hhash & E).
  apply ret_ok in E as [E <-]. injection E as <-.
  destruct result as [[b|]| | | |]; try done. injection Hdoc as <-.
  apply parse_attestation_ok in Hparse as (parsed & es & attestation & Hl & -> & Ha & Hd).
  exists request. split; [done|]. split.
  - exists response, (CMap es), b, (b64encode b).
    split_and!; [by destruct (nsm_ioctl_ok _ _ _ _ _ _ Hio) as (_ & _ & _ & ->)| |done|by exists es, attestation|done|apply b64decode_encode|done].
    eexists. split; [|by rewrite Hio]. done.
  - rewrite Hhash. reflexivity.
Qed.

Definition failure_code (d : dict) : option str :=
  match dict_get "error" d with Some (JStr s) => Some s | _ => None end.

Lemma generate_nsm_total user_data nonce public_key :
  total_in (fun r => r.1 = false ->
    failure_code r.2 ∈ [Some ("NSM_ERROR" : str); Some ("NSM_EXCEPTION" : str)]
    /\ dict_get "is_real_enclave" r.2 = Some (JBool true))
    (_generate_nsm_attestation user_data nonce public_key).
Proof.
  unfold _generate_nsm_attestation. apply total_catch.
  - do 9 (apply returns_bind; intros ?). apply returns_bind. intros [success result]. apply returns_bind. intros _.
    destruct success; cbn [negb].
    + do 2 (apply returns_bind; intros ?). by apply returns_ret.
    + apply returns_ret. intros _. cbn. split; [left|done].
  - intros e. apply total_ret. intros _. cbn. split; [|done]. destruct (exn_cls e); set_solver.
Qed.

(** Attestation never raises on a machine with the device and fails with
    one of the documented codes.  Without the device, and without the explicit
    development switch, it refuses and touches nothing. *)
Theorem nitro_attestation_fails_closed user_data nonce public_key w :
  (_nsm_available = false -> ALLOW_LOCAL_ATTESTATION settings = false ->
   exists d, generate_attestation user_data nonce public_key w = (Ok (false, d), w)
     /\ failure_code d = Some ("NOT_IN_ENCLAVE" : str) /\ dict_get "is_real_enclave" d = Some (JBool false))
  /\ (_nsm_available = true ->
      exists success d w', generate_attestation user_data nonce public_key w = (Ok (success, d), w')
        /\ (success = true -> _nsm_fd <> None /\ exists request,
              cbor_dumps (attestation_request user_data nonce public_key) = Ok request
              /\ presents d request w w')
        /\ (success = false ->
            failure_code d ∈ [Some ("NSM_ERROR" : str); Some ("NSM_EXCEPTION" : str); Some ("NSM_UNAVAILABLE" : str)]
            /\ dict_get "is_real_enclave" d = Some (JBool true))).
Proof.
  unfold generate_attestation. split.
  - intros -> ->. cbn [negb]. by eexists.
  - intros ->. cbn [negb]. destruct _nsm_fd as [fd|] eqn:Hfd.
    + destruct (generate_nsm_total user_data nonce public_key w) as ([success d] & w' & E & Hf).
      exists success, d, w'. split_and!; [done| |].
      * intros ->. split; [done|]. apply generate_nsm_ok in E as (request & ? & ? & _). by exists request.
      * intros Hs. destruct (Hf Hs) as [Hc ?]. split; [|done]. set_solver.
    + eexists false, _, w. split_and!; [done|done|]. intros _. cbn. split; [set_solver|done].
Qed.
End Documents.

(** ** Attested executions *)

Lemma proof_bytes_nonempty d : proof_bytes d <> [].
Proof. done. Qed.

Section Executions.
Context `{Env, Settings, Cbor, X509, Nsm}.

Lemma presents_trace att request w1 w w' :
  w_trace w1 = w_trace w -> presents att request w1 w' -> presents att request w w'.
Proof. intros E (response & parsed & document & s & Hp). exists response, parsed, document, s. by rewrite <-E. Qed.

(** The fields of the [proof] of a result. *)
Definition proof_matches (args : execution_proof_args) (output nonce : bytes) (timestamp : Z) (proof : dict) : Prop :=
  dict_get "job_id" proof = Some (ea_job_id args)
  /\ dict_get "output_hash" proof = Some (JStr (sha256_hex output))
  /\ dict_get "timestamp" proof = Some (JInt timestamp)
  /\ dict_get "context_hash" proof = Some (ea_context_hash args)
  /\ exists n, dict_get "nonce" proof = Some (JStr n) /\ b64decode n = Ok nonce.

(** What a successful result [r] attests, from the world [w] to [w']. *)
Definition nitro_attested (args : execution_proof_args) (r : dict) (w w' : world) : Prop :=
  exists output nonce request att proof user_data,
    str_encode (ea_output args) = Ok output
    /\ nonce = match supplied_nonce args with Some n => n | None => urandom (w_draws w) 32 end
    /\ user_data = proof_bytes (proof_data args (sha256_hex output) (seconds (clock (w_ticks w))) nonce)
    /\ cbor_dumps (CMap [("Attestation", CMap [("user_data", CVal (VBytes user_data));
                                               ("nonce", CVal (VBytes nonce))])]) = Ok request
    /\ presents att request w w'
    /\ dict_get "attestation" r = Some (JObj att) /\ dict_get "proof" r = Some (JObj proof)
    /\ dict_get "user_data_hash" att = Some (JStr (sha256_hex user_data))
    /\ proof_matches args output nonce (seconds (clock (w_ticks w))) proof.

Lemma nitro_execution_ok args w r w' :
  _nsm_available = true ->
  create_execution_attestation args w = (Ok (true, r), w') -> nitro_attested args r w w'.
Proof.
  intros Hnsm E. apply catch_ok in E as [E|(e & w1 & _ & E)]; [|by apply ret_ok in E as [E _]].
  apply lift_ok in E as (output & Ho & E). apply time_ok in E.
  apply bind_ok in E as (nonce & w1 & Hn & E). apply bind_ok in E as ([success att] & w2 & Hg & E).
  destruct success; [|by apply ret_ok in E as [E _]].
  apply ret_ok in E as [E <-]. injection E as <-.
  assert (nonce = match supplied_nonce args with Some n => n | None => urandom (w_draws w) 32 end
          /\ w_trace w1 = w_trace w) as [Hnonce Htr].
  { destruct (supplied_nonce args); [by apply ret_ok in Hn as [-> <-]|]. injection Hn as <- <-. done. }
  unfold generate_attestation in Hg. rewrite Hnsm in Hg. cbn [negb] in Hg.
  destruct _nsm_fd; [|by apply ret_ok in Hg as [Hg _]].
  apply generate_nsm_ok in Hg as (request & Hreq & Hp & Hh).
  set (ud := proof_bytes _) in *. exists output, nonce, request, att. eexists _, ud.
  split_and!; [done|done|done|exact Hreq|by eapply presents_trace|done|done| |].
  - unfold user_data_hash in Hh. cbn [val_truthy] in Hh.
    rewrite bool_decide_eq_false_2 in Hh by apply proof_bytes_nonempty. cbn [negb] in Hh.
    destruct (dict_get "user_data_hash" att) as [h|]; [by injection Hh as <-|done].
  - split_and!; try done. eexists. split; [reflexivity|apply b64decode_encode].
Qed.

(** C14: an execution attestation on Nitro.  One request reaches the device, and
    it carries as [user_data] exactly the proof of this execution, at the time
    and under the nonce the result reports, and that nonce; the nonce is the one
    supplied, or fresh.  The document in the result is the one the device
    answered with, and [user_data_hash] is the hash of that [user_data]. *)
Theorem nitro_execution_attestation args w r w' :
  _nsm_available = true ->
  create_execution_attestation args w = (Ok (true, r), w') ->
  exists output nonce request att proof user_data,
    str_encode (ea_output args) = Ok output
    /\ nonce = match supplied_nonce args with Some n => n | None => urandom (w_draws w) 32 end
    /\ user_data = proof_bytes (proof_data args (sha256_hex output) (seconds (clock (w_ticks w))) nonce)
    /\ cbor_dumps (CMap [("Attestation", CMap [("user_data", CVal (VBytes user_data));
                                               ("nonce", CVal (VBytes nonce))])]) = Ok request
    /\ presents att request w w'
    /\ dict_get "attestation" r = Some (JObj att) /\ dict_get "proof" r = Some (JObj proof)
    /\ dict_get "user_data_hash" att = Some (JStr (sha256_hex user_data))
    /\ proof_matches args output nonce (seconds (clock (w_ticks w))) proof.
Proof. apply nitro_execution_ok. Qed.

(** The interface's promise to the request handler. *)
#[export] Instance generate_attestation_sessions u n p : Keeps w_sessions (generate_attestation u n p).
Proof. unfold generate_attestation, _generate_nsm_attestation, _nsm_ioctl, ioctl, emit. apply _. Qed.
#[export] Instance generate_attestation_draws u n p : Draws (generate_attestation u n p).
Proof. unfold generate_attestation, _generate_nsm_attestation, _nsm_ioctl, ioctl, emit. apply _. Qed.

#[export] Instance generate_attestation_scripts u n p : Keeps scripts (generate_attestation u n p).
Proof. unfold generate_attestation, _generate_nsm_attestation, _nsm_ioctl, ioctl, emit. apply _. Qed.

#[export] Instance nitro_attestation_laws : AttestationLaws.
Proof. split; intros; cbn; unfold create_execution_attestation; apply _. Qed.
End Executions.

(** ** A concrete device

    It answers with the request as the document. *)
Module ToyNsm.
Definition env : Env := Toy.env_with ["/dev/nsm"].

Definition nsm : Nsm := {|
  nsm_open := Ok 3%Z;
  nsm_device _ request := Ok (request, N.of_nat (length request));
|}.

Definition args : execution_proof_args := {|
  ea_job_id := JStr "job-7"; ea_output := "mean: 3.2";
  ea_script_bytes := Some (ascii_bytes "PK script"); ea_dataset_bytes := Some (ascii_bytes "a,b");
  ea_external_nonce := Some (ascii_bytes "sth"); ea_context_hash := JStr "c0ffee";
  ea_files_manifest_sha256 := Some (sha256_hex (ascii_bytes "[]"));
|}.

(** The result of an attested execution on this device. *)
Definition attested : res (bool * dict) :=
  (@create_execution_attestation env default_settings ToyCbor.cbor_flat ToyX509.x509 nsm args empty_world).1.
Definition attestation : dict :=
  match attested with Ok (true, r) => r | _ => [] end.
Definition after : world :=
  (@create_execution_attestation env default_settings ToyCbor.cbor_flat ToyX509.x509 nsm args empty_world).2.
End ToyNsm.

Lemma execution_proof_readable_witness :
  exists d, (s ← bytes_decode (proof_bytes (proof_data ToyNsm.args (sha256_hex (ascii_bytes "mean: 3.2"))
               1700000000 (ascii_bytes "sth"))); json_loads s) = Ok (JObj d)
    /\ dict_get "job_id" d = Some (JStr "job-7").
Proof.
  destruct (execution_proof_readable ToyNsm.args (ascii_bytes "mean: 3.2") 1700000000 (ascii_bytes "sth"))
    as (d & Hd & Hj & _).
  { split_and!; vm_compute; reflexivity. }
  exists d. by split.
Defined.

Lemma nitro_execution_attestation_witness :
  exists request att, w_trace ToyNsm.after = [EvNsmIoctl request]
    /\ dict_get "attestation" ToyNsm.attestation = Some (JObj att).
Proof.
  destruct (@nitro_execution_attestation ToyNsm.env default_settings ToyCbor.cbor_flat ToyX509.x509 ToyNsm.nsm ToyNsm.args empty_world
              ToyNsm.attestation ToyNsm.after) as (output & nonce & request & att & proof & ud & _ & _ & _ & _ & Hp & Ha & _).
  - reflexivity.
  - vm_compute. reflexivity.
  - exists request, att. destruct Hp as (? & ? & ? & ? & Ht & _). split; [exact Ht|exact Ha].
Defined.
