(* ===== verification/TdxAttestation.v ===== *)
(** * tdx_attestation_service_impl.py: Intel TDX quotes

    A quote binds 64 bytes of REPORTDATA, so everything an attestation commits
    to goes through a SHA-512.  The [tdquote] helper program is a parameter;
    each run of it leaves its standard input in the trace. *)
From stdpp Require Import base tactics list gmap strings.
From Stdlib Require Import NArith ZArith Lia.
From S2P Require Import Prelude PyText PyCodec Sha2 PyJson PyJsonParse World Config Interfaces Attestation.

Class TdQuote : Type := {
  (** The [n]-th run of the helper: its exit status, [stdout] and [stderr]. *)
  tdquote_run : nat -> bytes -> res (Z * bytes * bytes);
  (** [os.environ] when the module is imported, and the absolute path of its file. *)
  tdx_environ : gmap str str;
  tdx_file : str;
}.

Section Module.
Context `{TdQuote}.

Definition DEFAULT_TDQUOTE_BIN : str :=
  path_join (path_join (path_join (path_dirname (path_dirname tdx_file)) "tdx") "tdquote") "tdquote".

(** A malformed number stops the import. *)
Definition TDQUOTE_TIMEOUT_SECONDS : res Z := int_of_str (getenv tdx_environ "TDQUOTE_TIMEOUT_SECONDS" "60").

(** [__init__]: the program to run. *)
Definition tdquote_bin_of (tdquote_bin : option str) : str :=
  match tdquote_bin with
  | Some ((_ :: _) as b) => b
  | _ => getenv tdx_environ "TDQUOTE_BIN" DEFAULT_TDQUOTE_BIN
  end.

(** The factory gives no program. *)
Definition _tdquote_bin : str := tdquote_bin_of None.
End Module.

(** What [h.update(c)] takes. *)
Definition buffer_of (v : pyval) : res bytes :=
  match v with
  | VBytes b => Ok b
  | VJson (JStr _) => raise (Exn TypeError "Strings must be encoded before hashing")
  | VJson _ => raise (Exn TypeError "object supporting the buffer API required")
  end.

(** The bytes [_report_data_from] feeds to the hash. *)
Fixpoint report_preimage (chunks : list pyval) : res bytes :=
  match chunks with
  | [] => Ok []
  | c :: cs =>
      if is_none c then report_preimage cs
      else
        n ← val_len c;
        prefix ← int_to_bytes 4 (N.of_nat n);
        b ← buffer_of c;
        rest ← report_preimage cs;
        Ok (prefix ++ b ++ rest)
  end.

Definition _report_data_from (chunks : list pyval) : res bytes :=
  preimage ← report_preimage chunks; Ok (sha512 preimage).

(** The parameters of this class's [create_execution_attestation]. *)
Record tdx_proof_args : Type := TdxProofArgs {
  ta_job_id : json;
  ta_output : str;
  ta_script_bytes : option bytes;
  ta_dataset_bytes : option bytes;
  ta_nonce : option bytes;
  ta_atl_nonce : option bytes;
  ta_atl_context_hash : option bytes;
  ta_files_manifest_sha256 : option str;
}.

Definition hex_or_none (b : option bytes) : json :=
  match b with Some b => JStr (bytes_hex b) | None => JNull end.

Definition proof_data (args : tdx_proof_args) (output_hash : str) (timestamp : Z) (nonce : bytes) : dict :=
  [("job_id", ta_job_id args);
   ("script_hash", JStr (hash_or_empty (ta_script_bytes args)));
   ("dataset_hash", JStr (hash_or_empty (ta_dataset_bytes args)));
   ("output_hash", JStr output_hash);
   ("timestamp", JInt timestamp);
   ("nonce", JStr (bytes_hex nonce));
   ("atl_nonce", hex_or_none (ta_atl_nonce args));
   ("atl_context_hash", hex_or_none (ta_atl_context_hash args));
   ("backend", JStr "tdx")]
  ++ match ta_files_manifest_sha256 args with
     | Some h => [("files_manifest_sha256", JStr h)]
     | None => []
     end.

Definition proof_canonical (d : dict) : str := dumps canonical_style (JObj d).

Definition verification_guide : list (str * str) :=
  [("step_1", "Base64-decode attestation_document into the raw TD quote");
   ("step_2", "Verify the quote signature and PCK certificate chain against the Intel SGX/TDX roots (go-tdx-guest verify)");
   ("step_3", "Compare MRTD/RTMR[0..3] against the published enclave-image measurements");
   ("step_4", "Extract REPORTDATA (64 bytes) from the verified quote");
   ("step_5", "Recompute SHA-512(proof.proof_canonical) and confirm it equals REPORTDATA");
   ("step_6", "Recompute SHA-256(output) and confirm it equals proof.output_hash");
   ("conclusion", "If all steps pass, this output was produced inside the verified TDX trust domain bound to this exact job/script/dataset")].

Definition quote_document (quote report_data : bytes) : dict :=
  [("backend", JStr "tdx");
   ("format", JStr "tdx_quote");
   ("attestation_document", JStr (b64encode quote));
   ("attestation_document_length", JInt (Z.of_nat (length quote)));
   ("report_data", JStr (bytes_hex report_data))].

(** The parameters of [create_execution_attestation] by name, and the keywords
    of the handler's call. *)
Definition execution_parameters : list str :=
  ["job_id"; "output"; "script_bytes"; "dataset_bytes"; "nonce"; "atl_nonce"; "atl_context_hash";
   "files_manifest_sha256"].
Definition execution_keywords : list str :=
  ["job_id"; "output"; "script_bytes"; "dataset_bytes"; "external_nonce"; "context_hash";
   "files_manifest_sha256"].

Section Methods.
Context `{Env, TdQuote}.

Definition is_real_enclave : bool :=
  path_exists "/sys/kernel/config/tsm/report" || path_exists "/dev/tdx_guest".

(** [subprocess.run([self._tdquote_bin], input=...)]. *)
Definition run_tdquote (input : bytes) : IO (Z * bytes * bytes) :=
  n ← st_gets (fun w => length (w_trace w));
  _ ← emit (EvTdQuote [_tdquote_bin] input);
  st_lift (tdquote_run n input).

Definition _get_td_quote (report_data : bytes) : IO bytes :=
  if negb (length report_data =? 64)%nat then
    mraise (Exn ValueError ("REPORTDATA must be 64 bytes, got " ++ str_of_nat (length report_data)))
  else
    input ← st_lift (str_encode (bytes_hex report_data));
    '(returncode, stdout, stderr) ← run_tdquote input;
    if negb (returncode =? 0)%Z then
      mraise (Exn RuntimeError ("tdquote helper failed: " ++ bytes_decode_replace stderr))
    else if bool_decide (stdout = []) then
      mraise (Exn RuntimeError "tdquote helper returned empty quote")
    else mret stdout.

Definition tdx_failure (code : str) (e : exn) : dict :=
  [("error", JStr code); ("message", JStr (exn_msg e)); ("is_real_tdx", JBool is_real_enclave)].

Definition generate_attestation (user_data nonce public_key : pyval) : IO (bool * dict) :=
  catch
    (report_data ← st_lift (_report_data_from [user_data; nonce; public_key]);
     quote ← _get_td_quote report_data;
     mret (true, quote_document quote report_data))
    (fun e => mret (false, tdx_failure "TDX_QUOTE_ERROR" e)).

Definition create_execution_attestation (args : tdx_proof_args) : IO (bool * dict) :=
  catch
    (nonce ← match ta_nonce args with
             | Some n => mret n
             | None => os_urandom 32
             end;
     output_bytes ← st_lift (str_encode (ta_output args));
     now ← time_time;
     let proof_data := proof_data args (sha256_hex output_bytes) (seconds now) nonce in
     let proof_canonical := proof_canonical proof_data in
     canonical_bytes ← st_lift (str_encode proof_canonical);
     let report_data := sha512 canonical_bytes in
     quote ← _get_td_quote report_data;
     mret (true,
       [("attestation", JObj (quote_document quote report_data));
        ("proof", JObj (proof_data ++ [("proof_canonical", JStr proof_canonical)]));
        ("verification_guide", JObj (map (fun kv => (kv.1, JStr kv.2)) verification_guide))]))
    (fun e => mret (false, tdx_failure "TDX_ATTESTATION_ERROR" e)).

(** A call by keywords: the first one that is not a parameter raises. *)
Definition create_execution_attestation_call (args : execution_proof_args) : IO (bool * dict) :=
  match find (fun k => negb (existsb (str_eqb k) execution_parameters)) execution_keywords with
  | Some k =>
      mraise (Exn TypeError ("TdxAttestationService.create_execution_attestation() got an unexpected "
                             ++ "keyword argument '" ++ k ++ "'"))
  | None =>
      create_execution_attestation
        (TdxProofArgs (ea_job_id args) (ea_output args) (ea_script_bytes args) (ea_dataset_bytes args)
           None None None (ea_files_manifest_sha256 args))
  end.

#[export] Instance tdx_attestation : IAttestationService := {|
  at_generate_attestation := generate_attestation;
  at_create_execution_attestation := create_execution_attestation_call;
  at_is_real_enclave := is_real_enclave;
|}.
End Methods.

(** ** What REPORTDATA commits to *)

Definition given (chunks : list pyval) : list pyval := filter (fun c => is_none c = false) chunks.

(** Chunks, each after its length on four bytes. *)
Fixpoint frames (bs : list bytes) : bytes :=
  match bs with
  | [] => []
  | b :: bs => bytes_of_Ns (be_Ns 4 (N.of_nat (length b))) ++ b ++ frames bs
  end.

Lemma report_preimage_given chunks p :
  report_preimage chunks = Ok p ->
  exists bs, given chunks = map VBytes bs
    /\ p = frames bs
    /\ Forall (fun b => N.of_nat (length b) < 256 ^ 4)%N bs.
Proof.
  revert p. induction chunks as [|c cs IH]; cbn [report_preimage]; intros p E.
  { injection E as <-. by exists []. }
  unfold given. rewrite filter_cons. destruct (is_none c) eqn:Hc; [rewrite decide_False by done; by apply IH|].
  rewrite decide_True by done. fold (given cs).
  apply result_bind_ok in E as (n & Hn & E). apply result_bind_ok in E as (prefix & Hp & E).
  apply result_bind_ok in E as (b & Hb & E). apply result_bind_ok in E as (rest & Hr & E).
  injection E as <-. destruct (IH rest Hr) as (bs & -> & -> & Hbs).
  destruct c as [b'|v]; [|by destruct v]. injection Hb as ->. injection Hn as <-.
  unfold int_to_bytes in Hp. destruct (N.ltb_spec (N.of_nat (length b)) (256 ^ N.of_nat 4)) as [Hlt|]; [|done].
  injection Hp as <-. exists (b :: bs). split; [done|]. split; [done|]. by constructor.
Qed.

Lemma framed_inj (bs1 bs2 : list bytes) :
  Forall (fun b => N.of_nat (length b) < 256 ^ 4)%N bs1 ->
  Forall (fun b => N.of_nat (length b) < 256 ^ 4)%N bs2 ->
  frames bs1
  = frames bs2 ->
  bs1 = bs2.
Proof.
  intros H1. revert bs2. induction H1 as [|b1 bs1 Hb1 _ IH]; intros bs2 H2; destruct H2 as [|b2 bs2 Hb2 H2];
    cbn [frames]; [done|done|done|].
  intros E. apply app_inj_1 in E as [Ehd E];
    [|unfold bytes_of_Ns; by rewrite !length_map, !length_be_Ns].
  assert (length b1 = length b2) as Hlen.
  { apply (f_equal int_from_bytes) in Ehd. rewrite !int_from_be_Ns in Ehd by done. lia. }
  apply app_inj_1 in E as [-> E]; [|done]. f_equal. by apply IH.
Qed.

(** REPORTDATA has 64 bytes and is the SHA-512 of a pre-image that can be
    taken apart: two attestations with the same pre-image were given the same
    values in the same order.  A value left out leaves no trace, so the slot a
    value came from is not committed to. *)
Theorem report_data_commitment :
  (forall chunks d, _report_data_from chunks = Ok d ->
     length d = 64 /\ exists p, report_preimage chunks = Ok p /\ d = sha512 p)
  /\ (forall chunks1 chunks2 p, report_preimage chunks1 = Ok p -> report_preimage chunks2 = Ok p ->
        given chunks1 = given chunks2)
  /\ (forall chunks, _report_data_from chunks = _report_data_from (given chunks)).
Proof.
  split_and!.
  - intros chunks d (p & Hp & E)%result_bind_ok. injection E as <-. split; [apply length_sha512|]. by exists p.
  - intros chunks1 chunks2 p (bs1 & -> & E1 & H1)%report_preimage_given (bs2 & -> & E2 & H2)%report_preimage_given.
    f_equal. apply framed_inj; [done..|congruence].
  - intros chunks. unfold _report_data_from. f_equal.
    induction chunks as [|c cs IH]; [done|]. unfold given. rewrite filter_cons.
    destruct (is_none c) eqn:Hc; [rewrite decide_False by done|rewrite decide_True by done];
      cbn [report_preimage]; rewrite Hc; fold (given cs); [done|]. by rewrite IH.
Qed.

(** ** The proof of an execution *)

Lemma tdx_proof_data_ok args output timestamp nonce :
  json_ok (ta_job_id args) = true -> int_ok timestamp = true ->
  forallb valid_char (default [] (ta_files_manifest_sha256 args)) = true ->
  json_ok (JObj (proof_data args (sha256_hex output) timestamp nonce)) = true.
Proof.
  intros Hj Ht Hm. unfold proof_data. cbn [json_ok]. apply andb_true_iff. split.
  { destruct (ta_files_manifest_sha256 args); vm_compute; reflexivity. }
  assert (forall b, json_ok (hex_or_none b) = true) as Hhex.
  { intros [b|]; [|done]. apply bytes_hex_valid. }
  rewrite forallb_app. apply andb_true_iff. split.
  - cbn [forallb fst snd json_ok]. rewrite !andb_true_iff. pose proof hash_or_empty_valid.
    split_and!; by (done || apply bytes_hex_valid || auto).
  - destruct (ta_files_manifest_sha256 args) as [h|]; [|done]. change (forallb valid_char h = true) in Hm.
    cbn [forallb fst snd json_ok]. by rewrite Hm.
Qed.

(** ** Quotes *)

Section Quotes.
Context `{Env, TdQuote}.

(** One run of the helper was given [report_data] in hexadecimal and printed
    [quote]. *)
Definition quoted (report_data quote : bytes) (w w' : world) : Prop :=
  exists stderr, w_trace w' = EvTdQuote [_tdquote_bin] (ascii_bytes (bytes_hex report_data)) :: w_trace w
    /\ tdquote_run (length (w_trace w)) (ascii_bytes (bytes_hex report_data)) = Ok (0%Z, quote, stderr)
    /\ quote <> [] /\ length report_data = 64.

Lemma encode_hex b : str_encode (bytes_hex b) = Ok (ascii_bytes (bytes_hex b)).
Proof. apply str_encode_ascii, bytes_hex_ascii. Qed.

Lemma get_td_quote_ok report_data quote w w' :
  _get_td_quote report_data w = (Ok quote, w') -> quoted report_data quote w w'.
Proof.
  unfold _get_td_quote. destruct (Nat.eqb_spec (length report_data) 64) as [Hlen|]; cbn [negb]; [|done].
  rewrite encode_hex. intros E. apply lift_ok in E as (input & [= <-] & E).
  apply bind_ok in E as ([[returncode stdout] stderr] & w1 & Hr & E).
  unfold run_tdquote, emit in Hr. revert Hr. st_run. intros Hr. injection Hr as Hr <-.
  destruct (Z.eqb_spec returncode 0) as [->|]; cbn [negb] in E; [|done].
  case_bool_decide; [done|]. apply ret_ok in E as [<- <-]. by exists stderr.
Qed.

(** What a successful execution attestation holds, and the run of the helper
    behind it. *)
Lemma execution_quoted args w r w' :
  create_execution_attestation args w = (Ok (true, r), w') ->
  json_ok (ta_job_id args) = true ->
  exists output nonce canonical_bytes quote ts d,
    str_encode (ta_output args) = Ok output
    /\ nonce = (match ta_nonce args with Some n => n | None => urandom (w_draws w) 32 end)
    /\ let fields := proof_data args (sha256_hex output) ts nonce in
       dict_get "proof" r = Some (JObj (fields ++ [("proof_canonical", JStr (proof_canonical fields))]))
       /\ str_encode (proof_canonical fields) = Ok canonical_bytes
       /\ dict_get "attestation" r = Some (JObj (quote_document quote (sha512 canonical_bytes)))
       /\ (exists w1 w2, quoted (sha512 canonical_bytes) quote w1 w2 /\ w_trace w1 = w_trace w /\ w2 = w')
       /\ (int_ok ts = true -> forallb valid_char (default [] (ta_files_manifest_sha256 args)) = true ->
           json_loads (proof_canonical fields) = Ok (JObj d)
           /\ forall k, dict_get k d = json_order canonical_style <$> dict_get k fields).
Proof.
  intros E Hjob. apply catch_ok in E as [E|(e & w1 & _ & E)]; [|by apply ret_ok in E as [E _]].
  apply bind_ok in E as (nonce & w1 & Hn & E). apply lift_ok in E as (output & Ho & E). apply time_ok in E.
  apply lift_ok in E as (canonical_bytes & Hc & E). apply bind_ok in E as (quote & w2 & Hq & E).
  apply ret_ok in E as [E <-]. injection E as <-.
  set (ts := seconds (clock (w_ticks w1))) in *. set (fields := proof_data _ _ ts nonce) in *.
  assert (nonce = match ta_nonce args with Some n => n | None => urandom (w_draws w) 32 end
          /\ w_trace w1 = w_trace w) as [Hnonce Htr].
  { destruct (ta_nonce args); [by apply ret_ok in Hn as [-> <-]|]. injection Hn as <- <-. done. }
  exists output, nonce, canonical_bytes, quote, ts.
  eexists (match json_order canonical_style (JObj fields) with JObj d => d | _ => [] end).
  split; [done|]. split; [done|]. split; [done|]. split; [done|]. split; [done|]. split.
  { exists (tick w1), w2. split; [by apply get_td_quote_ok|done]. }
  intros Hts Hm. assert (json_ok (JObj fields) = true) as Hok by by apply tdx_proof_data_ok.
  split; [exact (json_loads_dumps_order canonical_style canonical_style_ok _ Hok)|].
  intros k. refine (dict_get_order canonical_style k fields _).
  cbn in Hok. apply andb_true_iff in Hok as [Hnd _]. by apply bool_decide_eq_true in Hnd.
Qed.

(** An execution attestation on TDX, called with its own parameters.  The
    quote was made for the SHA-512 of the canonical proof in the result, which a
    verifier recomputes from [proof_canonical]; that text parses back to every
    field of the proof; and the output hash in it is the one of the output. *)
Theorem tdx_execution_binding args w r w' :
  create_execution_attestation args w = (Ok (true, r), w') ->
  json_ok (ta_job_id args) = true ->
  exists output nonce canonical_bytes quote ts d,
    str_encode (ta_output args) = Ok output
    /\ nonce = (match ta_nonce args with Some n => n | None => urandom (w_draws w) 32 end)
    /\ let fields := proof_data args (sha256_hex output) ts nonce in
       dict_get "proof" r = Some (JObj (fields ++ [("proof_canonical", JStr (proof_canonical fields))]))
       /\ str_encode (proof_canonical fields) = Ok canonical_bytes
       /\ dict_get "attestation" r = Some (JObj (quote_document quote (sha512 canonical_bytes)))
       /\ (exists w1 w2, quoted (sha512 canonical_bytes) quote w1 w2 /\ w_trace w1 = w_trace w /\ w2 = w')
       /\ (int_ok ts = true -> forallb valid_char (default [] (ta_files_manifest_sha256 args)) = true ->
           json_loads (proof_canonical fields) = Ok (JObj d)
           /\ forall k, dict_get k d = json_order canonical_style <$> dict_get k fields).
Proof. exact (execution_quoted args w r w'). Qed.

(** The request handler cannot attest an execution with this class: its
    call raises, whatever the arguments and the machine. *)
Theorem tdx_handler_call_raises args w :
  exists msg, create_execution_attestation_call args w = (Raise (Exn TypeError msg), w).
Proof. by eexists. Qed.

(** The interface's promise to the request handler. *)
#[export] Instance tdx_attestation_laws : @AttestationLaws tdx_attestation.
Proof.
  split; intros; cbn; unfold create_execution_attestation_call, create_execution_attestation, generate_attestation,
    _get_td_quote, run_tdquote, emit; apply _.
Qed.
End Quotes.

(** ** A concrete helper: it prints its input *)
Module ToyTdx.
Definition tdquote : TdQuote := {|
  tdquote_run _ input := Ok (0%Z, input, []);
  tdx_environ := ∅;
  tdx_file := "/app/implementations/tdx_attestation_service_impl.py";
|}.

Example default_bin : @_tdquote_bin tdquote = "/app/tdx/tdquote/tdquote".
Proof. vm_compute. reflexivity. Qed.

Definition args : tdx_proof_args := {|
  ta_job_id := JStr "job-7"; ta_output := "mean: 3.2";
  ta_script_bytes := Some (ascii_bytes "PK script"); ta_dataset_bytes := None;
  ta_nonce := None; ta_atl_nonce := Some (ascii_bytes "sth"); ta_atl_context_hash := None;
  ta_files_manifest_sha256 := Some (sha256_hex (ascii_bytes "[]"));
|}.

Definition run : res (bool * dict) * world :=
  @create_execution_attestation Toy.env tdquote args empty_world.
Definition result : dict := match run.1 with Ok (true, r) => r | _ => [] end.
End ToyTdx.

Lemma tdx_execution_binding_witness :
  exists proof, dict_get "proof" ToyTdx.result = Some (JObj proof)
    /\ exists report_data, w_trace ToyTdx.run.2 = [EvTdQuote [@_tdquote_bin ToyTdx.tdquote] (ascii_bytes (bytes_hex report_data))].
Proof.
  destruct (@tdx_execution_binding Toy.env ToyTdx.tdquote ToyTdx.args empty_world ToyTdx.result ToyTdx.run.2)
    as (output & nonce & canonical & quote & ts & d & _ & _ & Hp & _ & _ & (w1 & w2 & Hq & Hw & ->) & _).
  - vm_compute. reflexivity.
  - reflexivity.
  - destruct Hq as (stderr & Ht & _). rewrite Hw in Ht. eexists. split; [exact Hp|]. eexists. exact Ht.
Defined.
