(* ===== verification/TdQuoteHelper.v ===== *)
(** * tdx/tdquote/main.go: the quote helper

    The Go program the TDX backend runs for each quote.  It reads REPORTDATA from
    its standard input, as 64 raw bytes or as 128 hexadecimal characters, and
    writes the quote of the hardware.  The go-tdx-guest client is a parameter.
    A Go string is its bytes, as numbers. *)
From stdpp Require Import base tactics list gmap strings.
From Stdlib Require Import NArith ZArith Lia.
From S2P Require Import Prelude PyText PyCodec Sha2 PyJson PyJsonParse World Config Interfaces Attestation TdxAttestation.

Class QuoteDevice : Type := {
  provider : Type;
  (** [client.GetQuoteProvider] and [client.GetRawQuote], in the [n]-th run. *)
  get_quote_provider : nat -> result bytes provider;
  get_raw_quote : nat -> provider -> bytes -> result bytes bytes;
  (** An error of the write to the standard output, and the bytes written before it. *)
  stdout_error : nat -> option (nat * bytes);
  (** An error of reading the standard input. *)
  stdin_error : nat -> option bytes;
  (** The exception of [subprocess.run] (no such program, timeout). *)
  spawn_error : nat -> option exn;
  (** The environment of the backend and the path of its module. *)
  backend_environ : gmap str str;
  backend_file : str;
}.

(** ** The Go library *)

(** [unicode.IsSpace]: the characters, each by its UTF-8 encoding. *)
Definition go_spaces : list (list N) :=
  [[9]; [10]; [11]; [12]; [13]; [32]; [194; 133]; [194; 160]; [225; 154; 128]]%N
  ++ map (fun k => [226; 128; 128 + N.of_nat k]%N) (seq 0 11)
  ++ [[226; 128; 168]; [226; 128; 169]; [226; 128; 175]; [226; 129; 159]; [227; 128; 128]]%N.

Definition starts_with (s p : list N) : bool := bool_decide (take (length p) s = p).

(** Strip the first of [spaces] that [s] starts with, and again. *)
Fixpoint trim (spaces : list (list N)) (fuel : nat) (s : list N) : list N :=
  match fuel, find (starts_with s) spaces with
  | S fuel, Some p => trim spaces fuel (drop (length p) s)
  | _, _ => s
  end.

Definition trim_left (s : list N) : list N := trim go_spaces (length s) s.
Definition trim_right (s : list N) : list N := reverse (trim (map reverse go_spaces) (length s) (reverse s)).
(** [strings.TrimSpace]. *)
Definition trim_space (s : list N) : list N := trim_right (trim_left s).

Definition utf8_text (s : str) : bytes := bytes_of_Ns (utf8_Ns s).

Definition upper_hex (n : N) : N := (if n <? 10 then 48 + n else 55 + n)%N.
(** [strconv.IsPrint] below 256. *)
Definition go_printable (c : N) : bool :=
  ((32 <=? c) && (c <=? 126) || (161 <=? c) && negb (c =? 173))%N.
(** [InvalidByteError]: the byte as [%#U]. *)
Definition invalid_byte (c : N) : bytes :=
  utf8_text ("encoding/hex: invalid byte: U+00" ++ [upper_hex (c / 16); upper_hex (c mod 16)]
    ++ (if go_printable c then " '" ++ [c] ++ "'" else []))%N.

(** [hex.DecodeString]. *)
Fixpoint hex_decode (s : list N) : result bytes (list N) :=
  match s with
  | [] => Ok []
  | c :: s =>
      match hex_value c, s with
      | None, _ => Raise (invalid_byte c)
      | Some _, [] => Raise (ascii_bytes "encoding/hex: odd length hex string")
      | Some h, d :: s =>
          match hex_value d with
          | None => Raise (invalid_byte d)
          | Some l => result_map ((h * 16 + l)%N ::.) (hex_decode s)
          end
      end
  end.

(** [copy(reportData[:], b)]. *)
Definition copy_report_data (b : bytes) : bytes := take 64 (b ++ repeat Byte.x00 64).

(** ** The program *)

(** The [switch] of [main]. *)
Definition read_report_data (raw : bytes) : result bytes bytes :=
  let s := trim_space (Ns_of_bytes raw) in
  if (length raw =? 64)%nat then Ok (copy_report_data raw)
  else if (length s =? 128)%nat then
    match hex_decode s with
    | Ok b => Ok (copy_report_data (bytes_of_Ns b))
    | Raise err => Raise (ascii_bytes "hex decode REPORTDATA: " ++ err)
    end
  else Raise (ascii_bytes ("REPORTDATA must be 64 raw bytes or 128 hex chars; got " ++ str_of_nat (length raw)
                           ++ " bytes / " ++ str_of_nat (length s) ++ " trimmed chars")).

Section Main.
Context `{QuoteDevice}.

(** Exit status, standard output, standard error. *)
Definition fail_with (written msg : bytes) : Z * bytes * bytes :=
  (1%Z, written, ascii_bytes "tdquote: " ++ msg ++ ascii_bytes [10%N]).

(** [raw] is all of the standard input, in the [n]-th run. *)
Definition main (n : nat) (raw : bytes) : Z * bytes * bytes :=
  match stdin_error n with
  | Some err => fail_with [] (ascii_bytes "read stdin: " ++ err)
  | None =>
  match read_report_data raw with
  | Raise msg => fail_with [] msg
  | Ok report_data =>
  match get_quote_provider n with
  | Raise err =>
      fail_with [] (ascii_bytes "no TDX quote provider (configfs-tsm / /dev/tdx_guest unavailable): " ++ err)
  | Ok provider =>
  match get_raw_quote n provider report_data with
  | Raise err => fail_with [] (ascii_bytes "get raw quote (host QGS unreachable?): " ++ err)
  | Ok quote =>
  match stdout_error n with
  | Some (k, err) => fail_with (take k quote) (ascii_bytes "write quote to stdout: " ++ err)
  | None => (0%Z, quote, [])
  end end end end end.

(** The helper the backend runs. *)
Definition tdquote_helper : TdQuote := {|
  tdquote_run n input := match spawn_error n with Some e => Raise e | None => Ok (main n input) end;
  tdx_environ := backend_environ;
  tdx_file := backend_file;
|}.
End Main.

(** ** Reading REPORTDATA *)

Lemma copy_report_data_id b : length b = 64 -> copy_report_data b = b.
Proof. intros H. unfold copy_report_data. by rewrite take_app_length' by done. Qed.

Lemma length_copy_report_data b : length (copy_report_data b) = 64.
Proof. unfold copy_report_data. rewrite length_take, length_app, repeat_length. lia. Qed.

Lemma hex_decode_hex l : Forall (fun n => (n < 256)%N) l -> hex_decode (hex_of_Ns l) = Ok l.
Proof.
  induction 1 as [|n l Hn _ IH]; cbn [hex_of_Ns hex_decode]; [done|].
  rewrite !hex_value_digit, IH by dlia. cbn. do 2 f_equal. dlia.
Qed.

(** Nothing is stripped in front of a character no space starts with. *)
Lemma trim_stops spaces fuel c s :
  forallb (fun p => negb (starts_with [c] (take 1 p))) spaces = true -> trim spaces fuel (c :: s) = c :: s.
Proof.
  intros H. destruct fuel as [|fuel]; [done|]. cbn [trim].
  replace (find (starts_with (c :: s)) spaces) with (@None (list N)); [done|].
  induction spaces as [|p spaces IH]; [done|]. cbn [forallb find] in *. apply andb_true_iff in H as [Hp H].
  assert (starts_with (c :: s) p = false) as ->; [|by apply IH].
  destruct p as [|x p]; [done|]. unfold starts_with in *. cbn [take length] in *.
  apply negb_true_iff, bool_decide_eq_false in Hp. apply bool_decide_eq_false. naive_solver.
Qed.

(** The white space of ASCII. *)
Definition space_stripped (spaces : list (list N)) : Prop :=
  forall c s, is_hex_space c = true -> exists p, find (starts_with (c :: s)) spaces = Some p /\ length p = 1.

Lemma is_hex_space_cases c : is_hex_space c = true -> c ∈ [9; 10; 11; 12; 13; 32]%N.
Proof.
  unfold is_hex_space. rewrite orb_true_iff, andb_true_iff, !N.leb_le, N.eqb_eq, !elem_of_cons. lia.
Qed.

Ltac strip_each c H := apply is_hex_space_cases in H; rewrite !elem_of_cons in H;
  repeat (destruct H as [->|H]; [by eexists|]); by apply elem_of_nil in H.

Lemma go_spaces_stripped : space_stripped go_spaces.
Proof. intros c s H. strip_each c H. Qed.

Lemma reversed_spaces_stripped : space_stripped (map reverse go_spaces).
Proof. intros c s H. strip_each c H. Qed.

Lemma trim_spaces spaces ws fuel s :
  space_stripped spaces -> forallb is_hex_space ws = true ->
  trim spaces (length ws + fuel) (ws ++ s) = trim spaces fuel s.
Proof.
  intros Hsp. induction ws as [|c ws IH]; intros H; [done|]. cbn [forallb length app Nat.add trim] in *.
  apply andb_true_iff in H as [Hc H]. destruct (Hsp c (ws ++ s) Hc) as (p & -> & ->). by apply IH.
Qed.

Definition never_starts (spaces : list (list N)) (c : N) : bool :=
  forallb (fun p => negb (starts_with [c] (take 1 p))) spaces.

Lemma hex_digits_kept n :
  (n < 16)%N -> never_starts go_spaces (hex_digit n) = true /\ never_starts (map reverse go_spaces) (hex_digit n) = true.
Proof.
  intros H.
  assert (forallb (fun k => never_starts go_spaces (hex_digit (N.of_nat k))
                            && never_starts (map reverse go_spaces) (hex_digit (N.of_nat k))) (seq 0 16) = true)
    as Hall by (vm_compute; reflexivity).
  rewrite forallb_forall in Hall. specialize (Hall (N.to_nat n)).
  rewrite Nnat.N2Nat.id, andb_true_iff in Hall. apply Hall, in_seq. lia.
Qed.

(** A text whose first and last characters stay, in white space. *)
Lemma trim_space_around ws1 ws2 c s d :
  forallb is_hex_space ws1 = true -> forallb is_hex_space ws2 = true ->
  never_starts go_spaces c = true -> never_starts (map reverse go_spaces) d = true ->
  trim_space (ws1 ++ (c :: s ++ [d]) ++ ws2) = c :: s ++ [d].
Proof.
  intros H1 H2 Hc Hd. unfold trim_space, trim_left. rewrite !length_app, trim_spaces by (done || apply go_spaces_stripped).
  cbn [app]. rewrite trim_stops by done. unfold trim_right.
  change (c :: (s ++ [d]) ++ ws2) with (([c] ++ s ++ [d]) ++ ws2). rewrite reverse_app, length_app.
  rewrite (Nat.add_comm (length ([c] ++ s ++ [d]))), <-(length_reverse ws2).
  rewrite trim_spaces; [|apply reversed_spaces_stripped|].
  - rewrite !reverse_app. cbn [reverse rev_append app]. rewrite trim_stops by done.
    rewrite reverse_cons, reverse_app, !reverse_involutive. done.
  - rewrite forallb_forall in H2 |- *. intros x Hx. apply H2. rewrite in_rev, rev_alt. exact Hx.
Qed.

Lemma hex_of_Ns_app l1 l2 : hex_of_Ns (l1 ++ l2) = hex_of_Ns l1 ++ hex_of_Ns l2.
Proof. induction l1 as [|n l1 IH]; cbn; [done|]. by rewrite IH. Qed.

Lemma hex_of_Ns_ends l :
  Forall (fun n => (n < 256)%N) l -> l <> [] -> length l <> 1 ->
  exists c s d, hex_of_Ns l = c :: s ++ [d]
    /\ never_starts go_spaces c = true /\ never_starts (map reverse go_spaces) d = true.
Proof.
  intros H Hne H1. destruct l as [|n l]; [done|]. destruct l as [|m l] using rev_ind; [done|]. clear IHl.
  apply Forall_cons in H as [Hn H]. apply Forall_app in H as [_ H]. apply Forall_cons in H as [Hm _].
  exists (hex_digit (n / 16)), (hex_digit (n mod 16) :: hex_of_Ns l ++ [hex_digit (m / 16)]), (hex_digit (m mod 16)).
  split_and!; [|apply hex_digits_kept; dlia|apply hex_digits_kept; dlia]. cbn [hex_of_Ns]. do 2 f_equal.
  rewrite hex_of_Ns_app. cbn. by rewrite <-app_assoc.
Qed.

Lemma hex_decode_length : forall s l, hex_decode s = Ok l -> length s = 2 * length l.
Proof.
  fix IH 1. intros [|c [|d s]] l; cbn [hex_decode].
  - by intros [= <-].
  - by destruct (hex_value c).
  - destruct (hex_value c); [|done]. destruct (hex_value d); [|done].
    destruct (hex_decode s) as [l'|e] eqn:E; [|done]. cbn. intros [= <-]. cbn. rewrite (IH s l' E). lia.
Qed.

Lemma read_raw d : length d = 64 -> read_report_data d = Ok d.
Proof. intros H. unfold read_report_data. rewrite H. cbn [Nat.eqb]. by rewrite copy_report_data_id. Qed.

Lemma Ns_of_ascii s : is_ascii s = true -> Ns_of_bytes (ascii_bytes s) = s.
Proof.
  intros H. apply Ns_of_bytes_of_Ns, Forall_forall. intros c Hc. unfold is_ascii in H. rewrite forallb_forall in H.
  specialize (H c (proj1 (list_elem_of_In _ _) Hc)). apply N.ltb_lt in H. lia.
Qed.

Lemma spaces_ascii ws : forallb is_hex_space ws = true -> is_ascii ws = true.
Proof.
  unfold is_ascii. rewrite !forallb_forall. intros H c Hc%H. apply is_hex_space_cases in Hc. apply N.ltb_lt.
  rewrite !elem_of_cons in Hc. destruct_or! Hc; subst; try lia. by apply elem_of_nil in Hc.
Qed.

Lemma read_hex d ws1 ws2 :
  length d = 64 -> forallb is_hex_space ws1 = true -> forallb is_hex_space ws2 = true ->
  read_report_data (ascii_bytes (ws1 ++ bytes_hex d ++ ws2)) = Ok d.
Proof.
  intros Hd H1 H2. unfold read_report_data.
  destruct (hex_of_Ns_ends (Ns_of_bytes d)) as (c & s & e & E & Hc & He); [auto with enclave| | |].
  { intros E. apply (f_equal length) in E. unfold Ns_of_bytes in E. rewrite length_map, Hd in E. done. }
  { unfold Ns_of_bytes. by rewrite length_map, Hd. }
  assert (length (bytes_hex d) = 128) as Hlen by (rewrite length_bytes_hex, Hd; done).
  rewrite Ns_of_ascii by (rewrite !is_ascii_app, bytes_hex_ascii, !spaces_ascii by done; done).
  assert (trim_space (ws1 ++ bytes_hex d ++ ws2) = bytes_hex d) as ->.
  { unfold bytes_hex. rewrite E. by apply trim_space_around. }
  destruct (Nat.eqb_spec (length (ascii_bytes (ws1 ++ bytes_hex d ++ ws2))) 64) as [Hn|_].
  { unfold ascii_bytes, bytes_of_Ns in Hn. rewrite length_map, !length_app, Hlen in Hn. lia. }
  rewrite Hlen. cbn [Nat.eqb]. unfold bytes_hex. rewrite hex_decode_hex by auto with enclave.
  by rewrite bytes_of_Ns_of_bytes, copy_report_data_id.
Qed.

(** What the helper has the hardware sign.  64 bytes on its standard input
    are taken as they are, even when they are all hexadecimal digits or white
    space; their 128 hexadecimal digits, in white space, give the same 64 bytes;
    and anything accepted is one of the two: REPORTDATA is never cut off or
    filled up. *)
Theorem helper_report_data :
  (forall d, length d = 64 -> read_report_data d = Ok d)
  /\ (forall d ws1 ws2, length d = 64 -> forallb is_hex_space ws1 = true -> forallb is_hex_space ws2 = true ->
        read_report_data (ascii_bytes (ws1 ++ bytes_hex d ++ ws2)) = Ok d)
  /\ (forall raw d, read_report_data raw = Ok d ->
        length d = 64 /\ (raw = d \/ exists l, hex_decode (trim_space (Ns_of_bytes raw)) = Ok l
                                       /\ length l = 64 /\ d = bytes_of_Ns l)).
Proof.
  split_and!; [exact read_raw|exact read_hex|]. intros raw d. unfold read_report_data.
  destruct (Nat.eqb_spec (length raw) 64) as [H|_]; [rewrite copy_report_data_id by done; intros [= <-]; auto|].
  destruct (Nat.eqb_spec (length (trim_space (Ns_of_bytes raw))) 128) as [H|_]; [|done].
  destruct (hex_decode _) as [l|e] eqn:E; [|done]. intros [= <-]. split; [apply length_copy_report_data|].
  assert (length l = 64) as Hl by (apply hex_decode_length in E; lia). right. exists l.
  split_and!; [done|done|]. apply copy_report_data_id. unfold bytes_of_Ns. by rewrite length_map.
Qed.

(** ** The backend and its helper *)

Section Helper.
Context `{Env, QuoteDevice}.

#[local] Existing Instance tdquote_helper.

(** The device's quote of [report_data], in the [n]-th run. *)
Definition device_quote (n : nat) (report_data quote : bytes) : Prop :=
  exists p, get_quote_provider n = Ok p /\ get_raw_quote n p report_data = Ok quote.

Lemma device_quote_unique n d q1 q2 : device_quote n d q1 -> device_quote n d q2 -> q1 = q2.
Proof. intros (p1 & Hp1 & H1) (p2 & Hp2 & H2). congruence. Qed.

Lemma main_hex n d :
  length d = 64 -> stdin_error n = None ->
  forall quote stderr, main n (ascii_bytes (bytes_hex d)) = (0%Z, quote, stderr)
    <-> device_quote n d quote /\ stdout_error n = None /\ stderr = [].
Proof.
  intros Hd Hin quote stderr. unfold main, device_quote. rewrite Hin.
  pose proof (read_hex d [] [] Hd eq_refl eq_refl) as E. rewrite app_nil_r in E. cbn [app] in E. rewrite E.
  assert (forall p, get_quote_provider n = Ok p -> device_quote n d quote <-> get_raw_quote n p d = Ok quote) as Hp.
  { intros p Hp. unfold device_quote. split; [intros (p' & Hp' & Hq); congruence|by exists p]. }
  unfold device_quote in *. unfold fail_with. destruct (get_quote_provider n) as [p|err].
  - rewrite (Hp p) by done. destruct (get_raw_quote n p d) as [q|err], (stdout_error n) as [[k e]|];
      split; intros; destruct_and?; simplify_eq; done.
  - split; [done|]. by intros ((p & ? & _) & _).
Qed.

(** C35: [_get_td_quote] implements "the hardware's quote of these 64 bytes":
    through the hexadecimal text, the helper's standard input and its checks,
    what comes back is exactly the quote of the device for [report_data], and
    when the device gives one the call returns it. *)
Theorem get_td_quote_device report_data quote w :
  let n := length (w_trace w) in
  (_get_td_quote report_data w).1 = Ok quote
  <-> length report_data = 64 /\ quote <> [] /\ device_quote n report_data quote
      /\ spawn_error n = None /\ stdin_error n = None /\ stdout_error n = None.
Proof.
  cbn zeta. set (n := length (w_trace w)). unfold _get_td_quote.
  destruct (Nat.eqb_spec (length report_data) 64) as [Hlen|Hlen]; cbn [negb]; [|cbn; split; [done|by intros (? & _)]].
  rewrite encode_hex. st_run. unfold run_tdquote, emit. st_run. fold n. cbn [tdquote_run tdquote_helper].
  destruct (spawn_error n) as [e|]; st_run; [split; [done|by intros (? & ? & ? & ? & _)]|].
  destruct (stdin_error n) as [err|] eqn:Hin.
  { unfold main. rewrite Hin. st_run. split; [done|]. by intros (? & ? & ? & ? & ? & _). }
  destruct (main n (ascii_bytes (bytes_hex report_data))) as [[code out] err] eqn:E. st_run.
  pose proof (main_hex n report_data Hlen Hin) as Hmain. rewrite E in Hmain.
  destruct (Z.eqb_spec code 0) as [->|Hcode]; cbn [negb].
  - destruct (proj1 (Hmain out err) eq_refl) as (Hq & Hout & _). case_bool_decide as Ho; cbn.
    + split; [done|]. intros (_ & Hne & Hq' & _). by rewrite <-(device_quote_unique _ _ _ _ Hq Hq') in Hne.
    + split; [by intros [= <-]|]. intros (_ & _ & Hq' & _). by rewrite (device_quote_unique _ _ _ _ Hq Hq').
  - split; [done|]. intros (_ & _ & Hq & _ & _ & Hout).
    pose proof (proj2 (Hmain quote []) (conj Hq (conj Hout eq_refl))) as Eq. injection Eq as -> _ _. done.
Qed.

(** C34: an execution attestation on TDX, called with its own parameters, down
    to the hardware.  The attestation document is the device's quote of exactly
    the SHA-512 of the canonical proof in the result, which a verifier recomputes
    from [proof_canonical]; that text parses back to every field of the proof;
    and the output hash in it is the one of the output. *)
Theorem tdx_execution_bound args w r w' :
  create_execution_attestation args w = (Ok (true, r), w') ->
  json_ok (ta_job_id args) = true ->
  exists output nonce canonical_bytes quote ts d,
    str_encode (ta_output args) = Ok output
    /\ nonce = (match ta_nonce args with Some n => n | None => urandom (w_draws w) 32 end)
    /\ let fields := proof_data args (sha256_hex output) ts nonce in
       dict_get "proof" r = Some (JObj (fields ++ [("proof_canonical", JStr (proof_canonical fields))]))
       /\ str_encode (proof_canonical fields) = Ok canonical_bytes
       /\ dict_get "attestation" r = Some (JObj (quote_document quote (sha512 canonical_bytes)))
       /\ device_quote (length (w_trace w)) (sha512 canonical_bytes) quote
       /\ (int_ok ts = true -> forallb valid_char (default [] (ta_files_manifest_sha256 args)) = true ->
           json_loads (proof_canonical fields) = Ok (JObj d)
           /\ forall k, dict_get k d = json_order canonical_style <$> dict_get k fields).
Proof.
  intros E Hj. destruct (execution_quoted args w r w' E Hj)
    as (output & nonce & bytes & quote & ts & d & Ho & Hn & Hp & Hc & Ha & (w1 & w2 & Hq & Hw & _) & Hd).
  exists output, nonce, bytes, quote, ts, d. do 5 (split; [done|]). split; [|done].
  destruct Hq as (stderr & _ & Hrun & _ & Hlen). rewrite Hw in Hrun. cbn [tdquote_run tdquote_helper] in Hrun.
  destruct (spawn_error _); [done|]. injection Hrun as Hrun. revert Hrun.
  destruct (stdin_error (length (w_trace w))) as [err|] eqn:Hin; [unfold main; by rewrite Hin|].
  intros Hrun. by apply main_hex in Hrun as [Hrun _].
Qed.
End Helper.

(** ** A concrete device: the quote is a header and REPORTDATA *)
Module ToyDevice.
#[export] Instance device : QuoteDevice := {|
  provider := nat;
  get_quote_provider n := Ok n;
  get_raw_quote _ _ report_data := Ok (ascii_bytes "TDQ" ++ report_data);
  stdout_error _ := None;
  stdin_error _ := None;
  spawn_error _ := None;
  backend_environ := ∅;
  backend_file := "/app/implementations/tdx_attestation_service_impl.py";
|}.

Definition run : res (bool * dict) * world :=
  @create_execution_attestation Toy.env tdquote_helper ToyTdx.args empty_world.
Definition result : dict := match run.1 with Ok (true, r) => r | _ => [] end.
End ToyDevice.

#[local] Existing Instance ToyDevice.device.

(** The usage line of the program, with the newline of an [echo], and a text
    that is not hexadecimal. *)
Example read_usage :
  read_report_data (ascii_bytes (bytes_hex (repeat Byte.x5a 64) ++ [10%N])) = Ok (repeat Byte.x5a 64)
  /\ read_report_data (ascii_bytes (repeat 122%N 128))
     = Raise (ascii_bytes "hex decode REPORTDATA: encoding/hex: invalid byte: U+007A 'z'")
  /\ read_report_data (ascii_bytes "  ab")
     = Raise (ascii_bytes "REPORTDATA must be 64 raw bytes or 128 hex chars; got 4 bytes / 2 trimmed chars").
Proof. split_and!; vm_compute; reflexivity. Qed.

Example tdx_execution_bound_witness :
  exists canonical quote, dict_get "attestation" ToyDevice.result = Some (JObj (quote_document quote (sha512 canonical)))
    /\ device_quote 0 (sha512 canonical) quote.
Proof.
  destruct (@tdx_execution_bound Toy.env ToyDevice.device ToyTdx.args empty_world ToyDevice.result ToyDevice.run.2)
    as (output & nonce & canonical & quote & ts & d & _ & _ & _ & _ & Ha & Hq & _).
  - vm_compute. reflexivity.
  - reflexivity.
  - exists canonical, quote. split; [exact Ha|exact Hq].
Defined.
