(* ===== verification/Bundle.v ===== *)
(** * execute_service_impl.py: the bundle of a script

    Extracting the ZIP archive into the temporary directory of a run, finding
    the script in it, and injecting the dataset.  The archive decoder and the
    interpreter's view of the machine are fields of [Machine]. *)
From stdpp Require Import base tactics list gmap strings.
From Stdlib Require Import NArith ZArith Lia.
From S2P Require Import Prelude PyText PyCodec PyJson World Config OutputFiles OutputTree.

(** A [ZipInfo]: its name, its declared size, and what extracting it gives: an
    error of [ZipFile.open], or the bytes that reach the file and the error that
    stops the copy, if any (a wrong checksum, a damaged stream, a full disk). *)
Record zip_entry : Type := ZipEntry {
  ze_filename : str;
  ze_file_size : N;
  ze_content : res (bytes * option exn);
}.

Class Machine : Type := {
  (** [zipfile.ZipFile(io.BytesIO(b)).infolist()]. *)
  zip_infolist : bytes -> res (list zip_entry);
  (** [os.path.realpath] and the order of [os.listdir]. *)
  realpath : str -> str;
  listdir_order : list str -> list str;
  (** [open(path, 'rb').read()] outside the temporary directories. *)
  read_outside : str -> res bytes;
  (** The directory and the file [tempfile] makes at the [n]-th draw. *)
  mkdtemp : nat -> str;
  (** The removal of that directory, whatever the script has made of it: the
      error it raises and what it leaves, or [None] when it removes everything. *)
  rmtree : nat -> option (exn * node);
  mkstemp_py : nat -> str;
  gettempdir : str;
  sys_executable : str;
}.

(** ** Writing below a directory *)

Fixpoint assoc_set {A} (k : str) (a : A) (l : list (str * A)) : list (str * A) :=
  match l with
  | [] => [(k, a)]
  | (k', a') :: l => if str_eqb k k' then (k', a) :: l else (k', a') :: assoc_set k a l
  end.

Definition not_a_directory : exn := Exn OSError "[Errno 20] Not a directory".
Definition is_a_directory : exn := Exn OSError "[Errno 21] Is a directory".
Definition file_exists : exn := Exn OSError "[Errno 17] File exists".
Definition no_such_file : exn := Exn OSError "[Errno 2] No such file or directory".

(** [os.makedirs(os.path.dirname(path))], then [leaf] at [path]. *)
Fixpoint put (segs : list str) (leaf : option node -> res node) (n : option node) : res node :=
  match segs with
  | [] => leaf n
  | seg :: segs =>
      match default (Dir []) n with
      | Dir es => m ← put segs leaf (assoc seg es); Ok (Dir (assoc_set seg m es))
      | _ => raise not_a_directory
      end
  end.

(** [open(path, 'wb')] and a write of [c]; there are no links in these trees. *)
Definition write_leaf (c : bytes) (n : option node) : res node :=
  match n with
  | None | Some (Reg _) => Ok (Reg c)
  | Some (Dir _) => raise is_a_directory
  | Some _ => raise file_exists
  end.

(** [os.makedirs(path, exist_ok=True)]. *)
Definition dir_leaf (n : option node) : res node :=
  match n with
  | None => Ok (Dir [])
  | Some (Dir es) => Ok (Dir es)
  | Some _ => raise file_exists
  end.

Definition write_file (segs : list str) (c : bytes) (n : node) : res node := put segs (write_leaf c) (Some n).
Definition make_dirs (segs : list str) (n : node) : res node := put segs dir_leaf (Some n).

(** ** [zf.extractall] *)

(** The path below the destination: [zipfile] leaves out what is not a name. *)
Definition member_segs (filename : str) : list str :=
  filter (fun s => s ∉ [""; "."; ".."]) (str_split slash filename).

Definition is_dir_entry (filename : str) : bool := ends_with [slash] filename.

(** [zf.getinfo(name)]: the last entry of that name. *)
Definition getinfo (filename : str) (entries : list zip_entry) : option zip_entry :=
  find (fun e => str_eqb (ze_filename e) filename) (reverse entries).

(** A change of the tree, which an error leaves as it is. *)
Definition tree_op (g : node -> res node) : ST exn node unit :=
  n ← st_gets id; n' ← st_lift (g n); st_modify (const n').

(** [if not os.path.exists(upperdirs): os.makedirs(upperdirs)]. *)
Definition make_parents (segs : list str) (n : node) : res node :=
  match at_path n (removelast segs) with
  | Some _ => Ok n
  | None => make_dirs (removelast segs) n
  end.

Definition extract_member (entries : list zip_entry) (filename : str) : ST exn node unit :=
  let segs := member_segs filename in
  match getinfo filename entries with
  | None => mraise (Exn KeyError ("There is no item named " ++ filename ++ " in the archive"))
  | Some e =>
      _ ← tree_op (make_parents segs);
      if is_dir_entry filename then tree_op (make_dirs segs)
      else
        content ← st_lift (ze_content e);
        _ ← tree_op (write_file segs content.1);
        match content.2 with Some error => mraise error | None => mret tt end
  end.

(** Member by member: an error leaves what has been written. *)
Fixpoint extract_members (entries : list zip_entry) (names : list str) : ST exn node unit :=
  match names with
  | [] => mret tt
  | name :: names => _ ← extract_member entries name; extract_members entries names
  end.

Definition extractall (entries : list zip_entry) : ST exn node unit :=
  extract_members entries (map ze_filename entries).

Definition declared_size (entries : list zip_entry) : Z :=
  Z.of_N (foldr N.add 0%N (map ze_file_size entries)).

(** ** Temporary directories *)

(** Change the tree of a live temporary directory. *)
Definition in_tmp (dir : str) (g : node -> res node) : IO unit :=
  n ← st_gets (fun w => w_tmp w !! dir);
  n' ← st_lift (match n with Some n => g n | None => raise no_such_file end);
  st_modify (set_tmp (insert dir n')).

(** Operations on that tree, as far as they get. *)
Definition on_tree (dir : str) (ops : ST exn node unit) : IO unit :=
  n ← st_gets (fun w => w_tmp w !! dir);
  match n with
  | None => mraise no_such_file
  | Some n => _ ← st_modify (set_tmp (insert dir (ops n).2)); st_lift (ops n).1
  end.

Definition tmp_tree (dir : str) : IO node :=
  n ← st_gets (fun w => w_tmp w !! dir);
  st_lift (match n with Some n => Ok n | None => raise no_such_file end).

Section Bundles.
Context `{Env, Settings, Machine}.

(** [TemporaryDirectory.cleanup]: a directory that is gone is no error, and a
    removal that fails leaves what it could not remove. *)
Definition cleanup (n : nat) : IO unit :=
  tree ← st_gets (fun w => w_tmp w !! mkdtemp n);
  match tree with
  | None => mret tt
  | Some _ =>
      match rmtree n with
      | None => st_modify (set_tmp (delete (mkdtemp n)))
      | Some (error, rest) => _ ← st_modify (set_tmp (insert (mkdtemp n) rest)); mraise error
      end
  end.

(** [with tempfile.TemporaryDirectory() as temp_dir]. *)
Definition with_tempdir {A} (body : str -> IO A) : IO A :=
  n ← st_gets w_draws;
  let temp_dir := mkdtemp n in
  _ ← st_modify drawn;
  _ ← st_modify (set_tmp (insert temp_dir (Dir [])));
  st_finally (body temp_dir) (cleanup n).

(** ** [_safe_extract_zip] *)

Definition escapes (dest_dir filename : str) : bool :=
  let target := realpath (path_join dest_dir filename) in
  negb (starts_with (realpath dest_dir ++ "/") target) && negb (str_eqb target (realpath dest_dir)).

Definition _safe_extract_zip (bundle_data : bytes) (dest_dir : str) : IO (option str) :=
  st_try
    (entries ← st_lift (zip_infolist bundle_data);
     let n := Z.of_nat (length entries) in
     let total_size := declared_size entries in
     if (MAX_ZIP_ENTRIES settings <? n)%Z then
       mret (Some ("ZIP contains too many entries (" ++ str_of_Z n ++ " > "
                   ++ str_of_Z (MAX_ZIP_ENTRIES settings) ++ ")"))
     else if (MAX_ZIP_TOTAL_SIZE settings <? total_size)%Z then
       mret (Some ("ZIP uncompressed size too large (" ++ str_of_Z total_size ++ " > "
                   ++ str_of_Z (MAX_ZIP_TOTAL_SIZE settings) ++ ")"))
     else
       match find (fun e => escapes dest_dir (ze_filename e)) entries with
       | Some entry => mret (Some ("ZIP path traversal detected: " ++ ze_filename entry))
       | None => _ ← on_tree dest_dir (extractall entries); mret None
       end)
    (fun e => match exn_cls e with
              | BadZipFile => mret (Some ("Invalid ZIP file: " ++ exn_msg e))
              | _ => mraise e
              end).

(** ** Paths below a temporary directory *)

(** Where a relative path leads in a tree without links. *)
Inductive place : Type :=
  | Inside (n : option node)
  | Outside.

Fixpoint locate (parents : list node) (here : node) (segs : list str) : place :=
  match segs with
  | [] => Inside (Some here)
  | seg :: segs =>
      match here with
      | Dir es =>
          if str_eqb seg "" || str_eqb seg "." then locate parents here segs
          else if str_eqb seg ".." then
            match parents with
            | p :: parents => locate parents p segs
            | [] => Outside
            end
          else match assoc seg es with
               | Some m => locate (here :: parents) m segs
               | None => Inside None
               end
      | _ => Inside None
      end
  end.

Definition locate_path (temp_dir : str) (tree : node) (path : str) : place :=
  if starts_with (temp_dir ++ "/") path then
    locate [] tree (str_split slash (drop (length temp_dir + 1) path))
  else Outside.

(** [os.path.exists(path)] and [open(path, 'rb').read()]. *)
Definition exists_path (temp_dir : str) (tree : node) (path : str) : bool :=
  match locate_path temp_dir tree path with
  | Inside (Some _) => true
  | Inside None => false
  | Outside => path_exists path
  end.

Definition read_path (temp_dir : str) (tree : node) (path : str) : res bytes :=
  match locate_path temp_dir tree path with
  | Inside (Some (Reg c)) => Ok c
  | Inside (Some (Dir _)) => raise is_a_directory
  | Inside _ => raise no_such_file
  | Outside => read_outside path
  end.

Definition listdir (tree : node) : res (list str) :=
  match tree with Dir es => Ok (listdir_order (map fst es)) | _ => raise not_a_directory end.

(** ** [_find_script] and [_process_bundle_csv_files] *)

Definition script_names : list str := ["main.py"; "script.py"; "run.py"].

Definition _find_script (temp_dir : str) (tree : node) (script_path : option str) : res (option str) :=
  match script_path with
  | Some ((_ :: _) as script_path) =>
      let target := path_join temp_dir script_path in
      Ok (if exists_path temp_dir tree target then Some target else None)
  | _ =>
      match find (fun name => exists_path temp_dir tree (path_join temp_dir name)) script_names with
      | Some name => Ok (Some (path_join temp_dir name))
      | None =>
          names ← listdir tree;
          Ok match filter (fun f => ends_with ".py" f = true) names with
             | f :: _ => Some (path_join temp_dir f)
             | [] => None
             end
      end
  end.

Definition _process_bundle_csv_files (tree : node) : bool * str :=
  match listdir tree with
  | Ok names =>
      match filter (fun f => ends_with ".csv" f = true) names with
      | [] => (true, "No CSV files found")
      | csv_files => (true, "Processed " ++ str_of_nat (length csv_files) ++ " CSV files")
      end
  | Raise e => (false, "CSV processing error: " ++ exn_msg e)
  end.
End Bundles.

(** ** What writing changes *)

Lemma assoc_set_assoc {A} k k' (a : A) l :
  assoc k' (assoc_set k a l) = if str_eqb k' k then Some a else assoc k' l.
Proof.
  induction l as [|[k0 a0] l IH]; cbn; unfold str_eqb in *.
  - done.
  - repeat case_bool_decide; cbn; unfold str_eqb; repeat case_bool_decide; subst; congruence.
Qed.

Lemma assoc_set_in {A} k (a : A) l e : e ∈ assoc_set k a l -> e = (k, a) \/ e ∈ l.
Proof.
  induction l as [|[k0 a0] l IH]; cbn.
  - rewrite list_elem_of_singleton. by left.
  - unfold str_eqb. case_bool_decide as E; rewrite elem_of_cons; [subst|]; rewrite elem_of_cons; naive_solver.
Qed.

Lemma assoc_set_keys {A} k (a : A) l :
  map fst (assoc_set k a l) = if bool_decide (k ∈ map fst l) then map fst l else map fst l ++ [k].
Proof.
  induction l as [|[k0 a0] l IH]; [done|]. cbn [assoc_set]. unfold str_eqb.
  destruct (decide (k = k0)) as [->|Hne].
  - rewrite bool_decide_eq_true_2 by done. cbn [map fst]. by rewrite bool_decide_eq_true_2 by set_solver.
  - rewrite bool_decide_eq_false_2 by done. cbn [map fst]. rewrite IH.
    destruct (decide (k ∈ map fst l)); [rewrite !bool_decide_eq_true_2 by set_solver|
      rewrite !bool_decide_eq_false_2 by set_solver]; done.
Qed.

(** A tree of directories and files, with proper names. *)
Definition plain_name (seg : str) : bool := entry_name_ok seg && negb (str_eqb seg ".") && negb (str_eqb seg "..").

Fixpoint plain (n : node) : bool :=
  match n with
  | Reg _ => true
  | Dir es => bool_decide (NoDup (map fst es)) && forallb (fun e => plain_name e.1 && plain e.2) es
  | _ => false
  end.

Lemma plain_dir es :
  plain (Dir es) = true <-> NoDup (map fst es) /\ Forall (fun e => plain_name e.1 = true /\ plain e.2 = true) es.
Proof.
  cbn [plain]. rewrite andb_true_iff, bool_decide_eq_true, forallb_forall, Forall_forall.
  split; intros [Hnd Hf]; (split; [done|]); intros e He.
  - by apply andb_true_iff, Hf, list_elem_of_In.
  - by apply andb_true_iff, Hf, list_elem_of_In.
Qed.

Lemma plain_tree_wf n : plain n = true -> tree_wf n = true /\ clean n = true.
Proof.
  induction n as [c|es IH|t|] using node_ind; intros Hp; try done.
  apply plain_dir in Hp as [Hnd Hf]. rewrite Forall_forall in IH, Hf. cbn.
  rewrite andb_true_iff, bool_decide_eq_true, !forallb_forall.
  split; [split; [done|]|]; intros e He%list_elem_of_In; destruct (Hf e He) as [Hn Hpe];
    destruct (IH e He Hpe) as [Hw Hc]; [|done].
  unfold plain_name in Hn. rewrite !andb_true_iff in Hn. rewrite Hw. by destruct Hn as [[-> _] _].
Qed.

Lemma plain_assoc es seg m : plain (Dir es) = true -> assoc seg es = Some m -> plain m = true.
Proof.
  intros [_ Hf]%plain_dir Ha%assoc_elem_of. rewrite Forall_forall in Hf. by apply Hf in Ha as [_ ?].
Qed.

Definition plain_opt (n : option node) : Prop := match n with Some n => plain n = true | None => True end.

Lemma put_plain segs leaf n n' :
  Forall (fun seg => plain_name seg = true) segs ->
  (forall m m', plain_opt m -> leaf m = Ok m' -> plain m' = true) ->
  plain_opt n -> put segs leaf n = Ok n' -> plain n' = true.
Proof.
  intros Hsegs Hleaf. revert n n'.
  induction Hsegs as [|seg segs Hseg _ IH]; intros n n' Hn; cbn [put]; [by apply Hleaf|].
  destruct (default (Dir []) n) as [|es| |] eqn:Hd; try done.
  intros (m & Hm & E)%result_bind_ok. injection E as <-.
  assert (plain (Dir es) = true) as Hes by (destruct n; cbn in Hd; [by subst|by injection Hd as <-]).
  assert (plain m = true) as Hpm.
  { eapply IH; [|exact Hm]. destruct (assoc seg es) eqn:Ha; [|done]. by eapply plain_assoc. }
  apply plain_dir in Hes as [Hnd Hf]. apply plain_dir. split.
  - rewrite assoc_set_keys. case_bool_decide; [done|]. apply NoDup_app.
    split_and!; [done|set_solver|apply NoDup_singleton].
  - apply Forall_forall. intros e [->|He]%assoc_set_in; [done|]. rewrite Forall_forall in Hf. by apply Hf.
Qed.

(** A regular file of the new tree was written by [leaf], or was there. *)
Lemma put_files segs leaf (P : list str -> Prop) c n n' p :
  (forall m m' q, leaf m = Ok m' -> at_path m' q = Some (Reg c) ->
     P q \/ exists d, m = Some d /\ at_path d q = Some (Reg c)) ->
  put segs leaf n = Ok n' -> at_path n' p = Some (Reg c) ->
  (exists q, p = segs ++ q /\ P q) \/ exists n0, n = Some n0 /\ at_path n0 p = Some (Reg c).
Proof.
  intros Hleaf. revert n n' p. induction segs as [|seg segs IH]; intros n n' p; cbn [put].
  { intros Hl Hp. destruct (Hleaf _ _ _ Hl Hp) as [HP|Hd]; [left; by exists p|by right]. }
  destruct (default (Dir []) n) as [|es| |] eqn:Hd; try done.
  intros (m & Hm & E)%result_bind_ok. injection E as <-.
  destruct p as [|g p]; [done|]. cbn [at_path]. rewrite assoc_set_assoc.
  assert (forall s, assoc g es = Some s -> n = Some (Dir es)) as Hn.
  { intros s Hs. destruct n as [n|]; cbn in Hd; [by subst n|]. by injection Hd as <-. }
  unfold str_eqb. case_bool_decide as Eg.
  - subst g. intros Hp. destruct (IH _ _ _ Hm Hp) as [(q & -> & HP)|(n0 & Ha & Hp0)].
    + left. by exists q.
    + right. exists (Dir es). split; [by eapply Hn|]. cbn. by rewrite Ha.
  - intros Hp. right. exists (Dir es). split; [|done].
    destruct (assoc g es) eqn:Ha; [by eapply Hn|done].
Qed.

Lemma write_leaf_files c0 c m m' q :
  write_leaf c0 m = Ok m' -> at_path m' q = Some (Reg c) ->
  (q = [] /\ c = c0) \/ exists d, m = Some d /\ at_path d q = Some (Reg c).
Proof. destruct m as [[| | |]|]; cbn; intros E; try done; injection E as <-; destruct q; naive_solver. Qed.

Lemma dir_leaf_files c m m' q :
  dir_leaf m = Ok m' -> at_path m' q = Some (Reg c) ->
  False \/ exists d, m = Some d /\ at_path d q = Some (Reg c).
Proof. destruct m as [[| | |]|]; cbn; intros E; try done; injection E as <-; [naive_solver|by destruct q]. Qed.

Lemma write_file_files segs c0 n n' p c :
  write_file segs c0 n = Ok n' -> at_path n' p = Some (Reg c) ->
  (p = segs /\ c = c0) \/ at_path n p = Some (Reg c).
Proof.
  intros Hw Hp. destruct (put_files _ _ _ _ _ _ _ (write_leaf_files c0 c) Hw Hp)
    as [(q & -> & -> & ->)|(n0 & [= ->] & Hp0)]; [left; by rewrite app_nil_r|by right].
Qed.

Lemma make_dirs_files segs n n' p c :
  make_dirs segs n = Ok n' -> at_path n' p = Some (Reg c) -> at_path n p = Some (Reg c).
Proof.
  intros Hw Hp. by destruct (put_files _ _ _ _ _ _ _ (dir_leaf_files c) Hw Hp)
    as [(q & -> & [])|(n0 & [= ->] & Hp0)].
Qed.

Lemma write_file_plain segs c n n' :
  Forall (fun seg => plain_name seg = true) segs -> plain n = true ->
  write_file segs c n = Ok n' -> plain n' = true.
Proof.
  intros Hs Hn. apply put_plain; [done| |done].
  intros m m' Hm. destruct m as [[| | |]|]; cbn in *; try done; by intros [= <-].
Qed.

Lemma make_dirs_plain segs n n' :
  Forall (fun seg => plain_name seg = true) segs -> plain n = true ->
  make_dirs segs n = Ok n' -> plain n' = true.
Proof.
  intros Hs Hn. apply put_plain; [done| |done].
  intros m m' Hm. destruct m as [[| | |]|]; cbn [dir_leaf] in *; try done; by intros [= <-].
Qed.

(** ** What an archive leaves in the directory *)

Lemma member_segs_plain filename : Forall (fun seg => plain_name seg = true) (member_segs filename).
Proof.
  unfold member_segs. apply Forall_forall. intros seg [Hn Hin]%list_elem_of_filter.
  pose proof (str_split_no_sep slash filename) as Hs. rewrite Forall_forall in Hs. specialize (Hs _ Hin).
  unfold plain_name, str_eqb. rewrite !bool_decide_eq_false_2 by set_solver.
  rewrite (proj2 (entry_name_ok_spec seg)); [done|]. split; [set_solver|done].
Qed.

Lemma getinfo_in filename entries e :
  getinfo filename entries = Some e -> e ∈ entries /\ ze_filename e = filename.
Proof.
  intros [Hin He]%find_some. split.
  - by rewrite <-list_elem_of_In, elem_of_reverse in Hin.
  - unfold str_eqb in He. by apply bool_decide_eq_true in He.
Qed.

(** The file at [p] is an entry of that path; [whole]: all of it. *)
Definition from_entry (entries : list zip_entry) (whole : bool) (p : list str) (c : bytes) : Prop :=
  exists e error, e ∈ entries /\ member_segs (ze_filename e) = p /\ ze_content e = Ok (c, error)
    /\ (whole = true -> error = None).

Definition extracted (entries : list zip_entry) (whole : bool) (n : node) : Prop :=
  plain n = true /\ forall p c, at_path n p = Some (Reg c) -> from_entry entries whole p c.

Definition is_ok {X A} (r : result X A) : bool := match r with Ok _ => true | Raise _ => false end.

Lemma extracted_mono entries whole n : extracted entries whole n -> extracted entries false n.
Proof. intros [Hp Hf]. split; [done|]. intros p c (e & error & ? & ? & ? & _)%Hf. by exists e, error. Qed.

Lemma tree_op_run g n :
  tree_op g n = match g n with Ok n' => (Ok tt, n') | Raise e => (Raise e, n) end.
Proof. unfold tree_op. st_run. change (id n) with n. destruct (g n); by st_run. Qed.

Lemma make_dirs_extracted entries whole segs n n' :
  Forall (fun seg => plain_name seg = true) segs ->
  extracted entries whole n -> make_dirs segs n = Ok n' -> extracted entries whole n'.
Proof.
  intros Hs [Hp Hf] Hm. split; [by eapply make_dirs_plain|]. intros p c Hc. by eapply Hf, make_dirs_files.
Qed.

Lemma removelast_Forall {A} (P : A -> Prop) l : Forall P l -> Forall P (removelast l).
Proof. induction 1 as [|x l Hx _ IH]; [constructor|]. destruct l; [constructor|]. by constructor. Qed.

Lemma extract_member_extracted entries whole name n :
  extracted entries whole n ->
  let r := extract_member entries name n in extracted entries (whole && is_ok r.1) r.2.
Proof.
  intros Hn. pose proof (member_segs_plain name) as Hs. cbn zeta. unfold extract_member.
  destruct (getinfo name entries) as [e|] eqn:Hg; [|rewrite andb_false_r; by eapply extracted_mono].
  apply getinfo_in in Hg as [He <-]. set (segs := member_segs _) in *. rewrite run_bind, tree_op_run.
  unfold make_parents. assert (exists n1, extracted entries whole n1 /\
    match (match at_path n (removelast segs) with Some _ => Ok n | None => make_dirs (removelast segs) n end) with
    | Ok n' => n' = n1 | Raise _ => n = n1 end) as (n1 & Hn1 & E).
  { destruct (at_path n _); [by exists n|]. destruct (make_dirs _ n) as [n'|] eqn:Hm; [|by exists n].
    exists n'. split; [|done]. eapply make_dirs_extracted; [|done|exact Hm]; by apply removelast_Forall. }
  destruct (match at_path n _ with Some _ => _ | None => _ end) as [n'|error]; subst n1; cbn [fst snd].
  2: { rewrite andb_false_r. by eapply extracted_mono. }
  destruct (is_dir_entry _).
  { rewrite tree_op_run. destruct (make_dirs segs n') as [n2|] eqn:Hm; cbn [fst snd is_ok].
    - rewrite andb_true_r. by eapply make_dirs_extracted.
    - rewrite andb_false_r. by eapply extracted_mono. }
  destruct (ze_content e) as [[c0 error]|x] eqn:Hc0; st_run; cbn [fst snd is_ok].
  2: { rewrite andb_false_r. by eapply extracted_mono. }
  rewrite tree_op_run. destruct (write_file segs c0 n') as [n2|] eqn:Hw; st_run; cbn [fst snd is_ok].
  2: { rewrite andb_false_r. by eapply extracted_mono. }
  assert ((match error with Some x => mraise x | None => mret tt end : ST exn node unit) n2
    = (match error with Some x => Raise x | None => Ok tt end, n2)) as -> by by destruct error.
  cbn [fst snd]. destruct Hn1 as [Hp Hf]. split; [by eapply write_file_plain|]. intros p c Hc.
  destruct (write_file_files _ _ _ _ _ _ Hw Hc) as [[-> ->]|Hc'].
  - exists e, error. split_and!; [done..|]. destruct error; [|done]. by rewrite andb_false_r.
  - destruct (Hf p c Hc') as (e' & error' & ? & ? & ? & Hw'). exists e', error'. split_and!; [done..|].
    rewrite andb_true_iff. intros [??]. auto.
Qed.

Lemma extract_members_extracted entries names : forall whole n,
  extracted entries whole n ->
  let r := extract_members entries names n in extracted entries (whole && is_ok r.1) r.2.
Proof.
  induction names as [|name names IH]; intros whole n Hn; cbn [extract_members]; cbn zeta.
  { by rewrite andb_true_r. }
  pose proof (extract_member_extracted entries whole name n Hn) as Hm. cbn zeta in Hm. rewrite run_bind.
  destruct (extract_member entries name n) as [[[]|e] n1]; cbn [fst snd is_ok] in *; [|done].
  rewrite andb_true_r in Hm. by apply IH.
Qed.

Lemma extractall_extracted entries :
  let r := extractall entries (Dir []) in extracted entries (is_ok r.1) r.2.
Proof. apply (extract_members_extracted entries _ true). split; [done|]. by intros [|g p] c. Qed.

(** ** Sizes *)

Fixpoint file_list (n : node) : list (list str * bytes) :=
  match n with
  | Reg c => [([], c)]
  | Dir es => concat (map (fun e => map (fun pc => (e.1 :: pc.1, pc.2)) (file_list e.2)) es)
  | _ => []
  end.

(** The bytes of all the files of a tree. *)
Definition tree_bytes (n : node) : N := foldr N.add 0%N (map (fun pc => N.of_nat (length pc.2)) (file_list n)).

Lemma file_list_dir es pc :
  pc ∈ file_list (Dir es) <-> exists e pc', e ∈ es /\ pc' ∈ file_list e.2 /\ pc = (e.1 :: pc'.1, pc'.2).
Proof.
  cbn [file_list]. rewrite list_elem_of_In, in_concat. split.
  - intros (l & (e & <- & He)%in_map_iff & (pc' & <- & Hpc)%in_map_iff). exists e, pc'.
    by rewrite !list_elem_of_In.
  - intros (e & pc' & He & Hpc & ->). eexists.
    split; [apply in_map_iff; exists e; split; [done|by apply list_elem_of_In]|].
    apply in_map_iff. exists pc'. split; [done|by apply list_elem_of_In].
Qed.

Lemma file_list_at_path n p c : plain n = true -> (p, c) ∈ file_list n -> at_path n p = Some (Reg c).
Proof.
  revert p. induction n as [c0|es IH|t|] using node_ind; intros p Hp; try done.
  - cbn. rewrite list_elem_of_singleton. by intros [= -> ->].
  - apply plain_dir in Hp as [Hnd Hf]. rewrite Forall_forall in IH, Hf.
    intros ([g m] & [p' c'] & He & Hpc & [= -> ->])%file_list_dir. cbn in *.
    rewrite (elem_of_assoc _ _ _ Hnd He). cbn. apply (IH _ He); [|done]. by apply Hf in He as [_ ?].
Qed.

Lemma concat_NoDup {A} (ls : list (list A)) :
  Forall (NoDup (A := A)) ls -> (forall i j l1 l2 x, i <> j -> ls !! i = Some l1 -> ls !! j = Some l2 ->
    x ∈ l1 -> x ∈ l2 -> False) -> NoDup (concat ls).
Proof.
  induction 1 as [|l ls Hl _ IH]; intros Hd; cbn; [constructor|]. apply NoDup_app. split_and!; [done| |].
  - intros x Hx Hin. apply list_elem_of_In, in_concat in Hin as (l' & Hl' & Hx').
    apply list_elem_of_In in Hx', Hl'. apply list_elem_of_lookup_1 in Hl' as [j Hj].
    by eapply (Hd 0 (S j)).
  - apply IH. intros i j l1 l2 x Hij Hi Hj. eapply (Hd (S i) (S j)); by try lia.
Qed.

Lemma file_list_NoDup n : plain n = true -> NoDup (map fst (file_list n)).
Proof.
  induction n as [c0|es IH|t|] using node_ind; intros Hp; try (cbn; repeat constructor; set_solver).
  apply plain_dir in Hp as [Hnd Hf]. rewrite Forall_forall in IH, Hf. cbn [file_list].
  rewrite concat_map, map_map. apply concat_NoDup.
  - apply Forall_forall. intros l (e & <- & He)%list_elem_of_In%in_map_iff. apply list_elem_of_In in He.
    rewrite map_map. cbn [fst]. rewrite <-(map_map fst (cons e.1)).
    apply NoDup_fmap_2; [by intros ?? [= ->]|]. apply (IH _ He). by apply Hf in He as [_ ?].
  - intros i j l1 l2 x Hij Hi Hj H1 H2.
    apply list_lookup_fmap_Some in Hi as (e1 & -> & He1), Hj as (e2 & -> & He2).
    rewrite map_map in H1, H2. cbn [fst] in *.
    apply list_elem_of_In, in_map_iff in H1 as (pc1 & <- & _), H2 as (pc2 & [= E _] & _).
    apply Hij. eapply (NoDup_lookup (map fst es)); [done| |].
    + apply list_lookup_fmap_Some. exists e1. by split.
    + apply list_lookup_fmap_Some. exists e2. by split.
Qed.

(** Distinct keys, each charged to an element with that key. *)
Lemma sum_by_key {A B K} (key : B -> K) (size : B -> N) (akey : A -> K) (asize : A -> N) (l : list A) (es : list B) :
  NoDup (map akey l) -> Forall (fun a => exists b, b ∈ es /\ key b = akey a /\ (asize a <= size b)%N) l ->
  (foldr N.add 0 (map asize l) <= foldr N.add 0 (map size es))%N.
Proof.
  revert es. induction l as [|a l IH]; cbn; intros es Hnd Hl; [lia|].
  apply NoDup_cons in Hnd as [Ha Hnd]. apply Forall_cons in Hl as [(b & Hb & Hk & Hs) Hl].
  apply list_elem_of_split in Hb as (l1 & l2 & ->).
  assert (foldr N.add 0 (map asize l) <= foldr N.add 0 (map size (l1 ++ l2)))%N as Hle.
  { apply IH; [done|]. rewrite Forall_forall in *. intros a' Ha'. destruct (Hl a' Ha') as (b' & Hb' & Hk' & Hs').
    exists b'. split_and!; [|done|done]. apply elem_of_app. rewrite elem_of_app, elem_of_cons in Hb'.
    destruct Hb' as [?|[->|?]]; [by left| |by right]. destruct Ha. rewrite <-Hk, Hk'.
    by apply (list_elem_of_fmap_2 akey). }
  rewrite map_app in *. cbn [map]. clear -Hle Hs. revert Hle.
  assert (forall x y : list N, foldr N.add 0 (x ++ y) = foldr N.add 0 x + foldr N.add 0 y)%N as Happ.
  { induction x as [|n x IHx]; intros y; cbn; [done|]. rewrite IHx. lia. }
  rewrite !Happ. cbn. lia.
Qed.

(** No member yields more than the archive declares for it. *)
Definition sizes_declared (entries : list zip_entry) : Prop :=
  Forall (fun e => forall c error, ze_content e = Ok (c, error) -> (N.of_nat (length c) <= ze_file_size e)%N) entries.

Lemma extracted_bytes entries whole n :
  extracted entries whole n -> sizes_declared entries ->
  (tree_bytes n <= foldr N.add 0 (map ze_file_size entries))%N.
Proof.
  intros [Hp Hf] He. unfold sizes_declared in He. rewrite Forall_forall in He.
  apply (sum_by_key (fun e => member_segs (ze_filename e)) ze_file_size fst); [by apply file_list_NoDup|].
  apply Forall_forall. intros [p c] Hpc. apply file_list_at_path in Hpc as (e & error & Hin & Hs & Hc & _)%Hf; [|done].
  exists e. split_and!; [done|done|]. by eapply He.
Qed.

(** ** Properties *)

Section Properties.
Context `{Env, Settings, Machine}.

(** What the checks of an extraction have established, and its outcome. *)
Definition zip_extraction (bundle : bytes) (dest : str) (w w' : world) (whole : bool) : Prop :=
  exists entries outcome tree,
    zip_infolist bundle = Ok entries
    /\ (Z.of_nat (length entries) <= MAX_ZIP_ENTRIES settings)%Z
    /\ (declared_size entries <= MAX_ZIP_TOTAL_SIZE settings)%Z
    /\ Forall (fun e => escapes dest (ze_filename e) = false) entries
    /\ extractall entries (Dir []) = (outcome, tree) /\ is_ok outcome = whole
    /\ w' = set_tmp (insert dest tree) w
    /\ extracted entries whole tree.

Lemma safe_extract_zip_cases bundle dest w r w' :
  w_tmp w !! dest = Some (Dir []) ->
  _safe_extract_zip bundle dest w = (r, w') ->
  match r with
  | Ok None => zip_extraction bundle dest w w' true
  | _ => w' = w \/ zip_extraction bundle dest w w' false
  end.
Proof.
  intros Hd. unfold _safe_extract_zip. rewrite run_try.
  destruct (zip_infolist bundle) as [entries|e] eqn:Hz; st_run.
  2: { destruct (exn_cls e); intros [= <- <-]; by left. }
  destruct (Z.ltb_spec (MAX_ZIP_ENTRIES settings) (Z.of_nat (length entries))) as [_|Hn]; [intros [= <- <-]; by left|].
  destruct (Z.ltb_spec (MAX_ZIP_TOTAL_SIZE settings) (declared_size entries)) as [_|Ht]; [intros [= <- <-]; by left|].
  destruct (find _ entries) as [entry|] eqn:Hf; [intros [= <- <-]; by left|].
  assert (Forall (fun e => escapes dest (ze_filename e) = false) entries) as Hin.
  { apply Forall_forall. intros e He. by eapply (find_none _ _ Hf), list_elem_of_In. }
  unfold on_tree. st_run. rewrite Hd. pose proof (extractall_extracted entries) as Hx. cbn zeta in Hx. st_run.
  destruct (extractall entries (Dir [])) as [[[]|e] tree] eqn:E; cbn [fst snd is_ok] in *; st_run.
  - intros [= <- <-]. by exists entries, (Ok tt), tree.
  - assert (forall r', (r', set_tmp (insert dest tree) w) = (r, w') -> r' <> Ok None ->
      match r with Ok None => zip_extraction bundle dest w w' true
      | _ => w' = w \/ zip_extraction bundle dest w w' false end) as Hr.
    { intros r' [= <- <-] Hne. assert (zip_extraction bundle dest w (set_tmp (insert dest tree) w) false)
        by by exists entries, (Raise e), tree.
      destruct r' as [[msg|]|]; [by right|done|by right]. }
    destruct (exn_cls e); st_run; intros Er; by eapply Hr.
Qed.

(** C21: extracting a bundle.  Nothing has been written unless the limits on
    entries and on the declared size hold and no entry resolves outside the
    directory.  What the directory then holds, also when the extraction of a
    member fails and leaves those before it, is directories and regular files
    only, under names that cannot lead anywhere else, each with what an entry of
    that path yields; so an archive whose entries yield no more than declared
    takes at most [MAX_ZIP_TOTAL_SIZE] bytes, repeated names included.  When the
    extraction succeeds, every file has the whole content of its entry. *)
Theorem safe_extract_zip_spec bundle dest w r w' :
  w_tmp w !! dest = Some (Dir []) ->
  _safe_extract_zip bundle dest w = (r, w') ->
  (r <> Ok None /\ w' = w)
  \/ exists entries outcome tree,
       zip_infolist bundle = Ok entries
       /\ (Z.of_nat (length entries) <= MAX_ZIP_ENTRIES settings)%Z
       /\ (declared_size entries <= MAX_ZIP_TOTAL_SIZE settings)%Z
       /\ Forall (fun e => escapes dest (ze_filename e) = false) entries
       /\ extractall entries (Dir []) = (outcome, tree)
       /\ w' = set_tmp (insert dest tree) w
       /\ (r = Ok None <-> outcome = Ok tt)
       /\ plain tree = true
       /\ (forall p c, at_path tree p = Some (Reg c) ->
            exists e error, e ∈ entries /\ member_segs (ze_filename e) = p /\ ze_content e = Ok (c, error)
              /\ (r = Ok None -> error = None))
       /\ (sizes_declared entries -> (Z.of_N (tree_bytes tree) <= MAX_ZIP_TOTAL_SIZE settings)%Z).
Proof.
  intros Hd E. pose proof (safe_extract_zip_cases bundle dest w r w' Hd E) as Hc.
  assert ((r <> Ok None /\ w' = w) \/ exists whole, (r = Ok None <-> whole = true) /\ zip_extraction bundle dest w w' whole)
    as [[Hr Hw]|(whole & Hr & entries & outcome & tree & Hz & Hn & Ht & Hf & Hx & Ho & Hw & Hex)]; [|by left|right].
  { destruct r as [[msg|]|e]; [destruct Hc as [|Hc]| |destruct Hc as [|Hc]]; [by left| | |by left|];
      right; eexists; (split; [|exact Hc]); done. }
  exists entries, outcome, tree. pose proof Hex as [Hp Hfrom]. split_and!; try done.
  - rewrite Hr, <-Ho. destruct outcome as [[]|]; done.
  - intros p c (e & error & ? & ? & ? & Hwhole)%Hfrom. exists e, error. split_and!; [done..|]. by rewrite Hr.
  - intros He. etransitivity; [|exact Ht]. unfold declared_size. apply N2Z.inj_le. by eapply extracted_bytes.
Qed.

(** A path below the directory that does not leave it is found in the tree. *)
Lemma locate_name temp_dir tree name es :
  tree = Dir es -> plain_name name = true ->
  locate_path temp_dir tree (temp_dir ++ "/" ++ name) = Inside (assoc name es).
Proof.
  intros -> Hn. unfold locate_path. rewrite app_assoc, starts_with_app.
  rewrite drop_app_length' by (rewrite length_app; done).
  unfold plain_name in Hn. rewrite !andb_true_iff, !negb_true_iff in Hn. destruct Hn as [[Hn Hdot] Hdd].
  pose proof (proj1 (entry_name_ok_spec name) Hn) as [Hne Hs].
  rewrite str_split_field by done. cbn [locate]. rewrite Hdot, Hdd.
  unfold str_eqb. rewrite bool_decide_eq_false_2 by done. cbn. by destruct (assoc name es).
Qed.
Lemma find_app_none {A} (f : A -> bool) l x :
  find f l = Some x -> exists l1 l2, l = l1 ++ x :: l2 /\ Forall (fun y => f y = false) l1.
Proof.
  induction l as [|y l IH]; cbn; [done|]. destruct (f y) eqn:Hy.
  - intros [= ->]. by exists [], l.
  - intros Hx. destruct (IH Hx) as (l1 & l2 & -> & Hl1). exists (y :: l1), l2. split; [done|]. by constructor.
Qed.

(** The script of a bundle, when the request names none.  It is the first of
    [main.py], [script.py] and [run.py] that the bundle has, else a top-level
    [.py] entry; it is not found only if the bundle has neither. *)
Theorem find_script_spec temp_dir es :
  plain (Dir es) = true -> temp_dir <> [] -> ends_with [slash] temp_dir = false ->
  (forall l, listdir_order l ≡ₚ l) ->
  match _find_script temp_dir (Dir es) None with
  | Ok (Some target) =>
      exists name m, target = temp_dir ++ "/" ++ name /\ assoc name es = Some m
        /\ ((exists l1 l2, script_names = l1 ++ name :: l2 /\ Forall (fun n => assoc n es = None) l1)
            \/ (Forall (fun n => assoc n es = None) script_names /\ ends_with ".py" name = true))
  | Ok None =>
      Forall (fun n => assoc n es = None) script_names
      /\ Forall (fun e => ends_with ".py" e.1 = false) es
  | Raise _ => False
  end.
Proof.
  intros Hp Hne Hsl Hperm. cbn [_find_script].
  assert (forall name, plain_name name = true -> path_join temp_dir name = temp_dir ++ "/" ++ name) as Hjoin.
  { intros name Hn. unfold plain_name in Hn. rewrite !andb_true_iff in Hn. destruct Hn as [[Hn _] _].
    apply entry_name_ok_spec in Hn as [Hn Hs]. unfold path_join.
    destruct (starts_with [slash] name) eqn:Hst.
    - apply starts_with_spec in Hst as (t & ->). set_solver.
    - destruct temp_dir as [|d temp_dir]; [done|]. by rewrite Hsl. }
  assert (forall name, plain_name name = true ->
            exists_path temp_dir (Dir es) (path_join temp_dir name) = match assoc name es with Some _ => true | None => false end) as Hex.
  { intros name Hn. rewrite Hjoin by done. unfold exists_path. by rewrite (locate_name _ _ _ es). }
  assert (forall n, n ∈ script_names -> plain_name n = true) as Hpn.
  { intros n Hin. unfold script_names in Hin. rewrite !elem_of_cons in Hin.
    by destruct Hin as [->|[->|[->|Hin]]]; [..|set_solver]. }
  destruct (find _ script_names) as [name|] eqn:Hf.
  - pose proof (find_some _ _ Hf) as [Hin Hx]. apply list_elem_of_In in Hin. rewrite Hex in Hx by auto.
    destruct (assoc name es) as [m|] eqn:Ha; [|done]. exists name, m. split_and!; [auto|done|]. left.
    destruct (find_app_none _ _ _ Hf) as (l1 & l2 & E & Hl). exists l1, l2. split; [done|].
    rewrite Forall_forall in *. intros n Hn. specialize (Hl n Hn).
    rewrite Hex in Hl by (apply Hpn; rewrite E; set_solver).
    by destruct (assoc n es).
  - assert (Forall (fun n => assoc n es = None) script_names) as Hnone.
    { apply Forall_forall. intros n Hn. pose proof (find_none _ _ Hf n (proj1 (list_elem_of_In _ _) Hn)) as Hx.
      cbn in Hx. rewrite Hex in Hx by auto. by destruct (assoc n es). }
    cbn [listdir result_bind]. pose proof (proj1 (plain_dir es) Hp) as [Hnd Hfor].
    change (mbind ?f (Ok ?a)) with (f a). cbv beta. destruct (filter _ _) as [|name l] eqn:Hfl.
    + split; [done|]. apply Forall_forall. intros e He. apply not_true_iff_false. intros Hpy.
      assert (e.1 ∈ filter (fun f => ends_with ".py" f = true) (listdir_order (map fst es))) as Hin; [|rewrite Hfl in Hin; set_solver].
      apply list_elem_of_filter. split; [done|]. rewrite Hperm. by apply (list_elem_of_fmap_2 fst).
    + assert (name ∈ filter (fun f => ends_with ".py" f = true) (listdir_order (map fst es))) as Hin by (rewrite Hfl; by left).
      apply list_elem_of_filter in Hin as [Hpy Hin]. rewrite Hperm in Hin.
      apply list_elem_of_fmap in Hin as ([g m] & -> & Hgm).
      exists g, m. split_and!; [|by apply elem_of_assoc|by right].
      apply Hjoin. rewrite Forall_forall in Hfor. by apply Hfor in Hgm as [? _].
Qed.
End Properties.

(** ** A concrete machine: an archive is the content of its one entry *)
Module ToyMachine.
Definition machine : Machine := {|
  zip_infolist b := Ok [ZipEntry "main.py" (N.of_nat (length b)) (Ok (b, None))];
  realpath p := p;
  listdir_order l := l;
  read_outside _ := raise no_such_file;
  mkdtemp n := "/tmp/run" ++ str_of_nat n;
  rmtree _ := None;
  mkstemp_py n := "/tmp/script" ++ str_of_nat n ++ ".py";
  gettempdir := "/tmp";
  sys_executable := "/usr/bin/python3";
|}.

Definition script : bytes := ascii_bytes "print(1)".
Definition dir : str := "/tmp/run0".
Definition fresh : world := set_tmp (insert dir (Dir [])) empty_world.
End ToyMachine.

Lemma safe_extract_zip_spec_witness :
  exists entries tree,
    @zip_infolist ToyMachine.machine ToyMachine.script = Ok entries
    /\ at_path tree ["main.py"] = Some (Reg ToyMachine.script) /\ plain tree = true.
Proof.
  destruct (@safe_extract_zip_spec default_settings ToyMachine.machine ToyMachine.script ToyMachine.dir
    ToyMachine.fresh (Ok None)
    (@_safe_extract_zip default_settings ToyMachine.machine ToyMachine.script ToyMachine.dir ToyMachine.fresh).2)
    as [[Hr _]|(entries & outcome & tree & Hz & _ & _ & _ & _ & Hw & _ & Hp & _)].
  - vm_compute. reflexivity.
  - vm_compute. reflexivity.
  - destruct (Hr eq_refl).
  - exists entries, tree. split; [exact Hz|]. split; [|exact Hp].
    apply (f_equal (fun w => w_tmp w !! ToyMachine.dir)) in Hw. cbn [w_tmp set_tmp] in Hw.
    rewrite lookup_insert_eq in Hw. vm_compute in Hw. injection Hw as <-. reflexivity.
Defined.
