(* ===== verification/ExecuteService.v ===== *)
(** * execute_service_impl.py: running the scripts

    The parser, the credentials of the process, the scripts themselves and what
    they leave in their output directory are fields of [Interpreter]; each run
    leaves an event with the credentials of the child in the trace. *)
From stdpp Require Import base tactics list gmap sorting strings.
From Stdlib Require Import NArith ZArith Lia.
From S2P Require Import Prelude PyText PyCodec PyJson PyJsonParse World Config OutputFiles OutputCollect OutputTree Interfaces Bundle.

(** ** Syntax trees

    A call has its function and its arguments as children; of the other nodes
    only the children matter. *)
#[local] Unset Elimination Schemes.
Inductive ast : Type :=
  | Call (func : ast) (args : list ast)
  | Name (id : str)
  | Node (children : list ast).
#[local] Set Elimination Schemes.

Definition children (n : ast) : list ast :=
  match n with
  | Call func args => func :: args
  | Name _ => []
  | Node l => l
  end.

Fixpoint ast_size (n : ast) : nat :=
  match n with
  | Call func args => S (ast_size func + sum_list (map ast_size args))
  | Name _ => 1
  | Node l => S (sum_list (map ast_size l))
  end.

(** [ast.walk]: breadth first, from a queue; one unit of fuel per node. *)
Fixpoint walk_from (fuel : nat) (todo : list ast) : list ast :=
  match fuel, todo with
  | S fuel, n :: todo => n :: walk_from fuel (todo ++ children n)
  | _, _ => []
  end.

Definition ast_walk (tree : ast) : list ast := walk_from (ast_size tree) [tree].

(** The user, the group and the supplementary groups of a process. *)
Record creds : Type := Creds { cr_uid : Z; cr_gid : Z; cr_groups : list Z }.

Class Interpreter : Type := {
  (** [ast.parse]. *)
  ast_parse : str -> res ast;
  (** The enclave's own process. *)
  own_creds : creds;
  (** The [n]-th script: exit status, [stdout] and [stderr], or a time-out. *)
  run_script : nat -> list str -> str -> list (str * str) -> res (Z * bytes * bytes);
  (** The output directory during the collection after it, as [OutputFiles]
      describes it.  [_walk] has no bound of its own: that it ends, after this
      many directories and entries of each, is assumed of what the script left. *)
  outputs_view : nat -> fs;
  outputs_steps : nat -> nat;
  outputs_end `{Env} n output_dir max_files :
    Ends (outputs_view n) (_walk (outputs_view n) output_dir (outputs_steps n) max_files);
}.

Definition newline : str := [10%N].

(** ** Credentials *)

Definition not_permitted : exn := Exn OSError "[Errno 1] Operation not permitted".
Definition as_root (c c' : creds) : res creds := if (cr_uid c =? 0)%Z then Ok c' else raise not_permitted.

Definition setgroups (gs : list Z) (c : creds) : res creds := as_root c (Creds (cr_uid c) (cr_gid c) gs).
Definition setgid (g : Z) (c : creds) : res creds := as_root c (Creds (cr_uid c) g (cr_groups c)).
Definition setuid (u : Z) (c : creds) : res creds := as_root c (Creds u (cr_gid c) (cr_groups c)).

Section Execution.
Context `{Env, Settings, Machine, Interpreter}.

Definition _drop_privileges (c : creds) : res creds :=
  c ← setgroups [] c; c ← setgid (SCRIPT_GID settings) c; setuid (SCRIPT_UID settings) c.

(** [os.walk(root)], and the paths joined from it: a directory's entries, its
    directories first, then what is below each. *)
Fixpoint walk_paths (root : str) (n : node) : list str :=
  match n with
  | Dir es =>
      let is_dir (e : str * node) := match e.2 with Dir _ => true | _ => false end in
      map (path_join root) (map fst (filter (fun e => is_dir e = true) es)
                            ++ map fst (filter (fun e => is_dir e = false) es))
      ++ concat (map (fun e => match e.2 with
                               | Dir _ => walk_paths (path_join root e.1) e.2
                               | _ => []
                               end) es)
  | _ => []
  end.

Fixpoint chown_all (paths : list str) : IO unit :=
  match paths with
  | [] => mret tt
  | p :: paths => _ ← emit (EvLchown p (SCRIPT_UID settings) (SCRIPT_GID settings)); chown_all paths
  end.

(** Is there a [preexec_fn]?  [tree] is what stands at [path]. *)
Definition _as_script_user (path : str) (tree : node) : IO bool :=
  if negb (cr_uid own_creds =? 0)%Z then mret false
  else
    _ ← emit (EvChown path (SCRIPT_UID settings) (SCRIPT_GID settings));
    _ ← chown_all (walk_paths path tree);
    mret true.

(** [subprocess.run(argv, capture_output=True, text=True, timeout=..., cwd=...,
    env=...)], with [env] over the inherited environment. *)
Definition subprocess_run (argv : list str) (cwd : str) (env : list (str * str)) (preexec : bool) : IO (Z * str * str) :=
  c ← st_lift (if preexec then
                 match _drop_privileges own_creds with
                 | Ok c => Ok c
                 | Raise _ => raise (Exn SubprocessError "Exception occurred in preexec_fn.")
                 end
               else Ok own_creds);
  n ← st_gets (fun w => length (w_trace w));
  _ ← emit (EvScript argv cwd env (cr_uid c) (cr_gid c) (cr_groups c));
  '(returncode, stdout, stderr) ← st_lift (run_script n argv cwd env);
  stdout ← st_lift (text_of stdout);
  stderr ← st_lift (text_of stderr);
  mret (returncode, stdout, stderr).

(** ** Limits and validation *)

Definition forbidden_operations : list str :=
  ["exec"; "eval"; "compile"; "__import__"; "file"; "input"; "raw_input"; "reload"].

Definition _execution_limits : dict :=
  [("max_memory_mb", JInt (MAX_MEMORY_MB settings));
   ("max_execution_time_seconds", JInt (EXECUTION_TIMEOUT settings));
   ("max_output_size_mb", JInt (MAX_OUTPUT_SIZE_MB settings));
   ("forbidden_operations", JArr (map JStr forbidden_operations))].

Definition get_execution_limits : dict := _execution_limits.
Definition get_supported_formats : list str := ["json"; "text"; "csv"; "python_object"].

Definition forbidden_call (n : ast) : option str :=
  match n with
  | Call (Name id) _ => if existsb (str_eqb id) forbidden_operations then Some id else None
  | _ => None
  end.

Fixpoint first_forbidden (nodes : list ast) : option str :=
  match nodes with
  | [] => None
  | n :: nodes => match forbidden_call n with Some id => Some id | None => first_forbidden nodes end
  end.

Definition validate_script (script_content : str) : bool * str :=
  match ast_parse script_content with
  | Ok tree =>
      match first_forbidden (ast_walk tree) with
      | Some id => (false, "Forbidden operation: " ++ id ++ "()")
      | None => (true, "Script validation successful")
      end
  | Raise e =>
      match exn_cls e with
      | SyntaxError => (false, "Syntax error: " ++ exn_msg e)
      | _ => (false, "Script validation error: " ++ exn_msg e)
      end
  end.

Definition setup_execution_environment (session_id : str) : bool * str := (true, "Environment setup successful").

(** ** Monitoring *)

Definition _start_execution_monitoring (execution_id : str) (session_id : json) : IO unit :=
  now ← time_time;
  st_modify (set_execs (insert execution_id (ExecInfo session_id now "running" None None))).

Definition _stop_execution_monitoring (execution_id : str) : IO unit :=
  info ← st_gets (fun w => w_execs w !! execution_id);
  match info with
  | Some i =>
      now ← time_time;
      st_modify (set_execs (insert execution_id
        (ExecInfo (ei_session_id i) (ei_start_time i) "completed" (ei_termination_reason i) (Some now))))
  | None => mret tt
  end.

Definition cleanup_execution_environment (session_id : str) : IO bool :=
  _ ← st_modify (set_execs (filter (fun kv => eq_str (ei_session_id kv.2) session_id = false)));
  mret true.

(** A clock reading as a float of seconds. *)
Definition float_seconds (t : Z) : json := JFloat (dec t (-6)).

Definition monitor_execution (execution_id : str) : IO dict :=
  info ← st_gets (fun w => w_execs w !! execution_id);
  match info with
  | None => mret [("error", JStr ("Execution " ++ execution_id ++ " not found"))]
  | Some i =>
      now ← time_time;
      mret [("execution_id", JStr execution_id); ("session_id", ei_session_id i); ("status", JStr (ei_status i));
            ("start_time", float_seconds (ei_start_time i));
            ("runtime_seconds", float_seconds (now - ei_start_time i))]
  end.

Definition terminate_execution (execution_id reason : str) : IO bool :=
  info ← st_gets (fun w => w_execs w !! execution_id);
  match info with
  | Some i =>
      _ ← st_modify (set_execs (insert execution_id
            (ExecInfo (ei_session_id i) (ei_start_time i) "terminated" (Some reason) (ei_end_time i))));
      mret true
  | None => mret false
  end.

Definition get_execution_logs (execution_id : str) : IO json :=
  info ← st_gets (fun w => w_execs w !! execution_id);
  mret match info with
       | Some i =>
           JArr [JObj [("timestamp", float_seconds (ei_start_time i)); ("level", JStr "INFO");
                       ("message", JStr ("Execution " ++ execution_id ++ " started"));
                       ("session_id", ei_session_id i)]]
       | None => JArr []
       end.
End Execution.

Section Runs.
Context `{Env, Settings, Machine, Interpreter}.

Definition timeout_text : str := str_of_Z (EXECUTION_TIMEOUT settings).

(** ** [execute_script] *)

(** What [finally] does after a run: the file goes, the run is over. *)
Definition end_script (execution_id script_path : str) : IO unit :=
  _ ← st_modify (set_files (delete script_path));
  _stop_execution_monitoring execution_id.

Definition script_result (result : Z * str * str) : bool * str :=
  let '(returncode, stdout, stderr) := result in
  let output_size := Z.of_nat (length stdout + length stderr) in
  let max_size := (MAX_OUTPUT_SIZE_MB settings * 1024 * 1024)%Z in
  if (max_size <? output_size)%Z then
    (false, "Output size (" ++ str_of_Z output_size ++ " bytes) exceeds limit (" ++ str_of_Z max_size ++ " bytes)")
  else if (returncode =? 0)%Z then (true, stdout)
  else (false, "Script execution failed: " ++ stderr).

(** [NamedTemporaryFile(mode='w', delete=False)]: the file stays behind when the
    text cannot be encoded. *)
Definition write_script (script_content : str) : IO str :=
  n ← st_gets w_draws;
  let script_path := mkstemp_py n in
  _ ← st_modify drawn;
  _ ← st_modify (set_files (insert script_path []));
  b ← st_lift (str_encode script_content);
  _ ← st_modify (set_files (insert script_path b));
  mret script_path.

Definition execute_script (script_content session_id : str) : IO (bool * str) :=
  now ← time_time;
  let execution_id := "exec_" ++ session_id ++ "_" ++ str_of_Z (seconds now) in
  st_finally
    (catch
      (let '(is_valid, validation_msg) := validate_script script_content in
       if negb is_valid then mret (false, "Script validation failed: " ++ validation_msg)
       else
         _ ← _start_execution_monitoring execution_id (JStr session_id);
         script_path ← write_script script_content;
         st_finally
           (preexec ← _as_script_user script_path (Reg []);
            result ← subprocess_run [sys_executable; script_path] gettempdir [] preexec;
            mret (script_result result))
           (end_script execution_id script_path))
      (fun e => mret match exn_cls e with
                     | TimeoutExpired =>
                         (false, "Script execution timed out after " ++ timeout_text ++ " seconds")
                     | _ => (false, "Script execution error: " ++ exn_msg e)
                     end))
    (_ ← cleanup_execution_environment session_id; mret tt).

(** ** [execute_bundle] *)

(** The outcome of a collection that ends, with [str(e)] of what it raises. *)
Definition settled {A} (r : result fs_error A) : r <> Raise WalkFuel -> result str A :=
  match r with
  | Ok a => fun _ => Ok a
  | Raise (Rejected msg) => fun _ => Raise msg
  | Raise (OsErr errno strerror path) => fun _ =>
      Raise ("[Errno " ++ str_of_Z errno ++ "] " ++ strerror
             ++ match path with Some p => ": " ++ repr p | None => [] end)
  | Raise WalkFuel => fun He => False_rect _ (He eq_refl)
  end.

(** [collect_output_files], on the view of the [n]-th event. *)
Definition collect (n : nat) (output_dir : str) : result str (list output_file) :=
  settled _ (collect_output_files_ends (outputs_view n) output_dir (outputs_steps n) (MAX_OUTPUT_FILES settings)
               (MAX_OUTPUT_FILES_MB settings * 1024 * 1024)%Z (outputs_end n output_dir _) (FState 0 ∅)).

Definition bundle_result (n : nat) (output_dir : str) (result : Z * str * str) : bool * str * list output_file :=
  let '(returncode, stdout, stderr) := result in
  if (returncode =? 0)%Z then
    let output := stdout ++ match stderr with
                            | [] => []
                            | _ => newline ++ "--- STDERR ---" ++ newline ++ stderr
                            end in
    match collect n output_dir with
    | Ok files => (true, output, files)
    | Raise msg => (false, REJECTED_PREFIX ++ msg, [])
    end
  else (false, "Bundle execution failed:" ++ newline ++ "STDOUT: " ++ stdout ++ newline ++ "STDERR: " ++ stderr, []).

(** What the script's environment is told of its directories. *)
Definition bundle_env (temp_dir : str) : list (str * str) :=
  [("EPSILON_OUTPUT_DIR", path_join temp_dir "outputs"); ("MPLBACKEND", "Agg");
   ("MPLCONFIGDIR", path_join temp_dir ".mplconfig"); ("HOME", temp_dir)].

Definition run_target (execution_id : str) (session_id : json) (temp_dir target_script : str)
    : IO (bool * str * list output_file) :=
  _ ← in_tmp temp_dir (make_dirs ["outputs"]);
  _ ← in_tmp temp_dir (make_dirs [".mplconfig"]);
  _ ← _start_execution_monitoring execution_id session_id;
  st_finally
    (_ ← time_time;
     tree ← tmp_tree temp_dir;
     preexec ← _as_script_user temp_dir tree;
     n ← st_gets (fun w => length (w_trace w));
     result ← subprocess_run [sys_executable; target_script] temp_dir (bundle_env temp_dir) preexec;
     _ ← time_time;
     mret (bundle_result n (path_join temp_dir "outputs") result))
    (_stop_execution_monitoring execution_id).

(** [if csv_data:] *)
Definition given_csv (csv_data : option bytes) : option bytes :=
  match csv_data with None | Some [] => None | Some c => Some c end.

Definition inject_csv (temp_dir : str) (csv_data : option bytes) : IO unit :=
  match given_csv csv_data with
  | Some c => in_tmp temp_dir (write_file ["generated"; "data.csv"] c)
  | None => mret tt
  end.

Definition bundle_body (execution_id : str) (bundle_data : bytes) (session_id : json)
    (script_path : option str) (csv_data : option bytes) (temp_dir : str)
    : IO (bool * str * list output_file) :=
  _ ← time_time;
  extraction_error ← _safe_extract_zip bundle_data temp_dir;
  match extraction_error with
  | Some error => mret (false, error, [])
  | None =>
      _ ← time_time;
      _ ← inject_csv temp_dir csv_data;
      tree ← tmp_tree temp_dir;
      target ← st_lift (_find_script temp_dir tree script_path);
      match target with
      | None =>
          mret (false, "Script not found: " ++ match script_path with
                                               | Some ((_ :: _) as p) => p
                                               | _ => "no .py file in bundle"
                                               end, [])
      | Some target_script =>
          script_content ← st_lift (b ← read_path temp_dir tree target_script; text_of b);
          let '(is_valid, validation_msg) := validate_script script_content in
          if negb is_valid then mret (false, "Script validation failed: " ++ validation_msg, [])
          else
          (* its result is only logged *)
          _ ← mret (match given_csv csv_data with
                    | None => Some (_process_bundle_csv_files tree)
                    | Some _ => None
                    end);
          run_target execution_id session_id temp_dir target_script
      end
  end.

Definition execute_bundle (bundle_data : bytes) (session_id : json) (script_path : option str)
    (csv_data : option bytes) : IO (bool * str * list output_file) :=
  now ← time_time;
  let execution_id := "bundle_" ++ fmt session_id ++ "_" ++ str_of_Z (seconds now) in
  catch
    (with_tempdir (bundle_body execution_id bundle_data session_id script_path csv_data))
    (fun e => mret match exn_cls e with
                   | TimeoutExpired =>
                       (false, "Bundle execution timed out after " ++ timeout_text ++ " seconds", [])
                   | _ => (false, "Bundle execution error: " ++ exn_msg e, [])
                   end).

(** ** [execute_with_data] *)

Definition _format_output (output format_type : str) : res str :=
  if str_eqb format_type "json" then
    match json_loads output with
    | Ok _ => Ok output
    | Raise e => match exn_cls e with
                 | JSONDecodeError | ValueError => Ok (json_dumps (JObj [("output", JStr output)]))
                 | _ => Raise e
                 end
    end
  else Ok output.

Fixpoint copy_data (temp_dir : str) (data_files : list str) : IO unit :=
  match data_files with
  | [] => mret tt
  | data_file :: data_files =>
      _ ← (if path_exists data_file then
             b ← st_lift (read_outside data_file);
             in_tmp temp_dir (write_file [path_basename data_file] b)
           else mret tt);
      copy_data temp_dir data_files
  end.

Definition execute_with_data (script_content : str) (data_files : list str) (session_id output_format : str)
    : IO (bool * str) :=
  catch
    (if negb (existsb (str_eqb output_format) get_supported_formats) then
       mret (false, "Unsupported output format: " ++ output_format)
     else
       with_tempdir (fun temp_dir =>
         _ ← copy_data temp_dir data_files;
         b ← st_lift (str_encode script_content);
         _ ← in_tmp temp_dir (write_file ["script.py"] b);
         tree ← tmp_tree temp_dir;
         preexec ← _as_script_user temp_dir tree;
         '(returncode, stdout, stderr) ←
           subprocess_run [sys_executable; path_join temp_dir "script.py"] temp_dir [] preexec;
         if (returncode =? 0)%Z then
           formatted_output ← st_lift (_format_output stdout output_format);
           mret (true, formatted_output)
         else mret (false, "Script execution failed: " ++ stderr)))
    (fun e => mret (false, "Script execution error: " ++ exn_msg e)).

#[export] Instance execute_service : IExecuteService := {|
  es_execute_script := execute_script;
  es_execute_bundle := execute_bundle;
  es_execute_with_data := execute_with_data;
  es_validate_script := validate_script;
  es_setup_execution_environment := setup_execution_environment;
  es_cleanup_execution_environment := cleanup_execution_environment;
  es_get_execution_limits := get_execution_limits;
  es_monitor_execution := monitor_execution;
  es_terminate_execution := terminate_execution;
  es_get_execution_logs := get_execution_logs;
  es_get_supported_formats := get_supported_formats;
|}.
End Runs.

(** ** Every node is visited *)

(** [n] is a node of [tree]. *)
Inductive occurs (n : ast) : ast -> Prop :=
  | occurs_here : occurs n n
  | occurs_below child tree : child ∈ children tree -> occurs n child -> occurs n tree.

Lemma ast_size_children n : ast_size n = S (sum_list (map ast_size (children n))).
Proof. by destruct n. Qed.

Lemma occurs_children n tree : occurs n tree <-> n = tree \/ exists c, c ∈ children tree /\ occurs n c.
Proof. split; [intros []; eauto|]. intros [->|(c & Hc & Ho)]; [constructor|by econstructor]. Qed.

Lemma walk_from_occurs fuel todo :
  sum_list (map ast_size todo) <= fuel ->
  forall n, n ∈ walk_from fuel todo <-> exists tree, tree ∈ todo /\ occurs n tree.
Proof.
  revert todo. induction fuel as [|fuel IH]; intros todo Hf n.
  { destruct todo as [|t todo]; cbn in *; [set_solver|]. rewrite ast_size_children in Hf. lia. }
  destruct todo as [|t todo]; cbn [walk_from]; [set_solver|].
  change (ast_size t + sum_list (map ast_size todo) <= S fuel) in Hf.
  rewrite ast_size_children in Hf.
  assert (forall l1 l2 : list nat, sum_list (l1 ++ l2) = sum_list l1 + sum_list l2) as Happ.
  { induction l1 as [|x l1 IHl]; intros l2; cbn; [done|]. rewrite IHl. lia. }
  rewrite elem_of_cons, IH by (rewrite map_app, Happ; lia).
  setoid_rewrite elem_of_app. setoid_rewrite elem_of_cons. split.
  - intros [->|(tree & [Ht|Ht] & Ho)]; [by exists t; split; [left|constructor]|by exists tree; split; [right|]|].
    exists t. split; [by left|by econstructor].
  - intros (tree & [->|Ht] & Ho); [|right; exists tree; tauto].
    apply occurs_children in Ho as [->|(c & Hc & Ho)]; [by left|]. right. exists c. tauto.
Qed.

Lemma ast_walk_occurs n tree : n ∈ ast_walk tree <-> occurs n tree.
Proof.
  unfold ast_walk. rewrite walk_from_occurs by (change (ast_size tree + 0 <= ast_size tree); lia).
  setoid_rewrite list_elem_of_singleton. naive_solver.
Qed.

Lemma first_forbidden_some nodes id :
  first_forbidden nodes = Some id -> exists n, n ∈ nodes /\ forbidden_call n = Some id.
Proof.
  induction nodes as [|n nodes IH]; cbn; [done|]. destruct (forbidden_call n) as [id'|] eqn:Hn.
  - intros [= ->]. exists n. split; [by left|done].
  - intros (m & Hm & Hf)%IH. exists m. split; [by right|done].
Qed.

Lemma first_forbidden_none nodes n : first_forbidden nodes = None -> n ∈ nodes -> forbidden_call n = None.
Proof.
  induction nodes as [|m nodes IH]; cbn; [set_solver|]. destruct (forbidden_call m) eqn:Hm; [done|].
  intros Hf [->|Hin]%elem_of_cons; auto.
Qed.

Section Validation.
Context `{Interpreter}.

(** C38: a script is accepted exactly when it parses and no call in it, at any
    depth, names one of the forbidden builtins; a refusal for such a call names
    one that is there. *)
Theorem validate_script_spec script_content :
  ((validate_script script_content).1 = true
   <-> exists tree, ast_parse script_content = Ok tree
         /\ forall id args, occurs (Call (Name id) args) tree -> id ∉ forbidden_operations)
  /\ (forall tree, ast_parse script_content = Ok tree -> (validate_script script_content).1 = false ->
      exists id args, occurs (Call (Name id) args) tree /\ id ∈ forbidden_operations
        /\ (validate_script script_content).2 = "Forbidden operation: " ++ id ++ "()").
Proof.
  assert (forall id, existsb (str_eqb id) forbidden_operations = true <-> id ∈ forbidden_operations) as Hin.
  { intros id. rewrite existsb_exists, list_elem_of_In. split.
    - intros (x & Hx & He). unfold str_eqb in He. apply bool_decide_eq_true in He. by subst.
    - intros Hx. exists id. split; [done|]. by apply bool_decide_eq_true. }
  unfold validate_script. destruct (ast_parse script_content) as [tree|e]; cbn.
  2: { split; [|done]. destruct (exn_cls e); cbn; naive_solver. }
  destruct (first_forbidden (ast_walk tree)) as [id|] eqn:Hf; cbn.
  - apply first_forbidden_some in Hf as (n & Hn & Hid). rewrite ast_walk_occurs in Hn.
    destruct n as [[|id'|] args| |]; try done. cbn [forbidden_call] in Hid.
    destruct (existsb (str_eqb id') forbidden_operations) eqn:He; [|done]. injection Hid as ->. apply Hin in He.
    split.
    + split; [done|]. intros (tree' & [= <-] & Hno). by destruct (Hno _ _ Hn).
    + intros tree' [= <-] _. by exists id, args.
  - split; [|done]. split; [|done]. intros _. exists tree. split; [done|]. intros id args Hocc Hid.
    rewrite <-ast_walk_occurs in Hocc. pose proof (first_forbidden_none _ _ Hf Hocc) as Hn.
    cbn [forbidden_call] in Hn.
    apply Hin in Hid. by rewrite Hid in Hn.
Qed.
End Validation.

(** ** Frames and events *)

Section Frames.
Context `{Env, Settings, Machine, Interpreter}.

(** What a run may do: hand files to the script user, when the enclave is root;
    and start processes as that user, in no other group, when it is, and as the
    enclave's own user when it is not. *)
Definition as_script_user (ev : event) : Prop :=
  match ev with
  | EvChown _ uid gid | EvLchown _ uid gid =>
      cr_uid own_creds = 0%Z /\ uid = SCRIPT_UID settings /\ gid = SCRIPT_GID settings
  | EvScript _ _ _ uid gid groups =>
      (cr_uid own_creds = 0%Z /\ uid = SCRIPT_UID settings /\ gid = SCRIPT_GID settings /\ groups = [])
      \/ (cr_uid own_creds <> 0%Z /\ Creds uid gid groups = own_creds)
  | _ => False
  end.

Lemma drop_privileges_root gid groups :
  _drop_privileges (Creds 0 gid groups) = Ok (Creds (SCRIPT_UID settings) (SCRIPT_GID settings) []).
Proof. done. Qed.

#[export] Instance keeps_in_tmp {B} (f : world -> B) dir g :
  (forall n, TCEq (fun w => f (set_tmp (insert dir n) w)) f) -> Keeps f (in_tmp dir g).
Proof. intros Hf. unfold in_tmp. apply _. Qed.
#[export] Instance keeps_tmp_tree {B} (f : world -> B) dir : Keeps f (tmp_tree dir).
Proof. unfold tmp_tree. apply _. Qed.

#[export] Instance keeps_with_tempdir {B A} (f : world -> B) (body : str -> IO A) :
  TCEq (fun w => f (drawn w)) f ->
  (forall g, TCEq (fun w => f (set_tmp g w)) f) ->
  (forall d, Keeps f (body d)) -> Keeps f (with_tempdir body).
Proof. intros Hd Ht Hb. unfold with_tempdir. apply _. Qed.

#[export] Instance emits_with_tempdir {A} P (body : str -> IO A) :
  (forall d, Emits P (body d)) -> Emits P (with_tempdir body).
Proof. intros Hb. unfold with_tempdir. apply _. Qed.

#[export] Instance keeps_safe_extract_zip {B} (f : world -> B) bundle dest :
  (forall n, TCEq (fun w => f (set_tmp (insert dest n) w)) f) -> Keeps f (_safe_extract_zip bundle dest).
Proof. intros Hf. unfold _safe_extract_zip. apply _. Qed.

#[export] Instance keeps_chown_all {B} (f : world -> B) paths :
  (forall ev, TCEq (fun w => f (traced ev w)) f) -> Keeps f (chown_all paths).
Proof. intros Hf. unfold chown_all, emit. induction paths; apply _. Qed.

#[export] Instance keeps_as_script_user {B} (f : world -> B) path tree :
  (forall ev, TCEq (fun w => f (traced ev w)) f) -> Keeps f (_as_script_user path tree).
Proof. intros Hf. unfold _as_script_user. apply _. Qed.

#[export] Instance keeps_subprocess_run {B} (f : world -> B) argv cwd env preexec :
  (forall ev, TCEq (fun w => f (traced ev w)) f) -> Keeps f (subprocess_run argv cwd env preexec).
Proof. intros Hf. unfold subprocess_run, emit. apply _. Qed.

Lemma emits_chown_all paths : cr_uid own_creds = 0%Z -> Emits as_script_user (chown_all paths).
Proof. intros Hr. induction paths; cbn; [apply _|]. apply (steps_bind (adds as_script_user)); [by apply emits_emit|done]. Qed.

#[export] Instance keeps_start {B} (f : world -> B) id sid :
  TCEq (fun w => f (tick w)) f -> (forall i, TCEq (fun w => f (set_execs (insert id i) w)) f) ->
  Keeps f (_start_execution_monitoring id sid).
Proof. intros Ht Hi. unfold _start_execution_monitoring. apply _. Qed.
#[export] Instance keeps_stop {B} (f : world -> B) id :
  TCEq (fun w => f (tick w)) f -> (forall i, TCEq (fun w => f (set_execs (insert id i) w)) f) ->
  Keeps f (_stop_execution_monitoring id).
Proof. intros Ht Hi. unfold _stop_execution_monitoring. apply _. Qed.
End Frames.

(** ** What a run may do to the machine *)

Section Privileges.
Context `{Env, Settings, Machine, Interpreter}.

Ltac emits_bind := apply (steps_bind (adds as_script_user)); [first [apply _|by apply emits_emit]|].
Ltac emits_finally := apply (steps_finally (adds as_script_user)).
Ltac emits_try := apply (steps_try (adds as_script_user)).

#[local] Instance emits_as_script_user path tree : Emits as_script_user (_as_script_user path tree).
Proof.
  unfold _as_script_user. destruct (Z.eqb_spec (cr_uid own_creds) 0) as [Hr|]; cbn [negb]; [|apply _].
  emits_bind. intros _. apply (steps_bind (adds as_script_user)); [by apply emits_chown_all|intros _; apply _].
Qed.

(** The [preexec_fn] is there exactly for a root enclave. *)
Lemma emits_as_user {A} path tree (k : bool -> IO A) :
  Emits as_script_user (k (cr_uid own_creds =? 0)%Z) -> Emits as_script_user (preexec ← _as_script_user path tree; k preexec).
Proof.
  intros Hk w. destruct (emits_as_script_user path tree w) as (l & Hl & HP). rewrite run_bind.
  assert (match (_as_script_user path tree w).1 with Ok b => b = (cr_uid own_creds =? 0)%Z | Raise _ => True end) as Hb.
  { unfold _as_script_user. destruct (cr_uid own_creds =? 0)%Z; cbn [negb]; [|done]. st_run.
    destruct (emit _ w) as [[[]|e] w1]; st_run; [|done]. by destruct (chown_all _ w1) as [[[]|e] w2]. }
  destruct (_as_script_user path tree w) as [[b|e] w1]; cbn [fst snd] in *; [|by exists l]. subst b.
  destruct (Hk w1) as (l' & Hl' & HP'). exists (l' ++ l). rewrite Hl', Hl, app_assoc. split; [done|by apply Forall_app].
Qed.

(** The credentials of the child. *)
#[local] Instance emits_subprocess_run argv cwd env :
  Emits as_script_user (subprocess_run argv cwd env (cr_uid own_creds =? 0)%Z).
Proof.
  unfold subprocess_run. intros w. rewrite run_bind, run_lift.
  assert (exists c, (if (cr_uid own_creds =? 0)%Z then
     match _drop_privileges own_creds with
     | Ok c => Ok c
     | Raise _ => raise (Exn SubprocessError "Exception occurred in preexec_fn.")
     end else Ok own_creds) = Ok c
    /\ as_script_user (EvScript argv cwd env (cr_uid c) (cr_gid c) (cr_groups c))) as (c & -> & Hc).
  { destruct (Z.eqb_spec (cr_uid own_creds) 0) as [Hr|Hr].
    - exists (Creds (SCRIPT_UID settings) (SCRIPT_GID settings) []). split; [|by left].
      destruct own_creds as [u g gs]. cbn in Hr. by subst u.
    - exists own_creds. split; [done|]. right. split; [done|]. by destruct own_creds. }
  revert w. change (Emits as_script_user (n ← st_gets (fun w => length (w_trace w));
     _ ← emit (EvScript argv cwd env (cr_uid c) (cr_gid c) (cr_groups c));
     '(returncode, stdout, stderr) ← st_lift (run_script n argv cwd env);
     stdout ← st_lift (text_of stdout);
     stderr ← st_lift (text_of stderr);
     mret (returncode, stdout, stderr))).
  emits_bind. intros n. emits_bind; apply _.
Qed.

#[local] Instance emits_copy_data dir files : Emits as_script_user (copy_data dir files).
Proof. induction files; cbn; apply _. Qed.

#[local] Instance emits_run_target id sid dir target : Emits as_script_user (run_target id sid dir target).
Proof.
  unfold run_target. do 3 (emits_bind; intros _). emits_finally; [|apply _].
  emits_bind. intros _. emits_bind. intros tree. apply emits_as_user. apply _.
Qed.

#[local] Instance emits_bundle_body id bundle sid script_path csv dir :
  Emits as_script_user (bundle_body id bundle sid script_path csv dir).
Proof. unfold bundle_body, inject_csv. apply _. Qed.

(** C19: what a run may do to the machine.  When the enclave is root, the only
    processes it starts for a request run as the script user, in its group and
    no other, and the only files whose owner it changes go to that user.  When
    it is not root, as outside a deployment, scripts run with the enclave's own
    credentials and no owner changes. *)
Theorem scripts_run_unprivileged :
  (forall bundle sid script_path csv, Emits as_script_user (execute_bundle bundle sid script_path csv))
  /\ (forall content sid, Emits as_script_user (execute_script content sid))
  /\ (forall content files sid format, Emits as_script_user (execute_with_data content files sid format)).
Proof.
  split_and!.
  - intros. unfold execute_bundle. apply _.
  - intros. unfold execute_script. emits_bind. intros now. emits_finally; [|apply _]. emits_try; [|apply _].
    destruct (validate_script content) as [ok msg]. destruct ok; [|apply _]. cbn [negb].
    emits_bind. intros _. unfold write_script. emits_bind. intros path.
    emits_finally; [|unfold end_script; apply _]. apply emits_as_user. apply _.
  - intros. unfold execute_with_data. emits_try; [|apply _]. destruct (negb _); [apply _|].
    apply emits_with_tempdir. intros dir. emits_bind. intros _. emits_bind. intros b.
    emits_bind. intros _. emits_bind. intros tree. apply emits_as_user. apply _.
Qed.
End Privileges.

(** ** What a bundle leaves behind *)

(** Only the execution [id] is touched, and it is not left running. *)
Definition settles (id : str) : relation world := fun w w' =>
  (forall k, k <> id -> w_execs w' !! k = w_execs w !! k)
  /\ (w_execs w' !! id = w_execs w !! id
      \/ exists i, w_execs w' !! id = Some i /\ ei_status i = "completed").

#[export] Instance settles_preorder id : PreOrder (settles id).
Proof.
  split.
  - intros w. split; [done|by left].
  - intros w1 w2 w3 [Ho1 Hs1] [Ho2 Hs2]. split; [intros k Hk; by rewrite Ho2, Ho1|].
    destruct Hs2 as [->|Hs2]; [done|by right].
Qed.

#[export] Instance settles_keeps id {A} (m : IO A) : Keeps w_execs m -> Steps (settles id) m | 50.
Proof. intros Hm w. split; [intros k _; by rewrite Hm|]. left. by rewrite Hm. Qed.

(** No file but those of [dir] changes. *)
Definition tmp_but (dir : str) (w : world) : gmap str node := delete dir (w_tmp w).

#[export] Instance tmp_but_in_tmp dir g : Keeps (tmp_but dir) (in_tmp dir g).
Proof.
  unfold in_tmp. apply keeps_mbind; [apply _|]. intros n. apply keeps_mbind; [apply _|]. intros n' w.
  unfold tmp_but. cbn. by rewrite delete_insert_eq.
Qed.

#[export] Instance tmp_but_on_tree dir ops : Keeps (tmp_but dir) (on_tree dir ops).
Proof.
  unfold on_tree. apply keeps_mbind; [apply _|]. intros [n|]; [|apply _]. apply keeps_mbind; [|apply _].
  intros w. unfold tmp_but. cbn. by rewrite delete_insert_eq.
Qed.

#[export] Instance tmp_but_keeps dir {A} (m : IO A) : Keeps w_tmp m -> Keeps (tmp_but dir) m | 50.
Proof. intros Hm w. unfold tmp_but. by rewrite Hm. Qed.

Section Bundle.
Context `{Env, Settings, Machine, Interpreter}.

Lemma monitored_settles {A} id sid (m : IO A) :
  Keeps w_execs m ->
  Steps (settles id) (_ ← _start_execution_monitoring id sid; st_finally m (_stop_execution_monitoring id)).
Proof.
  intros Hm w. unfold _start_execution_monitoring, _stop_execution_monitoring. st_run.
  set (w1 := set_execs _ _). specialize (Hm w1). destruct (m w1) as [r w2]. cbn [fst snd] in *. st_run.
  assert (w_execs w2 = <[id := ExecInfo sid (clock (w_ticks w)) "running" None None]> (w_execs w)) as E2 by (by rewrite Hm).
  rewrite E2, lookup_insert_eq. st_run. split.
  - intros k Hk. cbn. by rewrite lookup_insert_ne, E2, lookup_insert_ne.
  - right. eexists. cbn. by rewrite lookup_insert_eq.
Qed.

#[local] Instance run_target_settles id sid dir target : Steps (settles id) (run_target id sid dir target).
Proof.
  unfold run_target. do 2 (apply (steps_bind (settles id)); [apply _|]; intros _).
  apply monitored_settles. apply _.
Qed.

#[local] Instance bundle_body_settles id bundle sid script_path csv dir :
  Steps (settles id) (bundle_body id bundle sid script_path csv dir).
Proof. unfold bundle_body, inject_csv. apply _. Qed.

#[local] Instance bundle_body_tmp id bundle sid script_path csv dir :
  Keeps (tmp_but dir) (bundle_body id bundle sid script_path csv dir).
Proof. unfold bundle_body, inject_csv, run_target, _safe_extract_zip. apply _. Qed.

#[export] Instance execute_bundle_sessions bundle sid script_path csv :
  Keeps w_sessions (execute_bundle bundle sid script_path csv).
Proof. unfold execute_bundle, bundle_body, inject_csv, run_target. apply _. Qed.

#[export] Instance execute_bundle_files bundle sid script_path csv :
  Keeps w_files (execute_bundle bundle sid script_path csv).
Proof. unfold execute_bundle, bundle_body, inject_csv, run_target. apply _. Qed.

Lemma with_tempdir_settles {A} id (body : str -> IO A) :
  (forall d, Steps (settles id) (body d)) -> Steps (settles id) (with_tempdir body).
Proof. intros Hb. unfold with_tempdir. apply _. Qed.

Lemma cleanup_run n w :
  cleanup n w = match w_tmp w !! mkdtemp n with
                | None => (Ok tt, w)
                | Some _ => match rmtree n with
                            | None => (Ok tt, set_tmp (delete (mkdtemp n)) w)
                            | Some (error, rest) => (Raise error, set_tmp (insert (mkdtemp n) rest) w)
                            end
                end.
Proof. unfold cleanup. st_run. destruct (w_tmp w !! mkdtemp n); [|done]. by destruct (rmtree n) as [[error rest]|]. Qed.

(** The [n]-th temporary directory is gone, or its removal has failed. *)
Definition tidied (n : nat) (w w' : world) (ok : bool) : Prop :=
  w_tmp w' = delete (mkdtemp n) (w_tmp w)
  \/ exists error rest, rmtree n = Some (error, rest) /\ ok = false
       /\ w_tmp w' = <[mkdtemp n := rest]> (w_tmp w).

Lemma with_tempdir_tmp {A} (body : str -> IO A) w :
  (forall d, Keeps (tmp_but d) (body d)) ->
  let r := with_tempdir body w in tidied (w_draws w) w r.2 (is_ok r.1).
Proof.
  intros Hb. cbn zeta. unfold with_tempdir. st_run. set (d := mkdtemp _). set (w1 := set_tmp _ _).
  specialize (Hb d w1). destruct (body d w1) as [r w2]. cbn [fst snd] in *. unfold tmp_but in Hb.
  assert (delete d (w_tmp w2) = delete d (w_tmp w)) as Hd by (rewrite Hb; unfold w1; cbn; by rewrite delete_insert_eq).
  rewrite cleanup_run. fold d. unfold tidied. fold d. destruct (w_tmp w2 !! d) eqn:Ht; cbn [fst snd].
  - destruct (rmtree _) as [[error rest]|]; cbn [fst snd is_ok]; [|left; exact Hd].
    right. exists error, rest. split_and!; [done..|]. cbn. by rewrite <-(insert_delete_eq (w_tmp w2)), Hd, insert_delete_eq.
  - left. by rewrite <-Hd, delete_id.
Qed.

Lemma settled_ok {A} (r : result fs_error A) He a : settled r He = Ok a -> r = Ok a.
Proof. destruct r as [a'|[|msg|]]; cbn; [congruence|done|done|by destruct (He eq_refl)]. Qed.

(** A failure comes with no file. *)
Definition no_files_on_failure (r : bool * str * list output_file) : Prop := r.1.1 = false -> r.2 = [].

Lemma bundle_result_no_files n dir result : no_files_on_failure (bundle_result n dir result).
Proof.
  unfold bundle_result. destruct result as [[returncode stdout] stderr].
  destruct (returncode =? 0)%Z; [|done]. by destruct (collect n dir).
Qed.

Lemma bundle_body_returns id bundle sid script_path csv dir :
  returns_in no_files_on_failure (bundle_body id bundle sid script_path csv dir).
Proof.
  unfold bundle_body. do 2 (apply returns_bind; intros ?). destruct a0; [by apply returns_ret|].
  do 4 (apply returns_bind; intros ?). destruct a3 as [target|]; [|by apply returns_ret].
  apply returns_bind. intros content. destruct (validate_script content) as [ok msg].
  destruct ok; cbn [negb]; [|by apply returns_ret]. apply returns_bind. intros _. unfold run_target.
  do 3 (apply returns_bind; intros _).
  apply returns_finally. do 6 (apply returns_bind; intros ?). apply returns_ret, bundle_result_no_files.
Qed.

Lemma bundle_body_no_files id bundle sid script_path csv w output files w' :
  with_tempdir (bundle_body id bundle sid script_path csv) w = (Ok (false, output, files), w') -> files = [].
Proof.
  intros E.
  assert (returns_in no_files_on_failure (with_tempdir (bundle_body id bundle sid script_path csv))) as Hr.
  { unfold with_tempdir. do 3 (apply returns_bind; intros ?). apply returns_finally, bundle_body_returns. }
  specialize (Hr w). rewrite E in Hr. by apply Hr.
Qed.

Definition bundle_id (sid : json) (w : world) : str :=
  "bundle_" ++ fmt sid ++ "_" ++ str_of_Z (seconds (clock (w_ticks w))).

(** A successful run of the target: the script's event and status, the output
    made of what it printed, and the files collected after it. *)
Definition ran (argv : list str) (temp_dir : str) (n : nat) (output : str) (files : list output_file)
    (w' : world) : Prop :=
  exists out err stdout stderr c,
    run_script n argv temp_dir (bundle_env temp_dir) = Ok (0%Z, out, err)
    /\ text_of out = Ok stdout /\ text_of err = Ok stderr
    /\ output = stdout ++ match stderr with
                          | [] => []
                          | _ => newline ++ "--- STDERR ---" ++ newline ++ stderr
                          end
    /\ collect n (path_join temp_dir "outputs") = Ok files
    /\ EvScript argv temp_dir (bundle_env temp_dir) (cr_uid c) (cr_gid c) (cr_groups c) ∈ w_trace w'
    /\ (cr_uid own_creds = 0%Z -> c = Creds (SCRIPT_UID settings) (SCRIPT_GID settings) [])
    /\ (cr_uid own_creds <> 0%Z -> c = own_creds).

Lemma ran_trace argv dir n output files w w' :
  ran argv dir n output files w -> w_trace w ⊆ w_trace w' -> ran argv dir n output files w'.
Proof.
  intros (out & err & stdout & stderr & c & ? & ? & ? & ? & ? & Hin & ?) Hsub.
  exists out, err, stdout, stderr, c. split_and!; try done; [by apply Hsub|tauto..].
Qed.

Lemma as_script_user_ok path tree w b w' :
  _as_script_user path tree w = (Ok b, w') -> b = (cr_uid own_creds =? 0)%Z.
Proof.
  unfold _as_script_user. destruct (cr_uid own_creds =? 0)%Z; cbn [negb].
  - intros E. do 2 apply bind_ok in E as (? & ? & _ & E). by apply ret_ok in E as [<- _].
  - intros E. by apply ret_ok in E as [<- _].
Qed.

Lemma subprocess_run_ok argv cwd env w rc stdout stderr w' :
  subprocess_run argv cwd env (cr_uid own_creds =? 0)%Z w = (Ok (rc, stdout, stderr), w') ->
  exists out err c, run_script (length (w_trace w)) argv cwd env = Ok (rc, out, err)
    /\ text_of out = Ok stdout /\ text_of err = Ok stderr
    /\ w' = traced (EvScript argv cwd env (cr_uid c) (cr_gid c) (cr_groups c)) w
    /\ (cr_uid own_creds = 0%Z -> c = Creds (SCRIPT_UID settings) (SCRIPT_GID settings) [])
    /\ (cr_uid own_creds <> 0%Z -> c = own_creds).
Proof.
  unfold subprocess_run. intros E. apply lift_ok in E as (c & Hc & E).
  unfold emit in E. revert E. st_run. destruct (run_script _ _ _ _) as [[[rc' out] err]|e] eqn:Hr; [|done]. st_run.
  destruct (text_of out) as [o|] eqn:Ho; [|done]. destruct (text_of err) as [e|] eqn:He; [|done]. st_run.
  intros [= -> -> -> <-]. exists out, err, c. split_and!; try done.
  - intros Hu. destruct own_creds as [u g gs]. cbn in Hu. subst u. cbn in Hc. by injection Hc as <-.
  - intros Hu. apply Z.eqb_neq in Hu. rewrite Hu in Hc. by injection Hc as <-.
Qed.

Lemma run_target_ok id sid dir target w output files w' :
  run_target id sid dir target w = (Ok (true, output, files), w') ->
  exists n, ran [sys_executable; target] dir n output files w'.
Proof.
  intros E. do 3 apply bind_ok in E as (? & ? & _ & E).
  apply finally_ok in E as (w1 & E & Hstop). apply time_ok in E.
  apply bind_ok in E as (tree & w2 & _ & E). apply bind_ok in E as (b & w3 & Hb & E).
  apply as_script_user_ok in Hb as ->. apply bind_ok in E as (n & w4 & Hn & E). injection Hn as <- <-.
  apply bind_ok in E as ([[rc stdout] stderr] & w5 & Hrun & E).
  apply subprocess_run_ok in Hrun as (out & err & c & Hr & Ho & He & -> & Hroot & Hown).
  apply time_ok in E. apply ret_ok in E as [E <-]. unfold bundle_result in E.
  destruct (Z.eqb_spec rc 0) as [->|]; [|done].
  destruct (collect _ _) as [fs|e] eqn:Hc; [|done].
  injection E as <- <-. exists (length (w_trace w3)), out, err, stdout, stderr, c. split_and!; try done.
  match type of Hstop with ?m ?w = _ => pose proof (keeps (f := w_trace) (m := m) w) as Hk end.
  rewrite Hstop in Hk. cbn in Hk. rewrite Hk. by left.
Qed.

(** From the archive to the script that is run. *)
Definition script_of (bundle : bytes) (script_path : option str) (csv : option bytes) (dir target content : str) : Prop :=
  exists entries extracted_tree tree b,
    zip_infolist bundle = Ok entries
    /\ (Z.of_nat (length entries) <= MAX_ZIP_ENTRIES settings)%Z
    /\ (declared_size entries <= MAX_ZIP_TOTAL_SIZE settings)%Z
    /\ extracted entries true extracted_tree
    /\ match given_csv csv with
       | Some c => write_file ["generated"; "data.csv"] c extracted_tree = Ok tree
       | None => tree = extracted_tree
       end
    /\ _find_script dir tree script_path = Ok (Some target)
    /\ read_path dir tree target = Ok b /\ text_of b = Ok content.

Lemma tmp_tree_ok dir w n w' : tmp_tree dir w = (Ok n, w') -> w_tmp w !! dir = Some n /\ w' = w.
Proof. unfold tmp_tree. st_run. destruct (w_tmp w !! dir); [|done]. by intros [= -> <-]. Qed.

Lemma in_tmp_ok dir g w w' n :
  w_tmp w !! dir = Some n -> in_tmp dir g w = (Ok tt, w') -> exists n', g n = Ok n' /\ w_tmp w' !! dir = Some n'.
Proof.
  intros Hn. unfold in_tmp. st_run. rewrite Hn. destruct (g n) as [n'|]; [|done]. intros [= <-].
  exists n'. split; [done|]. cbn. by rewrite lookup_insert_eq.
Qed.

Lemma inject_csv_ok dir csv w w' n :
  w_tmp w !! dir = Some n -> inject_csv dir csv w = (Ok tt, w') ->
  exists n', w_tmp w' !! dir = Some n' /\ match given_csv csv with
                                          | Some c => write_file ["generated"; "data.csv"] c n = Ok n'
                                          | None => n' = n
                                          end.
Proof.
  intros Hn. unfold inject_csv. destruct (given_csv csv) as [c|].
  - intros E. destruct (in_tmp_ok _ _ _ _ _ Hn E) as (n' & Hw & Hl). by exists n'.
  - intros E. apply ret_ok in E as [_ <-]. by exists n.
Qed.

Lemma bundle_body_ok id bundle sid script_path csv dir w output files w' :
  w_tmp w !! dir = Some (Dir []) ->
  bundle_body id bundle sid script_path csv dir w = (Ok (true, output, files), w') ->
  exists target content n, script_of bundle script_path csv dir target content
    /\ (validate_script content).1 = true
    /\ ran [sys_executable; target] dir n output files w'.
Proof.
  intros Hd E. apply time_ok in E. apply bind_ok in E as (err & w1 & Hx & E).
  apply safe_extract_zip_cases in Hx; [|done]. destruct err as [err|]; [by apply ret_ok in E as [E _]|].
  destruct Hx as (entries & outcome & tree0 & Hz & Hn & Hs & _ & _ & _ & -> & Hx). apply time_ok in E.
  apply bind_ok in E as ([] & w2 & Hcsv & E).
  eapply inject_csv_ok in Hcsv as (tree & Ht & Hcsv); [|by cbn; rewrite lookup_insert_eq].
  apply bind_ok in E as (tree' & w3 & Htree & E). apply tmp_tree_ok in Htree as [Htree ->].
  assert (tree' = tree) as -> by congruence. apply lift_ok in E as (target & Hf & E).
  destruct target as [target|]; [|by apply ret_ok in E as [E _]].
  apply lift_ok in E as (content & Hc & E). apply result_bind_ok in Hc as (b & Hb & Hc).
  destruct (validate_script content) as [ok msg] eqn:Hv.
  destruct ok; cbn [negb] in E; [|by apply ret_ok in E as [E _]].
  apply bind_ok in E as (? & ? & Hp & E). apply ret_ok in Hp as [_ <-].
  apply run_target_ok in E as (n & Hran). exists target, content, n. split_and!; [|by rewrite Hv|done].
  exists entries, tree0, tree, b. by split_and!.
Qed.

Lemma with_tempdir_ok {A} (body : str -> IO A) w r w' :
  with_tempdir body w = (Ok r, w') ->
  let dir := mkdtemp (w_draws w) in
  exists w0 w1, w_tmp w0 !! dir = Some (Dir []) /\ body dir w0 = (Ok r, w1) /\ w_trace w' = w_trace w1.
Proof.
  unfold with_tempdir. intros E. apply bind_ok in E as (n & w1 & Hn & E). injection Hn as <- <-.
  do 2 (apply bind_ok in E as (? & ? & Hm & E); injection Hm as _ <-).
  apply finally_ok in E as (w2 & E & Hg). eexists _, w2. split_and!; [|exact E|].
  { cbn. by rewrite lookup_insert_eq. }
  pose proof (keeps (f := w_trace) (m := cleanup (w_draws w)) w2) as Hk. by rewrite Hg in Hk.
Qed.
End Bundle.

Section BundleProperties.
Context `{Env, Settings, Machine, Interpreter}.

End BundleProperties.

Section RunProperties.
Context `{Env, Settings, Machine, Interpreter}.

Lemma execute_bundle_ok bundle sid script_path csv w output files w' :
  execute_bundle bundle sid script_path csv w = (Ok (true, output, files), w') ->
  exists target content n w1,
    script_of bundle script_path csv (mkdtemp (w_draws w)) target content
    /\ (validate_script content).1 = true
    /\ ran [sys_executable; target] (mkdtemp (w_draws w)) n output files w1 /\ w_trace w1 = w_trace w'.
Proof.
  intros E. unfold execute_bundle in E. apply time_ok in E.
  apply catch_ok in E as [E|(e & w1 & _ & E)]; [|apply ret_ok in E as [E _]; by destruct (exn_cls e)].
  apply with_tempdir_ok in E as (w0 & w1 & Hd & E & Htr).
  apply bundle_body_ok in E as (target & content & n & Hs & Hv & Hran); [|done].
  by exists target, content, n, w1.
Qed.

(** C7: what a success of [execute_bundle] means.  The archive was within its
    limits and extracted, the script was found in what it contained with the
    dataset in place, was accepted by the validation, and ran to exit status 0
    as the right user; the output is what it printed, and the files are those
    collected from its output directory, within the limits, sorted, under valid
    names, each read from its start to its end from one regular file. *)
Theorem execute_bundle_success bundle sid script_path csv w output files w' :
  (0 <= MAX_OUTPUT_FILES settings)%Z -> (0 <= MAX_OUTPUT_FILES_MB settings)%Z ->
  execute_bundle bundle sid script_path csv w = (Ok (true, output, files), w') ->
  let dir := mkdtemp (w_draws w) in
  exists target content n,
    script_of bundle script_path csv dir target content
    /\ (validate_script content).1 = true
    /\ ran [sys_executable; target] dir n output files w'
    /\ (Z.of_nat (length files) <= MAX_OUTPUT_FILES settings)%Z
    /\ (total_size files <= MAX_OUTPUT_FILES_MB settings * 1024 * 1024)%Z
    /\ StronglySorted (key_le str_leb of_name) files
    /\ Forall (collected (outputs_view n) ) files.
Proof.
  intros Hmf Hmb E. apply execute_bundle_ok in E as (target & content & n & w1 & Hs & Hv & Hran & Htr).
  exists target, content, n. split; [exact Hs|]. split; [done|].
  destruct Hran as (out & err & stdout & stderr & c & Hr & Ho & He & Hout & Hc & Hin & Hc1 & Hc2).
  split; [exists out, err, stdout, stderr, c; rewrite <-Htr; by split_and!|].
  apply settled_ok in Hc.
  assert (0 <= MAX_OUTPUT_FILES_MB settings * 1024 * 1024)%Z as Hmb' by lia.
  destruct (collect_steady (outputs_view n) (path_join (mkdtemp (w_draws w)) "outputs") (outputs_steps n) _ _
              Hmf Hmb' (FState 0 ∅) ltac:(by intros ? ?)) as (_ & HQ).
  rewrite Hc in HQ. apply HQ.
Qed.

Definition script_id (sid : str) (w : world) : str :=
  "exec_" ++ sid ++ "_" ++ str_of_Z (seconds (clock (w_ticks w))).

#[local] Instance keeps_write_script {B} (f : world -> B) content :
  TCEq (fun w => f (drawn w)) f -> (forall g, TCEq (fun w => f (set_files g w)) f) ->
  Keeps f (write_script content).
Proof. intros Hd Hg. unfold write_script. apply _. Qed.

#[export] Instance execute_script_sessions content sid : Keeps w_sessions (execute_script content sid).
Proof. unfold execute_script, end_script, cleanup_execution_environment. apply _. Qed.
#[export] Instance execute_script_tmp content sid : Keeps w_tmp (execute_script content sid).
Proof. unfold execute_script, end_script, cleanup_execution_environment. apply _. Qed.

(** Only the execution [id] is touched. *)
Definition only_exec (id : str) : relation world := fun w w' =>
  forall k, k <> id -> w_execs w' !! k = w_execs w !! k.

#[local] Instance only_exec_preorder id : PreOrder (only_exec id).
Proof. split; [by intros w k|]. intros w1 w2 w3 E1 E2 k Hk. by rewrite E2, E1. Qed.

#[local] Instance only_exec_keeps id {A} (m : IO A) : Keeps w_execs m -> Steps (only_exec id) m | 50.
Proof. intros Hm w k _. by rewrite Hm. Qed.

#[local] Instance only_exec_start id sid : Steps (only_exec id) (_start_execution_monitoring id sid).
Proof. intros w k Hk. apply lookup_insert_ne. congruence. Qed.

#[local] Instance only_exec_stop id : Steps (only_exec id) (_stop_execution_monitoring id).
Proof.
  intros w k Hk. unfold _stop_execution_monitoring. st_run. destruct (w_execs w !! id); [|done].
  st_run. apply lookup_insert_ne. congruence.
Qed.

(** The run of a validated script, and its clean-up. *)
Definition script_body (id sid content : str) : IO (bool * str) :=
  _ ← _start_execution_monitoring id (JStr sid);
  script_path ← write_script content;
  st_finally
    (preexec ← _as_script_user script_path (Reg []);
     result ← subprocess_run [sys_executable; script_path] gettempdir [] preexec;
     mret (script_result result))
    (end_script id script_path).

#[local] Instance script_body_only id sid content : Steps (only_exec id) (script_body id sid content).
Proof. unfold script_body, end_script. apply _. Qed.

Lemma write_script_run content b w :
  str_encode content = Ok b ->
  exists w1, write_script content w = (Ok (mkstemp_py (w_draws w)), w1)
    /\ forall p, p = mkstemp_py (w_draws w) -> delete p (w_files w1) = delete p (w_files w).
Proof.
  intros Hb. unfold write_script. st_run. rewrite Hb. st_run. eexists. split; [done|]. intros p ->. cbn.
  by rewrite !delete_insert_eq.
Qed.

Lemma end_script_files {A} (m : IO A) id path w :
  Keeps w_files m -> w_files (st_finally m (end_script id path) w).2 = delete path (w_files w).
Proof.
  intros Hm. rewrite run_finally. specialize (Hm w). destruct (m w) as [r w1]. cbn in Hm.
  unfold end_script. rewrite run_bind, run_modify.
  pose proof (keeps (f := w_files) (m := _stop_execution_monitoring id) (set_files (delete path) w1)) as Hs.
  destruct (_stop_execution_monitoring id _) as [[[]|e] w2]; cbn in *; by rewrite Hs, Hm.
Qed.

Lemma script_body_files id sid content b w :
  str_encode content = Ok b ->
  w_files (script_body id sid content w).2 = delete (mkstemp_py (w_draws w)) (w_files w).
Proof.
  intros Hb. unfold script_body. rewrite run_bind.
  pose proof (keeps (f := fun w => (w_files w, w_draws w)) (m := _start_execution_monitoring id (JStr sid)) w) as Hs.
  destruct (_start_execution_monitoring id (JStr sid) w) as [[[]|e] w0] eqn:E0; [|discriminate].
  injection Hs as Hs1 Hs2.
  cbn in Hs1, Hs2. destruct (write_script_run content b w0 Hb) as (w1 & Hw & Hw1).
  rewrite run_bind, Hw, end_script_files by apply _. rewrite Hw1 by done. by rewrite Hs1, Hs2.
Qed.

Lemma script_result_bounded r : (script_result r).1 = true ->
  (Z.of_nat (length (script_result r).2) <= MAX_OUTPUT_SIZE_MB settings * 1024 * 1024)%Z.
Proof.
  unfold script_result. destruct r as [[rc out] err]. case_match eqn:Hlt; [done|]. apply Z.ltb_ge in Hlt.
  destruct (rc =? 0)%Z; cbn [fst snd]; [lia|done].
Qed.

Lemma script_body_bounded id sid content :
  returns_in (fun r => r.1 = true -> (Z.of_nat (length r.2) <= MAX_OUTPUT_SIZE_MB settings * 1024 * 1024)%Z)
    (script_body id sid content).
Proof.
  unfold script_body. do 2 (apply returns_bind; intros ?). apply returns_finally.
  do 2 (apply returns_bind; intros ?). apply returns_ret, script_result_bounded.
Qed.

Definition script_outcome (id sid content : str) : IO (bool * str) :=
  catch
    (let '(is_valid, validation_msg) := validate_script content in
     if negb is_valid then mret (false, "Script validation failed: " ++ validation_msg)
     else script_body id sid content)
    (fun e => mret match exn_cls e with
                   | TimeoutExpired => (false, "Script execution timed out after " ++ timeout_text ++ " seconds")
                   | _ => (false, "Script execution error: " ++ exn_msg e)
                   end).

Lemma script_outcome_files id sid content b w :
  str_encode content = Ok b -> w_files w !! mkstemp_py (w_draws w) = None ->
  w_files (script_outcome id sid content w).2 = w_files w.
Proof.
  intros Hb Hf. unfold script_outcome. rewrite run_try.
  destruct (validate_script content) as [[] msg]; cbn [negb]; [|done].
  pose proof (script_body_files id sid content b w Hb) as Hw. rewrite delete_id in Hw by done.
  by destruct (script_body id sid content w) as [[r|e] w1].
Qed.

Lemma script_outcome_total id sid content :
  total_in (fun r => r.1 = true -> (Z.of_nat (length r.2) <= MAX_OUTPUT_SIZE_MB settings * 1024 * 1024)%Z)
    (script_outcome id sid content).
Proof.
  apply total_catch.
  - destruct (validate_script content) as [[] msg]; cbn [negb]; [apply script_body_bounded|by apply returns_ret].
  - intros e. apply total_ret. by destruct (exn_cls e).
Qed.

(** Running a single script always answers and leaves nothing behind: the
    session keys, the temporary directories and, for a script that can be
    encoded, the files are as before; no execution of the session is registered
    any more, those of the other sessions are as they were; and an accepted
    output is within the limit. *)
Theorem execute_script_contained content sid b w :
  str_encode content = Ok b -> w_files w !! mkstemp_py (w_draws w) = None ->
  exists success output w',
    execute_script content sid w = (Ok (success, output), w')
    /\ w_sessions w' = w_sessions w /\ w_tmp w' = w_tmp w /\ w_files w' = w_files w
    /\ (forall id i, w_execs w' !! id = Some i -> ei_session_id i <> JStr sid)
    /\ (forall id i, id <> script_id sid w -> ei_session_id i <> JStr sid ->
          (w_execs w' !! id = Some i <-> w_execs w !! id = Some i))
    /\ (success = true -> (Z.of_nat (length output) <= MAX_OUTPUT_SIZE_MB settings * 1024 * 1024)%Z).
Proof.
  intros Hb Hf. pose proof (execute_script_sessions content sid w) as Hs.
  pose proof (execute_script_tmp content sid w) as Ht.
  change (execute_script content sid w) with
    (st_finally (script_outcome (script_id sid w) sid content) (_ ← cleanup_execution_environment sid; mret tt) (tick w)) in *.
  rewrite run_finally in *.
  destruct (script_outcome_total (script_id sid w) sid content (tick w)) as ([success output] & w1 & E & Hlen).
  pose proof (script_outcome_files (script_id sid w) sid content b (tick w) Hb Hf) as Hfs.
  assert (Steps (only_exec (script_id sid w)) (script_outcome (script_id sid w) sid content)) as Ho
    by (unfold script_outcome; apply _).
  specialize (Ho (tick w)). rewrite E in *. cbn [fst snd] in *.
  set (P := fun kv : str * exec_info => eq_str (ei_session_id kv.2) sid = false).
  exists success, output, (set_execs (filter P) w1). split_and!; try done.
  - intros id i Hi. apply (map_lookup_filter_Some P) in Hi as [_ Hi]. unfold P in Hi. cbn [snd] in Hi.
    intros Hsid. pose proof (proj2 (eq_str_true (ei_session_id i) sid) Hsid). congruence.
  - intros id i Hid Hsid. change (w_execs (set_execs (filter P) w1)) with (filter P (w_execs w1)).
    rewrite (map_lookup_filter_Some P), (Ho id Hid). change (w_execs (tick w)) with (w_execs w).
    split; [tauto|]. intros Hl. split; [done|]. apply not_true_iff_false. intros Hb'. by apply eq_str_true in Hb'.
Qed.
End RunProperties.

(** ** A concrete interpreter: every script parses, prints [3.2] and leaves no file *)
Module ToyInterpreter.
Definition stdout : bytes := ascii_bytes "3.2".

Definition interpreter : Interpreter := {|
  ast_parse _ := Ok (Node []);
  own_creds := Creds 0 0 [0%Z];
  run_script _ _ _ _ := Ok (0%Z, stdout, []);
  outputs_view _ := static (fun _ => 65535) (Some (Dir []));
  outputs_steps _ := 1;
  outputs_end _ _ _ _ := walk_static_ends _ (Some (Dir [])) _ _ _ (conj eq_refl (le_n 1));
|}.

Definition run : result exn (bool * str * list output_file) * world :=
  @execute_bundle Toy.env default_settings ToyMachine.machine interpreter ToyMachine.script (JStr "s") None None
    empty_world.
End ToyInterpreter.

Lemma execute_bundle_success_witness :
  ToyInterpreter.run.1 = Ok (true, "3.2" : str, [])
  /\ exists content, (@validate_script ToyInterpreter.interpreter content).1 = true.
Proof.
  split; [vm_compute; reflexivity|].
  destruct (@execute_bundle_success Toy.env default_settings ToyMachine.machine ToyInterpreter.interpreter
    ToyMachine.script (JStr "s") None None empty_world "3.2" [] ToyInterpreter.run.2)
    as (target & content & n & _ & Hv & _).
  - vm_compute. discriminate.
  - vm_compute. discriminate.
  - vm_compute. reflexivity.
  - exists content. exact Hv.
Defined.

Lemma execute_script_contained_witness :
  exists success output w',
    @execute_script Toy.env default_settings ToyMachine.machine ToyInterpreter.interpreter "print(1)" "s" empty_world
    = (Ok (success, output), w') /\ w_files w' = ∅.
Proof.
  destruct (@execute_script_contained Toy.env default_settings ToyMachine.machine ToyInterpreter.interpreter
    "print(1)" "s" (ascii_bytes "print(1)") empty_world) as (success & output & w' & E & _ & _ & Hf & _).
  - vm_compute. reflexivity.
  - vm_compute. reflexivity.
  - exists success, output, w'. split; [exact E|exact Hf].
Defined.
