(* ===== verification/BundleTurns.v ===== *)
(** * execute_service_impl.py: a bundle run among other threads

    [execute_bundle] again as a program of a thread, with a turn for each system
    call: making and removing the temporary directory, the extraction, the
    injected CSV file, the directories of the run, its monitoring, and the run. *)
From stdpp Require Import base tactics list gmap strings.
From Stdlib Require Import NArith ZArith Lia.
From S2P Require Import Prelude PyText PyCodec PyJson PyJsonParse World Config OutputFiles Interfaces RequestHandler Programs Threads Bundle ExecuteService.

Section Turns.
Context `{Env, Settings, Machine, Interpreter}.

(** [tempfile.mkdtemp()]: the draw that named the directory. *)
Definition make_tempdir : IO nat :=
  n ← st_gets w_draws;
  _ ← st_modify drawn;
  _ ← st_modify (set_tmp (insert (mkdtemp n) (Dir [])));
  mret n.

Definition tempdir_turns {A} (body : str -> prog A) : prog A :=
  n ← call make_tempdir;
  prog_finally (body (mkdtemp n)) (call (cleanup n)).

(** The run, and the position of its event. *)
Definition run_process (temp_dir target_script : str) (preexec : bool) : IO (nat * (Z * str * str)) :=
  n ← st_gets (fun w => length (w_trace w));
  result ← subprocess_run [sys_executable; target_script] temp_dir (bundle_env temp_dir) preexec;
  mret (n, result).

Definition run_target_turns (execution_id : str) (session_id : json) (temp_dir target_script : str)
    : prog (bool * str * list output_file) :=
  _ ← call (in_tmp temp_dir (make_dirs ["outputs"]));
  _ ← call (in_tmp temp_dir (make_dirs [".mplconfig"]));
  _ ← call (_start_execution_monitoring execution_id session_id);
  prog_finally
    (_ ← call time_time;
     tree ← call (tmp_tree temp_dir);
     preexec ← call (_as_script_user temp_dir tree);
     '(n, result) ← call (run_process temp_dir target_script preexec);
     _ ← call time_time;
     mret (bundle_result n (path_join temp_dir "outputs") result))
    (call (_stop_execution_monitoring execution_id)).

Definition bundle_body_turns (execution_id : str) (bundle_data : bytes) (session_id : json)
    (script_path : option str) (csv_data : option bytes) (temp_dir : str)
    : prog (bool * str * list output_file) :=
  _ ← call time_time;
  extraction_error ← call (_safe_extract_zip bundle_data temp_dir);
  match extraction_error with
  | Some error => mret (false, error, [])
  | None =>
      _ ← call time_time;
      _ ← call (inject_csv temp_dir csv_data);
      tree ← call (tmp_tree temp_dir);
      target ← local (_find_script temp_dir tree script_path);
      match target with
      | None =>
          mret (false, "Script not found: " ++ match script_path with
                                               | Some ((_ :: _) as p) => p
                                               | _ => "no .py file in bundle"
                                               end, [])
      | Some target_script =>
          script_content ← local (b ← read_path temp_dir tree target_script; text_of b);
          let '(is_valid, validation_msg) := validate_script script_content in
          if negb is_valid then mret (false, "Script validation failed: " ++ validation_msg, [])
          else
          (* its result is only logged *)
          _ ← mret (match given_csv csv_data with
                    | None => Some (_process_bundle_csv_files tree)
                    | Some _ => None
                    end);
          run_target_turns execution_id session_id temp_dir target_script
      end
  end.

Definition execute_bundle_turns (bundle_data : bytes) (session_id : json) (script_path : option str)
    (csv_data : option bytes) : prog (bool * str * list output_file) :=
  now ← call time_time;
  let execution_id := "bundle_" ++ fmt session_id ++ "_" ++ str_of_Z (seconds now) in
  prog_try
    (tempdir_turns (bundle_body_turns execution_id bundle_data session_id script_path csv_data))
    (fun e => mret match exn_cls e with
                   | TimeoutExpired =>
                       (false, "Bundle execution timed out after " ++ timeout_text ++ " seconds", [])
                   | _ => (false, "Bundle execution error: " ++ exn_msg e, [])
                   end).

#[export] Instance bundle_execution : ExecuteTurns := {|
  et_execute_bundle := execute_bundle_turns;
  et_turns := 17;
|}.

(** ** Uninterrupted *)

Lemma cuts_tempdir {A} (p : str -> prog A) (m : str -> IO A) :
  (forall d, Cuts (p d) (m d)) -> Cuts (tempdir_turns p) (with_tempdir m).
Proof.
  intros Hp.
  apply (cuts_ext _ _ (n ← make_tempdir; st_finally (m (mkdtemp n)) (cleanup n))); [|done].
  unfold tempdir_turns. apply _.
Qed.

#[export] Instance cuts_run_target id sid dir target : Cuts (run_target_turns id sid dir target) (run_target id sid dir target).
Proof.
  unfold run_target_turns, run_target. do 3 (apply cuts_bind; [apply _|intros ?]). apply cuts_finally; [|apply _].
  do 3 (apply cuts_bind; [apply _|intros ?]).
  eapply cuts_ext with (m' := '(n, result) ← run_process dir target _; _ ← time_time;
    mret (bundle_result n (path_join dir "outputs") result)); [apply _|].
  intros w. unfold run_process. st_run. by destruct (subprocess_run _ _ _ _ w) as [[r|e] w'].
Qed.

#[export] Instance cuts_bundle_body id bundle sid script_path csv dir :
  Cuts (bundle_body_turns id bundle sid script_path csv dir) (bundle_body id bundle sid script_path csv dir).
Proof. unfold bundle_body_turns, bundle_body. apply _. Qed.

Lemma run_target_within id sid dir target : within 9 (fun _ => True) (run_target_turns id sid dir target).
Proof.
  unfold run_target_turns. count_turns. apply (within_finally 5 1); [|apply within_call]. by count_turns.
Qed.

Lemma bundle_body_within id bundle sid script_path csv dir :
  within 14 (fun _ => True) (bundle_body_turns id bundle sid script_path csv dir).
Proof.
  unfold bundle_body_turns. count_turns; try done. apply (within_bind 0 9); [done|]. intros _. apply run_target_within.
Qed.

(** It never raises. *)
Lemma execute_bundle_finishes bundle sid script_path csv :
  finishes 17 (fun _ => True) (execute_bundle_turns bundle sid script_path csv).
Proof.
  intros w. cbn [prog_bind mbind prog_mbind call]. apply finishes_catch; [|intros e; by apply finishes_ret].
  unfold tempdir_turns. count_turns. apply (within_finally 14 1); [apply bundle_body_within|apply within_call].
Qed.

#[export] Instance bundle_execution_laws : ExecuteTurnsLaws.
Proof.
  split.
  - intros bundle sid script_path csv. change (Cuts (execute_bundle_turns bundle sid script_path csv)
      (execute_bundle bundle sid script_path csv)).
    unfold execute_bundle_turns, execute_bundle. apply cuts_bind; [apply _|intros now]. apply cuts_try; [|apply _].
    apply cuts_tempdir. apply _.
  - intros bundle sid script_path csv. apply finishes_within, execute_bundle_finishes.
Qed.

(** A run that succeeds. *)
Lemma run_process_ran dir target n result w w' output files :
  run_process dir target (cr_uid own_creds =? 0)%Z w = (Ok (n, result), w') ->
  bundle_result n (path_join dir "outputs") result = (true, output, files) ->
  ran [sys_executable; target] dir n output files w'.
Proof.
  unfold run_process. intros E Hb. apply bind_ok in E as (k & w1 & Hn & E). injection Hn as <- <-.
  apply bind_ok in E as ([[rc stdout] stderr] & w2 & Hrun & E). apply ret_ok in E as [E <-]. injection E as <- <-.
  apply subprocess_run_ok in Hrun as (out & err & c & Hr & Ho & He & -> & Hroot & Hown).
  unfold bundle_result in Hb. destruct (Z.eqb_spec rc 0) as [->|]; [|done].
  destruct (collect _ _) as [fs|e] eqn:Hc; [|done].
  injection Hb as <- <-. exists out, err, stdout, stderr, c. split_and!; try done. cbn. by left.
Qed.
End Turns.
