(* ===== verification/RepoTests.v ===== *)
(** * tests/: the repository's tests, run on the model

    The assertions of tests/test_output_files.py, test_attestation_scope.py and
    test_attestation_atl_binding.py, evaluated.  They tie the definitions to
    results observed on the Python code.  The mocks of the tests are class
    instances here; what a script of a test does, and what the Python parser makes
    of it, is the instance of [Interpreter]. *)
From stdpp Require Import base tactics list gmap strings.
From Stdlib Require Import NArith ZArith Lia.
From S2P Require Import Prelude PyText PyCodec Sha2 PyJson PyJsonParse World Config Crypto OutputFiles OutputCollect OutputTree Interfaces Cbor LocalAttestation RequestHandler Attestation TdxAttestation Bundle ExecuteService.

(** ** test_output_files.py: directories *)

Module Collect.
#[local] Existing Instance Toy.env.

Definition MAX_FILES : Z := 20.
Definition MAX_BYTES : Z := 10 * 1024 * 1024.

(** [_write], [mkdir], [os.symlink] and [os.mkfifo] below a directory. *)
Fixpoint write_at (segs : list str) (n : node) (es : list (str * node)) : list (str * node) :=
  match segs with
  | [] => es
  | [seg] => es ++ [(seg, n)]
  | seg :: segs =>
      match find (fun e => str_eqb e.1 seg) es with
      | Some (_, Dir sub) => map (fun e => if str_eqb e.1 seg then (seg, Dir (write_at segs n sub)) else e) es
      | _ => es ++ [(seg, Dir (write_at segs n []))]
      end
  end.

Definition tree_of (l : list (str * node)) : node :=
  Dir (foldl (fun es e => write_at (str_split slash e.1) e.2 es) [] l).

Definition file (name content : str) : str * node := (name, Reg (ascii_bytes content)).
(** With the content the tests give by default. *)
Definition a_file (name : str) : str * node := file name "data".
Definition empty_dir (name : str) : str * node := (name, Dir []).

Definition collected_from (t : option node) (max_files max_bytes : Z) : result fs_error (list output_file) :=
  (collect_output_files (static (fun _ => 65535) t) "/tmp/out" 20 max_files max_bytes (FState 0 ∅)).1.
Definition collect_all (l : list (str * node)) := collected_from (Some (tree_of l)) MAX_FILES MAX_BYTES.

Definition names (r : result fs_error (list output_file)) : list str :=
  match r with Ok l => map of_name l | Raise _ => ["raised"] end.
Definition contents (r : result fs_error (list output_file)) : list (str * str * bytes) :=
  match r with Ok l => map (fun f => (of_name f, of_type f, of_content f)) l | Raise _ => [] end.

(** [pytest.raises(OutputFilesError, match=part)]. *)
Fixpoint contains (part s : str) : bool :=
  bool_decide (take (length part) s = part) || match s with [] => false | _ :: s => contains part s end.
Definition rejected_for (part : str) (r : result fs_error (list output_file)) : bool :=
  match r with Raise (Rejected msg) => contains part msg | _ => false end.

Definition xs (n : nat) : str := repeat 120%N n.
End Collect.
Import Collect.

Example mixed_allowed_files :
  let r := collect_all [file "b.CSV" "x"; file "chart.png" "png"; file "photo.JPG" "jpg"; file "p.jpeg" "jpeg";
                        file "r.json" "{}"; file "notes.txt" "hi"; file "report.pdf" "%PDF"; file "a_b-c.1.csv" ""] in
  names r = ["a_b-c.1.csv"; "b.CSV"; "chart.png"; "notes.txt"; "p.jpeg"; "photo.JPG"; "r.json"; "report.pdf"]
  /\ map (fun c => c.1.2) (contents r)
     = ["text/csv"; "text/csv"; "image/png"; "text/plain"; "image/jpeg"; "image/jpeg"; "application/json";
        "application/pdf"].
Proof. vm_compute. by split. Qed.

Example missing_and_empty_directories :
  collected_from None MAX_FILES MAX_BYTES = Ok [] /\ collect_all [] = Ok [] /\ collect_all [empty_dir "a/b"] = Ok [].
Proof. vm_compute. by split_and!. Qed.

Example subfolders_collected_with_relative_names :
  contents (collect_all [file "top.csv" "1"; file "plots/fig1.png" "2"; file "plots/deep/x.json" "3";
                         file "a/b/c/d/leaf.txt" "4"; empty_dir "empty/nested"])
  = [("a/b/c/d/leaf.txt", "text/plain", ascii_bytes "4"); ("plots/deep/x.json", "application/json", ascii_bytes "3");
     ("plots/fig1.png", "image/png", ascii_bytes "2"); ("top.csv", "text/csv", ascii_bytes "1")].
Proof. vm_compute. reflexivity. Qed.

Example depth_and_length_limits :
  let ok_name := xs 100 ++ [slash] ++ xs 100 ++ [slash] ++ xs 53 in
  rejected_for "invalid file name" (collect_all [a_file "a/b/c/d/e/f.txt"]) = true
  /\ length ok_name = 255 /\ names (collect_all [a_file ok_name]) = [ok_name]
  /\ rejected_for "invalid file name" (collect_all [a_file ok_name; a_file (ok_name ++ "z")]) = true.
Proof. vm_compute. by split_and!. Qed.

Example bad_names_rejected :
  forallb (fun name => rejected_for "invalid file name" (collect_all [a_file name]))
    [".hidden/a.csv"; "sub/.hidden"; "-dir/a.csv"; "a b/c.csv"; xs 101 ++ "/a.csv";
     ".hidden.csv"; "-a.csv"; "a b.csv"; "a$.csv"; xs 101 ++ ".csv"] = true.
Proof. vm_compute. reflexivity. Qed.

Example links_and_pipes_rejected :
  rejected_for "symlink" (collect_all [("sub/linked", Lnk "/tmp/secret")]) = true
  /\ rejected_for "symlink" (collect_all [("sub/link.csv", Lnk "/tmp/secret.csv")]) = true
  /\ rejected_for "symlink" (collect_all [("link.csv", Lnk "/tmp/secret.csv")]) = true
  /\ rejected_for "not a regular file" (collect_all [("sub/pipe", Special)]) = true
  /\ rejected_for "" (collected_from (Some (Lnk "/tmp/real")) MAX_FILES MAX_BYTES) = true.
Proof. vm_compute. by split_and!. Qed.

Example any_extension_accepted :
  forallb (fun name => bool_decide (contents (collect_all [file name "payload"])
                                    = [(name, "application/octet-stream", ascii_bytes "payload")]))
    ["a.py"; "a.svg"; "a.html"; "noext"; "a.csv.exe"; "a."; "run.sh"; "sub/model.pkl"] = true.
Proof. vm_compute. reflexivity. Qed.

Example too_many_files_rejected :
  let four := [a_file "f0.txt"; a_file "f1.txt"; a_file "f2.txt"; a_file "f3.txt"] in
  let three := [a_file "a.txt"; a_file "x/b.txt"; a_file "x/y/c.txt"] in
  length (names (collected_from (Some (tree_of four)) 4 MAX_BYTES)) = 4
  /\ rejected_for "too many files" (collected_from (Some (tree_of (four ++ [a_file "f4.txt"]))) 4 MAX_BYTES) = true
  /\ length (names (collected_from (Some (tree_of three)) 3 MAX_BYTES)) = 3
  /\ rejected_for "too many files" (collected_from (Some (tree_of (three ++ [a_file "z/d.txt"]))) 3 MAX_BYTES) = true.
Proof. vm_compute. by split_and!. Qed.

Example too_large_rejected :
  let t := Some (tree_of [file "a.txt" (xs 50); file "sub/b.bin" (xs 30); file "sub/deeper/c" (xs 20)]) in
  length (names (collected_from t MAX_FILES 100)) = 3
  /\ rejected_for "total size too large" (collected_from t MAX_FILES 99) = true.
Proof. vm_compute. by split. Qed.

(** ** test_output_files.py: names, types, manifest *)

Example valid_names :
  forallb is_valid_output_file_name ["a"; "a.csv"; "plots/fig1.png"; "a/b/c/d/e"; "A9_-.x/y"] = true
  /\ existsb is_valid_output_file_name
       [""; "."; ".."; "../a.csv"; "a/../b.csv"; "a/./b.csv"; "./a.csv"; ".hidden"; "a/.hidden"; "a//b.csv"; "/a.csv";
        "a/"; "a/b/c/d/e/f"; "a\b.csv"; xs 101; "a/" ++ xs 101;
        xs 100 ++ [slash] ++ xs 100 ++ [slash] ++ xs 54] = false.
Proof. vm_compute. by split. Qed.

Example output_file_types :
  map output_file_type ["a.CSV"; "d/fig.PNG"; "x.jpg"; "x.jpeg"; "x.json"; "x.txt"; "x.pdf"; "notes"; "x.bin";
                        "csv.d/notes"; "a.csv.exe"; "a."; "x.svg"]
  = ["text/csv"; "image/png"; "image/jpeg"; "image/jpeg"; "application/json"; "text/plain"; "application/pdf"]
    ++ repeat (DEFAULT_OUTPUT_TYPE) 6.
Proof. vm_compute. reflexivity. Qed.

Example known_answer_from_disk :
  result_map manifest_vector (collect_all [("plot.png", Reg (bytes_of_Ns [0x89; 80; 78; 71; 13; 10; 26; 10]%N));
                                           ("a.csv", Reg (bytes_of_Ns [120; 44; 121; 10; 49; 44; 50; 10]%N))])
  = Ok ("a37a007f52723efc320ec5dfa00d80ee054d7733627a303b33b315c820958f9c" : str).
Proof. vm_compute. reflexivity. Qed.

(** ** Mocks *)

Module Mocks.
Definition decrypt : IDecryptService := {|
  ds_decrypt_combined_hybrid_data _ _ := mret (true, ascii_bytes "zip");
  ds_decrypt_hybrid_data _ _ _ := mret (true, []); ds_decrypt_rsa_data _ _ := mret (true, []);
  ds_decrypt_csv_file _ _ := mret (true, []); ds_decrypt_bundle _ _ := mret (true, []);
  ds_validate_encryption_metadata _ := (true, []); ds_get_supported_algorithms := [];
  ds_verify_data_integrity _ _ := true; ds_get_decryption_stats := mret [];
|}.

Definition execute (result : bool * str * list output_file) : IExecuteService := {|
  es_execute_script _ _ := mret (true, []); es_execute_bundle _ _ _ _ := mret result;
  es_execute_with_data _ _ _ _ := mret (true, []); es_validate_script _ := (true, []);
  es_setup_execution_environment _ := (true, []); es_cleanup_execution_environment _ := mret true;
  es_get_execution_limits := []; es_monitor_execution _ := mret []; es_terminate_execution _ _ := mret true;
  es_get_execution_logs _ := mret JNull; es_get_supported_formats := [];
|}.

Definition keypairs : IKeyPairManager := {|
  km_generate_keypair _ _ := mret (true, ("session_1" : str));
  km_get_public_key v := mret (if eq_str v "session_1" then Some ("PEM-KEY" : str) else None);
  km_get_private_key _ := mret None; km_delete_keypair _ := mret true;
|}.

(** Its calls are the events of the trace. *)
Definition attestation : IAttestationService := {|
  at_generate_attestation user_data _ _ :=
    _ ← emit (EvNsmIoctl (match user_data with VBytes b => b | _ => [] end));
    mret (true, [("attestation_document", JStr "DOC")]);
  at_create_execution_attestation args :=
    _ ← emit (EvNsmIoctl []);
    mret (true, [("output", JStr (ea_output args));
                 ("files_manifest_sha256", opt_json JStr (ea_files_manifest_sha256 args))]);
  at_is_real_enclave := true;
|}.
End Mocks.

#[local] Existing Instances Toy.env Mocks.decrypt Mocks.keypairs Mocks.attestation.

(** The response and the trace. *)
Definition run_io {A} (m : IO A) : option A * list event :=
  let '(r, w) := m empty_world in (match r with Ok a => Some a | Raise _ => None end, w_trace w).

(** ** test_output_files.py: the request handler *)

Module Execution.
Definition respond (result : bool * str * list output_file) : option dict * list event :=
  run_io (@_execute_encrypted_script _ _ (Mocks.execute result) _ _ [("session_id", JStr "s"); ("encrypted_data", JStr "x")]).
Definition got (key : str) (result : bool * str * list output_file) : option json :=
  d ← (respond result).1; dict_get key d.

Definition EMPTY_SHA256 : str := "4f53cda18c2baa0c0354bb5f9a3ecbe5ed12ab4d8e11ba873c2f11161202b945".
Definition rejected : bool * str * list output_file :=
  (false, ("Output files rejected: too many files (21 > 20)" : str), []).
End Execution.
Import Execution.

Example success_response_has_files_and_manifest_hash :
  let result := (true, ("out" : str), reverse KAT_FILES) in
  got "success" result = Some (JBool true)
  /\ got "files_manifest_sha256" result = Some (JStr (manifest_vector KAT_FILES))
  /\ got "files" result = Some (JArr (map file_entry (reverse KAT_FILES)))
  /\ got "attestation" result
     = Some (JObj [("output", JStr "out"); ("files_manifest_sha256", JStr (manifest_vector KAT_FILES))]).
Proof. vm_compute. by split_and!. Qed.

Example no_files_attests_empty_manifest :
  let result := (true, ("out" : str), []) in
  got "files" result = Some (JArr []) /\ got "files_manifest_sha256" result = Some (JStr EMPTY_SHA256)
  /\ got "attestation" result = Some (JObj [("output", JStr "out"); ("files_manifest_sha256", JStr EMPTY_SHA256)]).
Proof. vm_compute. by split_and!. Qed.

Example failure_returns_no_files :
  got "success" rejected = Some (JBool false) /\ got "files" rejected = None
  /\ got "error" rejected = Some (JStr ("Execution failed: Output files rejected: too many files (21 > 20)"))
  /\ (respond rejected).2 = [].
Proof. vm_compute. by split_and!. Qed.

(** ** test_attestation_scope.py *)

Module Scope.
Definition ask (request : dict) : option json * list event :=
  let '(r, tr) := run_io (@handle_request _ _ (Mocks.execute (true, [], [])) _ _ None (json_dumps (JObj request))) in
  (d ← r; dict_get "success" d, tr).
End Scope.
Import Scope.

Example attests_the_session_key_built_by_the_enclave :
  ask [("operation", JStr "get_attestation"); ("session_id", JStr "session_1")]
  = (Some (JBool true),
     [EvNsmIoctl (dumps_bytes default_style (JObj [("public_key", JStr "PEM-KEY"); ("session_id", JStr "session_1")]))]).
Proof. vm_compute. reflexivity. Qed.

Example caller_user_data_is_refused :
  ask [("operation", JStr "get_attestation"); ("session_id", JStr "session_1");
       ("user_data", JStr (json_dumps (JObj [("public_key", JStr "HOST-KEY")])))] = (Some (JBool false), []).
Proof. vm_compute. reflexivity. Qed.

Example nothing_is_signed_without_an_enclave_session :
  ask [("operation", JStr "get_attestation")] = (Some (JBool false), [])
  /\ ask [("operation", JStr "get_attestation"); ("session_id", JStr "unknown")] = (Some (JBool false), []).
Proof. vm_compute. by split. Qed.

(** ** test_attestation_atl_binding.py *)

Module Atl.
Definition SCRIPT : bytes := ascii_bytes "def run(): pass".
Definition DATASET : bytes := bytes_of_Ns [99; 111; 108; 49; 44; 99; 111; 108; 50; 10; 49; 44; 50; 10]%N.
Definition OUTPUT : str := "hello world".

Definition args (external_nonce : option bytes) (context_hash : json) : execution_proof_args := {|
  ea_job_id := JStr "deadbeefdeadbeef"; ea_output := OUTPUT; ea_script_bytes := Some SCRIPT;
  ea_dataset_bytes := Some DATASET; ea_external_nonce := external_nonce; ea_context_hash := context_hash;
  ea_files_manifest_sha256 := None;
|}.

#[local] Existing Instances ToyNsm.env ToyCbor.cbor_flat.

(** The [user_data] and the nonce the device was asked to sign, read back: they
    are the only ones with the request that was sent to it. *)
Definition captured (args : execution_proof_args) : option (dict * bytes) :=
  let nonce := match supplied_nonce args with Some n => n | None => urandom 0 32 end in
  let user_data := proof_bytes (Attestation.proof_data args (sha256_hex (ascii_bytes OUTPUT)) 1700000000 nonce) in
  let w := (@Attestation.create_execution_attestation ToyNsm.env default_settings ToyCbor.cbor_flat ToyX509.x509
              ToyNsm.nsm args empty_world).2 in
  match w_trace w, result_bind json_loads (bytes_decode user_data),
        cbor_dumps (CMap [("Attestation", CMap [("user_data", CVal (VBytes user_data)); ("nonce", CVal (VBytes nonce))])])
  with
  | [EvNsmIoctl request], Ok (JObj d), Ok expected => if bool_decide (request = expected) then Some (d, nonce) else None
  | _, _, _ => None
  end.

Definition proved (key : str) (args : execution_proof_args) : option json := d ← captured args; dict_get key d.1.
Definition aa : bytes := repeat Byte.xaa 32.
Definition ctx_hex : str := mjoin (repeat ("cc" : str) 32).
End Atl.
Import Atl.

Example external_nonce_is_attested :
  proved "nonce" (args (Some aa) JNull) = Some (JStr (b64encode aa))
  /\ proved "nonce_source" (args (Some aa) JNull) = None
  /\ snd <$> captured (args (Some aa) JNull) = Some aa
  /\ proved "nonce_source" (args None JNull) = Some (JStr "random").
Proof. vm_compute. by split_and!. Qed.

Example context_hash_in_proof_data :
  proved "context_hash" (args None (JStr ctx_hex)) = Some (JStr ctx_hex)
  /\ proved "context_hash" (args None JNull) = None.
Proof. vm_compute. by split. Qed.

Example all_seven_fields_present :
  forallb (fun key => match proved key (args (Some aa) (JStr ctx_hex)) with Some v => truthy v | None => false end)
    ["job_id"; "script_hash"; "dataset_hash"; "output_hash"; "timestamp"; "nonce"; "context_hash"] = true
  /\ proved "script_hash" (args None JNull) = Some (JStr (sha256_hex SCRIPT))
  /\ proved "dataset_hash" (args None JNull) = Some (JStr (sha256_hex DATASET))
  /\ proved "output_hash" (args None JNull) = Some (JStr (sha256_hex (ascii_bytes OUTPUT))).
Proof. vm_compute. by split_and!. Qed.

(** ** test_output_files.py: the attestation *)

Module Binding.
Definition nitro_args : execution_proof_args := {|
  ea_job_id := JStr "j"; ea_output := "out"; ea_script_bytes := None; ea_dataset_bytes := None;
  ea_external_nonce := None; ea_context_hash := JNull;
  ea_files_manifest_sha256 := Some (manifest_vector KAT_FILES);
|}.
Definition nitro_proof : option dict :=
  match (@Attestation.create_execution_attestation ToyNsm.env default_settings ToyCbor.cbor_flat ToyX509.x509
           ToyNsm.nsm nitro_args empty_world).1 with
  | Ok (true, r) => match dict_get "proof" r with Some (JObj d) => Some d | _ => None end
  | _ => None
  end.

Definition tdx_args : tdx_proof_args := {|
  ta_job_id := JStr "j"; ta_output := "out"; ta_script_bytes := None; ta_dataset_bytes := None; ta_nonce := None;
  ta_atl_nonce := None; ta_atl_context_hash := None; ta_files_manifest_sha256 := Some (manifest_vector KAT_FILES);
|}.
Definition quote_helper : TdQuote := {|
  tdquote_run _ _ := Ok (0%Z, ascii_bytes "QUOTE", []); tdx_environ := {["TDQUOTE_BIN" := "/nonexistent"]};
  tdx_file := "tdx_attestation_service_impl.py";
|}.
Definition tdx_canonical : option dict :=
  match (@TdxAttestation.create_execution_attestation Toy.env quote_helper tdx_args empty_world).1 with
  | Ok (true, r) =>
      match dict_get "proof" r with
      | Some (JObj proof) =>
          match dict_get "proof_canonical" proof with
          | Some (JStr text) => match json_loads text with Ok (JObj d) => Some d | _ => None end
          | _ => None
          end
      | _ => None
      end
  | _ => None
  end.
End Binding.
Import Binding.

Example proofs_include_files_manifest :
  (d ← nitro_proof; dict_get "files_manifest_sha256" d) = Some (JStr (manifest_vector KAT_FILES))
  /\ (d ← nitro_proof; dict_get "output_hash" d) = Some (JStr (sha256_hex (ascii_bytes "out")))
  /\ (d ← tdx_canonical; dict_get "files_manifest_sha256" d) = Some (JStr (manifest_vector KAT_FILES)).
Proof. vm_compute. by split_and!. Qed.

(** ** test_output_files.py: bundles

    A script is its exit status, what it prints and what it leaves in the output
    directory. *)

Module Bundles.
Definition script (status : Z) (stdout : str) (left : list (str * node))
    (Hleft : tree_wf (tree_of left) = true /\ tree_size (tree_of left) <= 20) : Interpreter := {|
  ast_parse _ := Ok (Node []);
  own_creds := Creds 1000 1000 [1000%Z];
  run_script _ _ _ _ := Ok (status, ascii_bytes stdout, []);
  outputs_view _ := static (fun _ => 65535) (Some (tree_of left));
  outputs_steps _ := 20;
  outputs_end _ _ _ _ := walk_static_ends _ (Some (tree_of left)) _ _ _ Hleft;
|}.

Ltac small := split; [vm_compute; reflexivity|apply (bool_decide_unpack _); vm_compute; exact I].

Definition execute (i : Interpreter) : result exn (bool * str * list output_file) * world :=
  @execute_bundle Toy.env default_settings ToyMachine.machine i (ascii_bytes "zip with main.py") (JStr "s1") None None
    empty_world.
Definition outcome (i : Interpreter) : option (bool * str * list (str * str * bytes)) :=
  match (execute i).1 with
  | Ok (ok, output, files) => Some (ok, output, contents (Ok files))
  | Raise _ => None
  end.

Definition csv : bytes := bytes_of_Ns [120; 44; 121; 10; 49; 44; 50; 10]%N.
Definition kat2_script : Interpreter :=
  script 0 "" [("plots/fig.bin", Reg (bytes_of_Ns [0; 1; 2]%N)); ("a.csv", Reg csv);
               ("notes", Reg (bytes_of_Ns [104; 105; 10]%N))] ltac:(small).
Definition rejected_script : Interpreter := script 0 "" [("sub/etc", Lnk "/etc")] ltac:(small).
Definition result_script : Interpreter := script 0 "done" [("result.csv", Reg csv)] ltac:(small).
Definition silent_script : Interpreter := script 0 "x" [] ltac:(small).
Definition failed_script : Interpreter := script 1 "" [file "a.csv" "x"] ltac:(small).
End Bundles.
Import Bundles.

Example collects_files_and_sets_env :
  outcome result_script = Some (true, ("done" : str), [("result.csv", "text/csv", csv)])
  /\ w_trace (execute result_script).2
     = [EvScript ["/usr/bin/python3"; "/tmp/run0/main.py"] "/tmp/run0"
          [("EPSILON_OUTPUT_DIR", "/tmp/run0/outputs"); ("MPLBACKEND", "Agg");
           ("MPLCONFIGDIR", "/tmp/run0/.mplconfig"); ("HOME", "/tmp/run0")] 1000 1000 [1000%Z]].
Proof. vm_compute. by split. Qed.

Example bundle_without_files : outcome silent_script = Some (true, ("x" : str), []).
Proof. vm_compute. reflexivity. Qed.

Example collects_subfolder_and_unknown_type :
  (c ← outcome kat2_script; Some (map fst c.2))
  = Some [("a.csv" : str, "text/csv" : str); ("notes" : str, DEFAULT_OUTPUT_TYPE); ("plots/fig.bin" : str, DEFAULT_OUTPUT_TYPE)]
  /\ match (execute kat2_script).1 with Ok (_, _, files) => manifest_vector files | _ => [] end
     = "49f15dcc85c70e4712ab20edd5e118eb3ea2526e264da93628522a3a6c456907".
Proof. vm_compute. by split. Qed.

Example rejected_files_fail_execution :
  (c ← outcome rejected_script; Some (c.1.1, take (length REJECTED_PREFIX) c.1.2, c.2))
  = Some (false, "Output files rejected: " : str, []).
Proof. vm_compute. reflexivity. Qed.

Example failed_script_returns_no_files :
  (c ← outcome failed_script; Some (c.1.1, c.2)) = Some (false, []).
Proof. vm_compute. reflexivity. Qed.

(** ** test_attestation_scope.py: the script user *)

Module User.
Definition as_user (uid : Z) (tree : node) : option bool * list event :=
  run_io (@_as_script_user default_settings
            {| ast_parse _ := Ok (Node []); own_creds := Creds uid uid [uid]; run_script _ _ _ _ := Ok (0%Z, [], []);
               outputs_view _ := static (fun _ => 0) None; outputs_steps _ := 1;
               outputs_end _ _ _ _ := walk_static_ends _ None _ _ _ (le_n 1) |} "/tmp/w" tree).
Definition work_dir : node := Dir [("outputs", Dir []); ("main.py", Reg (ascii_bytes "print(1)"))].
End User.
Import User.

Example unprivileged_process_runs_scripts_as_is : as_user 1000 work_dir = (Some false, []).
Proof. vm_compute. reflexivity. Qed.

Example root_hands_the_work_dir_over :
  as_user 0 work_dir
  = (Some true, [EvLchown "/tmp/w/main.py" 65534 65534; EvLchown "/tmp/w/outputs" 65534 65534; EvChown "/tmp/w" 65534 65534]).
Proof. vm_compute. reflexivity. Qed.

(** The order matters: after [setuid] nothing else is permitted. *)
Example drop_privileges_order :
  @_drop_privileges default_settings (Creds 0 0 [0%Z]) = Ok (Creds 65534 65534 [])
  /\ (c ← setuid 65534 (Creds 0 0 [0%Z]); c ← setgid 65534 c; setgroups [] c) = Raise not_permitted.
Proof. vm_compute. by split. Qed.

(** ** test_attestation_scope.py: the validation

    The trees of the scripts of the test; an import has no calls in it. *)

Module Validation.
Definition import_statement : ast := Node [Node []].
Definition attribute (value : ast) : ast := Node [value; Node []].
Definition constant : ast := Node [].
Definition expr (e : ast) : ast := Node [e].

Definition parsed : list (str * res ast) :=
  [("imports", Ok (Node [import_statement; import_statement; import_statement]));
   ("compile methods",
    Ok (Node [import_statement;
              Node [Name "pattern"; Call (attribute (Name "re")) [constant]];
              expr (Call (attribute (Name "model")) [Node [constant]])]));
   ("exec", Ok (Node [expr (Call (Name "exec") [constant])]));
   ("eval", Ok (Node [expr (Call (Name "eval") [constant])]));
   ("__import__", Ok (Node [expr (Call (Name "__import__") [constant])]));
   ("x = (", raise (Exn SyntaxError "'(' was never closed (<unknown>, line 1)"))].

Definition interpreter : Interpreter := {|
  ast_parse text := default (Ok (Node [])) (assoc text parsed);
  own_creds := Creds 0 0 []; run_script _ _ _ _ := Ok (0%Z, [], []);
  outputs_view _ := static (fun _ => 0) None; outputs_steps _ := 1;
  outputs_end _ _ _ _ := walk_static_ends _ None _ _ _ (le_n 1);
|}.
Definition allowed (text : str) : bool := (@validate_script interpreter text).1.
End Validation.
Import Validation.

Example validated_scripts :
  map (fun e => allowed e.1) parsed = [true; true; false; false; false; false].
Proof. vm_compute. reflexivity. Qed.
