(* ===== verification/Kms.v ===== *)
(** * kms_attestation_impl.py: data keys through [kmstool_enclave_cli]

    The tool is a parameter; each run of it leaves its command line in the
    trace. *)
From stdpp Require Import base tactics list gmap strings.
From Stdlib Require Import NArith ZArith Lia.
From S2P Require Import Prelude PyText PyCodec PyJson PyJsonParse World Config Interfaces.

Class KmsTool : Type := {
  (** The [n]-th run: exit status, [stdout] and [stderr], or a time-out. *)
  kmstool_run : nat -> list str -> res (Z * bytes * bytes);
}.

(** ['--encryption-context', f'{key}={value}'] for every item. *)
Definition context_args `{Env} (encryption_context : option dict) : list str :=
  match encryption_context with
  | Some items => mjoin (map (fun kv => ["--encryption-context"; kv.1 ++ "=" ++ fmt kv.2]) items)
  | None => []
  end.

(** [__init__]: the key, or else [AWS_KMS_KEY_ARN].  The region, the port and the
    path of the tool are those of the settings. *)
Definition init_kms_key_id (os_environ : gmap str str) (kms_key_id : option str) : str :=
  match kms_key_id with
  | Some ((_ :: _) as k) => k
  | _ => getenv os_environ "AWS_KMS_KEY_ARN" ""
  end.

Section Methods.
Context `{Env, Settings, KmsTool}.
(** [self.kms_key_id]. *)
Context (kms_key_id : str).

Definition kmstool_path : str := KMSTOOL_PATH settings.

Definition _check_availability : bool := path_exists kmstool_path && negb (str_eqb kms_key_id "").

Definition is_enabled : bool := _check_availability.

Definition common_args : list str :=
  ["--region"; KMS_REGION settings; "--proxy-port"; str_of_Z (KMS_PROXY_PORT settings)].

Definition decrypt_cmd (encrypted_data_key : bytes) (encryption_context : option dict) : list str :=
  [kmstool_path; "decrypt"] ++ common_args ++ ["--ciphertext"; b64encode encrypted_data_key]
  ++ context_args encryption_context.

Definition encrypt_cmd (plaintext_key : bytes) (encryption_context : option dict) : list str :=
  [kmstool_path; "encrypt"] ++ common_args ++ ["--key-id"; kms_key_id; "--plaintext"; b64encode plaintext_key]
  ++ context_args encryption_context.

Definition genkey_cmd (key_spec : str) (encryption_context : option dict) : list str :=
  [kmstool_path; "genkey"] ++ common_args ++ ["--key-id"; kms_key_id; "--key-spec"; key_spec]
  ++ context_args encryption_context.

Definition document_cmd : list str := [kmstool_path; "attestation-document"].

(** [subprocess.run(cmd, capture_output=True, timeout=30)]. *)
Definition kmstool (cmd : list str) : IO (Z * bytes * bytes) :=
  n ← st_gets (fun w => length (w_trace w));
  _ ← emit (EvKmsTool cmd);
  st_lift (kmstool_run n cmd).

Definition stderr_text (stderr : bytes) : res str :=
  match stderr with [] => Ok ("Unknown error" : str) | _ => bytes_decode stderr end.

(** The common part of the operations: run the tool, read its output by
    [parse], and answer [failed] with the bytes of the error. *)
Definition with_tool {A} (cmd : list str) (parse : bytes -> res A) (failed : bytes -> A) (timeout : str)
    : IO (bool * A) :=
  if negb is_enabled then mret (false, failed (ascii_bytes "KMS attestation not enabled"))
  else
    catch
      ('(returncode, stdout, stderr) ← kmstool cmd;
       if negb (returncode =? 0)%Z then
         error ← st_lift (msg ← stderr_text stderr; str_encode msg);
         mret (false, failed error)
       else
         result ← st_lift (parse stdout);
         mret (true, result))
      (fun e => match exn_cls e with
                | TimeoutExpired => mret (false, failed (ascii_bytes timeout))
                | _ => error ← st_lift (str_encode (exn_msg e)); mret (false, failed error)
                end).

(** [base64.b64decode(stdout.decode().strip())]. *)
Definition parse_b64 (stdout : bytes) : res bytes := text ← bytes_decode stdout; b64decode (str_strip text).

Definition b64_field (key : str) (output : json) : res bytes :=
  match output with
  | JObj d => match dict_get key d with
              | Some (JStr s) => b64decode s
              | Some v => raise (Exn TypeError ("argument should be a bytes-like object or ASCII string, not '"
                                               ++ type_name v ++ "'"))
              | None => raise (Exn KeyError ("'" ++ key ++ "'"))
              end
  | v => raise (Exn TypeError ("'" ++ type_name v ++ "' object is not subscriptable"))
  end.

Definition parse_data_key (stdout : bytes) : res (list (str * pyval)) :=
  text ← bytes_decode stdout;
  output ← json_loads text;
  plaintext ← b64_field "Plaintext" output;
  ciphertext ← b64_field "CiphertextBlob" output;
  Ok [("plaintext", VBytes plaintext); ("ciphertext", VBytes ciphertext)].

Definition decrypt_data_key (encrypted_data_key : bytes) (encryption_context : option dict) : IO (bool * bytes) :=
  with_tool (decrypt_cmd encrypted_data_key encryption_context) parse_b64 id "KMS decrypt timeout".

Definition encrypt_data_key (plaintext_key : bytes) (encryption_context : option dict) : IO (bool * bytes) :=
  with_tool (encrypt_cmd plaintext_key encryption_context) parse_b64 id "KMS encrypt timeout".

Definition generate_data_key (key_spec : str) (encryption_context : option dict)
    : IO (bool * list (str * pyval)) :=
  with_tool (genkey_cmd key_spec encryption_context) parse_data_key (fun e => [("error", VBytes e)])
    "KMS generate key timeout".

Definition get_attestation_document : IO (bool * bytes) :=
  with_tool document_cmd Ok id "Attestation timeout".

Definition get_status : dict :=
  [("enabled", JBool is_enabled);
   ("kms_key_id", match kms_key_id with [] => JNull | _ => JStr (take 20 kms_key_id ++ "...") end);
   ("region", JStr (KMS_REGION settings));
   ("proxy_port", JInt (KMS_PROXY_PORT settings));
   ("kmstool_path", JStr kmstool_path);
   ("kmstool_exists", JBool (path_exists kmstool_path))].

Definition kms_attestation : IKMSAttestationService := {|
  kms_is_enabled := is_enabled;
  kms_decrypt_data_key := decrypt_data_key;
  kms_encrypt_data_key := encrypt_data_key;
  kms_generate_data_key := generate_data_key;
  kms_get_attestation_document := get_attestation_document;
  kms_get_status := get_status;
|}.

(** ** One command per operation *)

Lemma with_tool_spec {A} cmd (parse : bytes -> res A) failed timeout w :
  (is_enabled = false -> exists e, with_tool cmd parse failed timeout w = (Ok (false, failed e), w))
  /\ (is_enabled = true ->
      w_trace (with_tool cmd parse failed timeout w).2 = EvKmsTool cmd :: w_trace w)
  /\ (forall a w', with_tool cmd parse failed timeout w = (Ok (true, a), w') ->
      is_enabled = true /\ exists out err, kmstool_run (length (w_trace w)) cmd = Ok (0%Z, out, err) /\ parse out = Ok a).
Proof.
  unfold with_tool, kmstool, emit. destruct is_enabled; cbn [negb].
  2: { split_and!; [by eexists|done|]. intros a w' E. by apply ret_ok in E as [E _]. }
  split_and!; [done| |].
  - intros _. rewrite run_try. st_run. destruct (kmstool_run _ _) as [[[rc out] err]|e].
    + destruct (negb _); st_run.
      * destruct (msg ← stderr_text err; str_encode msg) as [b|e]; [done|].
        destruct (exn_cls e); st_run; by try destruct (str_encode _).
      * destruct (parse out) as [a|e]; [done|]. destruct (exn_cls e); st_run; by try destruct (str_encode _).
    + destruct (exn_cls e); st_run; by try destruct (str_encode _).
  - intros a w' E. split; [done|]. apply catch_ok in E as [E|(e & w1 & _ & E)].
    + apply bind_ok in E as ([[rc out] err] & w1 & Hr & E). revert Hr. st_run. intros [= Hr <-].
      destruct (Z.eqb_spec rc 0) as [->|]; cbn [negb] in E.
      * apply lift_ok in E as (r & Hp & E). apply ret_ok in E as [E _]. injection E as <-. by exists out, err.
      * apply lift_ok in E as (? & _ & E). by apply ret_ok in E as [E _].
    + destruct (exn_cls e); try (by apply ret_ok in E as [E _]);
        apply lift_ok in E as (? & _ & E); by apply ret_ok in E as [E _].
Qed.

(** C40: a data key is asked for in one command, on the configured region, port
    and key, with the key material and every item of the encryption context as
    given; a key that is returned is what the tool printed for that command;
    and a service that is not enabled runs nothing. *)
Theorem kms_data_keys key plain context w :
  (is_enabled = false ->
   decrypt_data_key key context w = (Ok (false, ascii_bytes "KMS attestation not enabled"), w)
   /\ encrypt_data_key plain context w = (Ok (false, ascii_bytes "KMS attestation not enabled"), w))
  /\ (forall a w', decrypt_data_key key context w = (Ok (true, a), w') ->
      w_trace w' = EvKmsTool (decrypt_cmd key context) :: w_trace w
      /\ exists out err text, kmstool_run (length (w_trace w)) (decrypt_cmd key context) = Ok (0%Z, out, err)
           /\ bytes_decode out = Ok text /\ b64decode (str_strip text) = Ok a)
  /\ (forall a w', encrypt_data_key plain context w = (Ok (true, a), w') ->
      w_trace w' = EvKmsTool (encrypt_cmd plain context) :: w_trace w
      /\ exists out err text, kmstool_run (length (w_trace w)) (encrypt_cmd plain context) = Ok (0%Z, out, err)
           /\ bytes_decode out = Ok text /\ b64decode (str_strip text) = Ok a).
Proof.
  split_and!.
  - unfold decrypt_data_key, encrypt_data_key, with_tool. by intros ->.
  - intros a w' E. unfold decrypt_data_key in E.
    destruct (with_tool_spec (decrypt_cmd key context) parse_b64 id "KMS decrypt timeout" w) as (_ & Ht & Hok).
    destruct (Hok _ _ E) as (He & out & err & Hr & Hp). rewrite E in Ht. split; [exact (Ht He)|].
    apply result_bind_ok in Hp as (text & Hd & Hb). by exists out, err, text.
  - intros a w' E. unfold encrypt_data_key in E.
    destruct (with_tool_spec (encrypt_cmd plain context) parse_b64 id "KMS encrypt timeout" w) as (_ & Ht & Hok).
    destruct (Hok _ _ E) as (He & out & err & Hr & Hp). rewrite E in Ht. split; [exact (Ht He)|].
    apply result_bind_ok in Hp as (text & Hd & Hb). by exists out, err, text.
Qed.
End Methods.
