(* ===== verification/Factory.v ===== *)
(** * factory.py and main.py: the service stack

    The implementations wired together with a choice of attestation backend, and
    what the parts guarantee jointly, with each backend. *)
From stdpp Require Import base tactics list gmap sorting strings.
From Stdlib Require Import NArith ZArith Lia.
From S2P Require Import Prelude PyText PyCodec Sha2 PyJson PyJsonParse World Config Crypto OutputFiles Interfaces Cbor LocalAttestation KeyPairManager DecryptService RequestHandler Attestation TdxAttestation Bundle ExecuteService Kms.

Definition NITRO_BACKEND : str := "nitro".
Definition TDX_BACKEND : str := "tdx".
Definition DEFAULT_ATTESTATION_BACKEND : str := NITRO_BACKEND.

Section Factory.
Context `{Env, Settings, Ciphers, Machine, Interpreter, Cbor, X509, Nsm, TdQuote}.

(** The classes by backend name. *)
Definition _ATTESTATION_BACKENDS : list (str * IAttestationService) :=
  [(NITRO_BACKEND, nitro_attestation); (TDX_BACKEND, tdx_attestation)].

Definition resolve_backend (os_environ : environ) (backend : option str) : str :=
  str_lower (str_strip match backend with
                       | Some ((_ :: _) as b) => b
                       | _ => getenv os_environ "ENCLAVE_BACKEND" DEFAULT_ATTESTATION_BACKEND
                       end).

Definition create_attestation_service (os_environ : environ) (backend : option str) : res IAttestationService :=
  let resolved := resolve_backend os_environ backend in
  match assoc resolved _ATTESTATION_BACKENDS with
  | Some service => Ok service
  | None =>
      raise (Exn ValueError ("Unknown attestation backend " ++ py_repr printable (JStr resolved)
                             ++ "; expected one of "
                             ++ py_repr printable (JArr (map JStr (sorted_by str_leb id (map fst _ATTESTATION_BACKENDS))))))
  end.

Definition create_keypair_manager : IKeyPairManager := key_pair_manager.
Definition create_decrypt_service (keypair_manager : IKeyPairManager) : IDecryptService := decrypt_service.
Definition create_execute_service : IExecuteService := execute_service.

(** The attributes of a KMS service that [handle_attestation] looks up: the
    class has no [attest_enclave]. *)
Definition attest_enclave (kms : IKMSAttestationService) : json -> IO (bool * json) :=
  fun _ => mraise (Exn AttributeError "'KMSAttestationService' object has no attribute 'attest_enclave'").

Definition create_request_handler (decrypt_service : IDecryptService) (execute_service : IExecuteService)
    (keypair_manager : IKeyPairManager) (attestation_service : IAttestationService)
    (kms_attestation : option IKMSAttestationService) : IRequestHandler :=
  request_handler (attest_enclave <$> kms_attestation).

Definition create_enclave_services (os_environ : environ) (kms_attestation : option IKMSAttestationService)
    (backend : option str) : res IRequestHandler :=
  let keypair_manager := create_keypair_manager in
  let decrypt_service := create_decrypt_service keypair_manager in
  let execute_service := create_execute_service in
  attestation_service ← create_attestation_service os_environ backend;
  Ok (create_request_handler decrypt_service execute_service keypair_manager attestation_service kms_attestation).

(** [main.create_kms_attestation]. *)
Definition create_kms_attestation `{KmsTool} (os_environ : environ) : option IKMSAttestationService :=
  if negb (ENABLE_KMS_ATTESTATION settings) then None
  else
    match os_environ !! "AWS_KMS_KEY_ARN" with
    | None | Some [] => None
    | Some kms_key_arn =>
        let kms_key_id := init_kms_key_id os_environ (Some kms_key_arn) in
        if is_enabled kms_key_id then Some (kms_attestation kms_key_id) else None
    end.
End Factory.

(** ** The stack with the Nitro backend *)

Section Stack.
Context `{Env, Settings, CryptoLaws, Machine, Interpreter, Cbor, X509, Nsm}.
(** What the signed [user_data] of a response says, read back as JSON. *)
Lemma execution_readback request sid zip csv output files supplied outb ts nonce ctx :
  dict_get_or "atl_context_hash" JNull request = ctx -> json_ok ctx = true -> json_ok sid = true -> int_ok ts = true ->
  exists d,
    (s ← bytes_decode (proof_bytes (Attestation.proof_data (proof_args request sid zip csv output files supplied)
                                      (sha256_hex outb) ts nonce)); json_loads s) = Ok (JObj d)
    /\ dict_get "job_id" d = Some (json_order sorted_style sid)
    /\ dict_get "script_hash" d = Some (JStr (hash_or_empty (Some zip)))
    /\ dict_get "dataset_hash" d = Some (JStr (hash_or_empty csv))
    /\ dict_get "output_hash" d = Some (JStr (sha256_hex outb))
    /\ dict_get "files_manifest_sha256" d = Some (JStr (files_manifest_sha256 (build_files_manifest files)))
    /\ dict_get "context_hash" d = (if truthy ctx then Some (json_order sorted_style ctx) else None)
    /\ exists n, dict_get "nonce" d = Some (JStr n) /\ b64decode n = Ok nonce.
Proof.
  intros <- Hok Hj Hts.
  destruct (proof_readback (proof_args request sid zip csv output files supplied) outb ts nonce) as (d & Hd & Hfields).
  { split_and!; [done|done|done|apply bytes_hex_valid]. }
  destruct Hfields as (Hf1 & Hf2 & Hf3 & Hf4 & Hf5 & Hf6 & Hf7 & Hf8 & _). by exists d.
Qed.

(** The nonce that was signed is the one the request supplied, if it did. *)
Lemma signed_nonce request sid zip csv output files supplied fresh nonce :
  nonce = match supplied_nonce (proof_args request sid zip csv output files supplied) with Some n => n | None => fresh end ->
  supplied <> None -> supplied <> Some [] -> supplied = Some nonce.
Proof. unfold supplied_nonce. cbn [ea_external_nonce proof_args]. by destruct supplied as [[|c s]|]; intros ->. Qed.

(** What a verifier learns from the attestation of an execution, end to end.
    The device was asked once to sign a [user_data] that parses to the session,
    the hash of the code bundle and of the dataset that the request's payloads
    decrypt to, the hash of the output and of the manifest of the files that
    the very response carries, and the nonce; and that bundle was extracted
    within its limits, validated, and ran as the script user to produce them. *)
Theorem nitro_execution_end_to_end request w resp w' att ctx :
  _nsm_available = true ->
  dict_get_or "atl_context_hash" JNull request = ctx -> json_ok ctx = true ->
  _execute_encrypted_script request w = (Ok resp, w') ->
  dict_get "attestation" resp = Some att ->
  exists sid encrypted zip csv output output_bytes files nonce user_data device_request ts,
    dict_get "session_id" request = Some sid /\ dict_get "encrypted_data" request = Some encrypted
    /\ decrypted_to encrypted sid zip /\ dataset_of request sid csv
    /\ dict_get "output" resp = Some (JStr output) /\ str_encode output = Ok output_bytes
    /\ read_files_field resp = Some files
    /\ (exists dir target content n, script_of zip None csv dir target content
          /\ (validate_script content).1 = true /\ ran [sys_executable; target] dir n output files w')
    /\ (exists before, w_trace w' = EvNsmIoctl device_request :: before)
    /\ cbor_dumps (CMap [("Attestation", CMap [("user_data", CVal (VBytes user_data));
                                               ("nonce", CVal (VBytes nonce))])]) = Ok device_request
    /\ (exists supplied, nonce_of request supplied /\ (supplied <> None -> supplied <> Some [] -> supplied = Some nonce))
    /\ (json_ok sid = true -> int_ok ts = true -> exists d,
          (s ← bytes_decode user_data; json_loads s) = Ok (JObj d)
          /\ dict_get "job_id" d = Some (json_order sorted_style sid)
          /\ dict_get "script_hash" d = Some (JStr (hash_or_empty (Some zip)))
          /\ dict_get "dataset_hash" d = Some (JStr (hash_or_empty csv))
          /\ dict_get "output_hash" d = Some (JStr (sha256_hex output_bytes))
          /\ dict_get "files_manifest_sha256" d
             = Some (JStr (files_manifest_sha256 (build_files_manifest files)))
          /\ dict_get "files_manifest_sha256" d = dict_get "files_manifest_sha256" resp
          /\ dict_get "context_hash" d = (if truthy ctx then Some (json_order sorted_style ctx) else None)
          /\ exists n, dict_get "nonce" d = Some (JStr n) /\ b64decode n = Ok nonce).
Proof.
  intros Hnsm Hctx Hok E Hatt.
  destruct (attested_execution_cases request w resp w' att E Hatt)
    as (sid & enc & zip & csv & output & files & supplied & result & wa & wb & wc & wd & Hsid & Henc & Hzip & Hcsv & Hsup
        & Hrun & Ha & -> & Ho & Hf & Hm & -> & Htr).
  apply nitro_execution_ok in Ha as (outb & nonce & req & doc & proof & ud & Hob & Hnonce & Hud & Hreq & Hp & _); [|done].
  apply execute_bundle_ok in Hrun as (target & content & n & w1 & Hs & Hv & Hran & Hw1).
  exists sid, enc, zip, csv, output, outb, files, nonce, ud, req, (seconds (clock (w_ticks wc))).
  destruct Hp as (? & ? & ? & ? & Ht & _).
  split_and!; try done; [|by eexists| |].
  - eexists _, target, content, n. split; [exact Hs|]. split; [done|]. eapply ran_trace; [exact Hran|].
    change (w_trace (tick wd)) with (w_trace wd). rewrite Ht, Htr, <-Hw1. set_solver.
  - exists supplied. split; [done|]. by eapply signed_nonce.
  - intros Hj Hts. rewrite Hud.
    destruct (execution_readback request sid zip csv output files supplied outb (seconds (clock (w_ticks wc))) nonce ctx)
      as (d & Hd & Hf1 & Hf2 & Hf3 & Hf4 & Hf5 & Hf6 & Hf7); [done..|].
    exists d. split_and!; try done. by rewrite Hm.
Qed.
End Stack.

(** ** The stack with the TDX backend *)

Section TdxStack.
Context `{Env, Settings, Ciphers, Machine, Interpreter, TdQuote}.

#[local] Existing Instance tdx_attestation | 0.

(** C36: with the TDX backend no execution succeeds.  The call the request handler
    makes for the attestation raises, so a request whose script ran, its session
    key already destroyed, is answered with an error, like every other. *)
Theorem tdx_execution_never_answers request w :
  exists resp w', _execute_encrypted_script request w = (Ok resp, w')
    /\ dict_get "success" resp = Some (JBool false).
Proof.
  destruct (execute_total_in request w) as (resp & w' & E & _). exists resp, w'. split; [done|].
  apply execute_cases in E as [(kind & msg & -> & _)|(sid & enc & zip & csv & timing & w1 & _ & _ & _ & _ & E)];
    [done|].
  apply run_bundle_cases in E as (success & output & files & wa & wb & wc & timing' & _ & _ & E).
  destruct success; [|by destruct E as [-> _]].
  apply attested_response_cases in E as (nonce & wd & we & b & result & _ & Ha & _). by destruct b.
Qed.
End TdxStack.

(** ** The stack on concrete parts *)

#[local] Existing Instances ToyNsm.env default_settings ToyCrypto.keys ToyCrypto.ciphers ToyCrypto.laws
  ToyMachine.machine ToyInterpreter.interpreter ToyCbor.cbor_flat ToyX509.x509 ToyNsm.nsm.

Module ToyStack.
Definition request : dict :=
  [("operation", JStr "execute_script_rsa_hybrid"); ("session_id", JStr ToyKeys.sid);
   ("encrypted_data", JStr ToyPayload.payload); ("atl_nonce", JStr "00ff")].
Definition executed : result exn dict * world := _execute_encrypted_script request ToyKeys.generate.
Definition response : dict := match executed.1 with Ok r => r | Raise _ => [] end.
Definition attestation : json := default JNull (dict_get "attestation" response).

Definition own_key : result exn dict * world :=
  _get_attestation [("session_id", JStr ToyKeys.sid)] ToyKeys.generate.
Definition own_key_response : dict := match own_key.1 with Ok r => r | Raise _ => [] end.

Definition proxy : result exn dict * world := _get_attestation_for_proxy [("job_id", JStr "j")] empty_world.
Definition proxy_response : dict := match proxy.1 with Ok r => r | Raise _ => [] end.
End ToyStack.

Lemma toy_executed : ToyStack.executed = (Ok ToyStack.response, ToyStack.executed.2).
Proof. vm_compute. reflexivity. Qed.

Lemma attested_execution_binding_witness :
  exists zip output files, decrypted_to (JStr ToyPayload.payload) (JStr ToyKeys.sid) zip
    /\ dict_get "output" ToyStack.response = Some (JStr output)
    /\ read_files_field ToyStack.response = Some files.
Proof.
  destruct (attested_execution_binding ToyStack.request ToyKeys.generate ToyStack.response ToyStack.executed.2
              ToyStack.attestation)
    as (sid & enc & zip & csv & output & files & ? & ? & ? & ? & ? & ? & Hsid & Henc & Hzip & _ & _ & _ & _ & _ & Ho & Hf & _).
  - exact toy_executed.
  - vm_compute. reflexivity.
  - injection Hsid as <-. injection Henc as <-. exists zip, output, files.
    split; [exact Hzip|split; [exact Ho|exact Hf]].
Defined.

Lemma nitro_execution_end_to_end_witness :
  exists user_data nonce device_request before,
    w_trace ToyStack.executed.2 = EvNsmIoctl device_request :: before
    /\ cbor_dumps (CMap [("Attestation", CMap [("user_data", CVal (VBytes user_data));
                                               ("nonce", CVal (VBytes nonce))])]) = Ok device_request.
Proof.
  destruct (nitro_execution_end_to_end ToyStack.request ToyKeys.generate ToyStack.response
              ToyStack.executed.2 ToyStack.attestation JNull)
    as (sid & enc & zip & csv & output & outb & files & nonce & ud & req & ts & _ & _ & _ & _ & _ & _ & _ & _ & (before & Hb) & Hd & _).
  - reflexivity.
  - reflexivity.
  - reflexivity.
  - exact toy_executed.
  - vm_compute. reflexivity.
  - exists ud, nonce, req, before. split; [exact Hb|exact Hd].
Defined.

Lemma get_attestation_own_key_witness :
  exists pub priv, km_live ToyKeys.sid ToyKeys.generate = Some (pub, priv).
Proof.
  destruct (get_attestation_own_key [("session_id", JStr ToyKeys.sid)] ToyKeys.generate
              ToyStack.own_key_response ToyStack.own_key.2)
    as (sid & pub & priv & nonce & att & wa & wb & Hsid & Hl & _).
  - vm_compute. reflexivity.
  - vm_compute. reflexivity.
  - injection Hsid as <-. exists pub, priv. exact Hl.
Defined.

Lemma proxy_attestation_binds_key_witness :
  exists pub encoded h, dict_get "public_key" ToyStack.proxy_response = Some (JStr pub)
    /\ str_encode pub = Ok encoded
    /\ dict_get "public_key_hash" ToyStack.proxy_response = Some (JStr h) /\ b64decode h = Ok (sha256 encoded).
Proof.
  destruct (proxy_attestation_binds_key [("job_id", JStr "j")] empty_world ToyStack.proxy_response ToyStack.proxy.2)
    as (sid & pub & encoded & ? & ? & ? & ? & ? & ? & Hpub & _ & _ & He & _ & _ & _ & h & Hh & Hd).
  - vm_compute. reflexivity.
  - vm_compute. reflexivity.
  - exists pub, encoded, h. repeat split; [exact Hpub|exact He|exact Hh|exact Hd].
Defined.
