(* ===== verification/Lifecycle.v ===== *)
(** * The life of a session key

    The wired enclave as a labelled step relation: a request served to its end,
    a round of the cleanup thread, or time passing.  [phase_of] maps its state to
    the three phases of a session, and every step is a step of the small machine
    [session_step] on phases, for every session at once.  Requests are served one
    after the other here; the header of the development says what holds of
    requests that overlap. *)
From stdpp Require Import base tactics list gmap sorting strings.
From Stdlib Require Import NArith ZArith Lia.
From S2P Require Import Prelude PyText PyCodec PyJson PyJsonParse World Config Crypto OutputFiles Interfaces Cbor LocalAttestation KeyPairManager DecryptService RequestHandler Attestation TdxAttestation Bundle ExecuteService Factory.

(** ** Session ids are drawn *)

Section Ids.
Context `{Env}.

(** [sid] is the id made from the [n]-th draw, for an [n] from [i] on, below [j]. *)
Definition drawn_between (i j : nat) (sid : str) : Prop :=
  exists n, i <= n < j /\ sid = new_session_id (uuid4_hex n).

Definition issued (sid : str) (w : world) : bool :=
  existsb (fun n => str_eqb sid (new_session_id (uuid4_hex n))) (List.seq 0 (w_draws w)).

Lemma issued_spec sid w : issued sid w = true <-> drawn_between 0 (w_draws w) sid.
Proof.
  unfold issued, drawn_between. rewrite existsb_exists. split.
  - intros (n & Hn%in_seq & He). exists n. split; [lia|]. by apply bool_decide_eq_true in He.
  - intros (n & Hn & ->). exists n. split; [apply in_seq; lia|]. by apply bool_decide_eq_true_2.
Qed.

(** Draws go on, and a session that is there was there before or has an id drawn
    since. *)
Definition advances : relation world := fun w w' =>
  w_draws w <= w_draws w'
  /\ forall sid s, w_sessions w' !! sid = Some s ->
     w_sessions w !! sid = Some s \/ drawn_between (w_draws w) (w_draws w') sid.

#[export] Instance advances_preorder : PreOrder advances.
Proof.
  split.
  - intros w. split; [lia|]. auto.
  - intros w1 w2 w3 [H12 Hs12] [H23 Hs23]. split; [lia|]. intros sid s Hs.
    destruct (Hs23 sid s Hs) as [Hs'|(n & ? & ->)]; [|right; exists n; split; [lia|done]].
    destruct (Hs12 sid s Hs') as [|(n & ? & ->)]; [by left|]. right. exists n. split; [lia|done].
Qed.

#[export] Instance advances_keeps {A} (m : IO A) : Keeps w_sessions m -> Draws m -> Steps advances m | 50.
Proof. intros Hm Hd w. split; [apply Hd|]. intros sid s. rewrite Hm. by left. Qed.

(** No session is added, and the draws are not reused. *)
Definition shrinks : relation world := fun w w' =>
  w_draws w <= w_draws w' /\ w_sessions w' ⊆ w_sessions w.

#[export] Instance shrinks_preorder : PreOrder shrinks.
Proof.
  split; [by split|]. intros w1 w2 w3 [] []. split; [lia|]. by etransitivity.
Qed.

#[export] Instance shrinks_keeps {A} (m : IO A) : Keeps w_sessions m -> Draws m -> Steps shrinks m | 50.
Proof. intros Hm Hd w. split; [apply Hd|]. by rewrite Hm. Qed.

Lemma shrinks_advances w w' : shrinks w w' -> advances w w'.
Proof. intros [Hd Hs]. split; [done|]. intros sid s Hl. left. by eapply lookup_weaken. Qed.

#[export] Instance steps_shrinks_advances {A} (m : IO A) : Steps shrinks m -> Steps advances m | 60.
Proof. intros Hm w. apply shrinks_advances, Hm. Qed.

Lemma shrinks_gone w w' sid : shrinks w w' -> w_sessions w !! sid = None -> w_sessions w' !! sid = None.
Proof. intros [_ Hs] Hn. by eapply lookup_weaken_None. Qed.
End Ids.

(** ** What each operation does to the sessions *)

Section Operations.
Context `{Env, Settings, CryptoLaws}.

Lemma looks_shrinks v w : shrinks w (looks v w).
Proof.
  split.
  - destruct v as [| | | |sid| |]; cbn [looks]; try lia. unfold looked_up. by destruct (w_sessions w !! sid).
  - apply map_subseteq_spec. intros sid s. apply looks_sub.
Qed.

#[export] Instance get_private_key_shrinks v : Steps shrinks (get_private_key v).
Proof. intros w. rewrite get_private_key_state. apply looks_shrinks. Qed.
#[export] Instance get_public_key_shrinks v : Steps shrinks (KeyPairManager.get_public_key v).
Proof. intros w. unfold KeyPairManager.get_public_key. rewrite get_public_key_format_state.
apply looks_shrinks. Qed.

#[export] Instance delete_keypair_shrinks v : Steps shrinks (delete_keypair v).
Proof.
  intros w. destruct (json_str_or v) as [(sid & ->)|Hv]; [|by rewrite delete_keypair_non_str].
  rewrite delete_keypair_run. split; [done|]. cbn [w_sessions set_sessions snd].
  apply map_subseteq_spec. intros k s. rewrite delete_session_lookup. by case_decide.
Qed.

#[export] Instance purge_shrinks : Steps shrinks _purge_expired_sessions.
Proof.
  intros w. unfold _purge_expired_sessions. st_run. split; [done|]. cbn [w_sessions set_sessions snd tick].
  apply map_subseteq_spec. intros k s. rewrite purge_lookup. destruct (w_sessions w !! k); cbn; [|done].
  by destruct (_is_session_valid _ _).
Qed.

#[export] Instance rsa_generate_draws key_size : Draws (rsa_generate_private_key key_size).
Proof. intros w. unfold draws_grow. cbn. lia. Qed.

#[export] Instance generate_keypair_advances job_id key_size : Steps advances (generate_keypair job_id key_size).
Proof.
  assert (Draws (generate_keypair job_id key_size)) as Hd by (unfold generate_keypair; apply _).
  intros w. split; [apply Hd|]. intros sid s.
  destruct (generate_keypair_cases job_id key_size w) as [(sk & pub & Hs & Hk & Hp)|(msg & w' & E & Hw)].
  - rewrite (generate_keypair_run _ _ sk pub) in * by done.
    cbn [w_sessions set_sessions snd tick drawn w_draws] in *.
    intros [[<- _]|[_ Hl]]%lookup_insert_Some; [|by left]. right. exists (S (w_draws w)). split; [lia|done].
  - rewrite E in *. cbn [snd] in *. rewrite Hw. by left.
Qed.

#[export] Instance km_get_private_key_shrinks v : Steps shrinks (km_get_private_key v).
Proof. exact (get_private_key_shrinks v). Qed.
#[export] Instance km_get_public_key_shrinks v : Steps shrinks (km_get_public_key v).
Proof. exact (get_public_key_shrinks v). Qed.
#[export] Instance km_delete_keypair_shrinks v : Steps shrinks (km_delete_keypair v).
Proof. exact (delete_keypair_shrinks v). Qed.
#[export] Instance km_generate_keypair_advances job_id key_size : Steps advances (km_generate_keypair job_id key_size).
Proof. exact (generate_keypair_advances job_id key_size). Qed.

Lemma deleted sid w : w_sessions (km_delete_keypair (JStr sid) w).2 !! sid = None.
Proof.
  cbn. rewrite delete_keypair_run. cbn [w_sessions set_sessions snd]. rewrite delete_session_lookup.
  by rewrite decide_True.
Qed.

#[export] Instance decrypt_shrinks v session_id : Steps shrinks (decrypt_combined_hybrid_data v session_id).
Proof. unfold decrypt_combined_hybrid_data, with_session_key, caught, failed. apply _. Qed.

(** A payload is only decrypted for a session that is there. *)
Lemma decrypted_stored v session_id w m w' :
  decrypt_combined_hybrid_data v session_id w = (Ok (true, m), w') ->
  exists sid, session_id = JStr sid /\ is_Some (w_sessions w !! sid).
Proof.
  assert (forall msg w1 w2, failed msg w1 <> (Ok (true, m), w2)) as Hf.
  { intros msg w1 w2 (b & _ & E)%lift_ok. by apply ret_ok in E as [E _]. }
  intros E. apply catch_ok in E as [E|(e & w1 & _ & E)].
  2: { exfalso. destruct (exn_cls e); by eapply Hf. }
  apply bind_ok in E as (pem & w1 & Hk & E).
  destruct pem as [[|b pem]|]; [exfalso; by eapply Hf| |exfalso; by eapply Hf].
  destruct (km_get_private_key_str _ _ _ _ Hk) as (sid & ->). exists sid. split; [done|].
  cbn in Hk. rewrite get_private_key_run in Hk. injection Hk as Hk _. rewrite valid_session_result in Hk.
  destruct (w_sessions w !! sid); [by eexists|done].
Qed.
End Operations.

(** ** What each request does *)

Section Requests.
Context `{Env, Settings, CryptoLaws, Machine, Interpreter, AttestationLaws}.

(** A bundle: one script at most, and the sessions stay. *)
#[export] Instance scripts_as_script_user path tree : Keeps scripts (_as_script_user path tree).
Proof.
  assert (forall paths, Keeps scripts (chown_all paths)) as Hc
    by (induction paths; cbn [chown_all]; unfold emit; apply _).
  unfold _as_script_user. apply _.
Qed.

#[export] Instance once_subprocess_run argv cwd env preexec : ScriptOnce (subprocess_run argv cwd env preexec).
Proof.
  unfold subprocess_run. apply once_bind_before; [apply _|intros c]. apply once_bind_before; [apply _|intros n].
  apply once_bind_after; [|intros; apply _]. intros w. right. done.
Qed.

#[export] Instance once_with_tempdir {A} (body : str -> IO A) :
  (forall d, ScriptOnce (body d)) -> ScriptOnce (with_tempdir body).
Proof. intros Hb. unfold with_tempdir. apply _. Qed.

#[export] Instance once_execute_bundle bundle sid script_path csv : ScriptOnce (execute_bundle bundle sid script_path csv).
Proof. unfold execute_bundle, bundle_body, inject_csv, run_target. apply _. Qed.

#[export] Instance draws_with_tempdir {A} (body : str -> IO A) :
  (forall d, Draws (body d)) -> Draws (with_tempdir body).
Proof.
  intros Hb. unfold with_tempdir. apply (steps_bind draws_grow); [apply _|intros n].
  apply (steps_bind draws_grow); [intros w; unfold draws_grow; cbn; lia|]. apply _.
Qed.

#[export] Instance execute_bundle_shrinks bundle sid script_path csv :
  Steps shrinks (execute_bundle bundle sid script_path csv).
Proof.
  assert (Keeps w_sessions (execute_bundle bundle sid script_path csv)) as Hs.
  { unfold execute_bundle, bundle_body, inject_csv, run_target. apply _. }
  assert (Draws (execute_bundle bundle sid script_path csv)) as Hd.
  { unfold execute_bundle, bundle_body, inject_csv, run_target. apply _. }
  apply _.
Qed.

#[export] Instance es_execute_bundle_shrinks bundle sid script_path csv :
  Steps shrinks (es_execute_bundle bundle sid script_path csv).
Proof. apply execute_bundle_shrinks. Qed.
#[export] Instance ds_decrypt_shrinks v sid : Steps shrinks (ds_decrypt_combined_hybrid_data v sid).
Proof. apply decrypt_shrinks. Qed.
#[export] Instance ds_decrypt_scripts v sid : Keeps scripts (ds_decrypt_combined_hybrid_data v sid).
Proof. cbn. apply _. Qed.

#[export] Instance attested_response_shrinks request sid zip csv output files timing :
  Steps shrinks (attested_response request sid zip csv output files timing).
Proof. unfold attested_response. apply _. Qed.
#[export] Instance attested_response_scripts request sid zip csv output files timing :
  Keeps scripts (attested_response request sid zip csv output files timing).
Proof. unfold attested_response. apply _. Qed.

#[export] Instance run_bundle_shrinks request sid zip csv timing : Steps shrinks (run_bundle request sid zip csv timing).
Proof. unfold run_bundle, cleanup_session. apply _. Qed.
#[export] Instance decrypt_step_shrinks encrypted session_id key timing :
  Steps shrinks (decrypt_step encrypted session_id key timing).
Proof. unfold decrypt_step. apply _. Qed.
#[export] Instance execute_shrinks request : Steps shrinks (_execute_encrypted_script request).
Proof. unfold _execute_encrypted_script. apply _. Qed.

Lemma execute_bundle_returns bundle sid script_path csv w :
  exists r w', es_execute_bundle bundle sid script_path csv w = (Ok r, w').
Proof.
  assert (total_in (fun _ => True) (execute_bundle bundle sid script_path csv)) as Ht.
  { unfold execute_bundle. apply total_time; intros now. apply total_catch; [|intros e; by apply total_ret].
    intros w1. by destruct (with_tempdir _ w1).1. }
  destruct (Ht w) as (r & w' & E & _). eauto.
Qed.

(** When a bundle has been run, its session is gone. *)
Lemma run_bundle_gone request sid zip csv timing w :
  w_sessions (run_bundle request (JStr sid) zip csv timing w).2 !! sid = None.
Proof.
  unfold run_bundle. rewrite run_bind, run_time.
  destruct (execute_bundle_returns zip (JStr sid) None csv (tick w)) as ([[success output] files] & w1 & E).
  rewrite run_bind, E, run_bind, run_time. cbn beta iota zeta. unfold cleanup_session. rewrite run_bind.
  pose proof (deleted sid (tick w1)) as Hgone.
  destruct (km_delete_total (JStr sid) (tick w1)) as (r & w2 & Hd). rewrite Hd in *. cbn [fst snd] in *.
  destruct success; [|done]. eapply shrinks_gone; [apply attested_response_shrinks|done].
Qed.

(** One script at most for a request, and only for a session that is stored
    before it and gone after it. *)
Definition outcome (session_id : option json) (w w' : world) : Prop :=
  scripts w' = scripts w
  \/ exists sid, session_id = Some (JStr sid) /\ scripts w' = S (scripts w)
       /\ is_Some (w_sessions w !! sid) /\ w_sessions w' !! sid = None.

(** Before the script, if there is one. *)
Definition before : relation world := fun w w' => shrinks w w' /\ scripts w' = scripts w.

Lemma outcome_bind {A B} session_id w (m : IO A) (k : A -> IO B) w1 :
  Steps shrinks m -> Keeps scripts m -> before w w1 ->
  (forall a w2, m w1 = (Ok a, w2) -> before w w2 -> outcome session_id w (k a w2).2) ->
  outcome session_id w ((m ≫= k) w1).2.
Proof.
  intros Hs Hk [Hw1 Hn] Hkont. specialize (Hs w1). specialize (Hk w1). rewrite run_bind.
  destruct (m w1) as [[a|e] w2]; cbn [fst snd] in *.
  - apply (Hkont a w2 eq_refl). split; [by etransitivity|congruence].
  - left. cbn. congruence.
Qed.

Lemma outcome_catch {A} session_id w (m : IO A) (h : exn -> IO A) w1 :
  (forall e w2, (h e w2).2 = w2) -> outcome session_id w (m w1).2 -> outcome session_id w (st_try m h w1).2.
Proof. intros Hh Ho. rewrite run_try. destruct (m w1) as [[r|e] w2]; [done|]. by rewrite Hh. Qed.

#[export] Instance once_run_bundle request sid zip csv timing : ScriptOnce (run_bundle request sid zip csv timing).
Proof.
  unfold run_bundle, cleanup_session. apply once_bind_before; [apply _|intros t0].
  apply once_bind_after; [apply once_execute_bundle|]. intros [[success output] files]. apply _.
Qed.

Lemma run_bundle_outcome request sid zip csv timing w w1 :
  before w w1 -> is_Some (w_sessions w !! sid) ->
  outcome (Some (JStr sid)) w (run_bundle request (JStr sid) zip csv timing w1).2.
Proof.
  intros [_ Hn] Hs. destruct (once_run_bundle request (JStr sid) zip csv timing w1) as [Hr|Hr].
  - left. congruence.
  - right. exists sid. split_and!; [done|congruence|done|apply run_bundle_gone].
Qed.

Lemma decrypt_step_stored encrypted session_id key timing w m timing' w' :
  decrypt_step encrypted session_id key timing w = (Ok (true, m, timing'), w') ->
  exists sid, session_id = JStr sid /\ is_Some (w_sessions w !! sid).
Proof.
  intros E%time_ok. apply bind_ok in E as ([success plain] & w1 & Hd & E).
  apply time_ok, ret_ok in E as [[= -> -> _] _]. by apply decrypted_stored in Hd.
Qed.

#[export] Instance decrypt_step_scripts encrypted session_id key timing :
  Keeps scripts (decrypt_step encrypted session_id key timing).
Proof. unfold decrypt_step. apply _. Qed.

Lemma before_refl w : before w w.
Proof. by split. Qed.

Lemma execute_outcome request w :
  outcome (dict_get "session_id" request) w (_execute_encrypted_script request w).2.
Proof.
  unfold _execute_encrypted_script. apply outcome_catch; [done|].
  apply outcome_bind; [apply _..|apply before_refl|]. intros session_id w1 Hsid Hw1.
  assert (dict_get "session_id" request = Some session_id) as ->.
  { unfold dict_index in Hsid. destruct (dict_get "session_id" request); [by injection Hsid as ->|done]. }
  apply outcome_bind; [apply _..|done|]. intros encrypted w2 _ Hw2.
  apply outcome_bind; [apply _..|done|]. intros _ w3 _ Hw3.
  apply outcome_bind; [apply _..|done|]. intros _ w4 _ Hw4.
  apply outcome_bind; [apply _..|done|]. intros [[success zip] timing] w5 Hd Hw5.
  destruct success; cbn [negb].
  2: { apply outcome_bind; [apply _..|done|]. intros msg w6 _ [_ Hw6]. by left. }
  apply decrypt_step_stored in Hd as (sid & -> & s & Hs).
  assert (is_Some (w_sessions w !! sid)) as Hlive.
  { exists s. destruct Hw4 as [[_ Hsub] _]. by eapply lookup_weaken. }
  destruct (truthy _); [|by apply run_bundle_outcome].
  apply outcome_bind; [apply _..|done|]. intros [[success csv] timing'] w6 _ Hw6.
  destruct success; cbn [negb]; [by apply run_bundle_outcome|].
  apply outcome_bind; [apply _..|done|]. intros msg w7 _ [_ Hw7]. by left.
Qed.

(** The other operations start no script. *)
#[export] Instance km_generate_scripts job_id key_size : Keeps scripts (km_generate_keypair job_id key_size).
Proof. apply _. Qed.

#[export] Instance generate_keypair_request_advances request : Steps advances (_generate_keypair request).
Proof. unfold _generate_keypair. apply _. Qed.
#[export] Instance generate_keypair_request_scripts request : Keeps scripts (_generate_keypair request).
Proof. unfold _generate_keypair. apply _. Qed.
#[export] Instance get_attestation_advances request : Steps advances (_get_attestation request).
Proof. unfold _get_attestation. apply _. Qed.
#[export] Instance get_attestation_scripts request : Keeps scripts (_get_attestation request).
Proof. unfold _get_attestation. apply _. Qed.
#[export] Instance proxy_advances request : Steps advances (_get_attestation_for_proxy request).
Proof. unfold _get_attestation_for_proxy. apply _. Qed.
#[export] Instance proxy_scripts request : Keeps scripts (_get_attestation_for_proxy request).
Proof. unfold _get_attestation_for_proxy. apply _. Qed.

Context (kms_attestation : option (json -> IO (bool * json))).

Lemma dispatch_outcome request operation w :
  advances w (dispatch kms_attestation request operation w).2
  /\ outcome (dict_get "session_id" request) w (dispatch kms_attestation request operation w).2.
Proof.
  unfold dispatch.
  destruct (eq_str operation "generate_rsa_keypair"); [split; [apply steps|left; apply keeps]|].
  destruct (eq_str operation "execute_script_rsa_hybrid").
  { split; [apply shrinks_advances, execute_shrinks|apply execute_outcome]. }
  destruct (eq_str operation "health_check"); [split; [apply steps|left; apply keeps]|].
  destruct (eq_str operation "get_attestation"); [split; [apply steps|left; apply keeps]|].
  destruct (eq_str operation "get_attestation_for_proxy"); [split; [apply steps|left; apply keeps]|].
  destruct (eq_str operation "get_enclave_info"); split; [apply steps|left; apply keeps|apply steps|left; apply keeps].
Qed.

(** The session a request names. *)
Definition request_session (request_data : str) : option json :=
  match _parse_request request_data with
  | Ok (JObj request) => dict_get "session_id" request
  | _ => None
  end.

Lemma handle_request_outcome request_data w :
  advances w (handle_request kms_attestation request_data w).2
  /\ outcome (request_session request_data) w (handle_request kms_attestation request_data w).2.
Proof.
  unfold handle_request, request_session. rewrite run_try, run_bind, run_lift.
  assert (forall sid, advances w w /\ outcome sid w w) as Hrefl by (intros sid; split; [done|by left]).
  destruct (_parse_request request_data) as [request|e]; [|apply Hrefl].
  destruct request as [| | | | | |request]; try apply Hrefl. cbn [fst snd].
  destruct (validate_request request); [apply Hrefl|]. rewrite run_bind, run_lift.
  destruct (dict_index "operation" request) as [operation|e]; [|apply Hrefl].
  pose proof (dispatch_outcome request operation w) as Ho. cbn [fst snd].
  destruct (dispatch kms_attestation request operation w) as [[r|e] w']; exact Ho.
Qed.
End Requests.

(** ** A script ends its session *)

Section Destruction.
Context `{Env, Settings, CryptoLaws, Machine, Interpreter, AttestationLaws}.
Context (kms_attestation : option (json -> IO (bool * json))).

(** C3: a script ends its session, whatever comes of it.  When a request, of any
    text, has started a script, the session that it names was stored before and
    the script is the only one; and afterwards no look-up of its private or its
    public key finds it, however the request is answered: with a success, with
    or without an attestation, with the failure of the script, with an error of
    the attestation service or of a malformed nonce, or, as always with the TDX
    backend, with the error of the call.  This lasts until a session is added. *)
Theorem execution_destroys_key request_data w :
  let w' := (handle_request kms_attestation request_data w).2 in
  scripts w' <> scripts w ->
  exists sid resp,
    request_session request_data = Some (JStr sid)
    /\ (handle_request kms_attestation request_data w).1 = Ok resp
    /\ is_Some (w_sessions w !! sid)
    /\ scripts w' = S (scripts w)
    /\ forall w'', w_sessions w'' ⊆ w_sessions w' ->
         km_live sid w'' = None
         /\ (km_get_private_key (JStr sid) w'').1 = Ok None
         /\ (km_get_public_key (JStr sid) w'').1 = Ok None.
Proof.
  cbn zeta. intros Hran. destruct (handle_request_outcome kms_attestation request_data w) as [_ [Ho|Ho]]; [done|].
  destruct Ho as (sid & Hsid & Hn & Hs & Hgone).
  destruct (handle_request_responds kms_attestation request_data w) as (resp & w1 & E & _).
  exists sid, resp. split_and!; [done|by rewrite E|done|done|]. intros w'' Hsub.
  assert (km_live sid w'' = None) as Hl.
  { apply (km_delete_gone sid w''). cbn. rewrite delete_keypair_run. cbn [w_sessions set_sessions snd].
    apply map_eq. intros k. rewrite delete_session_lookup. case_decide as Hk; [subst k|done].
    eapply lookup_weaken_None; [exact Hgone|done]. }
  split_and!; [done|by rewrite km_get_private_key_live, Hl|by rewrite km_get_public_key_live, Hl].
Qed.
End Destruction.

(** ** The machine of one session *)

Inductive phase : Type := Future | Live | Past.

#[export] Instance phase_eq_dec : EqDecision phase.
Proof. solve_decision. Defined.

(** A script runs only when the session is live, and the session is past then. *)
Inductive session_step : phase -> bool -> phase -> Prop :=
  | session_stays p : session_step p false p
  | session_starts : session_step Future false Live
  | session_lost : session_step Future false Past
  | session_ends : session_step Live false Past
  | session_runs : session_step Live true Past.

(** A session that is past stays past. *)
Inductive session_steps : phase -> list bool -> phase -> Prop :=
  | session_steps_nil p : session_steps p [] p
  | session_steps_cons p b q bs r : session_step p b q -> session_steps q bs r -> session_steps p (b :: bs) r.

Lemma session_steps_once p bs q :
  session_steps p bs q -> length (List.filter id bs) <= 1 /\ (p = Past -> List.filter id bs = []).
Proof.
  induction 1 as [p|p b q bs r Hstep _ [IH1 IH2]]; [cbn; split; [lia|done]|].
  destruct Hstep; cbn [List.filter id]; split; try done.
  rewrite IH2 by done. cbn. lia.
Qed.

Section Enclave.
Context `{Env, Settings, CryptoLaws, Machine, Interpreter, AttestationLaws}.
Context (kms_attestation : option (json -> IO (bool * json))).

Definition phase_of (sid : str) (w : world) : phase :=
  match w_sessions w !! sid with
  | Some _ => Live
  | None => if issued sid w then Past else Future
  end.

(** The session whose script a request ran. *)
Definition executed (request_data : str) (w w' : world) : option str :=
  if (scripts w' =? scripts w)%nat then None
  else match request_session request_data with Some (JStr sid) => Some sid | _ => None end.

Inductive enclave_step : world -> option str -> world -> Prop :=
  | step_request request_data w :
      let w' := (handle_request kms_attestation request_data w).2 in
      enclave_step w (executed request_data w w') w'
  | step_cleanup w : enclave_step w None (_purge_expired_sessions w).2
  | step_time w : enclave_step w None (tick w).

(** A run, with its labels. *)
Inductive enclave_run : world -> list (option str) -> world -> Prop :=
  | run_nil w : enclave_run w [] w
  | run_cons w1 l w2 ls w3 : enclave_step w1 l w2 -> enclave_run w2 ls w3 -> enclave_run w1 (l :: ls) w3.

(** Stored sessions have drawn ids. *)
Definition ids_issued (w : world) : Prop := forall sid, is_Some (w_sessions w !! sid) -> issued sid w = true.

(** What a label says of the two worlds. *)
Definition step_outcome (l : option str) (w w' : world) : Prop :=
  match l with
  | None => scripts w' = scripts w
  | Some sid => scripts w' = S (scripts w) /\ is_Some (w_sessions w !! sid) /\ w_sessions w' !! sid = None
  end.

Lemma enclave_step_outcome w l w' : enclave_step w l w' -> advances w w' /\ step_outcome l w w'.
Proof.
  intros [request_data w0 w1|w0|w0].
  - destruct (handle_request_outcome kms_attestation request_data w0) as [Ha Ho]. fold w1 in Ha, Ho.
    split; [done|].
    unfold executed. destruct Ho as [Ho|(sid & -> & Hn & Hs)]; [by rewrite (proj2 (Nat.eqb_eq _ _) Ho)|].
    rewrite Hn, (proj2 (Nat.eqb_neq _ _)) by lia. by split.
  - split; [apply shrinks_advances, purge_shrinks|done].
  - split; [|done]. split; [done|]. by left.
Qed.

Lemma advances_issued w w' : advances w w' -> ids_issued w -> ids_issued w'.
Proof.
  intros [Hd Hs] Hi sid [s Hl]. apply issued_spec. destruct (Hs sid s Hl) as [Hl'|(n & Hn & ->)].
  - destruct (proj1 (issued_spec sid w)) as (n & Hn & ->); [apply Hi; by eexists|]. exists n. split; [lia|done].
  - exists n. split; [lia|done].
Qed.

Lemma issued_mono sid w w' : w_draws w <= w_draws w' -> issued sid w = true -> issued sid w' = true.
Proof. rewrite !issued_spec. intros Hd (n & Hn & ->). exists n. split; [lia|done]. Qed.

(** The ids drawn so far differ: the 32 random bits of a session id have not
    repeated. *)
Definition fresh_ids (w : world) : Prop := forall n m, n < w_draws w -> m < w_draws w ->
  new_session_id (uuid4_hex n) = new_session_id (uuid4_hex m) -> n = m.

Definition drawn_ids (w : world) : list str :=
  (fun n => new_session_id (uuid4_hex n)) <$> List.seq 0 (w_draws w).

(** Names that have not repeated so far. *)
Lemma names_NoDup (name : nat -> str) w :
  NoDup (name <$> List.seq 0 (w_draws w)) ->
  forall n m, n < w_draws w -> m < w_draws w -> name n = name m -> n = m.
Proof.
  intros Hnd n m Hn Hm E.
  assert (forall k, k < w_draws w -> (name <$> List.seq 0 (w_draws w)) !! k = Some (name k)) as Hk
    by (intros k Hlt; rewrite list_lookup_fmap, lookup_seq_lt by done; done).
  eapply NoDup_lookup; [exact Hnd|by apply Hk|]. rewrite E. by apply Hk.
Qed.

Lemma fresh_ids_NoDup w : NoDup (drawn_ids w) -> fresh_ids w.
Proof. exact (names_NoDup (fun n => new_session_id (uuid4_hex n)) w). Qed.

Lemma fresh_ids_before w w' : w_draws w <= w_draws w' -> fresh_ids w' -> fresh_ids w.
Proof. intros Hd Hf n m Hn Hm. apply Hf; lia. Qed.

Lemma advances_phase sid w w' :
  fresh_ids w' -> advances w w' -> w_sessions w !! sid = None -> issued sid w = true -> w_sessions w' !! sid = None.
Proof.
  intros Hf [Hd Hs] Hn (n & Hlt & ->)%issued_spec. destruct (w_sessions w' !! _) as [s|] eqn:Hl; [|done].
  destruct (Hs _ s Hl) as [Hl'|(m & Hm & E)]; [congruence|]. apply Hf in E; lia.
Qed.

Lemma step_refines w l w' sid :
  ids_issued w -> fresh_ids w' -> enclave_step w l w' ->
  session_step (phase_of sid w) (bool_decide (l = Some sid)) (phase_of sid w').
Proof.
  intros Hi Hf [Ha Ho]%enclave_step_outcome. unfold phase_of. case_bool_decide as Hl.
  - subst l. destruct Ho as (_ & [s Hs] & Hgone). rewrite Hs, Hgone.
    rewrite (issued_mono sid w) by (try apply Ha; apply Hi; by eexists). constructor.
  - destruct (w_sessions w !! sid) as [s|] eqn:Hs, (w_sessions w' !! sid) as [s'|] eqn:Hs'; try constructor.
    + rewrite (issued_mono sid w) by (try apply Ha; apply Hi; by eexists). constructor.
    + destruct (issued sid w) eqn:Hw; [|constructor]. by rewrite (advances_phase sid w w') in Hs'.
    + destruct (issued sid w) eqn:Hw; [rewrite (issued_mono sid w) by (try apply Ha; done); constructor|].
      destruct (issued sid w'); constructor.
Qed.

Lemma run_draws w ls w' : enclave_run w ls w' -> w_draws w <= w_draws w'.
Proof.
  induction 1 as [|w1 l w2 ls w3 [[Hd _] _]%enclave_step_outcome _ IH]; lia.
Qed.

Lemma run_refines w ls w' sid :
  ids_issued w -> fresh_ids w' -> enclave_run w ls w' ->
  session_steps (phase_of sid w) (map (fun l => bool_decide (l = Some sid)) ls) (phase_of sid w').
Proof.
  intros Hi Hf Hrun. revert Hi. induction Hrun as [w|w1 l w2 ls w3 Hstep Hrun IH]; intros Hi; [constructor|].
  apply run_draws in Hrun. cbn [map].
  econstructor; [apply step_refines; [done|by eapply fresh_ids_before|done]|]. apply IH; [done|].
  apply enclave_step_outcome in Hstep as [Ha _]. by eapply advances_issued.
Qed.

Lemma no_ids_issued : ids_issued empty_world.
Proof. intros sid [s Hs]. cbn in Hs. by rewrite lookup_empty in Hs. Qed.

(** C4: the enclave, request by request and with its cleanup thread at any point
    between them, is for every session id an implementation of the machine
    [session_step]: an id waits for its draw, then names a live session at most
    once, and a script is run for it only while it is live, which ends it. *)
Theorem enclave_refines_session sid ls w :
  enclave_run empty_world ls w -> fresh_ids w ->
  session_steps Future (map (fun l => bool_decide (l = Some sid)) ls) (phase_of sid w).
Proof. intros Hrun Hf. exact (run_refines empty_world ls w sid no_ids_issued Hf Hrun). Qed.

Lemma run_scripts w ls w' : enclave_run w ls w' -> scripts w' = scripts w + length (omap id ls).
Proof.
  induction 1 as [w|w1 l w2 ls w3 [_ Ho]%enclave_step_outcome _ IH]; [cbn; lia|].
  rewrite IH. destruct l; cbn in *; [destruct Ho as [Ho _]|]; rewrite Ho; cbn; lia.
Qed.

Lemma filter_omap sid (ls : list (option str)) :
  length (List.filter id (map (fun l => bool_decide (l = Some sid)) ls)) = length (List.filter (str_eqb sid) (omap id ls)).
Proof.
  induction ls as [|[s|] ls IH]; [done| |exact IH].
  change (omap id (Some s :: ls)) with (s :: omap id ls). cbn [map List.filter].
  assert (bool_decide (Some s = Some sid) = str_eqb sid s) as -> by (unfold str_eqb; do 2 case_bool_decide; congruence).
  change (id (str_eqb sid s)) with (str_eqb sid s). destruct (str_eqb sid s); cbn [length]; by rewrite IH.
Qed.

Lemma at_most_once_NoDup (l : list str) : (forall s, length (List.filter (str_eqb s) l) <= 1) -> NoDup l.
Proof.
  induction l as [|x l IH]; intros Hl; constructor.
  - intros Hin. specialize (Hl x). cbn in Hl. unfold str_eqb at 1 in Hl.
    rewrite bool_decide_eq_true_2 in Hl by done.
    cbn in Hl. assert (x ∈ List.filter (str_eqb x) l) as Hf
      by (apply list_elem_of_In, filter_In; split; [by apply list_elem_of_In|by apply bool_decide_eq_true_2]).
    destruct (List.filter (str_eqb x) l); [by apply elem_of_nil in Hf|cbn in Hl; lia].
  - apply IH. intros s. specialize (Hl s). cbn in Hl. destruct (str_eqb s x); cbn in Hl; lia.
Qed.

Lemma past_stays p bs q : session_steps p bs q -> p = Past -> q = Past.
Proof. induction 1 as [|p b q bs r Hstep _ IH]; [done|]. intros ->. by inversion Hstep; subst; auto. Qed.

Lemma ran_past p bs q : session_steps p bs q -> true ∈ bs -> q = Past.
Proof.
  induction 1 as [|p b q bs r Hstep Hsteps IH]; [by intros ?%elem_of_nil|].
  intros [<-|Hin]%elem_of_cons; [|by apply IH]. eapply past_stays; [exact Hsteps|]. by inversion Hstep.
Qed.

Lemma run_once ls w :
  enclave_run empty_world ls w -> fresh_ids w ->
  NoDup (omap id ls) /\ scripts w = length (omap id ls) /\ Forall (fun sid => phase_of sid w = Past) (omap id ls).
Proof.
  intros Hrun Hf. pose proof (fun sid => run_refines _ _ _ sid no_ids_issued Hf Hrun) as Hr. split_and!.
  - apply at_most_once_NoDup. intros sid. rewrite <-filter_omap. eapply session_steps_once. apply Hr.
  - by rewrite (run_scripts _ _ _ Hrun).
  - apply Forall_forall. intros sid (l & Hl & Hid)%list_elem_of_omap. cbn in Hid. subst l.
    eapply ran_past; [apply (Hr sid)|]. apply list_elem_of_fmap. exists (Some sid).
    split; [by rewrite bool_decide_eq_true_2|done].
Qed.

(** No session runs two scripts.  In a run of the enclave from its start, the
    processes started for researcher scripts are as many as the sessions whose
    requests started them, and these sessions are all different: a request sent
    again, or another one for the same session, starts nothing. *)
Theorem session_runs_once ls w :
  enclave_run empty_world ls w -> fresh_ids w -> scripts w = length (omap id ls) /\ NoDup (omap id ls).
Proof.
  intros Hrun Hf. by destruct (run_once ls w Hrun Hf) as (? & ? & _).
Qed.
End Enclave.

(** ** A run of the concrete stack

    A keypair is requested, a bundle run with it, the same request sent again,
    and the cleanup thread comes by. *)

#[local] Existing Instances ToyNsm.env default_settings ToyCrypto.keys ToyCrypto.ciphers ToyCrypto.laws
  ToyMachine.machine ToyInterpreter.interpreter ToyCbor.cbor_flat ToyX509.x509 ToyNsm.nsm.

Module ToyRun.
Definition keypair_request : str :=
  json_dumps (JObj [("operation", JStr "generate_rsa_keypair"); ("job_id", JStr "j")]).
Definition execute_request : str := json_dumps (JObj ToyStack.request).

Definition serve (request_data : str) (w : world) : world := (handle_request None request_data w).2.
Definition w1 : world := serve keypair_request empty_world.
Definition w2 : world := serve execute_request w1.
Definition w3 : world := serve execute_request w2.
Definition w4 : world := (_purge_expired_sessions w3).2.

Definition labels : list (option str) :=
  [executed keypair_request empty_world w1; executed execute_request w1 w2; executed execute_request w2 w3; None].
End ToyRun.

Lemma toy_labels : ToyRun.labels = [None; Some ToyKeys.sid; None; None].
Proof. vm_compute. reflexivity. Qed.

Lemma serve_step request_data w w' :
  w' = ToyRun.serve request_data w -> enclave_step None w (executed request_data w w') w'.
Proof. intros ->. exact (step_request None request_data w). Qed.

Lemma toy_run : enclave_run None empty_world ToyRun.labels ToyRun.w4.
Proof.
  apply (run_cons _ _ _ ToyRun.w1); [by apply serve_step|].
  apply (run_cons _ _ _ ToyRun.w2); [by apply serve_step|].
  apply (run_cons _ _ _ ToyRun.w3); [by apply serve_step|].
  apply (run_cons _ _ _ ToyRun.w4); [exact (step_cleanup None ToyRun.w3)|]. constructor.
Qed.

Lemma toy_fresh : fresh_ids ToyRun.w4.
Proof. apply fresh_ids_NoDup. apply (bool_decide_eq_true (NoDup (drawn_ids ToyRun.w4))). vm_compute.
reflexivity. Qed.

Lemma enclave_refines_session_witness :
  session_steps Future [false; true; false; false] Past.
Proof.
  pose proof (enclave_refines_session None ToyKeys.sid ToyRun.labels ToyRun.w4 toy_run toy_fresh) as Hs.
  rewrite toy_labels in Hs. exact Hs.
Defined.

Lemma session_runs_once_witness : scripts ToyRun.w4 = 1 /\ NoDup [ToyKeys.sid].
Proof.
  pose proof (session_runs_once None ToyRun.labels ToyRun.w4 toy_run toy_fresh) as Hs.
  rewrite toy_labels in Hs. exact Hs.
Defined.

(** The bundle of the run, with both backends: the TDX one has no answer but an
    error, and the session is gone all the same. *)
#[local] Abbreviation served i := (@handle_request ToyNsm.env _ _ _ i None ToyRun.execute_request ToyRun.w1).

Lemma execution_destroys_key_witness :
  (km_get_private_key (JStr ToyKeys.sid) ToyRun.w2).1 = Ok None
  /\ (exists msg, (served (@tdx_attestation ToyNsm.env ToyTdx.tdquote)).1
       = Ok (_error_response ("Execution error: " ++ msg)))
  /\ (km_get_private_key (JStr ToyKeys.sid) (served (@tdx_attestation ToyNsm.env ToyTdx.tdquote)).2).1 = Ok None.
Proof.
  split; [|split].
  - destruct (execution_destroys_key None ToyRun.execute_request ToyRun.w1) as (sid & resp & Hsid & _ & _ & _ & Hgone).
    + vm_compute. discriminate.
    + destruct (Hgone ToyRun.w2) as (_ & Hk & _); [reflexivity|].
      assert (sid = ToyKeys.sid) as -> by (vm_compute in Hsid; injection Hsid as <-; vm_compute; reflexivity). exact Hk.
  - eexists. vm_compute. reflexivity.
  - destruct (@execution_destroys_key ToyNsm.env _ _ _ _ _ (@tdx_attestation ToyNsm.env ToyTdx.tdquote) _
      None ToyRun.execute_request ToyRun.w1) as (sid & resp & Hsid & _ & _ & _ & Hgone).
    + vm_compute. discriminate.
    + destruct (Hgone (served (@tdx_attestation ToyNsm.env ToyTdx.tdquote)).2) as (_ & Hk & _); [reflexivity|].
      assert (sid = ToyKeys.sid) as -> by (vm_compute in Hsid; injection Hsid as <-; vm_compute; reflexivity). exact Hk.
Defined.

(** ** Requests that overlap

    The key is deleted after the run.  Two requests for one session that have
    both decrypted before either has run its bundle both run it. *)
Module ToyOverlap.
Definition decrypted (w : world) : result exn (bool * bytes * dict) * world :=
  decrypt_step (JStr ToyPayload.payload) (JStr ToyKeys.sid) "decrypt_zip_ms" [] w.

Definition first : result exn (bool * bytes * dict) * world := decrypted ToyKeys.generate.
Definition second : result exn (bool * bytes * dict) * world := decrypted first.2.

(** The rest of a request, from what it decrypted. *)
Definition finish (r : result exn (bool * bytes * dict)) (w : world) : world :=
  match r with
  | Ok (true, zip, timing) => (run_bundle ToyStack.request (JStr ToyKeys.sid) zip None timing w).2
  | _ => w
  end.
End ToyOverlap.

Example overlapping_requests_run_twice :
  scripts (ToyOverlap.finish ToyOverlap.second.1 (ToyOverlap.finish ToyOverlap.first.1 ToyOverlap.second.2)) = 2.
Proof. vm_compute. reflexivity. Qed.
