(* ===== verification/Overlap.v ===== *)
(** * Requests that overlap

    The threads of the clients take turns ([Threads.handle_request_turns]), in
    any order, with rounds of the cleanup thread and interference of the scripts'
    processes between them.  A schedule is a list of choices, and [interleave]
    runs it.  What [Lifecycle] shows for
    requests served one after the other holds here in this form: a thread starts
    one script at most, only if it arrived before its session was past, and its
    session is past when it has answered. *)
From stdpp Require Import base tactics list gmap sorting strings.
From Stdlib Require Import NArith ZArith Lia.
From S2P Require Import Prelude PyText PyCodec PyJson PyJsonParse World Config Crypto OutputFiles Interfaces Cbor LocalAttestation KeyPairManager DecryptService RequestHandler Programs Threads Attestation Bundle ExecuteService BundleTurns Factory Lifecycle.

(** ** Schedules *)

(** A client's thread: its request, how many scripts it has started, and what it
    still has to do. *)
Record thread : Type := Thread {
  th_request : str;
  th_ran : nat;
  th_prog : prog dict;
}.

Record system : Type := System {
  threads : list thread;
  process : world;
}.

(** All scripts of a root enclave run as one user.  From the moment that a
    directory is its own, its processes, those of other sessions and those that
    have outlived their script included, may do anything with it. *)
Section Handover.
Context `{Settings}.

Definition hands_over (dir : str) (ev : event) : bool :=
  match ev with
  | EvChown path uid _ => str_eqb path dir && (uid =? SCRIPT_UID settings)%Z
  | _ => false
  end.
Definition handed_over (dir : str) (w : world) : bool := existsb (hands_over dir) (w_trace w).

(** They put [tree] there, or remove it. *)
Definition meddled (dir : str) (tree : option node) (w : world) : world :=
  if handed_over dir w then set_tmp (partial_alter (const tree) dir) w else w.
End Handover.

(** What happens next: a request arrives, the [i]-th thread has a turn, the
    cleanup thread makes a round, a process of the script user changes a
    directory that has been handed over, or time passes. *)
Inductive choice : Type :=
  | Arrive (request_data : str)
  | TurnOf (i : nat)
  | Cleanup
  | Meddle (dir : str) (tree : option node)
  | Wait.

Section Schedules.
Context `{Env, Settings, Ciphers, Machine, Interpreter, IAttestationService}.
Context (kms_attestation : option (json -> IO (bool * json))).

Definition arrive (request_data : str) : thread :=
  Thread request_data 0 (handle_request_turns kms_attestation request_data).

(** One turn, with the scripts it started. *)
Definition thread_turn (th : thread) (w : world) : thread * world :=
  match th_prog th with
  | Done _ => (th, w)
  | Turn next after =>
      let w' := after w in
      (Thread (th_request th) (th_ran th + (scripts w' - scripts w)) (next w), w')
  end.

Definition happen (c : choice) (s : system) : system :=
  match c with
  | Arrive request_data => System (threads s ++ [arrive request_data]) (process s)
  | TurnOf i =>
      match threads s !! i with
      | Some th => let '(th', w) := thread_turn th (process s) in System (<[i := th']> (threads s)) w
      | None => s
      end
  | Cleanup => System (threads s) (_purge_expired_sessions (process s)).2
  | Meddle dir tree => System (threads s) (meddled dir tree (process s))
  | Wait => System (threads s) (tick (process s))
  end.

Definition interleave (schedule : list choice) (s : system) : system := foldl (fun s c => happen c s) s schedule.

Definition idle_system : system := System [] empty_world.

Lemma interleave_app sch1 sch2 s : interleave (sch1 ++ sch2) s = interleave sch2 (interleave sch1 s).
Proof. apply foldl_app. Qed.
End Schedules.

(** ** Kinds of programs *)

Definition same_scripts : relation world := fun w w' => scripts w' = scripts w.

#[export] Instance same_scripts_preorder : PreOrder same_scripts.
Proof. unfold same_scripts. split; [done|intros w1 w2 w3 ??; congruence]. Qed.

#[export] Instance steps_same_scripts {A} (m : IO A) : Keeps scripts m -> Steps same_scripts m | 50.
Proof. intros Hm w. apply Hm. Qed.

(** [p] starts no script, and leaves the session [sid] deleted. *)
Fixpoint deletes {A} (sid : str) (p : prog A) : Prop :=
  match p with
  | Done _ => False
  | Turn next after => forall w, same_scripts w (after w)
      /\ ((w_sessions (after w) !! sid = None /\ Guards same_scripts (next w)) \/ deletes sid (next w))
  end.

(** [p] has one turn that may start a script, after which it deletes [sid]. *)
Fixpoint one_script {A} (sid : str) (p : prog A) : Prop :=
  match p with
  | Done _ => True
  | Turn next after =>
      (forall w, same_scripts w (after w) /\ one_script sid (next w))
      \/ (forall w, (scripts (after w) = scripts w \/ scripts (after w) = S (scripts w)) /\ deletes sid (next w))
  end.

(** [p] has one turn that may start a script. *)
Fixpoint runs_once {A} (p : prog A) : Prop :=
  match p with
  | Done _ => True
  | Turn next after =>
      (forall w, same_scripts w (after w) /\ runs_once (next w))
      \/ (forall w, (scripts (after w) = scripts w \/ scripts (after w) = S (scripts w)) /\ Guards same_scripts (next w))
  end.

(** As long as the world is in [I] at its turns, [p] starts no script. *)
Abbreviation idle_on I p := (along I same_scripts (fun _ => True) p).

Section Kinds.
Context (sid : str).

Lemma deletes_try {A} (p : prog A) (h : exn -> prog A) :
  deletes sid p -> (forall e, Guards same_scripts (h e)) -> deletes sid (prog_try p h).
Proof.
  intros Hp Hh. induction p as [r|next IH after]; [done|]. intros w. destruct (Hp w) as [Hs Hn]. split; [done|].
  destruct Hn as [[Hgone Hn]|Hn]; [left; split; [done|by apply guards_try]|right; by apply IH].
Qed.

Lemma one_script_try {A} (p : prog A) (h : exn -> prog A) :
  one_script sid p -> (forall e, one_script sid (h e)) -> (forall e, Guards same_scripts (h e)) ->
  one_script sid (prog_try p h).
Proof.
  intros Hp Ho Hh. induction p as [[a|e]|next IH after]; [done|apply Ho|].
  destruct Hp as [Hp|Hp]; [left|right]; intros w; destruct (Hp w) as [Hs Hn]; (split; [done|]).
  - by apply IH.
  - by apply deletes_try.
Qed.

Lemma one_script_bind {A B} (p : prog A) (k : A -> prog B) :
  Guards same_scripts p -> (forall a, one_script sid (k a)) -> one_script sid (p ≫= k).
Proof.
  intros Hp Hk. induction p as [[a|e]|next IH after]; [apply Hk|done|].
  left. intros w. destruct (Hp w I) as [Hs Hn]. split; [done|by apply IH].
Qed.

Lemma one_script_local {A B} (r : result exn A) (k : A -> prog B) :
  (forall a, r = Ok a -> one_script sid (k a)) -> one_script sid (local r ≫= k).
Proof. intros Hk. destruct r as [a|e]; [by apply Hk|exact I]. Qed.

Lemma one_script_quiet {A} (p : prog A) : Guards same_scripts p -> one_script sid p.
Proof.
  intros Hp. induction p as [r|next IH after]; [done|]. left. intros w. destruct (Hp w I) as [Hs Hn].
  split; [done|by apply IH].
Qed.

Lemma deletes_one {A} (p : prog A) : deletes sid p -> one_script sid p.
Proof.
  intros Hp. induction p as [r|next IH after]; [done|]. left. intros w. destruct (Hp w) as [Hs [[_ Hn]|Hn]];
    (split; [done|]); [by apply one_script_quiet|by apply IH].
Qed.

Lemma deletes_bind {A B} n (P : A -> Prop) (p : prog A) (k : A -> prog B) :
  finishes n P p -> Guards same_scripts p -> (forall a, deletes sid (k a)) -> deletes sid (p ≫= k).
Proof.
  intros Hf Hp Hk. revert n Hf. induction p as [[a|e]|next IH after]; intros n Hf; [apply Hk|done|].
  destruct n as [|n]; [done|]. intros w. destruct (Hp w I) as [Hs Hn]. split; [done|right]. by eapply IH.
Qed.

(** A part that may start a script, and then the session is deleted. *)
Lemma one_script_once {A B} n (P : A -> Prop) (p : prog A) (k : A -> prog B) :
  finishes n P p -> runs_once p -> (forall a, deletes sid (k a)) -> one_script sid (p ≫= k).
Proof.
  intros Hf Hp Hk. revert n Hf. induction p as [[a|e]|next IH after]; intros n Hf; [apply deletes_one, Hk|done|].
  destruct n as [|n]; [done|]. destruct Hp as [Hp|Hp]; [left|right]; intros w; destruct (Hp w) as [Hs Hn]; (split; [done|]).
  - by eapply IH.
  - by eapply deletes_bind.
Qed.
End Kinds.

Section Once.
Lemma runs_once_quiet {A} (p : prog A) : Guards same_scripts p -> runs_once p.
Proof.
  intros Hp. induction p as [r|next IH after]; [done|]. left. intros w. destruct (Hp w I) as [Hs Hn].
  split; [done|by apply IH].
Qed.

Lemma runs_once_call {A} (m : IO A) : ScriptOnce m -> runs_once (call m).
Proof. intros Hm. right. intros w. split; [apply Hm|done]. Qed.

Lemma runs_once_before {A B} (p : prog A) (k : A -> prog B) :
  Guards same_scripts p -> (forall a, runs_once (k a)) -> runs_once (p ≫= k).
Proof.
  intros Hp Hk. induction p as [[a|e]|next IH after]; [apply Hk|done|]. left. intros w.
  destruct (Hp w I) as [Hs Hn]. split; [done|by apply IH].
Qed.

(** Parts that are quiet after [p], whichever way it ends. *)
Lemma runs_once_after {A B} (p : prog A) (f : prog A -> prog B) :
  (forall r, Guards same_scripts (f (Done r))) ->
  (forall next after, f (Turn next after) = Turn (fun w => f (next w)) after) ->
  (forall q, Guards same_scripts q -> Guards same_scripts (f q)) ->
  runs_once p -> runs_once (f p).
Proof.
  intros Hd Ht Hq Hp. induction p as [r|next IH after]; [apply runs_once_quiet, Hd|]. rewrite Ht.
  destruct Hp as [Hp|Hp]; [left|right]; intros w; destruct (Hp w) as [Hs Hn]; (split; [done|auto]).
Qed.

Lemma runs_once_bind {A B} (p : prog A) (k : A -> prog B) :
  runs_once p -> (forall a, Guards same_scripts (k a)) -> runs_once (p ≫= k).
Proof.
  intros Hp Hk. apply (runs_once_after p (fun p => p ≫= k)); [intros [a|e]; [apply Hk|done]|done|intros q Hq; apply _|done].
Qed.

Lemma runs_once_finally {A} (p : prog A) (g : prog unit) :
  runs_once p -> Guards same_scripts g -> runs_once (prog_finally p g).
Proof.
  intros Hp Hg. apply (runs_once_after p (fun p => prog_finally p g)); [|done|intros q Hq; apply _|done].
  intros r. apply (guards_finally same_scripts (Done r) g); [done|exact Hg].
Qed.

Lemma runs_once_try {A} (p : prog A) (h : exn -> prog A) :
  runs_once p -> (forall e, Guards same_scripts (h e)) -> runs_once (prog_try p h).
Proof.
  intros Hp Hh. apply (runs_once_after p (fun p => prog_try p h)); [intros [a|e]; [done|apply Hh]|done|intros q Hq; apply _|done].
Qed.
End Once.

(** ** The handler's programs *)

Section Programs.
Context `{Env, Settings, CryptoLaws, Machine, Interpreter, AttestationLaws}.

#[export] Instance attested_turns_quiet request sid zip csv output files timing :
  Guards same_scripts (attested_turns request sid zip csv output files timing).
Proof. unfold attested_turns. apply _. Qed.
#[export] Instance decrypt_turns_quiet encrypted sid key timing :
  Guards same_scripts (decrypt_turns encrypted sid key timing).
Proof. unfold decrypt_turns. apply _. Qed.
#[export] Instance generate_keypair_turns_quiet request : Guards same_scripts (generate_keypair_turns request).
Proof. unfold generate_keypair_turns. apply _. Qed.
#[export] Instance proxy_turns_quiet request : Guards same_scripts (proxy_turns request).
Proof. unfold proxy_turns. apply _. Qed.
#[export] Instance get_attestation_turns_quiet request : Guards same_scripts (get_attestation_turns request).
Proof. unfold get_attestation_turns. apply _. Qed.

(** A bundle starts one script at most. *)
Lemma run_target_once id sid dir target : runs_once (run_target_turns id sid dir target).
Proof.
  unfold run_target_turns. do 3 (apply runs_once_before; [apply _|intros ?]). apply runs_once_finally; [|apply _].
  do 3 (apply runs_once_before; [apply _|intros ?]). apply runs_once_bind; [|intros [n result]; apply _].
  apply runs_once_call. unfold run_process. apply _.
Qed.

Lemma execute_bundle_once bundle sid script_path csv : runs_once (execute_bundle_turns bundle sid script_path csv).
Proof.
  unfold execute_bundle_turns. apply runs_once_before; [apply _|intros now]. apply runs_once_try; [|intros e; apply _].
  unfold tempdir_turns. apply runs_once_before; [unfold make_tempdir; apply _|intros dir].
  apply runs_once_finally; [|apply _]. unfold bundle_body_turns.
  apply runs_once_before; [apply _|intros t0]. apply runs_once_before; [apply _|intros error].
  destruct error; [done|]. apply runs_once_before; [apply _|intros t1].
  apply runs_once_before; [unfold inject_csv; apply _|intros ?]. apply runs_once_before; [apply _|intros tree].
  apply runs_once_before; [apply _|intros target]. destruct target; [|done].
  apply runs_once_before; [apply _|intros content]. destruct (validate_script content) as [ok msg].
  destruct (negb ok); [done|apply run_target_once].
Qed.

(** The part from the run of the bundle. *)
Lemma run_bundle_one request sid zip csv timing : one_script sid (run_bundle_turns request (JStr sid) zip csv timing).
Proof.
  unfold run_bundle_turns. apply one_script_bind; [apply _|intros t0].
  eapply one_script_once; [apply execute_bundle_finishes|apply execute_bundle_once|].
  intros [[success output] files] w3. split; [done|]. right.
  intros w4. split; [apply (keeps (f := scripts) (m := km_delete_keypair (JStr sid)))|].
  left. split; [apply deleted|]. destruct (km_delete_total (JStr sid) w4) as (r & w5 & Hd).
  unfold cleanup_session. rewrite Hd. cbn [fst prog_bind]. destruct success; apply _.
Qed.

Lemma execute_one request sid :
  dict_get "session_id" request = Some (JStr sid) -> one_script sid (execute_turns request).
Proof.
  intros Hsid. unfold execute_turns. apply one_script_try; [|done|intros e; apply _].
  apply one_script_local. intros session_id Hs%dict_index_ok. rewrite Hs in Hsid. injection Hsid as ->.
  do 3 (apply one_script_local; intros ? _).
  apply one_script_bind; [apply _|intros [[success zip] timing]].
  destruct (negb success); [apply one_script_quiet, _|]. destruct (truthy _); [|apply run_bundle_one].
  apply one_script_bind; [apply _|intros [[success' csv] timing']].
  destruct (negb success'); [apply one_script_quiet, _|]. apply run_bundle_one.
Qed.
(** No session of that id is stored. *)
Definition absent (session_id : option json) (w : world) : Prop :=
  forall sid, session_id = Some (JStr sid) -> w_sessions w !! sid = None.

Lemma quiet_idle {A} I (p : prog A) : Guards same_scripts p -> idle_on I p.
Proof. intros Hp. by eapply along_weaken; [|exact Hp]. Qed.

(** Nothing is decrypted for a session that is not there. *)
Lemma decrypt_turns_absent encrypted session_id key timing :
  along (absent (Some session_id)) same_scripts
    (fun r => match r with Ok (success, _, _) => success = false | Raise _ => True end)
    (decrypt_turns encrypted session_id key timing).
Proof.
  unfold decrypt_turns. apply along_seq. intros w0 _. split; [done|]. cbn [fst time_time].
  apply along_seq. intros w1 Hw1. split; [apply (keeps (f := scripts))|].
  destruct (ds_decrypt_combined_hybrid_data encrypted session_id w1) as [[[success plain]|e] w2] eqn:Hd; [|done].
  cbn [fst]. apply along_seq. intros w3 _. split; [done|]. cbn. destruct success; [|done]. exfalso.
  apply decrypted_stored in Hd as (sid & -> & s & Hs). by rewrite (Hw1 sid) in Hs.
Qed.

Lemma execute_absent request : idle_on (absent (dict_get "session_id" request)) (execute_turns request).
Proof.
  unfold execute_turns. apply (along_try _ _ _ _ _ (fun _ => True)); [|done].
  apply along_local; [|done]. intros session_id Hs%dict_index_ok. rewrite Hs.
  do 3 (apply along_local; [intros ? _|done]).
  eapply (along_bind _ _ (fun r => r.1.1 = false));
    [eapply along_mono; [apply decrypt_turns_absent|by intros [[[success zip] timing]|e]]|].
  intros [[success zip] timing] Hr. cbn in Hr. subst success. cbn [negb].
  apply along_local; [done|done].
Qed.

Context (kms_attestation : option (json -> IO (bool * json))).

Lemma dispatch_turns_absent request operation :
  idle_on (absent (dict_get "session_id" request)) (dispatch_turns kms_attestation request operation).
Proof.
  unfold dispatch_turns. destruct (eq_str _ _); [apply quiet_idle, _|].
  destruct (eq_str _ _); [apply execute_absent|].
  repeat (destruct (eq_str _ _); [apply quiet_idle, _|]). apply quiet_idle, _.
Qed.

Lemma dispatch_turns_one request operation sid :
  dict_get "session_id" request = Some (JStr sid) -> one_script sid (dispatch_turns kms_attestation request operation).
Proof.
  intros Hsid. unfold dispatch_turns. destruct (eq_str _ _); [apply one_script_quiet, _|].
  destruct (eq_str _ _); [by apply execute_one|].
  repeat (destruct (eq_str _ _); [apply one_script_quiet, _|]). apply one_script_quiet, _.
Qed.

Lemma handle_turns_absent request_data :
  idle_on (absent (request_session request_data)) (handle_request_turns kms_attestation request_data).
Proof.
  unfold handle_request_turns. apply (along_try _ _ _ _ _ (fun _ => True)); [|done].
  apply along_local; [|done]. unfold request_session. intros request ->.
  destruct request as [| | | | | |request]; try done. destruct (validate_request request); [done|].
  apply along_local; [|done]. intros operation _.
  eapply along_mono; [apply dispatch_turns_absent|]. by intros [r|e].
Qed.

Lemma handle_turns_one request_data sid :
  request_session request_data = Some (JStr sid) -> one_script sid (handle_request_turns kms_attestation request_data).
Proof.
  unfold handle_request_turns, request_session. intros Hsid. apply one_script_try; [|done|intros e; apply _].
  apply one_script_local. intros request E. rewrite E in Hsid.
  destruct request as [| | | | | |request]; try done. destruct (validate_request request); [done|].
  apply one_script_local. intros operation _. by apply dispatch_turns_one.
Qed.

#[export] Instance execute_bundle_turns_advances bundle sid path csv : Guards advances (et_execute_bundle bundle sid path csv).
Proof.
  change (Guards advances (execute_bundle_turns bundle sid path csv)). unfold execute_bundle_turns.
  apply guards_bind; [apply _|intros now]. apply guards_try; [|apply _].
  unfold tempdir_turns. apply guards_bind; [apply guards_call|intros dir].
  { intros w. unfold make_tempdir. st_run. split; [cbn; lia|]. intros s0 s Hs. by left. }
  unfold bundle_body_turns, inject_csv, run_target_turns, run_process. apply _.
Qed.

#[export] Instance decrypt_turns_advances encrypted sid key timing : Guards advances (decrypt_turns encrypted sid key timing).
Proof. unfold decrypt_turns. apply _. Qed.
#[export] Instance attested_turns_advances request sid zip csv output files timing :
  Guards advances (attested_turns request sid zip csv output files timing).
Proof. unfold attested_turns. apply _. Qed.
#[export] Instance run_bundle_turns_advances request sid zip csv timing :
  Guards advances (run_bundle_turns request sid zip csv timing).
Proof. unfold run_bundle_turns, cleanup_session. apply _. Qed.
#[export] Instance execute_turns_advances request : Guards advances (execute_turns request).
Proof. unfold execute_turns. apply _. Qed.
#[export] Instance generate_keypair_turns_advances request : Guards advances (generate_keypair_turns request).
Proof. unfold generate_keypair_turns. apply _. Qed.
#[export] Instance get_attestation_turns_advances request : Guards advances (get_attestation_turns request).
Proof. unfold get_attestation_turns. apply _. Qed.
#[export] Instance proxy_turns_advances request : Guards advances (proxy_turns request).
Proof. unfold proxy_turns. apply _. Qed.
#[export] Instance handle_turns_advances request_data :
  Guards advances (handle_request_turns kms_attestation request_data).
Proof. unfold handle_request_turns, dispatch_turns. apply _. Qed.
End Programs.

(** ** The state of a thread *)

Section System.
Context `{Env, Settings, CryptoLaws, Machine, Interpreter, AttestationLaws}.
Context (kms_attestation : option (json -> IO (bool * json))).

Definition session_of (th : thread) : option json := request_session (th_request th).

(** A thread has nothing to run for a session that is not there; or it may run
    its script; or it is about to delete the session; or has done so. *)
Inductive stage (th : thread) (w : world) : Prop :=
  | stage_idle :
      th_ran th = 0 -> idle_on (absent (session_of th)) (th_prog th) ->
      (forall sid, session_of th = Some (JStr sid) -> one_script sid (th_prog th) \/ deletes sid (th_prog th)) ->
      stage th w
  | stage_armed sid :
      session_of th = Some (JStr sid) -> th_ran th = 0 -> issued sid w = true -> one_script sid (th_prog th) ->
      stage th w
  | stage_ending sid :
      session_of th = Some (JStr sid) -> th_ran th <= 1 -> issued sid w = true -> deletes sid (th_prog th) ->
      stage th w
  | stage_over sid :
      session_of th = Some (JStr sid) -> th_ran th <= 1 -> phase_of sid w = Past ->
      Guards same_scripts (th_prog th) -> stage th w.

Lemma phase_past sid w : phase_of sid w = Past <-> w_sessions w !! sid = None /\ issued sid w = true.
Proof. unfold phase_of. destruct (w_sessions w !! sid), (issued sid w); naive_solver. Qed.

Lemma past_advances sid w w' : fresh_ids w' -> advances w w' -> phase_of sid w = Past -> phase_of sid w' = Past.
Proof.
  rewrite !phase_past. intros Hf Ha [Hn Hi]. split; [by eapply advances_phase|].
  eapply issued_mono; [apply Ha|done].
Qed.

(** Another thread's turn. *)
Lemma stage_advances th w w' : fresh_ids w' -> advances w w' -> stage th w -> stage th w'.
Proof.
  intros Hf Ha [Hr Hi Ho|sid Hs Hr Hi Ho|sid Hs Hr Hi Hd|sid Hs Hr Hp Hg].
  - by apply stage_idle.
  - eapply stage_armed; eauto. eapply issued_mono; [apply Ha|done].
  - eapply stage_ending; eauto. eapply issued_mono; [apply Ha|done].
  - eapply stage_over; eauto. by eapply past_advances.
Qed.

Lemma absent_or_issued session w :
  ids_issued w -> absent session w \/ exists sid, session = Some (JStr sid) /\ issued sid w = true.
Proof.
  intros Hids. destruct session as [[| | | |sid| |]|]; try (left; by intros ?).
  destruct (w_sessions w !! sid) as [s|] eqn:Hl; [|left; by intros ? [= <-]].
  right. exists sid. split; [done|]. apply Hids. by eexists.
Qed.

(** Its own turn. *)
Section OwnTurn.
Context (th : thread) (next : world -> prog dict) (after : world -> world) (w : world).
Context (Hprog : th_prog th = Turn next after) (Hadv : advances w (after w)).

Let th' : thread := Thread (th_request th) (th_ran th + (scripts (after w) - scripts w)) (next w).

Lemma deletes_turn sid :
  session_of th = Some (JStr sid) -> th_ran th <= 1 -> issued sid w = true -> deletes sid (th_prog th) ->
  scripts (after w) = scripts w /\ stage th' (after w).
Proof.
  intros Hs Hr Hi Hd. rewrite Hprog in Hd. destruct (Hd w) as [Hsame Hn]. split; [done|].
  assert (th_ran th' <= 1) as Hr' by (cbn; rewrite Hsame; lia).
  assert (issued sid (after w) = true) as Hi' by (eapply issued_mono; [apply Hadv|done]).
  destruct Hn as [[Hgone Hg]|Hn]; [|by eapply stage_ending].
  eapply stage_over; [done|done| |done]. by apply phase_past.
Qed.

Lemma one_script_turn sid :
  session_of th = Some (JStr sid) -> th_ran th = 0 -> issued sid w = true -> one_script sid (th_prog th) ->
  scripts w <= scripts (after w) /\ stage th' (after w).
Proof.
  intros Hs Hr Hi Ho. rewrite Hprog in Ho.
  assert (issued sid (after w) = true) as Hi' by (eapply issued_mono; [apply Hadv|done]).
  destruct Ho as [Ho|Ho]; destruct (Ho w) as [Hsame Hn].
  - unfold same_scripts in Hsame. split; [lia|]. eapply stage_armed; [done| |done|done]. cbn. lia.
  - split; [lia|]. eapply stage_ending; [done| |done|done]. cbn. lia.
Qed.

Lemma idle_turn :
  absent (session_of th) w -> idle_on (absent (session_of th)) (th_prog th) ->
  scripts (after w) = scripts w /\ idle_on (absent (session_of th)) (th_prog th').
Proof. intros Habs Hi. rewrite Hprog in Hi. by destruct (Hi w Habs). Qed.

Lemma stage_turn :
  fresh_ids (after w) -> ids_issued w -> stage th w -> scripts w <= scripts (after w) /\ stage th' (after w).
Proof.
  intros Hf Hids [Hr Hi Ho|sid Hs Hr Hi Ho|sid Hs Hr Hi Hd|sid Hs Hr Hp Hg].
  - destruct (absent_or_issued (session_of th) w Hids) as [Habs|(sid & Hs & His)].
    + destruct (idle_turn Habs Hi) as [Hsame Hi']. split; [lia|]. apply stage_idle; [cbn; lia|done|].
      intros sid Hs. rewrite Hprog in Ho. destruct (Ho sid Hs) as [[Hone|Hone]|Hd].
      * left. apply Hone.
      * right. apply Hone.
      * destruct (Hd w) as [_ [[_ Hg]|Hd']]; [left; by apply one_script_quiet|by right].
    + destruct (Ho sid Hs) as [Hone|Hd]; [by eapply one_script_turn|].
      destruct (deletes_turn sid Hs ltac:(lia) His Hd) as [Hsame Hst]. split; [lia|done].
  - by eapply one_script_turn.
  - destruct (deletes_turn sid Hs Hr Hi Hd) as [Hsame Hst]. split; [lia|done].
  - rewrite Hprog in Hg. destruct (Hg w I) as [Hsame Hn]. unfold same_scripts in Hsame. split; [lia|].
    eapply stage_over; [done|cbn; lia|by eapply past_advances|done].
Qed.
End OwnTurn.

(** ** The state of the system *)

(** The scripts started so far, over all threads. *)
Definition total_ran (ths : list thread) : nat := foldr (fun th n => th_ran th + n) 0 ths.

(** No thread brings a session back. *)
Definition guarded (s : system) : Prop := forall i th, threads s !! i = Some th -> Guards advances (th_prog th).

Record orderly (s : system) : Prop := {
  ord_stage i th : threads s !! i = Some th -> stage th (process s);
  ord_scripts : scripts (process s) = total_ran (threads s);
  ord_issued : ids_issued (process s);
}.

Lemma total_ran_insert ths i th th' :
  ths !! i = Some th -> total_ran (<[i := th']> ths) + th_ran th = total_ran ths + th_ran th'.
Proof.
  revert i. induction ths as [|th0 ths IH]; intros [|i] Hi; cbn in *; [done|done|injection Hi as ->; lia|].
  specialize (IH i Hi).
  change (th_ran th0 + total_ran (<[i := th']> ths) + th_ran th = th_ran th0 + total_ran ths + th_ran th'). lia.
Qed.

Lemma total_ran_app ths ths' : total_ran (ths ++ ths') = total_ran ths + total_ran ths'.
Proof.
  induction ths as [|th ths IH]; [done|].
  change (th_ran th + total_ran (ths ++ ths') = th_ran th + total_ran ths + total_ran ths'). lia.
Qed.

Lemma orderly_idle : orderly idle_system.
Proof. split; [by intros ? ?|done|apply no_ids_issued]. Qed.

Lemma happen_guarded c s : guarded s -> guarded (happen kms_attestation c s).
Proof.
  intros Hg i th. destruct c as [text|j| |dir tree|]; cbn [happen threads]; [| |apply Hg|apply Hg|apply Hg].
  - intros [Hth|(_ & Hth)]%lookup_app_Some; [by apply (Hg i)|]. apply list_lookup_singleton_Some in Hth as [_ <-].
    apply handle_turns_advances.
  - destruct (threads s !! j) as [th0|] eqn:Hth0; [|apply Hg]. pose proof (Hg j th0 Hth0) as Hg0. unfold thread_turn.
    destruct (th_prog th0) as [r|next after]; cbn [threads]; [rewrite list_insert_id by done; apply Hg|].
    intros [(-> & <- & _)|(_ & Hth)]%list_lookup_insert_Some; [|by apply (Hg i)]. apply (Hg0 (process s) I).
Qed.

Lemma meddled_advances dir tree w : advances w (meddled dir tree w).
Proof. unfold meddled. destruct (handed_over dir w); [|done]. split; [done|by left]. Qed.

Lemma meddled_scripts dir tree w : scripts (meddled dir tree w) = scripts w.
Proof. unfold meddled. by destruct (handed_over dir w). Qed.

Lemma happen_advances c s : guarded s -> advances (process s) (process (happen kms_attestation c s)).
Proof.
  intros Ho. destruct c as [text|i| |dir tree|]; cbn [happen process];
    [done| |apply shrinks_advances, purge_shrinks|apply meddled_advances|].
  - destruct (threads s !! i) as [th|] eqn:Hth; [|done]. pose proof (Ho i th Hth) as Hg.
    unfold thread_turn. destruct (th_prog th) as [r|next after]; [done|]. by destruct (Hg (process s) I).
  - split; [done|]. by left.
Qed.

(** Time passes and sessions come and go, and no script is started. *)
Lemma orderly_world s w :
  orderly s -> fresh_ids w -> advances (process s) w -> scripts w = scripts (process s) ->
  orderly (System (threads s) w).
Proof.
  intros [Hst Hsum Hi] Hf Ha Hs. split; cbn [threads process].
  - intros i th Hth. by eapply stage_advances; [| |apply (Hst i)].
  - congruence.
  - by eapply advances_issued.
Qed.

Lemma orderly_arrive s text : orderly s -> orderly (happen kms_attestation (Arrive text) s).
Proof.
  intros [Hst Hsum Hi]. split; cbn [happen threads process]; [| |done].
  - intros i th [Hth|(_ & Hth)]%lookup_app_Some; [by apply (Hst i)|]. apply list_lookup_singleton_Some in Hth as [_ <-].
    apply stage_idle; [done|apply handle_turns_absent|]. intros sid Hs. left. by apply handle_turns_one.
  - rewrite total_ran_app, Hsum. cbn. lia.
Qed.

Lemma orderly_turn s i : guarded s -> fresh_ids (process (happen kms_attestation (TurnOf i) s)) ->
  orderly s -> orderly (happen kms_attestation (TurnOf i) s).
Proof.
  intros Hg Hf Ho. pose proof (happen_advances (TurnOf i) s Hg) as Ha. revert Hf Ha. cbn [happen].
  destruct (threads s !! i) as [th|] eqn:Hth; [|done]. unfold thread_turn.
  destruct (th_prog th) as [r|next after] eqn:Hp.
  { intros _ _. rewrite list_insert_id by done. by destruct s. }
  cbn [process]. intros Hf Ha. destruct Ho as [Hst Hsum Hi].
  destruct (stage_turn th next after (process s) Hp Ha Hf Hi (Hst i th Hth)) as [Hle Hst'].
  split; cbn [threads process]; [| |by eapply advances_issued].
  - intros j th' Hj. apply list_lookup_insert_Some in Hj as [(-> & <- & _)|(_ & Hj)]; [done|].
    by eapply stage_advances; [| |apply (Hst j)].
  - match goal with |- _ = total_ran (<[i := ?th']> _) => pose proof (total_ran_insert _ i th th' Hth) as Hins end.
    cbn [th_ran] in Hins. lia.
Qed.

Lemma orderly_happen c s :
  guarded s -> fresh_ids (process (happen kms_attestation c s)) -> orderly s -> orderly (happen kms_attestation c s).
Proof.
  intros Hg Hf Ho. pose proof (happen_advances c s Hg) as Ha. destruct c as [text|i| |dir tree|].
  - by apply orderly_arrive.
  - by apply orderly_turn.
  - by apply orderly_world.
  - apply orderly_world; [done..|apply meddled_scripts].
  - by apply orderly_world.
Qed.

Lemma interleave_guarded schedule s : guarded s -> guarded (interleave kms_attestation schedule s).
Proof. revert s. induction schedule as [|c schedule IH]; intros s Hg; [done|]. by apply IH, happen_guarded. Qed.

Lemma interleave_advances schedule s :
  guarded s -> advances (process s) (process (interleave kms_attestation schedule s)).
Proof.
  revert s. induction schedule as [|c schedule IH]; intros s Hg; [done|].
  etransitivity; [by apply (happen_advances c)|]. by apply IH, happen_guarded.
Qed.

Lemma interleave_orderly schedule s :
  guarded s -> orderly s -> fresh_ids (process (interleave kms_attestation schedule s)) ->
  orderly (interleave kms_attestation schedule s).
Proof.
  revert s. induction schedule as [|c schedule IH]; intros s Hg Ho Hf; [done|].
  apply IH; [by apply happen_guarded| |done]. apply orderly_happen; [done| |done].
  eapply fresh_ids_before; [|exact Hf]. apply (interleave_advances schedule), happen_guarded, Hg.
Qed.

Lemma guarded_idle : guarded idle_system.
Proof. by intros ? ?. Qed.

(** ** Overlapping requests *)

Definition finished (th : thread) : Prop := exists r, th_prog th = Done r.

(** C6: however the requests of the clients overlap, the scripts that were
    started are those of the threads, one for a thread at most, and each of a
    thread that names a session which had been created; and once such a thread
    has answered, its session is past. *)
Theorem overlapping_threads_run_once schedule :
  let s := interleave kms_attestation schedule idle_system in
  fresh_ids (process s) ->
  scripts (process s) = total_ran (threads s)
  /\ forall i th, threads s !! i = Some th ->
       th_ran th <= 1
       /\ (th_ran th = 1 -> exists sid, request_session (th_request th) = Some (JStr sid)
            /\ issued sid (process s) = true
            /\ (finished th -> phase_of sid (process s) = Past)).
Proof.
  cbn zeta. intros Hf. destruct (interleave_orderly schedule _ guarded_idle orderly_idle Hf) as [Hst Hsum _].
  split; [exact Hsum|]. intros i th Hth.
  destruct (Hst i th Hth) as [Hr Hi Ho|sid Hs Hr Hi Ho|sid Hs Hr Hi Hd|sid Hs Hr Hp Hg]; split; try lia; intros _.
  - exists sid. split_and!; [done|done|]. intros (r & Hr'). by rewrite Hr' in Hd.
  - exists sid. split_and!; [done|by apply phase_past|done].
Qed.

(** Threads from the [n]-th on that name [sid] have nothing to run. *)
Definition late_idle (sid : str) (n : nat) (s : system) : Prop :=
  forall i th, n <= i -> threads s !! i = Some th -> session_of th = Some (JStr sid) ->
  th_ran th = 0 /\ idle_on (absent (session_of th)) (th_prog th).

Lemma late_idle_happen c s sid n :
  phase_of sid (process s) = Past -> late_idle sid n s -> late_idle sid n (happen kms_attestation c s).
Proof.
  intros Hp Hl i th Hn. destruct c as [text|j| |dir tree|]; cbn [happen threads]; [| |by apply Hl|by apply Hl|by apply Hl].
  - intros [Hth|(_ & Hth)]%lookup_app_Some; [by apply (Hl i)|]. apply list_lookup_singleton_Some in Hth as [_ <-].
    intros _. split; [done|apply handle_turns_absent].
  - destruct (threads s !! j) as [th0|] eqn:Hth0; [|by apply Hl]. unfold thread_turn.
    destruct (th_prog th0) as [r|next after] eqn:Hprog; cbn [threads]; [rewrite list_insert_id by done; by apply Hl|].
    intros [(-> & <- & _)|(_ & Hth)]%list_lookup_insert_Some; [|by apply (Hl i)]. intros Hs.
    change (session_of th0 = Some (JStr sid)) in Hs. destruct (Hl i th0 Hn Hth0 Hs) as [Hr Hi].
    destruct (idle_turn th0 next after (process s) Hprog) as [Hsame Hi']; [|done|split; [cbn; lia|done]].
    rewrite Hs. intros sid' [= <-]. by apply phase_past.
Qed.

Lemma late_idle_interleave schedule s sid n :
  guarded s -> phase_of sid (process s) = Past -> fresh_ids (process (interleave kms_attestation schedule s)) ->
  late_idle sid n s -> late_idle sid n (interleave kms_attestation schedule s).
Proof.
  revert s. induction schedule as [|c schedule IH]; intros s Hg Hp Hf Hl; [done|].
  assert (guarded (happen kms_attestation c s)) as Hg' by by apply happen_guarded.
  apply IH; [done| |done|by apply late_idle_happen]. eapply past_advances; [| |exact Hp]; [|by apply happen_advances].
  eapply fresh_ids_before; [|exact Hf]. by apply (interleave_advances schedule).
Qed.

(** C26: a request that arrives when its session is past starts nothing, whatever
    the threads before it are still doing. *)
Theorem late_request_runs_nothing sch1 sch2 sid i th :
  let s1 := interleave kms_attestation sch1 idle_system in
  let s2 := interleave kms_attestation sch2 s1 in
  fresh_ids (process s2) -> phase_of sid (process s1) = Past ->
  length (threads s1) <= i -> threads s2 !! i = Some th ->
  request_session (th_request th) = Some (JStr sid) -> th_ran th = 0.
Proof.
  cbn zeta. intros Hf Hp Hn Hth Hs. refine (proj1 (late_idle_interleave sch2 _ sid _ _ Hp Hf _ i th Hn Hth Hs)).
  - apply interleave_guarded, guarded_idle.
  - intros j th' Hj Hth'. apply lookup_lt_Some in Hth'. lia.
Qed.
End System.

(** ** Answers *)

Section Answers.
Context `{Env, Settings, Ciphers, Machine, Interpreter, IAttestationService}.
Context (kms_attestation : option (json -> IO (bool * json))).

Lemma happen_thread c s i th :
  threads s !! i = Some th ->
  threads (happen kms_attestation c s) !! i
  = Some (match c with
          | TurnOf j => if decide (j = i) then (thread_turn th (process s)).1 else th
          | _ => th
          end).
Proof.
  intros Hth. destruct c as [text|j| |dir tree|]; cbn [happen threads]; [|case_decide as Hj|done|done|done].
  - by apply lookup_app_l_Some.
  - subst j. rewrite Hth. destruct (thread_turn th (process s)) as [th' w].
    cbn [threads fst]. apply list_lookup_insert_eq. by eapply lookup_lt_Some.
  - destruct (threads s !! j) as [th0|]; [|done]. destruct (thread_turn th0 (process s)) as [th' w].
    cbn [threads]. by rewrite list_lookup_insert_ne.
Qed.

Definition turns_of (i : nat) (schedule : list choice) : nat :=
  length (List.filter (fun c => match c with TurnOf j => (j =? i)%nat | _ => false end) schedule).

Lemma thread_finishes (Q : dict -> Prop) schedule s i th n :
  threads s !! i = Some th -> finishes n Q (th_prog th) -> n <= turns_of i schedule ->
  exists th' r, threads (interleave kms_attestation schedule s) !! i = Some th'
    /\ th_request th' = th_request th /\ th_prog th' = Done (Ok r) /\ Q r.
Proof.
  revert s th n. induction schedule as [|c schedule IH]; intros s th n Hth Hfin Hn.
  - destruct (th_prog th) as [[r|e]|next after] eqn:Hp; [by exists th, r|done|]. destruct n; [done|cbn in Hn; lia].
  - pose proof (happen_thread c s i th Hth) as Hth'. unfold turns_of in Hn. cbn [List.filter] in Hn.
    change (interleave kms_attestation (c :: schedule) s)
      with (interleave kms_attestation schedule (happen kms_attestation c s)).
    destruct c as [text|j| |dir tree|]; try exact (IH _ _ _ Hth' Hfin Hn). case_decide as Hj; cycle 1.
    { rewrite (proj2 (Nat.eqb_neq j i)) in Hn by done. exact (IH _ _ _ Hth' Hfin Hn). }
    subst j. rewrite Nat.eqb_refl in Hn. cbn [length] in Hn. unfold thread_turn in Hth'.
    destruct (th_prog th) as [r|next after] eqn:Hp.
    + eapply (IH _ th 0); [exact Hth'|by destruct r; rewrite Hp|lia].
    + destruct n as [|n]; [done|]. destruct (IH _ _ n Hth' (Hfin (process s))) as (th' & r & ? & Hreq & ?); [unfold turns_of; lia|].
      by exists th', r.
Qed.

(** A thread never waits for another one for ever: after [max_turns] turns of
    its own it has answered, whatever the other threads and the cleanup thread do
    in between, and its answer is a good response. *)
Theorem overlapping_thread_answers sch1 request_data sch2 s :
  let i := length (threads (interleave kms_attestation sch1 s)) in
  max_turns <= turns_of i sch2 ->
  exists th r, threads (interleave kms_attestation (sch1 ++ Arrive request_data :: sch2) s) !! i = Some th
    /\ th_request th = request_data /\ th_prog th = Done (Ok r) /\ good_response r.
Proof.
  cbn zeta. intros Hn. rewrite interleave_app. set (s1 := interleave kms_attestation sch1 s) in *.
  assert (threads (happen kms_attestation (Arrive request_data) s1) !! length (threads s1)
          = Some (arrive kms_attestation request_data)) as Hth
    by (cbn [happen threads]; by rewrite lookup_app_r, Nat.sub_diag).
  exact (thread_finishes good_response sch2 _ _ _ max_turns Hth (handle_request_finishes _ request_data) Hn).
Qed.

(** Cut into turns and run without interruption, a request has the response
    and the effects of [RequestHandler.handle_request]. *)
Theorem handle_request_alone request_data w :
  run_all (handle_request_turns kms_attestation request_data) w = handle_request kms_attestation request_data w.
Proof. apply cuts. Qed.
End Answers.

(** ** A schedule of the concrete stack

    A keypair is requested, then two executions for its session overlap: both
    decrypt before either has run, and then they run turn by turn.  Somebody tries
    to remove the directory of the second before it is handed over, and the first
    script does so after.  A third one arrives when they are done. *)

#[local] Existing Instances ToyNsm.env default_settings ToyCrypto.keys ToyCrypto.ciphers ToyCrypto.laws
  ToyMachine.machine ToyInterpreter.interpreter ToyCbor.cbor_flat ToyX509.x509 ToyNsm.nsm.

Module ToySchedule.
Definition turns (i n : nat) : list choice := repeat (TurnOf i) n.

Definition both (n : nat) : list choice := concat (repeat [TurnOf 1; TurnOf 2] n).

Definition attempt : list choice :=
  [Arrive ToyRun.keypair_request] ++ turns 0 2 ++ [Arrive ToyRun.execute_request; Arrive ToyRun.execute_request]
  ++ turns 1 3 ++ turns 2 3 ++ [Cleanup; Wait] ++ both 13 ++ [Meddle "/tmp/run3" None].
Definition removal : list choice := attempt ++ both 2 ++ [Meddle "/tmp/run3" None].
Definition overlap : list choice := removal ++ both 8.

Definition late : list choice := Arrive ToyRun.execute_request :: turns 3 29.

Definition s1 : system := interleave None overlap idle_system.
Definition s2 : system := interleave None late s1.
End ToySchedule.

Lemma toy_overlap : map th_ran (threads ToySchedule.s2) = [0; 1; 1; 0].
Proof. vm_compute. reflexivity. Qed.

(** The attempt has no effect, the removal has. *)
Lemma toy_meddling :
  is_Some (w_tmp (process (interleave None ToySchedule.attempt idle_system)) !! ("/tmp/run3" : str))
  /\ w_tmp (process (interleave None ToySchedule.removal idle_system)) !! ("/tmp/run3" : str) = None.
Proof. split; vm_compute; [by eexists|reflexivity]. Qed.

(** The lists of choices and the states are not to be unfolded by unification. *)
#[local] Opaque interleave ToySchedule.s1 ToySchedule.s2.

Lemma toy_s2 : interleave None (ToySchedule.overlap ++ ToySchedule.late) idle_system = ToySchedule.s2.
Proof. exact (interleave_app None ToySchedule.overlap ToySchedule.late idle_system). Qed.

Lemma toy_fresh_schedule : fresh_ids (process ToySchedule.s2).
Proof.
  apply fresh_ids_NoDup. apply (bool_decide_eq_true (NoDup (drawn_ids (process ToySchedule.s2)))).
  vm_compute. reflexivity.
Qed.

Lemma toy_ran i n : [0; 1; 1; 0] !! i = Some n ->
  exists th, threads ToySchedule.s2 !! i = Some th /\ th_ran th = n.
Proof.
  rewrite <-toy_overlap. change (map th_ran (threads ToySchedule.s2)) with (th_ran <$> threads ToySchedule.s2).
  rewrite list_lookup_fmap. destruct (threads ToySchedule.s2 !! i) as [th|]; [|done]. intros [= <-]. by exists th.
Qed.

Lemma overlapping_threads_run_once_witness :
  exists th sid, threads ToySchedule.s2 !! 1 = Some th /\ th_ran th = 1
    /\ request_session (th_request th) = Some (JStr sid)
    /\ scripts (process ToySchedule.s2) = total_ran (threads ToySchedule.s2).
Proof.
  pose proof (overlapping_threads_run_once None (ToySchedule.overlap ++ ToySchedule.late)) as Ho. cbn zeta in Ho.
  rewrite toy_s2 in Ho. destruct (Ho toy_fresh_schedule) as [Hn Ht].
  destruct (toy_ran 1 1 eq_refl) as (th & Hth & Hr). destruct (Ht 1 th Hth) as [_ Hran].
  destruct (Hran Hr) as (sid & Hs & _). exists th, sid. split_and!; [exact Hth|exact Hr|exact Hs|exact Hn].
Defined.

Lemma toy_late_request i th :
  threads ToySchedule.s2 !! i = Some th -> i = 3 -> th_request th = ToyRun.execute_request.
Proof.
  intros Hth ->. assert (th_request <$> (threads ToySchedule.s2 !! 3) = Some ToyRun.execute_request) as E
    by (vm_compute; reflexivity).
  rewrite Hth in E. by injection E.
Qed.

Lemma late_request_runs_nothing_witness :
  exists th, threads ToySchedule.s2 !! 3 = Some th /\ th_ran th = 0.
Proof.
  destruct (toy_ran 3 0 eq_refl) as (th & Hth & _). exists th. split; [exact Hth|].
  pose proof (late_request_runs_nothing None ToySchedule.overlap ToySchedule.late ToyKeys.sid 3 th) as Hl.
  cbn zeta in Hl. rewrite <-interleave_app, toy_s2 in Hl. apply Hl.
  - exact toy_fresh_schedule.
  - apply (bool_decide_eq_true (phase_of ToyKeys.sid (process (interleave None ToySchedule.overlap idle_system)) = Past)).
    vm_compute. reflexivity.
  - assert (length (threads (interleave None ToySchedule.overlap idle_system)) = 3) as Hlen
      by (vm_compute; reflexivity). rewrite Hlen. exact (le_n 3).
  - exact Hth.
  - rewrite (toy_late_request 3 th Hth eq_refl). vm_compute. reflexivity.
Defined.

Lemma overlapping_thread_answers_witness :
  exists th r, threads (interleave None (ToySchedule.overlap ++ Arrive ToyRun.execute_request :: ToySchedule.turns 3 29) idle_system) !! 3
               = Some th /\ th_prog th = Done (Ok r) /\ good_response r.
Proof.
  pose proof (overlapping_thread_answers None ToySchedule.overlap ToyRun.execute_request (ToySchedule.turns 3 29) idle_system)
    as Ha. cbn zeta in Ha.
  assert (length (threads (interleave None ToySchedule.overlap idle_system)) = 3) as Hlen by (vm_compute; reflexivity).
  rewrite Hlen in Ha. destruct Ha as (th & r & Hth & _ & Hp & Hr); [vm_compute; lia|].
  exists th, r. split_and!; [exact Hth|exact Hp|exact Hr].
Defined.
