(* ===== verification/Isolation.v ===== *)
(** * Executions that overlap do not disturb each other

    Two bundles may run at the same time, each in a temporary directory of its
    own.  Here a thread is followed through the interference of the others and of
    the scripts that are running: what it may rely on between its turns is what
    every other thread guarantees, and that a script touches nothing but what
    has been handed to the script user.  The result is that an attested
    response, in any schedule, comes from a run of the script that was found and
    validated in the request's own bundle, with its own dataset, and in a
    directory of its own.  Nothing is relied on once the directory has been
    handed over: a process of another script may then change what is in it. *)
From stdpp Require Import base tactics list gmap strings.
From Stdlib Require Import NArith ZArith Lia.
From S2P Require Import Prelude PyText PyCodec Sha2 PyJson PyJsonParse World Config Crypto OutputFiles Interfaces Cbor LocalAttestation KeyPairManager DecryptService RequestHandler Programs Threads Attestation Bundle ExecuteService BundleTurns Factory Lifecycle Overlap.

(** ** Directories with an owner

    [d] is the draw that named the directory of a thread, once it has one. *)

Section Ownership.
Context `{Settings, Machine}.

Definition mine (d : option nat) (dir : str) : Prop := exists n, d = Some n /\ dir = mkdtemp n.

(** [dir] is as it was, and not handed to the script user in the meantime. *)
Definition left_alone (dir : str) (w w' : world) : Prop :=
  handed_over dir w' = handed_over dir w
  /\ (handed_over dir w = false -> w_tmp w' !! dir = w_tmp w !! dir).

(** What a thread guarantees in a turn, and what it relies on between turns:
    draws are not taken back, the trace grows, and directories are left alone:
    by a thread all but its own, by the others the thread's own, as long as it
    has not been handed over. *)
Definition touches (d : option nat) : relation world := fun w w' =>
  w_draws w <= w_draws w' /\ w_trace w ⊆ w_trace w'
  /\ forall dir, ~ mine d dir -> left_alone dir w w'.

Definition undisturbed (d : option nat) : relation world := fun w w' =>
  w_draws w <= w_draws w' /\ w_trace w ⊆ w_trace w'
  /\ forall dir, mine d dir -> left_alone dir w w'.

#[export] Instance left_alone_preorder dir : PreOrder (left_alone dir).
Proof.
  split; [by intros w|]. intros w1 w2 w3 [Hh1 Ht1] [Hh2 Ht2]. split; [congruence|].
  intros Hh. rewrite Ht2 by congruence. auto.
Qed.

#[export] Instance touches_preorder d : PreOrder (touches d).
Proof.
  split; [by intros w|]. intros w1 w2 w3 (Hd1 & Ht1 & Hw1) (Hd2 & Ht2 & Hw2).
  split_and!; [lia|by etransitivity|]. intros dir Hn. etransitivity; [by apply Hw1|by apply Hw2].
Qed.

#[export] Instance undisturbed_preorder d : PreOrder (undisturbed d).
Proof.
  split; [by intros w|]. intros w1 w2 w3 (Hd1 & Ht1 & Hw1) (Hd2 & Ht2 & Hw2).
  split_and!; [lia|by etransitivity|]. intros dir Hn. etransitivity; [by apply Hw1|by apply Hw2].
Qed.

Lemma touches_none d w w' : touches None w w' -> touches d w w'.
Proof. intros (? & ? & Hw). split_and!; [done|done|]. intros dir _. apply Hw. by intros (n & ? & _). Qed.

(** A turn may also give the thread its directory. *)
Definition takes (d d' : option nat) (w w' : world) : Prop :=
  touches d' w w' /\ (d' = d \/ (d = None /\ d' = Some (w_draws w) /\ w_draws w < w_draws w')).

(** Only directories of earlier draws have been handed over. *)
Definition accounted (w : world) : Prop :=
  forall dir, handed_over dir w = true -> exists n, n < w_draws w /\ dir = mkdtemp n.

(** The names of temporary directories have not repeated. *)
Definition fresh_dirs (w : world) : Prop := forall n m, n < w_draws w -> m < w_draws w -> mkdtemp n = mkdtemp m -> n = m.

(** [secure d Q p w]: from [w], with the directory [d], the program [p] keeps
    its guarantee and ends in [Q], as long as the others keep theirs. *)
Fixpoint secure {A} (d : option nat) (Q : option nat -> result exn A -> world -> Prop) (p : prog A) (w : world) : Prop :=
  match p with
  | Done r => Q d r w
  | Turn next after => forall w1, undisturbed d w w1 -> accounted w1 -> fresh_dirs (after w1) ->
      exists d', takes d d' w1 (after w1) /\ secure d' Q (next w1) (after w1)
  end.

Lemma secure_mono {A} d (P Q : option nat -> result exn A -> world -> Prop) p w :
  secure d P p w -> (forall d r w, P d r w -> Q d r w) -> secure d Q p w.
Proof.
  intros Hp HPQ. revert d w Hp. induction p as [r|next IH after]; intros d w Hp; [by apply HPQ|].
  intros w1 Hw1 Hacc Hfr. destruct (Hp w1 Hw1 Hacc Hfr) as (d' & Ht & Hn). exists d'. split; [done|by apply IH].
Qed.

Lemma secure_bind {A B} d (Q : option nat -> result exn B -> world -> Prop) (p : prog A) (k : A -> prog B) w :
  secure d (fun d r w => match r with Ok a => secure d Q (k a) w | Raise e => Q d (Raise e) w end) p w ->
  secure d Q (p ≫= k) w.
Proof.
  revert d w. induction p as [[a|e]|next IH after]; intros d w Hp; [done..|].
  intros w1 Hw1 Hacc Hfr. destruct (Hp w1 Hw1 Hacc Hfr) as (d' & Ht & Hn). exists d'. split; [done|by apply IH].
Qed.

Lemma secure_try {A} d (Q : option nat -> result exn A -> world -> Prop) (p : prog A) (h : exn -> prog A) w :
  secure d (fun d r w => match r with Ok a => Q d (Ok a) w | Raise e => secure d Q (h e) w end) p w ->
  secure d Q (prog_try p h) w.
Proof.
  revert d w. induction p as [[a|e]|next IH after]; intros d w Hp; [done..|].
  intros w1 Hw1 Hacc Hfr. destruct (Hp w1 Hw1 Hacc Hfr) as (d' & Ht & Hn). exists d'. split; [done|by apply IH].
Qed.

Lemma secure_finally {A} d (Q : option nat -> result exn A -> world -> Prop) (p : prog A) (g : prog unit) w :
  secure d (fun d r w => secure d (fun d o w => match o with Ok _ => Q d r w | Raise e => Q d (Raise e) w end) g w) p w ->
  secure d Q (prog_finally p g) w.
Proof.
  revert d w. induction p as [r|next IH after]; intros d w Hp.
  - cbn. change (prog_bind ?k g) with (g ≫= k). apply secure_bind. eapply secure_mono; [exact Hp|]. by intros d' [[]|e] w'.
  - intros w1 Hw1 Hacc Hfr. destruct (Hp w1 Hw1 Hacc Hfr) as (d' & Ht & Hn). exists d'. split; [done|by apply IH].
Qed.

(** The others may have turns before it starts. *)
Lemma secure_wait {A} d (Q : option nat -> result exn A -> world -> Prop) (p : prog A) w w' :
  (forall d r w w', Q d r w -> undisturbed d w w' -> Q d r w') ->
  secure d Q p w -> undisturbed d w w' -> secure d Q p w'.
Proof.
  intros HQ Hp Hw. destruct p as [r|next after]; [by eapply HQ|]. intros w1 Hw1. apply (Hp w1). by etransitivity.
Qed.

(** A call that keeps to the directory of the thread. *)
Lemma secure_call {A B} d (Q : option nat -> result exn B -> world -> Prop) (m : IO A) (k : A -> prog B) w :
  Steps (touches d) m ->
  (forall w1 a w2, undisturbed d w w1 -> m w1 = (Ok a, w2) -> secure d Q (k a) w2) ->
  (forall w1 e w2, undisturbed d w w1 -> m w1 = (Raise e, w2) -> Q d (Raise e) w2) ->
  secure d Q (call m ≫= k) w.
Proof.
  intros Hm Hk He w1 Hw1 _ _. exists d. split; [split; [apply Hm|by left]|]. cbn.
  specialize (Hk w1). specialize (He w1). destruct (m w1) as [[a|e] w2]; cbn; [by apply Hk|by apply He].
Qed.

Lemma secure_local {A B} d (Q : option nat -> result exn B -> world -> Prop) (r : result exn A) (k : A -> prog B) w :
  (forall a, r = Ok a -> secure d Q (k a) w) -> (forall e, Q d (Raise e) w) -> secure d Q (local r ≫= k) w.
Proof. intros Hk He. destruct r as [a|e]; [by apply Hk|apply He]. Qed.

(** A program that leaves all directories alone. *)
Lemma secure_aside {A} n (P : A -> Prop) d (Q : option nat -> result exn A -> world -> Prop) (p : prog A) w :
  Guards (touches None) p -> within n P p ->
  (forall a w', P a -> w_trace w ⊆ w_trace w' -> Q d (Ok a) w') ->
  (forall e w', w_trace w ⊆ w_trace w' -> Q d (Raise e) w') -> secure d Q p w.
Proof.
  revert n w. induction p as [[a|e]|next IH after]; intros n w Hp Hn HQ He; [by apply HQ|by apply He|].
  destruct n as [|n]; [done|]. intros w1 Hw1 _ _. destruct (Hp w1 I) as [Ht Hp1]. exists d.
  assert (w_trace w ⊆ w_trace (after w1)) as Hsub.
  { destruct Hw1 as (_ & H1 & _), Ht as (_ & H2 & _). by etransitivity. }
  split; [split; [by apply touches_none|by left]|]. eapply IH; [exact Hp1|apply Hn| |].
  - intros a w' HP Hs. apply HQ; [done|]. by etransitivity.
  - intros e w' Hs. apply He. by etransitivity.
Qed.
End Ownership.

(** Events that hand nothing over. *)
Definition keeps_owners `{Settings} (ev : event) : Prop := forall dir, hands_over dir ev = false.

Lemma handed_over_app `{Settings} dir l w w' :
  w_trace w' = l ++ w_trace w -> Forall keeps_owners l -> handed_over dir w' = handed_over dir w.
Proof.
  intros E Hl. unfold handed_over. rewrite E, existsb_app. clear E.
  induction Hl as [|ev l Hev _ IH]; [done|]. cbn [existsb]. rewrite Hev. exact IH.
Qed.

#[export] Instance touches_keeps `{Settings, Machine} d {A} (m : IO A) :
  Keeps w_tmp m -> Emits keeps_owners m -> Draws m -> Steps (touches d) m | 50.
Proof.
  intros Ht He Hd w. destruct (He w) as (l & Hl & HP). split_and!; [apply Hd|rewrite Hl; set_solver|].
  intros dir _. split; [by eapply handed_over_app|]. intros _. by rewrite Ht.
Qed.

#[export] Instance touches_own `{Settings, Machine} n {A} (m : IO A) :
  Keeps (tmp_but (mkdtemp n)) m -> Emits keeps_owners m -> Draws m -> Steps (touches (Some n)) m | 60.
Proof.
  intros Ht He Hd w. destruct (He w) as (l & Hl & HP). split_and!; [apply Hd|rewrite Hl; set_solver|].
  intros dir Hn. split; [by eapply handed_over_app|]. intros _. specialize (Ht w). unfold tmp_but in Ht.
  rewrite <-(lookup_delete_ne (w_tmp (m w).2) (mkdtemp n) dir), Ht, lookup_delete_ne; [done|..];
    intros <-; apply Hn; by exists n.
Qed.

#[export] Hint Extern 5 (Emits keeps_owners (emit _)) => apply emits_emit; by intros ? : typeclass_instances.

(** ** A bundle among the others *)

Section Bundles.
Context `{Env, Settings, Machine, Interpreter}.

(** The output and the files are those of a run in [dir] of the script that was
    found there in the bundle, with the dataset in place. *)
Definition ran_from (dir : str) (bundle : bytes) (csv : option bytes) (output : str) (files : list output_file) (w : world) : Prop :=
  exists target content n,
    script_of bundle None csv dir target content
    /\ (validate_script content).1 = true
    /\ ran [sys_executable; target] dir n output files w.

Lemma ran_from_grows dir bundle csv output files w w' :
  ran_from dir bundle csv output files w -> w_trace w ⊆ w_trace w' -> ran_from dir bundle csv output files w'.
Proof.
  intros (target & content & n & Hs & Hv & Hr) Hsub. exists target, content, n.
  split_and!; [done|done|by eapply ran_trace].
Qed.

(** A success is only claimed for a run in [P]. *)
Definition claims (P : str -> list output_file -> world -> Prop)
    (d : option nat) (r : result exn (bool * str * list output_file)) (w : world) : Prop :=
  match r with Ok (true, output, files) => P output files w | _ => True end.

(** And only for one in the thread's own directory. *)
Definition claims_own (bundle : bytes) (csv : option bytes)
    (d : option nat) (r : result exn (bool * str * list output_file)) (w : world) : Prop :=
  match r with
  | Ok (true, output, files) => exists n, d = Some n /\ ran_from (mkdtemp n) bundle csv output files w
  | _ => True
  end.

(** Handing the thread's own directory over. *)
#[local] Instance as_script_user_touches n tree : Steps (touches (Some n)) (_as_script_user (mkdtemp n) tree).
Proof.
  assert (forall paths, Steps (touches (Some n)) (chown_all paths)) as Hc.
  { intros paths. apply touches_keeps; [apply _| |apply _]. induction paths; cbn [chown_all]; apply _. }
  unfold _as_script_user. destruct (negb _); [apply _|]. apply (steps_bind (touches (Some n))); [|intros _; apply _].
  intros w. split_and!; [done|cbn; set_solver|]. intros dir Hn. split; [|done]. cbn.
  unfold str_eqb. rewrite bool_decide_eq_false_2; [done|]. intros <-. apply Hn. by exists n.
Qed.

#[local] Instance subprocess_run_touches n argv cwd env preexec : Steps (touches (Some n)) (subprocess_run argv cwd env preexec).
Proof. unfold subprocess_run. apply _. Qed.

Lemma secure_owner {A} n Q (p : prog A) w :
  secure (Some n) Q p w -> secure (Some n) (fun d r w => d = Some n /\ Q d r w) p w.
Proof.
  revert w. induction p as [r|next IH after]; intros w Hp; [done|].
  intros w1 Hw1 Hacc Hfr. destruct (Hp w1 Hw1 Hacc Hfr) as (d' & Ht & Hn). exists d'. split; [done|].
  destruct Ht as (_ & [->|(? & _)]); [by apply IH|done].
Qed.

(** Tidying up at the end does not change what was claimed. *)
Lemma secure_cleanup n P (p : prog (bool * str * list output_file)) (g : IO unit) w :
  (forall output files w w', P output files w -> w_trace w ⊆ w_trace w' -> P output files w') ->
  Steps (touches (Some n)) g -> secure (Some n) (claims P) p w ->
  secure (Some n) (claims P) (prog_finally p (call g)) w.
Proof.
  intros HP Hg Hp. apply secure_finally. eapply secure_mono; [by apply secure_owner|].
  intros d r w1 [-> Hr] w2 Hw2 _ _. exists (Some n). split; [split; [apply Hg|by left]|].
  destruct (g w2) as [[[]|e] w3] eqn:Eg; cbn; rewrite ?Eg; [|done].
  destruct r as [[[[] output] files]|e]; try done. cbn in *. eapply HP; [exact Hr|].
  destruct Hw2 as (_ & Hw2 & _). etransitivity; [exact Hw2|].
  destruct (Hg w2) as (_ & Hw3 & _). by rewrite Eg in Hw3.
Qed.

#[local] Instance safe_extract_touches n bundle : Steps (touches (Some n)) (_safe_extract_zip bundle (mkdtemp n)).
Proof. unfold _safe_extract_zip. apply _. Qed.

Lemma run_target_secure n id sid target w :
  let dir := mkdtemp n in
  secure (Some n) (claims (fun output files w => exists k, ran [sys_executable; target] dir k output files w))
    (run_target_turns id sid dir target) w.
Proof.
  cbn zeta. unfold run_target_turns. do 3 (apply secure_call; [apply _|intros ? ? ? _ _|done]).
  apply secure_cleanup; [|apply _|].
  { intros output files wa wb (k & Hk) Hsub. exists k. by eapply ran_trace. }
  apply secure_call; [apply _|intros ? ? ? _ _|done]. apply secure_call; [apply _|intros ? tree ? _ _|done].
  apply secure_call; [apply _|intros wc preexec wd _ Hp|done]. apply as_script_user_ok in Hp as ->.
  apply secure_call; [unfold run_process; apply _|intros we [k result] wf _ Hr|done].
  apply secure_call; [apply _|intros wg t wh (_ & Hw & _) Ht|done]. injection Ht as _ <-.
  cbn [secure mret prog_mret claims]. destruct (bundle_result k _ result) as [[[] output] files] eqn:E; try done.
  exists k. eapply ran_trace; [by eapply run_process_ran|exact Hw].
Qed.

Lemma bundle_body_secure n id bundle sid csv w :
  w_tmp w !! mkdtemp n = Some (Dir []) -> handed_over (mkdtemp n) w = false ->
  secure (Some n) (claims (ran_from (mkdtemp n) bundle csv)) (bundle_body_turns id bundle sid None csv (mkdtemp n)) w.
Proof.
  intros Hd Hno. set (dir := mkdtemp n) in *.
  assert (forall t w1 w2, w_tmp w1 !! dir = Some t /\ handed_over dir w1 = false -> undisturbed (Some n) w1 w2 ->
    w_tmp w2 !! dir = Some t /\ handed_over dir w2 = false) as Hkeep.
  { intros t w1 w2 [Ht Hh] (_ & _ & Hw). destruct (Hw dir) as [Hh' Ht']; [by exists n|]. rewrite Ht' by done. by rewrite Hh'. }
  assert (w_tmp w !! dir = Some (Dir []) /\ handed_over dir w = false) as Hw by done. clear Hd Hno. revert Hw.
  unfold bundle_body_turns. intros Hw.
  apply secure_call; [apply _|intros w1 t w2 Hw1 Ht|done]. injection Ht as _ <-.
  apply secure_call; [apply _|intros w3 err w4 Hw3 Hx|done].
  pose proof (Hkeep _ _ _ (Hkeep _ _ _ Hw Hw1) Hw3) as [Hd3 Hh3].
  apply safe_extract_zip_cases in Hx; [|exact Hd3].
  destruct err as [err|]; [done|]. destruct Hx as (entries & outcome & tree0 & Hz & Hn & Hs & _ & _ & _ & -> & Hx).
  assert (w_tmp (set_tmp (insert dir tree0) w3) !! dir = Some tree0 /\ handed_over dir (set_tmp (insert dir tree0) w3) = false)
    as Hw4 by (split; [cbn; by rewrite lookup_insert_eq|exact Hh3]).
  apply secure_call; [apply _|intros w5 t' w6 Hw5 Ht|done]. injection Ht as _ <-.
  apply secure_call; [unfold inject_csv; apply _|intros w7 [] w8 Hw7 Hcsv|done].
  pose proof (Hkeep _ _ _ (Hkeep _ _ _ Hw4 Hw5) Hw7) as [Hd7 Hh7].
  assert (handed_over dir w8 = false) as Hh8.
  { assert (Keeps w_trace (inject_csv dir csv)) as Hk by (unfold inject_csv; apply _). specialize (Hk w7). rewrite Hcsv in Hk.
    cbn [snd] in Hk. unfold handed_over in *. by rewrite Hk. }
  eapply inject_csv_ok in Hcsv as (tree & Htree & Hcsv); [|exact Hd7].
  apply secure_call; [apply _|intros w9 tree' w10 Hw9 Ht|done]. apply tmp_tree_ok in Ht as [Ht ->].
  destruct (Hkeep _ _ _ (conj Htree Hh8) Hw9) as [Hd9 _]. rewrite Hd9 in Ht. injection Ht as <-.
  apply secure_local; [intros target Hf|done]. destruct target as [target|]; [|done].
  apply secure_local; [intros content Hc|done]. apply result_bind_ok in Hc as (b & Hb & Hc).
  destruct (validate_script content) as [ok msg] eqn:Hv. destruct ok; cbn [negb]; [|done].
  eapply secure_mono; [apply run_target_secure|].
  intros d [[[[] output] files]|e] w'; try done. intros (k & Hran). exists target, content, k.
  split_and!; [|by rewrite Hv|done]. exists entries, tree0, tree, b. by split_and!.
Qed.

#[local] Instance cleanup_touches n : Steps (touches (Some n)) (cleanup n).
Proof.
  apply touches_own; [|unfold cleanup; apply _|unfold cleanup; apply _]. intros w. rewrite cleanup_run. unfold tmp_but.
  destruct (w_tmp w !! mkdtemp n); [|done]. destruct (rmtree n) as [[error rest]|]; cbn;
    [by rewrite delete_insert_eq|by rewrite delete_delete_eq].
Qed.

(** A new directory has not been handed over, whatever had its name before. *)
Lemma new_dir_own w : accounted w -> fresh_dirs (drawn w) -> handed_over (mkdtemp (w_draws w)) w = false.
Proof.
  intros Hacc Hf. apply not_true_iff_false. intros (m & Hm & E)%Hacc. apply Hf in E; cbn; lia.
Qed.

Lemma execute_bundle_secure bundle sid csv w :
  secure None (claims_own bundle csv) (execute_bundle_turns bundle sid None csv) w.
Proof.
  unfold execute_bundle_turns. apply secure_call; [apply _|intros w1 t w2 _ _|done].
  apply secure_try. apply (secure_mono _ (claims_own bundle csv));
    [|intros d [a|e] w' Hc; [done|cbn; by destruct (exn_cls e)]].
  unfold tempdir_turns. intros w3 Hw3 Hacc Hfr. exists (Some (w_draws w3)). split.
  - unfold make_tempdir. st_run. split; [|right; cbn; split_and!; [done|done|lia]].
    split_and!; [cbn; lia|done|]. intros dir Hn. split; [done|]. intros _. cbn. rewrite lookup_insert_ne; [done|].
    intros <-. apply Hn. by eexists.
  - unfold make_tempdir. st_run. cbn [fst snd prog_bind].
    apply (secure_mono _ (fun d r w => d = Some (w_draws w3) /\ claims (ran_from (mkdtemp (w_draws w3)) bundle csv) d r w)).
    + apply secure_owner, secure_cleanup; [|apply _|].
      * intros output files w4 w5. apply ran_from_grows.
      * apply bundle_body_secure; [cbn; by rewrite lookup_insert_eq|]. exact (new_dir_own w3 Hacc Hfr).
    + intros d [[[[] output] files]|e] w4 [-> Hr]; [|done|done]. by eexists.
Qed.
End Bundles.

(** ** The handler *)

(** An attestation service makes no directories. *)
Class AttestationAside `{Settings, Machine, IAttestationService} : Prop := {
  at_create_aside args :: Steps (touches None) (at_create_execution_attestation args);
  at_generate_aside u n p :: Steps (touches None) (at_generate_attestation u n p);
}.

Section Handler.
Context `{Env, Settings, CryptoLaws, Machine, Interpreter, AttestationLaws, !AttestationAside}.
Context (kms_attestation : option (json -> IO (bool * json))).

(** What an attested response stands for: a run of the request's bundle in [dir]. *)
Definition attests_run_in (dir : str) (request resp : dict) (w : world) : Prop :=
  exists session_id encrypted_data zip csv output files,
    dict_get "session_id" request = Some session_id
    /\ dict_get "encrypted_data" request = Some encrypted_data
    /\ decrypted_to encrypted_data session_id zip
    /\ dataset_of request session_id csv
    /\ ran_from dir zip csv output files w
    /\ attested_as request session_id zip csv output files resp w.

(** What it stands for, whatever the directory of the run. *)
Definition attests_run (request resp : dict) (w : world) : Prop :=
  forall att, dict_get "attestation" resp = Some att -> exists dir, attests_run_in dir request resp w.

Lemma attested_as_grows request sid zip csv output files resp w w' :
  attested_as request sid zip csv output files resp w -> w_trace w ⊆ w_trace w' ->
  attested_as request sid zip csv output files resp w'.
Proof.
  intros (Ho & Hf & Hm & Ha) Hsub. split_and!; [done..|]. intros att Hatt.
  destruct (Ha att Hatt) as (nonce & result & wa & wb & ? & ? & ? & Hw). exists nonce, result, wa, wb.
  split_and!; [done..|]. by etransitivity.
Qed.

Lemma attests_run_in_grows dir request resp w w' :
  attests_run_in dir request resp w -> w_trace w ⊆ w_trace w' -> attests_run_in dir request resp w'.
Proof.
  intros (sid & enc & zip & csv & output & files & ? & ? & ? & ? & Hran & ?) Hsub.
  exists sid, enc, zip, csv, output, files.
  split_and!; try done; [by eapply ran_from_grows|by eapply attested_as_grows].
Qed.

(** The run was in the thread's own directory. *)
Definition attests_own (request resp : dict) (d : option nat) (w : world) : Prop :=
  forall att, dict_get "attestation" resp = Some att ->
  exists n, d = Some n /\ attests_run_in (mkdtemp n) request resp w.

Lemma error_attests_own request msg d w : attests_own request (_error_response msg) d w.
Proof. by intros att. Qed.

Definition answers (Q : dict -> option nat -> world -> Prop) (d : option nat) (r : result exn dict) (w : world) : Prop :=
  match r with Ok resp => Q resp d w | Raise _ => True end.

#[local] Instance decrypt_aside encrypted sid key timing : Guards (touches None) (decrypt_turns encrypted sid key timing).
Proof. unfold decrypt_turns. apply _. Qed.
#[local] Instance attested_aside request sid zip csv output files timing :
  Guards (touches None) (attested_turns request sid zip csv output files timing).
Proof. unfold attested_turns. apply _. Qed.
#[local] Instance generate_keypair_aside request : Guards (touches None) (generate_keypair_turns request).
Proof. unfold generate_keypair_turns. apply _. Qed.
#[local] Instance get_attestation_aside request : Guards (touches None) (get_attestation_turns request).
Proof. unfold get_attestation_turns. apply _. Qed.
#[local] Instance proxy_aside request : Guards (touches None) (proxy_turns request).
Proof. unfold proxy_turns. apply _. Qed.

(** The attestation of a run, in three turns. *)
Lemma attested_turns_secure d request sid zip csv output files timing w :
  secure d (answers (fun resp _ w' => attested_as request sid zip csv output files resp w' /\ w_trace w ⊆ w_trace w'))
    (attested_turns request sid zip csv output files timing) w.
Proof.
  unfold attested_turns. apply secure_bind.
  apply (secure_mono _ (fun d' r w' => w' = w /\ match r with Ok n => nonce_of request n /\ d' = d | Raise _ => True end)).
  { unfold nonce_of. destruct (truthy (dict_get_or "atl_nonce" JNull request)) eqn:Ht; [|done].
    apply secure_local; [|done]. intros n Hn. split; [done|]. split; [|done]. split; [done|].
    destruct (dict_get_or "atl_nonce" JNull request) as [| | | |s| |]; try done. by exists s. }
  intros d' [nonce|e] w1 [-> Hn]; [|done]. destruct Hn as [Hn ->]. cbv zeta.
  apply secure_call; [apply _|intros w1 t0 w2 (_ & Hw1 & _) Ht0|done]. injection Ht0 as _ <-.
  apply secure_call; [intros w'; apply touches_none, at_create_aside|intros w3 [success result] w4 (_ & Hw3 & _) Ha|done].
  apply secure_call; [apply _|intros w5 t1 w6 (_ & Hw5 & _) Ht1|done]. injection Ht1 as _ <-.
  assert (w_trace w3 ⊆ w_trace w4) as Hw4.
  { destruct (steps (R := touches None) (m := at_create_execution_attestation
      (proof_args request sid zip csv output files nonce)) w3) as (_ & Hs & _). by rewrite Ha in Hs. }
  split; [|etransitivity; [exact Hw1|]; etransitivity; [exact Hw3|]; by etransitivity].
  destruct success; (split_and!; [done|exact (mapM_read_entry files)|done|]); [|done].
  intros att Hatt. injection Hatt as <-. by exists nonce, result, w3, w4.
Qed.

Lemma run_bundle_secure request session_id encrypted zip csv timing w :
  dict_get "session_id" request = Some session_id -> dict_get "encrypted_data" request = Some encrypted ->
  decrypted_to encrypted session_id zip -> dataset_of request session_id csv ->
  secure None (answers (attests_own request)) (run_bundle_turns request session_id zip csv timing) w.
Proof.
  intros Hsid Henc Hzip Hcsv. unfold run_bundle_turns. apply secure_call; [apply _|intros w1 t0 w2 _ _|done].
  apply secure_bind. eapply secure_mono; [apply execute_bundle_secure|].
  intros d [[[success output] files]|e] w3 Hran; [|done].
  apply secure_call; [apply _|intros w4 t1 w5 (_ & Hw4 & _) Ht|done]. injection Ht as _ <-.
  apply secure_call; [unfold cleanup_session; apply _|intros w6 gone w7 (_ & Hw6 & _) Hd|done].
  destruct success; [|apply error_attests_own].
  destruct Hran as (n & -> & Hran).
  assert (w_trace w7 = w_trace w6) as Hw7.
  { pose proof (keeps (f := w_trace) (m := km_delete_keypair session_id) w6) as Hk. unfold cleanup_session in Hd.
    by rewrite Hd in Hk. }
  eapply secure_mono; [apply secure_owner, attested_turns_secure|].
  intros d' [resp|e] w8 [-> Hr]; [|done]. destruct Hr as [Hresp Hsub].
  intros att Hatt. exists n. split; [done|]. exists session_id, encrypted, zip, csv, output, files. split_and!; try done.
  eapply ran_from_grows; [exact Hran|]. rewrite Hw7 in Hsub. etransitivity; [exact Hw4|]. by etransitivity.
Qed.

Lemma execute_secure request w : secure None (answers (attests_own request)) (execute_turns request) w.
Proof.
  unfold execute_turns. apply secure_try. eapply (secure_mono _ (answers (attests_own request)));
    [|intros d [a|e] w' Hr; [done|apply error_attests_own]].
  apply secure_local; [intros session_id Hsid%dict_index_ok|done].
  apply secure_local; [intros encrypted Henc%dict_index_ok|done]. cbv zeta.
  do 2 (apply secure_local; [intros _ _|done]). apply secure_bind.
  eapply secure_aside; [apply _|apply (decrypt_turns_ok encrypted session_id)| |done].
  intros [[success zip] timing] w1 Hzip _. cbn [fst snd] in Hzip.
  destruct success; cbn [negb]; [specialize (Hzip eq_refl)|].
  2: { apply secure_local; [intros msg _; apply error_attests_own|done]. }
  destruct (truthy (dict_get_or "encrypted_csv" JNull request)) eqn:Ht; [|by eapply run_bundle_secure].
  apply secure_bind. eapply secure_aside; [apply _|apply (decrypt_turns_ok _ session_id)| |done].
  intros [[success csv] timing'] w2 Hcsv _. cbn [fst snd] in Hcsv.
  destruct success; cbn [negb]; [specialize (Hcsv eq_refl); by eapply run_bundle_secure|].
  apply secure_local; [intros msg _; apply error_attests_own|done].
Qed.

(** The same for the text of a request. *)
Definition answer_attests (request_data : str) (resp : dict) (d : option nat) (w : world) : Prop :=
  forall request, _parse_request request_data = Ok (JObj request) ->
  dict_get "operation" request = Some (JStr "execute_script_rsa_hybrid") -> attests_own request resp d w.

Lemma handle_request_secure request_data w :
  secure None (answers (answer_attests request_data)) (handle_request_turns kms_attestation request_data) w.
Proof.
  assert (forall msg d w, answer_attests request_data (_error_response msg) d w) as He
    by (intros msg d w' request _ _; apply error_attests_own).
  unfold handle_request_turns. apply secure_try. eapply (secure_mono _ (answers (answer_attests request_data)));
    [|intros d [a|e] w' Hr; [done|apply He]].
  apply secure_local; [intros request Hp|done].
  destruct request as [| | | | | |request]; try done.
  destruct (validate_request request); [apply He|]. apply secure_local; [intros operation Hop%dict_index_ok|done].
  destruct (eq_str operation "execute_script_rsa_hybrid") eqn:Hexec.
  - apply eq_str_true in Hexec. subst operation. eapply secure_mono; [apply execute_secure|].
    intros d [resp|e] w' Hr; [|done]. intros request' Hp' _. rewrite Hp in Hp'. by injection Hp' as <-.
  - assert (Guards (touches None) (dispatch_turns kms_attestation request operation)) as Hg.
    { unfold dispatch_turns. rewrite Hexec. apply _. }
    eapply secure_aside; [exact Hg|exact (dispatch_finishes _ _ _)| |done].
    intros resp w' _ _ request' Hp' Hop'. rewrite Hp in Hp'. injection Hp' as <-. rewrite Hop in Hop'.
    injection Hop' as ->. done.
Qed.
End Handler.

(** ** All threads *)

Section System.
Context `{Env, Settings, CryptoLaws, Machine, Interpreter, AttestationLaws, !AttestationAside}.
Context (kms_attestation : option (json -> IO (bool * json))).

Lemma fresh_dirs_before w w' : w_draws w <= w_draws w' -> fresh_dirs w' -> fresh_dirs w.
Proof. intros Hd Hf n m Hn Hm. apply Hf; lia. Qed.

(** Every thread is secure, and no two have the same directory. *)
Record isolated (ds : list (option nat)) (s : system) : Prop := {
  iso_length : length ds = length (threads s);
  iso_secure i d th : ds !! i = Some d -> threads s !! i = Some th ->
    secure d (answers (answer_attests (th_request th))) (th_prog th) (process s);
  iso_drawn i n : ds !! i = Some (Some n) -> n < w_draws (process s);
  iso_apart i j n : ds !! i = Some (Some n) -> ds !! j = Some (Some n) -> i = j;
  iso_accounted : accounted (process s);
}.

Lemma answers_stable request_data d r w w' :
  answers (answer_attests request_data) d r w -> undisturbed d w w' -> answers (answer_attests request_data) d r w'.
Proof.
  destruct r as [resp|e]; [|done]. intros Hr (_ & Hsub & _) request Hp Hop att Hatt.
  destruct (Hr request Hp Hop att Hatt) as (n & -> & Hn). exists n. split; [done|]. by eapply attests_run_in_grows.
Qed.

(** A change of the world that nobody minds. *)
Lemma isolated_disturb ds s w :
  isolated ds s -> accounted w -> w_draws (process s) <= w_draws w ->
  (forall i d, ds !! i = Some d -> undisturbed d (process s) w) -> isolated ds (System (threads s) w).
Proof.
  intros [Hl Hs Hn Ha Hacc] Haw Hd Hu. split; cbn [threads process]; try done.
  - intros i d th Hdi Hth. eapply secure_wait; [apply answers_stable|by eapply Hs|by eapply Hu].
  - intros i n Hi. apply Hn in Hi. lia.
Qed.

Lemma accounted_turn d d' w w' :
  (forall n, d = Some n -> n < w_draws w) -> takes d d' w w' -> accounted w -> accounted w'.
Proof.
  intros Hd [(Hdr & _ & Ht) Hd'] Hacc dir Hh.
  assert ((exists n, d' = Some n /\ dir = mkdtemp n) \/ ~ mine d' dir) as [(n & -> & ->)|Hno].
  { destruct d' as [n|]; [|right; by intros (? & ? & _)].
    destruct (decide (dir = mkdtemp n)); [left; by exists n|right; by intros (? & [= <-] & ?)]. }
  - exists n. split; [|done]. destruct Hd' as [<-|(_ & [= ->] & ?)]; [|done]. specialize (Hd n eq_refl). lia.
  - destruct (Ht dir Hno) as [E _]. rewrite E in Hh. destruct (Hacc dir Hh) as (n & Hn & ->). exists n. split; [lia|done].
Qed.

(** Nobody's directory changes. *)
Lemma isolated_world ds s w :
  touches None (process s) w -> isolated ds s -> isolated ds (System (threads s) w).
Proof.
  intros Ht Hiso. pose proof Ht as (Hd & Hsub & Hw). apply isolated_disturb; [done| |done|].
  - apply (accounted_turn None None (process s)); [done|by split; [|left]|apply Hiso].
  - intros i d _. split_and!; [done|done|]. intros dir _. apply Hw. by intros (n & ? & _).
Qed.

(** Scripts change what has been handed over. *)
Lemma isolated_meddle ds s dir tree : isolated ds s -> isolated ds (System (threads s) (meddled dir tree (process s))).
Proof.
  intros Hiso. unfold meddled. destruct (handed_over dir (process s)) eqn:Hh; [|by destruct s].
  apply isolated_disturb; [done|exact (iso_accounted _ _ Hiso)|done|]. intros i d _. split_and!; [done|done|].
  intros dir' _. split; [done|]. intros Hh'. cbn. rewrite lookup_partial_alter_ne; [done|]. intros ->. congruence.
Qed.

Lemma isolated_arrive ds s text :
  isolated ds s -> isolated (ds ++ [None]) (happen kms_attestation (Arrive text) s).
Proof.
  intros [Hl Hs Hn Ha Hacc]. cbn [happen].
  assert (forall i n, (ds ++ [None]) !! i = Some (Some n) -> ds !! i = Some (Some n)) as Hold.
  { intros i n [Hi|(_ & Hi)]%lookup_app_Some; [done|]. by apply list_lookup_singleton_Some in Hi as [_ Hi]. }
  split; cbn [threads process].
  - rewrite !length_app, Hl. done.
  - intros i d th Hd Hth. apply lookup_app_Some in Hd as [Hd|(Hge & Hd)].
    + assert (i < length (threads s)) as Hi by (rewrite <-Hl; by eapply lookup_lt_Some).
      rewrite lookup_app_l in Hth by done. by eapply Hs.
    + rewrite lookup_app_r in Hth by lia. apply list_lookup_singleton_Some in Hd as [_ <-], Hth as [_ <-].
      apply handle_request_secure.
  - intros i n Hi%Hold. by eapply Hn.
  - intros i j n Hi%Hold Hj%Hold. by eapply Ha.
  - done.
Qed.

(** A turn of one thread leaves the others undisturbed. *)
Lemma turn_leaves_others ds s i j d d' dj w :
  isolated ds s -> fresh_dirs w -> ds !! i = Some d -> takes d d' (process s) w ->
  ds !! j = Some dj -> i <> j -> undisturbed dj (process s) w.
Proof.
  intros [Hl Hs Hn Ha _] Hf Hi [(Hd & Ht & Hw) Hd'] Hj Hij. split_and!; [done|done|].
  intros dir (n & -> & ->). apply Hw. intros (m & -> & E). pose proof (Hn j n Hj) as Hlt.
  destruct Hd' as [<-|(-> & [= ->] & Hm)].
  - pose proof (Hn i m Hi). apply Hf in E; [|lia|lia]. subst m. destruct Hij. by eapply Ha.
  - apply Hf in E; lia.
Qed.

Lemma isolated_turn ds s i :
  fresh_dirs (process (happen kms_attestation (TurnOf i) s)) -> isolated ds s ->
  exists ds', isolated ds' (happen kms_attestation (TurnOf i) s).
Proof.
  cbn [happen]. intros Hf Hiso. destruct (threads s !! i) as [th|] eqn:Hth; [|by exists ds].
  revert Hf. unfold thread_turn. destruct (th_prog th) as [r|next after] eqn:Hp; cbn [process]; intros Hf.
  { exists ds. rewrite list_insert_id by done. by destruct s. }
  pose proof Hiso as [Hl Hs Hn Ha Hacc].
  assert (is_Some (ds !! i)) as [d Hd] by (apply lookup_lt_is_Some; rewrite Hl; by eapply lookup_lt_Some).
  pose proof (Hs i d th Hd Hth) as Hsec. rewrite Hp in Hsec. destruct (Hsec (process s)) as (d' & Ht & Hnext); [done..|].
  assert (forall j dj, i <> j -> ds !! j = Some dj -> undisturbed dj (process s) (after (process s))) as Hothers
    by (intros j dj Hij Hj; exact (turn_leaves_others ds s i j d d' dj _ Hiso Hf Hd Ht Hj Hij)).
  assert (accounted (after (process s))) as Hacc'
    by (eapply accounted_turn; [|exact Ht|done]; intros n ->; by eapply Hn).
  destruct Ht as [(Hgrow & _ & _) Hd'].
  exists (<[i := d']> ds). split; cbn [threads process].
  - by rewrite !length_insert.
  - intros j dj thj [(-> & <- & _)|(Hij & Hj)]%list_lookup_insert_Some Hthj.
    + rewrite list_lookup_insert_eq in Hthj by (by eapply lookup_lt_Some). by injection Hthj as <-.
    + rewrite list_lookup_insert_ne in Hthj by done. eapply secure_wait; [apply answers_stable|by eapply Hs|by eapply Hothers].
  - intros j n [(-> & -> & _)|(Hij & Hj)]%list_lookup_insert_Some; [|apply Hn in Hj; lia].
    destruct Hd' as [<-|(_ & [= ->] & Hlt)]; [apply Hn in Hd; lia|done].
  - assert (forall j n, i <> j -> d' = Some n -> ds !! j = Some (Some n) -> False) as Hne.
    { intros j n Hij -> Hj. destruct Hd' as [<-|(_ & [= ->] & _)]; [destruct Hij; by eapply Ha|]. apply Hn in Hj. lia. }
    intros j k n [(-> & Ej & _)|(Hij & Hj)]%list_lookup_insert_Some [(-> & Ek & _)|(Hik & Hk)]%list_lookup_insert_Some;
      [done|by destruct (Hne k n)|by destruct (Hne j n)|by eapply Ha].
  - done.
Qed.

Lemma isolated_happen c ds s :
  fresh_dirs (process (happen kms_attestation c s)) -> isolated ds s ->
  exists ds', isolated ds' (happen kms_attestation c s).
Proof.
  intros Hf Hiso. destruct c as [text|i| |dir tree|].
  - eexists. by apply isolated_arrive.
  - by eapply isolated_turn.
  - exists ds. apply isolated_world; [|done]. exact (steps (R := touches None) (m := _purge_expired_sessions) (process s)).
  - exists ds. by apply isolated_meddle.
  - exists ds. by apply isolated_world.
Qed.

Lemma interleave_isolated schedule ds s :
  guarded s -> isolated ds s -> fresh_dirs (process (interleave kms_attestation schedule s)) ->
  exists ds', isolated ds' (interleave kms_attestation schedule s).
Proof.
  revert ds s. induction schedule as [|c schedule IH]; intros ds s Hg Hiso Hf; [by exists ds|].
  destruct (isolated_happen c ds s) as (ds' & Hiso'); [|done|].
  - eapply fresh_dirs_before; [|exact Hf]. apply (interleave_advances kms_attestation schedule), happen_guarded, Hg.
  - eapply IH; [by apply happen_guarded|exact Hiso'|exact Hf].
Qed.

Lemma schedule_isolated schedule :
  let s := interleave kms_attestation schedule idle_system in
  fresh_dirs (process s) -> exists ds, isolated ds s.
Proof.
  cbn zeta. intros Hf. apply (interleave_isolated schedule [] idle_system); [apply guarded_idle| |done].
  split; [done|by intros ? ? ? ?|by intros ? ? ?|by intros ? ? ? ?|by intros ?].
Qed.

Lemma isolated_answer ds s i th request resp :
  isolated ds s -> threads s !! i = Some th ->
  _parse_request (th_request th) = Ok (JObj request) ->
  dict_get "operation" request = Some (JStr "execute_script_rsa_hybrid") ->
  th_prog th = Done (Ok resp) ->
  exists d, ds !! i = Some d /\ attests_own request resp d (process s).
Proof.
  intros [Hl Hs _ _ _] Hth Hp Hop Hdone.
  assert (is_Some (ds !! i)) as [d Hd] by (apply lookup_lt_is_Some; rewrite Hl; by eapply lookup_lt_Some).
  pose proof (Hs i d th Hd Hth) as Hsec. rewrite Hdone in Hsec. exists d. split; [done|]. by apply Hsec.
Qed.

(** An answer of a thread. *)
Lemma done_attests_run schedule i th request resp :
  let s := interleave kms_attestation schedule idle_system in
  fresh_dirs (process s) ->
  threads s !! i = Some th ->
  _parse_request (th_request th) = Ok (JObj request) ->
  dict_get "operation" request = Some (JStr "execute_script_rsa_hybrid") ->
  th_prog th = Done (Ok resp) ->
  attests_run request resp (process s).
Proof.
  cbn zeta. intros Hf Hth Hp Hop Hdone. destruct (schedule_isolated schedule Hf) as (ds & Hiso).
  destruct (isolated_answer _ _ _ _ _ _ Hiso Hth Hp Hop Hdone) as (d & _ & Hd).
  intros att Hatt. destruct (Hd att Hatt) as (n & _ & Hn). by exists (mkdtemp n).
Qed.

(** The [i]-th thread has answered [request] with an attestation. *)
Definition attested_answer (s : system) (i : nat) (request resp : dict) : Prop :=
  exists th att, threads s !! i = Some th
    /\ _parse_request (th_request th) = Ok (JObj request)
    /\ dict_get "operation" request = Some (JStr "execute_script_rsa_hybrid")
    /\ th_prog th = Done (Ok resp) /\ dict_get "attestation" resp = Some att.

(** C12: executions that overlap do not mix.  In any schedule of any requests,
    with the processes of the scripts changing at any time what has been handed
    to the script user, if the names of the temporary directories did not
    repeat, every attested response stands for a run of its own request, in a
    directory of its own: the bundle and the dataset were decrypted from its
    payloads, the script was found and validated in that bundle with that
    dataset in place, and the interpreter was started on its path in that
    directory, the output and the files are those of this run, and the
    attestation was made for them; and no two attested responses come from the
    same directory.  What the directory holds from the change of ownership on is
    up to all processes of the script user. *)
Theorem overlapping_executions_isolated schedule :
  let s := interleave kms_attestation schedule idle_system in
  fresh_dirs (process s) ->
  exists dir_of : nat -> str,
    (forall i request resp, attested_answer s i request resp -> attests_run_in (dir_of i) request resp (process s))
    /\ (forall i j request request' resp resp', attested_answer s i request resp -> attested_answer s j request' resp' ->
         i <> j -> dir_of i <> dir_of j).
Proof.
  cbn zeta. intros Hf. destruct (schedule_isolated schedule Hf) as (ds & Hiso).
  set (s := interleave _ _ _) in *. exists (fun i => match ds !! i with Some (Some n) => mkdtemp n | _ => [] end).
  assert (forall i request resp, attested_answer s i request resp ->
    exists n, ds !! i = Some (Some n) /\ attests_run_in (mkdtemp n) request resp (process s)) as Hown.
  { intros i request resp (th & att & Hth & Hp & Hop & Hdone & Hatt).
    destruct (isolated_answer _ _ _ _ _ _ Hiso Hth Hp Hop Hdone) as (d & Hd & Hr).
    destruct (Hr att Hatt) as (n & -> & Hn). by exists n. }
  split.
  - intros i request resp (n & -> & Hn)%Hown. exact Hn.
  - intros i j request request' resp resp' (n & Hi & _)%Hown (m & Hj & _)%Hown Hij. rewrite Hi, Hj. intros E.
    apply Hf in E; [|by eapply iso_drawn..]. subst m. destruct Hij. by eapply iso_apart.
Qed.
End System.

#[export] Instance nitro_aside `{Env, Settings, Cbor, X509, Nsm, Machine} : @AttestationAside _ _ nitro_attestation.
Proof.
  assert (forall u n p, Steps (touches None) (generate_attestation u n p)) as Hg.
  { intros u n p. unfold generate_attestation, _generate_nsm_attestation, _nsm_ioctl, ioctl. apply _. }
  split; [|exact Hg]. intros args. cbn. unfold create_execution_attestation. apply _.
Qed.

(** ** The schedule of [Overlap] *)

#[local] Existing Instances ToyNsm.env default_settings ToyCrypto.keys ToyCrypto.ciphers ToyCrypto.laws
  ToyMachine.machine ToyInterpreter.interpreter ToyCbor.cbor_flat ToyX509.x509 ToyNsm.nsm.
#[local] Opaque interleave ToySchedule.s1 ToySchedule.s2.

(** The second of the two requests that overlap. *)
Module ToyAnswer.
Definition request : dict :=
  match _parse_request ToyRun.execute_request with Ok (JObj d) => d | _ => [] end.
End ToyAnswer.

Lemma toy_fresh_dirs : fresh_dirs (process ToySchedule.s2).
Proof. refine (names_NoDup mkdtemp (process ToySchedule.s2) _). apply (bool_decide_unpack _). vm_compute. exact I. Qed.

(** It has its answer, with an attestation. *)
Lemma toy_answer :
  exists th resp att, threads ToySchedule.s2 !! 2 = Some th /\ th_request th = ToyRun.execute_request
    /\ th_prog th = Done (Ok resp) /\ dict_get "attestation" resp = Some att.
Proof.
  assert ((th ← threads ToySchedule.s2 !! 2;
           match th_prog th with Done (Ok r) => Some (dict_has "attestation" r) | _ => None end) = Some true) as Hatt
    by (vm_compute; reflexivity).
  assert (th_request <$> (threads ToySchedule.s2 !! 2) = Some ToyRun.execute_request) as Hreq by (vm_compute; reflexivity).
  destruct (threads ToySchedule.s2 !! 2) as [th|] eqn:Hth; [|discriminate Hreq].
  cbn [mbind option_bind fmap option_fmap option_map] in *. injection Hreq as Hreq.
  destruct (th_prog th) as [[resp|e]|next after] eqn:Hp; [|discriminate Hatt|discriminate Hatt]. injection Hatt as Hatt.
  unfold dict_has in Hatt. destruct (dict_get "attestation" resp) as [att|] eqn:E; [|discriminate Hatt].
  exists th, resp, att. exact (conj eq_refl (conj Hreq (conj Hp E))).
Qed.

Lemma overlapping_executions_isolated_witness :
  exists dir resp, dict_has "attestation" resp = true /\ attests_run_in dir ToyAnswer.request resp (process ToySchedule.s2).
Proof.
  destruct toy_answer as (th & resp & att & Hth & Hreq & Hp & Hatt).
  pose proof (overlapping_executions_isolated None (ToySchedule.overlap ++ ToySchedule.late)) as Hb. cbn zeta in Hb.
  rewrite toy_s2 in Hb. destruct (Hb toy_fresh_dirs) as (dir_of & Hr & _). exists (dir_of 2), resp.
  split; [unfold dict_has; by rewrite Hatt|]. apply Hr. exists th, att.
  refine (conj Hth (conj _ (conj _ (conj Hp Hatt)))); [rewrite Hreq|]; vm_compute; reflexivity.
Defined.
