(* ===== verification/EndToEnd.v ===== *)
(** * The Nitro stack with requests that overlap

    The end-to-end theorem of [Factory] is about a request that is served alone.
    Here the same is shown for every request of every schedule, from what
    [Isolation] shows about the runs of bundles and [Attestation] about the
    device. *)
From stdpp Require Import base tactics list gmap strings.
From Stdlib Require Import NArith ZArith Lia.
From S2P Require Import Prelude PyText PyCodec Sha2 PyJson PyJsonParse World Config Crypto OutputFiles Interfaces Cbor LocalAttestation KeyPairManager DecryptService RequestHandler Programs Threads Attestation Bundle ExecuteService BundleTurns Factory Lifecycle Overlap Isolation.

Section Stack.
Context `{Env, Settings, CryptoLaws, Machine, Interpreter, Cbor, X509, Nsm}.
Context (kms_attestation : option (json -> IO (bool * json))).

(** C1: what a verifier learns from the attestation of an execution, whatever else
    the enclave is doing.  In any schedule of any requests, if the names of the
    temporary directories did not repeat, a response with an attestation carries
    a document the device made when it was asked once to sign a [user_data] that
    parses to the session, the hash of the code bundle and of the dataset that
    the request's own payloads decrypt to, the hash of the output and of the
    manifest of the files of this very response, and the nonce; and the script
    found in that bundle ran, with that dataset in place, to produce them. *)
Theorem overlapping_nitro_end_to_end schedule i th request resp att ctx :
  let s := interleave kms_attestation schedule idle_system in
  _nsm_available = true ->
  fresh_dirs (process s) ->
  threads s !! i = Some th ->
  _parse_request (th_request th) = Ok (JObj request) ->
  dict_get "operation" request = Some (JStr "execute_script_rsa_hybrid") ->
  dict_get_or "atl_context_hash" JNull request = ctx -> json_ok ctx = true ->
  th_prog th = Done (Ok resp) ->
  dict_get "attestation" resp = Some att ->
  exists sid encrypted zip csv output output_bytes files nonce user_data device_request ts result document,
    dict_get "session_id" request = Some sid /\ dict_get "encrypted_data" request = Some encrypted
    /\ decrypted_to encrypted sid zip /\ dataset_of request sid csv
    /\ dict_get "output" resp = Some (JStr output) /\ str_encode output = Ok output_bytes
    /\ read_files_field resp = Some files
    /\ (exists dir target content n, script_of zip None csv dir target content
          /\ (validate_script content).1 = true /\ ran [sys_executable; target] dir n output files (process s))
    /\ att = JObj result /\ dict_get "attestation" result = Some (JObj document)
    /\ (exists wa wb, presents document device_request wa wb /\ w_trace wb ⊆ w_trace (process s))
    /\ cbor_dumps (CMap [("Attestation", CMap [("user_data", CVal (VBytes user_data));
                                               ("nonce", CVal (VBytes nonce))])]) = Ok device_request
    /\ (exists supplied, nonce_of request supplied /\ (supplied <> None -> supplied <> Some [] -> supplied = Some nonce))
    /\ (json_ok sid = true -> int_ok ts = true -> exists d,
          (s ← bytes_decode user_data; json_loads s) = Ok (JObj d)
          /\ dict_get "job_id" d = Some (json_order sorted_style sid)
          /\ dict_get "script_hash" d = Some (JStr (hash_or_empty (Some zip)))
          /\ dict_get "dataset_hash" d = Some (JStr (hash_or_empty csv))
          /\ dict_get "output_hash" d = Some (JStr (sha256_hex output_bytes))
          /\ dict_get "files_manifest_sha256" d
             = Some (JStr (files_manifest_sha256 (build_files_manifest files)))
          /\ dict_get "context_hash" d = (if truthy ctx then Some (json_order sorted_style ctx) else None)
          /\ exists n, dict_get "nonce" d = Some (JStr n) /\ b64decode n = Ok nonce).
Proof.
  cbn zeta. intros Hnsm Hf Hth Hp Hop Hctx Hok Hdone Hatt.
  destruct (done_attests_run kms_attestation schedule i th request resp Hf Hth Hp Hop Hdone att Hatt)
    as (dir & sid & enc & zip & csv & output & files & Hsid & Henc & Hzip & Hcsv & Hran & Ho & Hfl & Hm & Ha).
  destruct (Ha att Hatt) as (supplied & result & wa & wb & Hsup & -> & Hat & Hsub).
  apply nitro_execution_ok in Hat as (outb & nonce & req & doc & proof & ud & Hob & Hnonce & Hud & Hreq & Hpr & Hdoc & _);
    [|done].
  exists sid, enc, zip, csv, output, outb, files, nonce, ud, req, (seconds (clock (w_ticks wa))), result, doc.
  split_and!; try done; [by exists dir|by exists wa, wb| |].
  - exists supplied. split; [done|]. by eapply signed_nonce.
  - intros Hj Hts. rewrite Hud. by apply execution_readback.
Qed.
End Stack.

(** ** The schedule of [Overlap] *)

#[local] Existing Instances ToyNsm.env default_settings ToyCrypto.keys ToyCrypto.ciphers ToyCrypto.laws
  ToyMachine.machine ToyInterpreter.interpreter ToyCbor.cbor_flat ToyX509.x509 ToyNsm.nsm.
#[local] Opaque interleave ToySchedule.s1 ToySchedule.s2.

Lemma overlapping_nitro_end_to_end_witness :
  exists document device_request wa wb user_data nonce, presents document device_request wa wb
    /\ w_trace wb ⊆ w_trace (process ToySchedule.s2)
    /\ cbor_dumps (CMap [("Attestation", CMap [("user_data", CVal (VBytes user_data));
                                               ("nonce", CVal (VBytes nonce))])]) = Ok device_request.
Proof.
  destruct toy_answer as (th & resp & att & Hth & Hreq & Hp & Hatt).
  pose proof (overlapping_nitro_end_to_end None (ToySchedule.overlap ++ ToySchedule.late) 2 th
    ToyAnswer.request resp att JNull) as Hb. cbn zeta in Hb. rewrite toy_s2 in Hb.
  destruct Hb as (sid & enc & zip & csv & output & outb & files & nonce & ud & req & ts & result & doc
    & _ & _ & _ & _ & _ & _ & _ & _ & _ & _ & (wa & wb & Hpr & Hsub) & Hreq' & _).
  - vm_compute. reflexivity.
  - exact toy_fresh_dirs.
  - exact Hth.
  - rewrite Hreq. vm_compute. reflexivity.
  - vm_compute. reflexivity.
  - vm_compute. reflexivity.
  - reflexivity.
  - exact Hp.
  - exact Hatt.
  - exists doc, req, wa, wb, ud, nonce. split; [exact Hpr|split; [exact Hsub|exact Hreq']].
Defined.
