(* ===== verification/Connections.v ===== *)
(** * server.py: connections that overlap

    Each accepted client has a thread that runs [_handle_client_safe] on a socket
    of its own.  The work on the socket is local to the thread; the turns it
    takes in the process are those of the handler.  [client_turns] is the thread
    as a program, and [converse] runs any schedule of clients.  Such a schedule is
    matched with one of [Overlap], so that what is shown there about requests
    holds for clients. *)
From stdpp Require Import base tactics list gmap strings.
From Stdlib Require Import NArith ZArith Lia.
From S2P Require Import Prelude PyText PyCodec Sha2 PyJson PyJsonParse World Config Crypto OutputFiles Interfaces Cbor LocalAttestation KeyPairManager DecryptService Server RawExchange RequestHandler TestClient Programs Threads Attestation Bundle ExecuteService BundleTurns Factory Lifecycle Overlap Isolation.

(** ** Work on a socket *)

(** A computation on the socket, with the process out of sight. *)
Definition socket_part {A} (m : SIO A) (s : sock) : result exn A * sock :=
  let '(r, st) := m (s, empty_world) in (r, st.1).

(** [m] neither reads nor changes the process. *)
Class SocketOnly {A} (m : SIO A) : Prop :=
  socket_only : forall s w, m (s, w) = ((socket_part m s).1, ((socket_part m s).2, w)).

Lemma socket_only_by {A} (m : SIO A) (f : sock -> result exn A * sock) :
  (forall s w, m (s, w) = ((f s).1, ((f s).2, w))) -> SocketOnly m.
Proof. intros Hf s w. unfold socket_part. by rewrite !Hf. Qed.

#[export] Hint Extern 5 (SocketOnly (match ?x with _ => _ end)) => destruct x : typeclass_instances.
#[export] Hint Extern 5 (SocketOnly (if ?x then _ else _)) => destruct x : typeclass_instances.

Section SocketOnly.
#[export] Instance only_ret {A} (a : A) : SocketOnly (mret a).
Proof. done. Qed.
#[export] Instance only_raise {A} (e : exn) : SocketOnly (mraise e : SIO A).
Proof. done. Qed.
#[export] Instance only_lift {A} (r : result exn A) : SocketOnly (st_lift r).
Proof. done. Qed.
#[export] Instance only_fst : SocketOnly (st_gets (fst : sock * world -> sock)).
Proof. done. Qed.

#[export] Instance only_bind {A B} (m : SIO A) (k : A -> SIO B) :
  SocketOnly m -> (forall a, SocketOnly (k a)) -> SocketOnly (m ≫= k).
Proof.
  intros Hm Hk. apply (socket_only_by _ (fun s => match socket_part m s with
    | (Ok a, s') => socket_part (k a) s'
    | (Raise e, s') => (Raise e, s')
    end)).
  intros s w. rewrite run_bind, Hm. destruct (socket_part m s) as [[a|e] s']; [apply Hk|done].
Qed.

#[export] Instance only_try {A} (m : SIO A) (h : exn -> SIO A) :
  SocketOnly m -> (forall e, SocketOnly (h e)) -> SocketOnly (st_try m h).
Proof.
  intros Hm Hh. apply (socket_only_by _ (fun s => match socket_part m s with
    | (Ok a, s') => (Ok a, s')
    | (Raise e, s') => socket_part (h e) s'
    end)).
  intros s w. rewrite run_try, Hm. destruct (socket_part m s) as [[a|e] s']; [done|apply Hh].
Qed.

#[export] Instance only_recv n : SocketOnly (recv n).
Proof.
  apply (socket_only_by _ (fun s => let '(r, l) := recv_from n (sk_in s) in (r, set_in l s))).
  intros s w. unfold recv. cbn [fst snd]. by destruct (recv_from n (sk_in s)).
Qed.
#[export] Instance only_sendall b : SocketOnly (sendall b).
Proof. intros s w. unfold socket_part, sendall. cbn [fst snd]. by destruct (head (sk_send_errors s)) as [[e|]|]. Qed.
#[export] Instance only_settimeout t : SocketOnly (settimeout t).
Proof. done. Qed.
#[export] Instance only_close : SocketOnly sock_close.
Proof. done. Qed.

Context `{Settings}.

#[export] Instance only_recv_exact_loop fuel n buf : SocketOnly (recv_exact_loop fuel n buf).
Proof. revert buf. induction fuel as [|fuel IH]; intros buf; cbn [recv_exact_loop]; apply _. Qed.
#[export] Instance only_recv_raw_loop fuel b : SocketOnly (recv_raw_loop fuel b).
Proof. revert b. induction fuel as [|fuel IH]; intros b; cbn [recv_raw_loop]; cbn zeta; apply _. Qed.
#[export] Instance only_recv_exact n : SocketOnly (_recv_exact n).
Proof. unfold _recv_exact. apply _. Qed.
#[export] Instance only_recv_raw_json b : SocketOnly (_recv_raw_json b).
Proof. unfold _recv_raw_json. apply _. Qed.
#[export] Instance only_send_framed response : SocketOnly (send_framed response).
Proof. unfold send_framed, catch_OSError. cbn zeta. apply _. Qed.
#[export] Instance only_send_response_raw response : SocketOnly (_send_response_raw response).
Proof. unfold _send_response_raw, catch_OSError. apply _. Qed.
#[export] Instance only_recv_request : SocketOnly _recv_request.
Proof. unfold _recv_request, _send_error. apply _. Qed.
End SocketOnly.

(** ** The thread of a client *)

Section Client.
Context `{Env, Settings, IDecryptService, ExecuteTurns, IKeyPairManager, IAttestationService}.
Context (kms_attestation : option (json -> IO (bool * json))).

(** The parts of [handle_client] before and after the request is handled. *)
Definition receive : SIO (option str * bool) := _ ← settimeout (CLIENT_RECV_TIMEOUT settings); _recv_request.

Definition respond (use_framing : bool) (response : dict) : SIO unit :=
  _ ← settimeout (CLIENT_SEND_TIMEOUT settings);
  if use_framing then _send_response response else _send_response_raw response.

(** The [finally] of [_handle_client_safe]. *)
Definition close_client : SIO unit := catch_OSError sock_close (fun _ => mret tt).

(** The request of a client, how it was framed, and the socket when it was read. *)
Definition request_of (s : sock) : option (str * bool * sock) :=
  match socket_part receive s with
  | (Ok (Some data, use_framing), s1) => Some (data, use_framing, s1)
  | _ => None
  end.

(** From the outcome of the handler to the end of the thread. *)
Definition finish_client (use_framing : bool) (s : sock) (handler : prog dict) : prog (result exn unit * sock) :=
  s' ← prog_try (response ← handler; mret (socket_part (respond use_framing response) s).2) (fun _ => mret s);
  mret (socket_part close_client s').

(** [_handle_client_safe]: how the thread ends, and its socket. *)
Definition client_turns (s : sock) : prog (result exn unit * sock) :=
  match request_of s with
  | Some (data, use_framing, s1) => finish_client use_framing s1 (handle_request_turns kms_attestation data)
  | None => mret (socket_part close_client (socket_part receive s).2)
  end.
End Client.

Section ClientAlone.
Context `{Env, Settings, IDecryptService, ExecuteTurnsLaws, IKeyPairManager, IAttestationService}.
Context (kms_attestation : option (json -> IO (bool * json))).

#[local] Instance client_handler : IRequestHandler := request_handler kms_attestation.

#[export] Instance only_respond framed response : SocketOnly (respond framed response).
Proof. unfold respond, _send_response. destruct framed; apply _. Qed.
#[export] Instance only_receive : SocketOnly receive.
Proof. unfold receive. apply _. Qed.
#[export] Instance only_close_client : SocketOnly close_client.
Proof. unfold close_client, catch_OSError. apply _. Qed.

Lemma handle_client_run s w :
  handle_client (s, w)
  = match request_of s with
    | Some (data, framed, s1) =>
        let '(r, w') := handle_request kms_attestation data w in
        match r with
        | Ok response => let '(o, s2) := socket_part (respond framed response) s1 in (o, (s2, w'))
        | Raise e => (Raise e, (s1, w'))
        end
    | None => (match (socket_part receive s).1 with Ok _ => Ok tt | Raise e => Raise e end, ((socket_part receive s).2, w))
    end.
Proof.
  assert (handle_client (s, w) = ('(data, framed) ← receive;
            match data with
            | None => mret tt
            | Some data => response ← in_process (handle_request kms_attestation data); respond framed response
            end) (s, w)) as ->.
  { unfold handle_client, receive, respond. rewrite !run_bind. by destruct (settimeout _ _) as [[[]|e] st]. }
  rewrite run_bind, socket_only. unfold request_of.
  destruct (socket_part receive s) as [[[[data|] framed]|e] s1]; cbn [fst snd]; [|done|done].
  rewrite run_bind. unfold in_process. cbn [fst snd]. destruct (handle_request kms_attestation data w) as [[r|e] w']; [|done].
  rewrite socket_only. by destruct (socket_part (respond framed r) s1).
Qed.

(** With no other thread in between, the program is [_handle_client_safe]. *)
Theorem client_alone s w :
  run_all (client_turns kms_attestation s) w
  = let '(r, (s', w')) := _handle_client_safe (s, w) in (Ok (r, s'), w').
Proof.
  assert (_handle_client_safe (s, w)
          = let '(_, (s1, w1)) := handle_client (s, w) in
            ((socket_part close_client s1).1, ((socket_part close_client s1).2, w1))) as ->.
  { unfold _handle_client_safe. rewrite run_finally, run_try.
    change (catch_OSError sock_close (fun _ => mret tt)) with close_client.
    destruct (handle_client (s, w)) as [[[]|e] [s1 w1]]; st_run; rewrite socket_only;
      by destruct (socket_part close_client s1) as [[[]|e'] s2]. }
  rewrite handle_client_run. unfold client_turns. destruct (request_of s) as [[[data framed] s1]|]; cycle 1.
  { cbn [run_all mret prog_mret]. by destruct (socket_part close_client (socket_part receive s).2). }
  unfold finish_client. rewrite run_prog_bind, run_prog_try, run_prog_bind.
  rewrite (cuts (p := handle_request_turns kms_attestation data)).
  destruct (handle_request kms_attestation data w) as [[r|e] w']; cbn.
  - destruct (socket_part (respond framed r) s1) as [o s2]; cbn. by destruct (socket_part close_client s2).
  - by destruct (socket_part close_client s1).
Qed.
End ClientAlone.

(** ** Schedules of clients *)

(** A client: its socket when it was accepted, and what its thread still has to do. *)
Record client : Type := Client {
  cl_sock : sock;
  cl_prog : prog (result exn unit * sock);
}.

Record server : Type := ServerState {
  clients : list client;
  shared : world;
}.

(** A client is accepted, the [i]-th client's thread has a turn, the cleanup
    thread makes a round, the scripts' processes change a directory of theirs, or
    time passes. *)
Inductive occurrence : Type :=
  | Accept (s : sock)
  | ClientTurn (i : nat)
  | CleanupTurn
  | Interference (dir : str) (tree : option node)
  | Pause.

Section Schedules.
Context `{Env, Settings, Ciphers, Machine, Interpreter, IAttestationService}.
Context (kms_attestation : option (json -> IO (bool * json))).

Definition client_turn (c : client) (w : world) : client * world :=
  match cl_prog c with
  | Done _ => (c, w)
  | Turn next after => (Client (cl_sock c) (next w), after w)
  end.

Definition occur (o : occurrence) (v : server) : server :=
  match o with
  | Accept s => ServerState (clients v ++ [Client s (client_turns kms_attestation s)]) (shared v)
  | ClientTurn i =>
      match clients v !! i with
      | Some c => let '(c', w) := client_turn c (shared v) in ServerState (<[i := c']> (clients v)) w
      | None => v
      end
  | CleanupTurn => ServerState (clients v) (_purge_expired_sessions (shared v)).2
  | Interference dir tree => ServerState (clients v) (meddled dir tree (shared v))
  | Pause => ServerState (clients v) (tick (shared v))
  end.

Definition converse (l : list occurrence) (v : server) : server := foldl (fun v o => occur o v) v l.

Definition no_clients : server := ServerState [] empty_world.

(** *** The requests of the clients

    A client without a request is matched with a thread that has nothing to do:
    that of an empty request. *)

Definition text_of (s : sock) : str :=
  match request_of s with Some (data, _, _) => data | None => [] end.

Definition as_choice (o : occurrence) : choice :=
  match o with
  | Accept s => Arrive (text_of s)
  | ClientTurn i => TurnOf i
  | CleanupTurn => Cleanup
  | Interference dir tree => Meddle dir tree
  | Pause => Wait
  end.

Definition matches (c : client) (th : thread) : Prop :=
  th_request th = text_of (cl_sock c)
  /\ match request_of (cl_sock c) with
     | Some (_, use_framing, s1) => cl_prog c = finish_client use_framing s1 (th_prog th)
     | None => exists r, th_prog th = Done r
                 /\ cl_prog c = mret (socket_part close_client (socket_part receive (cl_sock c)).2)
     end.

Definition served_by (v : server) (s : system) : Prop :=
  shared v = process s /\ Forall2 matches (clients v) (threads s).

Lemma matches_accept s : matches (Client s (client_turns kms_attestation s)) (arrive kms_attestation (text_of s)).
Proof.
  split; [done|]. cbn [cl_sock cl_prog th_prog arrive]. unfold client_turns, text_of.
  destruct (request_of s) as [[[data framed] s1]|]; [done|]. by eexists.
Qed.

Lemma matches_turn c th w :
  matches c th -> matches (client_turn c w).1 (thread_turn th w).1 /\ (client_turn c w).2 = (thread_turn th w).2.
Proof.
  intros [Ht Hm]. unfold client_turn, thread_turn, matches in *. destruct (request_of (cl_sock c)) as [[[data framed] s1]|] eqn:Hr.
  - rewrite Hm. destruct (th_prog th) as [[r|e]|next after] eqn:Hp; cbn; rewrite Hr, ?Hp; done.
  - destruct Hm as (r & Hp & Hc). rewrite Hp, Hc. cbn. rewrite Hr. split; [|done]. split; [done|]. by exists r.
Qed.

(** The server's clients are served as the requests of [Overlap] are. *)
Lemma occur_served o v s : served_by v s -> served_by (occur o v) (happen kms_attestation (as_choice o) s).
Proof.
  intros [Hw Hm]. destruct o as [sk|i| |dir tree|]; cbn [occur as_choice happen]; rewrite ?Hw.
  - split; [done|]. apply Forall2_app; [done|]. constructor; [apply matches_accept|done].
  - destruct (clients v !! i) as [c|] eqn:Hc.
    + destruct (Forall2_lookup_l _ _ _ _ _ Hm Hc) as (th & Hth & Hcm). rewrite Hth.
      destruct (matches_turn c th (process s) Hcm) as [Hcm' Hw'].
      destruct (client_turn c (process s)) as [c' w], (thread_turn th (process s)) as [th' w']. cbn in *. subst w'.
      split; [done|]. by apply Forall2_insert.
    + assert (threads s !! i = None) as -> by (pose proof (proj1 (Forall2_lookup _ _ _) Hm i) as Hi; rewrite Hc in Hi; by inversion Hi). by split.
  - by split.
  - by split.
  - by split.
Qed.

Lemma converse_served l v s :
  served_by v s -> served_by (converse l v) (interleave kms_attestation (map as_choice l) s).
Proof. revert v s. induction l as [|o l IH]; intros v s Hv; [done|]. apply IH, occur_served, Hv. Qed.

Lemma no_clients_served : served_by no_clients idle_system.
Proof. by split. Qed.

Lemma served_length v s : served_by v s -> length (clients v) = length (threads s).
Proof. intros [_ Hm]. by eapply Forall2_length. Qed.
End Schedules.

(** ** One client *)

Section OneClient.
Context `{Settings}.
Implicit Types s : sock.

(** A framed request is what the thread hands to the handler. *)
Lemma request_of_framed s payload text rest :
  (0 < Z.of_nat (length payload) <= MAX_REQUEST_SIZE settings)%Z ->
  (MAX_REQUEST_SIZE settings < 0x7B000000)%Z ->
  bytes_decode payload = Ok text ->
  prefix (sk_in s) = frame payload ++ rest ->
  exists s1, request_of s = Some (text, true, s1) /\ sk_out s1 = sk_out s /\ sk_send_errors s1 = sk_send_errors s.
Proof.
  intros Hlen Hmax Htext Hp. unfold request_of, socket_part, receive, settimeout. st_run.
  match goal with |- context [_recv_request ?st0] =>
    destruct (recv_request_framed st0 payload text rest Hlen Hmax Htext Hp) as (l' & E & _) end.
  rewrite E. by eexists.
Qed.

(** The response goes out with its length prefix. *)
Lemma respond_framed s response :
  sk_send_errors s = [] -> (N.of_nat (length (payload_of response)) <= uint32_max)%N ->
  sk_out (socket_part (respond true response) s).2 = frame (payload_of response) :: sk_out s.
Proof.
  intros Hs Hlen. unfold socket_part, respond, settimeout, _send_response. st_run.
  match goal with |- context [send_framed response ?st0] =>
    destruct (send_framed_run response st0) as (st' & E & Hout & _); [exact Hs|done|] end.
  by rewrite E.
Qed.

(** The thread ends with a closed socket. *)
Lemma close_client_closed s :
  sk_closed (socket_part close_client s).2 = true /\ sk_out (socket_part close_client s).2 = sk_out s.
Proof.
  unfold socket_part, close_client, catch_OSError, sock_close. st_run. cbn [fst snd].
  destruct (sk_close_error s) as [e|]; [|done]. by destruct (is_OSError e).
Qed.
End OneClient.

Section Served.
Context `{Env, Settings, CryptoLaws, Machine, Interpreter, AttestationLaws, !AttestationAside}.
Context (kms_attestation : option (json -> IO (bool * json))).

Definition turns_of_client (i : nat) (l : list occurrence) : nat :=
  length (List.filter (fun o => match o with ClientTurn j => (j =? i)%nat | _ => false end) l).

Lemma turns_of_as_choice i l : turns_of i (map as_choice l) = turns_of_client i l.
Proof.
  unfold turns_of, turns_of_client. induction l as [|o l IH]; [done|]. cbn [map List.filter].
  destruct o as [s|j| |dir tree|]; cbn [as_choice]; [done| |done|done|done]. destruct (j =? i)%nat; cbn [length]; congruence.
Qed.

(** A client keeps its place and its socket. *)
Lemma occur_keeps_sock o v i c :
  clients v !! i = Some c -> exists c', clients (occur kms_attestation o v) !! i = Some c' /\ cl_sock c' = cl_sock c.
Proof.
  intros Hc. destruct o as [sk|j| |dir tree|]; cbn [occur clients]; [exists c; split; [by apply lookup_app_l_Some|done]| |by exists c..].
  destruct (clients v !! j) as [cj|] eqn:Hj; [|by exists c].
  unfold client_turn. destruct (cl_prog cj) as [r|next after]; cbn [clients];
    [rewrite list_insert_id by done; by exists c|].
  destruct (decide (j = i)) as [->|Hne].
  - rewrite list_lookup_insert_eq by (by eapply lookup_lt_Some). rewrite Hc in Hj. injection Hj as <-. by eexists.
  - rewrite list_lookup_insert_ne by done. by exists c.
Qed.

Lemma converse_keeps_sock l v i c :
  clients v !! i = Some c -> exists c', clients (converse kms_attestation l v) !! i = Some c' /\ cl_sock c' = cl_sock c.
Proof.
  revert v c. induction l as [|o l IH]; intros v c Hc; [by exists c|].
  destruct (occur_keeps_sock o v i c Hc) as (c1 & Hc1 & <-). by apply IH.
Qed.

(** The thread of [Overlap] behind a client that had its turns. *)
Lemma client_answered l1 s l2 :
  let i := length (clients (converse kms_attestation l1 no_clients)) in
  let l := l1 ++ Accept s :: l2 in
  max_turns <= turns_of_client i l2 ->
  exists c th resp, clients (converse kms_attestation l no_clients) !! i = Some c
    /\ threads (interleave kms_attestation (map as_choice l) idle_system) !! i = Some th
    /\ cl_sock c = s /\ matches c th /\ th_request th = text_of s
    /\ th_prog th = Done (Ok resp) /\ good_response resp.
Proof.
  cbn zeta. intros Hn.
  pose proof (converse_served kms_attestation l1 _ _ no_clients_served) as Hv1.
  pose proof (converse_served kms_attestation (l1 ++ Accept s :: l2) _ _ no_clients_served) as [_ Hm].
  pose proof (served_length _ _ Hv1) as Hlen. set (i := length (clients _)) in *.
  rewrite map_app, interleave_app in *. cbn [map as_choice] in *.
  set (s1 := interleave kms_attestation (map as_choice l1) idle_system) in *.
  assert (threads (happen kms_attestation (Arrive (text_of s)) s1) !! i = Some (arrive kms_attestation (text_of s))) as Hth
    by (cbn [happen threads]; by rewrite Hlen, lookup_app_r, Nat.sub_diag).
  destruct (thread_finishes kms_attestation good_response (map as_choice l2) _ _ _ max_turns Hth)
    as (th & resp & Hth' & Hreq & Hdone & Hgood); [exact (handle_request_finishes _ _)|by rewrite turns_of_as_choice|].
  change (interleave kms_attestation (Arrive (text_of s) :: map as_choice l2) s1)
    with (interleave kms_attestation (map as_choice l2) (happen kms_attestation (Arrive (text_of s)) s1)) in *.
  destruct (Forall2_lookup_r _ _ _ _ _ Hm Hth') as (c & Hc & Hcm). exists c, th, resp.
  split_and!; try done.
  unfold converse in Hc. rewrite foldl_app in Hc. cbn [foldl] in Hc.
  destruct (converse_keeps_sock l2 (occur kms_attestation (Accept s) (converse kms_attestation l1 no_clients)) i
              (Client s (client_turns kms_attestation s))) as (c1 & Hc1 & Hs).
  { cbn [occur clients]. unfold i. by rewrite lookup_app_r, Nat.sub_diag. }
  unfold converse in Hc1. rewrite Hc1 in Hc. by injection Hc as ->.
Qed.

End Served.

(** ** Clients of the concrete stack

    A keypair is requested as raw JSON, and an execution with a length prefix
    while another client sends an empty message. *)

#[local] Existing Instances ToyNsm.env default_settings ToyCrypto.keys ToyCrypto.ciphers ToyCrypto.laws
  ToyMachine.machine ToyInterpreter.interpreter ToyCbor.cbor_flat ToyX509.x509 ToyNsm.nsm.

Module ToyClients.
Definition socket (data : bytes) : sock := Sock [Data (take 3 data); Data (drop 3 data)] [] [] 0 false None.

Definition before : list occurrence :=
  [Accept (socket (ascii_bytes ToyRun.keypair_request)); ClientTurn 0; ClientTurn 0].
Definition executing : sock := socket (frame (ascii_bytes ToyRun.execute_request)).
Definition after : list occurrence :=
  repeat (ClientTurn 1) 7 ++ [Accept (socket (frame [])); CleanupTurn; Interference "/tmp/run2" None;
                               Pause; ClientTurn 2] ++ repeat (ClientTurn 1) 22.

Definition served : server := converse None (before ++ Accept executing :: after) no_clients.
End ToyClients.

(** The execution that the test client asks for: it succeeds, and its timings,
    which are floats, come back with the rest. *)
Module ToyExchange.
Definition request : dict := ToyStack.request.
Definition served : result exn dict * world := handle_request None (object_text request) ToyRun.w1.
Definition response : dict := match served.1 with Ok d => d | Raise _ => [] end.
Definition timing : dict :=
  [("decrypt_zip_ms", JFloat (Dec 6 3)); ("script_execution_ms", JFloat (Dec 8 3));
   ("attestation_generation_ms", JFloat (Dec 8 3))].

Definition pieces (data : bytes) : sock := ToyClients.socket data.
End ToyExchange.

Lemma framed_exchange_witness :
  exists s', @handle_client default_settings (request_handler None)
      (ToyExchange.pieces (frame (ascii_bytes ToyRun.execute_request)), ToyRun.w1) = (Ok tt, (s', ToyExchange.served.2))
    /\ sk_out s' = [frame (payload_of ToyExchange.response)]
    /\ dict_get "timing" ToyExchange.response = Some (JObj ToyExchange.timing)
    /\ (t ← bytes_decode (drop 4 (frame (payload_of ToyExchange.response))); json_loads t) = Ok (JObj ToyExchange.response).
Proof.
  destruct (@framed_exchange default_settings (request_handler None)
    (ToyExchange.pieces (frame (ascii_bytes ToyRun.execute_request))) ToyRun.w1
    (ascii_bytes ToyRun.execute_request) ToyRun.execute_request [] ToyExchange.response ToyExchange.served.2)
    as (s' & E & _ & Hout & Hread).
  - vm_compute. split; [reflexivity|discriminate].
  - vm_compute. reflexivity.
  - vm_compute. reflexivity.
  - vm_compute. reflexivity.
  - reflexivity.
  - vm_compute. reflexivity.
  - vm_compute. discriminate.
  - exists s'. split; [exact E|]. split; [exact Hout|]. split; [vm_compute; reflexivity|].
    apply Hread. vm_compute. reflexivity.
Defined.

Lemma client_server_exchange_witness :
  exists cs' ss',
    send_request (Ok tt) ToyExchange.request (ToyExchange.pieces (object_bytes ToyExchange.response), empty_world)
      = (Ok (JObj ToyExchange.response), (cs', empty_world))
    /\ @handle_client default_settings (request_handler None)
         (ToyExchange.pieces (object_bytes ToyExchange.request), ToyRun.w1) = (Ok tt, (ss', ToyExchange.served.2))
    /\ dict_get "success" ToyExchange.response = Some (JBool true)
    /\ dict_get "timing" ToyExchange.response = Some (JObj ToyExchange.timing).
Proof.
  destruct (@client_server_exchange default_settings (request_handler None) ToyExchange.request ToyExchange.response
    (ToyExchange.pieces (object_bytes ToyExchange.request)) ToyRun.w1 ToyExchange.served.2
    (ToyExchange.pieces (object_bytes ToyExchange.response)) empty_world) as (cs' & ss' & E & _ & E' & _).
  - vm_compute. reflexivity.
  - apply Nat.ltb_lt. vm_compute. reflexivity.
  - apply Z.leb_le. vm_compute. reflexivity.
  - vm_compute. reflexivity.
  - reflexivity.
  - vm_compute. reflexivity.
  - vm_compute. reflexivity.
  - vm_compute. reflexivity.
  - vm_compute. exact I.
  - reflexivity.
  - reflexivity.
  - exists cs', ss'. split; [exact E|]. split; [exact E'|]. split; vm_compute; reflexivity.
Defined.

