(* ===== verification/Listener.v ===== *)
(** * server.start, tcp_server.py, main.py and main_tdx.py: the listening server

    The calls on the listening socket and what [accept] returns are parameters.
    [serve] runs the threads of the accepted clients one after the other, with
    rounds of the cleanup thread between them. *)
From stdpp Require Import base tactics list gmap sorting strings.
From Stdlib Require Import NArith ZArith Lia.
From S2P Require Import Prelude PyText PyCodec PyJson PyJsonParse World Config Crypto OutputFiles Interfaces Cbor LocalAttestation KeyPairManager DecryptService Server RequestHandler Attestation TdxAttestation Bundle ExecuteService Kms Factory Lifecycle.

(** ** The listening socket *)

(** A VSock address is a port, on any CID. *)
Inductive address : Type :=
  | VSock (port : Z)
  | Tcp (host : str) (port : Z).

Inductive socket_call : Type :=
  | NewSocket (a : address)           (* socket.socket(family of a, SOCK_STREAM) *)
  | SetReuseAddr
  | Bind (a : address)
  | Listen (backlog : Z).

Class Network : Type := {
  network_call : socket_call -> res unit;
  (** [sock.close()] on the listening socket. *)
  network_close : res unit;
}.

(** [EnclaveServer] and [TcpEnclaveServer]. *)
Inductive transport : Type :=
  | EnclaveServer
  | TcpEnclaveServer (host : str) (port : Z).

(** What the next [accept] does: a client, and what starting its thread does; an
    exception; a [KeyboardInterrupt]. *)
Inductive arrival : Type :=
  | Client (s : sock) (thread : res unit)
  | AcceptError (e : exn)
  | Interrupt.

Section Start.
Context `{Settings, Network}.

Definition _bind_listening_socket (t : transport) : res address :=
  match t with
  | EnclaveServer =>
      let a := VSock (VSOCK_PORT settings) in
      _ ← network_call (NewSocket a); _ ← network_call (Bind a); _ ← network_call (Listen 5);
      Ok a
  | TcpEnclaveServer host port =>
      let a := Tcp host port in
      _ ← network_call (NewSocket a); _ ← network_call SetReuseAddr;
      _ ← network_call (Bind a); _ ← network_call (Listen 5);
      Ok a
  end.

(** The clients whose threads were started, and whether the loop was
    interrupted; without an interrupt it goes on after the last arrival. *)
Fixpoint accept_loop (arrivals : list arrival) : list sock * bool :=
  match arrivals with
  | [] => ([], false)
  | Client s (Ok _) :: arrivals => let '(l, stopped) := accept_loop arrivals in (s :: l, stopped)
  | Client _ (Raise _) :: arrivals | AcceptError _ :: arrivals => accept_loop arrivals
  | Interrupt :: _ => ([], true)
  end.

(** [cleanup]: what becomes of the listening socket, if there is one. *)
Definition cleanup (socket : option address) : res unit :=
  match socket with
  | None => Ok tt
  | Some _ => match network_close with
              | Raise e => if is_OSError e then Ok tt else Raise e
              | Ok _ => Ok tt
              end
  end.

(** The state of the server when it returned, or waits for the next client. *)
Inductive server_state : Type :=
  | Returned (r : res unit)
  | Accepting (a : address).

Definition start (t : transport) (arrivals : list arrival) : list sock * server_state :=
  match _bind_listening_socket t with
  | Raise _ => ([], Returned (cleanup None))
  | Ok a => let '(threads, stopped) := accept_loop arrivals in
            (threads, if (stopped : bool) then Returned (cleanup (Some a)) else Accepting a)
  end.

(** The accepted clients, up to an interrupt. *)
Fixpoint accepted (arrivals : list arrival) : list sock :=
  match arrivals with
  | [] | Interrupt :: _ => []
  | Client s (Ok _) :: arrivals => s :: accepted arrivals
  | _ :: arrivals => accepted arrivals
  end.

(** No failed [accept] and no thread that would not start ends the loop. *)
Lemma accept_loop_spec arrivals :
  accept_loop arrivals
  = (accepted arrivals, existsb (fun a => match a with Interrupt => true | _ => false end) arrivals).
Proof.
  induction arrivals as [|[s [[]|e]|e|] arrivals IH]; cbn [accept_loop accepted existsb]; [done| |done..].
  by rewrite IH.
Qed.
End Start.

(** ** The programs *)

Section Programs.
Context `{Env, Settings, Ciphers, Machine, Interpreter, Cbor, X509, Nsm, TdQuote, KmsTool, Network}.

(** The constructors of the two servers. *)
Definition init_enclave_server (os_environ : gmap str str) (kms_attestation : option IKMSAttestationService)
    (backend : option str) : res (transport * IRequestHandler) :=
  request_handler ← create_enclave_services os_environ kms_attestation backend;
  Ok (EnclaveServer, request_handler).

Definition init_tcp_server (os_environ : gmap str str) (host : str) (port : Z)
    (kms_attestation : option IKMSAttestationService) (backend : option str) : res (transport * IRequestHandler) :=
  '(_, request_handler) ← init_enclave_server os_environ kms_attestation backend;
  Ok (TcpEnclaveServer host port, request_handler).

(** [main.main], after the imports: the handler of the server that was started. *)
Definition main (os_environ : gmap str str) (arrivals : list arrival)
    : IO (IRequestHandler * (list sock * server_state)) :=
  _ ← st_lift TDQUOTE_TIMEOUT_SECONDS;
  _ ← (if path_exists "/dev/nsm" then
         _ ← emit (EvChown "/dev/nsm" 0 0); emit (EvChmod "/dev/nsm" 384)
       else mret tt);
  '(server, handler) ← st_lift (init_enclave_server os_environ (create_kms_attestation os_environ) None);
  mret (handler, start server arrivals).

Definition TDX_AGENT_HOST (os_environ : gmap str str) : str := getenv os_environ "TDX_AGENT_HOST" "127.0.0.1".
Definition TDX_AGENT_PORT (os_environ : gmap str str) : res Z :=
  int_of_str (getenv os_environ "TDX_AGENT_PORT" "5005").

(** [main_tdx.main], after the imports. *)
Definition main_tdx (os_environ : gmap str str) (arrivals : list arrival)
    : res (IRequestHandler * (list sock * server_state)) :=
  _ ← TDQUOTE_TIMEOUT_SECONDS;
  port ← TDX_AGENT_PORT os_environ;
  '(server, handler) ← init_tcp_server os_environ (TDX_AGENT_HOST os_environ) port None (Some TDX_BACKEND);
  Ok (handler, start server arrivals).

(** An unknown backend stops the program before it listens. *)
Lemma main_unknown_backend os_environ arrivals w :
  (forall service, create_attestation_service os_environ None <> Ok service) ->
  exists e w', main os_environ arrivals w = (Raise e, w').
Proof.
  intros Hno. unfold main, init_enclave_server, create_enclave_services.
  destruct (create_attestation_service os_environ None) as [service|e] eqn:E; [by destruct (Hno service)|].
  destruct TDQUOTE_TIMEOUT_SECONDS; [|st_run; eauto].
  destruct (path_exists "/dev/nsm"); unfold emit; st_run; cbn; st_run; eauto.
Qed.
End Programs.

(** ** Serving *)

(** Whose turn it is: a client's thread, to its end, or the cleanup thread. *)
Inductive turn : Type :=
  | ServeClient (s : sock)
  | CleanupRound.

Section Serve.
Context `{Env, Settings, CryptoLaws, Machine, Interpreter, AttestationLaws}.
Context (kms_attestation : option (json -> IO (bool * json))).

#[local] Instance server_handler : IRequestHandler := request_handler kms_attestation.

(** The sockets after their threads ended, and the process. *)
Fixpoint serve (turns : list turn) (w : world) : list sock * world :=
  match turns with
  | [] => ([], w)
  | ServeClient s :: turns =>
      let st := (_handle_client_safe (s, w)).2 in
      let '(l, w') := serve turns st.2 in (st.1 :: l, w')
  | CleanupRound :: turns => serve turns (_purge_expired_sessions w).2
  end.

Lemma serve_run turns w : exists ls, enclave_run kms_attestation w ls (serve turns w).2.
Proof.
  revert w. induction turns as [|[s|] turns IH]; intros w; cbn [serve].
  - exists []. constructor.
  - pose proof (client_one_request (s, w)) as Hone. destruct (_handle_client_safe (s, w)).2 as [s' w1].
    destruct (IH w1) as (ls & Hrun). cbn [fst snd] in *.
    destruct (serve turns w1) as [l w2]. cbn [snd] in *.
    destruct Hone as [->|(text & ->)]; [by exists ls|].
    eexists. eapply run_cons; [exact (step_request kms_attestation text w)|exact Hrun].
  - destruct (IH (_purge_expired_sessions w).2) as (ls & Hrun). eexists.
    eapply run_cons; [exact (step_cleanup kms_attestation w)|exact Hrun].
Qed.

(** C5: the server keeps the promise of the session machine.  Whatever clients
    connect and send, in whatever order, with the cleanup thread between them,
    there is one session of its own for each script that was started, and its key
    is destroyed; a client that only repeats what was sent before starts
    nothing. *)
Theorem server_runs_sessions_once turns :
  let w := (serve turns empty_world).2 in
  fresh_ids w ->
  exists sids, NoDup sids /\ scripts w = length sids
    /\ Forall (fun sid => phase_of sid w = Past) sids.
Proof.
  cbn zeta. intros Hf. destruct (serve_run turns empty_world) as (ls & Hrun).
  exists (omap id ls). exact (run_once kms_attestation ls _ Hrun Hf).
Qed.
End Serve.

(** ** Three clients and the cleanup thread *)

#[local] Existing Instances ToyNsm.env default_settings ToyCrypto.keys ToyCrypto.ciphers ToyCrypto.laws
  ToyMachine.machine ToyInterpreter.interpreter ToyCbor.cbor_flat ToyX509.x509 ToyNsm.nsm.

Module ToyServer.
(** A client that sends a request as raw JSON. *)
Definition client (request_data : str) : sock := Sock [Data (ascii_bytes request_data)] [] [] 0 false None.

Definition turns : list turn :=
  [ServeClient (client ToyRun.keypair_request); ServeClient (client ToyRun.execute_request); CleanupRound;
   ServeClient (client ToyRun.execute_request)].

Definition served : list sock * world := serve None turns empty_world.
End ToyServer.

Lemma toy_served_scripts : scripts ToyServer.served.2 = 1.
Proof. vm_compute. reflexivity. Qed.

Lemma server_runs_sessions_once_witness :
  exists sid, phase_of sid ToyServer.served.2 = Past.
Proof.
  destruct (server_runs_sessions_once None ToyServer.turns) as (sids & _ & Hn & Hp).
  - apply fresh_ids_NoDup. apply (bool_decide_eq_true (NoDup (drawn_ids ToyServer.served.2))). vm_compute.
    reflexivity.
  - change (serve None ToyServer.turns empty_world) with ToyServer.served in *. rewrite toy_served_scripts in Hn.
    destruct sids as [|sid sids]; [discriminate|]. exists sid. by apply Forall_cons in Hp as [Hp _].
Defined.
